(* ===== verification/_CoqProject ===== *)
-Q . S2P
Prelude.v
Uart.v
Ring.v
Ipc.v
Ramfs.v
Pmm.v
Heap.v
Vmm.v
Tick.v
Sched.v
Sync.v
Afs.v
AfsSpec.v
Fp.v
Learn.v
Cmt.v
AiDebug.v
Ai.v
Device.v
Proc.v
Syscall.v
Net.v
Sdk.v
Smp.v
Loader.v
Shell.v
Vring.v
Virtio.v
Vnet.v
Log.v
AfsMount.v
Boot.v
Tui.v
X86.v
Kernel.v
Tasks.v
Stages.v
User.v
Demo.v
