(* ===== verification/Prelude.v ===== *)
(** * AEOS kernel: verification development

    AEOS is a small operating system kernel in C with an AI control loop.  This
    library models the C kernel (src/kernel, src/boot/aarch64, the x86_64 port in
    src/boot/x86_64), its firmware (src/boot/bios) and the C library of its SDK
    (src/sdk/bindings), and proves what makes each part correct.  Paths
    below are relative to src/.

    ** The program and its parts

    The firmware ([Boot]) loads the kernel from the disk, or the boot loader
    ([Loader]) finds it and the device tree in memory and hands over.  The boot
    code brings up memory ([Pmm], [Heap], [Vmm]), the interrupt controller, the
    timer and the tick registry ([Tick]).  A timer interrupt
    runs every subscribed function: the scheduler's accounting ([Sched]) and the
    AI engine ([Ai]), which composes a fixed-point network ([Fp]), a Q-learner
    ([Learn]), a second network ([Cmt]) and a self-debugger ([AiDebug]).  Tasks
    yield to one another, guard shared data with [Sync] and exchange messages
    through [Ipc].  Processes ([Proc]) are tasks with an address space of their
    own; they enter the kernel through the system call gate ([Syscall]), which
    reaches the RAM files ([Ramfs]), the message queues, the devices ([Device])
    and the process table.  Files persist through a block file system ([Afs]),
    which reaches the disk through virtio rings ([Vring], [Virtio]) and is mounted
    again at every boot ([AfsMount]); packets go through a network stack ([Net])
    and its driver ([Vnet]), secondary cores take jobs from a queue ([Smp]), the
    user types at a shell ([Shell]) or watches a dashboard ([Tui]), and everything
    prints on the serial console ([Uart]) or into the log ([Log]).  The kernel's
    own main function takes over from the loader and brings up memory ([Kernel]),
    starts the services and the tasks ([Stages]), and runs its demonstrations
    ([Tasks], [Demo]); programs call it through the wrappers of [User].

    ** Files

    - [Prelude]: machine integers ([u8] to [u64], [i32]), the state, error and
      output monad [M] with its weakest-precondition calculus ([wp]) and tactics,
      bounded array access, byte memory.
    - [Uart]: boot/aarch64/uart.c as byte streams and ([Registers]) at its
      registers.  [Ring]: the contents of a
      ring buffer, shared by its users.
    - [Ipc]: kernel/ipc.c; refines a table of bounded FIFO queues.
    - [Ramfs]: kernel/ramfs.c; refines a finite map from names to contents.
    - [Pmm]: boot/aarch64/pmm.c on its byte bitmap; refines a set of frames.
    - [Heap]: boot/aarch64/heap.c and ([X86mm]) boot/x86_64/mm.c.
    - [Vmm]: boot/aarch64/vmm.c, page tables as words of memory.
    - [Tick]: boot/aarch64/timer.c, gic.c and the IRQ side of irq.c.
    - [Sched]: kernel/sched.c and the register exchange of switch.S, over the
      interface [AddrSpaces].
    - [Sync]: kernel/sync.c under all interleavings of its atomic operations.
    - [Afs], [AfsSpec]: kernel/afs.c over the interface [BlockDevice]; the file
      system as a map from names to contents, and a RAM disk that meets the
      interface.
    - [Fp], [Learn], [Cmt], [AiDebug], [Ai]: kernel/fp.h, ai_learn.c, cmt_core.c,
      cmt_api.c, ai_debug.c, ai_core.c, ai_api.c.
    - [Device], [Proc], [Syscall]: kernel/device.c, proc.c (which discharges
      [AddrSpaces] with [Vmm]), syscall.c and the fault handlers of irq.c.
    - [Net]: kernel/net.c over the interface [Nic].
    - [Sdk]: sdk/bindings/src/aeos_kernel.c, with its own copy of the network.
    - [Smp]: boot/aarch64/smp.c, psci.c and smp_entry.S; cores interleave one
      memory access at a time, with exclusive monitors for [ldaxr]/[stxr].
    - [Loader]: boot/aarch64/loader.c on byte-accurate device-tree blobs, with a
      reference flattening of trees.
    - [Shell]: kernel/shell.c, from keys to files.
    - [Vring], [Virtio], [Vnet]: boot/aarch64/virtio.c and vnet.c over the class
      [VirtioDev]: a device is its registers and its steps on memory.
    - [Log]: kernel/log.c, with a reference rendering of formats.
    - [AfsMount]: [afs_mount] on what an earlier boot left on the disk.
    - [Boot]: boot/bios/bios_main.c and the storage stage of
      boot/aarch64/kernel.c, over the class [PoweredDevice].
    - [Tui]: kernel/tui.c, with a terminal that interprets its escape sequences.
    - [X86]: the port of boot/x86_64: [Com1] (uart.c), [Vga] (vgacon.c), [Irq]
      (irq.c and the stubs of irqs.S), [Ring3] (TSS and system call gate of
      kernel_x86.c, stubs.c).
    - [Kernel]: kernel_main of boot/aarch64/kernel.c from its entry to the end of
      the memory tests, and utils.c; composes [Loader], [Pmm], [Vmm], [Heap].
    - [Tasks]: the producer and the consumer of kernel.c, statement by statement,
      over [Sync].
    - [Stages]: stages 3 and 5 of kernel_main and the system tasks, over the
      kernel state of [Syscall].
    - [User]: the wrappers of kernel/syscall.h, over [syscall_dispatch].
    - [Demo]: the busy wait and the parallel jobs of kernel.c.

    ** How code becomes definitions

    A C function is a definition of the same name.  Its file's static variables
    are the fields of a [Record]; a function that changes them or prints is a
    computation in [M], whose result is [Ok], [UB] (undefined behaviour: an
    access outside an array, a signed overflow) or [NoFuel].  Loops are
    structural recursions, by the loop's own bound where it has one.  Unsigned
    arithmetic wraps where C's does.  What lies outside the sources, or is a
    device, is a class with laws ([BlockDevice], [PoweredDevice], [Nic],
    [VirtioDev], [AddrSpaces]) or an argument (the firmware's answer, the linker's addresses, the driver
    functions of [Device]).

    ** What the theorems show

    - Refinement: [ipc_run_refines], [ramfs_refines], [pmm_refines].
    - Memory: heap blocks are disjoint and aligned; the kernel map translates
      exactly its ranges; a user space sees its block and nothing of others;
      destroying a space returns exactly its frames.
    - Scheduling: a yield switches to the next ready task with its registers and
      address space; every ready task runs again within [MAX_TASKS] yields; exit
      never returns; the watchdog flags exactly the tasks it watches.
    - Boot: the memory stage ends with the identity map on and every frame it
      took given back ([memory_stage_works]); the services and the tasks come up
      from any memory ([services_come_up]); the console is the one the loader found
      ([entry_adopts_console]).
    - Concurrency: mutual exclusion, termination of [mutex_lock] and conservation
      of the semaphore in all interleavings; the job queue loses and repeats
      nothing on any number of cores; the producer and the consumer finish under
      every fair schedule, with the items in order ([producer_consumer_finish],
      [consumer_in_order]).
    - Files: a write stores its data under its name and keeps all other files,
      what is written is read back, a delete removes one file.
      After a power cycle the volume is mounted with the same files
      ([afs_survives_reboot]); an installed kernel is what the firmware enters
      ([install_then_boot]); the boot counter counts ([boot_counter_persists]).
    - Drivers: a request is laid out in the rings as the device reads it, and with
      a conforming device the block driver is a disk ([vblk_is_disk]).
    - Boot loader: no blob makes the device-tree parser read outside it, and it
      finds the memory that a flattened tree declares.
    - Screens: a progress bar is drawn where and as long as it should be, the
      dashboard gives the terminal back as it was, the VGA text screen shows the
      last rows of what was printed.
    - Log: the formatter renders as its reference does, the ring keeps the newest
      messages.
    - Processes and calls: a spawned process runs its image in a private window;
      a wait reaps it and returns its frames; bad pointers and numbers leave the
      kernel unchanged; a message crosses two address spaces unchanged; a wrapper
      of the user's side is the kernel function it names ([wrappers_transparent]).
    - Network: the checksum is the Internet checksum, ARP requests are answered.
    - AI: no run of the control loop has undefined behaviour, and its outputs
      stay in range; the SDK's network decides as the kernel's does.
    - Defects that the proofs exposed are theorems too ([afs_read_overruns],
      [ramfs_unpadded_never_found], [zombie_shadows_successor],
      [ip_checksum_swapped], [ping_address_reversed], [network_never_boosts],
      [debugger_gives_up], [cmt_never_focused], [cores_start_out_of_bounds],
      [registration_lost], [cat_overruns], [descriptors_run_out],
      [legacy_used_misplaced], [dtb_at_ram_start_rejected],
      [vnet_descriptors_unseen], [log_line_garbled], [log_dump_undefined],
      [format_overcounts], [long_counter_undefined], [dashboard_kills_shell],
      [shrinking_number_garbled], [timer_interrupt_loses_rax],
      [com1_drops_returns], [tss_base_below_16mb], [int80_print],
      [null_bootinfo_undefined], [invalid_bootinfo_moves_console],
      [console_unmapped]).

    ** Bounds and fuel

    Fuel appears where a C loop waits: [mutex_lock] ends with a round per release
    it waits for ([mutex_lock_acquires]), [popcnt] with one per set bit
    ([popcnt_counts]), the checksum's folding within three rounds ([cksum_internet]),
    the walk over a device tree with one round per token, the drivers' polling
    with the number of spins the code allows ([SPIN_LIMIT], [TX_SPINS]), the
    reclaiming of used entries within the 2^16 values of the index, [spin_ms] with
    a round per tick ([spin_ms_waits]), the wait for the parallel jobs with its 300
    rounds ([smp_stage_returns]).
    Everything else recurses on the bound that the loop itself has.

    ** Not modelled

    Of kernel_main, the demonstration window, the processes ping and pong (assembly
    programs that the build embeds) with their reaper, the ping and the final
    report; the endless worker tasks; x86_kernel_main, which calls the portable
    initialisers in order; the boot assembly.  Caches, barriers and TLB maintenance have
    no counterpart in the state;
    cores are sequentially consistent.  The Rust crates and the Python packages
    are separate programs. *)

From stdpp Require Export base gmap list strings.
From Stdlib Require Export ZArith Lia.
From Stdlib Require Ascii String.

#[export] Set Default Goal Selector "!".
Global Open Scope Z_scope.

(** ** Machine integers

    A [w]-bit unsigned integer is a [Z] in [[0, 2^w)]; every C expression of
    unsigned type is wrapped with the function of its width.  A signed integer
    is a [Z] in [[-2^(w-1), 2^(w-1))]; [i32] and [i16] are the conversions to
    the signed types (two's complement, as gcc defines them). *)

Definition u8 (x : Z) : Z := x mod 2 ^ 8.
Definition u16 (x : Z) : Z := x mod 2 ^ 16.
Definition u32 (x : Z) : Z := x mod 2 ^ 32.
Definition u64 (x : Z) : Z := x mod 2 ^ 64.

Definition sgn (w x : Z) : Z :=
  let y := x mod 2 ^ w in if y <? 2 ^ (w - 1) then y else y - 2 ^ w.

Definition i16 (x : Z) : Z := sgn 16 x.
Definition i32 (x : Z) : Z := sgn 32 x.

Definition INT32_MIN : Z := - 2 ^ 31.
Definition INT32_MAX : Z := 2 ^ 31 - 1.

(** [lia] after the division equations of the goal have been spelled out. *)
Ltac zlia := intros; Z.to_euclidean_division_equations; lia.

(** Case analysis on the boolean comparisons of the goal and the context. *)
Ltac bool_hyps :=
  repeat match goal with
  | H : (_ && _) = true |- _ => apply andb_true_iff in H; destruct H
  | H : (_ || _) = false |- _ => apply orb_false_iff in H; destruct H
  | H : (_ && _) = false |- _ => apply andb_false_iff in H
  | H : (_ || _) = true |- _ => apply orb_true_iff in H
  | H : negb _ = true |- _ => apply negb_true_iff in H
  | H : negb _ = false |- _ => apply negb_false_iff in H
  | H : (_ <? _) = true |- _ => apply Z.ltb_lt in H
  | H : (_ <? _) = false |- _ => apply Z.ltb_ge in H
  | H : (_ <=? _) = true |- _ => apply Z.leb_le in H
  | H : (_ <=? _) = false |- _ => apply Z.leb_gt in H
  | H : (_ =? _) = true |- _ => apply Z.eqb_eq in H
  | H : (_ =? _) = false |- _ => apply Z.eqb_neq in H
  | H : (_ >? _) = _ |- _ => rewrite Z.gtb_ltb in H
  | H : (_ >=? _) = _ |- _ => rewrite Z.geb_leb in H
  end.

(** Split every [if] and [match] of the goal and read off the comparisons. *)
Ltac split_ifs := repeat (case_match; simplify_eq/=); bool_hyps.

Section WidthLemmas.
Lemma u8_range x : 0 <= u8 x < 2 ^ 8. Proof. unfold u8. zlia. Qed.
Lemma u16_range x : 0 <= u16 x < 2 ^ 16. Proof. unfold u16. zlia. Qed.
Lemma u32_range x : 0 <= u32 x < 2 ^ 32. Proof. unfold u32. zlia. Qed.
Lemma u64_range x : 0 <= u64 x < 2 ^ 64. Proof. unfold u64. zlia. Qed.

Lemma u8_small x : 0 <= x < 2 ^ 8 -> u8 x = x.
Proof. unfold u8. apply Z.mod_small. Qed.
Lemma u16_small x : 0 <= x < 2 ^ 16 -> u16 x = x.
Proof. unfold u16. apply Z.mod_small. Qed.
Lemma u32_small x : 0 <= x < 2 ^ 32 -> u32 x = x.
Proof. unfold u32. apply Z.mod_small. Qed.
Lemma u64_small x : 0 <= x < 2 ^ 64 -> u64 x = x.
Proof. unfold u64. apply Z.mod_small. Qed.

Lemma i32_small x : - 2 ^ 31 <= x < 2 ^ 31 -> i32 x = x.
Proof. unfold i32, sgn. case_match; bool_hyps; zlia. Qed.
Lemma i32_range x : - 2 ^ 31 <= i32 x < 2 ^ 31.
Proof. unfold i32, sgn. case_match; bool_hyps; zlia. Qed.
Lemma i16_small x : - 2 ^ 15 <= x < 2 ^ 15 -> i16 x = x.
Proof. unfold i16, sgn. case_match; bool_hyps; zlia. Qed.
Lemma i16_range x : - 2 ^ 15 <= i16 x < 2 ^ 15.
Proof. unfold i16, sgn. case_match; bool_hyps; zlia. Qed.

(** Bit operations that are arithmetic. *)
Lemma lor_low a b k : 0 <= k -> a mod 2 ^ k = 0 -> 0 <= b < 2 ^ k -> Z.lor a b = a + b.
Proof.
  intros Hk Ha Hb. assert (Hz : Z.land a b = 0).
  { apply Z.bits_inj'. intros i Hi. rewrite Z.land_spec, Z.bits_0.
    destruct (decide (i < k)).
    - apply Z.mod_divide in Ha as [c ->]; [|lia]. by rewrite Z.mul_pow2_bits_low.
    - replace b with (b mod 2 ^ k) by (by apply Z.mod_small).
      rewrite Z.mod_pow2_bits_high by lia. apply andb_false_r. }
  by rewrite Z.add_nocarry_lxor, Z.lxor_lor.
Qed.

Lemma land_low a k : 0 <= k -> Z.land a (2 ^ k - 1) = a mod 2 ^ k.
Proof. intros. rewrite <- Z.land_ones by lia. f_equal. rewrite Z.ones_equiv. lia. Qed.

(** A test of one bit. *)
Lemma land_bit v k : 0 <= k -> (Z.land v (2 ^ k) =? 0) = negb (Z.testbit v k).
Proof.
  intros Hk. destruct (Z.testbit v k) eqn:E; cbn [negb].
  - apply Z.eqb_neq. intros H. apply (f_equal (fun x => Z.testbit x k)) in H.
    rewrite Z.land_spec, E, Z.pow2_bits_true, Z.bits_0 in H by lia. done.
  - apply Z.eqb_eq, Z.bits_inj'. intros i Hi. rewrite Z.land_spec, Z.bits_0.
    destruct (decide (i = k)) as [->|]; [by rewrite E|]. by rewrite Z.pow2_bits_false, andb_false_r by lia.
Qed.
End WidthLemmas.

Create Rewrite HintDb width.
#[export] Hint Rewrite u8_small u16_small u32_small u64_small i32_small i16_small
  using lia : width.
(** Drop the wrap-around of every operation that provably does not wrap. *)
Ltac unwrap := autorewrite with width in *.

(** ** Results and effects

    [UB] is what C leaves undefined (an access outside an array, a division by
    zero); [NoFuel] is reached only when the bound given to a loop of the model
    is too small. *)

Inductive res (A : Type) : Type :=
| Ok (a : A)
| UB
| NoFuel.
Arguments Ok {A} a.
Arguments UB {A}.
Arguments NoFuel {A}.

(** A computation over the state [S] that also writes bytes to the console. *)
Definition M (S A : Type) : Type := S -> res (A * S * list Z).

Section Monad.
Context {S : Type}.

Definition ret {A} (a : A) : M S A := fun s => Ok (a, s, []).
Definition bind {A B} (m : M S A) (f : A -> M S B) : M S B := fun s =>
  match m s with
  | Ok (a, s1, o1) =>
      match f a s1 with
      | Ok (b, s2, o2) => Ok (b, s2, o1 ++ o2)
      | UB => UB
      | NoFuel => NoFuel
      end
  | UB => UB
  | NoFuel => NoFuel
  end.
Definition get : M S S := fun s => Ok (s, s, []).
Definition put (s' : S) : M S unit := fun _ => Ok (tt, s', []).
Definition modify (f : S -> S) : M S unit := fun s => Ok (tt, f s, []).
Definition ub {A} : M S A := fun _ => UB.
(** Bytes that reach the console. *)
Definition out (o : list Z) : M S unit := fun s => Ok (tt, s, o).
Definition of_opt {A} (o : option A) : M S A :=
  match o with Some a => ret a | None => ub end.

(** [wp m Q s]: from [s], [m] runs to completion with no undefined behaviour
    and ends with a value, a state and an output that satisfy [Q]. *)
Definition wp {A} (m : M S A) (Q : A -> S -> list Z -> Prop) (s : S) : Prop :=
  match m s with Ok (a, s', o) => Q a s' o | _ => False end.
End Monad.

Declare Scope aeos_scope.
Delimit Scope aeos_scope with aeos.
Notation "'let*' x ':=' m 'in' k" := (bind m (fun x => k))
  (at level 10, x pattern, m at level 100, k at level 200,
   format "'[v' 'let*'  x  ':='  m  'in' '/' k ']'") : aeos_scope.
Notation "m ;;; k" := (bind m (fun _ => k))
  (at level 110, k at level 200, right associativity,
   format "'[v' m  ;;; '/' k ']'") : aeos_scope.
Global Open Scope aeos_scope.

(** Run a computation of a component inside a larger state. *)
Definition zoom {K S A} (view : K -> S) (upd : S -> K -> K) (m : M S A) : M K A :=
  fun k => match m (view k) with
           | Ok (a, s, o) => Ok (a, upd s k, o)
           | UB => UB
           | NoFuel => NoFuel
           end.

Section WpRules.
Context {S : Type}.
Implicit Types s : S.

Lemma wp_ret {A} (a : A) Q s : Q a s [] -> wp (ret a) Q s.
Proof. done. Qed.
Lemma wp_get Q s : Q s s [] -> wp get Q s.
Proof. done. Qed.
Lemma wp_put s' Q s : Q tt s' [] -> wp (put s') Q s.
Proof. done. Qed.
Lemma wp_modify f Q s : Q tt (f s) [] -> wp (modify f) Q s.
Proof. done. Qed.
Lemma wp_out o Q s : Q tt s o -> wp (out o) Q s.
Proof. done. Qed.
Lemma wp_of_opt {A} (x : option A) a Q s :
  x = Some a -> Q a s [] -> wp (of_opt x) Q s.
Proof. by intros ->. Qed.

Lemma wp_bind {A B} (m : M S A) (f : A -> M S B) Q s :
  wp m (fun a s1 o1 => wp (f a) (fun b s2 o2 => Q b s2 (o1 ++ o2)) s1) s ->
  wp (bind m f) Q s.
Proof.
  unfold wp, bind. destruct (m s) as [[[a s1] o1]| |]; [|done..].
  by destruct (f a s1) as [[[b s2] o2]| |].
Qed.

Lemma wp_mono {A} (m : M S A) (Q Q' : A -> S -> list Z -> Prop) s :
  wp m Q s -> (forall a s' o, Q a s' o -> Q' a s' o) -> wp m Q' s.
Proof. unfold wp. destruct (m s) as [[[a s1] o1]| |]; eauto. Qed.

Lemma wp_run {A} (m : M S A) Q s :
  wp m Q s -> exists a s' o, m s = Ok (a, s', o) /\ Q a s' o.
Proof. unfold wp. destruct (m s) as [[[a s1] o1]| |]; naive_solver. Qed.

Lemma wp_intro {A} (m : M S A) (Q : A -> S -> list Z -> Prop) s a s' o :
  m s = Ok (a, s', o) -> Q a s' o -> wp m Q s.
Proof. unfold wp. by intros ->. Qed.
End WpRules.

(** Running a computation step by step. *)
Lemma bind_ok {S A B} (m : M S A) (f : A -> M S B) s a s1 :
  m s = Ok (a, s1, []) -> bind m f s = f a s1.
Proof. unfold bind. intros ->. by destruct (f a s1) as [[[b s2] o2]| |]. Qed.
Lemma bind_modify {S B} (f : S -> S) (k : unit -> M S B) s : bind (modify f) k s = k tt (f s).
Proof. by apply bind_ok. Qed.
Lemma bind_get {S B} (k : S -> M S B) s : bind get k s = k s s.
Proof. by apply bind_ok. Qed.

Lemma bind_run {S A B} (m : M S A) (f : A -> M S B) s a s1 o1 b s2 o2 :
  m s = Ok (a, s1, o1) -> f a s1 = Ok (b, s2, o2) -> bind m f s = Ok (b, s2, o1 ++ o2).
Proof. unfold bind. by intros -> ->. Qed.

Lemma bind_some {S A B} (a : A) (f : A -> M S B) s : bind (of_opt (Some a)) f s = f a s.
Proof. by apply bind_ok. Qed.

Lemma bind_ext {S A B} (m : M S A) (f g : A -> M S B) s :
  (forall a s1 o, m s = Ok (a, s1, o) -> f a s1 = g a s1) -> bind m f s = bind m g s.
Proof. unfold bind. destruct (m s) as [[[a s1] o]| |]; [|done..]. intros H. by rewrite (H a s1 o). Qed.

(** Partial correctness: if [m] returns from a state in [P], then in [Q].  A
    predicate that [m] [keeps] is an invariant of it. *)
Definition triple {S A} (P : S -> Prop) (m : M S A) (Q : A -> S -> Prop) : Prop :=
  forall s a s' o, P s -> m s = Ok (a, s', o) -> Q a s'.
Notation keeps I m := (triple I m (fun _ => I)).

Section Triples.
Context {S : Type}.
Implicit Types P : S -> Prop.

Lemma triple_bind {A B} P (m : M S A) (f : A -> M S B) Q R :
  triple P m Q -> (forall a, triple (Q a) (f a) R) -> triple P (bind m f) R.
Proof.
  intros Hm Hf s b s' o HP. unfold bind. destruct (m s) as [[[a s1] o1]| |] eqn:E; [|done..].
  destruct (f a s1) as [[[b2 s2] o2]| |] eqn:E2; [|done..]. intros [= <- <- <-]. exact (Hf a _ _ _ _ (Hm _ _ _ _ HP E) E2).
Qed.
Lemma triple_seq {A B} P (m : M S A) (k : A -> M S B) R : keeps P m -> (forall a, triple P (k a) R) -> triple P (bind m k) R.
Proof. apply triple_bind. Qed.
Lemma triple_get {B} P (f : S -> M S B) R : (forall s0, P s0 -> triple P (f s0) R) -> triple P (bind get f) R.
Proof. intros Hf s b s' o HP E. rewrite (bind_ok get f s s s) in E by done. exact (Hf s HP _ _ _ _ HP E). Qed.
Lemma triple_ret {A} P (a : A) Q : (forall s, P s -> Q a s) -> triple P (ret a) Q.
Proof. intros HQ s a' s' o HP [= <- <- <-]. by apply HQ. Qed.
Lemma triple_modify P f (Q : unit -> S -> Prop) : (forall s, P s -> Q tt (f s)) -> triple P (modify f) Q.
Proof. intros HQ s a' s' o HP [= <- <- <-]. by apply HQ. Qed.
Lemma triple_pure {A} P (C : Prop) (m : M S A) Q : (C -> triple P m Q) -> triple (fun s => P s /\ C) m Q.
Proof. intros H s a s' o [HP HC]. by apply H. Qed.
Lemma triple_ub {A} P Q : triple P (@ub S A) Q.
Proof. intros s a s' o _ E. done. Qed.
Lemma keeps_out P o : keeps P (out o).
Proof. intros s a s' o' HP [= <- <- <-]. done. Qed.
Lemma keeps_of_opt {A} P (x : option A) : keeps P (of_opt x).
Proof. destruct x; [by apply triple_ret|apply triple_ub]. Qed.
Lemma triple_zoom {K A} (P : K -> Prop) (v : K -> S) u (m : M S A) Q :
  (forall k a s' o, P k -> m (v k) = Ok (a, s', o) -> Q a (u s' k)) -> triple P (zoom v u m) Q.
Proof. intros H k a k' o HP. unfold zoom. destruct (m (v k)) as [[[a' s'] o']| |] eqn:E; [|done..]. intros [= <- <- <-]. eauto. Qed.
End Triples.

Lemma zoom_ok {K S A} (v : K -> S) (u : S -> K -> K) (m : M S A) k a s o :
  m (v k) = Ok (a, s, o) -> zoom v u m k = Ok (a, u s k, o).
Proof. unfold zoom. by intros ->. Qed.

Lemma wp_zoom {K S A} (v : K -> S) (u : S -> K -> K) (m : M S A) Q k :
  wp m (fun a s o => Q a (u s k) o) (v k) -> wp (zoom v u m) Q k.
Proof. unfold wp, zoom. by destruct (m (v k)) as [[[a s1] o1]| |]. Qed.

(** One step of symbolic execution of a [wp] goal. *)
Ltac wp_step :=
  lazymatch goal with
  | |- wp (bind _ _) _ _ => apply wp_bind
  | |- wp (ret _) _ _ => apply wp_ret
  | |- wp get _ _ => apply wp_get
  | |- wp (put _) _ _ => apply wp_put
  | |- wp (modify _) _ _ => apply wp_modify
  | |- wp (out _) _ _ => apply wp_out
  | |- wp (if ?b then _ else _) _ _ => let E := fresh "E" in destruct b eqn:E
  end.

(** ** Arrays

    C arrays are lists; an access outside the list is [None], which the
    operations turn into [UB]. *)

Definition aget {A} (l : list A) (i : Z) : option A :=
  if (0 <=? i) then l !! Z.to_nat i else None.
Definition aset {A} (l : list A) (i : Z) (x : A) : option (list A) :=
  if (0 <=? i) && (i <? Z.of_nat (length l))
  then Some (<[Z.to_nat i := x]> l) else None.

Section Arrays.
Context {A : Type}.
Implicit Types l : list A.

Lemma aget_Some l i x :
  aget l i = Some x <-> 0 <= i /\ l !! Z.to_nat i = Some x.
Proof. unfold aget. case_match; bool_hyps; naive_solver lia. Qed.

Lemma aget_lt l i x : aget l i = Some x -> 0 <= i < Z.of_nat (length l).
Proof. rewrite aget_Some. intros [? H%lookup_lt_Some]. lia. Qed.

Lemma aget_in l i : 0 <= i < Z.of_nat (length l) -> exists x, aget l i = Some x.
Proof.
  intros H. destruct (lookup_lt_is_Some_2 l (Z.to_nat i)) as [x Hx]; [lia|].
  exists x. apply aget_Some. split; [lia|done].
Qed.

Lemma aset_in l i x :
  0 <= i < Z.of_nat (length l) -> aset l i x = Some (<[Z.to_nat i := x]> l).
Proof. intros. unfold aset. case_match; [done|]. bool_hyps. naive_solver lia. Qed.

Lemma aget_insert l i x :
  0 <= i < Z.of_nat (length l) -> aget (<[Z.to_nat i := x]> l) i = Some x.
Proof. intros. apply aget_Some. split; [lia|]. apply list_lookup_insert_eq. lia. Qed.

Lemma aget_insert_ne l i j x :
  i <> j -> 0 <= i -> aget (<[Z.to_nat i := x]> l) j = aget l j.
Proof.
  intros. unfold aget. case_match; [|done]. bool_hyps.
  apply list_lookup_insert_ne. lia.
Qed.
End Arrays.

(** Looking up in an updated array. *)
Lemma list_insert_cases {A} (l : list A) k x i y :
  <[k := x]> l !! i = Some y -> (i = k /\ y = x) \/ (i <> k /\ l !! i = Some y).
Proof.
  intros H. destruct (decide (i = k)) as [->|Hne].
  - left. split; [done|]. pose proof (lookup_lt_Some _ _ _ H) as Hl.
    rewrite length_insert in Hl. rewrite list_lookup_insert_eq in H by done. congruence.
  - right. by rewrite list_lookup_insert_ne in H by done.
Qed.

(** Counting the elements that satisfy a decidable property, across an update. *)
Section Counting.
Context {A : Type} (P : A -> Prop) `{!forall x, Decision (P x)}.

Lemma filter_insert_length (l : list A) i x y :
  l !! i = Some y ->
  (length (filter P (<[i := x]> l)) + (if decide (P y) then 1 else 0) =
   length (filter P l) + (if decide (P x) then 1 else 0))%nat.
Proof.
  intros Hy. pose proof (lookup_lt_Some _ _ _ Hy).
  rewrite insert_take_drop by done. rewrite <- (take_drop_middle l i y Hy) at 3.
  rewrite !filter_app, !filter_cons, !length_app.
  repeat case_decide; simpl; lia.
Qed.

Lemma filter_length_all (l : list A) :
  length (filter P l) = length l -> forall x, x ∈ l -> P x.
Proof.
  induction l as [|y l IH]; [set_solver|]. rewrite filter_cons.
  pose proof (length_filter P l). case_decide; simpl; [|lia].
  intros [= Hl] x [->|Hx]%elem_of_cons; eauto.
Qed.
End Counting.

(** Symbolic execution, with the array accesses whose bounds [lia] can check
    or whose result is already known. *)
Ltac wp_array :=
  lazymatch goal with
  | |- wp (of_opt (aget _ _)) _ _ => eapply wp_of_opt; [eassumption|]
  | |- wp (of_opt (aset _ _ _)) _ _ => eapply wp_of_opt; [apply aset_in; lia|]
  | |- wp (of_opt (Some _)) _ _ => eapply wp_of_opt; [reflexivity|]
  end.
Ltac wp_go := repeat ((wp_step || wp_array); cbn beta iota).

(** ** Bytes, C strings and memory *)

(** The characters of a string literal, without its terminating NUL. *)
Definition bytes (s : string) : list Z :=
  map (fun c => Z.of_nat (Ascii.nat_of_ascii c)) (String.list_ascii_of_string s).

(** What a [const char *] gives access to: the bytes from the pointer on. *)
Definition view : Type := nat -> Z.

(** The literal [l]: its bytes, its NUL, and then whatever follows in memory. *)
Definition literal (l : list Z) (rest : view) : view := fun i =>
  if (i <? length l)%nat then nth i l 0
  else if (i =? length l)%nat then 0 else rest (i - length l - 1)%nat.

(** The first [n] characters of the string at [v + i], up to its NUL. *)
Fixpoint str_take (v : view) (i n : nat) : list Z :=
  match n with
  | O => []
  | S n' => if v i =? 0 then [] else v i :: str_take v (S i) n'
  end.

(** The string a [char] array holds: its bytes before the first NUL. *)
Fixpoint cstr (l : list Z) : list Z :=
  match l with
  | [] => []
  | c :: l' => if c =? 0 then [] else c :: cstr l'
  end.

(** [for (i = 0; name[i] && i < n; i++) dst[i] = name[i]; dst[i] = 0;] *)
Definition copy_name (n : nat) (name : view) (dst : list Z) : list Z :=
  let s := str_take name 0 n in s ++ 0 :: drop (S (length s)) dst.

(** Byte-addressed memory. *)
Definition mem : Type := Z -> Z.
Definition mem_read (m : mem) (a : Z) (n : nat) : list Z :=
  map (fun i => m (a + Z.of_nat i)) (seq 0 n).
Definition mem_write (m : mem) (a : Z) (l : list Z) : mem := fun x =>
  if (a <=? x) && (x <? a + Z.of_nat (length l))
  then nth (Z.to_nat (x - a)) l 0 else m x.
Definition ptr_view (m : mem) (a : Z) : view := fun i => m (a + Z.of_nat i).

(** Little-endian bytes of a word, and back. *)
Fixpoint le_bytes (n : nat) (x : Z) : list Z :=
  match n with
  | O => []
  | S n' => x mod 256 :: le_bytes n' (x / 256)
  end.
Fixpoint le_word (l : list Z) : Z :=
  match l with
  | [] => 0
  | b :: l' => b + 256 * le_word l'
  end.

Section StringLemmas.
Lemma str_take_length v i n : (length (str_take v i n) <= n)%nat.
Proof.
  revert i. induction n as [|n IH]; intros i; simpl; [lia|].
  case_match; simpl; [lia|]. specialize (IH (S i)). lia.
Qed.

Lemma str_take_nz v i n : Forall (fun c => c <> 0) (str_take v i n).
Proof.
  revert i. induction n as [|n IH]; intros i; simpl; [done|].
  case_match; [done|]. bool_hyps. by constructor.
Qed.

Lemma cstr_app_nz l l' :
  Forall (fun c => c <> 0) l -> cstr (l ++ 0 :: l') = l.
Proof.
  induction 1 as [|c l Hc _ IH]; simpl; [done|].
  case_match; bool_hyps; [lia|]. by rewrite IH.
Qed.

Lemma copy_name_cstr n name dst :
  cstr (copy_name n name dst) = str_take name 0 n.
Proof. apply cstr_app_nz, str_take_nz. Qed.

Lemma copy_name_length n name dst :
  (n < length dst)%nat -> length (copy_name n name dst) = length dst.
Proof.
  intros. unfold copy_name. pose proof (str_take_length name 0 n).
  rewrite length_app. simpl. rewrite length_drop. lia.
Qed.

Lemma mem_write_in m a l x :
  a <= x < a + Z.of_nat (length l) ->
  mem_write m a l x = nth (Z.to_nat (x - a)) l 0.
Proof. intros. unfold mem_write. case_match; [done|]. bool_hyps. naive_solver lia. Qed.

Lemma mem_write_out m a l x :
  ~ (a <= x < a + Z.of_nat (length l)) -> mem_write m a l x = m x.
Proof. intros. unfold mem_write. case_match; [|done]. bool_hyps. naive_solver lia. Qed.

Lemma mem_read_length m a n : length (mem_read m a n) = n.
Proof. unfold mem_read. by rewrite length_map, length_seq. Qed.

Lemma mem_read_ext m1 m2 a n :
  (forall x, a <= x < a + Z.of_nat n -> m1 x = m2 x) -> mem_read m1 a n = mem_read m2 a n.
Proof. intros H. unfold mem_read. apply map_ext_in. intros i Hi%in_seq. apply H. lia. Qed.

Lemma mem_read_write m a l : mem_read (mem_write m a l) a (length l) = l.
Proof.
  apply list_eq. intros i. unfold mem_read. rewrite list_lookup_fmap.
  destruct (decide (i < length l)%nat) as [Hi|Hi].
  - rewrite lookup_seq_lt by done. simpl. rewrite mem_write_in by lia.
    replace (Z.to_nat (a + Z.of_nat i - a)) with i by lia.
    destruct (lookup_lt_is_Some_2 l i Hi) as [x Hx].
    rewrite Hx. f_equal. by apply nth_lookup_Some.
  - rewrite lookup_seq_ge by lia. simpl. symmetry. apply lookup_ge_None. lia.
Qed.

Lemma le_bytes_length n x : length (le_bytes n x) = n.
Proof. revert x. induction n; intros; simpl; auto. Qed.

Lemma le_word_bytes n x :
  0 <= x < 256 ^ Z.of_nat n -> le_word (le_bytes n x) = x.
Proof.
  revert x. induction n as [|n IH]; intros x Hx; simpl.
  - change (256 ^ Z.of_nat 0) with 1 in Hx. lia.
  - rewrite IH.
    + zlia.
    + rewrite Nat2Z.inj_succ, Z.pow_succ_r in Hx by lia.
      split; [zlia|]. apply Z.div_lt_upper_bound; lia.
Qed.
End StringLemmas.

#[export] Hint Resolve str_take_length mem_read_length le_bytes_length : core.
