(* ===== verification/Uart.v ===== *)
(** * The serial console (boot/aarch64/uart.c)

    What the console functions put on the wire, as the list of bytes written to
    the data register.  [Pl011] is the driver that the rest of the development
    prints through; [Registers] is its register level: where the device is, how it
    is set up, and that a byte is sent once there is room for it. *)

From S2P Require Import Prelude.

Definition CR : Z := 13.
Definition LF : Z := 10.
Definition digit0 : Z := 48.

Module Pl011.

Definition uart_putc (c : Z) : list Z :=
if c =? CR then []
else if c =? LF then [CR; c]
else [c].

(** [s] is the string's characters, its NUL left out. *)
Definition uart_puts_nolf (s : list Z) : list Z := flat_map uart_putc s.

Definition uart_puts (s : list Z) : list Z := uart_puts_nolf s ++ uart_putc LF.

(** [while (v > 0) { buf[--i] = '0' + v % 10; v /= 10; }]: [buf] is the part of
  the array already filled, [room] the cells below it that are still free. *)
Fixpoint dec_loop (room : nat) (v : Z) (buf : list Z) : option (list Z) :=
if v >? 0 then
  match room with
  | O => None
  | S room' => dec_loop room' (v / 10) (digit0 + v mod 10 :: buf)
  end
else Some buf.

Definition uart_dec (v : Z) : option (list Z) :=
if v =? 0 then Some (uart_putc digit0)
else uart_puts_nolf <$> dec_loop 20 v [].

Definition hex_char (d : Z) : Z := if d <? 10 then 48 + d else 87 + d.

(** [for (i = n - 1; i >= 0; i--) { buf[i] = hex[v & 0xF]; v >>= 4; }] *)
Fixpoint hex_fill (n : nat) (v : Z) (buf : list Z) : list Z :=
match n with
| O => buf
| S n' => hex_fill n' (Z.shiftr v 4) (hex_char (Z.land v 15) :: buf)
end.

(** [while (buf[i] == '0') i++;] *)
Fixpoint skip_zeros (l : list Z) : list Z :=
match l with
| c :: l' => if c =? digit0 then skip_zeros l' else l
| [] => []
end.

Definition hex_prefix : list Z := [48; 120].

Definition uart_hex (v : Z) : list Z :=
uart_puts_nolf hex_prefix ++
(if v =? 0 then uart_putc digit0
 else uart_puts_nolf (skip_zeros (hex_fill 16 v []))).

Definition uart_hex32 (v : Z) : list Z :=
uart_puts_nolf hex_prefix ++
(if v =? 0 then uart_putc digit0
 else uart_puts_nolf (skip_zeros (hex_fill 8 v []))).

(** The value a run of decimal (hexadecimal) digits denotes. *)
Definition dec_value (l : list Z) : Z := fold_left (fun a c => 10 * a + (c - 48)) l 0.
Definition hex_digit_value (c : Z) : Z := if c <? 58 then c - 48 else c - 87.
Definition hex_value (l : list Z) : Z :=
fold_left (fun a c => 16 * a + hex_digit_value c) l 0.

Definition is_digit (c : Z) : Prop := 48 <= c <= 57.
Definition is_hex (c : Z) : Prop := 48 <= c <= 57 \/ 97 <= c <= 102.

Lemma fold_dec_start l a :
fold_left (fun a c => 10 * a + (c - 48)) l a =
a * 10 ^ Z.of_nat (length l) + dec_value l.
Proof.
unfold dec_value. revert a. induction l as [|c l IH]; intros a; simpl.
- change (10 ^ Z.of_nat 0) with 1. lia.
- rewrite IH, (IH (0 + _)). rewrite Nat2Z.inj_succ, Z.pow_succ_r by lia. lia.
Qed.

Lemma dec_value_cons c l :
dec_value (c :: l) = (c - 48) * 10 ^ Z.of_nat (length l) + dec_value l.
Proof. unfold dec_value at 1. simpl. rewrite fold_dec_start. lia. Qed.

Lemma puts_digits l : Forall is_digit l -> uart_puts_nolf l = l.
Proof.
induction 1 as [|c l Hc _ IH]; [done|]. unfold is_digit in Hc.
simpl. rewrite IH. unfold uart_putc, CR, LF. split_ifs; lia || done.
Qed.

Lemma dec_loop_spec room v buf :
0 <= v < 10 ^ Z.of_nat room -> Forall is_digit buf ->
exists ds, dec_loop room v buf = Some (ds ++ buf) /\ Forall is_digit ds /\
  dec_value ds = v /\ (length ds <= room)%nat.
Proof.
revert v buf. induction room as [|room IH]; intros v buf Hv Hbuf.
- change (10 ^ Z.of_nat 0) with 1 in Hv. replace v with 0 by lia.
  exists []. split_and!; done || lia.
- cbn [dec_loop]. case_match eqn:E; bool_hyps.
  + rewrite Nat2Z.inj_succ, Z.pow_succ_r in Hv by lia.
    destruct (IH (v / 10) (digit0 + v mod 10 :: buf)) as (ds & -> & Hd & Hval & Hlen).
    { split; [zlia|]. apply Z.div_lt_upper_bound; lia. }
    { constructor; [|done]. unfold is_digit, digit0. zlia. }
    exists (ds ++ [digit0 + v mod 10]). split_and!.
    * by rewrite <- app_assoc.
    * apply Forall_app. split; [done|]. constructor; [unfold is_digit, digit0; zlia|done].
    * unfold dec_value in *. rewrite fold_left_app, Hval. simpl. unfold digit0. zlia.
    * rewrite length_app. simpl. lia.
  + assert (v = 0) as -> by lia. exists []. split_and!; try done. simpl; lia.
Qed.

Lemma uart_dec_spec v :
0 <= v < 2 ^ 64 ->
exists ds, uart_dec v = Some ds /\ Forall is_digit ds /\
  dec_value ds = v /\ (1 <= length ds <= 20)%nat.
Proof.
intros Hv. unfold uart_dec. case_match eqn:E; bool_hyps.
- exists [digit0]. split_and!; subst; try done; [|simpl; lia..].
  constructor; [unfold is_digit, digit0; lia|done].
- destruct (dec_loop_spec 20 v []) as (ds & -> & Hd & Hval & Hlen); [simpl; lia|done|].
  exists ds. rewrite app_nil_r. simpl. rewrite puts_digits by done.
  split_and!; [done..| |done].
  destruct ds; [simpl in Hval; unfold dec_value in Hval; simpl in Hval; lia|simpl; lia].
Qed.

(** [uart_dec] never runs past its 20-digit buffer and prints, for every
  64-bit value, decimal digits that denote exactly that value. *)
Theorem uart_dec_roundtrip v (Hv : 0 <= v < 2 ^ 64) :
exists ds, uart_dec v = Some ds /\ Forall is_digit ds /\
  dec_value ds = v /\ (1 <= length ds <= 20)%nat.
Proof. by apply uart_dec_spec. Qed.

Lemma uart_dec_roundtrip_witness :
exists ds, uart_dec 18446744073709551615 = Some ds /\ Forall is_digit ds /\
  dec_value ds = 18446744073709551615 /\ (1 <= length ds <= 20)%nat.
Proof. apply (uart_dec_roundtrip 18446744073709551615). lia. Defined.

End Pl011.

(** Console output inside a computation. *)
Section Printing.
Context {S : Type}.
Import Pl011.
Definition puts (s : string) : M S unit := out (uart_puts (bytes s)).
Definition puts_nolf (s : string) : M S unit := out (uart_puts_nolf (bytes s)).
Definition puts_bytes (s : list Z) : M S unit := out (uart_puts s).
Definition puts_bytes_nolf (s : list Z) : M S unit := out (uart_puts_nolf s).
Definition putc (c : Z) : M S unit := out (uart_putc c).
Definition put_dec (v : Z) : M S unit :=
  let* o := of_opt (uart_dec (u64 v)) in out o.
Definition put_hex (v : Z) : M S unit := out (uart_hex (u64 v)).
Definition put_hex32 (v : Z) : M S unit := out (uart_hex32 (u32 v)).
End Printing.

Section WpPrinting.
Context {S : Type}.
Implicit Types s : S.
Lemma wp_puts x Q s : Q tt s (Pl011.uart_puts (bytes x)) -> wp (puts x) Q s.
Proof. done. Qed.
Lemma wp_puts_nolf x Q s : Q tt s (Pl011.uart_puts_nolf (bytes x)) -> wp (puts_nolf x) Q s.
Proof. done. Qed.
Lemma wp_puts_bytes x Q s : Q tt s (Pl011.uart_puts x) -> wp (puts_bytes x) Q s.
Proof. done. Qed.
Lemma wp_puts_bytes_nolf x Q s :
  Q tt s (Pl011.uart_puts_nolf x) -> wp (puts_bytes_nolf x) Q s.
Proof. done. Qed.
Lemma wp_putc x Q s : Q tt s (Pl011.uart_putc x) -> wp (putc x) Q s.
Proof. done. Qed.
Lemma wp_put_hex x Q s : Q tt s (Pl011.uart_hex (u64 x)) -> wp (put_hex x) Q s.
Proof. done. Qed.
Lemma wp_put_hex32 x Q s : Q tt s (Pl011.uart_hex32 (u32 x)) -> wp (put_hex32 x) Q s.
Proof. done. Qed.
Lemma wp_put_dec v Q s : (forall o, Q tt s o) -> wp (put_dec v) Q s.
Proof.
  intros HQ. destruct (Pl011.uart_dec_spec (u64 v)) as (ds & E & _).
  { apply u64_range. }
  unfold put_dec. rewrite E. apply wp_bind, wp_ret, wp_out, HQ.
Qed.
End WpPrinting.

(** Symbolic execution through console output. *)
Ltac wp_print :=
  lazymatch goal with
  | |- wp (puts _) _ _ => apply wp_puts
  | |- wp (puts_nolf _) _ _ => apply wp_puts_nolf
  | |- wp (puts_bytes _) _ _ => apply wp_puts_bytes
  | |- wp (puts_bytes_nolf _) _ _ => apply wp_puts_bytes_nolf
  | |- wp (putc _) _ _ => apply wp_putc
  | |- wp (put_hex _) _ _ => apply wp_put_hex
  | |- wp (put_hex32 _) _ _ => apply wp_put_hex32
  | |- wp (put_dec _) _ _ => apply wp_put_dec; intros ?
  end.
Ltac wp_auto := repeat ((wp_step || wp_array || wp_print); cbn beta iota).

(** ** Registers *)

Module Registers.
Definition UART_BASE : Z := 0x09000000.
Definition UART_FR_TXFF : Z := Z.shiftl 1 5.
Definition UART_FR_RXFE : Z := Z.shiftl 1 4.

(** The runtime base, and the stores to the device's registers in order. *)
Record uart := mk_uart { uart_base : Z; stores : list (Z * Z) }.

Definition UART_DR (b : Z) : Z := b.
Definition UART_FR (b : Z) : Z := b + 0x018.
Definition UART_IBRD (b : Z) : Z := b + 0x024.
Definition UART_FBRD (b : Z) : Z := b + 0x028.
Definition UART_LCRH (b : Z) : Z := b + 0x02C.
Definition UART_CR (b : Z) : Z := b + 0x030.
Definition UART_IMSC (b : Z) : Z := b + 0x038.

Definition store (reg : Z -> Z) (v : Z) : M uart unit :=
  modify (fun u => mk_uart (uart_base u) (stores u ++ [(reg (uart_base u), v)])).

Definition uart_set_base (base : Z) : M uart unit :=
  if negb (base =? 0) then modify (fun u => mk_uart base (stores u)) else ret tt.
Definition uart_get_base : M uart Z := let* u := get in ret (uart_base u).

Definition uart_init : M uart unit :=
  store UART_CR 0 ;;;
  store UART_IMSC 0x7FF ;;;
  store UART_IBRD 13 ;;;
  store UART_FBRD 1 ;;;
  store UART_LCRH (Z.lor (Z.shiftl 3 5) (Z.shiftl 1 4)) ;;;
  store UART_CR (Z.lor (Z.lor (Z.shiftl 1 0) (Z.shiftl 1 8)) (Z.shiftl 1 9)).

(** [while (FR & TXFF) ; DR = c;]: [flags k] is the [k]th value read from the flag
    register. *)
Fixpoint uart_putc_raw (flags : nat -> Z) (k : nat) (c : Z) (fuel : nat) : M uart unit :=
  match fuel with
  | O => fun _ => NoFuel
  | S fuel' =>
      if negb (Z.land (flags k) UART_FR_TXFF =? 0) then uart_putc_raw flags (S k) c fuel'
      else store UART_DR (u8 c)
  end.

(** What the flag and data registers give. *)
Definition uart_getc_nonblock (flags data : Z) : option Z :=
  if negb (Z.land flags UART_FR_RXFE =? 0) then None else Some (Z.land data 0xFF).

(** A byte goes out, once and unchanged, as soon as the FIFO has room, however
    often the flag register says that it is full before. *)
Theorem putc_raw_sends flags n c u : (forall k, (k < n)%nat -> Z.testbit (flags k) 5 = true) ->
  Z.testbit (flags n) 5 = false -> 0 <= c < 256 ->
  uart_putc_raw flags 0 c (S n) u = Ok (tt, mk_uart (uart_base u) (stores u ++ [(uart_base u, c)]), []).
Proof.
  intros Hfull Hroom Hc.
  assert (H : forall m k, (k + m = n)%nat ->
    uart_putc_raw flags k c (S m) u = Ok (tt, mk_uart (uart_base u) (stores u ++ [(uart_base u, c)]), [])).
  { induction m as [|m IH]; intros k Hk; cbn [uart_putc_raw]; change UART_FR_TXFF with (2 ^ 5); rewrite land_bit by lia.
    - replace k with n by lia. rewrite Hroom. cbn [negb]. unfold store, modify, UART_DR. by rewrite u8_small.
    - rewrite Hfull by lia. cbn [negb]. apply IH. lia. }
  apply (H n 0%nat). lia.
Qed.
End Registers.
