(* ===== verification/Ring.v ===== *)
(** * Ring buffers

    The queue contents held by a fixed array read from [h] on, wrapping around
    at its end.  Shared by the message queues, the log, the decision history
    and the job queue. *)

From S2P Require Import Prelude.

Section Ring.
Context {A : Type}.
Implicit Types l : list A.

(** The index of the [k]-th element from [h] in an array of [n] cells. *)
Definition ring_ix (n h : Z) (k : nat) : Z := (h + Z.of_nat k) mod n.

(** The [n] elements from [h] on. *)
Definition ring (l : list A) (h : Z) (n : nat) : list A :=
  omap (fun k => l !! Z.to_nat (ring_ix (Z.of_nat (length l)) h k)) (seq 0 n).

Lemma ring_ix_range l h k :
  (0 < length l)%nat -> 0 <= ring_ix (Z.of_nat (length l)) h k < Z.of_nat (length l).
Proof. intros. unfold ring_ix. apply Z.mod_pos_bound. lia. Qed.

Lemma ring_ix_lookup l h k :
  (0 < length l)%nat -> is_Some (l !! Z.to_nat (ring_ix (Z.of_nat (length l)) h k)).
Proof. intros H. apply lookup_lt_is_Some_2. pose proof (ring_ix_range l h k H). lia. Qed.

Lemma ring_ix_next n h k :
  0 < n -> ring_ix n h (S k) = ring_ix n ((h + 1) mod n) k.
Proof.
  intros. unfold ring_ix. rewrite Zplus_mod_idemp_l. f_equal. lia.
Qed.

Lemma ring_ix_small n h k :
  0 <= h < n -> h + Z.of_nat k < n -> ring_ix n h k = h + Z.of_nat k.
Proof. intros. unfold ring_ix. apply Z.mod_small. lia. Qed.

Lemma ring_ix_inj n h j k :
  (Z.of_nat j < n) -> (Z.of_nat k < n) -> ring_ix n h j = ring_ix n h k -> j = k.
Proof.
  unfold ring_ix. intros Hj Hk E.
  assert (0 < n) by lia.
  pose proof (Z.div_mod (h + Z.of_nat j) n ltac:(lia)) as Ej.
  pose proof (Z.div_mod (h + Z.of_nat k) n ltac:(lia)) as Ek.
  rewrite E in Ej. set (qj := _ / n) in Ej. set (qk := _ / n) in Ek.
  assert (qj = qk) by nia. nia.
Qed.

Lemma ring_0 l h : ring l h 0 = [].
Proof. done. Qed.

Lemma ring_length l h n : (0 < length l)%nat -> length (ring l h n) = n.
Proof.
  intros Hl. unfold ring. induction n as [|n IH]; [done|].
  rewrite seq_S, omap_app, length_app, IH. simpl.
  destruct (ring_ix_lookup l h n Hl) as [x ->]. simpl. lia.
Qed.

(** Taking the element at the head. *)
Lemma ring_pop l h n x :
  (0 < length l)%nat -> 0 <= h < Z.of_nat (length l) -> l !! Z.to_nat h = Some x ->
  ring l h (S n) = x :: ring l ((h + 1) mod Z.of_nat (length l)) n.
Proof.
  intros Hl Hh Hx. unfold ring. simpl. unfold ring_ix at 1.
  rewrite Z.add_0_r, Z.mod_small by lia. rewrite Hx. f_equal.
  apply list_omap_ext, Forall2_same_length_lookup_2; [by rewrite !length_seq|].
  intros i j1 j2 H1 H2. apply lookup_seq in H1 as [-> _], H2 as [-> _].
  simpl. by rewrite ring_ix_next by lia.
Qed.

(** Adding an element after the last one, in an array that is not full. *)
Lemma ring_push l h n x :
  0 <= h < Z.of_nat (length l) -> (n < length l)%nat ->
  ring (<[Z.to_nat (ring_ix (Z.of_nat (length l)) h n) := x]> l) h (S n) =
  ring l h n ++ [x].
Proof.
  intros Hh Hn. unfold ring. rewrite length_insert, seq_S, omap_app. f_equal.
  - apply list_omap_ext, Forall2_same_length_lookup_2; [done|].
    intros i j1 j2 H1 H2. simplify_eq. apply lookup_seq in H1 as [-> H1].
    apply list_lookup_insert_ne.
    pose proof (ring_ix_range l h n ltac:(lia)).
    pose proof (ring_ix_range l h (0 + i) ltac:(lia)).
    intros E. apply Z2Nat.inj in E; [|lia..]. apply ring_ix_inj in E; lia.
  - simpl. pose proof (ring_ix_range l h n ltac:(lia)).
    rewrite list_lookup_insert_eq by lia. done.
Qed.

(** Overwriting the oldest element of a full array. *)
Lemma ring_overwrite l h n x :
  length l = S n -> 0 <= h < Z.of_nat (length l) ->
  ring (<[Z.to_nat h := x]> l) ((h + 1) mod Z.of_nat (length l)) (S n) =
  tail (ring l h (S n)) ++ [x].
Proof.
  intros Hn Hh.
  destruct (lookup_lt_is_Some_2 l (Z.to_nat h) ltac:(lia)) as [y Hy].
  rewrite (ring_pop l h n y) by (done || lia). simpl tail.
  set (h' := (h + 1) mod Z.of_nat (length l)).
  assert (Hh' : 0 <= h' < Z.of_nat (length l)) by (apply Z.mod_pos_bound; lia).
  assert (E : h = ring_ix (Z.of_nat (length l)) h' n).
  { unfold ring_ix, h'. rewrite Zplus_mod_idemp_l.
    replace (h + 1 + Z.of_nat n) with (h + 1 * Z.of_nat (length l)) by lia.
    rewrite Z.mod_add by lia. symmetry. by apply Z.mod_small. }
  rewrite E at 1. apply ring_push; [done|lia].
Qed.

Lemma ring_start l n : (n <= length l)%nat -> ring l 0 n = take n l.
Proof.
  unfold ring. induction n as [|n IH]; [done|]. intros Hn.
  rewrite seq_S, omap_app, IH by lia. simpl.
  destruct (lookup_lt_is_Some_2 l n ltac:(lia)) as [x Hx].
  rewrite ring_ix_small by lia. rewrite Z.add_0_l, Nat2Z.id, Hx.
  by rewrite (take_S_r l n x Hx).
Qed.
End Ring.
