(* ===== verification/Ipc.v ===== *)
(** * Message queues (kernel/ipc.c)

    Eight queues of sixteen fixed-size messages, each a ring with [head],
    [tail] and [count].  The operations are the functions of [ipc.c]; the
    abstract specification is a table of FIFO queues of byte strings, and
    [ipc_run_refines] says that every operation implements it. *)

From S2P Require Import Prelude Uart Ring.

Definition IPC_MAX_QUEUES : Z := 8.
Definition IPC_MAX_MSG : Z := 16.
Definition IPC_MSG_SIZE : Z := 64.
Definition IPC_OK : Z := 0.
Definition IPC_ERR_FULL : Z := -1.
Definition IPC_ERR_EMPTY : Z := -2.
Definition IPC_ERR_INVALID : Z := -3.

(** [data] is the message's [uint32_t data[16]] as its 64 bytes. *)
Record ipc_msg := mk_msg { data : list Z; len : Z; sender : Z }.

Record ipc_queue := mk_queue {
  id : Z; owner : Z; reader_count : Z; in_use : bool;
  queue : list ipc_msg; head : Z; tail : Z; count : Z }.

Abbreviation ipc_state := (list ipc_queue).

Definition ipc_init : M ipc_state unit :=
  modify (map (fun q => mk_queue (id q) (owner q) (reader_count q) false (queue q) 0 0 0)) ;;;
  puts "  IPC initialized (8 queues, 16 msgs each)".

(** The first queue from index [i] on that is not in use. *)
Fixpoint first_unused (qs : list ipc_queue) (i : Z) : option Z :=
  match qs with
  | [] => None
  | q :: qs' => if in_use q then first_unused qs' (i + 1) else Some i
  end.

Definition ipc_create (own : Z) : M ipc_state Z :=
  let* qs := get in
  match first_unused qs 0 with
  | Some i =>
      let* q := of_opt (aget qs i) in
      let* qs' := of_opt (aset qs i (mk_queue i own 0 true (queue q) 0 0 0)) in
      put qs' ;;;
      ret i
  | None => ret IPC_ERR_FULL
  end.

(** The ring cell [msg] after [ipc_send] has filled it: at most 64 bytes of the
    sender's buffer, [None] for a null pointer. *)
Definition fill_msg (buf : option view) (n snd : Z) (msg : ipc_msg) : ipc_msg :=
  let copy_len := if n >? IPC_MSG_SIZE then IPC_MSG_SIZE else n in
  match buf with
  | Some src =>
      if copy_len >? 0 then
        mk_msg (map src (seq 0 (Z.to_nat copy_len)) ++
                drop (Z.to_nat copy_len) (data msg)) copy_len snd
      else mk_msg (data msg) 0 snd
  | None => mk_msg (data msg) 0 snd
  end.

Definition ipc_send (queue_id : Z) (buf : option view) (n snd : Z) : M ipc_state Z :=
  if (queue_id <? 0) || (queue_id >=? IPC_MAX_QUEUES) then ret IPC_ERR_INVALID else
  let* qs := get in
  let* q := of_opt (aget qs queue_id) in
  if negb (in_use q) then ret IPC_ERR_INVALID else
  if count q >=? IPC_MAX_MSG then ret IPC_ERR_FULL else
  if negb (bool_decide (is_Some buf)) && (n >? 0) then ret IPC_ERR_INVALID else
  let* msg := of_opt (aget (queue q) (tail q)) in
  let* msgs := of_opt (aset (queue q) (tail q) (fill_msg buf n snd msg)) in
  let* qs' := of_opt (aset qs queue_id
    (mk_queue (id q) (owner q) (reader_count q) (in_use q) msgs (head q)
       (u32 (tail q + 1) mod IPC_MAX_MSG) (u32 (count q + 1)))) in
  put qs' ;;;
  ret IPC_OK.

(** The result is the return code with, on success, the bytes stored at [buf]
    and the values for [*len] and [*sender]; [has_buf] is false for a null
    [buf]. *)
Definition ipc_recv (queue_id : Z) (has_buf : bool)
  : M ipc_state (Z * option (list Z * Z * Z)) :=
  if (queue_id <? 0) || (queue_id >=? IPC_MAX_QUEUES) then ret (IPC_ERR_INVALID, None) else
  if negb has_buf then ret (IPC_ERR_INVALID, None) else
  let* qs := get in
  let* q := of_opt (aget qs queue_id) in
  if negb (in_use q) then ret (IPC_ERR_INVALID, None) else
  if count q =? 0 then ret (IPC_ERR_EMPTY, None) else
  let* msg := of_opt (aget (queue q) (head q)) in
  let* bs := of_opt (if len msg <=? Z.of_nat (length (data msg))
                     then Some (take (Z.to_nat (len msg)) (data msg)) else None) in
  let* qs' := of_opt (aset qs queue_id
    (mk_queue (id q) (owner q) (reader_count q) (in_use q) (queue q)
       (u32 (head q + 1) mod IPC_MAX_MSG) (tail q) (u32 (count q - 1)))) in
  put qs' ;;;
  ret (IPC_OK, Some (bs, len msg, sender msg)).

Definition ipc_destroy (queue_id : Z) : M ipc_state Z :=
  if (queue_id <? 0) || (queue_id >=? IPC_MAX_QUEUES) then ret IPC_ERR_INVALID else
  let* qs := get in
  let* q := of_opt (aget qs queue_id) in
  if negb (in_use q) then ret IPC_ERR_INVALID else
  let* qs' := of_opt (aset qs queue_id
    (mk_queue (id q) (owner q) (reader_count q) false (queue q)
       (head q) (tail q) (count q))) in
  put qs' ;;;
  ret IPC_OK.

Definition ipc_queue_count : M ipc_state Z :=
  let* qs := get in
  ret (Z.of_nat (length (filter (fun q => in_use q = true) qs))).

Definition ipc_report_line (iq : Z * ipc_queue) : M ipc_state unit :=
  let (i, q) := iq in
  if negb (in_use q) then ret tt else
  puts_nolf "  [" ;;; put_dec i ;;; puts_nolf "] msgs=" ;;; put_dec (count q) ;;;
  puts_nolf " owner=" ;;; put_dec (owner q) ;;; puts "".

Definition ipc_report : M ipc_state unit :=
  puts "=== IPC Report ===" ;;; puts_nolf "  Queues: " ;;;
  let* n := ipc_queue_count in
  put_dec n ;;; puts_nolf "/" ;;; put_dec IPC_MAX_QUEUES ;;; puts "" ;;;
  let* qs := get in
  foldr (fun iq k => ipc_report_line iq ;;; k) (ret tt)
    (zip (seqZ 0 (Z.of_nat (length qs))) qs).

(** ** The abstract specification: a table of FIFO queues *)

(** A queue in use: its owner and its messages, oldest first. *)
Abbreviation aqueue := (Z * list (list Z * Z))%type.
Abbreviation atable := (list (option aqueue)).

Inductive ipc_op :=
| OpCreate (own : Z)
| OpSend (q : Z) (buf : option view) (n snd : Z)
| OpRecv (q : Z) (has_buf : bool)
| OpDestroy (q : Z).

Definition ipc_result : Type := Z * option (list Z * Z * Z).

Definition run_op (op : ipc_op) : M ipc_state ipc_result :=
  match op with
  | OpCreate own => let* r := ipc_create own in ret (r, None)
  | OpSend q buf n snd => let* r := ipc_send q buf n snd in ret (r, None)
  | OpRecv q b => ipc_recv q b
  | OpDestroy q => let* r := ipc_destroy q in ret (r, None)
  end.

Fixpoint spec_free (t : atable) (i : Z) : option Z :=
  match t with
  | [] => None
  | None :: _ => Some i
  | Some _ :: t' => spec_free t' (i + 1)
  end.

Definition spec_op (op : ipc_op) (t : atable) : ipc_result * atable :=
  match op with
  | OpCreate own =>
      match spec_free t 0 with
      | Some i => ((i, None), <[Z.to_nat i := Some (own, [])]> t)
      | None => ((IPC_ERR_FULL, None), t)
      end
  | OpSend q buf n snd =>
      match aget t q with
      | Some (Some (own, ms)) =>
          if IPC_MAX_MSG <=? Z.of_nat (length ms) then ((IPC_ERR_FULL, None), t) else
          match buf with
          | None => if n >? 0 then ((IPC_ERR_INVALID, None), t)
                    else ((IPC_OK, None), <[Z.to_nat q := Some (own, ms ++ [([], snd)])]> t)
          | Some src =>
              ((IPC_OK, None),
               <[Z.to_nat q :=
                   Some (own, ms ++ [(map src (seq 0 (Z.to_nat (Z.min n 64))), snd)])]> t)
          end
      | _ => ((IPC_ERR_INVALID, None), t)
      end
  | OpRecv q has_buf =>
      match aget t q, has_buf with
      | Some (Some (own, ms)), true =>
          match ms with
          | [] => ((IPC_ERR_EMPTY, None), t)
          | (bs, snd) :: ms' =>
              ((IPC_OK, Some (bs, Z.of_nat (length bs), snd)),
               <[Z.to_nat q := Some (own, ms')]> t)
          end
      | _, _ => ((IPC_ERR_INVALID, None), t)
      end
  | OpDestroy q =>
      match aget t q with
      | Some (Some _) => ((IPC_OK, None), <[Z.to_nat q := None]> t)
      | _ => ((IPC_ERR_INVALID, None), t)
      end
  end.

(** ** Invariant and abstraction function *)

Definition msg_wf (m : ipc_msg) : Prop :=
  length (data m) = 64%nat /\ 0 <= len m <= 64.

Definition queue_wf (q : ipc_queue) : Prop :=
  length (queue q) = 16%nat /\ Forall msg_wf (queue q) /\
  0 <= head q < 16 /\ 0 <= count q <= 16 /\ tail q = (head q + count q) mod 16.

Definition ipc_wf (s : ipc_state) : Prop :=
  length s = 8%nat /\ Forall queue_wf s.

Definition abs_msg (m : ipc_msg) : list Z * Z :=
  (take (Z.to_nat (len m)) (data m), sender m).

Definition abs_queue (q : ipc_queue) : option aqueue :=
  if in_use q
  then Some (owner q, abs_msg <$> ring (queue q) (head q) (Z.to_nat (count q)))
  else None.

Definition abs (s : ipc_state) : atable := abs_queue <$> s.

(** The scalar arguments are 32-bit. *)
Definition op_ok (op : ipc_op) : Prop :=
  match op with OpSend _ _ n _ => 0 <= n < 2 ^ 32 | _ => True end.

Lemma aget_abs s q : aget (abs s) q = abs_queue <$> aget s q.
Proof. unfold aget, abs. case_match; [|done]. apply list_lookup_fmap. Qed.

Lemma first_unused_spec s i :
  first_unused s i = spec_free (abs s) i /\
  (forall k, first_unused s i = Some k -> i <= k < i + Z.of_nat (length s)).
Proof.
  revert i. induction s as [|q s IH]; intros i; [done|]. simpl.
  destruct (IH (i + 1)) as [E Hk]. unfold abs_queue at 1.
  destruct (in_use q) eqn:Hu; [|split; [done|intros; simplify_eq; lia]].
  split; [done|]. intros k Hs. specialize (Hk k Hs). lia.
Qed.

Lemma in_range s q :
  ipc_wf s -> (q <? 0) || (q >=? IPC_MAX_QUEUES) = false ->
  0 <= q < Z.of_nat (length s).
Proof. intros [-> _] H. bool_hyps. unfold IPC_MAX_QUEUES in *. lia. Qed.

Lemma out_of_range s q :
  ipc_wf s -> (q <? 0) || (q >=? IPC_MAX_QUEUES) = true -> aget (abs s) q = None.
Proof.
  intros [Hl _] H. destruct (aget (abs s) q) eqn:E; [|done].
  apply aget_lt in E. unfold abs in E. rewrite length_fmap, Hl in E.
  unfold IPC_MAX_QUEUES in *. bool_hyps. destruct H; bool_hyps; lia.
Qed.

Lemma ipc_wf_get s q x : ipc_wf s -> aget s q = Some x -> queue_wf x.
Proof.
  intros [_ Hs] [_ Hx]%aget_Some. by eapply Forall_lookup_1.
Qed.

Lemma ipc_wf_insert s i q : ipc_wf s -> queue_wf q -> ipc_wf (<[i := q]> s).
Proof.
  intros [Hl Hs] Hq. split; [by rewrite length_insert|by apply Forall_insert].
Qed.

Lemma abs_insert s i q : abs (<[i := q]> s) = <[i := abs_queue q]> (abs s).
Proof. apply list_fmap_insert. Qed.

(** What it means for an operation to implement the specification from [s]. *)
Definition refines (op : ipc_op) (s : ipc_state) : Prop :=
  wp (run_op op) (fun r s' o => o = [] /\ ipc_wf s' /\ spec_op op (abs s) = (r, abs s')) s.

Lemma create_refines own s : ipc_wf s -> refines (OpCreate own) s.
Proof.
  intros Hwf. unfold refines. simpl. destruct (first_unused_spec s 0) as [E Hk].
  unfold ipc_create. wp_go. rewrite <- E.
  destruct (first_unused s 0) as [i|]; [|by wp_go].
  specialize (Hk i eq_refl). destruct (aget_in s i ltac:(lia)) as [q Hq].
  wp_go. split; [done|]. split; [|by rewrite abs_insert].
  apply ipc_wf_insert; [done|].
  destruct (ipc_wf_get s i q Hwf Hq) as (? & ? & _). repeat split; done || lia.
Qed.

Lemma destroy_refines i s : ipc_wf s -> refines (OpDestroy i) s.
Proof.
  intros Hwf. unfold refines. simpl. unfold ipc_destroy. wp_go.
  { by rewrite (out_of_range s i). }
  pose proof (in_range s i Hwf E) as Hi. destruct (aget_in s i Hi) as [q Hq].
  rewrite aget_abs, Hq. simpl. unfold abs_queue at 1. wp_go; bool_hyps; rewrite E0.
  - done.
  - split; [done|]. rewrite abs_insert. split; [|done].
    apply ipc_wf_insert; [done|]. apply (ipc_wf_get s i q Hwf Hq).
Qed.

Lemma recv_refines i b s : ipc_wf s -> refines (OpRecv i b) s.
Proof.
  intros Hwf. unfold refines. simpl. unfold ipc_recv. wp_go.
  { by rewrite (out_of_range s i). }
  { apply negb_true_iff in E0 as ->. split_and!; try done.
    by destruct (aget (abs s) i) as [[[]|]|]. }
  pose proof (in_range s i Hwf E) as Hi. destruct (aget_in s i Hi) as [q Hq].
  apply negb_false_iff in E0 as ->.
  rewrite aget_abs, Hq. simpl. unfold abs_queue at 1.
  destruct (ipc_wf_get s i q Hwf Hq) as (Hlen & Hms & Hh & Hc & Ht).
  wp_go; bool_hyps; rewrite E0.
  { done. }
  { by rewrite E1. }
  destruct (aget_in (queue q) (head q) ltac:(lia)) as [m Hm].
  apply aget_Some in Hm as Hm'. destruct Hm' as [_ Hm'].
  destruct (Forall_lookup_1 _ _ _ _ Hms Hm') as [Hd Hl]. wp_go.
  rewrite Hd. replace (len m <=? Z.of_nat 64) with true by (symmetry; apply Z.leb_le; lia).
  wp_go. split; [done|].
  assert (u32 (head q + 1) mod IPC_MAX_MSG = (head q + 1) mod 16) as ->.
  { unfold IPC_MAX_MSG. rewrite u32_small; lia. }
  rewrite (u32_small (count q - 1)) by lia.
  replace (Z.to_nat (count q)) with (S (Z.to_nat (count q - 1))) by lia.
  rewrite (ring_pop _ _ _ m) by (done || lia). rewrite Hlen, abs_insert. simpl. split.
  - apply ipc_wf_insert; [done|]. repeat split; simpl; try (done || lia || zlia).
  - unfold abs_queue. simpl. rewrite length_take, Hd. repeat f_equal. lia.
Qed.

(** The message [ipc_send] stores. *)
Lemma fill_msg_spec buf n snd m :
  msg_wf m -> 0 <= n -> (buf = None -> n = 0) ->
  msg_wf (fill_msg buf n snd m) /\
  abs_msg (fill_msg buf n snd m) =
    (match buf with
     | Some src => map src (seq 0 (Z.to_nat (Z.min n 64)))
     | None => []
     end, snd).
Proof.
  intros [Hd Hl] Hn Hnull. unfold fill_msg, IPC_MSG_SIZE. cbv zeta.
  assert ((if n >? 64 then 64 else n) = Z.min n 64) as -> by (split_ifs; lia).
  destruct buf as [src|]; [|by repeat split; simpl; lia].
  destruct (Z.min n 64 >? 0) eqn:E; bool_hyps; unfold msg_wf, abs_msg; simpl.
  - rewrite length_app, length_map, length_seq, length_drop, Hd. split; [lia|].
    rewrite take_app_length'; [done|]. by rewrite length_map, length_seq.
  - replace (Z.min n 64) with 0 by lia. by repeat split; lia.
Qed.

Lemma send_refines i buf n snd s :
  ipc_wf s -> 0 <= n < 2 ^ 32 -> refines (OpSend i buf n snd) s.
Proof.
  intros Hwf Hn. unfold refines. simpl. unfold ipc_send. wp_go.
  { by rewrite (out_of_range s i). }
  pose proof (in_range s i Hwf E) as Hi. destruct (aget_in s i Hi) as [q Hq].
  rewrite aget_abs, Hq. simpl. unfold abs_queue at 1.
  destruct (ipc_wf_get s i q Hwf Hq) as (Hlen & Hms & Hh & Hc & Ht).
  wp_go; destruct (in_use q) eqn:Hu; try done;
    rewrite length_fmap, ring_length by lia; unfold IPC_MAX_MSG in *; rewrite Z2Nat.id by lia; rewrite Z.geb_leb in E1.
  { by rewrite E1. }
  { apply andb_true_iff in E2 as [Hb Hz]. apply negb_true_iff, bool_decide_eq_false in Hb.
    destruct buf; [by destruct Hb|]. by rewrite E1, Hz. }
  assert (Ht' : 0 <= tail q < 16) by zlia.
  destruct (aget_in (queue q) (tail q) ltac:(lia)) as [m Hm].
  apply aget_Some in Hm as Hm'. destruct Hm' as [_ Hm'].
  assert (Hnull : buf = None -> n = 0).
  { intros ->. apply andb_false_iff in E2 as [|]; [done|]. bool_hyps. lia. }
  destruct (fill_msg_spec buf n snd m) as [Hwm Habs]; [|lia|done|].
  { by eapply Forall_lookup_1. }
  wp_go. set (m' := fill_msg buf n snd m) in *. clearbody m'. split; [done|].
  assert (u32 (tail q + 1) mod 16 = (tail q + 1) mod 16) as ->.
  { rewrite u32_small; lia. }
  rewrite E1. apply Z.leb_gt in E1.
  rewrite (u32_small (count q + 1)) by lia. rewrite abs_insert. split.
  - apply ipc_wf_insert; [done|].
    repeat split; simpl; try (done || lia || zlia).
    + by rewrite length_insert.
    + by apply Forall_insert.
  - unfold abs_queue. simpl.
    replace (Z.to_nat (count q + 1)) with (S (Z.to_nat (count q))) by lia.
    assert (tail q = ring_ix (Z.of_nat (length (queue q))) (head q) (Z.to_nat (count q)))
      as Htl by (unfold ring_ix; rewrite Hlen, Z2Nat.id by lia; done).
    rewrite Htl, ring_push, fmap_app by lia.
    change (abs_msg <$> [m']) with [abs_msg m']. rewrite Habs.
    destruct buf; [done|]. by rewrite Hnull.
Qed.

Lemma ipc_refines op s : ipc_wf s -> op_ok op -> refines op s.
Proof.
  destruct op; simpl; eauto using create_refines, send_refines, recv_refines, destroy_refines.
Qed.

(** Runs of operations, with the results they return. *)
Fixpoint run_ops (ops : list ipc_op) : M ipc_state (list ipc_result) :=
  match ops with
  | [] => ret []
  | op :: ops' => let* r := run_op op in let* rs := run_ops ops' in ret (r :: rs)
  end.

Fixpoint spec_ops (ops : list ipc_op) (t : atable) : list ipc_result * atable :=
  match ops with
  | [] => ([], t)
  | op :: ops' =>
      let (r, t1) := spec_op op t in let (rs, t2) := spec_ops ops' t1 in (r :: rs, t2)
  end.

(** C5: every sequence of queue operations from a well-formed table runs
    without an access outside an array, keeps the table well formed, and
    returns exactly what FIFO queues of byte strings would return: creation in
    the first free slot, messages delivered in order and cut to 64 bytes, and
    the error code of every rejected call. *)
Theorem ipc_run_refines ops s
  (Hwf : ipc_wf s) (Hops : Forall op_ok ops) :
  exists rs s', run_ops ops s = Ok (rs, s', []) /\ ipc_wf s' /\
    spec_ops ops (abs s) = (rs, abs s').
Proof.
  revert s Hwf. induction Hops as [|op ops Hop _ IH]; intros s Hwf; simpl.
  { by eexists _, s. }
  destruct (wp_run _ _ _ (ipc_refines op s Hwf Hop)) as (r & s1 & o & E & -> & Hwf1 & Hs1).
  destruct (IH s1 Hwf1) as (rs & s2 & E2 & Hwf2 & Hs2).
  exists (r :: rs), s2. unfold bind. rewrite E, E2, Hs1, Hs2. done.
Qed.

(** The table after [ipc_init], from any table of the right shape. *)
Lemma ipc_init_wf s :
  length s = 8%nat -> Forall (fun q => length (queue q) = 16%nat /\ Forall msg_wf (queue q)) s ->
  wp ipc_init (fun _ s' _ => ipc_wf s' /\ abs s' = replicate 8 None) s.
Proof.
  intros Hl Hs. unfold ipc_init. wp_auto. unfold ipc_wf. rewrite length_map. split.
  - split; [done|]. apply Forall_fmap. eapply Forall_impl; [done|].
    intros q [? ?]. repeat split; simpl; done || lia.
  - unfold abs. rewrite <- list_fmap_compose, <- Hl. clear. by induction s; f_equal/=.
Qed.

(** A table as the loader leaves it: all zero. *)
Definition boot_queue : ipc_queue :=
  mk_queue 0 0 0 false (replicate 16 (mk_msg (replicate 64 0) 0 0)) 0 0 0.
Definition boot_table : ipc_state := replicate 8 boot_queue.

Lemma boot_table_wf : ipc_wf boot_table.
Proof.
  split; [done|]. apply Forall_replicate. repeat split; try (done || lia).
  by apply Forall_replicate.
Qed.

Lemma ipc_run_refines_witness :
  let ops := [OpCreate 7; OpSend 0 (Some (literal [1; 2; 3] (fun _ => 9))) 3 5;
              OpSend 0 None 0 6; OpRecv 0 true; OpRecv 0 true; OpRecv 0 true] in
  run_ops ops boot_table = Ok
    ([(0, None); (IPC_OK, None); (IPC_OK, None); (IPC_OK, Some ([1; 2; 3], 3, 5));
      (IPC_OK, Some ([], 0, 6)); (IPC_ERR_EMPTY, None)],
     match run_ops ops boot_table with Ok (_, s, _) => s | _ => [] end, []).
Proof.
  intros ops.
  destruct (ipc_run_refines ops boot_table boot_table_wf) as (rs & s' & E & _ & Hs).
  { repeat constructor; simpl; lia. }
  rewrite E. do 3 f_equal.
  assert (fst (spec_ops ops (abs boot_table)) = rs) as <- by (by rewrite Hs).
  vm_compute. reflexivity.
Defined.
