(* ===== verification/Ramfs.v ===== *)
(** * The RAM file system (kernel/ramfs.c)

    Thirty-two files of at most 4096 bytes, found by their 16-byte names.  A
    name argument is the memory the caller's pointer gives access to, since
    [find_file] compares sixteen bytes without stopping at the NUL. *)

From S2P Require Import Prelude Uart.

Definition RAMFS_MAX_FILES : nat := 32.
Definition RAMFS_MAX_NAME : nat := 16.
Definition RAMFS_MAX_SIZE : Z := 4096.
Definition RAMFS_OK : Z := 0.
Definition RAMFS_ERR_FULL : Z := -1.
Definition RAMFS_ERR_NOTFOUND : Z := -2.
Definition RAMFS_ERR_INVAL : Z := -4.

Record ramfs_file := mk_file {
  fname : list Z; fsize : Z; fin_use : bool; fdata : list Z }.

Record ramfs := mk_ramfs { files : list ramfs_file; file_count : Z }.

Definition ramfs_init : M ramfs unit :=
  modify (fun s => mk_ramfs
    (map (fun f => mk_file (fname f) 0 false (fdata f)) (files s)) 0) ;;;
  puts "  RAMFS initialized (32 files, 4KB each)".

(** [for (j = 0; j < RAMFS_MAX_NAME; j++) if (files[i].name[j] != name[j]) break;]:
    the index at which the loop stops. *)
Fixpoint name_loop (stored : list Z) (name : view) (j n : nat) : nat :=
  match n with
  | O => j
  | S n' => if nth j stored 0 =? name j then name_loop stored name (S j) n' else j
  end.

Definition name_matches (f : ramfs_file) (name : view) : bool :=
  let j := name_loop (fname f) name 0 RAMFS_MAX_NAME in
  (j =? RAMFS_MAX_NAME)%nat || (nth j (fname f) 0 =? name j).

(** The index of the file, [None] for a null result. *)
Fixpoint find_from (fs : list ramfs_file) (name : view) (i : nat) : option nat :=
  match fs with
  | [] => None
  | f :: fs' =>
      if negb (fin_use f) then find_from fs' name (S i)
      else if name_matches f name then Some i else find_from fs' name (S i)
  end.
Definition find_file (s : ramfs) (name : view) : option nat := find_from (files s) name 0.

Fixpoint first_free (fs : list ramfs_file) (i : nat) : option nat :=
  match fs with
  | [] => None
  | f :: fs' => if negb (fin_use f) then Some i else first_free fs' (S i)
  end.

(** The stored name: the string up to its NUL, at most 16 characters, then zeros. *)
Definition stored_name (name : view) : list Z :=
  let s := str_take name 0 RAMFS_MAX_NAME in
  s ++ replicate (RAMFS_MAX_NAME - length s) 0.

Definition ramfs_create (name : view) : M ramfs Z :=
  let* s := get in
  match find_file s name with
  | Some _ => ret RAMFS_OK
  | None =>
      match first_free (files s) 0 with
      | Some i =>
          let* f := of_opt (files s !! i) in
          put (mk_ramfs (<[i := mk_file (stored_name name) 0 true (fdata f)]> (files s))
                 (u32 (file_count s + 1))) ;;;
          ret RAMFS_OK
      | None => ret RAMFS_ERR_FULL
      end
  end.

Definition ramfs_write (name : view) (src : view) (len offset : Z) : M ramfs Z :=
  let* s := get in
  match find_file s name with
  | None => ret RAMFS_ERR_NOTFOUND
  | Some k =>
      if offset >=? RAMFS_MAX_SIZE then ret RAMFS_ERR_INVAL else
      let* f := of_opt (files s !! k) in
      let remaining := u32 (RAMFS_MAX_SIZE - offset) in
      let copy_len := if len >? remaining then remaining else len in
      let end_ := u32 (offset + copy_len) in
      let d := take (Z.to_nat offset) (fdata f) ++
               map src (seq 0 (Z.to_nat (end_ - offset))) ++
               drop (Z.to_nat end_) (fdata f) in
      let sz := if fsize f <? end_ then end_ else fsize f in
      put (mk_ramfs (<[k := mk_file (fname f) sz (fin_use f) d]> (files s)) (file_count s)) ;;;
      ret (i32 copy_len)
  end.

(** The return value and the bytes stored at [buf]. *)
Definition ramfs_read (name : view) (len offset : Z) : M ramfs (Z * list Z) :=
  let* s := get in
  match find_file s name with
  | None => ret (RAMFS_ERR_NOTFOUND, [])
  | Some k =>
      let* f := of_opt (files s !! k) in
      let end0 := u32 (offset + len) in
      let end_ := if end0 >? fsize f then fsize f else end0 in
      if offset >=? fsize f then ret (0, []) else
      ret (i32 (end_ - offset),
           take (Z.to_nat (end_ - offset)) (drop (Z.to_nat offset) (fdata f)))
  end.

Definition ramfs_delete (name : view) : M ramfs Z :=
  let* s := get in
  match find_file s name with
  | None => ret RAMFS_ERR_NOTFOUND
  | Some k =>
      let* f := of_opt (files s !! k) in
      put (mk_ramfs (<[k := mk_file (fname f) 0 false (fdata f)]> (files s))
             (u32 (file_count s - 1))) ;;;
      ret RAMFS_OK
  end.

Definition ramfs_exists (name : view) : M ramfs bool :=
  let* s := get in ret (bool_decide (is_Some (find_file s name))).

Definition ramfs_size (name : view) : M ramfs Z :=
  let* s := get in
  match find_file s name with
  | Some k => let* f := of_opt (files s !! k) in ret (fsize f)
  | None => ret 0
  end.

(** The count and the names copied out. *)
Definition ramfs_list (max : Z) : M ramfs (Z * list (list Z)) :=
  let* s := get in
  if max <=? 0 then ret (0, []) else
  let ns := take (Z.to_nat max) (fname <$> filter (fun f => fin_use f = true) (files s)) in
  ret (Z.of_nat (length ns), ns).

Definition ramfs_total (s : ramfs) : Z :=
  foldl (fun t f => if fin_use f then u32 (t + fsize f) else t) 0 (files s).

Definition ramfs_report : M ramfs unit :=
  let* s := get in
  puts "=== RAMFS Report ===" ;;; puts_nolf "  Files: " ;;; put_dec (file_count s) ;;;
  puts_nolf "/" ;;; put_dec (Z.of_nat RAMFS_MAX_FILES) ;;;
  puts_nolf "  Total size: " ;;; put_dec (ramfs_total s) ;;; puts " bytes".

(** ** Name comparison *)

(** The sixteen bytes at the pointer, which is what [find_file] compares. *)
Definition key (name : view) : list Z := map name (seq 0 RAMFS_MAX_NAME).

(** The string is padded with zeros up to sixteen bytes in the caller's memory. *)
Definition padded (name : view) : Prop := key name = stored_name name.

Lemma name_loop_spec st nm j n :
  let k := name_loop st nm j n in
  (j <= k <= j + n)%nat /\ (forall i, (j <= i < k)%nat -> nth i st 0 = nm i) /\
  ((k < j + n)%nat -> nth k st 0 <> nm k).
Proof.
  revert j. induction n as [|n IH]; intros j; simpl; [split_and!; intros; lia|].
  case_match; bool_hyps.
  - destruct (IH (S j)) as (H1 & H2 & H3). split_and!; [lia|lia| |].
    + intros i Hi. destruct (decide (i = j)) as [->|]; [done|]. apply H2. lia.
    + intros. apply H3. lia.
  - split_and!; [lia|lia|intros; lia|done].
Qed.

Lemma name_matches_iff f nm :
  length (fname f) = RAMFS_MAX_NAME ->
  name_matches f nm = true <-> fname f = key nm.
Proof.
  intros Hl. unfold name_matches.
  destruct (name_loop_spec (fname f) nm 0 RAMFS_MAX_NAME) as (Hk & Heq & Hne).
  set (k := name_loop _ _ _ _) in *. rewrite orb_true_iff, Nat.eqb_eq, Z.eqb_eq.
  split.
  - intros H. assert (k = RAMFS_MAX_NAME) as Ek.
    { destruct H; [done|]. destruct (decide (k = RAMFS_MAX_NAME)); [done|].
      destruct Hne; [lia|done]. }
    apply list_eq. intros i. unfold key. rewrite list_lookup_fmap.
    destruct (decide (i < RAMFS_MAX_NAME)%nat).
    + rewrite lookup_seq_lt by done. simpl. rewrite <- Heq by lia.
      destruct (lookup_lt_is_Some_2 (fname f) i) as [x Hx]; [lia|].
      rewrite Hx. f_equal. symmetry. by apply nth_lookup_Some.
    + rewrite lookup_seq_ge by lia. apply lookup_ge_None. lia.
  - intros E. left. destruct (decide (k = RAMFS_MAX_NAME)); [done|].
    destruct Hne; [lia|]. rewrite E. unfold key.
    apply nth_lookup_Some. rewrite list_lookup_fmap, lookup_seq_lt by lia. done.
Qed.

Lemma stored_name_length nm : length (stored_name nm) = RAMFS_MAX_NAME.
Proof.
  unfold stored_name. rewrite length_app, length_replicate.
  pose proof (str_take_length nm 0 RAMFS_MAX_NAME). lia.
Qed.

(** ** Invariant *)

(** A name as [ramfs_create] stores it: zeros from the first NUL on. *)
Definition zero_padded (l : list Z) : Prop :=
  length l = RAMFS_MAX_NAME /\ exists n, l = cstr l ++ replicate n 0.

Definition contents (f : ramfs_file) : list Z := take (Z.to_nat (fsize f)) (fdata f).

Definition file_wf (f : ramfs_file) : Prop :=
  length (fdata f) = 4096%nat /\ 0 <= fsize f <= 4096 /\
  (fin_use f = true -> zero_padded (fname f)).

Definition used (s : ramfs) : list ramfs_file := filter (fun f => fin_use f = true) (files s).

Definition files_wf (s : ramfs) : Prop :=
  length (files s) = RAMFS_MAX_FILES /\ Forall file_wf (files s).

Definition ramfs_wf (s : ramfs) : Prop :=
  files_wf s /\
  file_count s = Z.of_nat (length (used s)) /\
  (forall i j f g, files s !! i = Some f -> files s !! j = Some g ->
     fin_use f = true -> fin_use g = true -> fname f = fname g -> i = j).

Lemma cstr_padded l n : Forall (fun c => c <> 0) l -> cstr (l ++ replicate n 0) = l.
Proof.
  intros H. destruct n; simpl; [|by apply cstr_app_nz].
  rewrite app_nil_r. induction H as [|c l Hc _ IH]; simpl; [done|].
  case_match; bool_hyps; [lia|]. by rewrite IH.
Qed.

Lemma stored_name_padded nm : zero_padded (stored_name nm).
Proof.
  split; [apply stored_name_length|]. unfold stored_name.
  eexists. rewrite cstr_padded; [done|apply str_take_nz].
Qed.

Lemma find_from_Some fs nm i k :
  find_from fs nm i = Some k ->
  exists f, (i <= k)%nat /\ fs !! (k - i)%nat = Some f /\ fin_use f = true /\
    name_matches f nm = true.
Proof.
  revert i. induction fs as [|f fs IH]; intros i; simpl; [done|].
  assert (Hrec : find_from fs nm (S i) = Some k ->
    exists g, (i <= k)%nat /\ (f :: fs) !! (k - i)%nat = Some g /\ fin_use g = true /\
      name_matches g nm = true).
  { intros H. destruct (IH _ H) as (g & Hik & Hg & ?). exists g. split; [lia|].
    replace (k - i)%nat with (S (k - S i)) by lia. done. }
  destruct (fin_use f) eqn:Hu; simpl; [|done].
  destruct (name_matches f nm) eqn:Hm; [|done].
  intros [= <-]. exists f. rewrite Nat.sub_diag. done.
Qed.

Lemma find_from_None fs nm i :
  find_from fs nm i = None ->
  forall j f, fs !! j = Some f -> fin_use f = true -> name_matches f nm = false.
Proof.
  revert i. induction fs as [|g fs IH]; intros i; simpl; [done|].
  intros H [|j] f Hj Hu; simpl in Hj.
  - simplify_eq. rewrite Hu in H. simpl in H. by destruct (name_matches f nm).
  - apply (IH (S i)) with j; [|done..].
    destruct (fin_use g); simpl in H; [|done]. by destruct (name_matches g nm).
Qed.

Lemma first_free_Some fs i k :
  first_free fs i = Some k ->
  (i <= k)%nat /\ exists f, fs !! (k - i)%nat = Some f /\ fin_use f = false.
Proof.
  revert i. induction fs as [|f fs IH]; intros i; simpl; [done|].
  destruct (fin_use f) eqn:Hu; simpl.
  - intros H. destruct (IH _ H) as (Hik & g & Hg & ?). split; [lia|]. exists g.
    replace (k - i)%nat with (S (k - S i)) by lia. done.
  - intros [= <-]. split; [lia|]. exists f. by rewrite Nat.sub_diag.
Qed.

Lemma first_free_None fs i :
  first_free fs i = None -> filter (fun f => fin_use f = true) fs = fs.
Proof.
  revert i. induction fs as [|f fs IH]; intros i; simpl; [done|].
  destruct (fin_use f) eqn:Hu; simpl; [|done]. intros H.
  rewrite filter_cons_True by done. f_equal. eauto.
Qed.

Section WithState.
Context (s : ramfs) (Hwf : files_wf s).

Lemma find_file_Some nm k :
  find_file s nm = Some k ->
  exists f, files s !! k = Some f /\ fin_use f = true /\ fname f = key nm /\ file_wf f.
Proof.
  destruct Hwf as [_ Hfs]. intros H.
  destruct (find_from_Some _ _ _ _ H) as (f & _ & Hf & Hu & Hm).
  rewrite Nat.sub_0_r in Hf. exists f.
  pose proof (Forall_lookup_1 _ _ _ _ Hfs Hf) as Hw. destruct Hw as (? & ? & Hz).
  split_and!; try done. apply name_matches_iff; [by apply Hz|done].
Qed.

Lemma find_file_None nm i f :
  find_file s nm = None -> files s !! i = Some f -> fin_use f = true -> fname f <> key nm.
Proof.
  destruct Hwf as [_ Hfs]. intros H Hi Hu E.
  pose proof (find_from_None _ _ _ H i f Hi Hu) as Hm.
  pose proof (Forall_lookup_1 _ _ _ _ Hfs Hi) as (_ & _ & Hz).
  apply name_matches_iff in E; [congruence|by apply Hz].
Qed.

Lemma key_zero_padded nm k : find_file s nm = Some k -> padded nm.
Proof.
  intros (f & _ & Hu & E & _ & _ & Hz)%find_file_Some. destruct (Hz Hu) as [_ [n Hn]].
  rewrite E in Hn. unfold padded, stored_name.
  assert (Hst : forall i m, str_take nm i m = cstr (map nm (seq i m))).
  { clear. intros i m. revert i. induction m as [|m IH]; intros i; simpl; [done|].
    by rewrite IH. }
  rewrite Hst. fold (key nm).
  assert (n = RAMFS_MAX_NAME - length (cstr (key nm)))%nat as <-; [|done].
  apply (f_equal length) in Hn. unfold key in Hn at 1.
  rewrite length_app, length_map, length_seq, length_replicate in Hn. lia.
Qed.
End WithState.

Lemma files_wf_insert s i f n :
  files_wf s -> file_wf f -> files_wf (mk_ramfs (<[i := f]> (files s)) n).
Proof.
  intros [Hl Hfs] Hf. split; simpl; [by rewrite length_insert|by apply Forall_insert].
Qed.

Lemma unpadded_not_found s nm : files_wf s -> ~ padded nm -> find_file s nm = None.
Proof.
  intros Hwf Hn. destruct (find_file s nm) eqn:E; [|done].
  destruct Hn. by eapply key_zero_padded.
Qed.

Lemma create_files_wf s nm r s' o :
  files_wf s -> ramfs_create nm s = Ok (r, s', o) -> files_wf s'.
Proof.
  intros Hwf. unfold ramfs_create, bind, get, ret, put, of_opt, ub.
  destruct (find_file s nm) as [k|]; simpl; [by intros [= _ <- _]|].
  destruct (first_free (files s) 0) as [i|]; [|by intros [= _ <- _]].
  destruct (files s !! i) as [f|] eqn:Hf; [|done]. intros [= _ <- _].
  apply files_wf_insert; [done|].
  destruct (Forall_lookup_1 _ _ _ _ (proj2 Hwf) Hf) as (? & _).
  split_and!; try done. intros _. apply stored_name_padded.
Qed.

(** In every file system whose stored names were written by
    [ramfs_create], a name that is not padded with zeros to sixteen bytes in
    the caller's memory is never found: it cannot be read, written or deleted
    and does not exist, even right after [ramfs_create] has run on it. *)
Theorem ramfs_unpadded_never_found s nm (Hwf : files_wf s) (Hn : ~ padded nm) :
  (forall src len off, ramfs_write nm src len off s = Ok (RAMFS_ERR_NOTFOUND, s, [])) /\
  (forall len off, ramfs_read nm len off s = Ok ((RAMFS_ERR_NOTFOUND, []), s, [])) /\
  ramfs_delete nm s = Ok (RAMFS_ERR_NOTFOUND, s, []) /\
  (forall r s' o, ramfs_create nm s = Ok (r, s', o) ->
     ramfs_exists nm s' = Ok (false, s', [])).
Proof.
  pose proof (unpadded_not_found s nm Hwf Hn) as H.
  split_and!; [intros..| |intros r s' o Hc].
  4: pose proof (unpadded_not_found s' nm (create_files_wf _ _ _ _ _ Hwf Hc) Hn) as H'.
  all: unfold ramfs_write, ramfs_read, ramfs_delete, ramfs_exists, bind, get; simpl.
  all: by rewrite ?H, ?H'.
Qed.

(** ** The specification: a map from names to contents *)

Inductive ramfs_op :=
| RCreate (nm : view)
| RWrite (nm src : view) (len off : Z)
| RRead (nm : view) (len off : Z)
| RDelete (nm : view)
| RExists (nm : view)
| RSize (nm : view).

Definition run_op (op : ramfs_op) : M ramfs (Z * list Z) :=
  match op with
  | RCreate nm => let* r := ramfs_create nm in ret (r, [])
  | RWrite nm src len off => let* r := ramfs_write nm src len off in ret (r, [])
  | RRead nm len off => ramfs_read nm len off
  | RDelete nm => let* r := ramfs_delete nm in ret (r, [])
  | RExists nm => let* b := ramfs_exists nm in ret (Z.b2z b, [])
  | RSize nm => let* r := ramfs_size nm in ret (r, [])
  end.

Definition op_name (op : ramfs_op) : view :=
  match op with
  | RCreate nm | RWrite nm _ _ _ | RRead nm _ _ | RDelete nm | RExists nm | RSize nm => nm
  end.

(** 32-bit arguments; a read range must not wrap around. *)
Definition op_ok (op : ramfs_op) : Prop :=
  padded (op_name op) /\
  match op with
  | RWrite _ _ len off => 0 <= len < 2 ^ 32 /\ 0 <= off < 2 ^ 32
  | RRead _ len off => 0 <= len /\ 0 <= off /\ off + len < 2 ^ 32
  | _ => True
  end.

(** A write past the end of a file leaves [filler] between the old end and the
    new bytes: whatever the slot held before. *)
Definition spec_write (c : list Z) (off : Z) (filler bs : list Z) : list Z :=
  take (Z.to_nat off) c ++ filler ++ bs ++ drop (Z.to_nat off + length bs) c.

Inductive ramfs_spec : ramfs_op -> gmap (list Z) (list Z) -> Z * list Z ->
                       gmap (list Z) (list Z) -> Prop :=
| SCreateOld nm m : is_Some (m !! key nm) -> ramfs_spec (RCreate nm) m (RAMFS_OK, []) m
| SCreateNew nm m : m !! key nm = None -> (size m < RAMFS_MAX_FILES)%nat ->
    ramfs_spec (RCreate nm) m (RAMFS_OK, []) (<[key nm := []]> m)
| SCreateFull nm m : m !! key nm = None -> size m = RAMFS_MAX_FILES ->
    ramfs_spec (RCreate nm) m (RAMFS_ERR_FULL, []) m
| SWriteNone nm src len off m : m !! key nm = None ->
    ramfs_spec (RWrite nm src len off) m (RAMFS_ERR_NOTFOUND, []) m
| SWriteInval nm src len off m : is_Some (m !! key nm) -> RAMFS_MAX_SIZE <= off ->
    ramfs_spec (RWrite nm src len off) m (RAMFS_ERR_INVAL, []) m
| SWrite nm src len off m c filler n : m !! key nm = Some c -> off < RAMFS_MAX_SIZE ->
    n = Z.min len (RAMFS_MAX_SIZE - off) ->
    length filler = (Z.to_nat off - length c)%nat ->
    ramfs_spec (RWrite nm src len off) m (n, [])
      (<[key nm := spec_write c off filler (map src (seq 0 (Z.to_nat n)))]> m)
| SReadNone nm len off m : m !! key nm = None ->
    ramfs_spec (RRead nm len off) m (RAMFS_ERR_NOTFOUND, []) m
| SRead nm len off m c bs : m !! key nm = Some c ->
    bs = take (Z.to_nat len) (drop (Z.to_nat off) c) ->
    ramfs_spec (RRead nm len off) m (Z.of_nat (length bs), bs) m
| SDeleteNone nm m : m !! key nm = None ->
    ramfs_spec (RDelete nm) m (RAMFS_ERR_NOTFOUND, []) m
| SDelete nm m : is_Some (m !! key nm) ->
    ramfs_spec (RDelete nm) m (RAMFS_OK, []) (delete (key nm) m)
| SExists nm m :
    ramfs_spec (RExists nm) m (Z.b2z (bool_decide (is_Some (m !! key nm))), []) m
| SSize nm m :
    ramfs_spec (RSize nm) m
      (match m !! key nm with Some c => Z.of_nat (length c) | None => 0 end, []) m.

(** [m] is what the file table holds. *)
Definition rep (s : ramfs) (m : gmap (list Z) (list Z)) : Prop :=
  (forall k c, m !! k = Some c <->
     exists i f, files s !! i = Some f /\ fin_use f = true /\ fname f = k /\ contents f = c) /\
  Z.of_nat (size m) = file_count s.

Section Rep.
Context (s : ramfs) (m : gmap (list Z) (list Z)) (Hwf : ramfs_wf s) (Hrep : rep s m).

Lemma rep_found nm k :
  find_file s nm = Some k ->
  exists f, files s !! k = Some f /\ fin_use f = true /\ fname f = key nm /\ file_wf f /\
    m !! key nm = Some (contents f).
Proof.
  intros (f & Hf & Hu & Hn & Hw)%find_file_Some; [|apply Hwf].
  exists f. split_and!; try done. apply Hrep. by exists k, f.
Qed.

Lemma rep_missing nm : find_file s nm = None -> m !! key nm = None.
Proof.
  intros H. destruct (m !! key nm) as [c|] eqn:E; [|done].
  apply Hrep in E as (i & f & Hf & Hu & Hn & _).
  by destruct (find_file_None s (proj1 Hwf) nm i f H Hf Hu).
Qed.

(** Slot [k], in use, gets new contents under the same name. *)
Lemma rep_update k f f' :
  files s !! k = Some f -> fin_use f = true -> fin_use f' = true -> fname f' = fname f ->
  file_wf f' ->
  let s' := mk_ramfs (<[k := f']> (files s)) (file_count s) in
  ramfs_wf s' /\ rep s' (<[fname f := contents f']> m).
Proof.
  intros Hf Hu Hu' Hn Hw s'. destruct Hwf as (Hfs & Hc & Huniq), Hrep as [Hm Hsz].
  assert (Hlt : (k < length (files s))%nat) by (by eapply lookup_lt_Some).
  split; [split; [by apply files_wf_insert|split]|split].
  - pose proof (filter_insert_length (fun f => fin_use f = true) (files s) k f' f Hf) as HL.
    unfold used in *. simpl. rewrite Hu, Hu' in HL. rewrite !decide_True in HL by done. lia.
  - intros i j a b Ha Hb Hua Hub Hab. simpl in *.
    apply list_insert_cases in Ha as [[-> ->]|[? Ha]], Hb as [[-> ->]|[? Hb]]; try congruence.
    + apply (Huniq k j f b); done || congruence.
    + apply (Huniq i k a f); done || congruence.
    + by apply (Huniq i j a b).
  - intros q c. simpl. rewrite lookup_insert. case_decide as Hq.
    + split.
      * intros [= <-]. exists k, f'. rewrite list_lookup_insert_eq by done. by subst.
      * intros (i & a & Ha & Hua & Hna & Hca). apply list_insert_cases in Ha as [[-> ->]|[Hik Ha]]; [congruence|].
        destruct Hik. apply (Huniq i k a f); done || congruence.
    + rewrite Hm. split; intros (i & a & Ha & Hua & Hna & Hca).
      * exists i, a. rewrite list_lookup_insert_ne; [done|]. intros <-. congruence.
      * apply list_insert_cases in Ha as [[-> ->]|[? Ha]]; [congruence|].
        by exists i, a.
  - simpl. rewrite map_size_insert. destruct (m !! fname f) eqn:E; [done|].
    assert (m !! fname f = Some (contents f)) by (apply Hm; by exists k, f). congruence.
Qed.

(** A free slot [k] is taken for an unused name. *)
Lemma rep_add k f f' :
  files s !! k = Some f -> fin_use f = false -> fin_use f' = true ->
  m !! fname f' = None -> file_wf f' ->
  let s' := mk_ramfs (<[k := f']> (files s)) (file_count s + 1) in
  ramfs_wf s' /\ rep s' (<[fname f' := contents f']> m).
Proof.
  intros Hf Hu Hu' Hn Hw s'. destruct Hwf as (Hfs & Hc & Huniq), Hrep as [Hm Hsz].
  assert (Hlt : (k < length (files s))%nat) by (by eapply lookup_lt_Some).
  assert (Hfresh : forall i a, files s !! i = Some a -> fin_use a = true -> fname a <> fname f').
  { intros i a Ha Hua E. assert (m !! fname f' = Some (contents a)); [|congruence].
    apply Hm. by exists i, a. }
  split; [split; [by apply files_wf_insert|split]|split].
  - pose proof (filter_insert_length (fun f => fin_use f = true) (files s) k f' f Hf) as HL.
    unfold used in *. simpl. rewrite Hu, Hu' in HL.
    rewrite decide_False, decide_True in HL by done. lia.
  - intros i j a b Ha Hb Hua Hub Hab. simpl in *.
    apply list_insert_cases in Ha as [[-> ->]|[? Ha]], Hb as [[-> ->]|[? Hb]]; try congruence.
    + by destruct (Hfresh j b).
    + by destruct (Hfresh i a).
    + by apply (Huniq i j a b).
  - intros q c. simpl. rewrite lookup_insert. case_decide as Hq.
    + split.
      * intros [= <-]. exists k, f'. rewrite list_lookup_insert_eq by done. by subst.
      * intros (i & a & Ha & Hua & Hna & Hca). apply list_insert_cases in Ha as [[-> ->]|[Hik Ha]]; [congruence|].
        subst. by destruct (Hfresh i a).
    + rewrite Hm. split; intros (i & a & Ha & Hua & Hna & Hca).
      * exists i, a. rewrite list_lookup_insert_ne; [done|]. intros <-. congruence.
      * apply list_insert_cases in Ha as [[-> ->]|[? Ha]]; [congruence|].
        by exists i, a.
  - simpl. rewrite map_size_insert_None by done. lia.
Qed.

(** Slot [k] is released. *)
Lemma rep_remove k f f' :
  files s !! k = Some f -> fin_use f = true -> fin_use f' = false -> file_wf f' ->
  let s' := mk_ramfs (<[k := f']> (files s)) (file_count s - 1) in
  ramfs_wf s' /\ rep s' (delete (fname f) m).
Proof.
  intros Hf Hu Hu' Hw s'. destruct Hwf as (Hfs & Hc & Huniq), Hrep as [Hm Hsz].
  assert (Hlt : (k < length (files s))%nat) by (by eapply lookup_lt_Some).
  assert (Hmf : m !! fname f = Some (contents f)) by (apply Hm; by exists k, f).
  pose proof (filter_insert_length (fun f => fin_use f = true) (files s) k f' f Hf) as HL.
  unfold used in *. rewrite Hu, Hu' in HL. rewrite decide_True, decide_False in HL by done.
  split; [split; [by apply files_wf_insert|split]|split].
  - unfold used. simpl. lia.
  - intros i j a b Ha Hb Hua Hub Hab. simpl in *.
    apply list_insert_cases in Ha as [[-> ->]|[? Ha]], Hb as [[-> ->]|[? Hb]]; try congruence.
    by apply (Huniq i j a b).
  - intros q c. simpl. rewrite lookup_delete_Some, Hm. split.
    + intros (Hq & i & a & Ha & Hua & Hna & Hca). exists i, a.
      rewrite list_lookup_insert_ne; [done|]. intros <-. congruence.
    + intros (i & a & Ha & Hua & Hna & Hca). apply list_insert_cases in Ha as [[-> ->]|[Hik Ha]]; [congruence|].
      split; [|by exists i, a]. intros E. destruct Hik.
      apply (Huniq i k a f); done || congruence.
  - simpl. rewrite map_size_delete, Hmf. 
    assert (0 < size m)%nat; [|lia].
    destruct (size m) eqn:E; [|lia]. apply map_size_empty_inv in E. subst.
    by rewrite lookup_empty in Hmf.
Qed.
End Rep.

(** ** Every operation implements the specification *)

(** The contents of a file after [ramfs_write] has copied [bs] to [off]. *)
Lemma splice_contents (d bs : list Z) (sz off : nat) :
  (off + length bs <= length d)%nat -> (sz <= length d)%nat ->
  take (Nat.max sz (off + length bs)) (take off d ++ bs ++ drop (off + length bs) d) =
  take off (take sz d) ++ take (off - sz) (drop sz d) ++ bs ++
  drop (off + length bs) (take sz d).
Proof.
  intros Hl Hs.
  assert (E1 : take off (take sz d) ++ take (off - sz) (drop sz d) = take off d).
  { destruct (decide (off <= sz)%nat).
    - rewrite (proj2 (Nat.sub_0_le off sz)) by done. rewrite take_0, app_nil_r.
      rewrite take_take. by rewrite Nat.min_l by lia.
    - rewrite take_take, Nat.min_r by lia. rewrite take_take_drop. f_equal. lia. }
  trans (take off d ++ bs ++ drop (off + length bs) (take sz d)).
  2: { by rewrite <- E1, <- app_assoc. }
  rewrite !take_app.
  rewrite firstn_all2 by (rewrite length_take; lia). f_equal.
  rewrite length_take, Nat.min_l by lia.
  rewrite firstn_all2 by lia. f_equal.
  rewrite skipn_firstn_comm. f_equal. lia.
Qed.

Lemma file_wf_lookup s k f : files_wf s -> files s !! k = Some f -> file_wf f.
Proof. intros [_ H] Hf. by apply (Forall_lookup_1 _ _ _ _ H Hf). Qed.

Lemma contents_length f : file_wf f -> length (contents f) = Z.to_nat (fsize f).
Proof. intros (? & ? & _). unfold contents. rewrite length_take. lia. Qed.

Definition refines (op : ramfs_op) (s : ramfs) (m : gmap (list Z) (list Z)) : Prop :=
  wp (run_op op) (fun r s' o => o = [] /\ exists m', ramfs_wf s' /\ rep s' m' /\
    ramfs_spec op m r m') s.

Section Refinement.
Context (s : ramfs) (m : gmap (list Z) (list Z)) (Hwf : ramfs_wf s) (Hrep : rep s m).

Lemma rep_is_found nm k : find_file s nm = Some k -> is_Some (m !! key nm).
Proof. intros (f & _ & _ & _ & _ & ->)%(rep_found s m Hwf Hrep). by eexists. Qed.

Lemma size_bound : (size m <= RAMFS_MAX_FILES)%nat.
Proof.
  destruct Hrep as [_ Hs], Hwf as ((Hl & _) & Hc & _).
  pose proof (length_filter (fun f => fin_use f = true) (files s)).
  unfold used in Hc. lia.
Qed.

Lemma ramfs_create_refines nm : padded nm -> refines (RCreate nm) s m.
Proof.
  intros Hp. unfold refines. simpl. unfold ramfs_create. wp_step. wp_step. wp_step.
  destruct (find_file s nm) as [k|] eqn:Hfind.
  { wp_go. split; [done|]. exists m. split_and!; try done. constructor.
    by eapply rep_is_found. }
  pose proof (rep_missing s m Hwf Hrep nm Hfind) as Hmiss.
  destruct (first_free (files s) 0) as [i|] eqn:Hfree.
  - apply first_free_Some in Hfree as [_ (f & Hf & Hu)]. rewrite Nat.sub_0_r in Hf.
    wp_step. eapply wp_of_opt; [done|]. wp_go. split; [done|].
    destruct (file_wf_lookup s i f) as (Hd & _ & _); [apply Hwf|done|].
    set (f' := mk_file (stored_name nm) 0 true (fdata f)).
    assert (Hfile : file_wf f').
    { split_and!; simpl; try lia. intros _. apply stored_name_padded. }
    destruct (rep_add s m Hwf Hrep i f f' Hf Hu eq_refl) as [Hwf' Hrep']; [|done|].
    { simpl. by rewrite <- Hp. }
    assert (Hnf : (size m < RAMFS_MAX_FILES)%nat).
    { destruct Hrep as [_ Hs], Hwf as ((Hl & _) & Hc & _).
      pose proof (filter_insert_length (fun f => fin_use f = true) (files s) i f' f Hf) as HL.
      pose proof (length_filter (fun f => fin_use f = true) (<[i:=f']> (files s))) as HB.
      rewrite length_insert in HB.
      cbv beta in HL. rewrite decide_False, decide_True in HL by (done || congruence).
      unfold used in Hc. lia. }
    destruct Hrep as [_ Hs]. unfold RAMFS_MAX_FILES in Hnf.
    rewrite (u32_small (file_count s + 1)) by lia.
    exists (<[key nm := []]> m). split_and!.
    + apply Hwf'.
    + change (fname f') with (stored_name nm) in Hrep'. rewrite <- Hp in Hrep'. apply Hrep'.
    + by constructor.
  - apply first_free_None in Hfree. wp_go. split; [done|]. exists m. split_and!; try done.
    apply SCreateFull; [done|]. destruct Hrep as [_ Hs], Hwf as ((Hl & _) & Hc & _).
    unfold used in Hc. rewrite Hfree in Hc. lia.
Qed.

Lemma write_refines nm src len off :
  0 <= len < 2 ^ 32 -> 0 <= off < 2 ^ 32 -> refines (RWrite nm src len off) s m.
Proof.
  intros Hlen Hoff. unfold refines. simpl. unfold ramfs_write. wp_step. wp_step. wp_step.
  destruct (find_file s nm) as [k|] eqn:Hfind.
  2: { wp_go. split; [done|]. exists m. split_and!; try done. constructor.
       by apply (rep_missing s m Hwf Hrep). }
  pose proof (rep_is_found nm k Hfind) as Hsome.
  destruct (rep_found s m Hwf Hrep nm k Hfind) as (f & Hf & Hu & Hn & Hfw & Hm).
  unfold RAMFS_MAX_SIZE in *.
  wp_step; bool_hyps.
  { wp_go. split; [done|]. exists m. split_and!; try done. by constructor. }
  wp_step. eapply wp_of_opt; [done|]. cbn beta.
  rewrite (u32_small (4096 - off)) by lia.
  set (n := if len >? 4096 - off then 4096 - off else len).
  assert (Hn' : n = Z.min len (4096 - off)) by (unfold n; case_match; bool_hyps; lia).
  rewrite (u32_small (off + n)) by lia. rewrite i32_small by lia.
  set (bs := map src (seq 0 (Z.to_nat (off + n - off)))).
  assert (Hbs : length bs = Z.to_nat n).
  { unfold bs. rewrite length_map, length_seq. lia. }
  set (f' := mk_file _ _ _ _). destruct Hfw as (Hd & Hsz & Hz).
  assert (Hfs' : fsize f' = Z.max (fsize f) (off + n)).
  { unfold f'. simpl. case_match; bool_hyps; lia. }
  assert (Hfw' : file_wf f').
  { split_and!; [|lia..|].
    - unfold f'. simpl. rewrite !length_app, Hbs, length_take, length_drop. lia.
    - done. }
  destruct (rep_update s m Hwf Hrep k f f' Hf Hu Hu eq_refl Hfw') as [Hwf' Hrep'].
  wp_go. split; [done|]. eexists. split_and!; [exact Hwf'|exact Hrep'|].
  rewrite Hn. replace (contents f') with
    (spec_write (contents f) off
       (take (Z.to_nat off - Z.to_nat (fsize f)) (drop (Z.to_nat (fsize f)) (fdata f)))
       (map src (seq 0 (Z.to_nat n)))).
  - apply SWrite; [done|unfold RAMFS_MAX_SIZE; lia..|].
    rewrite length_take, length_drop, contents_length by done. lia.
  - replace (map src (seq 0 (Z.to_nat n))) with bs by (unfold bs; do 3 f_equal; lia).
    unfold spec_write, contents. rewrite Hfs'.
    replace (Z.to_nat (Z.max (fsize f) (off + n)))
      with (Nat.max (Z.to_nat (fsize f)) (Z.to_nat off + length bs)) by lia.
    unfold f'. simpl. replace (Z.to_nat (off + n)) with (Z.to_nat off + length bs)%nat by lia.
    symmetry. apply splice_contents; lia.
Qed.

Lemma read_refines nm len off :
  0 <= len -> 0 <= off -> off + len < 2 ^ 32 -> refines (RRead nm len off) s m.
Proof.
  intros Hlen Hoff Hsum. unfold refines. simpl. unfold ramfs_read. wp_step. wp_step.
  destruct (find_file s nm) as [k|] eqn:Hfind.
  2: { wp_go. split; [done|]. exists m. split_and!; try done. constructor.
       by apply (rep_missing s m Hwf Hrep). }
  destruct (rep_found s m Hwf Hrep nm k Hfind) as (f & Hf & Hu & Hn & (Hd & Hsz & Hz) & Hm).
  wp_step. eapply wp_of_opt; [done|]. cbn beta. rewrite (u32_small (off + len)) by lia.
  set (e := if off + len >? fsize f then fsize f else off + len).
  assert (He : e = Z.min (off + len) (fsize f)) by (unfold e; case_match; bool_hyps; lia).
  set (bs := take (Z.to_nat len) (drop (Z.to_nat off) (contents f))).
  assert (Hcl : length (contents f) = Z.to_nat (fsize f)).
  { unfold contents. rewrite length_take. lia. }
  assert (HR : ramfs_spec (RRead nm len off) m (Z.of_nat (length bs), bs) m).
  { by eapply SRead. }
  wp_step; bool_hyps; wp_go; (split; [done|]); exists m; split_and!; try done.
  - assert (bs = []) as Hb; [|by rewrite Hb in HR].
    unfold bs. rewrite (drop_ge (contents f)) by lia. by rewrite take_nil.
  - replace (take _ _) with bs.
    + replace (i32 _) with (Z.of_nat (length bs)); [done|].
      rewrite i32_small by lia. unfold bs. rewrite length_take, length_drop. lia.
    + unfold bs, contents. rewrite skipn_firstn_comm, take_take. f_equal. lia.
Qed.

Lemma delete_refines nm : refines (RDelete nm) s m.
Proof.
  unfold refines. simpl. unfold ramfs_delete. wp_step. wp_step. wp_step.
  destruct (find_file s nm) as [k|] eqn:Hfind.
  2: { wp_go. split; [done|]. exists m. split_and!; try done. constructor.
       by apply (rep_missing s m Hwf Hrep). }
  pose proof (rep_is_found nm k Hfind) as Hsome.
  destruct (rep_found s m Hwf Hrep nm k Hfind) as (f & Hf & Hu & Hn & (Hd & Hsz & Hz) & Hm).
  wp_step. eapply wp_of_opt; [done|]. set (f' := mk_file (fname f) 0 false (fdata f)).
  assert (Hfw' : file_wf f') by (split_and!; simpl; done || lia).
  destruct (rep_remove s m Hwf Hrep k f f' Hf Hu eq_refl Hfw') as [Hwf' Hrep'].
  pose proof size_bound as Hb. unfold RAMFS_MAX_FILES in Hb.
  assert (0 <= file_count s - 1).
  { destruct Hrep as [_ Hs], Hwf' as (_ & Hc & _). simpl in Hc. lia. }
  wp_go. split; [done|]. exists (delete (key nm) m).
  rewrite u32_small by (destruct Hrep as [_ Hs]; lia). rewrite <- Hn at 1.
  split_and!; [done|done|]. by constructor.
Qed.

Lemma query_refines nm : refines (RExists nm) s m /\ refines (RSize nm) s m.
Proof.
  unfold refines. simpl. unfold ramfs_exists, ramfs_size.
  pose proof (SExists nm m) as HE. pose proof (SSize nm m) as HS.
  destruct (find_file s nm) as [k|] eqn:Hfind.
  - destruct (rep_found s m Hwf Hrep nm k Hfind) as (f & Hf & Hu & Hn & Hfw & Hm).
    rewrite Hm in HE, HS. rewrite (contents_length f Hfw) in HS.
    destruct Hfw as (? & ? & ?). rewrite Z2Nat.id in HS by lia.
    split; wp_go; rewrite Hfind; [|wp_step; eapply wp_of_opt; [done|]; wp_go];
      (split; [done|]); exists m; split_and!; done.
  - pose proof (rep_missing s m Hwf Hrep nm Hfind) as Hm. rewrite Hm in HE, HS.
    split; wp_go; rewrite Hfind; wp_go; (split; [done|]); exists m; split_and!; done.
Qed.
End Refinement.

(** C6: on names padded to sixteen bytes and 32-bit ranges that do not wrap,
    every RAM file system operation runs without undefined behaviour, keeps the
    table well formed (32 slots, sizes within 4096, distinct names, an exact
    [file_count]) and does what the specification says of the map from names to
    contents: create, truncated write at an offset, read, delete, exists, size. *)
Theorem ramfs_refines op s m (Hwf : ramfs_wf s) (Hrep : rep s m) (Hop : op_ok op) :
  exists r s' m', run_op op s = Ok (r, s', []) /\ ramfs_wf s' /\ rep s' m' /\
    ramfs_spec op m r m'.
Proof.
  assert (H : refines op s m).
  { destruct op, Hop as [Hp Ha]; destruct_and?; eauto using ramfs_create_refines, write_refines,
      read_refines, delete_refines; by apply query_refines. }
  apply wp_run in H as (r & s' & o & E & -> & m' & ? & ? & ?). eauto 8.
Qed.

(** ** Concrete runs *)

Definition empty_file : ramfs_file := mk_file [] 0 false (replicate 4096 0).
Definition boot_ramfs : ramfs := mk_ramfs (replicate 32 empty_file) 0.

Definition motd : view := literal (bytes "motd") (fun _ => 0).
Definition motd_tail : view := literal (bytes "motd") (fun _ => 7).

Lemma boot_files_wf : files_wf boot_ramfs.
Proof. split; [done|]. by apply Forall_replicate. Qed.

Lemma boot_ramfs_wf : ramfs_wf boot_ramfs.
Proof.
  split; [apply boot_files_wf|split; [done|]].
  intros i j f g [-> _]%lookup_replicate_1. done.
Qed.

Lemma boot_ramfs_rep : rep boot_ramfs ∅.
Proof.
  split; [|done]. intros k c. rewrite lookup_empty. split; [done|].
  intros (i & f & [-> _]%lookup_replicate_1 & ? & _). done.
Qed.

Lemma motd_padded : padded motd.
Proof. reflexivity. Qed.

Lemma ramfs_unpadded_never_found_witness :
  files_wf boot_ramfs /\ ~ padded motd_tail /\
  ramfs_delete motd_tail boot_ramfs = Ok (RAMFS_ERR_NOTFOUND, boot_ramfs, []).
Proof.
  split; [apply boot_files_wf|]. assert (H : ~ padded motd_tail) by (by vm_compute).
  split; [exact H|]. apply (ramfs_unpadded_never_found boot_ramfs motd_tail boot_files_wf H).
Defined.

Lemma ramfs_refines_witness :
  exists r s' m', run_op (RCreate motd) boot_ramfs = Ok (r, s', []) /\ ramfs_wf s' /\
    rep s' m' /\ ramfs_spec (RCreate motd) ∅ r m'.
Proof.
  apply (ramfs_refines (RCreate motd) boot_ramfs ∅ boot_ramfs_wf boot_ramfs_rep).
  split; [apply motd_padded|exact I].
Defined.

(** A write with a gap exposes what the slot held before: the file created
    second reads back the bytes of the file deleted first. *)
Definition gap_run : M ramfs (Z * list Z) :=
  ramfs_create motd ;;; ramfs_write motd (fun _ => 65) 4 0 ;;; ramfs_delete motd ;;;
  ramfs_create motd ;;; ramfs_write motd (fun _ => 66) 1 4 ;;; ramfs_read motd 5 0.
Definition result {S A} (r : res (A * S * list Z)) : option A :=
  match r with Ok (a, _, _) => Some a | _ => None end.
Example gap_exposes_old_bytes :
  result (gap_run boot_ramfs) = Some (5, [65; 65; 65; 65; 66]).
Proof. vm_compute. reflexivity. Qed.

(** A read range that wraps around 32 bits returns a negative count. *)
Example read_wrap_negative :
  result ((ramfs_create motd ;;; ramfs_write motd (fun _ => 65) 4 0 ;;;
           ramfs_read motd (2 ^ 32 - 1) 2) boot_ramfs) = Some (-1, []).
Proof. vm_compute. reflexivity. Qed.
