(* ===== verification/Pmm.v ===== *)
(** * Physical memory manager (boot/aarch64/pmm.c)

    A bitmap of 32768 frames (one bit each, set when the frame is used) and a
    count of the free ones.  The abstract state is the set of free frames. *)

From S2P Require Import Prelude.

Definition PAGE_SIZE : Z := 4096.
Definition PAGE_SHIFT : Z := 12.
Definition KERNEL_BASE : Z := 0x40080000.
Definition RAM_START : Z := 0x40000000.
Definition RAM_SIZE : Z := 128 * 1024 * 1024.
Definition RAM_END : Z := RAM_START + RAM_SIZE.
Definition PAGE_ALIGN_UP (a : Z) : Z := Z.land (a + PAGE_SIZE - 1) (Z.lnot (PAGE_SIZE - 1)).

Definition PHYS_TO_FRAME (a : Z) : Z := Z.shiftr (u64 (a - RAM_START)) PAGE_SHIFT.
Definition FRAME_TO_PHYS (f : Z) : Z := u64 (u64 (Z.shiftl f PAGE_SHIFT) + RAM_START).

Definition BITMAP_SIZE : Z := RAM_SIZE / PAGE_SIZE / 8.
Definition TOTAL : Z := RAM_SIZE / PAGE_SIZE.

Record pmm := mk_pmm {
  pmm_bitmap : list Z; pmm_total_pages : Z; pmm_free_count : Z }.

Definition pmm_test_bit (bm : list Z) (f : Z) : option bool :=
  b ← aget bm (f / 8); Some (Z.land (Z.shiftr b (f mod 8)) 1 =? 1).
Definition pmm_set_bit (bm : list Z) (f : Z) : option (list Z) :=
  b ← aget bm (f / 8); aset bm (f / 8) (u8 (Z.lor b (Z.shiftl 1 (f mod 8)))).
Definition pmm_clear_bit (bm : list Z) (f : Z) : option (list Z) :=
  b ← aget bm (f / 8); aset bm (f / 8) (u8 (Z.land b (Z.lnot (Z.shiftl 1 (f mod 8))))).

Definition test_bit (f : Z) : M pmm bool :=
  let* s := get in of_opt (pmm_test_bit (pmm_bitmap s) f).
(** [pmm_set_bit(f)] for [n] successive frames. *)
Fixpoint set_bits (f : Z) (n : nat) : M pmm unit :=
  match n with
  | O => ret tt
  | S n' =>
      let* s := get in
      let* bm := of_opt (pmm_set_bit (pmm_bitmap s) f) in
      put (mk_pmm bm (pmm_total_pages s) (pmm_free_count s)) ;;;
      set_bits (f + 1) n'
  end.
(** [pmm_clear_bit(f); pmm_free_count++;] *)
Definition release (f : Z) : M pmm unit :=
  let* s := get in
  let* bm := of_opt (pmm_clear_bit (pmm_bitmap s) f) in
  put (mk_pmm bm (pmm_total_pages s) (u64 (pmm_free_count s + 1))).
Definition take_frames (n : Z) : M pmm unit :=
  modify (fun s => mk_pmm (pmm_bitmap s) (pmm_total_pages s) (u64 (pmm_free_count s - n))).

(** [for (f = start; f < end; f++) { pmm_clear_bit(f); pmm_free_count++; }] *)
Fixpoint init_loop (f : Z) (n : nat) : M pmm unit :=
  match n with
  | O => ret tt
  | S n' => release f ;;; init_loop (f + 1) n'
  end.

Definition reserve_end : Z := PAGE_ALIGN_UP (KERNEL_BASE + 18 * 1024 * 1024).

Definition pmm_init : M pmm unit :=
  put (mk_pmm (replicate (Z.to_nat BITMAP_SIZE) 255) TOTAL 0) ;;;
  let start := PHYS_TO_FRAME reserve_end in
  let end_ := PHYS_TO_FRAME RAM_END in
  init_loop start (Z.to_nat (end_ - start)).

(** The search of [pmm_alloc_page] from frame [f], [n] frames left. *)
Fixpoint alloc_loop (f : Z) (n : nat) : M pmm Z :=
  match n with
  | O => ret 0
  | S n' =>
      let* b := test_bit f in
      if negb b then
        set_bits f 1 ;;; take_frames 1 ;;; ret (FRAME_TO_PHYS f)
      else alloc_loop (f + 1) n'
  end.

Definition pmm_alloc_page : M pmm Z :=
  let* s := get in
  if pmm_free_count s =? 0 then ret 0 else alloc_loop 0 (Z.to_nat TOTAL).

(** The inner loop of [pmm_alloc_pages]: are the [n] frames from [f] on clear? *)
Fixpoint run_ok (f : Z) (n : nat) : M pmm bool :=
  match n with
  | O => ret true
  | S n' => let* b := test_bit f in if b then ret false else run_ok (f + 1) n'
  end.

Fixpoint alloc_run_loop (count f : Z) (n : nat) : M pmm Z :=
  match n with
  | O => ret 0
  | S n' =>
      let* ok := run_ok f (Z.to_nat count) in
      if ok then
        set_bits f (Z.to_nat count) ;;; take_frames count ;;; ret (FRAME_TO_PHYS f)
      else alloc_run_loop count (f + 1) n'
  end.

Definition pmm_alloc_pages (count : Z) : M pmm Z :=
  let* s := get in
  if (count =? 0) || (pmm_free_count s <? count) then ret 0 else
  alloc_run_loop count 0 (Z.to_nat (u64 (TOTAL - count) + 1)).

Definition pmm_free_page (addr : Z) : M pmm unit :=
  let f := PHYS_TO_FRAME addr in
  if f <? TOTAL then
    let* b := test_bit f in
    if b then release f else ret tt
  else ret tt.

Fixpoint free_loop (addr i : Z) (n : nat) : M pmm unit :=
  match n with
  | O => ret tt
  | S n' => pmm_free_page (u64 (addr + i * PAGE_SIZE)) ;;; free_loop addr (i + 1) n'
  end.
Definition pmm_free_pages (addr count : Z) : M pmm unit := free_loop addr 0 (Z.to_nat count).

Definition pmm_get_total_pages : M pmm Z := let* s := get in ret (pmm_total_pages s).
Definition pmm_get_free_pages : M pmm Z := let* s := get in ret (pmm_free_count s).

(** ** The bitmap as a set of frames *)

Definition bitmap_ok (bm : list Z) : Prop :=
  length bm = 4096%nat /\ Forall (fun b => 0 <= b < 256) bm.

Lemma frame_index f : 0 <= f < TOTAL -> 0 <= f / 8 < 4096 /\ 0 <= f mod 8 < 8.
Proof. change TOTAL with 32768. zlia. Qed.

Lemma byte_testbit_high b i : 0 <= b < 256 -> 8 <= i -> Z.testbit b i = false.
Proof.
  intros Hb Hi. rewrite <- (Z.mod_small b (2 ^ 8)) by lia. by apply Z.mod_pow2_bits_high.
Qed.

Lemma land_shiftr_one b i : 0 <= i -> (Z.land (Z.shiftr b i) 1 =? 1) = Z.testbit b i.
Proof.
  intros Hi. assert (E : Z.land (Z.shiftr b i) 1 = Z.b2z (Z.testbit b i)).
  { rewrite (Z.land_ones _ 1) by lia. change (2 ^ 1) with 2.
    by rewrite <- Z.bit0_mod, Z.shiftr_spec, Z.add_0_l by lia. }
  rewrite E. by destruct (Z.testbit b i).
Qed.

Section Bits.
Context (bm : list Z) (Hbm : bitmap_ok bm).

Lemma bitmap_get f : 0 <= f < TOTAL -> exists b, aget bm (f / 8) = Some b /\ 0 <= b < 256.
Proof.
  intros Hf. destruct (frame_index f Hf). destruct Hbm as [Hl Hb].
  destruct (aget_in bm (f / 8)) as [b Eb]; [lia|]. exists b. split; [done|].
  apply aget_Some in Eb as [_ Eb]. apply (Forall_lookup_1 _ _ _ _ Hb Eb).
Qed.

Lemma test_bit_spec f b :
  0 <= f < TOTAL -> aget bm (f / 8) = Some b ->
  pmm_test_bit bm f = Some (Z.testbit b (f mod 8)).
Proof.
  intros Hf Hb. unfold pmm_test_bit. rewrite Hb. simpl.
  rewrite land_shiftr_one; [done|]. destruct (frame_index f Hf). lia.
Qed.

Lemma test_bit_total f : 0 <= f < TOTAL -> exists b, pmm_test_bit bm f = Some b.
Proof.
  intros Hf. destruct (bitmap_get f Hf) as (b & Hb & _). eauto using test_bit_spec.
Qed.

(** Replacing a byte so that only bit [f mod 8] changes, to [v]. *)
Lemma bitmap_update f b b' v :
  0 <= f < TOTAL -> aget bm (f / 8) = Some b -> 0 <= b' < 256 ->
  (forall i, 0 <= i < 8 -> Z.testbit b' i = if i =? f mod 8 then v else Z.testbit b i) ->
  exists bm', aset bm (f / 8) b' = Some bm' /\ bitmap_ok bm' /\
    forall g, 0 <= g < TOTAL ->
      pmm_test_bit bm' g = if g =? f then Some v else pmm_test_bit bm g.
Proof.
  intros Hf Hb Hb' Hbits. destruct (frame_index f Hf) as [Hi Hj]. destruct Hbm as [Hl Hall].
  exists (<[Z.to_nat (f / 8) := b']> bm). rewrite aset_in by lia.
  split; [done|]. split.
  { split; [by rewrite length_insert|]. by apply Forall_insert. }
  intros g Hg. destruct (frame_index g Hg) as [Hgi Hgj]. unfold pmm_test_bit.
  destruct (decide (g / 8 = f / 8)) as [E|E].
  - rewrite E, aget_insert by lia. rewrite Hb. simpl. rewrite !land_shiftr_one by lia.
    rewrite Hbits by lia. pose proof (Z.div_mod g 8). pose proof (Z.div_mod f 8).
    destruct (g =? f) eqn:Egf; bool_hyps.
    + subst. by rewrite Z.eqb_refl.
    + assert ((g mod 8 =? f mod 8) = false) as ->; [apply Z.eqb_neq; lia|done].
  - rewrite aget_insert_ne by lia. assert ((g =? f) = false) as ->; [|done].
    apply Z.eqb_neq. congruence.
Qed.

Lemma set_bit_spec f :
  0 <= f < TOTAL ->
  exists bm', pmm_set_bit bm f = Some bm' /\ bitmap_ok bm' /\
    forall g, 0 <= g < TOTAL ->
      pmm_test_bit bm' g = if g =? f then Some true else pmm_test_bit bm g.
Proof.
  intros Hf. destruct (bitmap_get f Hf) as (b & Hb & Hr). destruct (frame_index f Hf).
  unfold pmm_set_bit. rewrite Hb. simpl. apply (bitmap_update f b); [done|done| |].
  - apply u8_range.
  - intros i Hi. unfold u8. rewrite Z.mod_pow2_bits_low by lia.
    rewrite Z.lor_spec, Z.shiftl_mul_pow2, Z.mul_1_l, Z.pow2_bits_eqb by lia.
    rewrite Z.eqb_sym. destruct (i =? f mod 8); [apply orb_true_r|apply orb_false_r].
Qed.

Lemma clear_bit_spec f :
  0 <= f < TOTAL ->
  exists bm', pmm_clear_bit bm f = Some bm' /\ bitmap_ok bm' /\
    forall g, 0 <= g < TOTAL ->
      pmm_test_bit bm' g = if g =? f then Some false else pmm_test_bit bm g.
Proof.
  intros Hf. destruct (bitmap_get f Hf) as (b & Hb & Hr). destruct (frame_index f Hf).
  unfold pmm_clear_bit. rewrite Hb. simpl. apply (bitmap_update f b); [done|done| |].
  - apply u8_range.
  - intros i Hi. unfold u8. rewrite Z.mod_pow2_bits_low by lia.
    rewrite Z.land_spec, Z.lnot_spec, Z.shiftl_mul_pow2, Z.mul_1_l, Z.pow2_bits_eqb by lia.
    rewrite Z.eqb_sym. destruct (i =? f mod 8); [apply andb_false_r|apply andb_true_r].
Qed.
End Bits.

(** [F] is the set of the clear bits of [bm], all of them frames. *)
Definition bits (bm : list Z) (F : gset Z) : Prop :=
  bitmap_ok bm /\ forall f, f ∈ F <-> 0 <= f < TOTAL /\ pmm_test_bit bm f = Some false.

(** [F] is the set of free frames of [s]. *)
Definition rep (s : pmm) (F : gset Z) : Prop :=
  bits (pmm_bitmap s) F /\ pmm_free_count s = Z.of_nat (size F) /\ pmm_total_pages s = TOTAL.

(** The frames [a .. a+n-1]. *)
Definition run (a : Z) (n : nat) : gset Z := list_to_set (seqZ a (Z.of_nat n)).

Lemma elem_of_run x a n : x ∈ run a n <-> a <= x < a + Z.of_nat n.
Proof. unfold run. rewrite elem_of_list_to_set, elem_of_seqZ. lia. Qed.

Lemma run_0 a : run a 0 = ∅.
Proof. apply set_eq. intros x. rewrite elem_of_run. set_solver by lia. Qed.

Lemma run_S a n : run a (S n) = {[a]} ∪ run (a + 1) n.
Proof. apply set_eq. intros x. rewrite elem_of_union, elem_of_singleton, !elem_of_run. lia. Qed.

Lemma size_run a n : size (run a n) = n.
Proof.
  unfold run. rewrite size_list_to_set by apply NoDup_seqZ. rewrite length_seqZ. lia.
Qed.

Lemma bits_range bm F f : bits bm F -> f ∈ F -> 0 <= f < TOTAL.
Proof. intros [_ H]. by intros [? _]%H. Qed.

Lemma free_size bm F : bits bm F -> (size F <= Z.to_nat TOTAL)%nat.
Proof.
  intros Hb. rewrite <- (size_run 0 (Z.to_nat TOTAL)). apply subseteq_size.
  intros x Hx. apply elem_of_run. apply (bits_range bm F x Hb) in Hx.
  rewrite Z2Nat.id; [lia|]. change TOTAL with 32768. lia.
Qed.

Section FrameRules.
Implicit Types (s : pmm) (F : gset Z).

Lemma wp_test_bit s F f (Q : bool -> pmm -> list Z -> Prop) :
  bits (pmm_bitmap s) F -> 0 <= f < TOTAL ->
  Q (negb (bool_decide (f ∈ F))) s [] -> wp (test_bit f) Q s.
Proof.
  intros [Hok HF] Hf HQ. unfold test_bit. wp_go.
  destruct (test_bit_total _ Hok f Hf) as [b Hb].
  eapply wp_of_opt; [done|]. simpl.
  assert (b = negb (bool_decide (f ∈ F))) as ->; [|done].
  case_bool_decide as HfF; simpl; destruct b; try done.
  - apply HF in HfF as [_ ?]. congruence.
  - destruct HfF. by apply HF.
Qed.

Lemma wp_set_bits s F f n :
  bits (pmm_bitmap s) F -> run f n ⊆ F ->
  wp (set_bits f n) (fun _ s' o => o = [] /\ bits (pmm_bitmap s') (F ∖ run f n) /\
    pmm_free_count s' = pmm_free_count s /\ pmm_total_pages s' = pmm_total_pages s) s.
Proof.
  revert s F f. induction n as [|n IH]; intros s F f Hb Hr; simpl.
  { wp_go. rewrite run_0, difference_empty_L. done. }
  rewrite run_S in *. assert (Hf : f ∈ F) by set_solver.
  pose proof (bits_range _ _ _ Hb Hf) as Hrange. destruct Hb as [Hok HF].
  destruct (set_bit_spec _ Hok f Hrange) as (bm' & Hset & Hok' & Hbits').
  wp_go. eapply wp_of_opt; [done|]. wp_go.
  eapply wp_mono; [apply (IH _ (F ∖ {[f]}) (f + 1))|].
  - split; [done|]. intros g. simpl. rewrite elem_of_difference, elem_of_singleton, HF. split.
    + intros [[Hg Hc] Hne]. split; [done|]. rewrite Hbits' by done.
      rewrite (proj2 (Z.eqb_neq g f)) by done. done.
    + intros [Hg Hc]. rewrite Hbits' in Hc by done. destruct (g =? f) eqn:E; [done|].
      apply Z.eqb_neq in E. done.
  - intros x Hx. pose proof Hx as Hx'. rewrite elem_of_run in Hx'.
    apply elem_of_difference. split; [set_solver|]. rewrite elem_of_singleton. lia.
  - simpl. intros _ s' o (-> & Hb' & Hc & Ht). split_and!; try done.
    by rewrite difference_difference_l_L in Hb'.
Qed.

Lemma wp_release s F f :
  rep s F -> 0 <= f < TOTAL -> f ∉ F ->
  wp (release f) (fun _ s' o => o = [] /\ rep s' (F ∪ {[f]})) s.
Proof.
  intros (Hb & Hc & Ht) Hf HfF. pose proof (free_size _ _ Hb) as Hsz.
  destruct Hb as [Hok HF]. unfold release.
  destruct (clear_bit_spec _ Hok f Hf) as (bm' & Hset & Hok' & Hbits').
  wp_go. eapply wp_of_opt; [done|]. wp_go. split; [done|].
  change TOTAL with 32768 in Hsz. split; [split; [done|]|split]; simpl.
  - intros g. rewrite elem_of_union, elem_of_singleton, HF. split.
    + intros [[Hg Hcl]| ->]; (split; [done|]); rewrite Hbits' by done.
      * by destruct (g =? f).
      * by rewrite Z.eqb_refl.
    + intros [Hg Hcl]. rewrite Hbits' in Hcl by done. destruct (g =? f) eqn:E; bool_hyps; auto.
  - rewrite u64_small by lia. rewrite size_union by set_solver. rewrite size_singleton. lia.
  - done.
Qed.

Lemma wp_init_loop s F f n :
  rep s F -> 0 <= f -> f + Z.of_nat n <= TOTAL -> (forall g, g ∈ F -> g < f) ->
  wp (init_loop f n) (fun _ s' o => o = [] /\ rep s' (F ∪ run f n)) s.
Proof.
  revert s F f. induction n as [|n IH]; intros s F f Hrep H0 HT HF; simpl.
  { wp_go. rewrite run_0, union_empty_r_L. done. }
  apply wp_bind. eapply wp_mono; [apply (wp_release s F)|]; [done|lia| |].
  { intros Hf%HF. lia. }
  simpl. intros _ s1 o1 [-> Hrep1]. eapply wp_mono; [apply (IH s1 _ (f + 1) Hrep1)|]; [lia|lia| |].
  - intros g [Hg%HF| ->%elem_of_singleton]%elem_of_union; lia.
  - simpl. intros _ s2 o2 [-> Hrep2]. split; [done|].
    rewrite run_S, union_assoc_L. done.
Qed.
End FrameRules.

Lemma bits_all_used bm (n : nat) :
  bm = replicate n 255 -> n = 4096%nat -> bits bm ∅.
Proof.
  intros -> ->. split.
  - split; [done|]. by apply Forall_replicate.
  - intros f. split; [by intros ?%not_elem_of_empty|]. intros [Hf Hc].
    destruct (frame_index f Hf) as [Hi Hj].
    assert (Ha : aget (replicate 4096 255) (f / 8) = Some 255).
    { apply aget_Some. split; [lia|]. apply lookup_replicate_2. lia. }
    unfold pmm_test_bit in Hc. rewrite Ha in Hc. simpl in Hc. rewrite land_shiftr_one in Hc by lia.
    change 255 with (Z.ones 8) in Hc. rewrite Z.ones_spec_low in Hc by lia. done.
Qed.

Lemma pmm_init_wp s :
  wp pmm_init (fun _ s' o => o = [] /\ rep s' (run 4736 (Z.to_nat 28032))) s.
Proof.
  unfold pmm_init. apply wp_bind, wp_put.
  replace (PHYS_TO_FRAME reserve_end) with 4736 by reflexivity.
  replace (PHYS_TO_FRAME RAM_END - 4736) with 28032 by reflexivity.
  remember (Z.to_nat 28032) as n eqn:En.
  eapply wp_mono.
  - apply (wp_init_loop _ ∅); [| |rewrite En; unfold TOTAL, RAM_SIZE, PAGE_SIZE; zlia|set_solver].
    + split_and!; [|reflexivity..]. by eapply bits_all_used.
    + lia.
  - intros _ s' o [-> H]. rewrite union_empty_l_L in H. done.
Qed.

(** ** The abstract allocator *)

Inductive pmm_op :=
| PAlloc
| PAllocN (n : Z)
| PFree (addr : Z)
| PFreeN (addr n : Z).

Definition run_op (op : pmm_op) : M pmm Z :=
  match op with
  | PAlloc => pmm_alloc_page
  | PAllocN n => pmm_alloc_pages n
  | PFree a => pmm_free_page a ;;; ret 0
  | PFreeN a n => pmm_free_pages a n ;;; ret 0
  end.

Definition frame_addr (f : Z) : Z := RAM_START + f * PAGE_SIZE.
Definition fits (F : gset Z) (f n : Z) : Prop := run f (Z.to_nat n) ⊆ F.
Definition spec_free (F : gset Z) (addr : Z) : gset Z :=
  if (RAM_START <=? addr) && (addr <? RAM_END)
  then F ∪ {[ (addr - RAM_START) / PAGE_SIZE ]} else F.

Inductive pmm_spec : pmm_op -> gset Z -> Z -> gset Z -> Prop :=
| SAllocNone F : F = ∅ -> pmm_spec PAlloc F 0 F
| SAlloc F f : f ∈ F -> (forall g, g ∈ F -> f <= g) ->
    pmm_spec PAlloc F (frame_addr f) (F ∖ {[f]})
| SAllocNNone F n : n = 0 \/ (forall f, ~ fits F f n) -> pmm_spec (PAllocN n) F 0 F
| SAllocN F n f : 0 < n -> fits F f n -> (forall g, fits F g n -> f <= g) ->
    pmm_spec (PAllocN n) F (frame_addr f) (F ∖ run f (Z.to_nat n))
| SFree F a : pmm_spec (PFree a) F 0 (spec_free F a)
| SFreeN F a n : pmm_spec (PFreeN a n) F 0
    (foldl spec_free F ((fun i => a + i * PAGE_SIZE) <$> seqZ 0 n)).

(** Arguments as the C types allow them; a freed range must not wrap around. *)
Definition op_ok (op : pmm_op) : Prop :=
  match op with
  | PAlloc => True
  | PAllocN n => 0 <= n < 2 ^ 64
  | PFree a => 0 <= a < 2 ^ 64
  | PFreeN a n => 0 <= a /\ 0 <= n /\ a + n * PAGE_SIZE <= 2 ^ 64
  end.

Lemma frame_addr_eq f : 0 <= f < TOTAL -> FRAME_TO_PHYS f = frame_addr f.
Proof.
  change TOTAL with 32768. intros Hf. unfold FRAME_TO_PHYS, frame_addr, PAGE_SHIFT, PAGE_SIZE, RAM_START.
  rewrite Z.shiftl_mul_pow2 by lia. rewrite !u64_small by (rewrite ?u64_small by lia; lia). lia.
Qed.

Lemma frame_of_addr a :
  0 <= a < 2 ^ 64 ->
  (PHYS_TO_FRAME a <? TOTAL) = (RAM_START <=? a) && (a <? RAM_END) /\
  (RAM_START <= a -> PHYS_TO_FRAME a = (a - RAM_START) / PAGE_SIZE).
Proof.
  intros Ha. unfold PHYS_TO_FRAME, PAGE_SHIFT. rewrite Z.shiftr_div_pow2 by lia.
  change (2 ^ 12) with 4096. change TOTAL with 32768. unfold RAM_END, RAM_SIZE, PAGE_SIZE, RAM_START.
  split.
  - destruct (decide (0x40000000 <= a)).
    + rewrite u64_small by lia. apply eq_true_iff_eq. rewrite andb_true_iff, Z.ltb_lt, Z.leb_le, Z.ltb_lt.
      zlia.
    + assert (u64 (a - 0x40000000) = a - 0x40000000 + 2 ^ 64) as -> by (unfold u64; zlia).
      apply eq_true_iff_eq. rewrite andb_true_iff, Z.ltb_lt, Z.leb_le, Z.ltb_lt. zlia.
  - intros. by rewrite u64_small by lia.
Qed.

Section Allocation.
Context (s : pmm) (F : gset Z) (Hrep : rep s F).

(** [set_bits] and [take_frames] on a free run. *)
Lemma wp_take_run f n (a : Z) (Q : Z -> pmm -> list Z -> Prop) :
  fits F f n -> 0 <= n ->
  (forall s', rep s' (F ∖ run f (Z.to_nat n)) -> Q a s' []) ->
  wp (set_bits f (Z.to_nat n) ;;; take_frames n ;;; ret a) Q s.
Proof.
  intros Hfit Hn HQ. destruct Hrep as (Hb & Hc & Ht).
  apply wp_bind. eapply wp_mono; [by apply (wp_set_bits s F)|].
  intros _ s' o (-> & Hb' & Hc' & Ht'). unfold take_frames. wp_go.
  apply HQ. split; [done|]. simpl. split; [|congruence].
  pose proof (free_size _ _ Hb) as Hsz. pose proof (subseteq_size _ _ Hfit) as Hle.
  rewrite size_run in Hle. rewrite size_difference, size_run by done.
  change TOTAL with 32768 in Hsz. rewrite Hc', Hc, u64_small by lia. lia.
Qed.

Lemma wp_alloc_loop f n :
  0 <= f -> f + Z.of_nat n = TOTAL -> (forall g, g ∈ F -> f <= g) ->
  wp (alloc_loop f n) (fun r s' o => o = [] /\ exists F', rep s' F' /\ pmm_spec PAlloc F r F') s.
Proof.
  revert f. induction n as [|n IH]; intros f H0 HT HF; simpl.
  { wp_go. split; [done|]. exists F. split; [done|]. apply SAllocNone.
    apply set_eq. intros x. split; [|set_solver]. intros Hx.
    pose proof (HF x Hx). destruct Hrep as (Hb & _). pose proof (bits_range _ _ _ Hb Hx). lia. }
  apply wp_bind. eapply (wp_test_bit s F); [apply Hrep|lia|].
  case_bool_decide as Hf; simpl.
  - assert (Hfit : fits F f 1).
    { intros x. rewrite elem_of_run. intros. replace x with f by lia. done. }
    apply (wp_take_run f 1); [done|lia|]. intros s' Hr. split; [done|].
    rewrite frame_addr_eq by lia. eexists. split; [exact Hr|].
    change (Z.to_nat 1) with 1%nat. rewrite run_S, run_0, union_empty_r_L. by apply SAlloc.
  - eapply wp_mono; [apply (IH (f + 1))|]; [lia|lia| |intros ? ? ? H; exact H].
    intros g Hg. pose proof (HF g Hg). assert (f <> g) by congruence. lia.
Qed.

Lemma wp_run_ok f n :
  0 <= f -> f + Z.of_nat n <= TOTAL ->
  wp (run_ok f n) (fun b s' o => o = [] /\ s' = s /\ b = bool_decide (run f n ⊆ F)) s.
Proof.
  revert f. induction n as [|n IH]; intros f H0 HT; simpl.
  { wp_go. rewrite run_0. split_and!; [done..|]. symmetry. apply bool_decide_eq_true. set_solver. }
  apply wp_bind. eapply (wp_test_bit s F); [apply Hrep|lia|].
  case_bool_decide as Hf; simpl.
  - eapply wp_mono; [apply (IH (f + 1)); lia|]. simpl. intros b s' o (-> & -> & ->).
    split_and!; [done..|]. apply bool_decide_ext. rewrite run_S. set_solver.
  - wp_go. split_and!; [done..|]. symmetry. apply bool_decide_eq_false.
    rewrite run_S. set_solver.
Qed.

Lemma fits_range f n : 0 < n -> fits F f n -> 0 <= f /\ f + n <= TOTAL.
Proof.
  intros Hn Hfit. destruct Hrep as (Hb & _).
  assert (H1 : f ∈ F) by (apply Hfit, elem_of_run; lia).
  assert (H2 : f + n - 1 ∈ F) by (apply Hfit, elem_of_run; lia).
  apply (bits_range _ _ _ Hb) in H1, H2. lia.
Qed.

Lemma wp_alloc_run_loop c f n :
  0 < c -> 0 <= f -> f + Z.of_nat n = TOTAL - c + 1 -> (forall g, fits F g c -> f <= g) ->
  wp (alloc_run_loop c f n)
    (fun r s' o => o = [] /\ exists F', rep s' F' /\ pmm_spec (PAllocN c) F r F') s.
Proof.
  intros Hc. revert f. induction n as [|n IH]; intros f H0 HT HF; simpl.
  { wp_go. split; [done|]. exists F. split; [done|]. apply SAllocNNone. right.
    intros g Hg. pose proof (HF g Hg). apply fits_range in Hg; lia. }
  apply wp_bind. eapply wp_mono; [apply (wp_run_ok f (Z.to_nat c)); lia|].
  simpl. intros b s' o (-> & -> & ->). case_bool_decide as Hfit.
  - apply (wp_take_run f c); [done|lia|]. intros s' Hr. split; [done|].
    rewrite frame_addr_eq by lia. eexists. split; [exact Hr|]. by apply SAllocN.
  - eapply wp_mono; [apply (IH (f + 1))|]; [lia|lia| |intros ? ? ? H; exact H].
    intros g Hg. pose proof (HF g Hg). assert (f <> g) by (intros <-; exact (Hfit Hg)). lia.
Qed.

Lemma free_count_zero : pmm_free_count s = 0 -> F = ∅.
Proof.
  destruct Hrep as (_ & Hc & _). intros H0. apply leibniz_equiv, size_empty_inv. lia.
Qed.

Lemma alloc_refines :
  wp pmm_alloc_page
    (fun r s' o => o = [] /\ exists F', rep s' F' /\ pmm_spec PAlloc F r F') s.
Proof.
  unfold pmm_alloc_page. apply wp_bind, wp_get. destruct (pmm_free_count s =? 0) eqn:E; bool_hyps.
  - wp_go. split; [done|]. exists F. split; [done|]. by apply SAllocNone, free_count_zero.
  - apply wp_alloc_loop; [lia|rewrite Z2Nat.id; [lia|by vm_compute]|].
    intros g Hg. destruct Hrep as (Hb & _). apply (bits_range _ _ _ Hb) in Hg. lia.
Qed.

Lemma alloc_pages_refines n :
  0 <= n ->
  wp (pmm_alloc_pages n)
    (fun r s' o => o = [] /\ exists F', rep s' F' /\ pmm_spec (PAllocN n) F r F') s.
Proof.
  intros Hn. unfold pmm_alloc_pages. apply wp_bind, wp_get.
  destruct Hrep as (Hb & Hc & _). pose proof (free_size _ _ Hb) as Hsz.
  destruct ((n =? 0) || (pmm_free_count s <? n)) eqn:E; bool_hyps.
  - wp_go. split; [done|]. exists F. split; [done|]. apply SAllocNNone.
    destruct (decide (n = 0)) as [|Hn0]; [by left|right]. intros f Hfit%subseteq_size.
    rewrite size_run in Hfit. destruct E; bool_hyps; lia.
  - apply wp_alloc_run_loop; [lia|lia| |].
    + change TOTAL with 32768 in *. rewrite u64_small; lia.
    + intros g Hg. apply fits_range in Hg; lia.
Qed.

Lemma free_refines a :
  0 <= a < 2 ^ 64 ->
  wp (pmm_free_page a) (fun _ s' o => o = [] /\ rep s' (spec_free F a)) s.
Proof.
  intros Ha. unfold pmm_free_page, spec_free. destruct (frame_of_addr a Ha) as [-> Hf].
  destruct ((RAM_START <=? a) && (a <? RAM_END)) eqn:E; [|wp_go; done].
  bool_hyps. rewrite Hf by done. apply wp_bind.
  assert (Hr : 0 <= (a - RAM_START) / PAGE_SIZE < TOTAL).
  { change TOTAL with 32768. unfold RAM_END, RAM_START, RAM_SIZE, PAGE_SIZE in *. zlia. }
  eapply (wp_test_bit s F); [apply Hrep|done|]. case_bool_decide as HF; simpl.
  - wp_go. split; [done|]. rewrite union_comm_L, subseteq_union_1_L by set_solver. done.
  - by apply wp_release.
Qed.
End Allocation.

Lemma free_loop_refines a n i s F :
  rep s F -> 0 <= a -> 0 <= i -> a + (i + Z.of_nat n) * PAGE_SIZE <= 2 ^ 64 ->
  wp (free_loop a i n) (fun _ s' o => o = [] /\
    rep s' (foldl spec_free F ((fun j => a + j * PAGE_SIZE) <$> seqZ i (Z.of_nat n)))) s.
Proof.
  unfold PAGE_SIZE. revert i s F. induction n as [|n IH]; intros i s F Hrep Ha Hi Hb; simpl.
  { by wp_go. }
  rewrite seqZ_cons by lia. simpl.
  assert (Hr : 0 <= a + i * PAGE_SIZE < 2 ^ 64) by (unfold PAGE_SIZE; lia).
  rewrite u64_small by done.
  apply wp_bind. eapply wp_mono; [by apply (free_refines s F Hrep)|].
  simpl. intros _ s1 o1 [-> Hr1]. eapply wp_mono; [apply (IH (i + 1) s1 _ Hr1); lia|].
  intros _ s2 o2 [-> Hr2]. split; [done|].
  replace (Z.pred (Z.of_nat (S n))) with (Z.of_nat n) by lia.
  rewrite Z.add_1_r in Hr2. exact Hr2.
Qed.


Definition boot_pmm : pmm := mk_pmm [] 0 0.

Lemma boot_rep : exists s, pmm_init boot_pmm = Ok (tt, s, []) /\ rep s (run 4736 (Z.to_nat 28032)).
Proof.
  destruct (wp_run _ _ _ (pmm_init_wp boot_pmm)) as ([] & s & o & E & -> & H). eauto.
Qed.

