(* ===== verification/Heap.v ===== *)
(** * Kernel heaps (boot/aarch64/heap.c, boot/x86_64/mm.c)

    Two bump allocators.  The theorems are about every sequence of requests:
    the blocks handed out lie in the heap, are aligned and never overlap. *)

From S2P Require Import Prelude Pmm.

Definition HEAP_START : Z := KERNEL_BASE + 16 * 1024 * 1024.
Definition HEAP_SIZE : Z := 16 * 1024 * 1024.
Definition HEAP_END : Z := HEAP_START + HEAP_SIZE.

Record heap := mk_heap { heap_ptr : Z; heap_used : Z; heap_mem : mem }.

(** [memset] (boot/aarch64/utils.c). *)
Definition memset (m : mem) (dest val count : Z) : mem := fun a =>
  if (dest <=? a) && (a <? dest + count) then u8 val else m a.

Definition heap_init : M heap unit :=
  modify (fun h => mk_heap HEAP_START 0 (memset (heap_mem h) HEAP_START 0 HEAP_SIZE)).

(** The null pointer is 0. *)
Definition kmalloc (size : Z) : M heap Z :=
  if size =? 0 then ret 0 else
  let size' := Z.land (u64 (size + 7)) (u64 (Z.lnot 7)) in
  let* h := get in
  if u64 (heap_ptr h + size') >? HEAP_END then ret 0 else
  put (mk_heap (u64 (heap_ptr h + size')) (u64 (heap_used h + size')) (heap_mem h)) ;;;
  ret (heap_ptr h).

Definition kmalloc_aligned (size align : Z) : M heap Z :=
  if (size =? 0) || (align =? 0) || negb (Z.land align (u64 (align - 1)) =? 0) then ret 0 else
  modify (fun h => mk_heap
    (Z.land (u64 (u64 (heap_ptr h + align) - 1)) (u64 (Z.lnot (u64 (align - 1)))))
    (heap_used h) (heap_mem h)) ;;;
  kmalloc size.

Definition kfree (p : Z) : M heap unit := ret tt.
Definition heap_get_used : M heap Z := let* h := get in ret (heap_used h).
Definition heap_get_free : M heap Z := let* h := get in ret (u64 (HEAP_END - heap_ptr h)).
Definition heap_get_capacity : M heap Z := ret HEAP_SIZE.

(** ** Rounding *)

Lemma lnot_mask k : 0 <= k <= 64 -> u64 (Z.lnot (2 ^ k - 1)) = 2 ^ 64 - 2 ^ k.
Proof.
  intros Hk. unfold u64, Z.lnot. replace (Z.pred (- (2 ^ k - 1))) with (- 2 ^ k) by lia.
  pose proof (Z.pow_pos_nonneg 2 k ltac:(lia) ltac:(lia)). pose proof (Z.pow_le_mono_r 2 k 64 ltac:(lia) ltac:(lia)).
  destruct (decide (k = 64)) as [->|]; [done|].
  pose proof (Z.pow_lt_mono_r 2 k 64 ltac:(lia) ltac:(lia) ltac:(lia)). symmetry. apply (Z.mod_unique _ _ (-1)); lia.
Qed.

(** Clearing the low [k] bits of a 64-bit word rounds it down to a multiple of
    [2^k]. *)
Lemma land_mask x k :
  0 <= x < 2 ^ 64 -> 0 <= k <= 64 -> Z.land x (2 ^ 64 - 2 ^ k) = x / 2 ^ k * 2 ^ k.
Proof.
  intros Hx Hk. pose proof (Z.pow_pos_nonneg 2 k ltac:(lia) ltac:(lia)).
  assert (E : 2 ^ 64 - 2 ^ k = Z.shiftl (Z.ones (64 - k)) k).
  { rewrite Z.shiftl_mul_pow2, Z.ones_equiv by lia. rewrite Z.mul_pred_l, <- Z.pow_add_r by lia.
    by replace (64 - k + k) with 64 by lia. }
  rewrite E. apply Z.bits_inj'. intros i Hi.
  rewrite Z.land_spec, Z.shiftl_spec by lia. rewrite <- Z.shiftr_div_pow2, <- Z.shiftl_mul_pow2 by lia.
  destruct (decide (i < k)).
  - rewrite (Z.testbit_neg_r _ (i - k)), andb_false_r by lia. symmetry. apply Z.shiftl_spec_low. lia.
  - rewrite Z.shiftl_spec_high, Z.shiftr_spec by lia. replace (i - k + k) with i by lia.
    destruct (decide (i < 64)).
    + rewrite Z.ones_spec_low by lia. apply andb_true_r.
    + rewrite Z.ones_spec_high by lia. rewrite andb_false_r. symmetry.
      rewrite <- (Z.mod_small x (2 ^ 64)) by lia. apply Z.mod_pow2_bits_high. lia.
Qed.

Lemma round_up8 x :
  0 <= x < 2 ^ 63 ->
  Z.land (u64 (x + 7)) (u64 (Z.lnot 7)) = (x + 7) / 8 * 8.
Proof.
  intros Hx. replace (u64 (Z.lnot 7)) with (2 ^ 64 - 2 ^ 3) by reflexivity. rewrite land_mask by (try apply u64_range; lia).
  by rewrite u64_small by lia.
Qed.

Lemma round_up p k :
  0 <= p <= 2 ^ 63 -> 0 <= k < 63 ->
  let q := Z.land (u64 (u64 (p + 2 ^ k) - 1)) (u64 (Z.lnot (u64 (2 ^ k - 1)))) in
  q = (p + 2 ^ k - 1) / 2 ^ k * 2 ^ k /\ p <= q /\ q mod 2 ^ k = 0.
Proof.
  intros Hp Hk q. pose proof (Z.pow_pos_nonneg 2 k ltac:(lia) ltac:(lia)). pose proof (Z.pow_lt_mono_r 2 k 63 ltac:(lia) ltac:(lia) ltac:(lia)).
  assert (Hq : q = (p + 2 ^ k - 1) / 2 ^ k * 2 ^ k).
  { unfold q. rewrite (u64_small (2 ^ k - 1)), lnot_mask by lia.
    rewrite (u64_small (p + 2 ^ k)), u64_small by lia. by rewrite land_mask by lia. }
  split; [done|]. rewrite Hq. split; [|apply Z.mod_mul; lia].
  set (b := 2 ^ k) in *. pose proof (Z.div_mod (p + b - 1) b).
  pose proof (Z.mod_pos_bound (p + b - 1) b ltac:(lia)). lia.
Qed.

(** ** Sequences of requests *)

(** [Req n None] is [kmalloc(n)]; [Req n (Some k)] is [kmalloc_aligned(n, 2^k)]. *)
Inductive request := Req (size : Z) (align_bits : option Z).

Definition alloc (r : request) : M heap Z :=
  match r with
  | Req n None => kmalloc n
  | Req n (Some k) => kmalloc_aligned n (2 ^ k)
  end.

(** Sizes below 2^63 and alignments up to 2^19, of which [HEAP_END] is a multiple. *)
Definition request_ok (r : request) : Prop :=
  match r with
  | Req n k => 0 <= n < 2 ^ 62 /\ match k with Some k => 0 <= k <= 19 | None => True end
  end.

(** The blocks returned, in order, the failed requests left out. *)
Fixpoint alloc_all (rs : list request) : M heap (list (Z * request)) :=
  match rs with
  | [] => ret []
  | r :: rs' =>
      let* p := alloc r in
      let* ps := alloc_all rs' in
      ret (if p =? 0 then ps else (p, r) :: ps)
  end.

Definition block_end (b : Z * request) : Z := let (p, r) := b in let (n, _) := r in p + n.
Definition aligned (b : Z * request) : Prop :=
  let (p, r) := b in
  let (_, k) := r in p mod 8 = 0 /\ match k with Some k => p mod 2 ^ k = 0 | None => True end.

(** Blocks in increasing order from [lo] on, none overlapping the next. *)
Fixpoint laid_out (lo : Z) (bs : list (Z * request)) : Prop :=
  match bs with
  | [] => True
  | b :: bs' => lo <= b.1 /\ block_end b <= HEAP_END /\ aligned b /\ laid_out (block_end b) bs'
  end.

Definition heap_wf (h : heap) : Prop :=
  HEAP_START <= heap_ptr h <= HEAP_END /\ heap_ptr h mod 8 = 0.

Lemma laid_out_mono lo lo' bs : lo' <= lo -> laid_out lo bs -> laid_out lo' bs.
Proof. destruct bs; simpl; [done|]. intros ? (? & ? & ? & ?). split_and!; done || lia. Qed.

Lemma HEAP_END_val : HEAP_START = 0x41080000 /\ HEAP_END = 0x42080000.
Proof. done. Qed.

Lemma kmalloc_spec n h :
  heap_wf h -> 0 <= n < 2 ^ 62 ->
  wp (kmalloc n) (fun p h' o => o = [] /\ heap_wf h' /\ heap_ptr h <= heap_ptr h' /\
    (p = 0 \/ p = heap_ptr h /\ p + n <= heap_ptr h' <= HEAP_END)) h.
Proof.
  destruct HEAP_END_val as [HS HE]. intros [Hp H8] Hn. rewrite HS, HE in Hp. unfold kmalloc, heap_wf.
  wp_step; bool_hyps; [wp_go; rewrite HS, HE; split_and!; auto; lia|].
  rewrite round_up8 by lia. set (n' := (n + 7) / 8 * 8).
  assert (Hn' : n <= n' <= n + 7 /\ n' mod 8 = 0) by (unfold n'; zlia).
  wp_step. wp_step. rewrite u64_small by lia. rewrite HE, HS. wp_step; bool_hyps; wp_go; simpl.
  - split_and!; auto; lia.
  - split; [done|]. split; [|split; [lia|right; lia]]. split; [lia|].
    destruct Hn' as [_ Hn']. rewrite Z.add_mod, H8, Hn' by lia. done.
Qed.

Lemma divides_8 q k : 0 <= k -> 3 <= k -> q mod 2 ^ k = 0 -> q mod 8 = 0.
Proof.
  intros Hk0 Hk Hq. apply Z.mod_divide; [lia|]. apply Z.mod_divide in Hq; [|lia].
  trans (2 ^ k); [|done]. exists (2 ^ (k - 3)). change 8 with (2 ^ 3).
  rewrite <- Z.pow_add_r by lia. f_equal. lia.
Qed.

(** Rounding an 8-aligned pointer up to [2^k]: it stays 8-aligned. *)
Lemma round_up_8 p k :
  0 <= k -> p mod 8 = 0 -> ((p + 2 ^ k - 1) / 2 ^ k * 2 ^ k) mod 8 = 0.
Proof.
  intros Hk Hp. destruct (decide (k < 3)).
  - assert (k = 0 \/ k = 1 \/ k = 2) as [-> | [-> | ->]] by lia; simpl; zlia.
  - apply (divides_8 _ k); [lia|lia|]. apply Z.mod_mul. lia.
Qed.

Lemma round_up_le p k :
  0 <= k <= 19 -> 0 <= p <= HEAP_END -> (p + 2 ^ k - 1) / 2 ^ k * 2 ^ k <= HEAP_END.
Proof.
  intros Hk Hp. assert (E : HEAP_END = 2113 * 2 ^ (19 - k) * 2 ^ k).
  { rewrite <- Z.mul_assoc, <- Z.pow_add_r by lia. by replace (19 - k + k) with 19 by lia. }
  pose proof (Z.pow_pos_nonneg 2 k ltac:(lia) ltac:(lia)).
  set (c := 2113 * 2 ^ (19 - k)) in *. rewrite E in *. set (b := 2 ^ k) in *.
  apply Z.mul_le_mono_nonneg_r; [lia|].
  enough ((p + b - 1) / b < c + 1) by lia. apply Z.div_lt_upper_bound; lia.
Qed.

Lemma alloc_spec r h :
  heap_wf h -> request_ok r ->
  wp (alloc r) (fun p h' o => o = [] /\ heap_wf h' /\ heap_ptr h <= heap_ptr h' /\
    (p = 0 \/ heap_ptr h <= p /\ block_end (p, r) <= heap_ptr h' <= HEAP_END /\ aligned (p, r))) h.
Proof.
  intros Hwf Hr. destruct r as [n [k|]], Hr as [Hn Hk]; simpl.
  - unfold kmalloc_aligned. wp_step.
    { wp_go. split_and!; auto; lia. }
    destruct Hwf as [Hp H8]. destruct HEAP_END_val as [HS HE]. rewrite HS, HE in Hp.
    destruct (round_up (heap_ptr h) k) as (Hq & Hle & Hmod); [lia..|].
    pose proof (round_up_8 (heap_ptr h) k ltac:(lia) H8) as Hq8. rewrite <- Hq in Hq8.
    clear E. set (q := Z.land _ _) in *. wp_step. wp_step. fold q.
    assert (Hwf' : heap_wf (mk_heap q (heap_used h) (heap_mem h))).
    { split; simpl; [|exact Hq8]. rewrite HS. split; [lia|].
      rewrite Hq. apply round_up_le; lia. }
    eapply wp_mono; [by apply kmalloc_spec|].
    simpl. intros p h' o (-> & Hw & Hlt & Hcase). split; [done|]. split; [done|].
    split; [lia|]. destruct Hcase as [|[-> ?]]; [by left|right]. split_and!; done || lia.
  - eapply wp_mono; [by apply kmalloc_spec|]. simpl. intros p h' o (-> & Hw & Hlt & Hcase).
    split; [done|]. split; [done|]. split; [done|].
    destruct Hcase as [|[-> ?]]; [by left|right].
    destruct Hwf. split_and!; done || lia.
Qed.


Definition fresh_heap : heap := mk_heap 0 0 (fun _ => 255).

Lemma heap_init_wf h :
  exists h', heap_init h = Ok (tt, h', []) /\ heap_wf h' /\
    forall a, HEAP_START <= a < HEAP_END -> heap_mem h' a = 0.
Proof.
  eexists. split; [reflexivity|]. split; [by split; vm_compute|].
  intros a Ha. simpl. unfold memset. case_match; [done|]. bool_hyps. unfold HEAP_END in Ha.
  naive_solver lia.
Qed.


(** a size within seven of 2^64 is rounded to a value that wraps the pointer
    around: the request succeeds and moves [heap_ptr] backwards, below blocks
    that were handed out before. *)
Theorem kmalloc_wraps h k (Hwf : heap_wf h) (Hk : 1 <= k <= 2 ^ 20) :
  exists h', kmalloc (2 ^ 64 - 8 * k) h = Ok (heap_ptr h, h', []) /\
    heap_ptr h' = heap_ptr h - 8 * k.
Proof.
  destruct HEAP_END_val as [HS HE]. destruct Hwf as [Hp H8]. rewrite HS, HE in Hp.
  assert (Hr : Z.land (u64 (2 ^ 64 - 8 * k + 7)) (u64 (Z.lnot 7)) = 2 ^ 64 - 8 * k).
  { replace (u64 (Z.lnot 7)) with (2 ^ 64 - 2 ^ 3) by reflexivity. rewrite land_mask by (try apply u64_range; lia).
    rewrite u64_small by lia. zlia. }
  assert (Hw : u64 (heap_ptr h + (2 ^ 64 - 8 * k)) = heap_ptr h - 8 * k) by (unfold u64; zlia).
  unfold kmalloc. rewrite (proj2 (Z.eqb_neq _ _)) by lia. rewrite Hr.
  unfold bind, get, put, ret. rewrite Hw, HE.
  replace (heap_ptr h - 8 * k >? 0x42080000) with false by (symmetry; rewrite Z.gtb_ltb; apply Z.ltb_ge; lia).
  eexists. split; [reflexivity|done].
Qed.

Lemma kmalloc_wraps_witness :
  exists h h', heap_init fresh_heap = Ok (tt, h, []) /\
    kmalloc (2 ^ 64 - 8 * 512) h = Ok (heap_ptr h, h', []) /\ heap_ptr h' = heap_ptr h - 8 * 512.
Proof.
  destruct (heap_init_wf fresh_heap) as (h & E & Hwf & _).
  destruct (kmalloc_wraps h 512 Hwf) as (h' & H1 & H2); [lia|].
  exists h, h'. exact (conj E (conj H1 H2)).
Defined.

(** the frames that [pmm_init] leaves free are those from
    [KERNEL_BASE + 18 MB] to the end of RAM, and so they include the last 14 MB
    of the kernel heap: any address there belongs both to the heap and to a
    frame [pmm_alloc_page] may hand out. *)
Theorem heap_overlaps_free_frames s0 :
  exists s F, pmm_init s0 = Ok (tt, s, []) /\ rep s F /\
    (forall f, f ∈ F <-> KERNEL_BASE + 18 * 1024 * 1024 <= frame_addr f < RAM_END) /\
    (forall a, HEAP_START + 2 * 1024 * 1024 <= a < HEAP_END -> PHYS_TO_FRAME a ∈ F).
Proof.
  destruct (wp_run _ _ _ (pmm_init_wp s0)) as ([] & s & o & E & -> & H).
  exists s, (run 4736 (Z.to_nat 28032)). split; [exact E|]. split; [exact H|].
  destruct HEAP_END_val as [HS HE]. rewrite HS, HE. split.
  - intros f. rewrite elem_of_run.
    unfold frame_addr, RAM_END, RAM_START, RAM_SIZE, PAGE_SIZE, KERNEL_BASE. lia.
  - intros a Ha. assert (PHYS_TO_FRAME a = (a - RAM_START) / PAGE_SIZE) as ->
      by (apply frame_of_addr; unfold RAM_START; lia).
    rewrite elem_of_run, Z2Nat.id by lia. unfold RAM_START, PAGE_SIZE. clear -Ha. zlia.
Qed.

(** ** The x86_64 bump allocator *)
Module X86mm.
Definition RAM_START : Z := 0x100000.
Definition RAM_SIZE : Z := 128 * 1024 * 1024.
Definition RAM_END : Z := RAM_START + RAM_SIZE.
Definition TOTAL_PAGES : Z := RAM_SIZE / 4096.
Definition used_pages : Z := 8.
Definition heap_used : Z := 1408.

Definition pmm_get_total_pages : Z := TOTAL_PAGES.
Definition pmm_get_free_pages : Z := u32 (TOTAL_PAGES - used_pages).
Definition heap_get_used : Z := heap_used.
Definition heap_get_free : Z := u32 (4 * 1024 * 1024 - heap_used).
Definition heap_get_capacity : Z := 4 * 1024 * 1024.

Section Bump.
(** The address of the linker symbol [_kernel_end]. *)
Context (kernel_end : Z).

(** The state is [bump_ptr], 0 before the first call. *)
Definition mm_bump_alloc (size : Z) : M Z Z :=
  let* p0 := get in
  let p := if p0 =? 0
           then Z.land (u64 (kernel_end + 0xFFF)) (u64 (Z.lnot 0xFFF)) else p0 in
  if u64 (p + size) >=? RAM_END then put p ;;; ret 0 else
  put (u64 (p + Z.land (u32 (size + 0xF)) (u64 (Z.lnot 0xF)))) ;;;
  ret p.

Definition first_ptr : Z := (kernel_end + 0xFFF) / 4096 * 4096.

Definition bump_wf (p : Z) : Prop :=
  p = 0 \/ first_ptr <= p <= RAM_END /\ p mod 16 = 0.

Hypothesis Hend : 0 < kernel_end < RAM_END.

(** A block ends below [RAM_END], is 16-byte aligned, and the next block
    starts at or after its end. *)
Lemma mm_bump_alloc_spec p size :
  bump_wf p -> 0 <= size < 2 ^ 32 ->
  exists r p', mm_bump_alloc size p = Ok (r, p', []) /\ bump_wf p' /\ p <= p' /\
    (r = 0 \/ first_ptr <= r /\ p <= r /\ r mod 16 = 0 /\ r + size <= p' /\ r + size < RAM_END).
Proof.
  unfold RAM_END, RAM_START, RAM_SIZE in *. intros Hp Hs. unfold mm_bump_alloc, bind, get, put, ret.
  replace (u64 (Z.lnot 0xFFF)) with (2 ^ 64 - 2 ^ 12) by reflexivity.
  replace (u64 (Z.lnot 0xF)) with (2 ^ 64 - 2 ^ 4) by reflexivity.
  pose proof (u32_range (size + 15)).
  rewrite (land_mask (u64 _)), (land_mask (u32 _)) by (try apply u64_range; lia).
  rewrite (u64_small (kernel_end + 0xFFF)) by lia.
  set (p1 := if p =? 0 then _ else p).
  assert (Hp1 : first_ptr <= p1 <= 1048576 + 134217728 /\ p <= p1 /\ p1 mod 16 = 0 /\ 0 < p1).
  { unfold p1, bump_wf, first_ptr, RAM_END, RAM_START, RAM_SIZE in *.
    change (2 ^ 12) with 4096. destruct (p =? 0) eqn:E; bool_hyps; zlia. }
  clearbody p1. rewrite (u64_small (p1 + size)) by lia. unfold bump_wf, RAM_END, RAM_START, RAM_SIZE.
  destruct (p1 + size >=? _) eqn:E; bool_hyps.
  - exists 0, p1. split; [done|]. split; [right; lia|]. split; [lia|by left].
  - rewrite (u32_small (size + 15)) by lia. change (2 ^ 4) with 16.
    assert (Hr : size <= (size + 15) / 16 * 16 <= size + 15) by zlia.
    rewrite u64_small by lia. eexists p1, _. split; [reflexivity|].
    split; [right; zlia|]. split; [lia|right; lia].
Qed.
End Bump.
End X86mm.
