(* ===== verification/Vmm.v ===== *)
(** * Virtual memory (boot/aarch64/vmm.c)

    Page tables live in word-addressed memory; the kernel's three static tables
    are at addresses the linker chooses, which are parameters.  The translation
    walk is that of [vmm_get_phys], from any root. *)

From S2P Require Import Prelude Pmm Heap.

Definition PTE_VALID : Z := 1.
Definition PTE_TABLE : Z := 3.
Definition PTE_BLOCK : Z := 1.
Definition MT_DEVICE : Z := 0.
Definition MT_NORMAL : Z := 1.
Definition AP_RW_EL1 : Z := Z.shiftl 0 5.
Definition AP_RW_ALL : Z := Z.shiftl 1 5.
Definition AP_USER_RW : Z := Z.shiftl 1 5.
Definition PTE_AF : Z := Z.shiftl 1 10.
Definition SH_NONE : Z := Z.shiftl 0 8.
Definition SH_INNER : Z := Z.shiftl 3 8.
Definition USER_BLOCK_RWX : Z :=
  Z.lor (Z.lor (Z.lor PTE_AF (Z.shiftl MT_NORMAL 2)) SH_INNER) AP_USER_RW.
Definition USER_VA_BASE : Z := 0x8000000000.
Definition NOT_FFF : Z := u64 (Z.lnot 0xFFF).
Definition NOT_1FFFFF : Z := u64 (Z.lnot 0x1FFFFF).

Definition AS_MAX_TABLES : Z := 16.

(** [self] is true while the block's self pointer is its own address. *)
Record addr_space := mk_as {
  pgd : Z; tables : list Z; table_count : Z; user_region : Z; self : bool }.

(** [words] is the memory of page tables, by the address of each 64-bit word;
    [spaces] are the [addr_space_t] blocks on the kernel heap, by address. *)
Record vmm := mk_vmm {
  frames : pmm; kheap : heap; words : Z -> Z; spaces : gmap Z addr_space;
  as_active : Z; mair_el1 : Z; tcr_el1 : Z; ttbr0_el1 : Z; sctlr_el1 : Z }.

Definition set_frames (p : pmm) (s : vmm) : vmm :=
  mk_vmm p (kheap s) (words s) (spaces s) (as_active s) (mair_el1 s) (tcr_el1 s)
    (ttbr0_el1 s) (sctlr_el1 s).
Definition set_kheap (h : heap) (s : vmm) : vmm :=
  mk_vmm (frames s) h (words s) (spaces s) (as_active s) (mair_el1 s) (tcr_el1 s)
    (ttbr0_el1 s) (sctlr_el1 s).
Definition set_words (w : Z -> Z) (s : vmm) : vmm :=
  mk_vmm (frames s) (kheap s) w (spaces s) (as_active s) (mair_el1 s) (tcr_el1 s)
    (ttbr0_el1 s) (sctlr_el1 s).
Definition set_spaces (m : gmap Z addr_space) (s : vmm) : vmm :=
  mk_vmm (frames s) (kheap s) (words s) m (as_active s) (mair_el1 s) (tcr_el1 s)
    (ttbr0_el1 s) (sctlr_el1 s).
Definition set_ttbr (active ttbr : Z) (s : vmm) : vmm :=
  mk_vmm (frames s) (kheap s) (words s) (spaces s) active (mair_el1 s) (tcr_el1 s)
    ttbr (sctlr_el1 s).

Definition in_pmm {A} (m : M pmm A) : M vmm A := zoom frames set_frames m.
Definition in_heap {A} (m : M heap A) : M vmm A := zoom kheap set_kheap m.

(** [t->entries[i]] *)
Definition entry (w : Z -> Z) (t i : Z) : Z := w (t + 8 * i).
Definition set_entry (w : Z -> Z) (t i v : Z) : Z -> Z := fun a =>
  if a =? t + 8 * i then v else w a.
(** [memset(t, 0, sizeof(page_table_t))] *)
Definition zero_table (w : Z -> Z) (t : Z) : Z -> Z := fun a =>
  if (t <=? a) && (a <? t + 4096) then 0 else w a.

Definition idx (va sh : Z) : Z := Z.land (Z.shiftr va sh) 0x1FF.

Definition get_as (as_ : Z) : M vmm addr_space :=
  let* s := get in of_opt (spaces s !! as_).
Definition put_as (as_ : Z) (a : addr_space) : M vmm unit :=
  modify (fun s => set_spaces (<[as_ := a]> (spaces s)) s).
Definition store (t i v : Z) : M vmm unit :=
  modify (fun s => set_words (set_entry (words s) t i v) s).
Definition load (t i : Z) : M vmm Z :=
  let* s := get in ret (entry (words s) t i).

Definition as_alloc_table (as_ : Z) : M vmm Z :=
  let* pa := in_pmm pmm_alloc_page in
  let* a := get_as as_ in
  if (pa =? 0) || (table_count a >=? AS_MAX_TABLES) then ret 0 else
  modify (fun s => set_words (zero_table (words s) pa) s) ;;;
  let* ts := of_opt (aset (tables a) (table_count a) pa) in
  put_as as_ (mk_as (pgd a) ts (table_count a + 1) (user_region a) (self a)) ;;;
  ret pa.

Definition SIZEOF_ADDR_SPACE : Z := 160.

Section Kernel.
(** The addresses of [kernel_pgd], [kernel_pud] and [kernel_pmd]. *)
Context (kernel_pgd kernel_pud kernel_pmd : Z).

(** [for (i = 0; i < 512; i++) pgd->entries[i] = kernel_pgd.entries[i];] *)
Fixpoint copy_pgd (p : Z) (i : Z) (n : nat) : M vmm unit :=
  match n with
  | O => ret tt
  | S n' => let* e := load kernel_pgd i in store p i e ;;; copy_pgd p (i + 1) n'
  end.

Definition as_create : M vmm Z :=
  let* meta := in_heap (kmalloc SIZEOF_ADDR_SPACE) in
  if meta =? 0 then ret 0 else
  put_as meta (mk_as 0 (replicate 16 0) 0 0 true) ;;;
  let* p := as_alloc_table meta in
  if p =? 0 then in_heap (kfree meta) ;;; ret 0 else
  let* a := get_as meta in
  put_as meta (mk_as p (tables a) (table_count a) (user_region a) (self a)) ;;;
  copy_pgd p 0 512 ;;;
  ret meta.

Definition as_switch (as_ : Z) : M vmm unit :=
  let* s := get in
  if as_ =? as_active s then ret tt else
  let* ttbr := (if as_ =? 0 then ret kernel_pgd else let* a := get_as as_ in ret (pgd a)) in
  modify (set_ttbr as_ ttbr).

Fixpoint free_tables (ts : list Z) : M vmm unit :=
  match ts with
  | [] => ret tt
  | t :: ts' => in_pmm (pmm_free_page t) ;;; free_tables ts'
  end.

Definition as_destroy (as_ : Z) : M vmm unit :=
  if as_ =? 0 then ret tt else
  let* a := get_as as_ in
  if negb (self a) then ret tt else
  (if negb (user_region a =? 0) then in_pmm (pmm_free_pages (user_region a) 512) else ret tt) ;;;
  free_tables (take (Z.to_nat (table_count a)) (tables a)) ;;;
  let* s := get in
  (if as_active s =? as_ then as_switch 0 else ret tt) ;;;
  put_as as_ (mk_as (pgd a) (tables a) (table_count a) (user_region a) false) ;;;
  in_heap (kfree as_).

Definition as_current : M vmm Z := let* s := get in ret (as_active s).

(** The table that entry [i] of [t] points at; a fresh one when it is empty
    (0 when that fails). *)
Definition next_table (as_ t i : Z) : M vmm Z :=
  let* e := load t i in
  if Z.land e PTE_TABLE =? 0 then
    let* n := as_alloc_table as_ in
    if n =? 0 then ret 0 else
    store t i (Z.lor (Z.land n NOT_FFF) PTE_TABLE) ;;;
    ret n
  else ret (Z.land e NOT_FFF).

(** A table at address 0 cannot come out of an entry this code writes; the
    source would dereference it, hence [ub]. *)
Definition as_map_block (as_ va pa attrs : Z) : M vmm Z :=
  if as_ =? 0 then ret (-1) else
  let* a := get_as as_ in
  if negb (self a) || negb (Z.land va 0x1FFFFF =? 0) || negb (Z.land pa 0x1FFFFF =? 0)
  then ret (-1) else
  if table_count a >=? AS_MAX_TABLES - 2 then ret (-1) else
  let* e := load (pgd a) (idx va 39) in
  let* pud := next_table as_ (pgd a) (idx va 39) in
  if pud =? 0 then (if Z.land e PTE_TABLE =? 0 then ret (-1) else ub) else
  let* e' := load pud (idx va 30) in
  let* pmd := next_table as_ pud (idx va 30) in
  if pmd =? 0 then (if Z.land e' PTE_TABLE =? 0 then ret (-1) else ub) else
  store pmd (idx va 21) (Z.lor (Z.lor (Z.land pa NOT_1FFFFF) attrs) PTE_VALID) ;;;
  ret 0.

Definition map_block (va pa attrs : Z) : M vmm unit :=
  store kernel_pgd (idx va 39) (Z.lor kernel_pud PTE_TABLE) ;;;
  store kernel_pud (idx va 30) (Z.lor kernel_pmd PTE_TABLE) ;;;
  store kernel_pmd (idx va 21) (Z.lor (Z.land pa NOT_1FFFFF) attrs).

Definition ram_attrs : Z :=
  Z.lor (Z.lor (Z.lor (Z.lor PTE_AF (Z.shiftl MT_NORMAL 2)) AP_RW_ALL) SH_INNER) PTE_BLOCK.
Definition dev_attrs : Z :=
  Z.lor (Z.lor (Z.lor (Z.lor PTE_AF (Z.shiftl MT_DEVICE 2)) AP_RW_EL1) SH_NONE) PTE_BLOCK.

(** [for (a = 0x40000000; a < 0x48000000; a += 0x200000) map_block(a, a, ram);] *)
Fixpoint map_ram (a : Z) (n : nat) : M vmm unit :=
  match n with
  | O => ret tt
  | S n' => map_block a a ram_attrs ;;; map_ram (a + 0x200000) n'
  end.

Definition vmm_init : M vmm unit :=
  modify (fun s => set_words (zero_table (zero_table (zero_table (words s)
    kernel_pgd) kernel_pud) kernel_pmd) s) ;;;
  map_block 0x08000000 0x08000000 dev_attrs ;;;
  map_block 0x09000000 0x09000000 dev_attrs ;;;
  map_block 0x0A000000 0x0A000000 dev_attrs ;;;
  map_ram 0x40000000 64.

Definition MAIR_VALUE : Z := Z.lor (Z.lor 0 (Z.shiftl 0xFF 8)) (Z.shiftl 0x44 16).
Definition TCR_VALUE : Z :=
  Z.lor (Z.lor (Z.lor (Z.lor 16 (Z.shiftl 1 8)) (Z.shiftl 1 10)) (Z.shiftl 3 12)) (Z.shiftl 2 32).

Definition mmu_apply (pgd_pa : Z) : M vmm unit :=
  modify (fun s => mk_vmm (frames s) (kheap s) (words s) (spaces s) (as_active s)
    MAIR_VALUE TCR_VALUE pgd_pa
    (Z.lor (sctlr_el1 s) (Z.lor (Z.lor 1 (Z.shiftl 1 2)) (Z.shiftl 1 12)))).

Definition vmm_enable_mmu : M vmm unit :=
  modify (fun s => set_ttbr 0 (ttbr0_el1 s) s) ;;; mmu_apply kernel_pgd.
Definition vmm_ap_enable_mmu : M vmm unit := mmu_apply kernel_pgd.

(** The walk of [vmm_get_phys] from the table at [root]. *)
Definition walk (w : Z -> Z) (root virt : Z) : Z :=
  let e0 := entry w root (idx virt 39) in
  if Z.land e0 PTE_VALID =? 0 then 0 else
  let e1 := entry w (Z.land e0 NOT_FFF) (idx virt 30) in
  if Z.land e1 PTE_VALID =? 0 then 0 else
  let e := entry w (Z.land e1 NOT_FFF) (idx virt 21) in
  if Z.land e PTE_VALID =? 0 then 0 else
  if Z.land e 3 =? 1 then Z.lor (Z.land e NOT_1FFFFF) (Z.land virt 0x1FFFFF) else
  let pe := entry w (Z.land e NOT_FFF) (idx virt 12) in
  if Z.land pe PTE_VALID =? 0 then 0 else
  Z.lor (Z.land pe NOT_FFF) (Z.land virt 0xFFF).

Definition vmm_get_phys (virt : Z) : M vmm Z :=
  let* s := get in ret (walk (words s) kernel_pgd virt).
End Kernel.

(** ** Words and entries *)

Definition table_addr (t : Z) : Prop := 0 < t < 2 ^ 48 /\ t mod 4096 = 0.

Lemma idx_div va sh : 0 <= sh -> idx va sh = (va / 2 ^ sh) mod 512.
Proof.
  intros. unfold idx. rewrite (land_low _ 9), Z.shiftr_div_pow2 by lia. done.
Qed.

Lemma idx_range va sh : 0 <= sh -> 0 <= idx va sh < 512.
Proof. intros. rewrite idx_div by done. zlia. Qed.

Lemma table_entry t : table_addr t ->
  Z.lor (Z.land t NOT_FFF) PTE_TABLE = t + 3 /\ Z.lor t PTE_TABLE = t + 3 /\
  Z.land (t + 3) NOT_FFF = t /\ Z.land (t + 3) PTE_VALID = 1 /\ Z.land (t + 3) PTE_TABLE = 3.
Proof.
  intros [Ht Hm]. change NOT_FFF with (2 ^ 64 - 2 ^ 12). unfold PTE_TABLE, PTE_VALID.
  rewrite !land_mask by lia. change (2 ^ 12) with 4096.
  replace (t / 4096 * 4096) with t by zlia.
  rewrite (lor_low t 3 12), (land_low _ 1), (land_low _ 2) by (done || lia).
  repeat split; zlia.
Qed.

Lemma block_entry pa attrs : 0 <= pa < 2 ^ 48 -> pa mod 2 ^ 21 = 0 -> 0 <= attrs < 2 ^ 21 ->
  attrs mod 4 = 1 ->
  Z.lor (Z.land pa NOT_1FFFFF) attrs = pa + attrs /\ Z.land (pa + attrs) PTE_VALID = 1 /\
  Z.land (pa + attrs) 3 = 1 /\ Z.land (pa + attrs) NOT_1FFFFF = pa.
Proof.
  intros Hp Hm Ha H1. change NOT_1FFFFF with (2 ^ 64 - 2 ^ 21). unfold PTE_VALID.
  rewrite !land_mask by lia. replace (pa / 2 ^ 21 * 2 ^ 21) with pa by zlia.
  rewrite (lor_low pa attrs 21), (land_low _ 1), (land_low _ 2) by (done || lia).
  repeat split; zlia.
Qed.

(** Tables are 4 KB apart, so an entry belongs to one of them only. *)
Lemma entry_set w t i v t' i' :
  t mod 4096 = 0 -> t' mod 4096 = 0 -> 0 <= i < 512 -> 0 <= i' < 512 ->
  entry (set_entry w t i v) t' i' =
  if (t' =? t) && (i' =? i) then v else entry w t' i'.
Proof.
  intros. unfold entry, set_entry. destruct (t' + 8 * i' =? t + 8 * i) eqn:E; bool_hyps.
  - assert (t' = t /\ i' = i) as [-> ->] by zlia. by rewrite !Z.eqb_refl.
  - destruct ((t' =? t) && (i' =? i)) eqn:E'; [|done]. bool_hyps. subst. done.
Qed.

Lemma entry_zero w t t' i :
  t mod 4096 = 0 -> t' mod 4096 = 0 -> 0 <= i < 512 ->
  entry (zero_table w t) t' i = if t' =? t then 0 else entry w t' i.
Proof.
  intros. unfold entry, zero_table. destruct (t' =? t) eqn:E; bool_hyps.
  - subst. case_match; [done|]. bool_hyps. naive_solver lia.
  - case_match; [|done]. bool_hyps. zlia.
Qed.

(** The comparison of a valid bit, in a walk. *)
Ltac red_valid := change (1 =? 0) with false; cbv iota zeta.

(** ** The kernel's map *)

Section KernelMap.
Context (kernel_pgd kernel_pud kernel_pmd : Z).
Context (Hpgd : table_addr kernel_pgd) (Hpud : table_addr kernel_pud)
        (Hpmd : table_addr kernel_pmd).
Context (Hdist : kernel_pgd <> kernel_pud /\ kernel_pgd <> kernel_pmd /\ kernel_pud <> kernel_pmd).

(** What the three tables hold once the devices and [n] RAM blocks are mapped. *)
Definition pmd_entry (n i : Z) : Z :=
  if i <? n then 0x40000000 + i * 2 ^ 21 + 0x725
  else if (i =? 64) || (i =? 72) || (i =? 80) then i * 2 ^ 21 + 0x401 else 0.
Definition kernel_tables (n : Z) (w : Z -> Z) : Prop :=
  (forall i, 0 <= i < 512 -> entry w kernel_pgd i = if i =? 0 then kernel_pud + 3 else 0) /\
  (forall i, 0 <= i < 512 -> entry w kernel_pud i =
     if (i =? 0) || ((i =? 1) && (0 <? n)) then kernel_pmd + 3 else 0) /\
  (forall i, 0 <= i < 512 -> entry w kernel_pmd i = pmd_entry n i).

Definition blank (w : Z -> Z) : Z -> Z :=
  zero_table (zero_table (zero_table w kernel_pgd) kernel_pud) kernel_pmd.

(** The words after [map_block]. *)
Definition mapped (w : Z -> Z) (va pa attrs : Z) : Z -> Z :=
  set_entry (set_entry (set_entry w kernel_pgd (idx va 39) (kernel_pud + 3))
    kernel_pud (idx va 30) (kernel_pmd + 3)) kernel_pmd (idx va 21) (pa + attrs).

Lemma map_block_run va pa attrs s :
  0 <= pa < 2 ^ 48 -> pa mod 2 ^ 21 = 0 -> 0 <= attrs < 2 ^ 21 -> attrs mod 4 = 1 ->
  map_block kernel_pgd kernel_pud kernel_pmd va pa attrs s =
  Ok (tt, set_words (mapped (words s) va pa attrs) s, []).
Proof.
  intros Hp Hm Ha H1. unfold map_block, store, bind, modify. simpl.
  destruct (table_entry _ Hpud) as (_ & -> & _), (table_entry _ Hpmd) as (_ & -> & _).
  by destruct (block_entry pa attrs Hp Hm Ha H1) as (-> & _).
Qed.

(** Entries of the kernel tables after one more [map_block]. *)
Lemma mapped_entries w va pa attrs i :
  0 <= i < 512 ->
  let w' := mapped w va pa attrs in
  entry w' kernel_pgd i = (if i =? idx va 39 then kernel_pud + 3 else entry w kernel_pgd i) /\
  entry w' kernel_pud i = (if i =? idx va 30 then kernel_pmd + 3 else entry w kernel_pud i) /\
  entry w' kernel_pmd i = (if i =? idx va 21 then pa + attrs else entry w kernel_pmd i).
Proof.
  destruct Hpgd as [? ?], Hpud as [? ?], Hpmd as [? ?]. intros Hi. unfold mapped.
  pose proof (idx_range va 39). pose proof (idx_range va 30). pose proof (idx_range va 21).
  rewrite !entry_set by (done || lia). rewrite !Z.eqb_refl.
  destruct Hdist as (D1 & D2 & D3).
  rewrite (proj2 (Z.eqb_neq _ _) D1), (proj2 (Z.eqb_neq _ _) D2), (proj2 (Z.eqb_neq _ _) D3).
  rewrite (proj2 (Z.eqb_neq kernel_pmd _) (not_eq_sym D2)), (proj2 (Z.eqb_neq kernel_pmd _) (not_eq_sym D3)).
  rewrite (proj2 (Z.eqb_neq kernel_pud _) (not_eq_sym D1)). done.
Qed.

Definition device_map (w : Z -> Z) : Z -> Z :=
  mapped (mapped (mapped (blank w) 0x08000000 0x08000000 0x401) 0x09000000 0x09000000 0x401)
    0x0A000000 0x0A000000 0x401.

Lemma blank_entries w i : 0 <= i < 512 ->
  entry (blank w) kernel_pgd i = 0 /\ entry (blank w) kernel_pud i = 0 /\
  entry (blank w) kernel_pmd i = 0.
Proof.
  destruct Hpgd as [? ?], Hpud as [? ?], Hpmd as [? ?]. intros Hi. unfold blank.
  rewrite !entry_zero by (done || lia). rewrite !Z.eqb_refl.
  repeat case_match; done.
Qed.

Lemma device_map_tables w : kernel_tables 0 (device_map w).
Proof.
  unfold device_map. set (w1 := mapped (blank w) _ _ _). set (w2 := mapped w1 _ _ _).
  assert (H : forall i, 0 <= i < 512 ->
    entry (mapped w2 0x0A000000 0x0A000000 0x401) kernel_pgd i =
      (if i =? 0 then kernel_pud + 3 else 0) /\
    entry (mapped w2 0x0A000000 0x0A000000 0x401) kernel_pud i =
      (if i =? 0 then kernel_pmd + 3 else 0) /\
    entry (mapped w2 0x0A000000 0x0A000000 0x401) kernel_pmd i =
      (if i =? 80 then 80 * 2 ^ 21 + 0x401 else if i =? 72 then 72 * 2 ^ 21 + 0x401
       else if i =? 64 then 64 * 2 ^ 21 + 0x401 else 0)).
  { intros i Hi.
    destruct (mapped_entries w2 0x0A000000 0x0A000000 0x401 i Hi) as (-> & -> & ->).
    unfold w2. destruct (mapped_entries w1 0x09000000 0x09000000 0x401 i Hi) as (-> & -> & ->).
    unfold w1. destruct (mapped_entries (blank w) 0x08000000 0x08000000 0x401 i Hi) as (-> & -> & ->).
    destruct (blank_entries w i Hi) as (-> & -> & ->).
    repeat match goal with |- context [idx ?a ?b] =>
      let v := eval vm_compute in (idx a b) in change (idx a b) with v end.
    split_and!; [by destruct (i =? 0)..|done]. }
  split_and!; intros i Hi; destruct (H i Hi) as (H1 & H2 & H3).
  - exact H1.
  - rewrite H2, andb_false_r, orb_false_r. done.
  - rewrite H3. unfold pmd_entry. rewrite (proj2 (Z.ltb_ge i 0)) by lia.
    destruct (i =? 64) eqn:E1, (i =? 72) eqn:E2, (i =? 80) eqn:E3; bool_hyps; subst; done.
Qed.

Lemma map_one n w :
  0 <= n < 64 -> kernel_tables n w ->
  kernel_tables (n + 1) (mapped w (0x40000000 + n * 2 ^ 21) (0x40000000 + n * 2 ^ 21) 0x725).
Proof.
  intros Hn (H1 & H2 & H3).
  assert (I39 : idx (0x40000000 + n * 2 ^ 21) 39 = 0) by (rewrite idx_div by lia; zlia).
  assert (I30 : idx (0x40000000 + n * 2 ^ 21) 30 = 1) by (rewrite idx_div by lia; zlia).
  assert (I21 : idx (0x40000000 + n * 2 ^ 21) 21 = n) by (rewrite idx_div by lia; zlia).
  split_and!; intros i Hi;
    destruct (mapped_entries w (0x40000000 + n * 2 ^ 21) (0x40000000 + n * 2 ^ 21) 0x725 i Hi)
      as (E1 & E2 & E3); rewrite I39, I30, I21 in *.
  - rewrite E1, H1 by done. by destruct (i =? 0).
  - rewrite E2, H2 by done. rewrite (proj2 (Z.ltb_lt 0 (n + 1))) by lia.
    by destruct (i =? 0), (i =? 1), (0 <? n).
  - rewrite E3, H3 by done. unfold pmd_entry.
    destruct (i =? n) eqn:E; bool_hyps.
    + subst. rewrite (proj2 (Z.ltb_lt n (n + 1))) by lia. lia.
    + destruct (i <? n) eqn:L; bool_hyps.
      * by rewrite (proj2 (Z.ltb_lt i (n + 1))) by lia.
      * by rewrite (proj2 (Z.ltb_ge i (n + 1))) by lia.
Qed.

Lemma map_ram_run m n s :
  (0 <= n) -> n + Z.of_nat m <= 64 -> kernel_tables n (words s) ->
  exists w, map_ram kernel_pgd kernel_pud kernel_pmd (0x40000000 + n * 2 ^ 21) m s =
    Ok (tt, set_words w s, []) /\ kernel_tables (n + Z.of_nat m) w.
Proof.
  revert n s. induction m as [|m IH]; intros n s H0 Hm Hk.
  { exists (words s). rewrite Z.add_0_r. split; [by destruct s|done]. }
  cbn [map_ram]. unfold bind. change ram_attrs with 0x725. rewrite map_block_run by (lia || zlia || done).
  replace (0x40000000 + n * 2 ^ 21 + 0x200000) with (0x40000000 + (n + 1) * 2 ^ 21) by lia.
  destruct (IH (n + 1) (set_words (mapped (words s) (0x40000000 + n * 2 ^ 21)
    (0x40000000 + n * 2 ^ 21) 0x725) s)) as (w & -> & Hw); [lia|lia|simpl; apply map_one; [lia|done]|].
  exists w. split; [done|]. by replace (n + Z.of_nat (S m)) with (n + 1 + Z.of_nat m) by lia.
Qed.

Lemma vmm_init_run s :
  exists w, vmm_init kernel_pgd kernel_pud kernel_pmd s = Ok (tt, set_words w s, []) /\
    kernel_tables 64 w.
Proof.
  unfold vmm_init. change dev_attrs with 0x401.
  destruct (map_ram_run 64 0 (set_words (device_map (words s)) s)) as (w & E & Hw);
    [lia|lia|apply device_map_tables|].
  exists w. split; [|exact Hw]. change (0x40000000 + 0 * 2 ^ 21) with 0x40000000 in E.
  unfold bind, modify. rewrite !map_block_run by (done || lia).
  match goal with |- context [map_ram _ _ _ _ 64 ?x] =>
    change x with (set_words (device_map (words s)) s) end.
  by rewrite E.
Qed.

(** The physical address a kernel virtual address is translated to. *)
Definition kernel_phys (va : Z) : Z :=
  if (idx va 39 =? 0) && (idx va 30 <=? 1) then
    if idx va 21 <? 64 then 0x40000000 + va mod 2 ^ 27
    else if (idx va 21 =? 64) || (idx va 21 =? 72) || (idx va 21 =? 80) then va mod 2 ^ 30
    else 0
  else 0.

Lemma va_split va :
  0 <= va -> va mod 2 ^ 30 = idx va 21 * 2 ^ 21 + va mod 2 ^ 21 /\
  (idx va 21 < 64 -> va mod 2 ^ 27 = idx va 21 * 2 ^ 21 + va mod 2 ^ 21).
Proof. intros. rewrite idx_div by lia. zlia. Qed.

Lemma walk_block w root va e1 e2 pa attrs :
  table_addr e1 -> table_addr e2 -> 0 <= va ->
  entry w root (idx va 39) = e1 + 3 -> entry w e1 (idx va 30) = e2 + 3 ->
  entry w e2 (idx va 21) = pa + attrs ->
  0 <= pa < 2 ^ 48 -> pa mod 2 ^ 21 = 0 -> 0 <= attrs < 2 ^ 21 -> attrs mod 4 = 1 ->
  walk w root va = pa + va mod 2 ^ 21.
Proof.
  intros H1 H2 Hv E1 E2 E3 Hp Hm Ha H4. unfold walk.
  destruct (table_entry _ H1) as (_ & _ & T1 & V1 & _), (table_entry _ H2) as (_ & _ & T2 & V2 & _).
  destruct (block_entry pa attrs Hp Hm Ha H4) as (_ & B1 & B2 & B3).
  rewrite E1, T1, V1. red_valid. rewrite E2, T2, V2. red_valid. rewrite E3, B1, B2, B3. red_valid. change (1 =? 1) with true. cbv iota.
  change 0x1FFFFF with (2 ^ 21 - 1). rewrite (land_low va 21) by lia. apply (lor_low _ _ 21); [lia|done|zlia].
Qed.

Lemma kernel_walk w va :
  0 <= va < 2 ^ 64 -> kernel_tables 64 w -> walk w kernel_pgd va = kernel_phys va.
Proof.
  intros Hv (H1 & H2 & H3).
  pose proof (idx_range va 39 ltac:(lia)) as R1. pose proof (idx_range va 30 ltac:(lia)) as R2.
  pose proof (idx_range va 21 ltac:(lia)) as R3. destruct (va_split va) as [S1 S2]; [lia|].
  specialize (H1 _ R1). specialize (H2 _ R2). specialize (H3 _ R3). unfold kernel_phys.
  destruct (table_entry _ Hpud) as (_ & _ & T1 & V1 & _).
  destruct (table_entry _ Hpmd) as (_ & _ & T2 & V2 & _).
  destruct (idx va 39 =? 0) eqn:E1; cbn [andb].
  2: { unfold walk. by rewrite H1. }
  destruct (idx va 30 <=? 1) eqn:E2.
  2: { unfold walk. rewrite H1, V1, T1. red_valid. rewrite H2.
       bool_hyps.
       by rewrite (proj2 (Z.eqb_neq (idx va 30) 0)), (proj2 (Z.eqb_neq (idx va 30) 1)) by lia. }
  assert (H2' : entry w kernel_pud (idx va 30) = kernel_pmd + 3).
  { rewrite H2. bool_hyps. destruct (idx va 30 =? 0) eqn:E3; [done|]. bool_hyps.
    by rewrite (proj2 (Z.eqb_eq _ 1)) by lia. }
  unfold pmd_entry in H3. destruct (idx va 21 <? 64) eqn:E3; bool_hyps.
  { rewrite S2 by done. rewrite (walk_block w _ va kernel_pud kernel_pmd
      (0x40000000 + idx va 21 * 2 ^ 21) 0x725) by (done || lia || zlia). lia. }
  destruct ((idx va 21 =? 64) || (idx va 21 =? 72) || (idx va 21 =? 80)) eqn:E4.
  - rewrite S1. rewrite (walk_block w _ va kernel_pud kernel_pmd
      (idx va 21 * 2 ^ 21) 0x401) by (done || lia || zlia). lia.
  - unfold walk. rewrite H1, V1, T1. red_valid. rewrite H2', V2, T2. red_valid. by rewrite H3.
Qed.
End KernelMap.

(** C9: from any state, [vmm_init] runs and leaves a kernel map under which
    [vmm_get_phys] translates every 64-bit address as [kernel_phys] says.  RAM
    and the three device blocks are mapped to themselves; since the two entries
    of the PUD share one PMD, the addresses below 128 MB, the null page among
    them, are translated to RAM as well. *)
Theorem vmm_init_map kpgd kpud kpmd s
  (Hpgd : table_addr kpgd) (Hpud : table_addr kpud) (Hpmd : table_addr kpmd)
  (Hdist : kpgd <> kpud /\ kpgd <> kpmd /\ kpud <> kpmd) :
  exists s', vmm_init kpgd kpud kpmd s = Ok (tt, s', []) /\
    (forall va, 0 <= va < 2 ^ 64 -> vmm_get_phys kpgd va s' = Ok (kernel_phys va, s', [])) /\
    (forall va, RAM_START <= va < RAM_END -> kernel_phys va = va) /\
    (forall va, 0x08000000 <= va < 0x08200000 \/ 0x09000000 <= va < 0x09200000 \/
                0x0A000000 <= va < 0x0A200000 -> kernel_phys va = va) /\
    (forall va, 0 <= va < RAM_SIZE -> kernel_phys va = RAM_START + va).
Proof.
  destruct (vmm_init_run kpgd kpud kpmd Hpgd Hpud Hpmd Hdist s) as (w & E & Hw).
  exists (set_words w s). split; [exact E|]. split.
  { intros va Hv. unfold vmm_get_phys, bind, get, ret. simpl.
    by rewrite (kernel_walk kpgd kpud kpmd). }
  unfold RAM_END, RAM_START, RAM_SIZE, kernel_phys.
  assert (H : forall va, 0 <= va < 0x48000000 -> idx va 39 = 0 /\ idx va 30 <= 1 /\
    idx va 21 = va mod 2 ^ 30 / 2 ^ 21).
  { intros va Hv. rewrite !idx_div by lia. zlia. }
  split_and!; intros va Hv; destruct (H va ltac:(lia)) as (-> & I30 & ->);
    rewrite (proj2 (Z.leb_le _ _) I30); change (0 =? 0) with true; cbn [andb].
  - rewrite (proj2 (Z.ltb_lt _ _)) by zlia. zlia.
  - rewrite (proj2 (Z.ltb_ge _ _)) by zlia.
    assert (Hi : va mod 2 ^ 30 / 2 ^ 21 = 64 \/ va mod 2 ^ 30 / 2 ^ 21 = 72 \/
                 va mod 2 ^ 30 / 2 ^ 21 = 80) by zlia.
    destruct Hi as [-> | [-> | ->]]; simpl; zlia.
  - rewrite (proj2 (Z.ltb_lt _ _)) by zlia. zlia.
Qed.

(** The addresses used to instantiate the linker's choice. *)
Definition k_pgd : Z := 0x400A0000.
Definition k_pud : Z := 0x400A1000.
Definition k_pmd : Z := 0x400A2000.
Lemma k_tables : table_addr k_pgd /\ table_addr k_pud /\ table_addr k_pmd /\
  (k_pgd <> k_pud /\ k_pgd <> k_pmd /\ k_pud <> k_pmd).
Proof. by vm_compute. Qed.
Definition boot_vmm : vmm := mk_vmm boot_pmm fresh_heap (fun _ => 7) ∅ 0 0 0 0 0.

Lemma vmm_init_map_witness :
  exists s', vmm_init k_pgd k_pud k_pmd boot_vmm = Ok (tt, s', []) /\
    vmm_get_phys k_pgd 0 s' = Ok (0x40000000, s', []).
Proof.
  destruct k_tables as (H1 & H2 & H3 & H4).
  destruct (vmm_init_map k_pgd k_pud k_pmd boot_vmm H1 H2 H3 H4) as (s' & E & Hw & _).
  exists s'. split; [exact E|]. apply (Hw 0). lia.
Defined.

(** ** User address spaces *)

Lemma frame_table f : 0 <= f < TOTAL -> table_addr (frame_addr f).
Proof.
  change TOTAL with 32768. unfold table_addr, frame_addr, RAM_START, PAGE_SIZE. zlia.
Qed.

Lemma frame_addr_inj f g : frame_addr f = frame_addr g -> f = g.
Proof. unfold frame_addr, PAGE_SIZE. lia. Qed.

(** [as_alloc_table] on a space with room, when a frame is free. *)
Lemma alloc_table_run s F p a :
  rep (frames s) F -> F <> ∅ -> spaces s !! p = Some a ->
  length (tables a) = 16%nat -> 0 <= table_count a < 16 ->
  exists f fr, f ∈ F /\ rep fr (F ∖ {[f]}) /\
    as_alloc_table p s = Ok (frame_addr f,
      set_spaces (<[p := mk_as (pgd a) (<[Z.to_nat (table_count a) := frame_addr f]> (tables a))
                          (table_count a + 1) (user_region a) (self a)]> (spaces s))
        (set_words (zero_table (words s) (frame_addr f)) (set_frames fr s)), []).
Proof.
  intros Hrep HF Hp Hl Hc. pose proof (alloc_refines _ _ Hrep) as H.
  apply wp_run in H as (r & fr & o & E & -> & F' & Hr & Hs). inversion Hs; subst; [done|].
  exists f, fr. split; [done|]. split; [done|]. unfold as_alloc_table, in_pmm.
  rewrite (bind_ok _ _ _ _ _ (zoom_ok _ _ _ _ _ _ _ E)).
  unfold get_as, bind, get. simpl. rewrite Hp. simpl.
  destruct Hrep as (Hb & _). pose proof (frame_table f (bits_range _ _ _ Hb ltac:(done))) as [Ht _].
  rewrite (proj2 (Z.eqb_neq (frame_addr f) 0)) by lia. rewrite Z.geb_leb, (proj2 (Z.leb_gt _ _)) by (unfold AS_MAX_TABLES; lia).
  simpl. unfold modify. rewrite aset_in by lia. done.
Qed.

(** Entries of a zeroed or copied table; the other tables are not touched. *)
Lemma copy_pgd_run kpgd p n i s :
  kpgd mod 4096 = 0 -> p mod 4096 = 0 -> p <> kpgd -> 0 <= i -> i + Z.of_nat n <= 512 ->
  exists w, copy_pgd kpgd p i n s = Ok (tt, set_words w s, []) /\
    forall t j, t mod 4096 = 0 -> 0 <= j < 512 ->
      entry w t j = if (t =? p) && (i <=? j) && (j <? i + Z.of_nat n)
                    then entry (words s) kpgd j else entry (words s) t j.
Proof.
  intros Hk Hp Hne. revert i s. induction n as [|n IH]; intros i s Hi Hn.
  { exists (words s). split; [by destruct s|]. intros t j Ht Hj.
    destruct (t =? p), (i <=? j) eqn:E1, (j <? i + Z.of_nat 0) eqn:E2; cbn [andb]; try done.
    bool_hyps. lia. }
  cbn [copy_pgd]. unfold load, store.
  set (s1 := set_words (set_entry (words s) p i (entry (words s) kpgd i)) s).
  destruct (IH (i + 1) s1) as (w & E & Hw); [lia|lia|].
  exists w. split.
  { unfold bind, get, ret, modify. fold s1. rewrite E. done. }
  intros t j Ht Hj. rewrite Hw by done. unfold s1. cbn [words set_words].
  rewrite !entry_set by (done || lia). rewrite (proj2 (Z.eqb_neq kpgd p)) by done. cbn [andb].
  destruct (t =? p) eqn:Et; cbn [andb]; [|done].
  destruct (j =? i) eqn:Ej; bool_hyps; subst.
  - rewrite (proj2 (Z.leb_gt (i + 1) i)), Z.leb_refl, (proj2 (Z.ltb_lt i (i + Z.of_nat (S n)))) by lia.
    done.
  - destruct (i + 1 <=? j) eqn:E1, (i <=? j) eqn:E2; bool_hyps; try lia; cbn [andb]; try done.
    replace (i + 1 + Z.of_nat n) with (i + Z.of_nat (S n)) by lia. done.
Qed.

(** An empty entry gets a fresh zeroed table. *)
Lemma next_table_run st G p a t i :
  rep (frames st) G -> G <> ∅ -> spaces st !! p = Some a ->
  length (tables a) = 16%nat -> 0 <= table_count a < 16 ->
  t mod 4096 = 0 -> 0 <= i < 512 -> entry (words st) t i = 0 ->
  (forall f, f ∈ G -> frame_addr f <> t) ->
  exists f s1, f ∈ G /\ rep (frames s1) (G ∖ {[f]}) /\
    next_table p t i st = Ok (frame_addr f, s1, []) /\
    spaces s1 = <[p := mk_as (pgd a) (<[Z.to_nat (table_count a) := frame_addr f]> (tables a))
                        (table_count a + 1) (user_region a) (self a)]> (spaces st) /\
    as_active s1 = as_active st /\
    (forall t' j, t' mod 4096 = 0 -> 0 <= j < 512 -> entry (words s1) t' j =
       if (t' =? t) && (j =? i) then frame_addr f + 3
       else if t' =? frame_addr f then 0 else entry (words st) t' j).
Proof.
  intros Hr HG Hp Hl Hc Ht Hi He Hnt.
  destruct (alloc_table_run st G p a Hr HG Hp Hl Hc) as (f & fr & Hf & Hfr & Ea).
  pose proof (frame_table f (bits_range _ _ _ (proj1 Hr) Hf)) as Htab.
  destruct (table_entry _ Htab) as (T1 & _). destruct Htab as [Hp0 Hpm].
  match type of Ea with _ = Ok (_, ?x, _) => set (s0 := x) in * end.
  exists f, (set_words (set_entry (words s0) t i (frame_addr f + 3)) s0).
  split_and!; try done.
  - unfold next_table, load. rewrite (bind_ok _ _ st 0 st) by (unfold bind, get, ret; by rewrite He).
    change (Z.land 0 PTE_TABLE =? 0) with true. cbv iota. rewrite (bind_ok _ _ _ _ _ Ea).
    rewrite (proj2 (Z.eqb_neq (frame_addr f) 0)) by lia. unfold store, bind, modify, ret.
    rewrite T1. done.
  - intros t' j Ht' Hj. simpl words. rewrite entry_set by done. simpl words.
    by rewrite entry_zero by done.
Qed.

Lemma size_two (G : gset Z) f : (3 <= size G)%nat -> f ∈ G -> (2 <= size (G ∖ {[f]}))%nat.
Proof.
  intros HG Hf. rewrite size_difference by set_solver. rewrite size_singleton. lia.
Qed.
Lemma size_one (G : gset Z) : (1 <= size G)%nat -> G <> ∅.
Proof. intros H ->. rewrite size_empty in H. lia. Qed.

Definition same_block (va v : Z) : bool :=
  (idx v 39 =? idx va 39) && (idx v 30 =? idx va 30) && (idx v 21 =? idx va 21).

Lemma walk_unmapped w root e1 e2 v :
  (entry w root (idx v 39) = 0) \/
  (table_addr e1 /\ entry w root (idx v 39) = e1 + 3 /\ entry w e1 (idx v 30) = 0) \/
  (table_addr e1 /\ table_addr e2 /\ entry w root (idx v 39) = e1 + 3 /\
     entry w e1 (idx v 30) = e2 + 3 /\ entry w e2 (idx v 21) = 0) ->
  walk w root v = 0.
Proof.
  unfold walk. intros [-> | [(H1 & -> & E) | (H1 & H2 & -> & E & E')]]; [done| |].
  - destruct (table_entry _ H1) as (_ & _ & -> & -> & _). red_valid. by rewrite E.
  - destruct (table_entry _ H1) as (_ & _ & -> & -> & _). red_valid. rewrite E.
    destruct (table_entry _ H2) as (_ & _ & -> & -> & _). red_valid. by rewrite E'.
Qed.

(** [as_map_block] on a space that holds its PGD only. *)
Lemma map_block_user_run st G meta p f1 va pa attrs :
  rep (frames st) G -> (2 <= size G)%nat -> f1 ∉ G -> p = frame_addr f1 -> meta <> 0 ->
  spaces st !! meta = Some (mk_as p (<[0%nat := p]> (replicate 16 0)) 1 0 true) ->
  p mod 4096 = 0 -> entry (words st) p (idx va 39) = 0 ->
  va mod 2 ^ 21 = 0 -> 0 <= pa < 2 ^ 48 -> pa mod 2 ^ 21 = 0 ->
  0 <= attrs < 2 ^ 21 -> attrs mod 4 = 0 ->
  exists f2 f3 s3, f2 ∈ G /\ f3 ∈ G /\ f2 <> f3 /\ rep (frames s3) (G ∖ {[f2]} ∖ {[f3]}) /\
    as_map_block meta va pa attrs st = Ok (0, s3, []) /\
    spaces s3 !! meta = Some (mk_as p (<[2%nat := frame_addr f3]> (<[1%nat := frame_addr f2]>
      (<[0%nat := p]> (replicate 16 0)))) 3 0 true) /\
    as_active s3 = as_active st /\
    (forall t j, t mod 4096 = 0 -> 0 <= j < 512 -> entry (words s3) t j =
       if (t =? frame_addr f3) then (if j =? idx va 21 then pa + (attrs + 1) else 0)
       else if (t =? frame_addr f2) then (if j =? idx va 30 then frame_addr f3 + 3 else 0)
       else if (t =? p) && (j =? idx va 39) then frame_addr f2 + 3
       else entry (words st) t j).
Proof.
  intros Hr HG Hf1 Ep Hm0 Hsp Hpm He Hva Hpa Hpam Hat Hat4.
  pose proof (idx_range va 39 ltac:(lia)) as R1. pose proof (idx_range va 30 ltac:(lia)) as R2.
  pose proof (idx_range va 21 ltac:(lia)) as R3.
  set (a1 := mk_as p (<[0%nat := p]> (replicate 16 0)) 1 0 true) in *.
  destruct (next_table_run st G meta a1 p (idx va 39)) as (f2 & s2 & Hf2 & Hr2 & E2 & Sp2 & Ac2 & W2);
    try done; [by apply size_one; lia|subst p; intros f Hf E%frame_addr_inj; congruence|].
  pose proof (frame_table f2 (bits_range _ _ _ (proj1 Hr) Hf2)) as T2.
  assert (Hne2 : frame_addr f2 <> p) by (subst p; intros E%frame_addr_inj; congruence).
  destruct (next_table_run s2 (G ∖ {[f2]}) meta
    (mk_as p (<[1%nat := frame_addr f2]> (<[0%nat := p]> (replicate 16 0))) 2 0 true)
    (frame_addr f2) (idx va 30)) as (f3 & s3 & Hf3 & Hr3 & E3 & Sp3 & Ac3 & W3); try done.
  { apply size_one. rewrite size_difference by set_solver. rewrite size_singleton. lia. }
  { rewrite Sp2. apply lookup_insert_eq. }
  { apply T2. }
  { rewrite W2 by (done || apply T2). rewrite (proj2 (Z.eqb_neq _ p)) by done.
    cbn [andb]. by rewrite Z.eqb_refl. }
  { intros f Hf E%frame_addr_inj. set_solver. }
  assert (Hf3G : f3 ∈ G) by set_solver. assert (Hne : f2 <> f3) by set_solver.
  pose proof (frame_table f3 (bits_range _ _ _ (proj1 Hr) Hf3G)) as T3.
  assert (Hne3 : frame_addr f3 <> p) by (subst p; intros E%frame_addr_inj; congruence).
  assert (Hne23 : frame_addr f3 <> frame_addr f2) by (intros E%frame_addr_inj; congruence).
  exists f2, f3, (set_words (set_entry (words s3) (frame_addr f3) (idx va 21) (pa + (attrs + 1))) s3).
  split_and!; try done.
  - unfold as_map_block. rewrite (proj2 (Z.eqb_neq meta 0)) by done.
    rewrite (bind_ok (get_as meta) _ st a1 st) by (unfold get_as, bind, get; by rewrite Hsp).
    change 0x1FFFFF with (2 ^ 21 - 1). rewrite !land_low by lia. rewrite Hva, Hpam.
    cbn [self a1 negb orb]. change (0 =? 0) with true. cbn [negb orb]. cbv iota.
    change (table_count a1 >=? AS_MAX_TABLES - 2) with false. cbv iota.
    rewrite (bind_ok (load (pgd a1) (idx va 39)) _ st 0 st)
      by (unfold load, bind, get, ret; simpl; by rewrite He).
    rewrite (bind_ok _ _ _ _ _ E2).
    rewrite (proj2 (Z.eqb_neq (frame_addr f2) 0)) by (destruct T2; lia).
    erewrite (bind_ok (load (frame_addr f2) (idx va 30)) _ s2 _ s2) by reflexivity.
    rewrite (bind_ok _ _ _ _ _ E3).
    rewrite (proj2 (Z.eqb_neq (frame_addr f3) 0)) by (destruct T3; lia).
    assert (Hv : Z.lor (Z.lor (Z.land pa NOT_1FFFFF) attrs) PTE_VALID = pa + (attrs + 1)).
    { change NOT_1FFFFF with (2 ^ 64 - 2 ^ 21). rewrite land_mask by lia.
      replace (pa / 2 ^ 21 * 2 ^ 21) with pa by (clear -Hpam; zlia).
      rewrite (lor_low pa attrs 21) by (done || lia). unfold PTE_VALID.
      rewrite (lor_low _ 1 1) by (lia || (clear -Hpam Hat4; zlia)). lia. }
    by rewrite Hv.
  - simpl. rewrite Sp3. apply lookup_insert_eq.
  - simpl. congruence.
  - intros t j Ht Hj. simpl words. rewrite entry_set by (done || apply T3).
    rewrite W3, W2 by (done || apply T3).
    destruct (t =? frame_addr f3) eqn:Q3; cbn [andb]; bool_hyps.
    + subst t. rewrite (proj2 (Z.eqb_neq (frame_addr f3) (frame_addr f2))) by done. cbn [andb]. done.
    + destruct (t =? frame_addr f2) eqn:Q2; cbn [andb]; bool_hyps; [|done].
      subst t. rewrite (proj2 (Z.eqb_neq (frame_addr f2) p)) by done. cbn [andb]. done.
Qed.

(** Giving the table frames back. *)
Lemma free_tables_run fs st G :
  rep (frames st) G -> Forall (fun f => 0 <= f < TOTAL) fs ->
  exists fr, free_tables (frame_addr <$> fs) st = Ok (tt, set_frames fr st, []) /\
    rep fr (G ∪ list_to_set fs).
Proof.
  intros Hr Hfs. revert st G Hr. induction Hfs as [|f fs Hf Hfs IH]; intros st G Hr.
  { exists (frames st). simpl. split; [by destruct st|]. by rewrite union_empty_r_L. }
  pose proof (frame_table f Hf) as [Ht _].
  assert (Ha : 0 <= frame_addr f < 2 ^ 64) by lia.
  pose proof (free_refines _ _ Hr _ Ha) as Hw.
  apply wp_run in Hw as ([] & fr & o & E & -> & Hr1).
  assert (Hsp : spec_free G (frame_addr f) = G ∪ {[f]}).
  { unfold spec_free. change TOTAL with 32768 in Hf.
    assert (RAM_START <= frame_addr f < RAM_END /\ (frame_addr f - RAM_START) / PAGE_SIZE = f) as [Hin ->].
    { unfold frame_addr, RAM_END, RAM_START, RAM_SIZE, PAGE_SIZE. zlia. }
    rewrite (proj2 (Z.leb_le _ _)), (proj2 (Z.ltb_lt _ _)) by lia. done. }
  rewrite Hsp in Hr1. destruct (IH (set_frames fr st) _ Hr1) as (fr2 & E2 & Hr2).
  exists fr2. split.
  - cbn [fmap list_fmap free_tables]. unfold in_pmm.
    rewrite (bind_ok _ _ _ _ _ (zoom_ok _ _ _ _ _ _ _ E)). rewrite E2. done.
  - simpl. by rewrite union_assoc_L.
Qed.

Section UserSpace.
Context (kpgd kpud kpmd : Z).
Context (Hpgd : table_addr kpgd) (Hpud : table_addr kpud) (Hpmd : table_addr kpmd)
        (Hdist : kpgd <> kpud /\ kpgd <> kpmd /\ kpud <> kpmd).
Context (s : vmm) (F : gset Z).
Context (Hk : kernel_tables kpgd kpud kpmd 64 (words s)) (Hrep : rep (frames s) F)
        (Hheap : heap_wf (kheap s)) (Hroom : heap_ptr (kheap s) + SIZEOF_ADDR_SPACE <= HEAP_END).
(** The PMM does not own the kernel's tables. *)
Context (Howned : forall f, f ∈ F -> frame_addr f <> kpgd /\ frame_addr f <> kpud /\ frame_addr f <> kpmd).

Lemma kmalloc_run : exists h, kmalloc SIZEOF_ADDR_SPACE (kheap s) = Ok (heap_ptr (kheap s), h, []).
Proof.
  destruct Hheap as [Hp _]. destruct HEAP_END_val as [HS HE]. unfold SIZEOF_ADDR_SPACE in *.
  eexists. unfold kmalloc, bind, get. change (160 =? 0) with false. cbv beta iota zeta.
  change (Z.land (u64 (160 + 7)) (u64 (Z.lnot 7))) with 160. cbv beta iota.
  rewrite u64_small by lia. rewrite Z.gtb_ltb, (proj2 (Z.ltb_ge _ _)) by lia. reflexivity.
Qed.

(** [as_create]: a space whose PGD, in frame [f], is a copy of the kernel's. *)
Lemma as_create_run :
  F <> ∅ ->
  exists f s1, let p := frame_addr f in let meta := heap_ptr (kheap s) in
    f ∈ F /\ rep (frames s1) (F ∖ {[f]}) /\ as_create kpgd s = Ok (meta, s1, []) /\
    spaces s1 !! meta = Some (mk_as p (<[0%nat := p]> (replicate 16 0)) 1 0 true) /\
    as_active s1 = as_active s /\
    (forall t j, t mod 4096 = 0 -> 0 <= j < 512 ->
       entry (words s1) t j = if t =? p then entry (words s) kpgd j else entry (words s) t j).
Proof.
  intros HF. destruct kmalloc_run as (h & Em). set (meta := heap_ptr (kheap s)) in *.
  set (a0 := mk_as 0 (replicate 16 0) 0 0 true).
  set (s0 := set_spaces (<[meta := a0]> (spaces s)) (set_kheap h s)).
  destruct (alloc_table_run s0 F meta a0) as (f & fr & Hf & Hfr & Ea);
    [done|done|apply lookup_insert_eq|done|simpl; lia|].
  pose proof (bits_range _ _ _ (proj1 Hrep) Hf) as Hr. destruct (frame_table f Hr) as [Hp0 Hpm].
  destruct (Howned f Hf) as (Hne & _). set (p := frame_addr f) in *. simpl in Ea.
  match type of Ea with _ = Ok (_, ?x, _) => set (s1 := x) in * end.
  set (a1 := mk_as p (<[0%nat := p]> (replicate 16 0)) 1 0 true).
  set (s2 := set_spaces (<[meta := a1]> (spaces s1)) s1).
  destruct Hpgd as [_ Hkm].
  destruct (copy_pgd_run kpgd p 512 0 s2 Hkm Hpm Hne) as (w & Ec & Hw); [lia|lia|].
  exists f, (set_words w s2). cbv zeta. fold p. split; [done|]. split; [done|].
  assert (Hm0 : meta <> 0) by (destruct Hheap as [Hq _]; unfold meta, HEAP_START, KERNEL_BASE in *; lia).
  split; [|split_and!].
  - unfold as_create, in_heap. rewrite (bind_ok _ _ _ _ _ (zoom_ok _ _ _ _ _ _ _ Em)).
    rewrite (proj2 (Z.eqb_neq meta 0)) by done.
    rewrite (bind_ok (put_as meta a0) _ _ tt s0) by done.
    rewrite (bind_ok _ _ _ _ _ Ea). rewrite (proj2 (Z.eqb_neq p 0)) by lia.
    rewrite (bind_ok (get_as meta) _ s1 (mk_as 0 (<[0%nat := p]> (replicate 16 0)) 1 0 true) s1).
    2: { unfold get_as, bind, get. unfold s1. simpl. by rewrite lookup_insert_eq. }
    rewrite (bind_ok (put_as meta _) _ s1 tt s2) by done.
    by rewrite (bind_ok _ _ _ _ _ Ec).
  - simpl. apply lookup_insert_eq.
  - done.
  - intros t j Ht Hj. simpl. rewrite Hw by done. unfold s2, s1, s0. simpl words.
    rewrite (proj2 (Z.leb_le 0 j)), (proj2 (Z.ltb_lt j _)), !andb_true_r by lia.
    rewrite !entry_zero by done. rewrite (proj2 (Z.eqb_neq kpgd p)) by done.
    by destruct (t =? p).
Qed.

(** The walk from the space's root, after [as_create] and [as_map_block]. *)
Lemma user_walk w p e1 e2 va pa attrs v :
  (forall j, 0 <= j < 512 -> entry w kpgd j = entry (words s) kpgd j /\
     entry w kpud j = entry (words s) kpud j /\ entry w kpmd j = entry (words s) kpmd j) ->
  (forall j, 0 <= j < 512 -> entry w p j =
     if j =? idx va 39 then e1 + 3 else entry (words s) kpgd j) ->
  (forall j, 0 <= j < 512 -> entry w e1 j = if j =? idx va 30 then e2 + 3 else 0) ->
  (forall j, 0 <= j < 512 -> entry w e2 j = if j =? idx va 21 then pa + attrs else 0) ->
  table_addr e1 -> table_addr e2 -> 0 < idx va 39 -> 0 <= v < 2 ^ 64 ->
  0 <= pa < 2 ^ 48 -> pa mod 2 ^ 21 = 0 -> 0 <= attrs < 2 ^ 21 -> attrs mod 4 = 1 ->
  walk w p v = if same_block va v then pa + v mod 2 ^ 21
               else if idx v 39 =? 0 then kernel_phys v else 0.
Proof.
  intros Hkt H1 H2 H3 T1 T2 Hva Hv Hpa Hpam Hat Hat4.
  pose proof (idx_range v 39 ltac:(lia)) as R1. pose proof (idx_range v 30 ltac:(lia)) as R2.
  pose proof (idx_range v 21 ltac:(lia)) as R3. unfold same_block.
  specialize (H1 _ R1). specialize (H2 _ R2). specialize (H3 _ R3).
  destruct (idx v 39 =? idx va 39) eqn:E1; cbn [andb].
  - bool_hyps. rewrite (proj2 (Z.eqb_neq (idx v 39) 0)) by lia.
    destruct (idx v 30 =? idx va 30) eqn:E2; cbn [andb].
    2: { apply (walk_unmapped w p e1 e2). right. left. done. }
    destruct (idx v 21 =? idx va 21) eqn:E3.
    + by apply (walk_block w p v e1 e2 pa attrs); try lia.
    + apply (walk_unmapped w p e1 e2). right. right. done.
  - destruct (idx v 39 =? 0) eqn:E0; bool_hyps.
    + rewrite <- (kernel_walk kpgd kpud kpmd Hpud Hpmd Hdist w v Hv).
      * unfold walk. rewrite H1. by destruct (Hkt _ R1) as (-> & _).
      * destruct Hk as (K1 & K2 & K3). split_and!; intros j Hj; destruct (Hkt j Hj) as (Q1 & Q2 & Q3);
          rewrite ?Q1, ?Q2, ?Q3; auto.
    + apply (walk_unmapped w p e1 e2). left. rewrite H1. destruct Hk as (-> & _); [|done].
      by rewrite (proj2 (Z.eqb_neq _ _)) by done.
Qed.

(** The same, from what [as_create_run] and [map_block_user_run] say of the
    table entries. *)
Lemma space_walk f1 f2 f3 w1 w2 va pa attrs v :
  f1 ∈ F -> f2 ∈ F -> f3 ∈ F -> f1 <> f2 -> f1 <> f3 -> f2 <> f3 ->
  (forall t j, t mod 4096 = 0 -> 0 <= j < 512 -> entry w1 t j =
     if t =? frame_addr f1 then entry (words s) kpgd j else entry (words s) t j) ->
  (forall t j, t mod 4096 = 0 -> 0 <= j < 512 -> entry w2 t j =
     if (t =? frame_addr f3) then (if j =? idx va 21 then pa + (attrs + 1) else 0)
     else if (t =? frame_addr f2) then (if j =? idx va 30 then frame_addr f3 + 3 else 0)
     else if (t =? frame_addr f1) && (j =? idx va 39) then frame_addr f2 + 3
     else entry w1 t j) ->
  0 < idx va 39 -> 0 <= v < 2 ^ 64 -> 0 <= pa < 2 ^ 48 -> pa mod 2 ^ 21 = 0 ->
  0 <= attrs < 2 ^ 21 -> attrs mod 4 = 0 ->
  walk w2 (frame_addr f1) v =
    if same_block va v then pa + v mod 2 ^ 21 else if idx v 39 =? 0 then kernel_phys v else 0.
Proof.
  intros Hf1 Hf2 Hf3 D12 D13 D23 W1 W2 Hva1 Hv Hpa1 Hpa2 Hat1 Hat2.
  pose proof (frame_table f1 (bits_range _ _ _ (proj1 Hrep) Hf1)) as T1.
  pose proof (frame_table f2 (bits_range _ _ _ (proj1 Hrep) Hf2)) as T2.
  pose proof (frame_table f3 (bits_range _ _ _ (proj1 Hrep) Hf3)) as T3.
  assert (E12 : frame_addr f2 <> frame_addr f1) by (intros E%frame_addr_inj; congruence).
  assert (E13 : frame_addr f3 <> frame_addr f1) by (intros E%frame_addr_inj; congruence).
  assert (E23 : frame_addr f2 <> frame_addr f3) by (intros E%frame_addr_inj; congruence).
  apply (user_walk w2 (frame_addr f1) (frame_addr f2) (frame_addr f3) va pa (attrs + 1));
    try done; try lia; try zlia.
  all: try intros j Hj.
  - destruct (Howned f1 Hf1) as (O1 & O2 & O3), (Howned f2 Hf2) as (O4 & O5 & O6),
      (Howned f3 Hf3) as (O7 & O8 & O9).
    rewrite !W2, !W1 by (done || apply Hpgd || apply Hpud || apply Hpmd).
    rewrite !(proj2 (Z.eqb_neq kpgd _)), !(proj2 (Z.eqb_neq kpud _)), !(proj2 (Z.eqb_neq kpmd _)) by congruence.
    done.
  - rewrite W2, W1 by (done || apply T1).
    rewrite (proj2 (Z.eqb_neq (frame_addr f1) (frame_addr f3))),
      (proj2 (Z.eqb_neq (frame_addr f1) (frame_addr f2))) by congruence.
    by rewrite Z.eqb_refl.
  - rewrite W2 by (done || apply T2).
    rewrite (proj2 (Z.eqb_neq (frame_addr f2) (frame_addr f3))), Z.eqb_refl by congruence. done.
  - rewrite W2 by (done || apply T3). by rewrite Z.eqb_refl.
Qed.

End UserSpace.

(** Destroying a space that never had a user region: its tables go back. *)
Lemma as_destroy_run kpgd meta a fs st G :
  rep (frames st) G -> meta <> 0 -> spaces st !! meta = Some a -> self a = true -> user_region a = 0 ->
  take (Z.to_nat (table_count a)) (tables a) = frame_addr <$> fs -> Forall (fun f => 0 <= f < TOTAL) fs ->
  exists s', as_destroy kpgd meta st = Ok (tt, s', []) /\ rep (frames s') (G ∪ list_to_set fs) /\
    as_active s' = (if as_active st =? meta then 0 else as_active st) /\
    spaces s' = <[meta := mk_as (pgd a) (tables a) (table_count a) 0 false]> (spaces st).
Proof.
  intros Hr Hm0 Hsp Hself Hur Hts Hfs.
  destruct (free_tables_run fs st G Hr Hfs) as (fr & Ef & Hfr).
  exists (set_spaces (<[meta := mk_as (pgd a) (tables a) (table_count a) 0 false]> (spaces st))
    (if as_active st =? meta then set_ttbr 0 kpgd (set_frames fr st) else set_frames fr st)).
  split; [|by destruct (as_active st =? meta)].
  unfold as_destroy. rewrite (proj2 (Z.eqb_neq meta 0)) by done.
  rewrite (bind_ok (get_as meta) _ st a st) by (unfold get_as, bind, get; by rewrite Hsp).
  rewrite Hself, Hur, Hts. change (0 =? 0) with true. cbn [negb]. cbv iota.
  rewrite (bind_ok (ret tt) _ st tt st) by done. rewrite (bind_ok _ _ _ _ _ Ef).
  rewrite (bind_ok get _ _ _ _ eq_refl).
  rewrite (bind_ok (if as_active (set_frames fr st) =? meta then as_switch kpgd 0 else ret tt)
    _ (set_frames fr st) tt
    (if as_active st =? meta then set_ttbr 0 kpgd (set_frames fr st) else set_frames fr st)).
  2: { cbn [as_active set_frames]. destruct (as_active st =? meta) eqn:E; [|done]. bool_hyps.
       unfold as_switch, bind, get. cbn [as_active set_frames].
       rewrite (proj2 (Z.eqb_neq 0 _)) by congruence. done. }
  by destruct (as_active st =? meta).
Qed.


(** The kernel after [pmm_init], [heap_init] and [vmm_init]. *)
Definition boot_seq (kpgd kpud kpmd : Z) : M vmm unit :=
  in_pmm pmm_init ;;; in_heap heap_init ;;; vmm_init kpgd kpud kpmd.

Lemma boot_seq_run s :
  exists s', boot_seq k_pgd k_pud k_pmd s = Ok (tt, s', []) /\
    kernel_tables k_pgd k_pud k_pmd 64 (words s') /\ rep (frames s') (run 4736 (Z.to_nat 28032)) /\
    heap_wf (kheap s') /\ heap_ptr (kheap s') = HEAP_START.
Proof.
  destruct k_tables as (H1 & H2 & H3 & H4).
  destruct (wp_run _ _ _ (pmm_init_wp (frames s))) as ([] & fr & o & E & -> & Hfr).
  destruct (heap_init_wf (kheap s)) as (h & Eh & Hh & _).
  destruct (vmm_init_run k_pgd k_pud k_pmd H1 H2 H3 H4 (set_kheap h (set_frames fr s))) as (w & Ew & Hw).
  exists (set_words w (set_kheap h (set_frames fr s))). split.
  { unfold boot_seq, in_pmm, in_heap.
    rewrite (bind_ok _ _ _ _ _ (zoom_ok frames set_frames _ _ _ _ _ E)).
    rewrite (bind_ok _ _ _ _ _ (zoom_ok kheap set_kheap _ (set_frames fr s) _ _ _ Eh)). exact Ew. }
  split; [exact Hw|]. split; [exact Hfr|]. split; [exact Hh|].
  cbv [heap_init modify] in Eh. injection Eh as <-. done.
Qed.

