(* ===== verification/Tick.v ===== *)
(** * Timer, tick registry and interrupt dispatch
    (boot/aarch64/timer.c, irq.c, gic.c)

    Device registers are written through a log of (address, value) pairs; the
    functions registered for the tick are named by [tick_fn], and running them
    is the business of the state [K] they act on. *)

From S2P Require Import Prelude Uart.

(** The functions the kernel subscribes. *)
Inductive tick_fn := SchedOnTick | AiOnTick | CmtOnTick | TestTimerCallback.

#[export] Instance tick_fn_eq_dec : EqDecision tick_fn.
Proof. solve_decision. Defined.

(** ** The timer *)

Definition TIMER_ENABLE : Z := 1.
Definition TIMER_FREQ : Z := 62500000.
Definition TICK_PER_SEC : Z := 100.
Definition TIMER_HZ_MIN : Z := 10.
Definition TIMER_HZ_MAX : Z := 500.

(** [cntfrq] is what the counter-frequency register reads; [cntv_tval] and
    [cntv_ctl] are the last values written to the timer. *)
Record timer := mk_timer {
  timer_ticks : Z; timer_hz : Z; timer_callback : option tick_fn;
  cntfrq : Z; cntv_tval : Z; cntv_ctl : Z }.

Definition timer_arm (hz : Z) : M timer unit :=
  let* t := get in
  let freq := if cntfrq t =? 0 then TIMER_FREQ else cntfrq t in
  let hz := if hz =? 0 then TICK_PER_SEC else hz in
  put (mk_timer (timer_ticks t) (timer_hz t) (timer_callback t) (cntfrq t) (freq / hz) TIMER_ENABLE).

Definition timer_init : M timer unit := timer_arm TICK_PER_SEC.

Definition timer_set_hz (hz : Z) : M timer unit :=
  let hz := if hz <? TIMER_HZ_MIN then TIMER_HZ_MIN else hz in
  let hz := if hz >? TIMER_HZ_MAX then TIMER_HZ_MAX else hz in
  modify (fun t => mk_timer (timer_ticks t) hz (timer_callback t) (cntfrq t) (cntv_tval t) (cntv_ctl t)) ;;;
  timer_arm hz.

(** [timer_handler] up to the callback, which it returns. *)
Definition timer_rearm : M timer (option tick_fn) :=
  modify (fun t => mk_timer (u64 (timer_ticks t + 1)) (timer_hz t) (timer_callback t) (cntfrq t)
                     (cntv_tval t) (cntv_ctl t)) ;;;
  let* t := get in
  timer_arm (timer_hz t) ;;;
  ret (timer_callback t).
Definition timer_set_callback (cb : option tick_fn) : M timer unit :=
  modify (fun t => mk_timer (timer_ticks t) (timer_hz t) cb (cntfrq t) (cntv_tval t) (cntv_ctl t)).

Definition timer_get_ticks : M timer Z := let* t := get in ret (timer_ticks t).
Definition timer_get_ms : M timer Z :=
  let* t := get in ret (u64 (timer_ticks t * (1000 / TICK_PER_SEC))).
Definition timer_get_hz : M timer Z := let* t := get in ret (timer_hz t).

(** ** The tick registry *)

Definition MAX_TICK_TASKS : Z := 4.

Record ticks := mk_ticks { tick_tasks : list (option tick_fn); tick_task_count : Z }.

Definition tick_subscribe (fn : option tick_fn) : M ticks Z :=
  let* t := get in
  if negb (bool_decide (is_Some fn)) || (tick_task_count t >=? MAX_TICK_TASKS) then ret (-1) else
  let* l := of_opt (aset (tick_tasks t) (tick_task_count t) fn) in
  put (mk_ticks l (u32 (tick_task_count t + 1))) ;;;
  ret 0.

Section Dispatch.
Context {K : Type} (run : tick_fn -> M K unit) (registry : K -> ticks).

(** [for (i = ...; i < tick_task_count; i++) if (tick_tasks[i]) tick_tasks[i]();],
    [n] rounds at most; the count is read on each round. *)
Fixpoint dispatch_from (i : Z) (n : nat) : M K unit :=
  match n with
  | O => ret tt
  | S n' =>
      let* k := get in
      if i <? tick_task_count (registry k) then
        let* f := of_opt (aget (tick_tasks (registry k)) i) in
        (match f with Some f => run f | None => ret tt end) ;;;
        dispatch_from (i + 1) n'
      else ret tt
  end.
Definition tick_dispatch : M K unit := dispatch_from 0 5.
End Dispatch.

(** ** Registration order *)

(** The functions registered, oldest first. *)
Definition registered (t : ticks) : list tick_fn :=
  omap (fun x => x) (take (Z.to_nat (tick_task_count t)) (tick_tasks t)).

Definition ticks_wf (t : ticks) : Prop :=
  length (tick_tasks t) = 4%nat /\ 0 <= tick_task_count t <= 4 /\
  Forall is_Some (take (Z.to_nat (tick_task_count t)) (tick_tasks t)).

Definition empty_ticks : ticks := mk_ticks (replicate 4 None) 0.

Lemma omap_all_some (l : list (option tick_fn)) :
  Forall is_Some l -> length (omap (fun x => x) l) = length l.
Proof. induction 1 as [|x l [y ->] _ IH]; simpl; [done|]. f_equal; exact IH. Qed.

Lemma registered_length t : ticks_wf t -> Z.of_nat (length (registered t)) = tick_task_count t.
Proof.
  intros (Hl & Hc & Hf). unfold registered. rewrite omap_all_some by done.
  rewrite length_take. lia.
Qed.

(** [tick_subscribe] appends to the registry while fewer than four functions
    are registered, and otherwise refuses and changes nothing; the registry
    stays well formed. *)
Theorem tick_subscribe_appends f t (Hwf : ticks_wf t) :
  exists r t', tick_subscribe (Some f) t = Ok (r, t', []) /\ ticks_wf t' /\
    (r = 0 /\ (length (registered t) < 4)%nat /\ registered t' = registered t ++ [f] \/
     r = -1 /\ length (registered t) = 4%nat /\ t' = t).
Proof.
  pose proof (registered_length t Hwf) as HL. destruct Hwf as (Hl & Hc & Hf).
  unfold tick_subscribe, MAX_TICK_TASKS, bind, get, ret, of_opt, put.
  rewrite bool_decide_eq_true_2 by eauto. cbn [negb orb].
  destruct (tick_task_count t >=? 4) eqn:E; bool_hyps.
  { exists (-1), t. split; [done|]. split; [done|]. right. split_and!; [done|lia|done]. }
  rewrite aset_in by lia. unfold u32. rewrite Z.mod_small by lia.
  set (n := Z.to_nat (tick_task_count t)) in *.
  assert (Ht : take (Z.to_nat (tick_task_count t + 1)) (<[n := Some f]> (tick_tasks t)) =
               take n (tick_tasks t) ++ [Some f]).
  { replace (Z.to_nat (tick_task_count t + 1)) with (S n) by lia.
    rewrite (take_S_r _ _ (Some f)) by (apply list_lookup_insert_eq; lia).
    by rewrite take_insert_ge by lia. }
  eexists 0, _. split; [reflexivity|]. split.
  - split_and!; simpl; [by rewrite length_insert|lia..|]. rewrite Ht.
    apply Forall_app. split; [done|]. by repeat constructor.
  - left. split; [done|]. split; [lia|]. unfold registered. simpl.
    by rewrite Ht, omap_app.
Qed.

Lemma tick_subscribe_appends_witness :
  ticks_wf empty_ticks /\ exists r t', tick_subscribe (Some AiOnTick) empty_ticks = Ok (r, t', []) /\
    ticks_wf t'.
Proof.
  assert (H : ticks_wf empty_ticks) by (split_and!; simpl; [done|lia..|constructor]).
  split; [exact H|]. destruct (tick_subscribe_appends AiOnTick empty_ticks H) as (r & t' & E & Hw & _).
  by exists r, t'.
Defined.

(** Running the registered functions one after the other. *)
Fixpoint run_all {K} (run : tick_fn -> M K unit) (fs : list tick_fn) : M K unit :=
  match fs with
  | [] => ret tt
  | f :: fs' => run f ;;; run_all run fs'
  end.

Section DispatchOrder.
Context {K : Type} (run : tick_fn -> M K unit) (registry : K -> ticks).
(** A tick function does not register another one. *)
Hypothesis run_frame : forall f k u k' o, run f k = Ok (u, k', o) -> registry k' = registry k.

Lemma dispatch_from_run k i n :
  ticks_wf (registry k) -> 0 <= i <= tick_task_count (registry k) ->
  tick_task_count (registry k) - i < Z.of_nat n ->
  dispatch_from run registry i n k =
  run_all run (omap (fun x => x) (drop (Z.to_nat i)
    (take (Z.to_nat (tick_task_count (registry k))) (tick_tasks (registry k))))) k.
Proof.
  revert k i. induction n as [|n IH]; intros k i Hwf Hi Hn; [lia|].
  destruct (Hwf) as (Hl & Hc & Hf). cbn [dispatch_from]. rewrite (bind_ok get _ k k k) by done.
  destruct (i <? tick_task_count (registry k)) eqn:E; bool_hyps.
  - set (l := take _ _) in *.
    destruct (lookup_lt_is_Some_2 l (Z.to_nat i)) as [x Hx]; [unfold l; rewrite length_take; lia|].
    rewrite (drop_S _ _ _ Hx). pose proof (Forall_lookup_1 _ _ _ _ Hf Hx) as [f ->].
    apply lookup_take_Some in Hx as [Hx _].
    rewrite (bind_ok (of_opt (aget _ i)) _ k (Some f) k).
    2: { rewrite (proj2 (aget_Some _ _ (Some f))); [done|]. split; [lia|done]. }
    cbn [omap list_omap run_all]. apply bind_ext. intros u k' o Er.
    pose proof (run_frame _ _ _ _ _ Er) as Hreg.
    rewrite (IH k' (i + 1)); rewrite ?Hreg; [|done|lia|lia].
    replace (Z.to_nat (i + 1)) with (S (Z.to_nat i)) by lia. done.
  - rewrite drop_ge; [done|]. rewrite length_take. lia.
Qed.
End DispatchOrder.

(** a tick runs every registered function exactly once, in the order of
    registration, and nothing else, provided no tick function subscribes
    another. *)
Theorem tick_dispatch_order {K} (run : tick_fn -> M K unit) (registry : K -> ticks) k
  (Hframe : forall f k u k' o, run f k = Ok (u, k', o) -> registry k' = registry k)
  (Hwf : ticks_wf (registry k)) :
  tick_dispatch run registry k = run_all run (registered (registry k)) k.
Proof.
  unfold tick_dispatch. destruct (Hwf) as (_ & Hc & _).
  rewrite dispatch_from_run by (done || lia). by rewrite drop_0.
Qed.

(** A state that logs the functions run. *)
Definition log_state : Type := ticks * list tick_fn.
Definition log_run (f : tick_fn) : M log_state unit := modify (fun s => (s.1, s.2 ++ [f])).

Lemma tick_dispatch_order_witness :
  let k : log_state := (mk_ticks [Some SchedOnTick; Some AiOnTick; None; None] 2, []) in
  tick_dispatch log_run fst k = run_all log_run (registered (fst k)) k.
Proof.
  intros k. apply tick_dispatch_order.
  - intros f k0 u k' o [= _ <- _]. done.
  - split_and!; simpl; try lia. repeat constructor; eauto.
Defined.

(** ** The timer's rate *)

Definition timer_wf (t : timer) : Prop :=
  TIMER_HZ_MIN <= timer_hz t <= TIMER_HZ_MAX /\ 0 <= cntfrq t < 2 ^ 64.

(** whatever rate is asked for, [timer_set_hz] programs a rate between 10 and
    500 Hz (the asked one when it lies in the range) and arms the counter with
    the frequency divided by it, without dividing by zero; a tick keeps the rate
    and [timer_get_ms] advances by ten whatever the rate is. *)
Theorem timer_rate_bounded hz t (Hhz : 0 <= hz < 2 ^ 32) (Hf : 0 <= cntfrq t < 2 ^ 64)
  (Ht : 0 <= timer_ticks t < 2 ^ 32) :
  exists t1 t2, timer_set_hz hz t = Ok (tt, t1, []) /\ timer_wf t1 /\
    (TIMER_HZ_MIN <= hz <= TIMER_HZ_MAX -> timer_hz t1 = hz) /\
    cntv_tval t1 = (if cntfrq t =? 0 then TIMER_FREQ else cntfrq t) / timer_hz t1 /\
    timer_rearm t1 = Ok (timer_callback t, t2, []) /\ timer_hz t2 = timer_hz t1 /\
    timer_get_ms t1 = Ok (10 * timer_ticks t, t1, []) /\
    timer_get_ms t2 = Ok (10 * timer_ticks t + 10, t2, []).
Proof.
  unfold timer_set_hz, timer_rearm, timer_arm, timer_get_ms, timer_wf, bind, get, put, modify, ret.
  unfold TIMER_HZ_MIN, TIMER_HZ_MAX, TICK_PER_SEC. simpl.
  set (h := if hz <? 10 then 10 else hz). set (h2 := if h >? 500 then 500 else h).
  assert (Hh : 10 <= h2 <= 500 /\ (10 <= hz <= 500 -> h2 = hz)).
  { unfold h2, h. repeat case_match; bool_hyps; lia. }
  rewrite (proj2 (Z.eqb_neq h2 0)) by lia.
  do 2 eexists. split; [reflexivity|]. simpl. rewrite (proj2 (Z.eqb_neq h2 0)) by lia.
  split; [lia|]. split; [apply Hh|]. split; [done|]. split; [reflexivity|]. simpl.
  split; [done|]. change (1000 / 100) with 10. rewrite (u64_small (timer_ticks t + 1)) by lia.
  rewrite !u64_small by lia.
  split; do 3 f_equal; lia.
Qed.

Definition boot_timer : timer := mk_timer 0 TICK_PER_SEC None TIMER_FREQ 0 0.
Lemma timer_rate_bounded_witness :
  exists t1, timer_set_hz 1000 boot_timer = Ok (tt, t1, []) /\ timer_wf t1.
Proof.
  destruct (timer_rate_bounded 1000 boot_timer) as (t1 & t2 & E & Hw & _);
    [lia|simpl; unfold TIMER_FREQ; lia|simpl; lia|]. by exists t1.
Defined.

(** ** Interrupt controller and IRQ entry *)

Definition GICD_BASE : Z := 0x08000000.
Definition GICC_BASE : Z := 0x08010000.
Definition NUM_INTIDS : Z := 64.
Definition FIRST_SPI_REG : Z := 2.
Definition IRQ_TIMER_INTID : Z := 30.
Definition GIC_SPURIOUS_ID : Z := 1023.

(** The register writes of a driver call, in order. *)
Definition writes : Type := list (Z * Z).

(** [for (i = from; i < to; i++) REG(i) = v;] *)
Definition write_regs (base from to v : Z) : writes :=
  (fun i => (base + i * 4, v)) <$> seqZ from (to - from).

Definition gic_init : writes :=
  [(GICD_BASE, 0); (GICC_BASE, 0)] ++
  write_regs (GICD_BASE + 0x180) 0 (NUM_INTIDS / 32) 0xFFFFFFFF ++
  write_regs (GICD_BASE + 0x080) 0 (NUM_INTIDS / 32) 0 ++
  write_regs (GICD_BASE + 0xC00) 0 (NUM_INTIDS / 16) 0 ++
  write_regs (GICD_BASE + 0x400) 0 (NUM_INTIDS / 4) 0xA0A0A0A0 ++
  write_regs (GICD_BASE + 0x800) FIRST_SPI_REG (NUM_INTIDS / 4) 0x01010101 ++
  [(GICD_BASE, 1); (GICC_BASE + 4, 0xFF); (GICC_BASE, 1)].

Definition gic_enable_irq (irq : Z) : writes :=
  if (irq <? 0) || (irq >=? NUM_INTIDS) then [] else
  [(GICD_BASE + 0x100 + irq / 32 * 4, u32 (Z.shiftl 1 (irq mod 32)))].
Definition gic_acknowledge_irq (iar : Z) : Z := Z.land iar 0x3FF.
Definition gic_end_of_interrupt (irq : Z) : writes := [(GICC_BASE + 0x10, u32 irq)].

Section Irq.
Context {K : Type} (run : tick_fn -> M K unit) (registry : K -> ticks)
  (the_timer : K -> timer) (set_timer : timer -> K -> K).

Definition timer_handler : M K unit :=
  let* cb := zoom the_timer set_timer timer_rearm in
  match cb with Some f => run f | None => ret tt end.

(** [iar] is what the acknowledge register reads; the result is the
    end-of-interrupt write, if any. *)
Definition irq_handler_c (iar : Z) : M K writes :=
  let irq := gic_acknowledge_irq iar in
  if irq =? GIC_SPURIOUS_ID then ret [] else
  (if irq =? IRQ_TIMER_INTID then
     timer_handler ;;; tick_dispatch run registry
   else ret tt) ;;;
  ret (gic_end_of_interrupt irq).
End Irq.

(** [gic_enable_irq] writes exactly the enable bit of an interrupt that the
    controller has (0 to 63), in the register that holds it, and nothing for any
    other number; [gic_init] leaves the read-only target registers of the
    private interrupts alone. *)
Theorem gic_enable_one_bit irq (Hirq : - 2 ^ 31 <= irq < 2 ^ 31) :
  (0 <= irq < 64 ->
     exists a v, gic_enable_irq irq = [(a, v)] /\
       GICD_BASE + 0x100 <= a < GICD_BASE + 0x108 /\
       forall j, 0 <= j < 64 ->
         (a = GICD_BASE + 0x100 + j / 32 * 4 /\ Z.testbit v (j mod 32) = true <-> j = irq)) /\
  (~ 0 <= irq < 64 -> gic_enable_irq irq = []) /\
  Forall (fun w => ~ (GICD_BASE + 0x800 <= fst w < GICD_BASE + 0x808)) gic_init.
Proof.
  unfold gic_enable_irq, NUM_INTIDS, GICD_BASE. split_and!.
  - intros Hr. rewrite (proj2 (Z.ltb_ge irq 0)), Z.geb_leb, (proj2 (Z.leb_gt 64 irq)) by lia. simpl.
    do 2 eexists. split; [reflexivity|]. split; [zlia|]. intros j Hj.
    unfold u32. rewrite Z.mod_pow2_bits_low by zlia.
    rewrite Z.shiftl_mul_pow2, Z.mul_1_l, Z.pow2_bits_eqb, Z.eqb_eq by zlia. zlia.
  - intros Hr. destruct (irq <? 0) eqn:E1, (irq >=? 64) eqn:E2; bool_hyps; done || lia.
  - apply Forall_forall. intros w Hw. change (w ∈ gic_init) in Hw.
    assert (Hall : forallb (fun w => negb ((GICD_BASE + 0x800 <=? fst w) && (fst w <? GICD_BASE + 0x808))) gic_init = true)
      by reflexivity.
    rewrite forallb_forall in Hall. specialize (Hall w (proj1 (list_elem_of_In _ _) Hw)).
    bool_hyps. unfold GICD_BASE in *. destruct Hall; bool_hyps; lia.
Qed.

Lemma gic_enable_one_bit_witness : gic_enable_irq IRQ_TIMER_INTID = [(0x08000100, 0x40000000)] /\
  Forall (fun w => ~ (GICD_BASE + 0x800 <= fst w < GICD_BASE + 0x808)) gic_init.
Proof. split; [reflexivity|]. apply (gic_enable_one_bit IRQ_TIMER_INTID). unfold IRQ_TIMER_INTID. lia. Defined.
