(* ===== verification/Sched.v ===== *)
(** * The scheduler (kernel/sched.c, boot/aarch64/switch.S)

    Sixteen task slots, scheduled round-robin at yield points.  A switch saves
    the live callee-saved registers (the list [cpu]) into the outgoing task and
    loads those of the incoming one.  The virtual memory manager is used through
    the interface [AddrSpaces]. *)

From S2P Require Import Prelude Uart Tick.

(** What the scheduler relies on: loading an address space that exists succeeds
    and makes it the active one. *)
Class AddrSpaces (V : Type) := {
  as_load : Z -> M V unit;
  as_now : V -> Z;
  as_exists : V -> Z -> Prop;
  as_load_ok : forall v a, as_exists v a ->
    exists v', as_load a v = Ok (tt, v', []) /\ as_now v' = a /\
      forall b, as_exists v' b <-> as_exists v b;
}.

Definition MAX_TASKS : Z := 16.
Definition TASK_NAME_LEN : Z := 12.
Definition SCHED_QUANTUM : Z := 25.

Inductive task_state := TASK_UNUSED | TASK_READY | TASK_RUNNING | TASK_FINISHED.
#[export] Instance task_state_eq_dec : EqDecision task_state.
Proof. solve_decision. Defined.

Record task_struct := mk_task {
  regs : list Z;                (* cpu.regs[15] *)
  state : task_state;
  name : list Z;                (* name[12] *)
  ticks_used : Z; yields : Z; starved_ticks : Z; kill_pending : bool;
  as_ : Z; kstack_top : Z; pid : Z; uentry : Z; usp : Z }.

Definition set_state (st : task_state) (t : task_struct) : task_struct :=
  mk_task (regs t) st (name t) (ticks_used t) (yields t) (starved_ticks t) (kill_pending t)
    (as_ t) (kstack_top t) (pid t) (uentry t) (usp t).
Definition set_regs (r : list Z) (t : task_struct) : task_struct :=
  mk_task r (state t) (name t) (ticks_used t) (yields t) (starved_ticks t) (kill_pending t)
    (as_ t) (kstack_top t) (pid t) (uentry t) (usp t).
Definition set_starved (n : Z) (t : task_struct) : task_struct :=
  mk_task (regs t) (state t) (name t) (ticks_used t) (yields t) n (kill_pending t)
    (as_ t) (kstack_top t) (pid t) (uentry t) (usp t).
Definition set_kill (t : task_struct) : task_struct :=
  mk_task (regs t) (state t) (name t) (ticks_used t) (yields t) (starved_ticks t) true
    (as_ t) (kstack_top t) (pid t) (uentry t) (usp t).
Definition add_tick (t : task_struct) : task_struct :=
  mk_task (regs t) (state t) (name t) (u32 (ticks_used t + 1)) (yields t) (starved_ticks t)
    (kill_pending t) (as_ t) (kstack_top t) (pid t) (uentry t) (usp t).
Definition add_yield (t : task_struct) : task_struct :=
  mk_task (regs t) (state t) (name t) (ticks_used t) (u32 (yields t + 1)) (starved_ticks t)
    (kill_pending t) (as_ t) (kstack_top t) (pid t) (uentry t) (usp t).
Definition set_pid (p : Z) (t : task_struct) : task_struct :=
  mk_task (regs t) (state t) (name t) (ticks_used t) (yields t) (starved_ticks t)
    (kill_pending t) (as_ t) (kstack_top t) p (uentry t) (usp t).

(** [cpu]: the live x19-x28, fp, lr, sp; [irqs]: whether interrupts are enabled. *)
Record sched {V : Type} := mk_sched {
  tasks : list task_struct; current : Z; uptime : Z; watchdog_limit : Z;
  cpu : list Z; irqs : bool; vm : V; registry : ticks }.
Arguments sched V : clear implicits.

(** How a call that may switch tasks ends: it returned to its caller, another
    task is running now, or the processor is parked. *)
Inductive outcome := Returned | Switched | Parked.

Section Ops.
Context {V : Type} `{!AddrSpaces V}.
(** The addresses of [task_trampoline] and [syscall_user_drop]. *)
Context (task_trampoline syscall_user_drop : Z).
Implicit Types s : sched V.

Definition set_tasks (ts : list task_struct) (s : sched V) : sched V :=
  mk_sched V ts (current s) (uptime s) (watchdog_limit s) (cpu s) (irqs s) (vm s) (registry s).
Definition set_current (c : Z) (s : sched V) : sched V :=
  mk_sched V (tasks s) c (uptime s) (watchdog_limit s) (cpu s) (irqs s) (vm s) (registry s).
Definition set_cpu (c : list Z) (s : sched V) : sched V :=
  mk_sched V (tasks s) (current s) (uptime s) (watchdog_limit s) c (irqs s) (vm s) (registry s).
Definition set_irqs (b : bool) (s : sched V) : sched V :=
  mk_sched V (tasks s) (current s) (uptime s) (watchdog_limit s) (cpu s) b (vm s) (registry s).
Definition set_vm (v : V) (s : sched V) : sched V :=
  mk_sched V (tasks s) (current s) (uptime s) (watchdog_limit s) (cpu s) (irqs s) v (registry s).
Definition set_registry (t : ticks) (s : sched V) : sched V :=
  mk_sched V (tasks s) (current s) (uptime s) (watchdog_limit s) (cpu s) (irqs s) (vm s) t.

Definition irq_enable : M (sched V) unit := modify (set_irqs true).

Definition get_task (i : Z) : M (sched V) task_struct :=
  let* s := get in of_opt (aget (tasks s) i).
Definition upd_task (i : Z) (f : task_struct -> task_struct) : M (sched V) unit :=
  let* s := get in
  let* t := of_opt (aget (tasks s) i) in
  let* ts := of_opt (aset (tasks s) i (f t)) in
  put (set_tasks ts s).

(** [cur()]: the current index, [None] for a null result. *)
Definition cur (s : sched V) : option Z := if current s >=? 0 then Some (current s) else None.

(** [cpu_switch_to]: the thirteen registers of [cpu] go to [prev->cpu.regs],
    and come from [next->cpu.regs]. *)
Definition cpu_switch_to (prev next : Z) : M (sched V) unit :=
  let* s := get in
  upd_task prev (fun t => set_regs (cpu s ++ drop 13 (regs t)) t) ;;;
  let* t := get_task next in
  modify (set_cpu (take 13 (regs t))).

(** With [AEOS_HAS_VMM], as the aarch64 kernel is built. *)
Definition switch_address_space (prev next : Z) : M (sched V) unit :=
  let* p := get_task prev in
  let* n := get_task next in
  if as_ p =? as_ n then ret tt else zoom vm set_vm (as_load (as_ n)).

(** The loop of [next_ready] from step [i], [n] steps left. *)
Fixpoint next_ready_loop (ts : list task_struct) (from i : Z) (n : nat) : option Z :=
  match n with
  | O => Some (-1)
  | S n' =>
      let idx := (from + i) mod MAX_TASKS in
      t ← aget ts idx;
      if decide (state t = TASK_READY) then Some idx else next_ready_loop ts from (i + 1) n'
  end.
Definition next_ready (from : Z) : M (sched V) Z :=
  let* s := get in of_opt (next_ready_loop (tasks s) from 1 16).

Definition sched_on_tick : M (sched V) unit :=
  modify (fun s => mk_sched V (tasks s) (current s) (u32 (uptime s + 1)) (watchdog_limit s)
                     (cpu s) (irqs s) (vm s) (registry s)) ;;;
  let* s := get in
  match cur s with
  | None => ret tt
  | Some c =>
      let* t := get_task c in
      if decide (state t = TASK_RUNNING) then
        upd_task c add_tick ;;;
        if negb (watchdog_limit s =? 0) && negb (c =? 0) then
          let n := u32 (starved_ticks t + 1) in
          upd_task c (set_starved n) ;;;
          if (n >=? watchdog_limit s) && negb (kill_pending t) then
            upd_task c set_kill ;;;
            puts_nolf "[wd] task '" ;;; puts_bytes_nolf (cstr (name t)) ;;;
            puts "' flagged rogue - kill at next yield"
          else ret tt
        else ret tt
      else ret tt
  end.

Definition init_task (t : task_struct) : task_struct :=
  mk_task (regs t) TASK_UNUSED (0 :: drop 1 (name t)) 0 0 0 false 0 0 (-1) 0 0.

Definition sched_init (main_name : view) : M (sched V) unit :=
  modify (fun s => set_tasks (map init_task (tasks s)) s) ;;;
  upd_task 0 (fun t => mk_task (regs t) TASK_RUNNING (copy_name 11 main_name (name t))
    (ticks_used t) (yields t) (starved_ticks t) (kill_pending t) (as_ t) (kstack_top t)
    (pid t) (uentry t) (usp t)) ;;;
  modify (set_current 0) ;;;
  let* _ := zoom registry set_registry (tick_subscribe (Some SchedOnTick)) in
  ret tt.

Fixpoint slot_alloc_from (ts : list task_struct) (i : Z) : Z :=
  match ts with
  | [] => -1
  | t :: ts' =>
      if decide (state t = TASK_UNUSED) then i else
      if decide (state t = TASK_FINISHED) then i else slot_alloc_from ts' (i + 1)
  end.
Definition slot_alloc (s : sched V) : Z := slot_alloc_from (tasks s) 0.

(** [task_setup] and the stores of [sched_spawn] and [sched_spawn_user_task]:
    registers cleared but for x19, lr and sp. *)
Definition setup (nm : view) (r0 lr sp as0 p ue us : Z) (t : task_struct) : task_struct :=
  mk_task (<[12%nat := sp]> (<[11%nat := lr]> (<[0%nat := r0]> (replicate 15 0))))
    TASK_READY (copy_name 11 nm (name t)) 0 0 0 false as0 0 p ue us.

Definition stack_top (stack len : Z) : Z := Z.land (u64 (stack + len)) (u64 (Z.lnot 0xF)).

Definition sched_spawn (nm : view) (entry stack stack_len : Z) : M (sched V) Z :=
  let* s := get in
  let slot := slot_alloc s in
  if (slot <? 0) || (entry =? 0) || (stack =? 0) || (stack_len <? 256) then ret (-1) else
  upd_task slot (setup nm entry task_trampoline (stack_top stack stack_len) 0 (-1) 0 0) ;;;
  ret slot.

Definition sched_spawn_user_task (nm : view) (as0 ue us p stack stack_len : Z) : M (sched V) Z :=
  let* s := get in
  let slot := slot_alloc s in
  if (slot <? 0) || (ue =? 0) || (us =? 0) || (stack =? 0) || (stack_len <? 256)
  then ret (-1) else
  upd_task slot (setup nm 0 syscall_user_drop (stack_top stack stack_len) as0 p ue us) ;;;
  ret slot.

(** The last steps of a switch: [arch_pre_switch] is empty on aarch64. *)
Definition switch_to (prev next : Z) : M (sched V) unit :=
  irq_enable ;;;
  switch_address_space prev next ;;;
  cpu_switch_to prev next.

Definition sched_exit : M (sched V) outcome :=
  let* s := get in
  match cur s with
  | None => ret Parked
  | Some c =>
      upd_task c (set_state TASK_FINISHED) ;;;
      let* nxt := next_ready c in
      if nxt >=? 0 then
        upd_task nxt (set_state TASK_RUNNING) ;;;
        modify (set_current nxt) ;;;
        switch_to c nxt ;;;
        ret Switched
      else irq_enable ;;; ret Parked
  end.

Definition sched_yield : M (sched V) outcome :=
  let* s := get in
  match cur s with
  | None => ret Returned
  | Some c =>
      let* prev := get_task c in
      if kill_pending prev then
        puts_nolf "[wd] killing task '" ;;; puts_bytes_nolf (cstr (name prev)) ;;;
        puts "'" ;;;
        upd_task c (set_state TASK_FINISHED) ;;;
        let* nxt := next_ready c in
        if nxt >=? 0 then
          upd_task nxt (set_state TASK_RUNNING) ;;;
          modify (set_current nxt) ;;;
          switch_to c nxt ;;;
          ret Switched
        else irq_enable ;;; sched_exit
      else
        upd_task c (set_starved 0) ;;;
        let* nxt := next_ready c in
        if nxt <? 0 then ret Returned else
        upd_task c (set_state TASK_READY) ;;;
        upd_task nxt (set_state TASK_RUNNING) ;;;
        upd_task c add_yield ;;;
        modify (set_current nxt) ;;;
        switch_to c nxt ;;;
        ret Switched
  end.

Definition sched_task_count : M (sched V) Z :=
  let* s := get in
  ret (Z.of_nat (length (filter (fun t => state t <> TASK_UNUSED) (tasks s)))).
Definition sched_uptime_ticks : M (sched V) Z := let* s := get in ret (uptime s).

Definition sched_should_preempt : M (sched V) Z :=
  let* s := get in
  match cur s with
  | None => ret 0
  | Some c =>
      let* t := get_task c in
      if negb (bool_decide (state t = TASK_RUNNING)) then ret 0 else
      if starved_ticks t <? SCHED_QUANTUM then ret 0 else
      let* nxt := next_ready c in
      if nxt <? 0 then ret 0 else ret 1
  end.

Definition sched_current_index : M (sched V) Z := let* s := get in ret (current s).
Definition valid_idx (i : Z) : bool := negb ((i <? 0) || (i >=? MAX_TASKS)).
Definition sched_task_as (i : Z) : M (sched V) Z :=
  if negb (valid_idx i) then ret 0 else let* t := get_task i in ret (as_ t).
Definition sched_task_pid (i : Z) : M (sched V) Z :=
  if negb (valid_idx i) then ret (-1) else let* t := get_task i in ret (pid t).
Definition sched_task_set_pid (i p : Z) : M (sched V) unit :=
  if valid_idx i then upd_task i (set_pid p) else ret tt.
Definition sched_current_user_point : M (sched V) (Z * Z) :=
  let* s := get in
  match cur s with
  | None => ret (0, 0)
  | Some c => let* t := get_task c in ret (uentry t, usp t)
  end.
Definition sched_current_name : M (sched V) (list Z) :=
  let* s := get in
  match cur s with
  | None => ret (bytes "?")
  | Some c => let* t := get_task c in ret (cstr (name t))
  end.

(** The return code with the name, state, ticks and yields copied out. *)
Definition sched_snapshot (i : Z) : M (sched V) (Z * option (list Z * task_state * Z * Z)) :=
  if negb (valid_idx i) then ret (-1, None) else
  let* t := get_task i in
  if decide (state t = TASK_UNUSED) then ret (-1, None) else
  ret (0, Some (cstr (take 11 (name t)), state t, ticks_used t, yields t)).

Definition sched_watchdog_set (limit : Z) : M (sched V) unit :=
  modify (fun s => mk_sched V (tasks s) (current s) (uptime s) limit (cpu s) (irqs s) (vm s)
                     (registry s)).

Definition state_name (st : task_state) : string :=
  match st with
  | TASK_UNUSED => "UNUSED" | TASK_READY => "READY"
  | TASK_RUNNING => "RUNNING" | TASK_FINISHED => "FINISHED"
  end.
Definition report_line (it : Z * task_struct) : M (sched V) unit :=
  let (i, t) := it in
  if decide (state t = TASK_UNUSED) then ret tt else
  puts_nolf "    [" ;;; put_dec i ;;; puts_nolf "] " ;;; puts_bytes_nolf (cstr (name t)) ;;;
  puts_nolf "  state=" ;;; puts (state_name (state t)) ;;;
  puts_nolf "       ticks=" ;;; put_dec (ticks_used t) ;;;
  puts_nolf "  yields=" ;;; put_dec (yields t) ;;; puts "".
Definition sched_report : M (sched V) unit :=
  let* s := get in
  puts "  Task table:" ;;;
  foldr (fun it k => report_line it ;;; k) (ret tt) (zip (seqZ 0 (Z.of_nat (length (tasks s)))) (tasks s)).
End Ops.

(** ** Symbolic execution of the task table *)

Section Rules.
Context {V : Type} `{!AddrSpaces V}.
Implicit Types s : sched V.

Lemma wp_get_task i t Q s : aget (tasks s) i = Some t -> Q t s [] -> wp (get_task i) Q s.
Proof. intros E HQ. unfold get_task. wp_go. done. Qed.

Lemma wp_upd_task i f t Q s :
  aget (tasks s) i = Some t ->
  Q tt (set_tasks (<[Z.to_nat i := f t]> (tasks s)) s) [] -> wp (upd_task i f) Q s.
Proof.
  intros E HQ. pose proof (aget_lt _ _ _ E). unfold upd_task. wp_go. done.
Qed.
End Rules.

Ltac wp_task :=
  lazymatch goal with
  | |- wp (get_task _) _ _ => eapply wp_get_task; [eassumption|]
  | |- wp (upd_task _ _) _ _ => eapply wp_upd_task; [eassumption|]
  end.

(** The slot of task [i]; the table is only read at valid indices below. *)
Definition is_ready (ts : list task_struct) (i : Z) : Prop :=
  exists t, aget ts i = Some t /\ state t = TASK_READY.
#[export] Instance is_ready_dec ts i : Decision (is_ready ts i).
Proof.
  unfold is_ready. destruct (aget ts i) as [t|].
  - destruct (decide (state t = TASK_READY)); [left; eauto|right; naive_solver].
  - right. naive_solver.
Defined.

(** [nxt] is the first ready slot after [from] in circular order. *)
Definition first_ready_after (ts : list task_struct) (from nxt : Z) : Prop :=
  exists k, 1 <= k <= 16 /\ nxt = (from + k) mod 16 /\ is_ready ts nxt /\
    forall j, 1 <= j < k -> ~ is_ready ts ((from + j) mod 16).

Lemma next_ready_loop_spec ts from i n :
  length ts = 16%nat -> 1 <= i -> i + Z.of_nat n = 17 ->
  (forall j, 1 <= j < i -> ~ is_ready ts ((from + j) mod 16)) ->
  exists r, next_ready_loop ts from i n = Some r /\
    (r = -1 /\ (forall j, 1 <= j <= 16 -> ~ is_ready ts ((from + j) mod 16)) \/
     0 <= r < 16 /\ first_ready_after ts from r).
Proof.
  intros Hl. revert i. induction n as [|n IH]; intros i Hi Hn Hpre; cbn [next_ready_loop].
  { exists (-1). split; [done|]. left. split; [done|]. intros j Hj. apply Hpre. lia. }
  unfold MAX_TASKS. pose proof (Z.mod_pos_bound (from + i) 16 ltac:(lia)) as Hb.
  destruct (aget_in ts ((from + i) mod 16)) as [t Ht]; [lia|]. rewrite Ht. cbn [mbind option_bind].
  destruct (decide (state t = TASK_READY)) as [Hr|Hr].
  - eexists. split; [done|]. right. split; [done|]. exists i. split_and!; [lia|lia|done|by exists t|].
    intros j Hj. apply Hpre. lia.
  - apply IH; [lia|lia|]. intros j Hj. destruct (decide (j = i)) as [->|].
    + intros (t' & ? & ?). congruence.
    + apply Hpre. lia.
Qed.

(** [next_ready] finds the first ready task after [from], or none exists. *)
Lemma next_ready_spec {V} (s : sched V) from (Q : Z -> sched V -> list Z -> Prop) :
  length (tasks s) = 16%nat -> 0 <= from < 16 ->
  (forall r, r = -1 -> (forall i, 0 <= i < 16 -> ~ is_ready (tasks s) i) -> Q r s []) ->
  (forall r, 0 <= r < 16 -> first_ready_after (tasks s) from r -> Q r s []) ->
  wp (next_ready from) Q s.
Proof.
  intros Hl Hf Hnone Hsome. unfold next_ready. wp_go.
  destruct (next_ready_loop_spec (tasks s) from 1 16 Hl) as (r & E & H); [lia|lia|lia|].
  eapply wp_of_opt; [exact E|]. destruct H as [[-> H]|[? ?]]; [|by apply Hsome].
  apply Hnone; [done|]. intros i Hi. specialize (H (if i <=? from then i - from + 16 else i - from)).
  replace ((from + (if i <=? from then i - from + 16 else i - from)) mod 16) with i in H.
  - apply H. case_match; bool_hyps; lia.
  - case_match; bool_hyps; zlia.
Qed.

(** ** Invariant *)

Section Invariant.
Context {V : Type} `{!AddrSpaces V}.
Implicit Types s : sched V.

Definition task_wf (t : task_struct) : Prop := length (regs t) = 15%nat /\ length (name t) = 12%nat.

(** Table shape, registers, address spaces: true at every step. *)
Definition shape (s : sched V) : Prop :=
  length (tasks s) = 16%nat /\ 0 <= current s < 16 /\ length (cpu s) = 13%nat /\
  Forall task_wf (tasks s) /\ (forall i t, aget (tasks s) i = Some t -> as_exists (vm s) (as_ t)).

(** The current task, and only it, is [TASK_RUNNING], in its own address space. *)
Definition sched_wf (s : sched V) : Prop :=
  shape s /\
  (forall i t, aget (tasks s) i = Some t -> (state t = TASK_RUNNING <-> i = current s)) /\
  (forall t, aget (tasks s) (current s) = Some t -> as_now (vm s) = as_ t).

(** The current task has finished and no task is ready: the processor idles. *)
Definition idle (s : sched V) : Prop :=
  shape s /\ (forall i, 0 <= i < 16 -> ~ is_ready (tasks s) i) /\
  (forall i t, aget (tasks s) i = Some t -> state t <> TASK_RUNNING).

Lemma shape_current s : shape s -> exists t, aget (tasks s) (current s) = Some t /\ task_wf t.
Proof.
  intros (Hl & Hc & _ & Hf & _). destruct (aget_in (tasks s) (current s)) as [t Ht]; [lia|].
  exists t. split; [done|]. apply aget_Some in Ht as [_ Ht]. apply (Forall_lookup_1 _ _ _ _ Hf Ht).
Qed.

Lemma shape_upd s i t f :
  shape s -> aget (tasks s) i = Some t -> (task_wf t -> task_wf (f t)) -> as_ (f t) = as_ t ->
  shape (set_tasks (<[Z.to_nat i := f t]> (tasks s)) s).
Proof.
  intros (Hl & Hc & Hcpu & Hf & Has) Ht Hwf Hsame. pose proof (aget_lt _ _ _ Ht).
  pose proof (proj1 (aget_Some _ _ _) Ht) as [_ Ht'].
  split_and!; try done; simpl.
  - by rewrite length_insert.
  - lia.
  - lia.
  - apply Forall_insert; [done|]. apply Hwf. apply (Forall_lookup_1 _ _ _ _ Hf Ht').
  - intros j u Hu. destruct (decide (i = j)) as [<-|].
    + rewrite aget_insert in Hu by lia. injection Hu as <-. rewrite Hsame. by apply (Has i).
    + rewrite aget_insert_ne in Hu by lia. by apply (Has j).
Qed.

(** The end of every switch: from a table where [p] is no longer running and
    [n] is, the registers of [p] are saved and those of [n] loaded. *)
Lemma wp_switch s p n tp tn (Q : outcome -> sched V -> list Z -> Prop) :
  shape s -> p <> n -> aget (tasks s) p = Some tp -> aget (tasks s) n = Some tn ->
  as_now (vm s) = as_ tp ->
  (forall v, as_now v = as_ tn -> (forall b, as_exists v b <-> as_exists (vm s) b) ->
     Q Switched (mk_sched V (<[Z.to_nat p := set_regs (cpu s ++ drop 13 (regs tp)) tp]> (tasks s)) n
       (uptime s) (watchdog_limit s) (take 13 (regs tn)) true v (registry s)) []) ->
  wp (modify (set_current n) ;;; switch_to p n ;;; ret Switched) Q s.
Proof.
  intros Hs Hne Hp Hn Hnow HQ. pose proof (aget_lt _ _ _ Hp).
  unfold switch_to, irq_enable, switch_address_space, cpu_switch_to.
  wp_go. wp_task. wp_go. wp_task.
  assert (Hload : wp (if as_ tp =? as_ tn then ret tt else zoom vm set_vm (as_load (as_ tn)))
    (fun _ s' o => o = [] /\ exists v, as_now v = as_ tn /\ (forall b, as_exists v b <-> as_exists (vm s) b) /\
       s' = set_vm v (set_irqs true (set_current n s))) (set_irqs true (set_current n s))).
  { destruct (as_ tp =? as_ tn) eqn:E; bool_hyps.
    - wp_go. split; [done|]. exists (vm s). split_and!; [congruence|done|by destruct s].
    - apply wp_zoom. destruct Hs as (_ & _ & _ & _ & Has).
      destruct (as_load_ok (vm s) (as_ tn) (Has _ _ Hn)) as (v & Ev & Hv & Hex).
      eapply wp_intro; [exact Ev|]. split; [done|]. by exists v. }
  eapply wp_mono; [exact Hload|]. intros _ s' o [-> (v & Hv & Hex & ->)]. wp_go.
  wp_task. cbn [set_vm set_irqs set_current tasks]. wp_go.
  eapply wp_get_task; [simpl; rewrite aget_insert_ne by lia; exact Hn|]. wp_go.
  by apply (HQ v).
Qed.
End Invariant.

Section Yield.
Context {V : Type} `{!AddrSpaces V}.
Implicit Types s : sched V.

(** Control has passed from the current task of [s] to the first ready one
    after it: its registers are saved and [st] is its state now, the registers
    of the new task are live, and the other slots are as before. *)
Definition switched (st : task_state) (s s' : sched V) : Prop :=
  sched_wf s' /\ irqs s' = true /\
  first_ready_after (tasks s) (current s) (current s') /\
  (exists tn, aget (tasks s) (current s') = Some tn /\ cpu s' = take 13 (regs tn)) /\
  (exists tp, aget (tasks s') (current s) = Some tp /\ state tp = st /\ take 13 (regs tp) = cpu s) /\
  (forall i, 0 <= i -> i <> current s -> i <> current s' -> aget (tasks s') i = aget (tasks s) i).

Lemma is_ready_upd ts c t t' i :
  aget ts c = Some t -> state t <> TASK_READY -> state t' <> TASK_READY ->
  is_ready (<[Z.to_nat c := t']> ts) i <-> is_ready ts i.
Proof.
  intros Hc Ht Ht'. pose proof (aget_lt _ _ _ Hc). unfold is_ready.
  destruct (decide (c = i)) as [<-|].
  - rewrite aget_insert by lia. naive_solver.
  - by rewrite aget_insert_ne by lia.
Qed.

Lemma first_ready_after_ext ts ts' from n :
  (forall i, is_ready ts' i <-> is_ready ts i) ->
  first_ready_after ts' from n <-> first_ready_after ts from n.
Proof. intros H. unfold first_ready_after. by setoid_rewrite H. Qed.

Lemma first_ready_ne ts c t n :
  aget ts c = Some t -> state t <> TASK_READY -> first_ready_after ts c n -> n <> c.
Proof. intros Hc Ht (k & _ & _ & (t' & ? & ?) & _) ->. congruence. Qed.

(** Switching from a running [c], whose slot has become [tc], to [n]. *)
Lemma switched_wf s c n tc tn v :
  sched_wf s -> c = current s -> first_ready_after (tasks s) c n -> n <> c ->
  aget (tasks s) n = Some tn -> task_wf tc -> state tc <> TASK_RUNNING ->
  as_exists (vm s) (as_ tc) -> take 13 (regs tc) = cpu s ->
  as_now v = as_ tn -> (forall b, as_exists v b <-> as_exists (vm s) b) ->
  switched (state tc) s (mk_sched V (<[Z.to_nat c := tc]> (<[Z.to_nat n := set_state TASK_RUNNING tn]> (tasks s)))
    n (uptime s) (watchdog_limit s) (take 13 (regs tn)) true v (registry s)).
Proof.
  intros ((Hl & Hc & Hcpu & Hf & Has) & Hrun & Hnow) -> Hfirst Hne Hn Htc Hst Hasc Hregs Hv Hex.
  pose proof (aget_lt _ _ _ Hn) as Hnr. pose proof (proj1 (aget_Some _ _ _) Hn) as [_ Hn'].
  pose proof (Forall_lookup_1 _ _ _ _ Hf Hn') as Htn.
  assert (Hlook : forall i, 0 <= i -> aget (<[Z.to_nat (current s) := tc]>
      (<[Z.to_nat n := set_state TASK_RUNNING tn]> (tasks s))) i =
    if i =? current s then Some tc else if i =? n then Some (set_state TASK_RUNNING tn)
    else aget (tasks s) i).
  { intros i Hi. destruct (i =? current s) eqn:E1; bool_hyps; subst.
    - apply aget_insert. rewrite length_insert. lia.
    - rewrite aget_insert_ne by lia. destruct (i =? n) eqn:E2; bool_hyps; subst.
      + apply aget_insert. lia.
      + by rewrite aget_insert_ne by lia. }
  assert (Hlk : forall i t, aget (<[Z.to_nat (current s) := tc]>
      (<[Z.to_nat n := set_state TASK_RUNNING tn]> (tasks s))) i = Some t ->
    i = current s /\ t = tc \/ i = n /\ t = set_state TASK_RUNNING tn \/
    i <> current s /\ i <> n /\ aget (tasks s) i = Some t).
  { intros i t Ht. pose proof (aget_lt _ _ _ Ht) as [Hi _]. rewrite Hlook in Ht by done.
    destruct (i =? current s) eqn:E1; [bool_hyps; naive_solver|].
    destruct (i =? n) eqn:E2; bool_hyps; naive_solver. }
  unfold switched. simpl. split_and!; try done.
  - split; [|split]; simpl.
    + split_and!; simpl; try lia.
      * by rewrite !length_insert.
      * destruct Htn. rewrite length_take. lia.
      * by repeat apply Forall_insert.
      * intros i t [[-> ->]|[[-> ->]|(_ & _ & Ht)]]%Hlk; apply Hex;
          [done|exact (Has n tn Hn)|exact (Has i t Ht)].
    + intros i t [[-> ->]|[[-> ->]|(H1 & H2 & Ht)]]%Hlk; [split; congruence|done|].
      split; [|done]. intros Hr. destruct H1. by apply (Hrun i t).
    + intros t Ht. rewrite Hlook in Ht by lia.
      rewrite (proj2 (Z.eqb_neq n _)), Z.eqb_refl in Ht by done. by injection Ht as <-.
  - by exists tn.
  - exists tc. rewrite Hlook, Z.eqb_refl by lia. done.
  - intros i Hi H1 H2. rewrite Hlook by done. by rewrite !(proj2 (Z.eqb_neq i _)) by done.
Qed.

(** Rewriting two updates of different slots. *)
Lemma upd_comm (ts : list task_struct) c n x y :
  c <> n -> 0 <= c -> 0 <= n ->
  <[Z.to_nat n := y]> (<[Z.to_nat c := x]> ts) = <[Z.to_nat c := x]> (<[Z.to_nat n := y]> ts).
Proof. intros. apply list_insert_insert_ne. lia. Qed.

(** The three ways a call that gives up the processor ends. *)
Definition yield_post (s : sched V) (r : outcome) (s' : sched V) : Prop :=
  exists t, aget (tasks s) (current s) = Some t /\
  match r with
  | Returned => kill_pending t = false /\ (forall i, ~ is_ready (tasks s) i) /\
      sched_wf s' /\ s' = set_tasks (<[Z.to_nat (current s) := set_starved 0 t]> (tasks s)) s
  | Switched => switched (if kill_pending t then TASK_FINISHED else TASK_READY) s s'
  | Parked => kill_pending t = true /\ (forall i, ~ is_ready (tasks s) i) /\ idle s'
  end.

Section Wf.
Context (s : sched V) (Hwf : sched_wf s).
Let c := current s.

(** Finishing the current task and switching away, shared by [sched_exit]
    and the watchdog's kill in [sched_yield]. *)
Lemma wp_finish_and_switch t k (Q : outcome -> sched V -> list Z -> Prop) :
  aget (tasks s) c = Some t ->
  (forall s', switched TASK_FINISHED s s' -> Q Switched s' []) ->
  (forall s', s' = set_tasks (<[Z.to_nat c := set_state TASK_FINISHED t]> (tasks s)) s ->
     (forall i, ~ is_ready (tasks s) i) -> idle s' -> wp k Q s') ->
  wp (upd_task c (set_state TASK_FINISHED) ;;;
      let* nxt := next_ready c in
      if nxt >=? 0 then
        upd_task nxt (set_state TASK_RUNNING) ;;;
        modify (set_current nxt) ;;; switch_to c nxt ;;; ret Switched
      else k) Q s.
Proof.
  intros Ht Hsw Hidle. destruct Hwf as (Hs & Hrun & Hnow).
  pose proof Hs as (Hl & Hcr & Hcpu & Hf & Has).
  pose proof (proj1 (aget_Some _ _ _) Ht) as [_ Ht']. pose proof (Forall_lookup_1 _ _ _ _ Hf Ht') as Htw.
  assert (Hst : state t = TASK_RUNNING) by (by apply (Hrun c t)).
  set (t1 := set_state TASK_FINISHED t).
  assert (Hr : forall i, is_ready (<[Z.to_nat c := t1]> (tasks s)) i <-> is_ready (tasks s) i).
  { intros i. apply (is_ready_upd _ _ t); [done|congruence|done]. }
  pose proof (shape_upd s c t (set_state TASK_FINISHED) Hs Ht ltac:(done) eq_refl) as Hs1.
  fold t1 in Hs1. wp_go. wp_task. fold t1. apply wp_bind, next_ready_spec.
  - simpl. by rewrite length_insert.
  - done.
  - intros r -> Hnone. change (-1 >=? 0) with false. cbv iota. apply Hidle; [done| |].
    + intros i Hi. pose proof Hi as (u & Hu & _). apply aget_lt in Hu.
      destruct (Hnone i); [lia|]. by apply Hr.
    + split_and!; [done|done|]. simpl. intros i u Hu Hru.
      destruct (decide (c = i)) as [<-|].
      * rewrite aget_insert in Hu by lia. naive_solver.
      * rewrite aget_insert_ne in Hu by (unfold c in *; lia). by apply (Hrun i u) in Hu as [Hu _]; destruct (Hu Hru).
  - intros n Hn Hfirst%(first_ready_after_ext (tasks s)); [|exact Hr].
    rewrite Z.geb_leb, (proj2 (Z.leb_le 0 n)) by lia.
    assert (Hne : n <> c) by (eapply (first_ready_ne _ _ t); [done|congruence|done]).
    destruct (aget_in (tasks s) n) as [tn Htn]; [lia|].
    assert (Htn1 : aget (<[Z.to_nat c := t1]> (tasks s)) n = Some tn)
      by (rewrite aget_insert_ne by lia; done).
    apply wp_bind. eapply wp_upd_task; [exact Htn1|]. cbn [app].
    set (s2 := set_tasks _ _).
    assert (Htc2 : aget (tasks s2) c = Some t1).
    { simpl. rewrite aget_insert_ne by lia. apply aget_insert. lia. }
    assert (Htn2 : aget (tasks s2) n = Some (set_state TASK_RUNNING tn)).
    { simpl. apply aget_insert. rewrite length_insert. lia. }
    apply (wp_switch s2 c n t1 (set_state TASK_RUNNING tn)); try done.
    { apply (shape_upd _ n tn (set_state TASK_RUNNING)); done. }
    { exact (Hnow t Ht). }
    intros v Hv Hex. apply Hsw. simpl.
    rewrite (upd_comm _ c n) by lia. rewrite list_insert_insert_eq.
    change TASK_FINISHED with (state (set_regs (cpu s ++ drop 13 (regs t1)) t1)).
    apply switched_wf; try done.
    + destruct Htw. split; simpl; [|done]. rewrite length_app, length_drop. lia.
    + simpl. by apply (Has c).
    + simpl. by rewrite take_app_length' by lia.
Qed.

Lemma exit_post :
  wp sched_exit (fun r s' o => o = [] /\
    (r = Switched /\ switched TASK_FINISHED s s' \/
     r = Parked /\ (forall i, ~ is_ready (tasks s) i) /\ idle s')) s.
Proof.
  destruct (shape_current s (proj1 Hwf)) as (t & Ht & _). unfold sched_exit, cur.
  wp_go. destruct Hwf as ((_ & Hcr & _) & _). rewrite Z.geb_leb, (proj2 (Z.leb_le 0 _)) by lia.
  apply (wp_finish_and_switch t); [done| |].
  - intros s' Hs'. split; [done|]. by left.
  - intros s' -> Hno Hi. unfold irq_enable. wp_go. split; [done|]. right.
    split_and!; [done|done|]. apply Hi.
Qed.

Lemma exit_idle s1 :
  idle s1 -> wp sched_exit (fun r s' _ => r = Parked /\ idle s') s1.
Proof.
  intros (Hs & Hno & Hnr). destruct (shape_current s1 Hs) as (t & Ht & _).
  pose proof Hs as (Hl & Hcr & _). unfold sched_exit, cur, irq_enable.
  wp_go. rewrite Z.geb_leb, (proj2 (Z.leb_le 0 _)) by lia. wp_go. wp_task.
  pose proof (shape_upd s1 _ t (set_state TASK_FINISHED) Hs Ht ltac:(done) eq_refl) as Hs'.
  assert (Hr : forall i, is_ready (<[Z.to_nat (current s1) := set_state TASK_FINISHED t]> (tasks s1)) i
    <-> is_ready (tasks s1) i).
  { intros i. apply (is_ready_upd _ _ t); [done| |done]. intros E. apply (Hno (current s1)); [done|].
    by exists t. }
  apply wp_bind, next_ready_spec; [apply Hs'|done| |].
  - intros r -> _. change (-1 >=? 0) with false. cbv iota. wp_go. split; [done|].
    split; [apply Hs'|]. split; simpl; [intros i Hi; rewrite Hr; auto|].
    intros i u Hu. destruct (decide (current s1 = i)) as [<-|].
    + rewrite aget_insert in Hu by lia. naive_solver.
    + rewrite aget_insert_ne in Hu by lia. eauto.
  - intros n Hn (k & _ & _ & Hready & _). apply Hr in Hready. by destruct (Hno n).
Qed.

Lemma yield_post_holds : wp sched_yield (fun r s' _ => yield_post s r s') s.
Proof.
  destruct (shape_current s (proj1 Hwf)) as (t & Ht & Htw). unfold sched_yield, cur.
  pose proof Hwf as (Hs & Hrun & Hnow). pose proof Hs as (Hl & Hcr & Hcpu & Hf & Has).
  wp_go. rewrite Z.geb_leb, (proj2 (Z.leb_le 0 _)) by lia. wp_go. wp_task.
  destruct (kill_pending t) eqn:Hk.
  - do 3 (apply wp_bind; wp_print; cbn beta). apply (wp_finish_and_switch t _); [done| |].
    + intros s' Hs'. exists t. split; [done|]. by rewrite Hk.
    + intros s' _ Hno Hi. unfold irq_enable. wp_go.
      eapply wp_mono; [apply exit_idle, Hi|]. intros r s1 o [-> Hi']. exists t. done.
  - assert (Hst : state t = TASK_RUNNING) by (by apply (Hrun c t)).
    wp_go. wp_task. cbn [app].
    set (t1 := set_starved 0 t). set (s1 := set_tasks (<[Z.to_nat (current s) := t1]> (tasks s)) s).
    assert (Hr : forall i, is_ready (tasks s1) i <-> is_ready (tasks s) i).
    { intros i. apply (is_ready_upd _ _ t); [done|congruence|]. simpl. congruence. }
    pose proof (shape_upd s c t (set_starved 0) Hs Ht ltac:(done) eq_refl) as Hs1. fold t1 s1 in Hs1.
    assert (Ht1 : aget (tasks s1) (current s) = Some t1) by (apply aget_insert; lia).
    apply wp_bind, next_ready_spec; [apply Hs1|done| |].
    + intros r -> Hnone. change (-1 <? 0) with true. cbv iota. wp_go. exists t. split_and!; [done|done| | |done].
      * intros i Hi. pose proof Hi as (u & Hu & _). apply aget_lt in Hu.
        destruct (Hnone i); [lia|]. by apply Hr.
      * split; [done|]. split.
        -- intros i u. destruct (decide (c = i)) as [<-|].
           ++ intros Hu. assert (u = t1) as -> by (unfold c in *; congruence). done.
           ++ simpl. rewrite aget_insert_ne by (unfold c in *; lia). apply Hrun.
        -- intros u Hu. assert (u = t1) as -> by (simpl in *; congruence). exact (Hnow t Ht).
    + intros n Hn Hfirst%(first_ready_after_ext (tasks s)); [|exact Hr].
      rewrite (proj2 (Z.ltb_ge n 0)) by lia.
      assert (Hne : n <> c) by (eapply (first_ready_ne _ _ t); [done|congruence|done]).
      unfold c in Hne. destruct (aget_in (tasks s) n) as [tn Htn]; [lia|].
      apply wp_bind. eapply wp_upd_task; [exact Ht1|]. cbn [app].
      pose proof (shape_upd _ _ _ (set_state TASK_READY) Hs1 Ht1 ltac:(done) eq_refl) as Hs2.
      apply wp_bind.
      set (s2 := set_tasks (<[Z.to_nat (current s) := set_state TASK_READY t1]> (tasks s1)) s1) in *.
      assert (Htn2 : aget (tasks s2) n = Some tn) by (simpl; by rewrite !aget_insert_ne by lia).
      eapply wp_upd_task; [exact Htn2|]. cbn [app].
      pose proof (shape_upd _ _ _ (set_state TASK_RUNNING) Hs2 Htn2 ltac:(done) eq_refl) as Hs3.
      apply wp_bind.
      set (s2' := set_tasks (<[Z.to_nat n := set_state TASK_RUNNING tn]> (tasks s2)) s2) in *.
      assert (Htc3 : aget (tasks s2') (current s) = Some (set_state TASK_READY t1)).
      { simpl. rewrite aget_insert_ne by lia. apply aget_insert. rewrite length_insert. lia. }
      eapply wp_upd_task; [exact Htc3|].
      pose proof (shape_upd _ _ _ add_yield Hs3 Htc3 ltac:(done) eq_refl) as Hs4.
      set (t3 := add_yield (set_state TASK_READY t1)). cbn [app].
      set (s3 := set_tasks (<[Z.to_nat (current s) := t3]> (tasks s2')) s2') in *.
      assert (Etasks : tasks s3 = <[Z.to_nat (current s) := t3]>
                         (<[Z.to_nat n := set_state TASK_RUNNING tn]> (tasks s))).
      { unfold s3, s2', s2, s1. simpl. rewrite (upd_comm _ (current s) n) by lia.
        by rewrite !list_insert_insert_eq, (upd_comm _ (current s) n), list_insert_insert_eq by lia. }
      apply (wp_switch s3 (current s) n t3 (set_state TASK_RUNNING tn)); try done.
      * rewrite Etasks. apply aget_insert. rewrite length_insert. lia.
      * rewrite Etasks. rewrite aget_insert_ne by lia. apply aget_insert. lia.
      * exact (Hnow t Ht).
      * intros v Hv Hex. exists t. split; [done|]. rewrite Hk, Etasks, list_insert_insert_eq.
        change TASK_READY with (state (set_regs (cpu s ++ drop 13 (regs t3)) t3)).
        apply (switched_wf s c n (set_regs (cpu s ++ drop 13 (regs t3)) t3) tn v); try done.
        -- destruct Htw. split; simpl; [|done]. rewrite length_app, length_drop. lia.
        -- simpl. by apply (Has c).
        -- simpl. by rewrite take_app_length' by lia.
Qed.
End Wf.
End Yield.

(** C4: in a well-formed state [sched_yield] always completes.  If another task
    is ready, control passes to the first ready one after the current task in
    circular order, with the registers of the old task saved, those of the new
    one loaded and every other slot unchanged; the old task becomes ready again,
    or finished when the watchdog had flagged it.  With no ready task an
    unflagged task keeps running and a flagged one leaves the processor parked. *)
Theorem sched_yield_correct {V} `{!AddrSpaces V} (s : sched V) (Hwf : sched_wf s) :
  exists r s' o, sched_yield s = Ok (r, s', o) /\ yield_post s r s'.
Proof. apply wp_run. by apply yield_post_holds. Qed.

(** [sched_exit] never returns to its caller: it switches to the first
    ready task after the current one, which becomes finished, or leaves the
    processor idle with no task ready or running. *)
Theorem sched_exit_never_returns {V} `{!AddrSpaces V} (s : sched V) (Hwf : sched_wf s) :
  exists r s', sched_exit s = Ok (r, s', []) /\
    (r = Switched /\ switched TASK_FINISHED s s' \/
     r = Parked /\ (forall i, ~ is_ready (tasks s) i) /\ idle s').
Proof.
  destruct (wp_run _ _ _ (exit_post s Hwf)) as (r & s' & o & E & -> & H). eauto.
Qed.

(** ** Fairness *)

Section Fairness.
Context {V : Type} `{!AddrSpaces V}.

(** Each running task leaves some register file and yields. *)
Fixpoint run_yields (rs : list (list Z)) : M (sched V) unit :=
  match rs with
  | [] => ret tt
  | r :: rs' => modify (set_cpu r) ;;; let* _ := sched_yield in run_yields rs'
  end.

Lemma set_cpu_wf (s : sched V) r : sched_wf s -> length r = 13%nat -> sched_wf (set_cpu r s).
Proof. intros ((H1 & H2 & H3 & H4 & H5) & H6 & H7) Hr. exact (conj (conj H1 (conj H2 (conj Hr (conj H4 H5)))) (conj H6 H7)). Qed.

(** One yield while [j] is ready: [j] runs, or is strictly closer. *)
Lemma yield_progress (s : sched V) j t d :
  sched_wf s -> aget (tasks s) j = Some t -> state t = TASK_READY ->
  1 <= d <= 15 -> j = (current s + d) mod 16 ->
  exists r s' o, sched_yield s = Ok (r, s', o) /\ sched_wf s' /\
    (current s' = j /\ cpu s' = take 13 (regs t) \/
     aget (tasks s') j = Some t /\ exists d', 1 <= d' < d /\ j = (current s' + d') mod 16).
Proof.
  intros Hwf Hj Hr Hd Ej.
  destruct (wp_run _ _ _ (yield_post_holds s Hwf)) as (r & s' & o & E & t0 & Ht0 & Hpost).
  exists r, s', o. split; [done|].
  assert (Hready : is_ready (tasks s) j) by (by exists t).
  destruct r; [destruct Hpost as (_ & Hno & _); by destruct (Hno j)| |
               destruct Hpost as (_ & Hno & _); by destruct (Hno j)].
  destruct Hpost as (Hwf' & _ & (k & Hk & En & Hrn & Hfirst) & (tn & Htn & Hcpu) & _ & Hframe).
  split; [done|]. pose proof Hwf as ((_ & Hc & _) & _).
  assert (Hkd : k <= d).
  { destruct (decide (k <= d)); [done|]. destruct (Hfirst d); [lia|]. by rewrite <- Ej. }
  destruct (decide (k = d)) as [->|].
  - left. assert (current s' = j) as Ec by congruence. split; [done|].
    rewrite Ec in Htn. rewrite Hcpu. congruence.
  - right. rewrite Hframe; [|rewrite Ej; apply Z.mod_pos_bound; lia|zlia|zlia].
    split; [done|]. exists (d - k). split; [lia|]. rewrite En, Ej. zlia.
Qed.
End Fairness.

(** C3: round-robin is fair and preserves contexts: a task that is ready runs
    after at most fifteen yields, whatever registers the tasks in between leave
    behind, and it resumes with exactly the registers saved when it was switched
    out. *)
Theorem round_robin_fair {V} `{!AddrSpaces V} (s : sched V) j t rs
  (Hwf : sched_wf s) (Hj : aget (tasks s) j = Some t) (Hready : state t = TASK_READY)
  (Hrs : Forall (fun r => length r = 13%nat) rs) (Hlen : length rs = 15%nat) :
  exists n s' o, (1 <= n <= 15)%nat /\ run_yields (take n rs) s = Ok (tt, s', o) /\
    sched_wf s' /\ current s' = j /\ cpu s' = take 13 (regs t).
Proof.
  assert (Hd : exists d, 1 <= d <= 15 /\ j = (current s + d) mod 16).
  { pose proof Hwf as ((Hl & Hc & _) & Hrun & _). pose proof (aget_lt _ _ _ Hj).
    assert (j <> current s) by (intros E; apply (Hrun j t Hj) in E; congruence).
    exists ((j - current s) mod 16). split; zlia. }
  assert (H : forall (m : nat) d s rs, sched_wf s -> aget (tasks s) j = Some t ->
    1 <= d <= Z.of_nat m -> (m <= 15)%nat -> j = (current s + d) mod 16 ->
    Forall (fun r => length r = 13%nat) rs -> (m <= length rs)%nat ->
    exists n s' o, (1 <= n <= m)%nat /\ run_yields (take n rs) s = Ok (tt, s', o) /\
      sched_wf s' /\ current s' = j /\ cpu s' = take 13 (regs t)).
  { clear s rs Hwf Hj Hrs Hlen Hd. intros m. induction m as [|m IH]; intros d s rs Hwf Hj Hd Hm Ej Hrs Hl; [lia|].
    destruct rs as [|r rs]; [simpl in Hl; lia|]. apply Forall_cons in Hrs as [Hr Hrs]. simpl in Hl.
    destruct (yield_progress (set_cpu r s) j t d) as (q & s1 & o1 & E & Hwf1 & Hc);
      [by apply set_cpu_wf|done|done|lia|done|].
    destruct Hc as [[Hc1 Hc2]|(Hj1 & d' & Hd' & Ej')].
    - exists 1%nat, s1, (o1 ++ []). split; [lia|]. split; [|done].
      cbn [take run_yields]. rewrite (bind_ok _ _ s tt (set_cpu r s)) by done. unfold bind. by rewrite E.
    - destruct (IH d' s1 rs) as (n & s2 & o2 & Hn & E2 & ?); try done; try lia.
      exists (S n), s2, (o1 ++ o2). split; [lia|]. split; [|done].
      cbn [take run_yields]. rewrite (bind_ok _ _ s tt (set_cpu r s)) by done.
      unfold bind. by rewrite E, E2. }
  destruct Hd as (d & Hd & Ej). apply (H 15%nat d s rs); done || lia.
Qed.

(** ** The tick and the watchdog *)

Section Watchdog.
Context {V : Type} `{!AddrSpaces V}.
Implicit Types s : sched V.

(** Does the watchdog count the ticks of the current task? *)
Definition watched s : bool := negb (watchdog_limit s =? 0) && negb (current s =? 0).

(** The current task after a tick. *)
Definition ticked s (t : task_struct) : task_struct :=
  let n := if watched s then u32 (starved_ticks t + 1) else starved_ticks t in
  mk_task (regs t) (state t) (name t) (u32 (ticks_used t + 1)) (yields t) n
    (kill_pending t || (watched s && (watchdog_limit s <=? n))) (as_ t) (kstack_top t) (pid t)
    (uentry t) (usp t).

Lemma on_tick_spec s t :
  sched_wf s -> aget (tasks s) (current s) = Some t ->
  wp sched_on_tick (fun _ s' _ => sched_wf s' /\ current s' = current s /\
    watchdog_limit s' = watchdog_limit s /\ uptime s' = u32 (uptime s + 1) /\ cpu s' = cpu s /\
    tasks s' = <[Z.to_nat (current s) := ticked s t]> (tasks s)) s.
Proof.
  intros Hwf Ht. pose proof Hwf as (Hs & Hrun & Hnow). pose proof Hs as (Hl & Hc & _).
  assert (Hst : state t = TASK_RUNNING) by (by apply (Hrun _ _ Ht)).
  pose proof (shape_upd s _ t (ticked s) Hs Ht ltac:(done) eq_refl) as Hs'.
  assert (Hfin : forall x, x = ticked s t ->
    let s' := mk_sched V (<[Z.to_nat (current s) := x]> (tasks s)) (current s) (u32 (uptime s + 1))
                (watchdog_limit s) (cpu s) (irqs s) (vm s) (registry s) in
    sched_wf s' /\ current s' = current s /\ watchdog_limit s' = watchdog_limit s /\
    uptime s' = u32 (uptime s + 1) /\ cpu s' = cpu s /\
    tasks s' = <[Z.to_nat (current s) := ticked s t]> (tasks s)).
  { intros x -> s'. split; [|done]. split; [exact Hs'|]. subst s'. simpl. split.
    - intros i u Hu. destruct (decide (current s = i)) as [<-|].
      + rewrite aget_insert in Hu by lia. injection Hu as <-. done.
      + rewrite aget_insert_ne in Hu by lia. by apply Hrun.
    - rewrite aget_insert by lia. intros u [= <-]. exact (Hnow t Ht). }
  unfold sched_on_tick, cur. wp_go. rewrite Z.geb_leb, (proj2 (Z.leb_le 0 _)) by (simpl; lia).
  wp_go. wp_task. rewrite decide_True by done. wp_go. wp_task.
  cbn [app set_tasks tasks current watchdog_limit]. fold (watched s).
  destruct (watched s) eqn:Hw.
  - wp_go. eapply wp_upd_task; [apply aget_insert; lia|]. cbn [app set_tasks tasks]. wp_go.
    + eapply wp_upd_task; [apply aget_insert; rewrite length_insert; lia|]. wp_auto.
      cbn [set_tasks tasks]. rewrite !list_insert_insert_eq.
      apply (Hfin (set_kill (set_starved (u32 (starved_ticks t + 1)) (add_tick t)))). unfold ticked. rewrite Hw. bool_hyps.
      rewrite (proj2 (Z.leb_le _ _)) by done. simpl. by rewrite orb_true_r.
    + rewrite list_insert_insert_eq.
      apply (Hfin (set_starved (u32 (starved_ticks t + 1)) (add_tick t))). unfold ticked, set_starved, add_tick. rewrite Hw. simpl. f_equal.
      rewrite Z.geb_leb in E. destruct (kill_pending t); [done|]. simpl in *.
      by rewrite andb_true_r in E.
  - wp_go. apply (Hfin (add_tick t)). unfold ticked, add_tick. rewrite Hw. by rewrite orb_false_r.
Qed.

Fixpoint run_ticks (n : nat) : M (sched V) unit :=
  match n with O => ret tt | S n' => sched_on_tick ;;; run_ticks n' end.

(** [n] ticks in a row. *)
Lemma run_ticks_spec n s t :
  sched_wf s -> aget (tasks s) (current s) = Some t -> 0 <= starved_ticks t ->
  starved_ticks t + Z.of_nat n < 2 ^ 32 ->
  exists s' o t', run_ticks n s = Ok (tt, s', o) /\ sched_wf s' /\ current s' = current s /\
    watchdog_limit s' = watchdog_limit s /\ aget (tasks s') (current s) = Some t' /\
    starved_ticks t' = starved_ticks t + (if watched s then Z.of_nat n else 0) /\
    (kill_pending t' = true <-> kill_pending t = true \/
       watched s = true /\ (0 < n)%nat /\ watchdog_limit s <= starved_ticks t + Z.of_nat n).
Proof.
  revert s t. induction n as [|n IH]; intros s t Hwf Ht H0 Hn.
  { exists s, [], t. split; [done|]. split_and!; try done; [case_match; lia|].
    split; [by left|]. intros [?|(_ & ? & _)]; [done|lia]. }
  destruct (wp_run _ _ _ (on_tick_spec s t Hwf Ht)) as ([] & s1 & o1 & E & Hwf1 & Hc1 & Hl1 & _ & _ & Et1).
  pose proof Hwf as ((Hl & Hc & _) & _).
  assert (Hw1 : watched s1 = watched s) by (unfold watched; by rewrite Hc1, Hl1).
  assert (Ht1 : aget (tasks s1) (current s1) = Some (ticked s t)).
  { rewrite Et1, Hc1. apply aget_insert. lia. }
  assert (Hs1 : starved_ticks (ticked s t) = starved_ticks t + (if watched s then 1 else 0)).
  { unfold ticked. simpl. destruct (watched s); [|lia]. apply u32_small. lia. }
  destruct (IH s1 (ticked s t)) as (s2 & o2 & t' & E2 & Hwf2 & Hc2 & Hl2 & Ht' & Hst & Hk); try done.
  { destruct (watched s); lia. }
  { destruct (watched s); lia. }
  rewrite Hw1, Hl1, Hs1, Hc1 in *. exists s2, (o1 ++ o2), t'.
  split; [cbn [run_ticks]; unfold bind; by rewrite E, E2|]. split_and!; try done.
  - rewrite Hst. destruct (watched s); lia.
  - rewrite Hk. unfold ticked. cbn [kill_pending]. destruct (watched s) eqn:Hw; simpl.
    + rewrite orb_true_iff, Z.leb_le, u32_small by lia. clear -n. naive_solver lia.
    + rewrite orb_false_r. naive_solver.
Qed.
End Watchdog.

(** C15: [n] ticks without a yield count against the current task exactly when
    the watchdog is on and the task is not task 0; the task is flagged for
    killing exactly when its count has reached the limit (or it was flagged
    before), and nothing but the current task and the uptime changes hands. *)
Theorem watchdog_flags_rogue {V} `{!AddrSpaces V} n (s : sched V) t (Hwf : sched_wf s)
  (Ht : aget (tasks s) (current s) = Some t)
  (Hr : 0 <= starved_ticks t /\ starved_ticks t + Z.of_nat n < 2 ^ 32) :
  exists s' o t', run_ticks n s = Ok (tt, s', o) /\ sched_wf s' /\ current s' = current s /\
    aget (tasks s') (current s) = Some t' /\
    starved_ticks t' = starved_ticks t + (if watched s then Z.of_nat n else 0) /\
    (kill_pending t' = true <-> kill_pending t = true \/
       watched s = true /\ (0 < n)%nat /\ watchdog_limit s <= starved_ticks t + Z.of_nat n).
Proof.
  destruct Hr. destruct (run_ticks_spec n s t Hwf Ht) as (s' & o & t' & ? & ? & ? & _ & ? & ? & ?); [done..|].
  exists s', o, t'. split_and!; done.
Qed.

(** preemption depends on the watchdog: a task whose ticks the watchdog does
    not count (the watchdog is off, or it is task 0) is never preempted, however
    many ticks it holds the processor and whoever is waiting. *)
Theorem unwatched_never_preempted {V} `{!AddrSpaces V} n (s : sched V) t (Hwf : sched_wf s)
  (Ht : aget (tasks s) (current s) = Some t)
  (Hst : 0 <= starved_ticks t < SCHED_QUANTUM) (Hn : Z.of_nat n < 2 ^ 31) (Hw : watched s = false) :
  exists s' o, run_ticks n s = Ok (tt, s', o) /\ sched_should_preempt s' = Ok (0, s', []).
Proof.
  unfold SCHED_QUANTUM in Hst.
  destruct (run_ticks_spec n s t Hwf Ht) as (s' & o & t' & E & Hwf' & Hc & _ & Ht' & Hs & _); [lia|lia|].
  exists s', o. split; [done|]. rewrite Hw in Hs.
  assert (H : wp sched_should_preempt (fun r s1 o1 => r = 0 /\ s1 = s' /\ o1 = []) s').
  { pose proof Hwf' as ((_ & Hcr & _) & _). unfold sched_should_preempt, cur. wp_go.
    rewrite Z.geb_leb, (proj2 (Z.leb_le 0 _)) by lia. rewrite Hc. wp_go. wp_task.
    wp_go; [done|done|]. unfold SCHED_QUANTUM in *. bool_hyps. lia. }
  apply wp_run in H as (r & s1 & o1 & E1 & -> & -> & ->). done.
Qed.

(** ** Creating tasks *)

Lemma slot_alloc_from_spec ts i :
  0 <= i ->
  let r := slot_alloc_from ts i in
  (r = -1 /\ Forall (fun t => state t = TASK_READY \/ state t = TASK_RUNNING) ts) \/
  (i <= r /\ exists t, ts !! Z.to_nat (r - i) = Some t /\ (state t = TASK_UNUSED \/ state t = TASK_FINISHED)).
Proof.
  revert i. induction ts as [|t ts IH]; intros i Hi; simpl; [by left|].
  destruct (decide (state t = TASK_UNUSED)); [right; split; [lia|]; exists t; rewrite Z.sub_diag; auto|].
  destruct (decide (state t = TASK_FINISHED)); [right; split; [lia|]; exists t; rewrite Z.sub_diag; auto|].
  destruct (IH (i + 1)) as [[E Hf]|(Hle & u & Hu & Hs)]; [lia| |].
  - left. split; [done|]. constructor; [|done]. destruct (state t); naive_solver.
  - right. split; [lia|]. exists u. split; [|done].
    replace (Z.to_nat _) with (S (Z.to_nat (slot_alloc_from ts (i + 1) - (i + 1)))) by lia. done.
Qed.

(** [sched_spawn] with an entry point and a stack of at least 256 bytes
    fails only when no slot is unused or finished, and then changes nothing;
    otherwise it fills such a slot, never the running one, with a ready task
    whose first switch-in loads the entry point in x19, the trampoline in lr and
    the 16-byte aligned top of the stack in sp; the invariant is kept. *)
Theorem sched_spawn_correct {V} `{!AddrSpaces V} (tramp : Z) (s : sched V) nm entry stack len
  (Hwf : sched_wf s) (H0 : as_exists (vm s) 0) (Hargs : entry <> 0 /\ stack <> 0 /\ 256 <= len) :
  (exists i, sched_spawn tramp nm entry stack len s = Ok (i, s, []) /\ i = -1 /\
     forall j t, aget (tasks s) j = Some t -> state t = TASK_READY \/ state t = TASK_RUNNING) \/
  (exists i s' t', sched_spawn tramp nm entry stack len s = Ok (i, s', []) /\ sched_wf s' /\
     0 <= i < 16 /\ i <> current s /\ aget (tasks s') i = Some t' /\ state t' = TASK_READY /\
     take 13 (regs t') = entry :: replicate 10 0 ++ [tramp; stack_top stack len] /\
     forall j, 0 <= j -> j <> i -> aget (tasks s') j = aget (tasks s) j).
Proof.
  destruct Hargs as (He & Hst & Hlen). pose proof Hwf as ((Hl & Hc & Hcpu & Hf & Has) & Hrun & Hnow).
  assert (Hcond : (slot_alloc s <? 0) || (entry =? 0) || (stack =? 0) || (len <? 256) = (slot_alloc s <? 0)).
  { rewrite (proj2 (Z.eqb_neq entry 0)), (proj2 (Z.eqb_neq stack 0)), (proj2 (Z.ltb_ge len 256)) by lia.
    by rewrite !orb_false_r. }
  unfold sched_spawn. rewrite (bind_ok get _ s s s) by done. cbv beta zeta. rewrite Hcond.
  destruct (slot_alloc_from_spec (tasks s) 0) as [[E Hall]|(Hle & t & Ht & Hts)]; [lia| |].
  { left. exists (-1). unfold slot_alloc. rewrite E. split; [done|]. split; [done|].
    intros j u Hu. apply aget_Some in Hu as [_ Hu]. apply (Forall_lookup_1 _ _ _ _ Hall Hu). }
  fold (slot_alloc s) in *. set (i := slot_alloc s) in *. rewrite Z.sub_0_r in Ht. right.
  rewrite (proj2 (Z.ltb_ge i 0)) by lia.
  assert (Hti : aget (tasks s) i = Some t) by (apply aget_Some; split; [lia|done]).
  pose proof (aget_lt _ _ _ Hti) as Hir.
  assert (Hic : i <> current s). { intros E. apply (Hrun i t Hti) in E. destruct Hts; congruence. }
  set (t' := setup nm entry tramp (stack_top stack len) 0 (-1) 0 0 t).
  exists i, (set_tasks (<[Z.to_nat i := t']> (tasks s)) s), t'.
  assert (Htw : task_wf t). { apply (Forall_lookup_1 _ _ _ _ Hf Ht). }
  split.
  { unfold upd_task, bind, get, of_opt, put, ret. rewrite Hti. cbn beta iota. rewrite aset_in by lia. done. }
  split; [|split_and!; simpl; try lia; try done].
  - split; [|split]; simpl.
    + split_and!; simpl; try lia; try done.
      * by rewrite length_insert.
      * apply Forall_insert; [done|]. destruct Htw as [_ Hn]. split; simpl; [done|].
        rewrite copy_name_length; [done|]. rewrite Hn. lia.
      * intros j u Hu. destruct (decide (i = j)) as [<-|].
        -- rewrite aget_insert in Hu by lia. injection Hu as <-. done.
        -- rewrite aget_insert_ne in Hu by lia. by apply (Has j).
    + intros j u Hu. destruct (decide (i = j)) as [<-|].
      * rewrite aget_insert in Hu by lia. injection Hu as <-. done.
      * rewrite aget_insert_ne in Hu by lia. by apply Hrun.
    + rewrite aget_insert_ne by lia. apply Hnow.
  - apply aget_insert. lia.
  - intros j Hj Hne. rewrite aget_insert_ne by lia. done.
Qed.

(** ** Concrete runs *)

(** Address spaces as plain numbers: the active one is the state. *)
#[export, refine] Instance flat_spaces : AddrSpaces Z :=
  {| as_load := put; as_now := fun v => v; as_exists := fun _ _ => True |}.
Proof. intros v a _. by exists a. Defined.

Definition blank_task : task_struct :=
  mk_task (replicate 15 0) TASK_UNUSED (replicate 12 0) 0 0 0 false 0 0 (-1) 0 0.
Definition main_task : task_struct := set_state TASK_RUNNING blank_task.
Definition worker : task_struct := set_regs (map Z.of_nat (seq 100 15)) (set_state TASK_READY blank_task).
Definition demo_sched : sched Z :=
  mk_sched Z (main_task :: worker :: replicate 14 blank_task) 0 0 600 (replicate 13 7) true 0 empty_ticks.

Lemma demo_lookup i t :
  aget (tasks demo_sched) i = Some t ->
  i = 0 /\ t = main_task \/ i = 1 /\ t = worker \/ 2 <= i /\ t = blank_task.
Proof.
  rewrite aget_Some. intros [Hi H]. simpl in H.
  destruct (Z.to_nat i) as [|[|k]] eqn:E; simpl in H; simplify_eq.
  - left. split; [lia|done].
  - right. left. split; [lia|done].
  - apply (lookup_replicate_1 14) in H as [-> _]. right. right. split; [lia|done].
Qed.

Lemma demo_wf : sched_wf demo_sched.
Proof.
  split; [split_and!; simpl; try lia; try done|split].
  - repeat constructor.
  - intros i t [[-> ->]|[[-> ->]|[Hi ->]]]%demo_lookup; simpl; split; try done; lia.
  - intros t [= <-]. done.
Qed.

Lemma sched_yield_correct_witness :
  exists r s' o, sched_yield demo_sched = Ok (r, s', o) /\ yield_post demo_sched r s'.
Proof. apply sched_yield_correct, demo_wf. Defined.

Lemma sched_exit_never_returns_witness :
  exists r s', sched_exit demo_sched = Ok (r, s', []).
Proof.
  destruct (sched_exit_never_returns demo_sched demo_wf) as (r & s' & E & _). by exists r, s'.
Defined.

Lemma round_robin_fair_witness :
  exists n s' o, (1 <= n <= 15)%nat /\
    run_yields (take n (replicate 15 (replicate 13 9))) demo_sched = Ok (tt, s', o) /\
    sched_wf s' /\ current s' = 1 /\ cpu s' = map Z.of_nat (seq 100 13).
Proof.
  apply (round_robin_fair demo_sched 1 worker); [apply demo_wf|reflexivity|reflexivity| |reflexivity].
  apply Forall_replicate. reflexivity.
Defined.

Definition worker_runs : sched Z :=
  mk_sched Z (set_state TASK_READY main_task :: set_state TASK_RUNNING worker :: replicate 14 blank_task)
    1 0 600 (replicate 13 7) true 0 empty_ticks.
Lemma worker_runs_wf : sched_wf worker_runs.
Proof.
  split; [split_and!; simpl; try lia; try done|split].
  - repeat constructor.
  - intros i t. rewrite aget_Some. intros [Hi H]. simpl in H.
    destruct (Z.to_nat i) as [|[|k]] eqn:E; simpl in H; simplify_eq; simpl.
    + split; [done|lia].
    + split; [lia|done].
    + apply (lookup_replicate_1 14) in H as [-> _]. simpl. split; [done|lia].
  - intros t [= <-]. done.
Qed.

Lemma watchdog_flags_rogue_witness :
  exists s' o t', run_ticks 600 worker_runs = Ok (tt, s', o) /\ aget (tasks s') 1 = Some t' /\
    kill_pending t' = true.
Proof.
  destruct (watchdog_flags_rogue 600 worker_runs _ worker_runs_wf eq_refl)
    as (s' & o & t' & E & _ & _ & Ht & _ & Hk); [simpl; lia|].
  exists s', o, t'. split; [exact E|]. split; [exact Ht|]. apply Hk. right. simpl. split; [reflexivity|lia].
Defined.

Lemma unwatched_never_preempted_witness :
  exists s' o, run_ticks 5000 demo_sched = Ok (tt, s', o) /\ sched_should_preempt s' = Ok (0, s', []).
Proof.
  apply (unwatched_never_preempted 5000 demo_sched main_task demo_wf eq_refl);
    [simpl; unfold SCHED_QUANTUM; lia|lia|reflexivity].
Defined.

Lemma sched_spawn_correct_witness :
  exists i s', sched_spawn 0x40081000 (fun _ => 0) 0x40082000 0x40090000 4096 demo_sched = Ok (i, s', []).
Proof.
  destruct (sched_spawn_correct 0x40081000 demo_sched (fun _ => 0) 0x40082000 0x40090000 4096 demo_wf I)
    as [(i & E & _)|(i & s' & t' & E & _)]; [lia| |]; [exists i, demo_sched; exact E|exists i, s'; exact E].
Defined.
