(* ===== verification/Sync.v ===== *)
(** * Mutexes and semaphores (kernel/sync.c)

    Every operation masks interrupts around its few stores, and tasks switch
    only at yield points, so an operation is one atomic step of the task that
    calls it; [me] is the value of [sched_current_index()].  The theorems are
    about every interleaving of such steps. *)

From S2P Require Import Prelude.

Record mutex := mk_mutex { owner : Z; lock_count : Z }.
Record semaphore := mk_sem { count : Z; wakeups : Z }.
(** A mutex, a semaphore and the interrupt mask. *)
Record sync := mk_sync { mtx : mutex; sem : semaphore; irq_on : bool }.

Definition irq_disable : M sync unit := modify (fun s => mk_sync (mtx s) (sem s) false).
Definition irq_enable : M sync unit := modify (fun s => mk_sync (mtx s) (sem s) true).
Definition set_mutex (m : mutex) : M sync unit := modify (fun s => mk_sync m (sem s) (irq_on s)).
Definition set_sem (x : semaphore) : M sync unit := modify (fun s => mk_sync (mtx s) x (irq_on s)).

Definition mutex_init : M sync unit := set_mutex (mk_mutex (-1) 0).

Definition mutex_trylock (me : Z) : M sync bool :=
  irq_disable ;;;
  let* s := get in
  let m := mtx s in
  let* got :=
    (if (owner m =? -1) || (owner m =? me) then
       set_mutex (mk_mutex me (lock_count m)) ;;; ret true
     else
       set_mutex (mk_mutex (owner m) (u32 (lock_count m + 1))) ;;; ret false) in
  irq_enable ;;;
  ret got.

Definition mutex_unlock (me : Z) : M sync unit :=
  irq_disable ;;;
  let* s := get in
  (if owner (mtx s) =? me then set_mutex (mk_mutex (-1) (lock_count (mtx s))) else ret tt) ;;;
  irq_enable.

(** [while (!mutex_trylock(m)) sched_yield();]: [others k] is what the other
    tasks do during the [k]th yield. *)
Fixpoint mutex_lock (me : Z) (others : nat -> M sync unit) (k fuel : nat) : M sync unit :=
  match fuel with
  | O => fun _ => NoFuel
  | S fuel' =>
      let* got := mutex_trylock me in
      if got then ret tt else others k ;;; mutex_lock me others (S k) fuel'
  end.

Definition sem_init (initial : Z) : M sync unit := set_sem (mk_sem initial 0).

Definition sem_trywait : M sync bool :=
  irq_disable ;;;
  let* s := get in
  let* got :=
    (if count (sem s) >? 0 then
       set_sem (mk_sem (count (sem s) - 1) (wakeups (sem s))) ;;; ret true
     else ret false) in
  irq_enable ;;;
  ret got.

Fixpoint sem_wait (others : nat -> M sync unit) (k fuel : nat) : M sync unit :=
  match fuel with
  | O => fun _ => NoFuel
  | S fuel' =>
      let* got := sem_trywait in
      if got then ret tt else others k ;;; sem_wait others (S k) fuel'
  end.

(** [count++] on the largest [int32_t] is undefined. *)
Definition sem_post : M sync unit :=
  irq_disable ;;;
  let* s := get in
  (if count (sem s) <? INT32_MAX then
     set_sem (mk_sem (count (sem s) + 1) (u32 (wakeups (sem s) + 1)))
   else ub) ;;;
  irq_enable.

(** ** Interleavings *)

(** A step of some task. *)
Inductive sync_step :=
| TryLock (task : Z)
| Unlock (task : Z)
| TryWait
| Post.

(** The set of tasks inside the critical section: those whose last successful
    lock has not been followed by an unlock of theirs. *)
Record world := mk_world { st : sync; holders : gset Z; waits : Z; posts : Z }.

(** One step of the world: the code's step, and the bookkeeping of the trace. *)
Definition step (a : sync_step) (w : world) : res world :=
  match a with
  | TryLock t =>
      match mutex_trylock t (st w) with
      | Ok (got, s, _) => Ok (mk_world s (if got then {[t]} ∪ holders w else holders w) (waits w) (posts w))
      | UB => UB | NoFuel => NoFuel
      end
  | Unlock t =>
      match mutex_unlock t (st w) with
      | Ok (_, s, _) => Ok (mk_world s (holders w ∖ {[t]}) (waits w) (posts w))
      | UB => UB | NoFuel => NoFuel
      end
  | TryWait =>
      match sem_trywait (st w) with
      | Ok (got, s, _) => Ok (mk_world s (holders w) (if got then waits w + 1 else waits w) (posts w))
      | UB => UB | NoFuel => NoFuel
      end
  | Post =>
      match sem_post (st w) with
      | Ok (_, s, _) => Ok (mk_world s (holders w) (waits w) (posts w + 1))
      | UB => UB | NoFuel => NoFuel
      end
  end.

(** The worlds reachable from [w0] by steps of tasks (indices at least 0). *)
Inductive reachable (w0 : world) : world -> Prop :=
| reach_refl : reachable w0 w0
| reach_step w a w' : reachable w0 w -> step a w = Ok w' ->
    match a with TryLock t | Unlock t => 0 <= t | _ => True end -> reachable w0 w'.

(** After [mutex_init] and [sem_init n]. *)
Definition start (n : Z) : world := mk_world (mk_sync (mk_mutex (-1) 0) (mk_sem n 0) true) ∅ 0 0.

Definition world_inv (n : Z) (w : world) : Prop :=
  (holders w = if owner (mtx (st w)) =? -1 then ∅ else {[owner (mtx (st w))]}) /\
  -1 <= owner (mtx (st w)) /\ irq_on (st w) = true /\
  0 <= count (sem (st w)) <= INT32_MAX /\ count (sem (st w)) = n + posts w - waits w.

Lemma trylock_run t s :
  mutex_trylock t s =
  let free := (owner (mtx s) =? -1) || (owner (mtx s) =? t) in
  Ok (free, mk_sync (if free then mk_mutex t (lock_count (mtx s))
                     else mk_mutex (owner (mtx s)) (u32 (lock_count (mtx s) + 1))) (sem s) true, []).
Proof. unfold mutex_trylock, bind. simpl. by destruct ((_ =? -1) || _). Qed.

Lemma trywait_run s :
  sem_trywait s =
  let got := count (sem s) >? 0 in
  Ok (got, mk_sync (mtx s) (if got then mk_sem (count (sem s) - 1) (wakeups (sem s)) else sem s) true, []).
Proof. unfold sem_trywait, bind. simpl. by destruct (count (sem s) >? 0). Qed.

Lemma world_inv_step n w a w' :
  world_inv n w -> step a w = Ok w' ->
  match a with TryLock t | Unlock t => 0 <= t | _ => True end -> world_inv n w'.
Proof.
  intros (Hh & Ho & Hi & Hc & Hn) Hs Ha. unfold world_inv, INT32_MAX in *.
  destruct a as [t|t| |]; simpl in Hs.
  - rewrite trylock_run in Hs. destruct (owner (mtx (st w)) =? -1) eqn:E1; simpl in Hs.
    + injection Hs as <-. simpl. rewrite (proj2 (Z.eqb_neq t (-1))) by lia.
      rewrite Hh. split; [set_solver|lia].
    + destruct (owner (mtx (st w)) =? t) eqn:E2; injection Hs as <-; simpl; bool_hyps.
      * rewrite (proj2 (Z.eqb_neq t (-1))) by lia. subst t. rewrite Hh. split; [set_solver|lia].
      * rewrite (proj2 (Z.eqb_neq _ (-1))) by lia. done.
  - unfold mutex_unlock, bind in Hs. simpl in Hs.
    destruct (owner (mtx (st w)) =? t) eqn:E; injection Hs as <-; simpl; bool_hyps.
    + rewrite Hh, E. rewrite (proj2 (Z.eqb_neq t (-1))) by lia. split; [set_solver|lia].
    + split; [|lia]. rewrite Hh. destruct (owner (mtx (st w)) =? -1); set_solver.
  - rewrite trywait_run in Hs. cbv zeta in Hs.
    destruct (count (sem (st w)) >? 0) eqn:E; injection Hs as <-; simpl; bool_hyps; (split; [done|lia]).
  - unfold sem_post, bind in Hs. simpl in Hs. unfold INT32_MAX in Hs.
    destruct (count (sem (st w)) <? 2 ^ 31 - 1) eqn:E; [|done]. injection Hs as <-. simpl. bool_hyps.
    split; [done|lia].
Qed.

Lemma reachable_inv n w : 0 <= n <= INT32_MAX -> reachable (start n) w -> world_inv n w.
Proof.
  intros Hn. induction 1 as [|w a w' _ IH Hs Ha]; [|by eapply world_inv_step].
  unfold world_inv. simpl. repeat split; lia.
Qed.

(** C10: in every interleaving of lock, unlock, wait and post steps of any tasks,
    at most one task is inside the critical section, and it is the mutex's
    owner; interrupts are enabled after every step. *)
Theorem mutual_exclusion n w (Hn : 0 <= n <= INT32_MAX) (Hw : reachable (start n) w) :
  (forall t u, t ∈ holders w -> u ∈ holders w -> t = u) /\
  (forall t, t ∈ holders w <-> t = owner (mtx (st w)) /\ t <> -1) /\ irq_on (st w) = true.
Proof.
  destruct (reachable_inv n w Hn Hw) as (Hh & Ho & Hi & _). rewrite Hh.
  destruct (owner (mtx (st w)) =? -1) eqn:E; bool_hyps; split_and!; try done; set_solver.
Qed.

(** In every interleaving the semaphore's count is the initial value plus
    the posts minus the successful waits, and never negative: no more waits
    succeed than the semaphore has been given units. *)
Theorem semaphore_conservation n w (Hn : 0 <= n <= INT32_MAX) (Hw : reachable (start n) w) :
  count (sem (st w)) = n + posts w - waits w /\ 0 <= count (sem (st w)) /\ waits w <= n + posts w.
Proof. destruct (reachable_inv n w Hn Hw) as (_ & _ & _ & Hc & Hs). lia. Qed.

(** The blocking loop, while the others run. *)
Lemma mutex_lock_run me others k n fuel s :
  (n < fuel)%nat ->
  (forall i s, exists s', others i s = Ok (tt, s', [])) ->
  (forall i s s', (k <= i < k + n)%nat -> others i s = Ok (tt, s', []) -> i = (k + n - 1)%nat ->
     owner (mtx s') = -1 \/ owner (mtx s') = me) ->
  (n = 0%nat -> owner (mtx s) = -1 \/ owner (mtx s) = me) ->
  exists s', mutex_lock me others k fuel s = Ok (tt, s', []) /\ owner (mtx s') = me.
Proof.
  revert k n s. induction fuel as [|fuel IH]; intros k n s Hf Hrun Hlast H0; [lia|].
  cbn [mutex_lock]. rewrite (bind_ok _ _ _ _ _ (trylock_run me s)).
  destruct ((owner (mtx s) =? -1) || (owner (mtx s) =? me)) eqn:E.
  { eexists. split; [reflexivity|]. done. }
  assert (n <> 0%nat).
  { intros ->. bool_hyps. destruct H0; [done|contradiction..]. }
  match goal with |- context [mk_sync ?a ?b ?c] => set (s1 := mk_sync a b c) end.
  destruct (Hrun k s1) as (s2 & E2). rewrite (bind_ok _ _ _ _ _ E2).
  apply (IH (S k) (n - 1)%nat); [lia|done| |].
  - intros i s3 s4 Hi E3 Ei. apply (Hlast i s3 s4); [lia|done|lia].
  - intros Hn1. apply (Hlast k s1 s2); [lia|done|lia].
Qed.

(** [mutex_lock] terminates, holding the lock, as soon as the other tasks
    have left the mutex free at the end of one of its yields. *)
Theorem mutex_lock_acquires me others n s
  (Hrun : forall i s, exists s', others i s = Ok (tt, s', []))
  (Hfree : forall s s', others n s = Ok (tt, s', []) -> owner (mtx s') = -1) :
  exists s', mutex_lock me others 0 (n + 2) s = Ok (tt, s', []) /\ owner (mtx s') = me.
Proof.
  apply (mutex_lock_run me others 0 (S n)); [lia|done| |done].
  intros i s1 s2 _ E ->. left. apply (Hfree s1). by replace n with (0 + S n - 1)%nat by lia.
Qed.

Definition held_by_1 : sync := mk_sync (mk_mutex 1 0) (mk_sem 0 0) true.
Lemma mutex_lock_acquires_witness :
  exists s', mutex_lock 3 (fun _ => mutex_init) 0 2 held_by_1 = Ok (tt, s', []) /\ owner (mtx s') = 3.
Proof.
  apply (mutex_lock_acquires 3 (fun _ => mutex_init) 0 held_by_1).
  - intros _ s. eexists. reflexivity.
  - intros s s' [= <-]. reflexivity.
Defined.

(** Task 1 locks, task 2 fails to, a unit is posted and taken. *)
Definition demo_world : world :=
  mk_world (mk_sync (mk_mutex 1 1) (mk_sem 1 1) true) {[1]} 1 1.
Lemma demo_reachable : reachable (start 1) demo_world.
Proof.
  eapply (reach_step _ _ TryWait).
  - eapply (reach_step _ _ Post).
    + eapply (reach_step _ _ (TryLock 2)).
      * eapply (reach_step _ _ (TryLock 1)); [apply reach_refl|reflexivity|lia].
      * reflexivity.
      * lia.
    + reflexivity.
    + exact I.
  - reflexivity.
  - exact I.
Qed.
Lemma mutual_exclusion_witness :
  (forall t, t ∈ holders demo_world <-> t = owner (mtx (st demo_world)) /\ t <> -1) /\
  irq_on (st demo_world) = true.
Proof. apply (mutual_exclusion 1 demo_world); [by vm_compute|apply demo_reachable]. Defined.
Lemma semaphore_conservation_witness : count (sem (st demo_world)) = 1 + 1 - 1.
Proof. apply (semaphore_conservation 1 demo_world); [by vm_compute|apply demo_reachable]. Defined.

(** The lock is not recursive: after two locks and one unlock by task 1, task 2
    gets it. *)
Example recursive_lock_lost :
  (mutex_trylock 1 ;;; mutex_trylock 1 ;;; mutex_unlock 1 ;;; mutex_trylock 2) held_by_1 =
  Ok (true, mk_sync (mk_mutex 2 0) (mk_sem 0 0) true, []).
Proof. reflexivity. Qed.
