(* ===== verification/Afs.v ===== *)
(** * The on-disk file system (kernel/afs.c)

    A superblock, one directory sector of sixteen 32-byte entries and file
    extents, on a block device that the file system uses only through the
    interface [BlockDevice] (boot/aarch64/virtio.h). *)

From S2P Require Import Prelude Uart.

Definition SECT : Z := 512.
Definition AFS_MAGIC : Z := 0x31534645.
Definition AFS_SB_LBA : Z := 0.
Definition AFS_DIR_LBA : Z := 1.
Definition AFS_DIR_LBAS : Z := 1.
Definition AFS_NAME_LEN : nat := 24.
Definition AFS_BASE_LBA : Z := 8192.
Definition AFS_MAX_FILES : nat := 16.
Definition AFS_MAX_FREE_EXTENTS : Z := 32.
Definition IOBUF_SLOTS : Z := 4.

(** ** Block devices *)

(** [sector d i] is the content of sector [i], for [0 <= i < sectors d].
    [vblk_read] returns 0 and the bytes, or -1; [vblk_write] returns 0 or -1
    and then changes nothing.  Sector numbers fit 31 bits (disks below 1 TB). *)
Class BlockDevice (D : Type) := {
  vblk_capacity : D -> Z;
  vblk_read : Z -> Z -> M D (Z * list Z);
  vblk_write : Z -> list Z -> M D Z;
  sectors : D -> Z;
  sector : D -> Z -> list Z;
  sector_length : forall d i, length (sector d i) = 512%nat;
  capacity_sectors : forall d, vblk_capacity d = 512 * sectors d /\ 0 <= sectors d < 2 ^ 31;
  vblk_read_law : forall d lba n, 0 <= lba -> 0 <= n ->
    vblk_read lba n d = Ok (if lba + n <=? sectors d
      then (0, concat (sector d <$> seqZ lba n)) else (-1, []), d, []);
  vblk_write_law : forall d lba n bs, 0 <= lba -> 0 <= n -> length bs = Z.to_nat (512 * n) ->
    exists d', vblk_write lba bs d = Ok (if lba + n <=? sectors d then 0 else -1, d', []) /\
      sectors d' = sectors d /\
      forall i, sector d' i =
        if (lba + n <=? sectors d) && (lba <=? i) && (i <? lba + n)
        then take 512 (drop (Z.to_nat (512 * (i - lba))) bs) else sector d i;
}.

(** ** State *)

Record dirent := mk_dirent { dname : list Z; start_lba : Z; dsize : Z }.

Record afs {D : Type} := mk_afs {
  dev : D; mounted : bool; total_sectors : Z; data_lba : Z; next_free_lba : Z;
  afs_base : Z; free_extents : list (Z * Z); free_extent_count : Z;
  iobuf : list (list Z); diobuf : list dirent }.
Arguments afs D : clear implicits.
Arguments mk_afs {D}.

(** The layout of [afs_dirent_t] and [afs_superblock_t]. *)
Definition dirent_bytes (e : dirent) : list Z :=
  dname e ++ le_bytes 4 (start_lba e) ++ le_bytes 4 (dsize e).
Definition dirent_of_bytes (l : list Z) : dirent :=
  mk_dirent (take 24 l) (le_word (take 4 (drop 24 l))) (le_word (take 4 (drop 28 l))).
Fixpoint dir_of_bytes (n : nat) (l : list Z) : list dirent :=
  match n with
  | O => []
  | S n' => dirent_of_bytes l :: dir_of_bytes n' (drop 32 l)
  end.
Definition dir_bytes (d : list dirent) : list Z := concat (map dirent_bytes d).
Definition sb_bytes (magic version total data : Z) : list Z :=
  le_bytes 4 magic ++ le_bytes 4 version ++ le_bytes 4 total ++ le_bytes 4 data.

Definition empty_dirent : dirent := mk_dirent (replicate 24 0) 0 0.

(** [(size + 511) / 512] in 32 bits. *)
Definition sectors_of (size : Z) : Z := u32 (size + SECT - 1) / SECT.

Section Ops.
Context {D : Type} `{!BlockDevice D}.
Implicit Types s : afs D.

Definition set_dev (d : D) (s : afs D) : afs D :=
  mk_afs d (mounted s) (total_sectors s) (data_lba s) (next_free_lba s) (afs_base s)
    (free_extents s) (free_extent_count s) (iobuf s) (diobuf s).
Definition set_diobuf (b : list dirent) (s : afs D) : afs D :=
  mk_afs (dev s) (mounted s) (total_sectors s) (data_lba s) (next_free_lba s) (afs_base s)
    (free_extents s) (free_extent_count s) (iobuf s) b.
Definition set_iobuf (b : list (list Z)) (s : afs D) : afs D :=
  mk_afs (dev s) (mounted s) (total_sectors s) (data_lba s) (next_free_lba s) (afs_base s)
    (free_extents s) (free_extent_count s) b (diobuf s).
Definition set_free (l : list (Z * Z)) (n : Z) (s : afs D) : afs D :=
  mk_afs (dev s) (mounted s) (total_sectors s) (data_lba s) (next_free_lba s) (afs_base s)
    l n (iobuf s) (diobuf s).
Definition set_next (n : Z) (s : afs D) : afs D :=
  mk_afs (dev s) (mounted s) (total_sectors s) (data_lba s) n (afs_base s)
    (free_extents s) (free_extent_count s) (iobuf s) (diobuf s).
(** The assignments to [afs] at the end of a mount or format. *)
Definition set_mounted (total data : Z) (s : afs D) : afs D :=
  mk_afs (dev s) true total data data (afs_base s)
    (free_extents s) (free_extent_count s) (iobuf s) (diobuf s).

Definition afs_set_base (lba : Z) : M (afs D) unit :=
  modify (fun s => mk_afs (dev s) (mounted s) (total_sectors s) (data_lba s) (next_free_lba s)
    lba (free_extents s) (free_extent_count s) (iobuf s) (diobuf s)).
Definition afs_get_base : M (afs D) Z := let* s := get in ret (afs_base s).

(** [while (a[i] && b[i] && a[i] == b[i]) i++; return a[i] == b[i];], [None] when
    the loop leaves the 24 bytes of the stored name. *)
Fixpoint fname_eq (a : list Z) (b : view) (i : nat) : option bool :=
  match a with
  | [] => None
  | c :: a' =>
      if negb (c =? 0) && negb (b i =? 0) && (c =? b i) then fname_eq a' b (S i)
      else Some (c =? b i)
  end.

Definition rd_sectors (lba n : Z) : M (afs D) (Z * list Z) :=
  let* s := get in zoom dev set_dev (vblk_read (u32 (afs_base s + lba)) n).
Definition wr_sectors (lba : Z) (bs : list Z) : M (afs D) Z :=
  let* s := get in zoom dev set_dev (vblk_write (u32 (afs_base s + lba)) bs).

(** The loop of [alloc_from_free_list] from extent [i], [n] of them left. *)
Fixpoint alloc_free_loop (nlbas i : Z) (n : nat) : M (afs D) Z :=
  match n with
  | O => ret 0
  | S n' =>
      let* s := get in
      let* e := of_opt (aget (free_extents s) i) in
      if snd e >=? nlbas then
        let lba := fst e in
        let e' := (u32 (lba + nlbas), u32 (snd e - nlbas)) in
        let* l := of_opt (aset (free_extents s) i e') in
        (if snd e' =? 0 then
           let* last := of_opt (aget l (free_extent_count s - 1)) in
           let* l' := of_opt (aset l i last) in
           put (set_free l' (free_extent_count s - 1) s)
         else put (set_free l (free_extent_count s) s)) ;;;
        ret lba
      else alloc_free_loop nlbas (i + 1) n'
  end.
Definition alloc_from_free_list (nlbas : Z) : M (afs D) Z :=
  let* s := get in alloc_free_loop nlbas 0 (Z.to_nat (free_extent_count s)).

Definition add_to_free_list (start cnt : Z) : M (afs D) Z :=
  let* s := get in
  if free_extent_count s >=? AFS_MAX_FREE_EXTENTS then ret (-1) else
  let* l := of_opt (aset (free_extents s) (free_extent_count s) (start, cnt)) in
  put (set_free l (free_extent_count s + 1) s) ;;;
  ret 0.

(** True when the directory has been loaded. *)
Definition dir_load : M (afs D) bool :=
  let* r := rd_sectors AFS_DIR_LBA AFS_DIR_LBAS in
  if negb (fst r =? 0) then ret false else
  modify (set_diobuf (dir_of_bytes AFS_MAX_FILES (snd r))) ;;;
  ret true.
Definition dir_flush : M (afs D) Z :=
  let* s := get in wr_sectors AFS_DIR_LBA (dir_bytes (diobuf s)).

Definition resume (next : Z) (e : dirent) : Z :=
  if start_lba e =? 0 then next else
  let end_ := u32 (start_lba e + sectors_of (dsize e)) in
  if end_ >? next then end_ else next.

(** The head of the staging buffer after a read. *)
Definition stage (slot : nat) (bs : list Z) (b : list (list Z)) : option (list (list Z)) :=
  old ← b !! slot; Some (<[slot := bs ++ drop (length bs) old]> b).

Definition afs_mount : M (afs D) Z :=
  let* s0 := get in
  if vblk_capacity (dev s0) =? 0 then ret 0 else
  let* r := rd_sectors AFS_SB_LBA 1 in
  if negb (fst r =? 0) then ret 0 else
  let* s := get in
  let* b := of_opt (stage 0 (snd r) (iobuf s)) in
  put (set_iobuf b s) ;;;
  let sb := snd r in
  if negb (le_word (take 4 sb) =? AFS_MAGIC) || negb (le_word (take 4 (drop 4 sb)) =? 1)
  then ret 0 else
  modify (set_mounted (le_word (take 4 (drop 8 sb))) (le_word (take 4 (drop 12 sb)))) ;;;
  let* ok := dir_load in
  (if ok then modify (fun s => set_next (foldl resume (next_free_lba s) (diobuf s)) s) else ret tt) ;;;
  puts_nolf "[fs] AEOS-FS mounted: " ;;;
  let* s := get in
  put_dec (total_sectors s) ;;; puts " sectors" ;;;
  ret 1.

Definition afs_format : M (afs D) Z :=
  let* s := get in
  if vblk_capacity (dev s) =? 0 then ret (-1) else
  let total := u32 (vblk_capacity (dev s) / SECT) in
  let data := AFS_SB_LBA + 1 + AFS_DIR_LBAS in
  let zeros := replicate 4 (replicate 4096 0) in
  let* b := of_opt (stage 0 (sb_bytes AFS_MAGIC 1 total data) zeros) in
  put (set_iobuf b s) ;;;
  let* b0 := of_opt (b !! 0%nat) in
  let* w := wr_sectors AFS_SB_LBA (take 512 b0) in
  if negb (w =? 0) then ret (-1) else
  modify (set_diobuf (replicate AFS_MAX_FILES empty_dirent)) ;;;
  let* f := dir_flush in
  if negb (f =? 0) then ret (-1) else
  modify (set_mounted total data) ;;;
  puts "[fs] AEOS-FS formatted" ;;;
  ret 0.

Definition in_use (e : dirent) : bool := negb (start_lba e =? 0).

Definition afs_file_count : M (afs D) Z :=
  let* s := get in
  if negb (mounted s) then ret 0 else
  let* ok := dir_load in
  if negb ok then ret 0 else
  let* s := get in
  ret (Z.of_nat (length (filter (fun e => in_use e = true) (diobuf s)))).

Definition ls_line (e : dirent) : M (afs D) unit :=
  if negb (in_use e) then ret tt else
  puts_nolf "  " ;;; puts_bytes_nolf (cstr (dname e)) ;;; puts_nolf "  " ;;;
  put_dec (dsize e) ;;; puts " bytes".
Definition afs_ls : M (afs D) unit :=
  let* s := get in
  if negb (mounted s) then puts "  no filesystem mounted" else
  let* ok := dir_load in
  if negb ok then ret tt else
  let* s := get in
  foldr (fun e k => ls_line e ;;; k) (ret tt) (diobuf s).

(** The search of [find_slot]: the entry found, and the first free index. *)
Fixpoint find_loop (d : list dirent) (nm : view) (i : nat) (free : option nat)
  : option (option nat * option nat) :=
  match d with
  | [] => Some (None, free)
  | e :: d' =>
      if negb (in_use e) then
        find_loop d' nm (S i) (match free with None => Some i | _ => free end)
      else
        b ← fname_eq (dname e) nm 0;
        if b : bool then Some (Some i, free) else find_loop d' nm (S i) free
  end.

(** The entry's index, [None] for a null result. *)
Definition find_slot (nm : view) (create : bool) : M (afs D) (option nat) :=
  let* s := get in
  let* r := of_opt (find_loop (diobuf s) nm 0 None) in
  match r with
  | (Some i, _) => ret (Some i)
  | (None, free) =>
      match create, free with
      | true, Some f =>
          let n := str_take nm 0 (AFS_NAME_LEN - 1) in
          put (set_diobuf (<[f := mk_dirent (n ++ replicate (AFS_NAME_LEN - length n) 0) 0 0]>
                 (diobuf s)) s) ;;;
          ret (Some f)
      | _, _ => ret None
      end
  end.

Definition upd_dirent (i : nat) (f : dirent -> dirent) : M (afs D) unit :=
  let* s := get in
  let* e := of_opt (diobuf s !! i) in
  put (set_diobuf (<[i := f e]> (diobuf s)) s).

(** The copy loop of [afs_write] from offset [off]; the source is [src]. *)
Fixpoint write_loop (src : view) (lba len off : Z) (n : nat) : M (afs D) Z :=
  match n with
  | O => fun _ => NoFuel
  | S n' =>
      if off <? len then
        let chunk := if len - off >? 4096 then 4096 else len - off in
        let slot := Z.to_nat ((off / 4096) mod IOBUF_SLOTS) in
        let* s := get in
        let* b := of_opt (stage slot (map (fun i => src (Z.to_nat off + i)%nat)
                            (seq 0 (Z.to_nat chunk))) (iobuf s)) in
        put (set_iobuf b s) ;;;
        let sec := (chunk + SECT - 1) / SECT in
        let* buf := of_opt (b !! slot) in
        let* w := wr_sectors (u32 (lba + off / SECT)) (take (Z.to_nat (512 * sec)) buf) in
        if negb (w =? 0) then ret (-1) else write_loop src lba len (off + 4096) n'
      else ret 0
  end.

(** Choosing the extent: in place when the old one fits, else the free list,
    else the bump allocator; [None] when there is no room. *)
Definition choose_extent (nm : view) (nlbas : Z) : M (afs D) (option Z) :=
  let* existing := find_slot nm false in
  let* s := get in
  let* reuse := of_opt (match existing with
    | Some i => e ← diobuf s !! i;
                Some (if nlbas <=? sectors_of (dsize e) then Some (start_lba e) else None)
    | None => Some None
    end) in
  match reuse with
  | Some lba => ret (Some lba)
  | None =>
      let* slot := find_slot nm true in
      match slot with
      | None => ret None
      | Some i =>
          let* lba := alloc_from_free_list nlbas in
          let* s := get in
          if negb (lba =? 0) then
            upd_dirent i (fun e => mk_dirent (dname e) lba (dsize e)) ;;; ret (Some lba)
          else if u32 (next_free_lba s + nlbas) >? total_sectors s then ret None
          else
            modify (set_next (u32 (next_free_lba s + nlbas))) ;;;
            upd_dirent i (fun e => mk_dirent (dname e) (next_free_lba s) (dsize e)) ;;;
            ret (Some (next_free_lba s))
      end
  end.

(** [nm], [src]: [None] for a null pointer. *)
Definition afs_write (nm src : option view) (len : Z) : M (afs D) Z :=
  let* s := get in
  match nm, src with
  | Some nm, Some src =>
      if negb (mounted s) || (len =? 0) || (len >? 1024 * 1024) then ret (-1) else
      let* ok := dir_load in
      if negb ok then ret (-1) else
      let* l := choose_extent nm ((len + SECT - 1) / SECT) in
      match l with
      | None => ret (-1)
      | Some lba =>
          let* w := write_loop src lba len 0 257 in
          if negb (w =? 0) then ret (-1) else
          let* e := find_slot nm false in
          match e with
          | None => ret (-1)
          | Some i =>
              upd_dirent i (fun e => mk_dirent (dname e) (start_lba e) (u32 len)) ;;;
              let* f := dir_flush in
              ret (if f =? 0 then len else -1)
          end
      end
  | _, _ => ret (-1)
  end.

(** The copy loop of [afs_read]: the bytes stored at the caller's buffer. *)
Fixpoint read_loop (lba size max done_ : Z) (n : nat) : M (afs D) (Z * list Z) :=
  match n with
  | O => fun _ => NoFuel
  | S n' =>
      if (done_ <? max) && (done_ <? size) then
        let chunk := if size - done_ >? 4096 then 4096 else size - done_ in
        let slot := Z.to_nat ((done_ / 4096 + 1) mod IOBUF_SLOTS) in
        let sec := (chunk + SECT - 1) / SECT in
        let* r := rd_sectors (u32 (lba + done_ / SECT)) sec in
        if negb (fst r =? 0) then ret (-1, []) else
        let* s := get in
        let* b := of_opt (stage slot (snd r) (iobuf s)) in
        put (set_iobuf b s) ;;;
        let* rest := read_loop lba size max (done_ + chunk) n' in
        ret (fst rest, take (Z.to_nat chunk) (snd r) ++ snd rest)
      else ret (i32 done_, [])
  end.

Definition afs_read (nm : option view) (has_buf : bool) (max : Z) : M (afs D) (Z * list Z) :=
  let* s := get in
  match nm with
  | None => ret (-1, [])
  | Some nm =>
      if negb (mounted s) || negb has_buf || (max =? 0) then ret (-1, []) else
      let* ok := dir_load in
      if negb ok then ret (-1, []) else
      let* e := find_slot nm false in
      match e with
      | None => ret (-1, [])
      | Some i =>
          let* s := get in
          let* e := of_opt (diobuf s !! i) in
          read_loop (start_lba e) (dsize e) max 0 (Z.to_nat (dsize e / 4096) + 2)
      end
  end.

Definition afs_delete (nm : view) : M (afs D) Z :=
  let* s := get in
  if negb (mounted s) then ret (-1) else
  let* ok := dir_load in
  if negb ok then ret (-1) else
  let* e := find_slot nm false in
  match e with
  | None => ret (-1)
  | Some i =>
      let* s := get in
      let* e := of_opt (diobuf s !! i) in
      (if in_use e && (sectors_of (dsize e) >? 0)
       then let* _ := add_to_free_list (start_lba e) (sectors_of (dsize e)) in ret tt
       else ret tt) ;;;
      upd_dirent i (fun _ => empty_dirent) ;;;
      dir_flush
  end.
End Ops.

(** ** Encoding *)

Definition dirent_ok (e : dirent) : Prop :=
  length (dname e) = 24%nat /\ 0 <= start_lba e < 2 ^ 32 /\ 0 <= dsize e < 2 ^ 32.

Lemma dirent_bytes_length e : dirent_ok e -> length (dirent_bytes e) = 32%nat.
Proof. intros (Hl & _). unfold dirent_bytes. by rewrite !length_app, !le_bytes_length, Hl. Qed.

Lemma dirent_roundtrip e l : dirent_ok e -> dirent_of_bytes (dirent_bytes e ++ l) = e.
Proof.
  intros (Hl & H1 & H2). unfold dirent_of_bytes, dirent_bytes. rewrite <- !app_assoc.
  rewrite take_app_length' by done.
  rewrite drop_app_length' by done.
  rewrite take_app_length' by done.
  replace 28%nat with (24 + 4)%nat by lia. rewrite <- drop_drop.
  rewrite drop_app_length' by done. rewrite drop_app_length' by done. rewrite take_app_length' by done.
  rewrite !le_word_bytes by done. by destruct e.
Qed.

Lemma dir_roundtrip d : Forall dirent_ok d -> dir_of_bytes (length d) (dir_bytes d) = d.
Proof.
  induction 1 as [|e d He Hd IH]; [done|]. unfold dir_bytes in *. simpl.
  rewrite dirent_roundtrip by done. f_equal.
  rewrite drop_app_length' by (by rewrite dirent_bytes_length). exact IH.
Qed.

Lemma dir_bytes_length d : Forall dirent_ok d -> length (dir_bytes d) = (32 * length d)%nat.
Proof.
  induction 1 as [|e d He Hd IH]; [done|]. unfold dir_bytes in *. simpl.
  rewrite length_app, dirent_bytes_length by done. rewrite IH. lia.
Qed.

(** ** Names *)

(** [nm] points at the string [n], shorter than a directory entry's name. *)
Definition name_is (nm : view) (n : list Z) : Prop :=
  n = str_take nm 0 24 /\ (length n < 24)%nat.

Lemma str_take_nth nm i k n : (k < length (str_take nm i n))%nat -> nth k (str_take nm i n) 0 = nm (i + k)%nat.
Proof.
  revert i k. induction n as [|n IH]; intros i k; simpl; [lia|].
  destruct (nm i =? 0) eqn:E; simpl; [lia|]. intros Hk. destruct k as [|k].
  - by rewrite Nat.add_0_r.
  - rewrite IH by lia. f_equal. lia.
Qed.

Lemma str_take_stop nm i n : (length (str_take nm i n) < n)%nat -> nm (i + length (str_take nm i n))%nat = 0.
Proof.
  revert i. induction n as [|n IH]; intros i; simpl; [lia|].
  destruct (nm i =? 0) eqn:E; simpl; bool_hyps.
  - by rewrite Nat.add_0_r.
  - intros Hl. rewrite <- (IH (S i)) by lia. f_equal. lia.
Qed.

Lemma str_take_shorter nm i n m :
  (length (str_take nm i n) < n)%nat -> (length (str_take nm i n) <= m)%nat -> str_take nm i m = str_take nm i n.
Proof.
  revert i m. induction n as [|n IH]; intros i m; simpl; [lia|].
  destruct (nm i =? 0) eqn:E; simpl.
  - intros _ _. destruct m; simpl; [done|]. by rewrite E.
  - intros Hl Hm. destruct m; simpl; [lia|]. rewrite E. f_equal. apply IH; lia.
Qed.

Lemma name_is_23 nm n : name_is nm n -> str_take nm 0 23 = n.
Proof. intros [-> Hl]. apply (str_take_shorter nm 0 24 23); lia. Qed.

(** The comparison reads two strings until they differ or end. *)
Lemma fname_eq_spec a nm i n :
  n = str_take nm i (length n + 1) -> (length (cstr a) < length a)%nat ->
  fname_eq a nm i = Some (bool_decide (cstr a = n)).
Proof.
  revert i n. induction a as [|c a IH]; intros i n Hn Ha; simpl in *; [lia|].
  destruct (c =? 0) eqn:Ec; simpl in *; bool_hyps.
  - subst c. rewrite Z.eqb_sym. f_equal. destruct n as [|x n].
    + simpl in Hn. destruct (nm i =? 0); [done|discriminate].
    + simpl in Hn. destruct (nm i =? 0) eqn:E; [discriminate|]. by rewrite bool_decide_eq_false_2.
  - destruct n as [|x n].
    + simpl in Hn. destruct (nm i =? 0) eqn:E; [|discriminate]. simpl. bool_hyps.
      rewrite E, (proj2 (Z.eqb_neq c 0)) by done. done.
    + simpl in Hn. destruct (nm i =? 0) eqn:E; [discriminate|]. injection Hn as -> Hn. simpl.
      destruct (c =? nm i) eqn:Ecn; bool_hyps.
      * subst c. rewrite (IH (S i) n Hn) by lia. f_equal. apply bool_decide_ext. naive_solver.
      * rewrite bool_decide_eq_false_2; [done|]. congruence.
Qed.

Lemma name_is_take nm n : name_is nm n -> n = str_take nm 0 (length n + 1).
Proof. intros [E Hl]. rewrite E at 1. symmetry. apply str_take_shorter; rewrite <- E; lia. Qed.

(** ** Searching the directory *)

Definition named (n : list Z) (e : dirent) : Prop := in_use e = true /\ cstr (dname e) = n.
Definition unused (e : dirent) : Prop := in_use e = false.
Definition terminated (e : dirent) : Prop :=
  in_use e = true -> (length (cstr (dname e)) < length (dname e))%nat.

#[export] Instance named_dec n e : Decision (named n e).
Proof. unfold named. apply _. Defined.
#[export] Instance unused_dec e : Decision (unused e).
Proof. unfold unused. apply _. Defined.

Lemma find_loop_spec d nm n i free :
  name_is nm n -> Forall terminated d ->
  exists F, find_loop d nm i free = Some ((fun x => (i + fst x)%nat) <$> list_find (named n) d, F) /\
    (list_find (named n) d = None ->
     F = match free with Some f => Some f | None => (fun x => (i + fst x)%nat) <$> list_find unused d end).
Proof.
  intros Hn Hd. revert i free. induction Hd as [|e d He Hd IH]; intros i free; simpl.
  { exists free. split; [done|]. intros _. by destruct free. }
  destruct (decide (named n e)) as [[Hu Hne]|Hnn].
  - rewrite Hu. simpl. rewrite (fname_eq_spec _ nm 0 n) by (by apply name_is_take || by apply He).
    rewrite bool_decide_eq_true_2 by done. simpl. rewrite Nat.add_0_r. by exists free.
  - assert (Hs : forall (x : nat * dirent), (i + S (fst x))%nat = (S i + fst x)%nat) by (intros; lia).
    destruct (in_use e) eqn:Hu; simpl.
    + rewrite (fname_eq_spec _ nm 0 n) by (by apply name_is_take || by apply He).
      rewrite bool_decide_eq_false_2 by (unfold named in Hnn; naive_solver). simpl.
      destruct (IH (S i) free) as (F & E & HF). exists F. rewrite decide_False by (unfold unused; congruence).
      destruct (list_find (named n) d) as [[k x]|] eqn:El; simpl in *.
      * rewrite E. split; [|done]. do 3 f_equal. lia.
      * rewrite E. split; [done|]. intros _. rewrite HF by done. destruct free; [done|].
        destruct (list_find unused d) as [[k x]|]; simpl; [f_equal; lia|done].
    + destruct (IH (S i) (match free with None => Some i | _ => free end)) as (F & E & HF). exists F.
      rewrite decide_True by done.
      destruct (list_find (named n) d) as [[k x]|] eqn:El; simpl in *.
      * rewrite E. split; [|done]. do 3 f_equal. lia.
      * rewrite E. split; [done|]. intros _. rewrite HF by done.
        destruct free; simpl; [done|]. by rewrite Nat.add_0_r.
Qed.

(** ** Sectors *)

(** The sectors that a directory's files and a list of extents take up. *)
Definition esecs (e : dirent) : list Z :=
  if in_use e then seqZ (start_lba e) (sectors_of (dsize e)) else [].
Definition dsecs (d : list dirent) : list Z := concat (map esecs d).
Definition fsecs (l : list (Z * Z)) : list Z := concat (map (fun x => seqZ (fst x) (snd x)) l).

Lemma dsecs_split d i e :
  d !! i = Some e -> dsecs d = dsecs (take i d) ++ esecs e ++ dsecs (drop (S i) d).
Proof.
  intros H. rewrite <- (take_drop_middle d i e H) at 1. unfold dsecs.
  by rewrite map_app, concat_app.
Qed.

Lemma dsecs_insert d i e' :
  (i < length d)%nat -> dsecs (<[i := e']> d) = dsecs (take i d) ++ esecs e' ++ dsecs (drop (S i) d).
Proof.
  intros H. rewrite (dsecs_split _ i e') by (by apply list_lookup_insert_eq).
  by rewrite take_insert_ge, drop_insert_lt by lia.
Qed.

Lemma swap_remove {A} (l : list A) cnt i x y :
  l !! i = Some x -> (i < cnt)%nat -> l !! (cnt - 1)%nat = Some y ->
  take cnt l ≡ₚ x :: take (cnt - 1) (<[i := y]> l).
Proof.
  intros Hx Hi Hy. replace cnt with (S (cnt - 1)) at 1 by lia. rewrite (take_S_r _ _ _ Hy).
  destruct (decide (i = cnt - 1)%nat) as [E|Hne].
  - rewrite take_insert_ge by lia. rewrite Permutation_app_comm. simpl. subst i. by simplify_eq.
  - pose proof (lookup_lt_Some _ _ _ Hx). set (T := take (cnt - 1) l).
    assert (HT : T !! i = Some x) by (unfold T; rewrite lookup_take_lt by lia; done).
    rewrite take_insert_lt by lia. fold T.
    rewrite insert_take_drop by (by eapply lookup_lt_Some).
    rewrite <- (take_drop_middle T i x HT) at 1.
    rewrite <- app_assoc. simpl. rewrite <- Permutation_middle. f_equiv.
    rewrite (Permutation_app_comm (drop (S i) T)). done.
Qed.

Lemma fsecs_app l l' : fsecs (l ++ l') = fsecs l ++ fsecs l'.
Proof. unfold fsecs. by rewrite map_app, concat_app. Qed.

Lemma fsecs_cons x l : fsecs (x :: l) = seqZ (fst x) (snd x) ++ fsecs l.
Proof. done. Qed.

Lemma fsecs_Permutation l l' : l ≡ₚ l' -> fsecs l ≡ₚ fsecs l'.
Proof.
  induction 1 as [|x l l' _ IH|x y l|l1 l2 l3 _ IH1 _ IH2]; unfold fsecs in *; simpl.
  - done.
  - by f_equiv.
  - by rewrite Permutation_app_swap_app.
  - by etrans.
Qed.

Lemma seqZ_split a m n : 0 <= m <= n -> seqZ a n = seqZ a m ++ seqZ (a + m) (n - m).
Proof. intros. rewrite <- seqZ_app by lia. f_equal. lia. Qed.

Lemma seqZ_1 a : seqZ a 1 = [a].
Proof. by rewrite seqZ_cons by lia. Qed.

(** ** Invariant and contents *)

Definition used_ok (e : dirent) : Prop :=
  in_use e = true -> (length (cstr (dname e)) < 24)%nat /\ 1 <= dsize e <= 2 ^ 20.

Section Model.
Context {D : Type} `{!BlockDevice D}.
Implicit Types s : afs D.

(** The directory on the disk. *)
Definition dir (s : afs D) : list dirent :=
  dir_of_bytes AFS_MAX_FILES (sector (dev s) (afs_base s + AFS_DIR_LBA)).
Definition free (s : afs D) : list (Z * Z) := take (Z.to_nat (free_extent_count s)) (free_extents s).

(** Byte [k] of the area that starts at sector [L]. *)
Definition fbyte (d : D) (L : Z) (k : nat) : Z :=
  nth (k mod 512) (sector d (L + Z.of_nat (k / 512))) 0.
Definition contents (s : afs D) (e : dirent) : list Z :=
  map (fbyte (dev s) (afs_base s + start_lba e)) (seq 0 (Z.to_nat (dsize e))).
(** The file called [n]: the abstract state is the map [file s]. *)
Definition file (s : afs D) (n : list Z) : option (list Z) :=
  (fun x => contents s (snd x)) <$> list_find (named n) (dir s).

(** [d] and the free extents take up different sectors of the data area. *)
Definition layout (d : list dirent) (fr : list (Z * Z)) (next : Z) : Prop :=
  NoDup (dsecs d ++ fsecs fr) /\ Forall (fun x => 2 <= x < next) (dsecs d ++ fsecs fr).

Definition dir_wf (d : list dirent) : Prop :=
  length d = 16%nat /\ Forall dirent_ok d /\ Forall used_ok d /\
  (forall i j e e', d !! i = Some e -> d !! j = Some e' -> in_use e = true -> in_use e' = true ->
     cstr (dname e) = cstr (dname e') -> i = j).

(** The parts of the state outside the directory. *)
Definition shape (s : afs D) : Prop :=
  mounted s = true /\ 0 <= afs_base s /\ afs_base s + total_sectors s <= sectors (dev s) /\
  2 <= next_free_lba s <= total_sectors s /\
  0 <= free_extent_count s <= 32 /\ length (free_extents s) = 32%nat /\
  Forall (fun x => 2 <= fst x /\ 1 <= snd x) (free s) /\
  length (iobuf s) = 4%nat /\ Forall (fun b => length b = 4096%nat) (iobuf s).

Definition afs_wf (s : afs D) : Prop :=
  shape s /\ dir_wf (dir s) /\ layout (dir s) (free s) (next_free_lba s).

Lemma shape_bounds s : shape s ->
  0 <= afs_base s /\ 2 <= total_sectors s /\ afs_base s + total_sectors s <= sectors (dev s) < 2 ^ 31.
Proof.
  intros (_ & ? & ? & ? & _). destruct (capacity_sectors (dev s)) as [_ ?]. lia.
Qed.

Lemma rd_sectors_run s lba n :
  shape s -> 0 <= lba -> 0 <= n -> lba + n <= total_sectors s ->
  rd_sectors lba n s = Ok ((0, concat (sector (dev s) <$> seqZ (afs_base s + lba) n)), s, []).
Proof.
  intros Hs Hl Hn Ht. pose proof (shape_bounds s Hs). unfold rd_sectors.
  rewrite (bind_ok get _ s s s) by done. rewrite u32_small by lia.
  erewrite zoom_ok by (apply vblk_read_law; lia).
  rewrite (proj2 (Z.leb_le _ _)) by lia. by destruct s.
Qed.

Lemma wr_sectors_run s lba n bs :
  shape s -> 0 <= lba -> 0 <= n -> lba + n <= total_sectors s -> length bs = Z.to_nat (512 * n) ->
  exists d', wr_sectors lba bs s = Ok (0, set_dev d' s, []) /\ sectors d' = sectors (dev s) /\
    forall i, sector d' i =
      if (afs_base s + lba <=? i) && (i <? afs_base s + lba + n)
      then take 512 (drop (Z.to_nat (512 * (i - (afs_base s + lba)))) bs) else sector (dev s) i.
Proof.
  intros Hs Hl Hn Ht Hbs. pose proof (shape_bounds s Hs). unfold wr_sectors.
  rewrite (bind_ok get _ s s s) by done. rewrite u32_small by lia.
  destruct (vblk_write_law (dev s) (afs_base s + lba) n bs) as (d' & E & Hd & Hsec); [lia|lia|done|].
  rewrite (proj2 (Z.leb_le _ _)) in E, Hsec by lia. exists d'.
  split; [|done]. by rewrite (zoom_ok _ _ _ _ _ _ _ E).
Qed.

Lemma dir_load_run s : shape s -> dir_load s = Ok (true, set_diobuf (dir s) s, []).
Proof.
  intros Hs. pose proof (shape_bounds s Hs). unfold dir_load, AFS_DIR_LBA, AFS_DIR_LBAS.
  rewrite (bind_ok _ _ _ _ _ (rd_sectors_run s 1 1 Hs ltac:(lia) ltac:(lia) ltac:(lia))).
  rewrite seqZ_1. simpl. rewrite app_nil_r. done.
Qed.

Lemma shape_set_diobuf s b : shape s -> shape (set_diobuf b s).
Proof. done. Qed.

(** [find_slot] in a loaded directory. *)
Lemma find_slot_run s nm n create :
  name_is nm n -> Forall terminated (diobuf s) ->
  find_slot nm create s =
  match list_find (named n) (diobuf s) with
  | Some (i, _) => Ok (Some i, s, [])
  | None =>
      match create, list_find unused (diobuf s) with
      | true, Some (f, _) =>
          Ok (Some f, set_diobuf (<[f := mk_dirent (n ++ replicate (24 - length n) 0) 0 0]> (diobuf s)) s, [])
      | _, _ => Ok (None, s, [])
      end
  end.
Proof.
  intros Hn Hd. unfold find_slot. rewrite (bind_ok get _ s s s) by done.
  destruct (find_loop_spec (diobuf s) nm n 0 None Hn Hd) as (F & E & HF).
  rewrite (bind_ok _ _ s _ s) by (by rewrite E).
  destruct (list_find (named n) (diobuf s)) as [[i e]|]; cbn [fmap option_fmap option_map]; [done|].
  rewrite HF by done. change (AFS_NAME_LEN - 1)%nat with 23%nat. rewrite (name_is_23 nm n Hn).
  destruct create, (list_find unused (diobuf s)) as [[f e]|]; done.
Qed.

Lemma terminated_of d : Forall dirent_ok d -> Forall used_ok d -> Forall terminated d.
Proof.
  intros H1 H2. apply Forall_forall. intros e He Hu.
  rewrite Forall_forall in H1, H2. destruct (H1 e He) as (-> & _). by apply (H2 e He).
Qed.

(** ** Allocation *)

(** The free list gives [n] sectors away, or has no extent that large. *)
Lemma alloc_free_loop_run s n i k :
  0 < n < 2 ^ 32 -> shape s -> NoDup (fsecs (free s)) -> Forall (fun x => x < 2 ^ 32 - 1) (fsecs (free s)) ->
  0 <= i -> i + Z.of_nat k = free_extent_count s ->
  exists lba s', alloc_free_loop n i k s = Ok (lba, s', []) /\ shape s' /\
    dev s' = dev s /\ afs_base s' = afs_base s /\ next_free_lba s' = next_free_lba s /\
    total_sectors s' = total_sectors s /\ diobuf s' = diobuf s /\ iobuf s' = iobuf s /\
    (lba = 0 /\ s' = s \/ 2 <= lba /\ fsecs (free s) ≡ₚ seqZ lba n ++ fsecs (free s')).
Proof.
  intros Hn Hs Hnd Hlt. revert i. induction k as [|k IH]; intros i Hi Hk.
  { exists 0, s. split_and!; auto. }
  pose proof Hs as (Hm & Hb & Hcap & Hnext & Hc & Hl & Hpos & Hio1 & Hio2).
  destruct (aget_in (free_extents s) i) as [[st c] He]; [lia|].
  pose proof (proj1 (aget_Some _ _ _) He) as [_ He'].
  assert (Hf : free s !! Z.to_nat i = Some (st, c)) by (unfold free; rewrite lookup_take_lt by lia; done).
  destruct (Forall_lookup_1 _ _ _ _ Hpos Hf) as [Hst Hc1]. simpl in Hst, Hc1.
  assert (Hin : forall x, st <= x < st + c -> x ∈ fsecs (free s)).
  { intros x Hx. rewrite <- (take_drop_middle _ _ _ Hf), fsecs_app. apply elem_of_app. right.
    unfold fsecs. simpl. apply elem_of_app. left. apply elem_of_seqZ. lia. }
  assert (Hlast : st + c < 2 ^ 32).
  { rewrite Forall_forall in Hlt. specialize (Hlt (st + c - 1) (Hin (st + c - 1) ltac:(lia))). lia. }
  cbn [alloc_free_loop]. rewrite (bind_ok get _ s s s) by done.
  rewrite (bind_ok _ _ s (st, c) s) by (by rewrite He). cbn [fst snd].
  destruct (c >=? n) eqn:Ecn; [|apply IH; lia].
  bool_hyps. set (l1 := <[Z.to_nat i := (st + n, c - n)]> (free_extents s)).
  rewrite (u32_small (st + n)), (u32_small (c - n)) by lia.
  rewrite (bind_ok _ _ s l1 s) by (by rewrite aset_in by lia). cbn [snd].
  set (cnt := Z.to_nat (free_extent_count s)).
  destruct (c - n =? 0) eqn:Ez; bool_hyps.
  - destruct (lookup_lt_is_Some_2 l1 (cnt - 1)) as [y Hy]; [unfold l1, cnt; rewrite length_insert; lia|].
    assert (Hy' : aget l1 (free_extent_count s - 1) = Some y).
    { apply aget_Some. split; [lia|]. unfold cnt in Hy. replace (Z.to_nat (free_extent_count s - 1)) with (Z.to_nat (free_extent_count s) - 1)%nat by lia. done. }
    set (l2 := <[Z.to_nat i := y]> l1). set (s' := set_free l2 (free_extent_count s - 1) s).
    assert (Hy0 : free_extents s !! (cnt - 1)%nat = Some y \/ (cnt - 1)%nat = Z.to_nat i).
    { destruct (decide (cnt - 1 = Z.to_nat i)%nat); [by right|left].
      unfold l1 in Hy. by rewrite list_lookup_insert_ne in Hy by lia. }
    assert (Hperm : free s ≡ₚ (st, c) :: free s').
    { unfold free, s', l2, l1. simpl. rewrite list_insert_insert_eq.
      replace (Z.to_nat (free_extent_count s - 1)) with (cnt - 1)%nat by lia. fold cnt.
      destruct Hy0 as [Hy0|Hy0]; [apply swap_remove; [done|lia|done]|].
      rewrite take_insert_ge by lia. replace cnt with (S (cnt - 1)) at 1 by lia.
      rewrite Hy0. rewrite (take_S_r _ _ _ He'). by rewrite Permutation_app_comm. }
    exists st, s'. split.
    { unfold bind. simpl. rewrite Hy'. simpl. rewrite aset_in by (unfold l1; rewrite length_insert; lia). done. }
    assert (Hpos' : Forall (fun x => 2 <= fst x /\ 1 <= snd x) (free s')).
    { rewrite Hperm in Hpos. by apply Forall_cons in Hpos as [_ ?]. }
    split; [|split_and!; try done].
    + unfold shape, s', l2, l1 in *. simpl. split_and!; try done; try lia. by rewrite !length_insert.
    + right. split; [lia|]. rewrite (fsecs_Permutation _ _ Hperm), fsecs_cons. cbn [fst snd].
      by replace c with n by lia.
  - set (s' := set_free l1 (free_extent_count s) s). exists st, s'. split; [done|].
    assert (Hfree' : free s' = take (Z.to_nat i) (free s) ++ (st + n, c - n) :: drop (S (Z.to_nat i)) (free s)).
    { unfold free, s', l1. simpl. rewrite take_insert_lt by lia.
      apply insert_take_drop. rewrite length_take. lia. }
    split; [|split_and!; try done].
    + unfold shape, s', l1. simpl. split_and!; try done; try lia; [by rewrite length_insert|].
      fold l1. change (Forall (fun x => 2 <= fst x /\ 1 <= snd x) (free s')). rewrite Hfree'.
      rewrite <- (take_drop_middle _ _ _ Hf) in Hpos.
      apply Forall_app in Hpos as [H1 H2]. apply Forall_cons in H2 as [_ H2].
      apply Forall_app. split; [done|]. constructor; [simpl; lia|done].
    + right. split; [lia|]. rewrite Hfree'. rewrite <- (take_drop_middle _ _ _ Hf) at 1.
      rewrite !fsecs_app, !fsecs_cons. cbn [fst snd]. rewrite (seqZ_split st n c) by lia.
      rewrite <- app_assoc. by rewrite Permutation_app_swap_app.
Qed.

(** ** Copying data *)

Lemma stage_run b slot bs :
  length b = 4%nat -> Forall (fun x => length x = 4096%nat) b -> (slot < 4)%nat -> (length bs <= 4096)%nat ->
  exists old b', stage slot bs b = Some b' /\ b' !! slot = Some (bs ++ drop (length bs) old) /\
    length old = 4096%nat /\ length b' = 4%nat /\ Forall (fun x => length x = 4096%nat) b'.
Proof.
  intros Hb Hall Hs Hl. destruct (lookup_lt_is_Some_2 b slot) as [old Ho]; [lia|].
  pose proof (Forall_lookup_1 _ _ _ _ Hall Ho) as Hol. cbv beta in Hol. exists old. unfold stage. rewrite Ho. simpl.
  eexists. split; [done|]. split; [apply list_lookup_insert_eq; lia|]. split; [done|].
  split; [by rewrite length_insert|]. apply Forall_insert; [done|].
  rewrite length_app, length_drop. lia.
Qed.

Lemma slot_lt x : 0 <= x -> (Z.to_nat (x mod IOBUF_SLOTS) < 4)%nat.
Proof. intros. unfold IOBUF_SLOTS. zlia. Qed.

Lemma shape_write s d b :
  shape s -> sectors d = sectors (dev s) -> length b = 4%nat ->
  Forall (fun x => length x = 4096%nat) b -> shape (set_dev d (set_iobuf b s)).
Proof.
  intros (H1&H2&H3&H4&H5&H6&H7&_&_) E Hb1 Hb2. rewrite <- E in H3.
  exact (conj H1 (conj H2 (conj H3 (conj H4 (conj H5 (conj H6 (conj H7 (conj Hb1 Hb2)))))))).
Qed.

Lemma chunk_offset off : 0 <= off -> off mod 4096 = 0 ->
  exists m, 0 <= m /\ off = 4096 * m /\ off / 512 = 8 * m /\ (off + 4096) / 512 = 8 * m + 8 /\ off / 4096 = m.
Proof. intros H0 Hm. exists (off / 4096). zlia. Qed.
Lemma sector_count c : 0 <= c -> c <= 512 * ((c + 511) / 512) < c + 512.
Proof. zlia. Qed.
Lemma sector_count' c : 0 <= c -> c <= 512 * ((c + 512 - 1) / 512) < c + 512.
Proof. zlia. Qed.

Lemma write_loop_run src lba len n off s :
  shape s -> 0 <= lba -> 0 < len <= 2 ^ 20 -> lba + (len + 511) / 512 <= total_sectors s ->
  0 <= off -> off mod 4096 = 0 -> len - off <= 4096 * (Z.of_nat n - 1) -> (0 < n)%nat ->
  exists d b, write_loop src lba len off n s = Ok (0, set_dev d (set_iobuf b s), []) /\
    sectors d = sectors (dev s) /\ length b = 4%nat /\ Forall (fun x => length x = 4096%nat) b /\
    (forall k, off <= Z.of_nat k < len -> fbyte d (afs_base s + lba) k = src k) /\
    (forall i, ~ (afs_base s + lba + off / 512 <= i < afs_base s + lba + (len + 511) / 512) ->
       sector d i = sector (dev s) i).
Proof.
  intros Hs Hl Hlen Htot. revert off s Hs Htot.
  induction n as [|n IH]; intros off s Hs Htot Hoff Hmod Hfuel Hn; [lia|]. cbn [write_loop].
  destruct (off <? len) eqn:E; bool_hyps.
  2: { exists (dev s), (iobuf s). destruct Hs as (?&?&?&?&?&?&?&?&?).
       split; [by destruct s|]. split_and!; try done. intros k Hk. lia. }
  destruct (chunk_offset off Hoff Hmod) as (m & Hm & -> & H512 & H512' & H4096).
  pose proof (sector_count len ltac:(lia)) as HN. set (N := (len + 511) / 512) in *. clearbody N.
  set (c := if len - 4096 * m >? 4096 then 4096 else len - 4096 * m).
  assert (Hc : 0 < c <= 4096 /\ (c = len - 4096 * m \/ c = 4096 /\ 4096 < len - 4096 * m)) by (unfold c; case_match; bool_hyps; lia).
  clearbody c. set (bs := map (fun i => src (Z.to_nat (4096 * m) + i)%nat) (seq 0 (Z.to_nat c))).
  assert (Hbl : length bs = Z.to_nat c) by (unfold bs; by rewrite length_map, length_seq).
  pose proof Hs as (_&_&_&_&_&_&_&Hio1&Hio2).
  destruct (stage_run (iobuf s) (Z.to_nat (m mod IOBUF_SLOTS)) bs Hio1 Hio2)
    as (old & b1 & Est & Hslot & Hold & Hb1 & Hb1'); [apply slot_lt; lia|lia|].
  unfold SECT. rewrite H4096, H512. rewrite (bind_ok get _ s s s) by done. rewrite (bind_ok _ _ s b1 s) by (by rewrite Est).
  rewrite (bind_ok (put _) _ s tt (set_iobuf b1 s)) by done.
  set (s1 := set_iobuf b1 s). set (buf := bs ++ drop (length bs) old) in *.
  rewrite (bind_ok _ _ s1 buf s1) by (by rewrite Hslot).
  set (sec := (c + 512 - 1) / 512).
  assert (Hsec : 512 * sec <= 4096 /\ c <= 512 * sec < c + 512) 
    by (unfold sec; pose proof (sector_count' c ltac:(lia)); split; [zlia|lia]). clearbody sec.
  assert (Hbuf : length buf = 4096%nat) by (unfold buf; rewrite length_app, length_drop; lia).
  assert (Hs1 : shape s1) by (apply (shape_write s (dev s) b1) in Hs; done).
  pose proof (shape_bounds s Hs) as Hbd.
  assert (Hend : 8 * m + sec <= N) by lia.
  rewrite (u32_small (lba + 8 * m)) by lia.
  destruct (wr_sectors_run s1 (lba + 8 * m) sec (take (Z.to_nat (512 * sec)) buf)) as (d1 & Ew & Hd1 & Hsd1);
    [done|lia|lia|simpl; lia|rewrite length_take; lia|].
  rewrite (bind_ok _ _ _ _ _ Ew). change (negb (0 =? 0)) with false. cbv iota.
  set (s2 := set_dev d1 s1). change (dev s1) with (dev s) in *. change (afs_base s1) with (afs_base s) in *.
  destruct (IH (4096 * m + 4096) s2) as (d & b & E2 & Hd & Hb & Hb' & Hbytes & Hframe).
  { by apply (shape_write s1 d1 b1). }
  { done. }
  { lia. }
  { clear. zlia. }
  { lia. }
  { lia. }
  rewrite H512' in Hframe. change (dev s2) with d1 in *. change (afs_base s2) with (afs_base s) in *.
  exists d, b. rewrite E2. split; [done|]. split; [congruence|]. split; [done|]. split; [done|].
  split.
  - intros k Hk. destruct (decide (4096 * m + 4096 <= Z.of_nat k)); [apply Hbytes; lia|].
    assert (Hkc : 4096 * m <= Z.of_nat k < 4096 * m + c) by lia.
    unfold fbyte. pose proof (Nat.div_mod_eq k 512) as Hqr.
    pose proof (Nat.mod_upper_bound k 512 ltac:(lia)) as Hr.
    set (q := (k / 512)%nat) in *. set (r := (k mod 512)%nat) in *. clearbody q r.
    rewrite Hframe by lia. rewrite Hsd1.
    rewrite (proj2 (Z.leb_le _ _)), (proj2 (Z.ltb_lt _ _)) by lia. cbn [andb].
    rewrite nth_lookup, lookup_take_lt, lookup_drop, lookup_take_lt by lia.
    replace (Z.to_nat _ + r)%nat with (k - Z.to_nat (4096 * m))%nat by lia.
    unfold buf. rewrite lookup_app_l by lia. unfold bs. rewrite list_lookup_fmap.
    rewrite lookup_seq_lt by lia. simpl. f_equal. lia.
  - intros i Hi. rewrite Hframe by lia. rewrite Hsd1.
    destruct ((_ <=? i) && (i <? _)) eqn:Ei; [|done]. bool_hyps. lia.
Qed.

Lemma map_seq_shift {A} (f : nat -> A) a n : map f (seq a n) = map (fun k => f (a + k)%nat) (seq 0 n).
Proof.
  revert f a. induction n as [|n IH]; intros f a; simpl; [done|]. rewrite Nat.add_0_r. f_equal.
  rewrite (IH f (S a)), (IH (fun k => f (a + k)%nat) 1%nat). apply map_ext. intros k. f_equal. lia.
Qed.

Lemma fbyte_shift d L m k : fbyte d L (512 * m + k) = fbyte d (L + Z.of_nat m) k.
Proof.
  unfold fbyte. replace (512 * m + k)%nat with (k + m * 512)%nat by lia.
  rewrite Nat.Div0.mod_add, Nat.div_add by lia. do 2 f_equal. lia.
Qed.

Lemma sector_bytes d L c : (c <= 512)%nat -> take c (sector d L) = map (fbyte d L) (seq 0 c).
Proof.
  intros Hc. apply list_eq. intros k. rewrite list_lookup_fmap.
  destruct (decide (k < c)%nat).
  - rewrite lookup_take_lt, lookup_seq_lt by done. simpl. unfold fbyte.
    rewrite Nat.mod_small, Nat.div_small by lia. rewrite Z.add_0_r.
    destruct (lookup_lt_is_Some_2 (sector d L) k) as [x Hx]; [rewrite sector_length; lia|].
    rewrite Hx. f_equal. symmetry. by apply nth_lookup_Some.
  - rewrite lookup_seq_ge by lia. simpl. apply lookup_take_ge. lia.
Qed.

Lemma concat_sectors_length d n L :
  length (concat (sector d <$> seqZ L (Z.of_nat n))) = (512 * n)%nat.
Proof.
  revert L. induction n as [|n IH]; intros L; [done|].
  rewrite seqZ_cons by lia. replace (Z.pred (Z.of_nat (S n))) with (Z.of_nat n) by lia.
  cbn [fmap list_fmap concat]. rewrite length_app, sector_length.
  change (list_fmap _ _ (sector d) ?x) with (sector d <$> x). rewrite IH. lia.
Qed.

Lemma sectors_bytes d n L c :
  (c <= 512 * n)%nat ->
  take c (concat (sector d <$> seqZ L (Z.of_nat n))) = map (fbyte d L) (seq 0 c).
Proof.
  revert L c. induction n as [|n IH]; intros L c Hc.
  { replace c with 0%nat by lia. done. }
  rewrite seqZ_cons by lia. replace (Z.pred (Z.of_nat (S n))) with (Z.of_nat n) by lia.
  cbn [fmap list_fmap concat]. rewrite take_app, sector_length.
  destruct (decide (c <= 512)%nat).
  - rewrite (proj2 (Nat.sub_0_le c 512)) by done. rewrite take_0, app_nil_r. by apply sector_bytes.
  - rewrite (IH (Z.succ L) (c - 512)%nat) by lia.
    rewrite (take_ge (sector d L)) by (rewrite sector_length; lia).
    replace c with (512 + (c - 512))%nat at 2 by lia. rewrite seq_app, map_app. f_equal.
    + rewrite <- sector_bytes by lia. rewrite take_ge; [done|]. rewrite sector_length. lia.
    + rewrite (map_seq_shift _ (0 + 512)). apply map_ext. intros k.
      change (0 + 512 + k)%nat with (512 * 1 + k)%nat. rewrite (fbyte_shift d L 1 k). done.
Qed.

(** Where a read stops: the copy goes on in whole chunks until [max] is
    reached. *)
Definition read_end (size max : Z) : Z := Z.min size ((max + 4095) / 4096 * 4096).

Lemma read_loop_run lba size max n dn s :
  shape s -> 0 <= lba -> 0 < size <= 2 ^ 20 -> lba + (size + 511) / 512 <= total_sectors s ->
  0 < max -> 0 <= dn <= read_end size max -> (dn mod 4096 = 0 \/ dn = size) ->
  size - dn <= 4096 * (Z.of_nat n - 1) -> (0 < n)%nat ->
  exists b, read_loop lba size max dn n s =
    Ok ((read_end size max, map (fbyte (dev s) (afs_base s + lba))
           (seq (Z.to_nat dn) (Z.to_nat (read_end size max - dn)))), set_iobuf b s, []) /\
    length b = 4%nat /\ Forall (fun x => length x = 4096%nat) b.
Proof.
  intros Hs Hl Hsz Htot Hmax. revert dn s Hs Htot.
  induction n as [|n IH]; intros dn s Hs Htot Hdn Hmod Hfuel Hn; [lia|]. cbn [read_loop].
  pose proof Hs as (_&_&_&_&_&_&_&Hio1&Hio2).
  destruct ((dn <? max) && (dn <? size)) eqn:E.
  2: { assert (Hub : dn <= 2 ^ 20) by (unfold read_end in *; lia).
       assert (dn = read_end size max) as <-.
       { unfold read_end in *. bool_hyps. destruct E; bool_hyps; zlia. }
       exists (iobuf s). rewrite i32_small by lia. rewrite Z.sub_diag. split; [by destruct s|done]. }
  apply andb_true_iff in E as [E1%Z.ltb_lt E2%Z.ltb_lt]. destruct Hmod as [Hmod|]; [|lia].
  destruct (chunk_offset dn ltac:(lia) Hmod) as (m & Hm & -> & H512 & H512' & H4096).
  pose proof (sector_count size ltac:(lia)) as HN. set (N := (size + 511) / 512) in *. clearbody N.
  set (dn := 4096 * m) in *.
  set (c := if size - dn >? 4096 then 4096 else size - dn).
  assert (Hc : 0 < c <= 4096 /\ (c = size - dn \/ c = 4096 /\ 4096 < size - dn)) by (unfold c; case_match; bool_hyps; lia).
  clearbody c. unfold SECT. rewrite H4096, H512. set (sec := (c + 512 - 1) / 512).
  assert (Hsec : 512 * sec <= 4096 /\ c <= 512 * sec < c + 512) 
    by (unfold sec; pose proof (sector_count' c ltac:(lia)); split; [clear -Hc; zlia|lia]). clearbody sec.
  pose proof (shape_bounds s Hs) as Hbd.
  assert (Hend : 8 * m + sec <= N) by lia.
  rewrite (u32_small (lba + 8 * m)) by lia.
  rewrite (bind_ok _ _ _ _ _ (rd_sectors_run s (lba + 8 * m) sec Hs ltac:(lia) ltac:(lia) ltac:(lia))).
  cbn [fst snd]. change (negb (0 =? 0)) with false. cbv iota.
  rewrite (bind_ok get _ s s s) by done.
  set (bs := concat (sector (dev s) <$> seqZ (afs_base s + (lba + 8 * m)) sec)).
  assert (Hbl : length bs = Z.to_nat (512 * sec)).
  { unfold bs. rewrite <- (Z2Nat.id sec) at 1 by lia. rewrite concat_sectors_length. lia. }
  destruct (stage_run (iobuf s) (Z.to_nat ((m + 1) mod IOBUF_SLOTS)) bs Hio1 Hio2)
    as (old & b1 & Est & _ & _ & Hb1 & Hb1'); [apply slot_lt; lia|lia|].
  rewrite (bind_ok _ _ s b1 s) by (by rewrite Est).
  rewrite (bind_ok (put _) _ s tt (set_iobuf b1 s)) by done.
  assert (Hre : dn + c <= read_end size max) by (unfold read_end, dn in *; clear -Hc E1 E2 Hsz; zlia).
  destruct (IH (dn + c) (set_iobuf b1 s)) as (b & Eb & Hb & Hb').
  { by apply (shape_write s (dev s) b1). }
  { done. }
  { lia. }
  { destruct Hc as [_ [->|[-> _]]]; [right; lia|left]. unfold dn. clear. zlia. }
  { lia. }
  { lia. }
  exists b. rewrite (bind_ok _ _ _ _ _ Eb). cbn [fst snd]. split; [|done].
  unfold ret. do 3 f_equal. f_equal.
  assert (Htk : take (Z.to_nat c) bs = map (fbyte (dev s) (afs_base s + lba)) (seq (Z.to_nat dn) (Z.to_nat c))).
  { unfold bs. rewrite <- (Z2Nat.id sec) by lia. rewrite sectors_bytes by lia.
    assert (Hdn8 : Z.to_nat dn = (512 * Z.to_nat (8 * m))%nat) by lia.
    rewrite Hdn8, (map_seq_shift _ (512 * _)). apply map_ext. intros k.
    rewrite fbyte_shift. f_equal. lia. }
  rewrite Htk. change (dev (set_iobuf b1 s)) with (dev s). change (afs_base (set_iobuf b1 s)) with (afs_base s).
  rewrite <- map_app. f_equal. replace (Z.to_nat (dn + c)) with (Z.to_nat dn + Z.to_nat c)%nat by lia.
  rewrite <- seq_app. f_equal. lia.
Qed.

(** ** Choosing an extent *)

(** [ext] is disjoint from every file but entry [i], and from the free list. *)
Definition fresh_for (d : list dirent) (i : nat) (fr : list (Z * Z)) (next lba nl : Z) : Prop :=
  let l := seqZ lba nl ++ dsecs (take i d) ++ dsecs (drop (S i) d) ++ fsecs fr in
  NoDup l /\ Forall (fun x => 2 <= x < next) l.

Lemma NoDup_sub (l l' : list Z) : l' ⊆+ l -> NoDup l -> NoDup l'.
Proof. by intros [k ->]%submseteq_Permutation [? _]%NoDup_app. Qed.

Lemma fresh_sub d i fr' next lba nl next' l :
  NoDup l -> Forall (fun x => 2 <= x < next') l -> next = next' ->
  seqZ lba nl ++ dsecs (take i d) ++ dsecs (drop (S i) d) ++ fsecs fr' ⊆+ l ->
  fresh_for d i fr' next lba nl.
Proof.
  intros Hnd Hall -> Hsub. split; [by eapply NoDup_sub|].
  apply Forall_forall. intros x Hx. rewrite Forall_forall in Hall. apply Hall.
  by eapply elem_of_submseteq.
Qed.

Record chosen (s : afs D) (n : list Z) (nl : Z) (s1 : afs D) (lba : Z) (i : nat) (e0 e1 : dirent) : Prop := {
  ch_old : dir s !! i = Some e0;
  ch_who : named n e0 \/ unused e0 /\ list_find (named n) (dir s) = None;
  ch_dir : diobuf s1 = <[i := e1]> (dir s);
  ch_lba : start_lba e1 = lba;
  ch_name : length (dname e1) = 24%nat /\ cstr (dname e1) = n;
  ch_fresh : fresh_for (dir s) i (free s1) (next_free_lba s1) lba nl;
}.

Definition same_disk (s s1 : afs D) : Prop :=
  shape s1 /\ dev s1 = dev s /\ afs_base s1 = afs_base s /\ total_sectors s1 = total_sectors s.

Lemma wf_terminated s : afs_wf s -> Forall terminated (dir s).
Proof. intros (_ & (_ & H1 & H2 & _) & _). by apply terminated_of. Qed.

(** A new extent, from the free list or the bump allocator. *)
Lemma new_extent_run s nl i e0 e :
  afs_wf s -> 1 <= nl < 2 ^ 31 -> dir s !! i = Some e0 ->
  let d1 := <[i := e]> (dir s) in
  let k := (let* lba := alloc_from_free_list nl in
    let* s := get in
    if negb (lba =? 0) then
      upd_dirent i (fun e => mk_dirent (dname e) lba (dsize e)) ;;; ret (Some lba)
    else if u32 (next_free_lba s + nl) >? total_sectors s then ret None
    else
      modify (set_next (u32 (next_free_lba s + nl))) ;;;
      upd_dirent i (fun e => mk_dirent (dname e) (next_free_lba s) (dsize e)) ;;;
      ret (Some (next_free_lba s))) in
  exists r s1, k (set_diobuf d1 s) = Ok (r, s1, []) /\ same_disk s s1 /\
    match r with
    | None => free s1 = free s /\ next_free_lba s1 = next_free_lba s
    | Some lba => diobuf s1 = <[i := mk_dirent (dname e) lba (dsize e)]> (dir s) /\
        fresh_for (dir s) i (free s1) (next_free_lba s1) lba nl
    end.
Proof.
  intros Hwf Hnl Hi d1 k. pose proof Hwf as (Hs & Hd & Hnd & Hall).
  pose proof (shape_bounds s Hs) as Hb. pose proof Hs as (Hm & _ & _ & Hnext & Hc & _).
  pose proof (lookup_lt_Some _ _ _ Hi) as Hlt.
  pose proof (dsecs_split _ _ _ Hi) as Hsplit.
  assert (Hl1 : d1 !! i = Some e) by (by apply list_lookup_insert_eq).
  destruct (alloc_free_loop_run (set_diobuf d1 s) nl 0 (Z.to_nat (free_extent_count s)))
    as (lba & s1 & E & Hs1 & Edev & Ebase & Enext & Etot & Edio & Eio & Hcase); try done; try lia.
  { apply NoDup_app in Hnd as (_ & _ & Hnd). exact Hnd. }
  { apply Forall_app in Hall as [_ Hall]. eapply Forall_impl; [exact Hall|]. simpl. lia. }
  { simpl. lia. }
  unfold k, alloc_from_free_list. rewrite (bind_ok _ _ (set_diobuf d1 s) lba s1).
  2: { rewrite (bind_ok get _ _ (set_diobuf d1 s) (set_diobuf d1 s)) by done. exact E. }
  rewrite (bind_ok get _ s1 s1 s1) by done. simpl in Edio.
  assert (Hupd : forall (st : afs D) l, diobuf st = d1 ->
    upd_dirent i (fun e => mk_dirent (dname e) l (dsize e)) st =
    Ok (tt, set_diobuf (<[i := mk_dirent (dname e) l (dsize e)]> (dir s)) st, [])).
  { intros st l Est. unfold upd_dirent, bind, get, of_opt, put. rewrite Est, Hl1. simpl.
    unfold d1. by rewrite list_insert_insert_eq. }
  destruct Hcase as [[-> ->]|[Hlba Hperm]].
  - change (negb (0 =? 0)) with false. cbv iota. cbn [next_free_lba total_sectors set_diobuf].
    rewrite u32_small by lia. destruct (next_free_lba s + nl >? total_sectors s) eqn:Eg; bool_hyps.
    { eexists None, _. split; [reflexivity|]. split; [by split_and!|]. done. }
    eexists (Some (next_free_lba s)), _. split.
    { rewrite (bind_ok (modify _) _ _ tt (set_next (next_free_lba s + nl) (set_diobuf d1 s))) by done.
      rewrite (bind_ok _ _ _ _ _ (Hupd (set_next (next_free_lba s + nl) (set_diobuf d1 s)) _ eq_refl)). reflexivity. }
    split.
    { split_and!; try done. destruct Hs as (?&?&?&?&?&?&?&?&?). unfold shape. simpl.
      split_and!; try done; lia. }
    split; [done|]. cbn [next_free_lba set_next set_diobuf].
    apply (fresh_sub _ _ _ _ _ _ (next_free_lba s + nl) (seqZ (next_free_lba s) nl ++ (dsecs (dir s) ++ fsecs (free s)))).
    + apply NoDup_app. split; [apply NoDup_seqZ|]. split; [|exact Hnd].
      intros x Hx%elem_of_seqZ Hx2. rewrite Forall_forall in Hall. specialize (Hall x Hx2). simpl in Hall. lia.
    + apply Forall_app. split.
      * apply Forall_forall. intros x Hx%elem_of_seqZ. lia.
      * eapply Forall_impl; [exact Hall|]. simpl. lia.
    + done.
    + apply submseteq_skips_l. rewrite Hsplit, <- !app_assoc. apply submseteq_skips_l.
      apply submseteq_inserts_l. done.
  - rewrite (proj2 (Z.eqb_neq lba 0)) by lia. cbn [negb].
    eexists (Some lba), _. split; [rewrite (bind_ok _ _ _ _ _ (Hupd s1 _ Edio)); reflexivity|].
    split; [by split_and!|]. split; [done|].
    apply (fresh_sub _ _ _ _ _ _ (next_free_lba s) (dsecs (dir s) ++ fsecs (free s))); [done|done|done|].
    change (free (set_diobuf d1 s)) with (free s) in Hperm. rewrite Hperm, Hsplit. 
    rewrite (Permutation_app_comm (dsecs (take i (dir s)) ++ _ ++ _)), <- !app_assoc.
    apply submseteq_skips_l. rewrite (Permutation_app_comm (fsecs _)), <- !app_assoc.
    apply submseteq_skips_l. by apply submseteq_inserts_l.
Qed.
End Model.
