(* ===== verification/AfsSpec.v ===== *)
(** * What the on-disk file system guarantees (kernel/afs.c)

    The state of [Afs] as a map from names to contents, the effect of a write, a
    read and a delete on that map, and a RAM disk that implements the block
    device interface, on which the file system runs. *)

From S2P Require Import Prelude Uart Afs.

Section Choice.
Context {D : Type} `{!BlockDevice D}.
Implicit Types s : afs D.

Lemma wf_entry s i e : afs_wf s -> dir s !! i = Some e -> dirent_ok e /\ used_ok e.
Proof.
  intros (_ & (_ & H1 & H2 & _) & _) Hi.
  split; [apply (Forall_lookup_1 _ _ _ _ H1 Hi)|apply (Forall_lookup_1 _ _ _ _ H2 Hi)].
Qed.

Lemma in_use_0 e : in_use e = true <-> start_lba e <> 0.
Proof. unfold in_use. rewrite negb_true_iff. apply Z.eqb_neq. Qed.

Lemma sectors_of_small z : 0 <= z <= 2 ^ 20 -> sectors_of z = (z + 511) / 512.
Proof. intros. unfold sectors_of, SECT. rewrite u32_small by lia. f_equal. lia. Qed.

Lemma padded_cstr n : Forall (fun c => c <> 0) n -> (length n < 24)%nat ->
  length (n ++ replicate (24 - length n) 0) = 24%nat /\ cstr (n ++ replicate (24 - length n) 0) = n.
Proof.
  intros Hn Hl. rewrite length_app, length_replicate. split; [lia|].
  destruct (24 - length n)%nat eqn:E; [lia|]. simpl. by apply cstr_app_nz.
Qed.

Lemma name_is_nz nm n : name_is nm n -> Forall (fun c => c <> 0) n /\ (length n < 24)%nat.
Proof. intros [-> Hl]. split; [apply str_take_nz|done]. Qed.

(** [choose_extent] on the loaded directory. *)
Lemma choose_extent_run s nm n nl :
  afs_wf s -> name_is nm n -> 1 <= nl < 2 ^ 31 ->
  exists r s1, choose_extent nm nl (set_diobuf (dir s) s) = Ok (r, s1, []) /\ same_disk s s1 /\
    match r with
    | None => free s1 = free s /\ next_free_lba s1 = next_free_lba s /\
        forall i e, list_find (named n) (dir s) = Some (i, e) -> sectors_of (dsize e) < nl
    | Some lba => exists i e0 e1, chosen s n nl s1 lba i e0 e1
    end.
Proof.
  intros Hwf Hnm Hnl. pose proof (wf_terminated s Hwf) as Hterm.
  destruct (name_is_nz nm n Hnm) as [Hnz Hnl24].
  pose proof Hwf as (Hs & (Hdl & Hdok & Huok & Huniq) & Hnd & Hall).
  set (s0 := set_diobuf (dir s) s). unfold choose_extent.
  pose proof (find_slot_run s0 nm n false Hnm Hterm) as Hf0.
  pose proof (find_slot_run s0 nm n true Hnm Hterm) as Hf1.
  change (diobuf s0) with (dir s) in *.
  destruct (list_find (named n) (dir s)) as [[i e]|] eqn:Hfind.
  - apply list_find_Some in Hfind as (Hi & [Hu Hne] & _).
    rewrite (bind_ok _ _ _ _ _ Hf0). rewrite (bind_ok get _ s0 s0 s0) by done.
    change (diobuf s0) with (dir s). rewrite Hi. cbn [mbind option_bind].
    destruct (wf_entry s i e Hwf Hi) as [(Hl24 & Hst & Hsz) Hue]. destruct (Hue Hu) as [Hcl Hsize].
    destruct (nl <=? sectors_of (dsize e)) eqn:Efit; bool_hyps.
    + rewrite bind_some.
      exists (Some (start_lba e)), s0. split; [done|]. split; [done|].
      exists i, e, e. split; try done; [by left|by rewrite list_insert_id|].
      apply (fresh_sub _ _ _ _ _ _ (next_free_lba s) (dsecs (dir s) ++ fsecs (free s))); [done..|].
      rewrite (dsecs_split _ _ _ Hi). unfold esecs. rewrite Hu.
      rewrite (seqZ_split (start_lba e) nl (sectors_of (dsize e))) by lia.
      set (X := seqZ (start_lba e + nl) _). set (A := dsecs (take _ _)). set (B := dsecs (drop _ _)).
      assert (HP : (A ++ (seqZ (start_lba e) nl ++ X) ++ B) ++ fsecs (free s) ≡ₚ
                   seqZ (start_lba e) nl ++ X ++ A ++ B ++ fsecs (free s)).
      { rewrite <- !app_assoc. rewrite (Permutation_app_swap_app A (seqZ _ _)). f_equiv.
        by rewrite Permutation_app_swap_app. }
      rewrite HP. apply submseteq_skips_l. by apply submseteq_inserts_l.
    + rewrite bind_some. rewrite (bind_ok _ _ _ _ _ Hf1).
      destruct (new_extent_run s nl i e e Hwf Hnl Hi) as (r & s1 & E & Hsd & Hr). cbv zeta in E.
      rewrite list_insert_id in E by done. fold s0 in E. rewrite E. exists r, s1. split; [done|].
      split; [done|]. destruct r as [lba|]; [destruct Hr as [Hdio Hfr]|destruct Hr as [? ?]].
      * exists i, e, (mk_dirent (dname e) lba (dsize e)). split; try done. by left.
      * split_and!; [done..|]. intros ? ? [= <- <-]. lia.
  - rewrite (bind_ok _ _ _ _ _ Hf0). rewrite (bind_ok get _ s0 s0 s0) by done.
    rewrite bind_some.
    destruct (list_find unused (dir s)) as [[i e]|] eqn:Hfree.
    + apply list_find_Some in Hfree as (Hi & Hu & _). rewrite (bind_ok _ _ _ _ _ Hf1).
      set (e1 := mk_dirent (n ++ replicate (24 - length n) 0) 0 0).
      destruct (new_extent_run s nl i e e1 Hwf Hnl Hi) as (r & s1 & E & Hsd & Hr). cbv zeta in E.
      change (set_diobuf (<[i:=e1]> (dir s)) s0) with (set_diobuf (<[i:=e1]> (dir s)) s).
      rewrite E. exists r, s1. split; [done|]. split; [done|].
      destruct r as [lba|]; [|by destruct Hr]. destruct Hr as [Hdio Hfr].
      exists i, e, (mk_dirent (dname e1) lba (dsize e1)). split; try done; [by right|].
      simpl. by apply padded_cstr.
    + rewrite (bind_ok _ _ _ _ _ Hf1). exists None, s0. done.
Qed.
End Choice.

Section Commit.
Context {D : Type} `{!BlockDevice D}.
Implicit Types s : afs D.

Lemma list_find_only {A} (P : A -> Prop) `{!forall x, Decision (P x)} (l : list A) i x :
  l !! i = Some x -> P x -> (forall j y, l !! j = Some y -> P y -> j = i) -> list_find P l = Some (i, x).
Proof.
  intros Hi Hp Hu. apply list_find_Some. split_and!; [done|done|].
  intros j y Hj Hlt Hy. specialize (Hu j y Hj Hy). lia.
Qed.

Lemma list_find_insert_other {A} (P : A -> Prop) `{!forall x, Decision (P x)} (l : list A) i x x' :
  l !! i = Some x -> ~ P x -> ~ P x' -> list_find P (<[i := x']> l) = list_find P l.
Proof.
  revert i. induction l as [|y l IH]; intros [|i] Hi Hx Hx'; simpl in *; simplify_eq; try done.
  - by rewrite !decide_False by done.
  - case_decide; [done|]. by rewrite IH.
Qed.

(** Entry [i] now describes the file [n] of [len] bytes at [lba]. *)
Lemma dir_commit s n nl s1 lba i e0 e1 len :
  afs_wf s -> chosen s n nl s1 lba i e0 e1 -> 1 <= len <= 2 ^ 20 -> nl = (len + 511) / 512 ->
  2 <= lba < 2 ^ 31 -> Forall (fun c => c <> 0) n -> (length n < 24)%nat ->
  let d2 := <[i := mk_dirent (dname e1) lba len]> (dir s) in
  dir_wf d2 /\ layout d2 (free s1) (next_free_lba s1) /\
  list_find (named n) d2 = Some (i, mk_dirent (dname e1) lba len) /\
  (forall m, m <> n -> list_find (named m) d2 = list_find (named m) (dir s)) /\
  list_find (named n) (<[i := e1]> (dir s)) = Some (i, e1) /\
  Forall terminated (<[i := e1]> (dir s)).
Proof.
  intros Hwf [Hold Hwho Hdir Hlba [Hl24 Hcs] Hfresh] Hlen Hnl Hr Hnz Hn24 d2.
  pose proof Hwf as (Hs & (Hdl & Hdok & Huok & Huniq) & Hnd & Hall).
  pose proof (lookup_lt_Some _ _ _ Hold) as Hlt.
  set (e2 := mk_dirent (dname e1) lba len).
  assert (Hu2 : in_use e2 = true) by (apply in_use_0; simpl; lia).
  assert (Hn2 : named n e2) by done.
  assert (Hother : forall j e, dir s !! j = Some e -> named n e -> j = i).
  { intros j e Hj [Hje Hjn]. destruct Hwho as [[H0 H0n]|[H0 Hnone]].
    - apply (Huniq j i e e0); congruence.
    - apply list_find_None in Hnone. destruct (Forall_lookup_1 _ _ _ _ Hnone Hj). done. }
  assert (Hd2 : forall j e, d2 !! j = Some e -> j = i /\ e = e2 \/ j <> i /\ dir s !! j = Some e).
  { intros j e. apply list_insert_cases. }
  split; [|split; [|split; [|split; [|split]]]].
  - split; [|split; [|split]].
    + unfold d2. by rewrite length_insert.
    + apply Forall_insert; [done|]. unfold dirent_ok. simpl. lia.
    + apply Forall_insert; [done|]. intros _. simpl. rewrite Hcs. lia.
    + intros j k e e' [[-> ->]|[Hj He]]%Hd2 [[-> ->]|[Hk He']]%Hd2 Hue Hue' Hcc; [done| | |].
      * symmetry. apply (Hother k e' He'). split; [done|]. simpl in Hcc. congruence.
      * apply (Hother j e He). split; [done|]. simpl in Hcc. congruence.
      * by apply (Huniq j k e e').
  - destruct Hfresh as [Hf1 Hf2]. unfold layout, d2. rewrite dsecs_insert by done. unfold esecs at 1 2.
    fold e2. rewrite Hu2. simpl start_lba. simpl dsize. rewrite sectors_of_small by lia. rewrite <- Hnl.
    set (A := dsecs (take i (dir s))) in *. set (B := dsecs (drop (S i) (dir s))) in *.
    assert (HP : (A ++ seqZ lba nl ++ B) ++ fsecs (free s1) ≡ₚ seqZ lba nl ++ A ++ B ++ fsecs (free s1)).
    { rewrite <- !app_assoc. by rewrite Permutation_app_swap_app. }
    split; [by rewrite HP|by rewrite HP].
  - apply list_find_only; [by apply list_lookup_insert_eq|done|].
    intros j y [[-> ->]|[Hj Hy]]%Hd2 Hyn; [done|]. by apply (Hother j y).
  - intros m Hm. apply (list_find_insert_other _ _ i e0); [done| |].
    + intros [Hu0 Hm0]. destruct Hwho as [[_ H0n]|[H0 _]]; [congruence|].
      unfold unused in H0. congruence.
    + intros [_ Hm2]. simpl in Hm2. congruence.
  - assert (in_use e1 = true) by (apply in_use_0; lia).
    apply list_find_only; [by apply list_lookup_insert_eq|done|].
    intros j y [[-> ->]|[Hj Hy]]%list_insert_cases Hyn; [done|]. by apply (Hother j y).
  - apply Forall_insert; [by apply wf_terminated|]. intros _. by rewrite Hcs, Hl24.
Qed.

(** A file other than [n] lies outside the sectors that were written. *)
Lemma contents_frame s n nl s1 lba i e0 e1 (d3 : D) j e :
  afs_wf s -> chosen s n nl s1 lba i e0 e1 -> dir s !! j = Some e -> j <> i -> in_use e = true ->
  (forall x, x <> afs_base s + 1 -> ~ (afs_base s + lba <= x < afs_base s + lba + nl) ->
     sector d3 x = sector (dev s) x) ->
  map (fbyte d3 (afs_base s + start_lba e)) (seq 0 (Z.to_nat (dsize e))) = contents s e.
Proof.
  intros Hwf [Hold _ _ _ _ [Hnd Hall]] Hj Hji Hu Hframe. unfold contents.
  destruct (wf_entry s j e Hwf Hj) as [_ Hue]. destruct (Hue Hu) as [_ Hsz].
  apply map_ext_in. intros k Hk%in_seq. unfold fbyte. f_equal.
  set (x := start_lba e + Z.of_nat (k / 512)).
  assert (Hx : x ∈ esecs e).
  { unfold esecs. rewrite Hu. apply elem_of_seqZ. unfold x. rewrite sectors_of_small by lia.
    rewrite Nat2Z.inj_div. change (Z.of_nat 512) with 512. zlia. }
  assert (Hx' : x ∈ dsecs (take i (dir s)) ++ dsecs (drop (S i) (dir s))).
  { unfold dsecs. rewrite <- concat_app, <- map_app. apply list_elem_of_In, in_concat.
    exists (esecs e). split; [|by apply list_elem_of_In]. apply in_map, list_elem_of_In.
    rewrite elem_of_app. destruct (decide (j < i)%nat).
    - left. apply list_elem_of_lookup. exists j. by rewrite lookup_take_lt.
    - right. apply list_elem_of_lookup. exists (j - S i)%nat. rewrite lookup_drop.
      by replace (S i + (j - S i))%nat with j by lia. }
  assert (Hx2 : 2 <= x).
  { rewrite Forall_forall in Hall. apply (Hall x). rewrite !elem_of_app in *. tauto. }
  assert (Hxl : x ∉ seqZ lba nl).
  { intros Hin. apply NoDup_app in Hnd as (_ & Hdis & _). apply (Hdis x Hin).
    rewrite !elem_of_app in *. tauto. }
  rewrite elem_of_seqZ in Hxl. rewrite <- Hframe; [f_equal; unfold x; lia|lia|lia].
Qed.
End Commit.

Section Effects.
Context {D : Type} `{!BlockDevice D}.
Implicit Types s : afs D.

(** The state changes only in the caches: same disk, same map. *)
Lemma wf_cache s s1 :
  afs_wf s -> same_disk s s1 -> free s1 = free s -> next_free_lba s1 = next_free_lba s ->
  afs_wf s1 /\ forall n, file s1 n = file s n.
Proof.
  intros (Hs & Hd & Hl) (Hs1 & Hdev & Hb & Ht) Hf Hn.
  assert (Hdir : dir s1 = dir s) by (unfold dir; by rewrite Hdev, Hb).
  split; [split; [done|]; by rewrite Hdir, Hf, Hn|].
  intros n. unfold file, contents. by rewrite Hdir, Hdev, Hb.
Qed.

(** Writing the directory back. *)
Lemma dir_flush_run s d2 :
  shape s -> length d2 = 16%nat -> Forall dirent_ok d2 -> diobuf s = d2 ->
  exists d3, dir_flush s = Ok (0, set_dev d3 s, []) /\ shape (set_dev d3 s) /\
    dir (set_dev d3 s) = d2 /\ sectors d3 = sectors (dev s) /\
    forall x, x <> afs_base s + 1 -> sector d3 x = sector (dev s) x.
Proof.
  intros Hs Hl Hok Hdio. pose proof (shape_bounds s Hs). unfold dir_flush, AFS_DIR_LBA.
  rewrite (bind_ok get _ s s s) by done. rewrite Hdio.
  assert (Hlen : length (dir_bytes d2) = 512%nat) by (rewrite dir_bytes_length by done; lia).
  destruct (wr_sectors_run s 1 1 (dir_bytes d2)) as (d3 & E & Hsec & Hd3); [done|lia..|].
  exists d3. split; [exact E|]. split; [|split; [|split; [done|]]].
  - by apply (shape_write s d3 (iobuf s)); [|..|apply Hs|apply Hs].
  - unfold dir, AFS_DIR_LBA. simpl dev. simpl afs_base. rewrite Hd3.
    rewrite (proj2 (Z.leb_le _ _)), (proj2 (Z.ltb_lt _ _)) by lia. cbn [andb].
    rewrite Z.sub_diag. change (Z.to_nat (512 * 0)) with 0%nat. rewrite drop_0, take_ge by lia.
    change AFS_MAX_FILES with 16%nat. rewrite <- Hl. by apply dir_roundtrip.
  - intros x Hx. rewrite Hd3. destruct ((_ <=? x) && (x <? _)) eqn:Ex; [|done]. bool_hyps. lia.
Qed.

(** Nothing but the directory and the data area changes on the disk. *)
Definition same_volume (s s' : afs D) : Prop :=
  afs_base s' = afs_base s /\ total_sectors s' = total_sectors s /\
  sectors (dev s') = sectors (dev s) /\ sector (dev s') (afs_base s) = sector (dev s) (afs_base s).
Lemma same_disk_volume s s1 : same_disk s s1 -> same_volume s s1.
Proof. intros (_ & Hd & Hb & Ht). by repeat split; rewrite ?Hd. Qed.

Lemma entry_bounds s i e :
  afs_wf s -> dir s !! i = Some e -> in_use e = true ->
  1 <= dsize e <= 2 ^ 20 /\ 2 <= start_lba e /\
  start_lba e + (dsize e + 511) / 512 <= total_sectors s.
Proof.
  intros Hwf Hi Hu. destruct (wf_entry s i e Hwf Hi) as [_ Hue]. destruct (Hue Hu) as [_ Hsz].
  pose proof Hwf as (Hs & _ & _ & Hall). rewrite Forall_forall in Hall.
  pose proof (sector_count (dsize e) ltac:(lia)) as Hcnt. set (N := (dsize e + 511) / 512) in *.
  assert (Hin : forall x, start_lba e <= x < start_lba e + N -> 2 <= x < next_free_lba s).
  { intros x Hx. apply Hall, elem_of_app. left. rewrite (dsecs_split _ _ _ Hi). unfold esecs. rewrite Hu.
    rewrite sectors_of_small by lia. rewrite !elem_of_app, elem_of_seqZ. fold N. lia. }
  pose proof (Hin (start_lba e) ltac:(lia)). pose proof (Hin (start_lba e + N - 1) ltac:(lia)).
  assert (next_free_lba s <= total_sectors s) by apply Hs. split_and!; try done; lia.
Qed.

Lemma file_entry s n c :
  afs_wf s -> file s n = Some c ->
  exists i e, list_find (named n) (dir s) = Some (i, e) /\ dir s !! i = Some e /\ in_use e = true /\
    c = contents s e /\ 1 <= dsize e <= 2 ^ 20 /\ 2 <= start_lba e /\
    start_lba e + (dsize e + 511) / 512 <= total_sectors s.
Proof.
  intros Hwf Hf. unfold file in Hf. destruct (list_find (named n) (dir s)) as [[i e]|] eqn:Hfind; [|done].
  injection Hf as <-. exists i, e. apply list_find_Some in Hfind as (Hi & [Hu Hn] & _).
  split_and!; try done; by apply (entry_bounds s i e).
Qed.

Lemma write_run_volume s nm n src len :
  afs_wf s -> name_is nm n -> 1 <= len <= 2 ^ 20 ->
  exists r s', afs_write (Some nm) (Some src) len s = Ok (r, s', []) /\ (same_volume s s' /\ afs_wf s') /\
    (r = len /\ file s' n = Some (map src (seq 0 (Z.to_nat len))) /\
       (forall m, m <> n -> file s' m = file s m) \/
     r = -1 /\ (forall m, file s' m = file s m) /\
       forall c, file s n = Some c -> (Z.of_nat (length c) + 511) / 512 < (len + 511) / 512).
Proof.
  intros Hwf Hnm Hlen. destruct (name_is_nz nm n Hnm) as [Hnz Hn24].
  pose proof Hwf as (Hs & Hdwf & Hlay). pose proof (shape_bounds s Hs) as Hbd.
  unfold afs_write. rewrite (bind_ok get _ s s s) by done.
  assert (Hm : mounted s = true) by apply Hs. rewrite Hm.
  rewrite (proj2 (Z.eqb_neq len 0)), Z.gtb_ltb, (proj2 (Z.ltb_ge _ _)) by lia. cbn [negb orb].
  rewrite (bind_ok _ _ _ _ _ (dir_load_run s Hs)). cbn [negb]. cbv iota.
  set (nl := (len + SECT - 1) / SECT). assert (Hnl : nl = (len + 511) / 512) by (unfold nl, SECT; f_equal; lia).
  pose proof (sector_count len ltac:(lia)) as Hcnt. rewrite <- Hnl in Hcnt.
  destruct (choose_extent_run s nm n nl Hwf Hnm) as (r & s1 & Ec & Hsd & Hr); [lia|].
  rewrite (bind_ok _ _ _ _ _ Ec). destruct r as [lba|].
  2: { destruct Hr as (Hf & Hx & Hno). exists (-1), s1.
       destruct (wf_cache s s1 Hwf Hsd Hf Hx). split; [done|]. split; [split; [by apply same_disk_volume|done]|].
       right. split; [done|]. split; [done|]. intros c Hc.
       destruct (file_entry s n c Hwf Hc) as (j & e & Hfd & _ & _ & -> & Hsz & _).
       unfold contents. rewrite length_map, length_seq, Z2Nat.id by lia. rewrite <- Hnl.
       rewrite <- (sectors_of_small (dsize e)) by lia. by apply (Hno j). }
  destruct Hr as (i & e0 & e1 & Hch). pose proof Hsd as (Hs1 & Hdev & Hbase & Htot).
  pose proof (ch_fresh _ _ _ _ _ _ _ _ Hch) as [_ Hall].
  assert (Hr : 2 <= lba /\ lba + nl <= next_free_lba s1).
  { apply Forall_app in Hall as [Hall _]. rewrite Forall_forall in Hall.
    pose proof (Hall lba ltac:(apply elem_of_seqZ; lia)).
    pose proof (Hall (lba + nl - 1) ltac:(apply elem_of_seqZ; lia)). simpl in *. lia. }
  assert (Hnx : next_free_lba s1 <= total_sectors s1) by apply Hs1.
  destruct (write_loop_run src lba len 257 0 s1) as (d & b & Ew & Hsecs & Hb1 & Hb2 & Hbytes & Hframe);
    [done|lia|lia|rewrite <- Hnl; lia|lia|done|lia|lia|].
  rewrite (bind_ok _ _ _ _ _ Ew). change (negb (0 =? 0)) with false. cbv iota.
  destruct (dir_commit s n nl s1 lba i e0 e1 len Hwf Hch Hlen Hnl) as (Hd2 & Hl2 & Hfn & Hfo & Hfe1 & Hterm);
    [lia|done|done|].
  set (s2 := set_dev d (set_iobuf b s1)).
  assert (Hs2 : shape s2) by (by apply shape_write).
  assert (Hdio2 : diobuf s2 = <[i := e1]> (dir s)) by apply (ch_dir _ _ _ _ _ _ _ _ Hch).
  pose proof (find_slot_run s2 nm n false Hnm) as Hfind. rewrite Hdio2, Hfe1 in Hfind.
  rewrite (bind_ok _ _ _ _ _ (Hfind Hterm)).
  set (e2 := mk_dirent (dname e1) lba len) in *. set (d2 := <[i := e2]> (dir s)) in *.
  pose proof (lookup_lt_Some _ _ _ (ch_old _ _ _ _ _ _ _ _ Hch)) as Hlt.
  set (s3 := set_diobuf d2 s2).
  assert (Hup : upd_dirent i (fun e => mk_dirent (dname e) (start_lba e) (u32 len)) s2 = Ok (tt, s3, [])).
  { unfold upd_dirent, bind, get, put. rewrite Hdio2, list_lookup_insert_eq by done. simpl.
    rewrite list_insert_insert_eq, u32_small, (ch_lba _ _ _ _ _ _ _ _ Hch) by lia. done. }
  rewrite (bind_ok _ _ _ _ _ Hup).
  destruct (dir_flush_run s3 d2) as (d3 & Ef & Hs4 & Hdir4 & Hd3s & Hfr4); [done|apply Hd2|apply Hd2|done|].
  rewrite (bind_ok _ _ _ _ _ Ef). change (0 =? 0) with true. cbv iota.
  set (s4 := set_dev d3 s3) in *.
  assert (Hb4 : afs_base s4 = afs_base s) by apply Hbase. change (afs_base s3) with (afs_base s1) in Hfr4.
  assert (Hframe3 : forall x, x <> afs_base s + 1 -> ~ (afs_base s + lba <= x < afs_base s + lba + nl) ->
    sector d3 x = sector (dev s) x).
  { intros x H1 H2. rewrite Hfr4 by congruence. simpl dev. rewrite Hframe; [by rewrite Hdev|].
    rewrite Hbase, <- Hnl. change (0 / 512) with 0. lia. }
  exists len, s4. split; [done|]. split.
  { split; [|split; [done|]; by rewrite Hdir4]. split_and!; [done|exact Htot| |apply Hframe3; lia].
    change (sectors d3 = sectors (dev s)). rewrite Hd3s. change (dev s3) with d. by rewrite Hsecs, Hdev. }
  left. split; [done|]. split.
  - unfold file. rewrite Hdir4, Hfn. simpl. f_equal. unfold contents. simpl start_lba. simpl dsize.
    apply map_ext_in. intros k Hk%in_seq. rewrite Hb4, <- Hbase.
    rewrite <- Hbytes by lia. change (dev s4) with d3. unfold fbyte. f_equal.
    rewrite Hfr4; [done|]. lia.
  - intros m Hmn. unfold file. rewrite Hdir4, Hfo by done.
    destruct (list_find (named m) (dir s)) as [[j e]|] eqn:Hfm; [|done]. simpl. f_equal.
    apply list_find_Some in Hfm as (Hj & [Hu Hne] & _).
    unfold contents at 1. rewrite Hb4. change (dev s4) with d3.
    apply (contents_frame s n nl s1 lba i e0 e1 d3 j e); try done. intros ->.
    destruct (ch_who _ _ _ _ _ _ _ _ Hch) as [[_ Hn0]|[H0 _]];
      pose proof (ch_old _ _ _ _ _ _ _ _ Hch) as Ho; simplify_eq. unfold unused in H0. congruence.
Qed.

Lemma write_run s nm n src len :
  afs_wf s -> name_is nm n -> 1 <= len <= 2 ^ 20 ->
  exists r s', afs_write (Some nm) (Some src) len s = Ok (r, s', []) /\ afs_wf s' /\
    (r = len /\ file s' n = Some (map src (seq 0 (Z.to_nat len))) /\
       (forall m, m <> n -> file s' m = file s m) \/
     r = -1 /\ forall m, file s' m = file s m).
Proof.
  intros Hwf Hnm Hlen. destruct (write_run_volume s nm n src len Hwf Hnm Hlen) as (r & s' & E & [_ Hwf'] & H). exists r, s'. naive_solver.
Qed.

Lemma read_run_volume s nm n max :
  afs_wf s -> name_is nm n -> 0 < max ->
  exists s', afs_read (Some nm) true max s =
    Ok (match file s n with
        | None => (-1, [])
        | Some c => let e := read_end (Z.of_nat (length c)) max in (e, take (Z.to_nat e) c)
        end, s', []) /\ same_volume s s' /\ afs_wf s' /\ forall m, file s' m = file s m.
Proof.
  intros Hwf Hnm Hmax. pose proof Hwf as (Hs & _). unfold afs_read.
  rewrite (bind_ok get _ s s s) by done. assert (Hm : mounted s = true) by apply Hs. rewrite Hm.
  rewrite (proj2 (Z.eqb_neq max 0)) by lia. cbn [negb orb].
  rewrite (bind_ok _ _ _ _ _ (dir_load_run s Hs)). cbn [negb]. cbv iota.
  set (s0 := set_diobuf (dir s) s).
  pose proof (find_slot_run s0 nm n false Hnm (wf_terminated s Hwf)) as Hfind.
  change (diobuf s0) with (dir s) in Hfind.
  destruct (file s n) as [c|] eqn:Hf.
  - destruct (file_entry s n c Hwf Hf) as (i & e & Hfd & Hi & Hu & -> & Hsz & Hst & Htot).
    rewrite Hfd in Hfind. rewrite (bind_ok _ _ _ _ _ Hfind). rewrite (bind_ok get _ s0 s0 s0) by done.
    change (diobuf s0) with (dir s). rewrite Hi, bind_some.
    assert (Hcl : Z.of_nat (length (contents s e)) = dsize e).
    { unfold contents. rewrite length_map, length_seq. lia. }
    cbv zeta. rewrite Hcl.
    destruct (read_loop_run (start_lba e) (dsize e) max (Z.to_nat (dsize e / 4096) + 2) 0 s0)
      as (b & E & Hb1 & Hb2); [done|lia|lia|done|lia|unfold read_end; zlia|by left|zlia|lia|].
    rewrite E. exists (set_iobuf b s0). split.
    { do 3 f_equal. f_equal. unfold contents. rewrite firstn_map, take_seq.
      rewrite Z.sub_0_r. f_equal. f_equal. unfold read_end. lia. }
    split; [done|]. apply wf_cache; try done. split_and!; try done. by apply (shape_write s0 (dev s) b).
  - unfold file in Hf. destruct (list_find (named n) (dir s)) as [[i e]|]; [done|].
    rewrite (bind_ok _ _ _ _ _ Hfind). exists s0. split; [done|]. split; [done|]. by apply wf_cache.
Qed.

Lemma read_run s nm n max :
  afs_wf s -> name_is nm n -> 0 < max ->
  exists s', afs_read (Some nm) true max s =
    Ok (match file s n with
        | None => (-1, [])
        | Some c => let e := read_end (Z.of_nat (length c)) max in (e, take (Z.to_nat e) c)
        end, s', []) /\ afs_wf s' /\ forall m, file s' m = file s m.
Proof.
  intros Hwf Hnm Hmax. destruct (read_run_volume s nm n max Hwf Hnm Hmax) as (s' & E & _ & H). by exists s'.
Qed.

Lemma add_free_run s st cnt :
  shape s -> 2 <= st -> 1 <= cnt ->
  exists r s1, add_to_free_list st cnt s = Ok (r, s1, []) /\ same_disk s s1 /\
    diobuf s1 = diobuf s /\ next_free_lba s1 = next_free_lba s /\
    (free s1 = free s \/ free s1 = free s ++ [(st, cnt)]).
Proof.
  intros Hs Hst Hcnt. pose proof Hs as (H1&H2&H3&H4&H5&H6&H7&H8&H9).
  unfold add_to_free_list, AFS_MAX_FREE_EXTENTS. rewrite (bind_ok get _ s s s) by done.
  destruct (free_extent_count s >=? 32) eqn:E; bool_hyps.
  { exists (-1), s. split; [done|]. split; [done|]. auto. }
  rewrite aset_in by lia. rewrite bind_some.
  set (s1 := set_free _ _ s). exists 0, s1. split; [done|].
  assert (Hf : free s1 = free s ++ [(st, cnt)]).
  { unfold free, s1. simpl. replace (Z.to_nat (free_extent_count s + 1)) with (S (Z.to_nat (free_extent_count s))) by lia.
    rewrite (take_S_r _ _ (st, cnt)) by (apply list_lookup_insert_eq; lia).
    by rewrite take_insert_ge by lia. }
  split; [|auto]. split_and!; try done. unfold shape. rewrite Hf. unfold s1. simpl.
  split_and!; try done; try lia; [by rewrite length_insert|]. apply Forall_app. split; [done|].
  by repeat constructor.
Qed.

Lemma delete_run s nm n :
  afs_wf s -> name_is nm n ->
  exists r s', afs_delete nm s = Ok (r, s', []) /\ afs_wf s' /\
    (r = 0 /\ is_Some (file s n) /\ file s' n = None \/ r = -1 /\ file s n = None) /\
    forall m, m <> n -> file s' m = file s m.
Proof.
  intros Hwf Hnm. pose proof Hwf as (Hs & (Hdl & Hdok & Huok & Huniq) & Hnd & Hall). unfold afs_delete.
  rewrite (bind_ok get _ s s s) by done. assert (Hm : mounted s = true) by apply Hs. rewrite Hm.
  cbn [negb]. rewrite (bind_ok _ _ _ _ _ (dir_load_run s Hs)). cbn [negb]. cbv iota.
  set (s0 := set_diobuf (dir s) s).
  pose proof (find_slot_run s0 nm n false Hnm (wf_terminated s Hwf)) as Hfind.
  change (diobuf s0) with (dir s) in Hfind.
  destruct (file s n) as [c|] eqn:Hf.
  2: { unfold file in Hf. destruct (list_find (named n) (dir s)) as [[i e]|]; [done|].
       rewrite (bind_ok _ _ _ _ _ Hfind). exists (-1), s0.
       destruct (wf_cache s s0 Hwf) as [H1 H2]; [done..|]. split_and!; auto. }
  destruct (file_entry s n c Hwf Hf) as (i & e & Hfd & Hi & Hu & _ & Hsz & Hst & Htot).
  rewrite Hfd in Hfind. rewrite (bind_ok _ _ _ _ _ Hfind). rewrite (bind_ok get _ s0 s0 s0) by done.
  change (diobuf s0) with (dir s). rewrite Hi, bind_some.
  pose proof (sector_count (dsize e) ltac:(lia)) as Hcnt. pose proof (sectors_of_small (dsize e) ltac:(lia)) as Hso.
  rewrite Hu, Hso. rewrite Z.gtb_ltb, (proj2 (Z.ltb_lt 0 _)) by lia. cbn [andb].
  set (N := (dsize e + 511) / 512) in *.
  destruct (add_free_run s0 (start_lba e) N) as (r & s1 & Ea & Hsd & Hdio & Hnx & Hfr); [done|lia|lia|].
  rewrite (bind_ok _ _ s0 tt s1) by (by rewrite (bind_ok _ _ _ _ _ Ea)).
  set (d2 := <[i := empty_dirent]> (dir s)). set (s2 := set_diobuf d2 s1).
  rewrite (bind_ok (upd_dirent i _) _ s1 tt s2)
    by (unfold upd_dirent, bind, get, put; rewrite Hdio; simpl; by rewrite Hi).
  destruct Hsd as (Hs1 & Hdev & Hbase & Htot1). change (afs_base s0) with (afs_base s) in Hbase.
  assert (Hd2ok : length d2 = 16%nat /\ Forall dirent_ok d2).
  { split; [unfold d2; by rewrite length_insert|]. by apply Forall_insert. }
  destruct Hd2ok as [Hd2l Hd2ok].
  destruct (dir_flush_run s2 d2) as (d3 & Ef & Hs3 & Hdir3 & _ & Hfr3); [done|done|done|done|].
  rewrite Ef. exists 0, (set_dev d3 s2). split; [done|].
  assert (Hd2 : forall j x, d2 !! j = Some x -> in_use x = true -> j <> i /\ dir s !! j = Some x).
  { intros j x [[-> ->]|?]%list_insert_cases Hx; [done|naive_solver]. }
  assert (Hb3 : afs_base (set_dev d3 s2) = afs_base s) by apply Hbase.
  split; [|split].
  - split; [done|]. rewrite Hdir3. split.
    + split_and!; [done|done|by apply Forall_insert|].
      intros j k x y Hj Hk Hux Huy. apply Hd2 in Hj as [_ Hj]; [|done]. apply Hd2 in Hk as [_ Hk]; [|done].
      by apply (Huniq j k x y).
    + assert (Hsub : dsecs d2 ++ fsecs (free s1) ⊆+ dsecs (dir s) ++ fsecs (free s)).
      { unfold d2. rewrite dsecs_insert by (by eapply lookup_lt_Some). rewrite (dsecs_split _ _ _ Hi).
        unfold esecs at 1 2. rewrite Hu, Hso. simpl.
        set (A := dsecs (take i (dir s))). set (B := dsecs (drop (S i) (dir s))).
        rewrite <- !app_assoc. apply submseteq_skips_l.
        destruct Hfr as [->| ->]; [by apply submseteq_inserts_l|].
        rewrite fsecs_app. unfold fsecs at 2. simpl. rewrite app_nil_r.
        rewrite (Permutation_app_comm (seqZ _ _)), <- app_assoc. done. }
      split; [by eapply NoDup_sub|]. apply Forall_forall. intros x Hx.
      rewrite Forall_forall in Hall. change (next_free_lba (set_dev d3 s2)) with (next_free_lba s1).
      rewrite Hnx. apply Hall. by eapply elem_of_submseteq.
  - left. split; [done|]. split; [done|]. unfold file. rewrite Hdir3.
    enough (list_find (named n) d2 = None) as ->; [done|]. apply list_find_None, Forall_forall.
    intros x [j Hj]%list_elem_of_lookup [Hux Hxn]. apply Hd2 in Hj as [Hne Hj]; [|done].
    apply Hne. apply list_find_Some in Hfd as (_ & [_ Hen] & _). apply (Huniq j i x e); congruence.
  - intros m Hmn. unfold file. rewrite Hdir3. unfold d2.
    rewrite (list_find_insert_other _ _ i e); [|done| |by intros [? _]].
    + destruct (list_find (named m) (dir s)) as [[j x]|] eqn:Hfm; [|done]. simpl. f_equal.
      apply list_find_Some in Hfm as (Hj & [Hux _] & _). unfold contents. rewrite Hb3.
      apply map_ext. intros k. unfold fbyte. f_equal. simpl dev.
      destruct (entry_bounds s j x Hwf Hj Hux) as (_ & Hst' & _).
      rewrite Hfr3 by (change (afs_base s2) with (afs_base s1); lia).
      change (dev s2) with (dev s1). by rewrite Hdev.
    + intros [_ He]. apply list_find_Some in Hfd as (_ & [_ Hen] & _). congruence.
Qed.
End Effects.

(** C1: a successful [afs_write] of 1 to 2^20 bytes under a name of at most 23
    characters makes the file hold exactly those bytes and leaves every other
    file as it was; it fails only when the directory or the disk is full, and
    then no file changes.  In both cases the file system stays well formed: the
    extents of files and free list are disjoint and inside the data area. *)
Theorem afs_write_effect {D} `{!BlockDevice D} (s : afs D) nm n src len
  (Hwf : afs_wf s) (Hnm : name_is nm n) (Hlen : 1 <= len <= 2 ^ 20) :
  exists r s', afs_write (Some nm) (Some src) len s = Ok (r, s', []) /\ afs_wf s' /\
    (r = len /\ file s' n = Some (map src (seq 0 (Z.to_nat len))) /\
       (forall m, m <> n -> file s' m = file s m) \/
     r = -1 /\ forall m, file s' m = file s m).
Proof. by apply write_run. Qed.

(** C2: what is written is read back: after a successful write, [afs_read] with a
    buffer of at least the file's size returns the length and the very bytes
    written. *)
Theorem afs_write_read_roundtrip {D} `{!BlockDevice D} (s s' : afs D) nm n src len max o
  (Hwf : afs_wf s) (Hnm : name_is nm n) (Hlen : 1 <= len <= 2 ^ 20) (Hmax : len <= max)
  (Hw : afs_write (Some nm) (Some src) len s = Ok (len, s', o)) :
  exists s'', afs_read (Some nm) true max s' = Ok ((len, map src (seq 0 (Z.to_nat len))), s'', []).
Proof.
  destruct (write_run s nm n src len Hwf Hnm Hlen) as (r & s1 & E & Hwf1 & Hr).
  assert (r = len /\ s1 = s') as [-> ->] by (split; congruence).
  destruct Hr as [(_ & Hf & _)|[? _]]; [|lia].
  destruct (read_run s' nm n max Hwf1 Hnm) as (s2 & Er & _); [lia|]. exists s2. rewrite Er, Hf. cbv zeta.
  rewrite length_map, length_seq. assert (Hre : read_end (Z.of_nat (Z.to_nat len)) max = len).
  { unfold read_end. rewrite Z2Nat.id by lia. zlia. }
  rewrite Hre, take_ge by (rewrite length_map, length_seq; lia). done.
Qed.



(** ** Formatting *)

Section Format.
Context {D : Type} `{!BlockDevice D}.
Implicit Types s : afs D.

Lemma wr_sectors_raw s lba n bs :
  0 <= afs_base s -> 0 <= lba -> 0 <= n -> afs_base s + lba + n <= sectors (dev s) ->
  length bs = Z.to_nat (512 * n) ->
  exists d', wr_sectors lba bs s = Ok (0, set_dev d' s, []) /\ sectors d' = sectors (dev s) /\
    forall i, sector d' i =
      if (afs_base s + lba <=? i) && (i <? afs_base s + lba + n)
      then take 512 (drop (Z.to_nat (512 * (i - (afs_base s + lba)))) bs) else sector (dev s) i.
Proof.
  intros Hb Hl Hn Ht Hbs. destruct (capacity_sectors (dev s)) as [_ Hc]. unfold wr_sectors.
  rewrite (bind_ok get _ s s s) by done. rewrite u32_small by lia.
  destruct (vblk_write_law (dev s) (afs_base s + lba) n bs) as (d' & E & Hd & Hsec); [lia|lia|done|].
  rewrite (proj2 (Z.leb_le _ _)) in E, Hsec by lia. exists d'.
  split; [|done]. by rewrite (zoom_ok _ _ _ _ _ _ _ E).
Qed.

Lemma empty_dir_wf : dir_wf (replicate 16 empty_dirent) /\
  layout (replicate 16 empty_dirent) [] 2 /\ forall n, list_find (named n) (replicate 16 empty_dirent) = None.
Proof.
  split; [split_and!|split].
  - done.
  - by apply Forall_replicate.
  - by apply Forall_replicate.
  - intros i j e e' [-> _]%lookup_replicate_1. done.
  - split; [constructor|constructor].
  - intros n. apply list_find_None. apply Forall_replicate. by intros [? _].
Qed.

(** The superblock on the disk describes the volume that is mounted. *)
Definition volume (s : afs D) : Prop :=
  take 16 (sector (dev s) (afs_base s + AFS_SB_LBA)) = sb_bytes AFS_MAGIC 1 (total_sectors s) 2.

Lemma format_run_volume s :
  3 <= sectors (dev s) -> afs_base s = 0 -> free_extent_count s = 0 -> length (free_extents s) = 32%nat ->
  exists s' o, afs_format s = Ok (0, s', o) /\ (volume s' /\ afs_base s' = 0) /\ afs_wf s' /\ forall n, file s' n = None.
Proof.
  intros Hsec Hbase Hfc Hfl. destruct (capacity_sectors (dev s)) as [Hcap Hcr].
  unfold afs_format. rewrite (bind_ok get _ s s s) by done. rewrite (proj2 (Z.eqb_neq (vblk_capacity (dev s)) 0)) by lia.
  assert (Htot : u32 (vblk_capacity (dev s) / SECT) = sectors (dev s)).
  { rewrite Hcap. unfold SECT. rewrite u32_small; zlia. }
  rewrite Htot. change (AFS_SB_LBA + 1 + AFS_DIR_LBAS) with 2. cbv zeta.
  set (sb := sb_bytes AFS_MAGIC 1 (sectors (dev s)) 2).
  assert (Hsb : length sb = 16%nat) by (unfold sb, sb_bytes; by rewrite !length_app, !le_bytes_length).
  destruct (stage_run (replicate 4 (replicate 4096 0)) 0 sb) as (old & b & Est & Hb0 & Hold & Hb1 & Hb2);
    [done|by apply Forall_replicate|lia|lia|].
  rewrite Est, bind_some. rewrite (bind_ok (put _) _ s tt (set_iobuf b s)) by done.
  rewrite Hb0, bind_some. set (s1 := set_iobuf b s).
  destruct (wr_sectors_raw s1 AFS_SB_LBA 1 (take 512 (sb ++ drop (length sb) old))) as (d1 & E1 & Hd1 & Hs1).
  { simpl. lia. } { done. } { lia. } { simpl. unfold AFS_SB_LBA. lia. }
  { rewrite length_take, length_app, length_drop. lia. }
  rewrite (bind_ok _ _ _ _ _ E1). change (negb (0 =? 0)) with false. cbv iota.
  set (d2 := replicate AFS_MAX_FILES empty_dirent). set (s2 := set_diobuf d2 (set_dev d1 s1)).
  rewrite (bind_ok (modify _) _ _ tt s2) by done. destruct empty_dir_wf as (Hdw & Hlay & Hnone).
  assert (Hdl : length (dir_bytes d2) = 512%nat) by (rewrite dir_bytes_length; [done|by apply Forall_replicate]).
  destruct (wr_sectors_raw s2 AFS_DIR_LBA 1 (dir_bytes d2)) as (d3 & E3 & Hd3 & Hs3).
  { simpl. lia. } { done. } { lia. } { simpl. unfold AFS_DIR_LBA. rewrite Hd1. simpl. lia. } { done. }
  rewrite (bind_ok dir_flush _ s2 0 (set_dev d3 s2)).
  2: { unfold dir_flush. rewrite (bind_ok get _ s2 s2 s2) by done. exact E3. }
  change (negb (0 =? 0)) with false. cbv iota.
  set (s4 := set_mounted (sectors (dev s)) 2 (set_dev d3 s2)).
  rewrite (bind_ok (modify _) _ _ tt s4) by done. exists s4. eexists. split; [reflexivity|].
  assert (Hdir : dir s4 = d2).
  { unfold dir, AFS_DIR_LBA. simpl dev. simpl afs_base. rewrite Hs3. simpl afs_base. unfold AFS_DIR_LBA.
    rewrite (proj2 (Z.leb_le _ _)), (proj2 (Z.ltb_lt _ _)) by lia. cbn [andb].
    rewrite Z.sub_diag. change (Z.to_nat (512 * 0)) with 0%nat. rewrite drop_0, take_ge by lia.
    change AFS_MAX_FILES with (length d2). apply dir_roundtrip. by apply Forall_replicate. }
  assert (Hfree : free s4 = []) by (unfold free; simpl; by rewrite Hfc).
  split.
  { split; [|exact Hbase]. unfold volume. simpl dev. simpl afs_base. simpl total_sectors. rewrite Hs3. simpl afs_base. simpl dev.
    unfold AFS_SB_LBA, AFS_DIR_LBA in *. rewrite Hbase in *. rewrite Hs1. simpl afs_base. rewrite Hbase.
    change ((0 + 1 <=? 0 + 0) && (0 + 0 <? 0 + 1 + 1)) with false. change ((0 + 0 <=? 0 + 0) && (0 + 0 <? 0 + 0 + 1)) with true.
    cbv iota. change (Z.to_nat (512 * (0 + 0 - (0 + 0)))) with 0%nat. rewrite drop_0, !take_take.
    change (Nat.min 16 (Nat.min 512 512)) with 16%nat. rewrite take_app_le, take_ge by lia. reflexivity. }
  split; [split; [|split]|].
  - unfold shape. rewrite Hfree. simpl. rewrite Hbase, Hd3. simpl. rewrite Hd1. simpl. rewrite Hfc.
    split_and!; try done; lia.
  - by rewrite Hdir.
  - rewrite Hdir, Hfree. done.
  - intros n. unfold file. rewrite Hdir. by rewrite Hnone.
Qed.
Lemma format_run s :
  3 <= sectors (dev s) -> afs_base s = 0 -> free_extent_count s = 0 -> length (free_extents s) = 32%nat ->
  exists s' o, afs_format s = Ok (0, s', o) /\ afs_wf s' /\ forall n, file s' n = None.
Proof.
  intros H1 H2 H3 H4. destruct (format_run_volume s H1 H2 H3 H4) as (s' & o & E & _ & H). by exists s', o.
Qed.
End Format.

(** formatting a device of at least three sectors (base 0, empty free list)
    succeeds and gives a well-formed file system without files. *)
Theorem afs_format_empty {D} `{!BlockDevice D} (s : afs D)
  (Hdev : 3 <= sectors (dev s)) (Hbase : afs_base s = 0)
  (Hfree : free_extent_count s = 0 /\ length (free_extents s) = 32%nat) :
  exists s' o, afs_format s = Ok (0, s', o) /\ afs_wf s' /\ forall n, file s' n = None.
Proof. destruct Hfree. by apply format_run. Qed.

(** ** A RAM disk *)

Record ramdisk := mk_ramdisk { rd_n : Z; rd_img : Z -> list Z }.
Definition rd_sectors_of (d : ramdisk) : Z := Z.max 0 (Z.min (rd_n d) (2 ^ 31 - 1)).
Definition rd_sector (d : ramdisk) (i : Z) : list Z := take 512 (rd_img d i ++ replicate 512 0).
Definition rd_read (lba n : Z) : M ramdisk (Z * list Z) :=
  let* d := get in
  ret (if lba + n <=? rd_sectors_of d then (0, concat (rd_sector d <$> seqZ lba n)) else (-1, [])).
Definition rd_write (lba : Z) (bs : list Z) : M ramdisk Z :=
  let* d := get in
  let n := Z.of_nat (length bs) / 512 in
  if lba + n <=? rd_sectors_of d then
    put (mk_ramdisk (rd_n d) (fun i => if (lba <=? i) && (i <? lba + n)
           then take 512 (drop (Z.to_nat (512 * (i - lba))) bs) else rd_img d i)) ;;;
    ret 0
  else ret (-1).

#[export, refine] Instance ramdisk_device : BlockDevice ramdisk :=
  {| vblk_capacity := fun d => 512 * rd_sectors_of d; vblk_read := rd_read; vblk_write := rd_write;
     sectors := rd_sectors_of; sector := rd_sector |}.
Proof.
  - intros d i. unfold rd_sector. rewrite length_take, length_app, length_replicate. lia.
  - intros d. split; [done|]. unfold rd_sectors_of. lia.
  - intros d lba n _ _. done.
  - intros d lba n bs Hl Hn Hbs. unfold rd_write, bind, get, put, ret.
    assert (Z.of_nat (length bs) / 512 = n) as -> by (rewrite Hbs; zlia).
    destruct (lba + n <=? rd_sectors_of d) eqn:E; eexists; (split; [reflexivity|]); (split; [done|]).
    + intros i. cbn [andb]. unfold rd_sector at 1. simpl.
      destruct ((lba <=? i) && (i <? lba + n)) eqn:Ei; [|done]. bool_hyps.
      assert (Hlen : length (take 512 (drop (Z.to_nat (512 * (i - lba))) bs)) = 512%nat)
        by (rewrite length_take, length_drop; lia).
      rewrite take_app_le by lia. by rewrite take_ge by lia.
    + intros i. by cbn [andb].
Defined.

Definition blank_fs (n : Z) : afs ramdisk :=
  mk_afs (mk_ramdisk n (fun _ => replicate 512 0)) false 0 0 0 0 (replicate 32 (0, 0)) 0
    (replicate 4 (replicate 4096 0)) (replicate 16 empty_dirent).

Lemma blank_format n : 3 <= n < 2 ^ 31 ->
  exists s o, afs_format (blank_fs n) = Ok (0, s, o) /\ afs_wf s /\ forall m, file s m = None.
Proof. intros Hn. apply format_run; simpl; try done. unfold rd_sectors_of. simpl. lia. Qed.

Definition str (x : string) : view := literal (bytes x) (fun _ => 0).
Lemma boot_name : name_is (str "boot.cfg") (bytes "boot.cfg").
Proof. split; [reflexivity|simpl; lia]. Qed.

Lemma afs_format_empty_witness : exists s o, afs_format (blank_fs 64) = Ok (0, s, o).
Proof.
  destruct (afs_format_empty (blank_fs 64)) as (s & o & E & _);
    [by vm_compute|reflexivity|split; reflexivity|]. exists s, o. exact E.
Defined.

Lemma afs_write_effect_witness :
  exists s o r s', afs_format (blank_fs 64) = Ok (0, s, o) /\
    afs_write (Some (str "boot.cfg")) (Some (fun i => Z.of_nat i mod 256)) 1000 s = Ok (r, s', []).
Proof.
  destruct (blank_format 64 ltac:(lia)) as (s & o & E & Hwf & _).
  destruct (afs_write_effect s _ _ (fun i => Z.of_nat i mod 256) 1000 Hwf boot_name) as (r & s' & Ew & _); [lia|].
  exists s, o, r, s'. exact (conj E Ew).
Defined.

(** The first file fits on a fresh 64-sector disk. *)
Definition fs_of (r : res (Z * afs ramdisk * list Z)) : afs ramdisk :=
  match r with Ok (_, s, _) => s | _ => blank_fs 64 end.
Definition fmt : afs ramdisk := fs_of (afs_format (blank_fs 64)).
Lemma fmt_wf : afs_wf fmt.
Proof. destruct (blank_format 64 ltac:(lia)) as (s & o & E & Hwf & _). unfold fmt. by rewrite E. Qed.
Definition fs1 : afs ramdisk :=
  fs_of (afs_write (Some (str "boot.cfg")) (Some (fun i => Z.of_nat i mod 256)) 5000 fmt).
Definition ret_of (r : res (Z * afs ramdisk * list Z)) : option Z :=
  match r with Ok (x, _, _) => Some x | _ => None end.
Lemma fs1_written :
  ret_of (afs_write (Some (str "boot.cfg")) (Some (fun i => Z.of_nat i mod 256)) 5000 fmt) = Some 5000.
Proof. vm_compute. reflexivity. Qed.

Lemma fs1_run : exists o,
  afs_write (Some (str "boot.cfg")) (Some (fun i => Z.of_nat i mod 256)) 5000 fmt = Ok (5000, fs1, o) /\
  afs_wf fs1 /\ file fs1 (bytes "boot.cfg") = Some (map (fun i => Z.of_nat i mod 256) (seq 0 (Z.to_nat 5000))).
Proof.
  destruct (write_run fmt _ _ (fun i => Z.of_nat i mod 256) 5000 fmt_wf boot_name) as (r & s & E & Hwf & Hr); [lia|].
  assert (Hret : ret_of (Ok (r, s, [])) = Some 5000) by (rewrite <- E; exact fs1_written).
  injection Hret as ->.
  assert (Hfs : fs1 = s) by (exact (f_equal fs_of E)). rewrite Hfs. exists []. split; [done|]. split; [done|]. destruct Hr as [(_ & Hf & _)|[? _]]; [exact Hf|lia].
Qed.

Lemma afs_write_read_roundtrip_witness :
  exists s'', afs_read (Some (str "boot.cfg")) true 8192 fs1 =
    Ok ((5000, map (fun i => Z.of_nat i mod 256) (seq 0 (Z.to_nat 5000))), s'', []).
Proof.
  destruct fs1_run as (o & E & _).
  apply (afs_write_read_roundtrip fmt fs1 _ _ _ 5000 8192 o fmt_wf boot_name); [lia|lia|exact E].
Defined.



(** ** Where the file system goes wrong *)

(** [afs_format] keeps the free list of the old volume: after deleting a file and
    formatting again, the first extent is handed out from the free list and then
    once more by the bump allocator, so that the second file overwrites the
    first. *)
Definition reformat_run : M (afs ramdisk) (Z * list Z) :=
  afs_format ;;; afs_write (Some (str "old")) (Some (fun _ => 1)) 512 ;;; afs_delete (str "old") ;;;
  afs_format ;;; afs_write (Some (str "a")) (Some (fun _ => 65)) 512 ;;;
  afs_write (Some (str "b")) (Some (fun _ => 66)) 512 ;;;
  afs_read (Some (str "a")) true 512.

(** formatting does not reset the free extents: in the run above, reading
    file "a" returns the contents of file "b". *)
Theorem format_double_allocates :
  match reformat_run (blank_fs 64) with
  | Ok ((r, bs), _, _) => r = 512 /\ bs = replicate 512 66
  | _ => False
  end.
Proof. vm_compute. split; reflexivity. Qed.

(** a name of 24 characters can never be stored: the write fails with -1
    although it has allocated the extent and written the data. *)
Theorem long_name_write_fails :
  match afs_write (Some (str "abcdefghijklmnopqrstuvwx")) (Some (fun _ => 65)) 512 fmt with
  | Ok (r, s, _) => r = -1 /\ next_free_lba s = next_free_lba fmt + 1 /\ sector (dev s) 2 = replicate 512 65
  | _ => False
  end.
Proof. vm_compute. split_and!; reflexivity. Qed.
