(* ===== verification/Fp.v ===== *)
(** * Fixed-point arithmetic and the two-layer network (kernel/fp.h, the loops of
    kernel/ai_core.c [ai_decide] and kernel/cmt_core.c [cmt_transform])

    Q16.16 numbers are [int32_t].  Additions of signed integers return [None]
    when they overflow, which C leaves undefined; conversions and right shifts
    wrap, and the left shift of a negative number multiplies, as gcc defines
    them.  Both engines run the same loops over their own weight tables. *)

From S2P Require Import Prelude.

Definition FP_ONE : Z := 65536.

Definition fp_mul (a b : Z) : Z := i32 (Z.shiftr (a * b) 16).

Definition fp_from_ratio (num den : Z) : Z :=
  if den =? 0 then 0 else i32 (Z.quot (Z.shiftl num 16) den).

(** A signed sum, [None] when it does not fit. *)
Definition chk (x : Z) : option Z :=
  if (INT32_MIN <=? x) && (x <=? INT32_MAX) then Some x else None.

Definition fp_softsign (x : Z) : option Z :=
  let abs_x := if x <? 0 then u32 (u32 (- (x + 1)) + 1) else u32 x in
  d ← chk (FP_ONE + i32 abs_x);
  if d =? 0 then None else Some (i32 (Z.quot (Z.shiftl x 16) d)).

Definition fp_clamp (x lo hi : Z) : Z :=
  if x <? lo then lo else if x >? hi then hi else x.

Definition fp_abs (x : Z) : Z :=
  if x =? INT32_MIN then INT32_MAX else if x <? 0 then - x else x.

(** ** The layers *)

(** [for (j = 0; j < n; j++) s += fp_mul(w[j], x[j]);] *)
Fixpoint mac (s : Z) (w x : list Z) : option Z :=
  match w, x with
  | wj :: w', xj :: x' => s' ← chk (s + fp_mul wj xj); mac s' w' x'
  | [], [] => Some s
  | _, _ => None
  end.

(** The hidden activations, one neuron per row of weights. *)
Fixpoint hidden_layer (w : list (list Z)) (b x : list Z) : option (list Z) :=
  match w, b with
  | wi :: w', bi :: b' =>
      s ← mac bi wi x; h ← fp_softsign s; hs ← hidden_layer w' b' x; Some (h :: hs)
  | [], [] => Some []
  | _, _ => None
  end.

(** The output loop: [out] holds the cells written so far, [post] is applied to
    each output before it is compared with the best one. *)
Fixpoint output_loop (post : Z -> Z) (w : list (list Z)) (b h : list Z)
    (out : list Z) (best : Z) : option (list Z * Z) :=
  match w, b with
  | wj :: w', bj :: b' =>
      o ← mac bj wj h;
      let out' := out ++ [post o] in
      ob ← aget out' best;
      let j := Z.of_nat (length out) in
      output_loop post w' b' h out' (if post o >? ob then j else best)
  | [], [] => Some (out, best)
  | _, _ => None
  end.

(** ** Bounds *)

Lemma chk_Some x : INT32_MIN <= x <= INT32_MAX -> chk x = Some x.
Proof. intros. unfold chk. case_match; [done|]. bool_hyps. naive_solver lia. Qed.

(** A product is the real one rounded down, while it fits. *)
Lemma fp_mul_floor a b :
  - 2 ^ 46 <= a * b < 2 ^ 46 ->
  65536 * fp_mul a b <= a * b < 65536 * fp_mul a b + 65536.
Proof.
  intros H. unfold fp_mul. rewrite Z.shiftr_div_pow2 by lia. change (2 ^ 16) with 65536.
  rewrite i32_small; zlia.
Qed.

Lemma fp_mul_bound a b A B :
  Z.abs a <= A -> Z.abs b <= B -> A * B < 2 ^ 46 ->
  Z.abs (fp_mul a b) <= A * B / 65536 + 1.
Proof.
  intros Ha Hb HAB.
  assert (Z.abs (a * b) <= A * B) by (rewrite Z.abs_mul; nia).
  pose proof (fp_mul_floor a b ltac:(lia)). clear Ha Hb.
  generalize dependent (a * b). generalize dependent (A * B). intros. zlia.
Qed.

Lemma fp_from_ratio_unit n d :
  0 <= n <= d -> d < 2 ^ 32 -> 0 <= fp_from_ratio n d <= FP_ONE.
Proof.
  intros Hn Hd. unfold fp_from_ratio. case_match; bool_hyps; [unfold FP_ONE; lia|].
  rewrite Z.shiftl_mul_pow2 by lia. change (2 ^ 16) with 65536.
  rewrite Z.quot_div_nonneg by lia.
  assert (0 <= n * 65536 / d <= FP_ONE).
  { split; [apply Z.div_pos; lia|]. apply Z.div_le_upper_bound; unfold FP_ONE; lia. }
  unfold FP_ONE in *. rewrite i32_small; lia.
Qed.

(** [fp_softsign] is defined while its denominator fits, squashes into
    (-1, 1) and keeps the sign. *)
Lemma fp_softsign_spec x :
  Z.abs x <= INT32_MAX - FP_ONE ->
  exists h, fp_softsign x = Some h /\ Z.abs h <= 65535 /\ (0 <= x -> 0 <= h) /\ (x <= 0 -> h <= 0).
Proof.
  intros Hx. unfold INT32_MAX, FP_ONE in Hx.
  assert (Habs : (if x <? 0 then u32 (u32 (- (x + 1)) + 1) else u32 x) = Z.abs x).
  { case_match; bool_hyps; [rewrite (u32_small (- _)) by lia|]; rewrite u32_small; lia. }
  unfold fp_softsign. cbv zeta. rewrite Habs. clear Habs.
  rewrite i32_small by lia. rewrite chk_Some by (unfold FP_ONE, INT32_MIN, INT32_MAX; lia).
  cbn [mbind option_bind]. case_match eqn:E; bool_hyps; [unfold FP_ONE in E; lia|].
  set (d := FP_ONE + Z.abs x).
  assert (Hq : Z.abs (Z.quot (Z.shiftl x 16) d) <= 65535 /\
    (0 <= x -> 0 <= Z.quot (Z.shiftl x 16) d) /\ (x <= 0 -> Z.quot (Z.shiftl x 16) d <= 0)).
  { rewrite Z.shiftl_mul_pow2 by lia. change (2 ^ 16) with 65536.
    assert (Hd : 0 < d) by (unfold d, FP_ONE; lia).
    assert (Hb : Z.abs (x * 65536) < 65536 * d) by (unfold d, FP_ONE; lia).
    split_and!.
    - rewrite <- Z.quot_abs by lia. rewrite (Z.abs_eq d) by lia.
      assert (Z.quot (Z.abs (x * 65536)) d < 65536); [|lia].
      apply Z.quot_lt_upper_bound; lia.
    - intros. apply Z.quot_pos; lia.
    - intros. rewrite <- (Z.opp_involutive (x * 65536)), Z.quot_opp_l by lia.
      pose proof (Z.quot_pos (- (x * 65536)) d ltac:(lia) Hd). lia. }
  destruct Hq as (Hq & ? & ?). eexists. split; [reflexivity|].
  rewrite i32_small by lia. done.
Qed.

(** The largest magnitude a row of weights can reach on inputs of magnitude at
    most [B], and the check that a table of rows stays within [L]. *)
Definition gain (B : Z) (w : list Z) : Z :=
  foldr (fun wj a => Z.abs wj * B / 65536 + 1 + a) 0 w.
Definition row_ok (n : nat) (B L : Z) (r : list Z * Z) : bool :=
  (length r.1 =? n)%nat && forallb (fun wj => Z.abs wj * B <? 2 ^ 46) r.1 &&
  (Z.abs r.2 + gain B r.1 <=? L).
Definition layer_ok (n : nat) (B L : Z) (w : list (list Z)) (b : list Z) : bool :=
  (length w =? length b)%nat && forallb (row_ok n B L) (zip w b).

Section Layers.
Context (B L : Z) (HB : 0 <= B) (HL : L <= INT32_MAX).

Lemma gain_pos w : 0 <= gain B w.
Proof.
  induction w as [|a w IH]; simpl; [lia|].
  assert (0 <= Z.abs a * B / 65536) by (apply Z.div_pos; nia). lia.
Qed.

Lemma mac_safe w x s :
  length w = length x -> Forall (fun v => Z.abs v <= B) x ->
  forallb (fun wj => Z.abs wj * B <? 2 ^ 46) w = true ->
  Z.abs s + gain B w <= L -> exists r, mac s w x = Some r /\ Z.abs r <= L.
Proof.
  revert x s. induction w as [|a w IH]; intros [|v x] s Hlen Hx Hw Hs;
    simplify_eq/=; [exists s; split; [done|lia]|].
  apply Forall_cons in Hx as [Hv Hx]. apply andb_true_iff in Hw as [Ha Hw]. bool_hyps.
  pose proof (fp_mul_bound a v (Z.abs a) B (Z.le_refl _) Hv Ha) as Hm.
  pose proof (gain_pos w).
  rewrite chk_Some by (unfold INT32_MIN, INT32_MAX in *; lia). cbn [mbind option_bind].
  apply IH; [done..|lia].
Qed.

Lemma row_ok_mac n w b x :
  row_ok n B L (w, b) = true -> length x = n -> Forall (fun v => Z.abs v <= B) x ->
  exists r, mac b w x = Some r /\ Z.abs r <= L.
Proof.
  unfold row_ok. simpl. intros H Hn Hx. bool_hyps. apply mac_safe; [|done..|done].
  match goal with H : (_ =? _)%nat = true |- _ => apply Nat.eqb_eq in H end. lia.
Qed.

(** Every neuron's sum fits and its activation is in (-1, 1). *)
Lemma hidden_layer_safe n w b x :
  layer_ok n B L w b = true -> L <= INT32_MAX - FP_ONE ->
  length x = n -> Forall (fun v => Z.abs v <= B) x ->
  exists hs, hidden_layer w b x = Some hs /\ length hs = length w /\
    Forall (fun h => Z.abs h <= 65535) hs.
Proof.
  unfold layer_ok. intros Hok HL' Hn Hx. apply andb_true_iff in Hok as [Hlen Hrows].
  apply Nat.eqb_eq in Hlen. revert b Hlen Hrows. induction w as [|a w IH];
    intros [|c b] Hlen Hrows; simplify_eq/=; [by exists []|].
  apply andb_true_iff in Hrows as [Hr Hrows].
  destruct (row_ok_mac _ a c x Hr eq_refl Hx) as (r & -> & Hr').
  destruct (fp_softsign_spec r) as (h & Eh & Hh & _); [lia|].
  destruct (IH b ltac:(lia) Hrows) as (hs & Ehs & Hl & Hf).
  cbn [mbind option_bind]. rewrite Eh. cbn [mbind option_bind]. rewrite Ehs.
  exists (h :: hs). split_and!; [done|simpl; lia|by constructor].
Qed.
End Layers.

(** When no sum overflows, a row computes its weighted sum. *)
Fixpoint dot (w x : list Z) : Z :=
  match w, x with wj :: w', xj :: x' => fp_mul wj xj + dot w' x' | _, _ => 0 end.

Lemma mac_dot w x s r : mac s w x = Some r -> r = s + dot w x.
Proof.
  revert x s. induction w as [|a w IH]; intros [|v x] s H; simplify_eq/=; [lia|].
  unfold chk in H. case_match; [|done]. apply IH in H. lia.
Qed.

(** [best] is the first index at which [l] is largest. *)
Definition argmax (l : list Z) (best : Z) : Prop :=
  exists m, aget l best = Some m /\
    (forall j x, aget l j = Some x -> x <= m /\ (j < best -> x < m)).

Lemma argmax_snoc l best x m :
  argmax l best -> aget l best = Some m ->
  argmax (l ++ [x]) (if x >? m then Z.of_nat (length l) else best).
Proof.
  intros (m' & Hm' & Hmax) Hm. assert (m' = m) as -> by congruence.
  assert (Hold : forall j y, aget (l ++ [x]) j = Some y -> j <> Z.of_nat (length l) -> aget l j = Some y).
  { intros j y Hj Hne. apply aget_lt in Hj as Hr. apply aget_Some in Hj as [Hj0 Hj].
    rewrite length_app in Hr. simpl in Hr. apply aget_Some. split; [done|].
    rewrite lookup_app_l in Hj by lia. done. }
  assert (Hlast : aget (l ++ [x]) (Z.of_nat (length l)) = Some x).
  { apply aget_Some. split; [lia|]. rewrite Nat2Z.id. by apply list_lookup_middle. }
  case_match eqn:E; bool_hyps.
  - exists x. split; [done|]. intros j y Hj.
    destruct (decide (j = Z.of_nat (length l))) as [->|Hne].
    + split; [|lia]. assert (y = x) by congruence. lia.
    + destruct (Hmax j y (Hold _ _ Hj Hne)). lia.
  - exists m. split.
    + apply aget_lt in Hm as Hr. apply aget_Some in Hm as [? Hm]. apply aget_Some. split; [done|].
      rewrite lookup_app_l; [done|lia].
    + apply aget_lt in Hm as Hr. intros j y Hj.
      destruct (decide (j = Z.of_nat (length l))) as [->|Hne]; [|eauto].
      assert (y = x) by congruence. lia.
Qed.

(** The output loop computes every output and the first index of the largest. *)
Lemma output_loop_argmax post n B L w b h out best :
  0 <= B -> L <= INT32_MAX -> layer_ok n B L w b = true -> length h = n ->
  Forall (fun v => Z.abs v <= B) h -> (out = [] /\ best = 0 \/ argmax out best) ->
  exists out' best', output_loop post w b h out best = Some (out', best') /\
    length out' = (length out + length w)%nat /\
    (w = [] /\ out' = out /\ best' = best \/ argmax out' best').
Proof.
  unfold layer_ok. intros HB HL Hok Hn Hh Hinv. apply andb_true_iff in Hok as [Hlen Hrows].
  apply Nat.eqb_eq in Hlen. revert b Hlen Hrows out best Hinv. induction w as [|a w IH];
    intros [|c b] Hlen Hrows out best Hinv; simplify_eq/=.
  { exists out, best. split_and!; [done|lia|by left]. }
  apply andb_true_iff in Hrows as [Hr Hrows].
  destruct (row_ok_mac B L HB HL _ a c h Hr eq_refl Hh) as (r & -> & _).
  cbn [mbind option_bind].
  assert (exists ob, aget (out ++ [post r]) best = Some ob /\
    argmax (out ++ [post r]) (if post r >? ob then Z.of_nat (length out) else best))
    as (ob & -> & Harg).
  { destruct Hinv as [[-> ->]|Harg].
    - exists (post r). split; [done|]. replace (post r >? post r) with false.
      2: { symmetry. rewrite Z.gtb_ltb. apply Z.ltb_irrefl. }
      exists (post r). split; [done|]. intros j x Hj. apply aget_lt in Hj as Hl. simpl in Hl.
      assert (j = 0) as -> by lia. assert (x = post r) by (unfold aget in Hj; simpl in Hj; congruence). lia.
    - pose proof Harg as (m & Hm & _). exists m. split; [|by apply argmax_snoc].
      apply aget_lt in Hm as Hl. apply aget_Some in Hm as [? Hm]. apply aget_Some. split; [done|].
      rewrite lookup_app_l; [done|lia]. }
  cbn [mbind option_bind].
  destruct (IH b ltac:(lia) Hrows _ _ (or_intror Harg)) as (out' & best' & -> & Hl & Ho).
  exists out', best'. split_and!; [done|rewrite Hl, length_app; simpl; lia|].
  right. destruct Ho as [(_ & -> & ->)|Ho]; done.
Qed.

(** The outputs are the rows' sums, after [post]. *)
Lemma output_loop_values post w b h out best out' best' :
  output_loop post w b h out best = Some (out', best') ->
  exists rs, out' = out ++ map post rs /\
    Forall2 (fun wb r => mac wb.2 wb.1 h = Some r) (zip w b) rs.
Proof.
  revert b out best. induction w as [|a w IH]; intros [|c b] out best H; simplify_eq/=.
  { exists []. rewrite app_nil_r. by split. }
  apply bind_Some in H as (r & Hr & H). apply bind_Some in H as (ob & _ & H).
  apply IH in H as (rs & -> & Hf). exists (r :: rs). rewrite <- app_assoc. split; [done|].
  by constructor.
Qed.
