(* ===== verification/Learn.v ===== *)
(** * Q-learning (kernel/ai_learn.c)

    The value table, the replay buffer and the update rule, with every array
    access and every signed sum that C could leave undefined made explicit. *)

From S2P Require Import Prelude Uart Fp.

Definition LEARN_STATES : Z := 8.
Definition LEARN_ACTIONS : Z := 3.
Definition LEARN_MEMORY : Z := 32.
Definition LEARN_ALPHA : Z := 1638.
Definition LEARN_GAMMA : Z := 52428.
Definition LEARN_EPSILON : Z := 1638.

Record experience := mk_exp {
  e_state : Z; e_action : Z; e_reward : Z; e_next : Z; e_done : Z }.

Record ai_learn := mk_learn {
  q_table : list (list Z); replay : list experience;
  replay_count : Z; replay_head : Z;
  total_updates : Z; total_reward : Z; episodes : Z; l_enabled : Z }.

Definition set_q (q : list (list Z)) (l : ai_learn) : ai_learn :=
  mk_learn q (replay l) (replay_count l) (replay_head l)
    (total_updates l) (total_reward l) (episodes l) (l_enabled l).

(** The four loops over the table in [ai_learn_init]. *)
Definition initial_q : list (list Z) :=
  let zero := replicate 8 (replicate 3 0) in
  let prior := map (fun _ => [6553; 0; -3276]) zero in
  let rest := imap (fun i row => if (4 <=? i)%nat then <[2%nat := 3276]> row else row) prior in
  imap (fun i row => if (i <? 8 / 3)%nat then <[1%nat := 6553]> row else row) rest.

Definition ai_learn_init : M ai_learn unit :=
  put (mk_learn initial_q (replicate 32 (mk_exp 0 0 0 0 0)) 0 0 0 0 0 1) ;;;
  puts "  AI Learning engine initialized".

Definition ai_learn_get_state (heap_pct page_pct error_count : Z) : Z :=
  let pressure := u32 (heap_pct + page_pct) / 2 in
  let state := u32 (pressure * LEARN_STATES) / 100 in
  let state :=
    if error_count >? 10 then LEARN_STATES - 1
    else if error_count >? 5 then
      (if state <? LEARN_STATES - 2 then state + 2 else state)
    else state in
  u8 (if state >=? LEARN_STATES then LEARN_STATES - 1 else state).

Definition fp_rand (seed : Z) : Z :=
  let seed := u32 (seed * 1103515245 + 12345) in
  Z.land (Z.shiftr seed 16) 0x7FFF.

Definition qget (l : ai_learn) (s a : Z) : option Z := row ← aget (q_table l) s; aget row a.
Definition qset (l : ai_learn) (s a v : Z) : option ai_learn :=
  row ← aget (q_table l) s; row' ← aset row a v; q' ← aset (q_table l) s row'; Some (set_q q' l).

Definition ai_learn_best_action (state : Z) : M ai_learn Z :=
  if state >=? LEARN_STATES then ret 0 else
  let* l := get in
  let* q0 := of_opt (qget l state 0) in
  let* q1 := of_opt (qget l state 1) in
  let* q2 := of_opt (qget l state 2) in
  let '(best, best_val) := if q1 >? q0 then (1, q1) else (0, q0) in
  ret (if q2 >? best_val then 2 else best).

Definition ai_learn_choose_action (state : Z) : M ai_learn Z :=
  let* l := get in
  let r := fp_rand (u32 (total_updates l + replay_count l)) in
  if r <? LEARN_EPSILON then ret (u8 (Z.rem r LEARN_ACTIONS))
  else ai_learn_best_action state.

Definition ai_learn_store (state action reward next_state : Z) : M ai_learn unit :=
  let* l := get in
  let e := mk_exp state action reward next_state
             (if next_state >=? LEARN_STATES - 1 then 1 else 0) in
  let* replay' := of_opt (aset (replay l) (replay_head l) e) in
  put (mk_learn (q_table l) replay'
    (if replay_count l <? LEARN_MEMORY then replay_count l + 1 else replay_count l)
    (u32 (replay_head l + 1) mod LEARN_MEMORY)
    (total_updates l)
    (u32 (total_reward l + u32 (if reward >? 0 then reward else - reward)))
    (episodes l) (l_enabled l)).

(** The largest value of the next state: the loop [for (j = 1; ...)]. *)
Definition max_next (l : ai_learn) (s : Z) : option Z :=
  q0 ← qget l s 0; q1 ← qget l s 1; q2 ← qget l s 2;
  let m := if q1 >? q0 then q1 else q0 in
  Some (if q2 >? m then q2 else m).

(** The body of the sampling loop: one temporal-difference step. *)
Definition td_step (l : ai_learn) (e : experience) : option ai_learn :=
  current_q ← qget l (e_state e) (e_action e);
  mx ← max_next l (e_next e);
  target ← chk (e_reward e + fp_mul LEARN_GAMMA mx);
  delta ← chk (target - current_q);
  q ← chk (current_q + fp_mul LEARN_ALPHA delta);
  let q := if q >? 65536 then 65536 else q in
  let q := if q <? -65536 then -65536 else q in
  qset l (e_state e) (e_action e) q.

Fixpoint update_loop (i : Z) (n : nat) : M ai_learn unit :=
  match n with
  | O => ret tt
  | S n' =>
      let* l := get in
      if replay_count l =? 0 then ub else
      let* e := of_opt (aget (replay l) (u32 (total_updates l + i) mod replay_count l)) in
      let* l' := of_opt (td_step l e) in
      put l' ;;; update_loop (i + 1) n'
  end.

Definition ai_learn_update : M ai_learn unit :=
  let* l := get in
  if (l_enabled l =? 0) || (replay_count l <? 4) then ret tt else
  let samples := if replay_count l <? 8 then replay_count l else 8 in
  update_loop 0 (Z.to_nat samples) ;;;
  modify (fun l => mk_learn (q_table l) (replay l) (replay_count l) (replay_head l)
    (u32 (total_updates l + samples)) (total_reward l) (u32 (episodes l + 1)) (l_enabled l)).

Definition ai_learn_calculate_reward (heap_pct page_pct errors inferences : Z) : Z :=
  let r := 0 in
  let r := if inferences >? 0 then i16 (r + 10) else r in
  let r := if heap_pct <? 50 then i16 (r + 5) else r in
  let r := if page_pct <? 50 then i16 (r + 5) else r in
  let r := if errors >? 0 then i16 (r - i16 (u32 (errors * 20))) else r in
  let r := if heap_pct >? 80 then i16 (r - 15) else r in
  let r := if page_pct >? 80 then i16 (r - 15) else r in
  if heap_pct >? 95 then i16 (r - 50) else r.

Definition ai_learn_set_enabled (b : Z) : M ai_learn unit :=
  modify (fun l => mk_learn (q_table l) (replay l) (replay_count l) (replay_head l)
    (total_updates l) (total_reward l) (episodes l) (if b =? 0 then 0 else 1)).

Definition ai_learn_get_updates : M ai_learn Z := let* l := get in ret (total_updates l).
Definition ai_learn_get_reward : M ai_learn Z := let* l := get in ret (total_reward l).
Definition ai_learn_get_episodes : M ai_learn Z := let* l := get in ret (episodes l).

Definition ai_learn_get_q_value (state action : Z) : M ai_learn Z :=
  if (state >=? LEARN_STATES) || (action >=? LEARN_ACTIONS) then ret 0 else
  let* l := get in of_opt (qget l state action).

Definition action_text (best : Z) : string :=
  if best =? 0 then "SUSTAIN" else if best =? 1 then "BOOST" else "REST".

Fixpoint learn_report_rows (i : Z) (n : nat) : M ai_learn unit :=
  match n with
  | O => ret tt
  | S n' =>
      puts_nolf "    State " ;;; put_dec i ;;; puts_nolf ": " ;;;
      let* best := ai_learn_best_action i in
      puts_nolf (action_text best) ;;; puts_nolf " (Q=" ;;;
      let* l := get in
      let* q := of_opt (qget l i best) in
      put_dec q ;;; puts ")" ;;;
      learn_report_rows (i + 1) n'
  end.

Definition ai_learn_report : M ai_learn unit :=
  let* l := get in
  puts "=== AI Learning Report ===" ;;;
  puts_nolf "  Updates: " ;;; put_dec (total_updates l) ;;;
  puts_nolf "  Episodes: " ;;; put_dec (episodes l) ;;; puts "" ;;;
  puts_nolf "  Total Reward: " ;;; put_dec (total_reward l) ;;;
  puts_nolf "  Replay Buffer: " ;;; put_dec (replay_count l) ;;;
  puts_nolf "/" ;;; put_dec LEARN_MEMORY ;;; puts "" ;;;
  puts_nolf "  Enabled: " ;;; puts (if l_enabled l =? 0 then "no" else "yes") ;;;
  puts "  Q-table (best actions per state):" ;;;
  learn_report_rows 0 8.

(** ** The invariant *)

Definition exp_wf (e : experience) : Prop :=
  0 <= e_state e < LEARN_STATES /\ 0 <= e_action e < LEARN_ACTIONS /\
  - 2 ^ 15 <= e_reward e < 2 ^ 15 /\ 0 <= e_next e < LEARN_STATES.
Definition row_wf (row : list Z) : Prop :=
  length row = 3%nat /\ Forall (fun q => -65536 <= q <= 65536) row.
Definition learn_wf (l : ai_learn) : Prop :=
  length (q_table l) = 8%nat /\ Forall row_wf (q_table l) /\
  length (replay l) = 32%nat /\ Forall exp_wf (replay l) /\
  0 <= replay_count l <= LEARN_MEMORY /\ 0 <= replay_head l < LEARN_MEMORY /\
  0 <= total_updates l < 2 ^ 32.

Section Safety.
Implicit Types l : ai_learn.

Lemma qget_wf l s a :
  learn_wf l -> 0 <= s < LEARN_STATES -> 0 <= a < LEARN_ACTIONS ->
  exists q, qget l s a = Some q /\ -65536 <= q <= 65536.
Proof.
  unfold LEARN_STATES, LEARN_ACTIONS. intros (Hl & Hr & _) Hs Ha.
  destruct (aget_in (q_table l) s) as [row Hrow]; [lia|].
  assert (row_wf row) as [Hlen Hq].
  { apply aget_Some in Hrow as [_ Hrow]. by eapply Forall_lookup_1 in Hr. }
  destruct (aget_in row a) as [q Hqa]; [lia|]. exists q. split.
  - unfold qget. rewrite Hrow. done.
  - apply aget_Some in Hqa as [_ Hqa]. by eapply Forall_lookup_1 in Hq.
Qed.

Lemma qset_wf l s a v :
  learn_wf l -> 0 <= s < LEARN_STATES -> 0 <= a < LEARN_ACTIONS -> -65536 <= v <= 65536 ->
  exists q', qset l s a v = Some (set_q q' l) /\ learn_wf (set_q q' l) /\
    (forall s' a', (s', a') <> (s, a) -> qget (set_q q' l) s' a' = qget l s' a') /\
    qget (set_q q' l) s a = Some v.
Proof.
  unfold LEARN_STATES, LEARN_ACTIONS. intros (Hl & Hr & Hrest) Hs Ha Hv.
  destruct (aget_in (q_table l) s) as [row Hrow]; [lia|].
  assert (row_wf row) as [Hlen Hq].
  { apply aget_Some in Hrow as [_ Hrow']. by eapply Forall_lookup_1 in Hr. }
  exists (<[Z.to_nat s := <[Z.to_nat a := v]> row]> (q_table l)). split_and!.
  - unfold qset. rewrite Hrow. cbn [mbind option_bind]. rewrite aset_in by lia.
    cbn [mbind option_bind]. rewrite aset_in by lia. done.
  - unfold learn_wf, set_q. simpl. split_and!; try apply Hrest.
    + by rewrite length_insert.
    + apply Forall_insert; [done|]. split; [by rewrite length_insert|]. by apply Forall_insert.
  - intros s' a' Hne. unfold qget, set_q. simpl. destruct (decide (s' = s)) as [->|Hs'].
    + rewrite aget_insert, Hrow by lia. cbn [mbind option_bind].
      apply aget_insert_ne; [naive_solver|lia].
    + by rewrite aget_insert_ne by naive_solver lia.
  - unfold qget, set_q. simpl. rewrite aget_insert by lia. cbn [mbind option_bind].
    by rewrite aget_insert by lia.
Qed.

(** One step is defined, keeps the invariant and changes only one value. *)
Lemma td_step_wf l e :
  learn_wf l -> exp_wf e ->
  exists q', td_step l e = Some (set_q q' l) /\ learn_wf (set_q q' l) /\
    (forall s' a', (s', a') <> (e_state e, e_action e) -> qget (set_q q' l) s' a' = qget l s' a').
Proof.
  intros Hl (Hs & Ha & Hr & Hn).
  destruct (qget_wf l _ _ Hl Hs Ha) as (cq & Ecq & Hcq).
  assert (exists m, max_next l (e_next e) = Some m /\ -65536 <= m <= 65536) as (m & Em & Hm).
  { unfold max_next.
    destruct (qget_wf l (e_next e) 0 Hl Hn ltac:(done)) as (q0 & -> & ?).
    destruct (qget_wf l (e_next e) 1 Hl Hn ltac:(done)) as (q1 & -> & ?).
    destruct (qget_wf l (e_next e) 2 Hl Hn ltac:(done)) as (q2 & -> & ?).
    cbn [mbind option_bind]. eexists. split; [reflexivity|]. repeat case_match; lia. }
  pose proof (fp_mul_bound LEARN_GAMMA m 52428 65536 ltac:(done) ltac:(lia) ltac:(done)) as Hg.
  change (52428 * 65536 / 65536) with 52428 in Hg.
  unfold td_step. rewrite Ecq, Em. cbn [mbind option_bind].
  rewrite chk_Some by (unfold INT32_MIN, INT32_MAX; lia). cbn [mbind option_bind].
  rewrite chk_Some by (unfold INT32_MIN, INT32_MAX; lia). cbn [mbind option_bind].
  set (delta := e_reward e + fp_mul LEARN_GAMMA m - cq).
  assert (Hd : Z.abs delta <= 150733) by (unfold delta; lia).
  pose proof (fp_mul_bound LEARN_ALPHA delta 1638 150733 ltac:(done) Hd ltac:(done)) as Hu.
  change (1638 * 150733 / 65536) with 3767 in Hu.
  rewrite chk_Some by (unfold INT32_MIN, INT32_MAX; lia). cbn [mbind option_bind].
  set (v := if _ <? _ then _ else _).
  assert (Hv : -65536 <= v <= 65536) by (unfold v; split_ifs; lia).
  destruct (qset_wf l _ _ v Hl Hs Ha Hv) as (q' & -> & Hw & Ho & _). eauto.
Qed.

Lemma wp_update_loop n i l (Q : unit -> ai_learn -> list Z -> Prop) :
  learn_wf l -> 0 < replay_count l ->
  (forall q', learn_wf (set_q q' l) -> Q tt (set_q q' l) []) ->
  wp (update_loop i n) Q l.
Proof.
  revert i l Q. induction n as [|n IH]; intros i l Q Hl Hc HQ.
  - apply wp_ret. replace l with (set_q (q_table l) l) by by destruct l. apply HQ. by destruct l.
  - cbn [update_loop]. wp_go; bool_hyps; [lia|].
    destruct (aget_in (replay l) (u32 (total_updates l + i) mod replay_count l)) as [e He].
    { destruct Hl as (_ & _ & Hr & _ & Hcnt & _). unfold LEARN_MEMORY in Hcnt.
      pose proof (Z.mod_pos_bound (u32 (total_updates l + i)) (replay_count l) Hc). lia. }
    assert (exp_wf e) as Hwe.
    { apply aget_Some in He as [_ He]. destruct Hl as (_ & _ & _ & Hf & _).
      by eapply Forall_lookup_1 in Hf. }
    destruct (td_step_wf l e Hl Hwe) as (q' & Eq & Hq' & _).
    rewrite He. wp_go. rewrite Eq. wp_go. apply IH; [done..|]. intros q'' Hq''. by apply HQ.
Qed.

Lemma wp_ai_learn_update l (Q : unit -> ai_learn -> list Z -> Prop) :
  learn_wf l -> (forall l', learn_wf l' -> Q tt l' []) -> wp ai_learn_update Q l.
Proof.
  intros Hl HQ. unfold ai_learn_update. wp_go; bool_hyps; [by apply HQ|].
  apply wp_update_loop; [done|lia|]. intros q' Hq'. wp_go. apply HQ.
  destruct Hq' as (? & ? & ? & ? & ? & ? & ?). unfold learn_wf. simpl in *.
  split_and!; try done; try apply u32_range; try lia.
Qed.

Lemma best_action_run l s :
  learn_wf l -> 0 <= s ->
  exists a, ai_learn_best_action s l = Ok (a, l, []) /\ 0 <= a < LEARN_ACTIONS /\
    (s < LEARN_STATES -> exists m, qget l s a = Some m /\
       forall a' q, 0 <= a' < LEARN_ACTIONS -> qget l s a' = Some q -> q <= m).
Proof.
  intros Hl Hs. unfold ai_learn_best_action.
  case_match eqn:E; bool_hyps; [exists 0; split_and!; [done..|unfold LEARN_ACTIONS; lia|lia]|].
  destruct (qget_wf l s 0 Hl ltac:(lia) ltac:(done)) as (q0 & E0 & ?).
  destruct (qget_wf l s 1 Hl ltac:(lia) ltac:(done)) as (q1 & E1 & ?).
  destruct (qget_wf l s 2 Hl ltac:(lia) ltac:(done)) as (q2 & E2 & ?).
  rewrite (bind_ok _ _ _ l l) by done. rewrite E0, E1, E2, !bind_some.
  assert (Hcase : forall a' q, 0 <= a' < LEARN_ACTIONS -> qget l s a' = Some q ->
    q = q0 /\ a' = 0 \/ q = q1 /\ a' = 1 \/ q = q2 /\ a' = 2).
  { unfold LEARN_ACTIONS. intros a' q Ha' Hq.
    assert (a' = 0 \/ a' = 1 \/ a' = 2) as [->|[->| ->]] by lia; naive_solver. }
  destruct (q1 >? q0) eqn:Ea; destruct (q2 >? _) eqn:Eb; bool_hyps; eexists;
    (split; [reflexivity|]); (split; [unfold LEARN_ACTIONS; lia|]); intros _;
    eexists; (split; [eassumption|]); intros a' q Ha' Hq;
    destruct (Hcase a' q Ha' Hq) as [[-> _]|[[-> _]|[-> _]]]; lia.
Qed.

Lemma fp_rand_range s : 0 <= fp_rand s < 2 ^ 15.
Proof.
  unfold fp_rand. change 0x7FFF with (Z.ones 15). rewrite Z.land_ones by lia. zlia.
Qed.

Lemma choose_action_run l s :
  learn_wf l -> 0 <= s ->
  exists a, ai_learn_choose_action s l = Ok (a, l, []) /\ 0 <= a < LEARN_ACTIONS.
Proof.
  intros Hl Hs. unfold ai_learn_choose_action. rewrite (bind_ok _ _ _ l l) by done.
  case_match; bool_hyps.
  - set (r := fp_rand _) in *. pose proof (fp_rand_range (u32 (total_updates l + replay_count l))).
    fold r in H0. eexists. split; [reflexivity|]. unfold LEARN_ACTIONS.
    assert (0 <= Z.rem r 3 < 3) by zlia. rewrite u8_small; lia.
  - destruct (best_action_run l s Hl Hs) as (a & -> & ? & _). eauto.
Qed.

Lemma get_state_range h p e : 0 <= h -> 0 <= p -> 0 <= ai_learn_get_state h p e < LEARN_STATES.
Proof.
  intros. unfold ai_learn_get_state, LEARN_STATES. cbv zeta.
  pose proof (u32_range (u32 (h + p) / 2 * 8)) as Hu. set (x := u32 _) in *.
  assert (0 <= x / 100) by zlia. set (y := x / 100) in *.
  split_ifs; (rewrite u8_small; lia).
Qed.

Lemma reward_range h p e i :
  - 2 ^ 15 <= ai_learn_calculate_reward h p e i < 2 ^ 15.
Proof.
  unfold ai_learn_calculate_reward. cbv zeta.
  repeat match goal with |- context [i16 ?x] =>
    let y := fresh "y" in pose proof (i16_range x); set (y := i16 x) in *; clearbody y end.
  repeat case_match; lia.
Qed.

Lemma learn_store_run l st a r nx :
  learn_wf l -> exp_wf (mk_exp st a r nx 0) ->
  exists l', ai_learn_store st a r nx l = Ok (tt, l', []) /\ learn_wf l' /\
    l_enabled l' = l_enabled l /\
    (exists e, aget (replay l') (replay_head l) = Some e /\
       (e_state e, e_action e, e_reward e, e_next e) = (st, a, r, nx)).
Proof.
  intros (H1 & H2 & H3 & H4 & H5 & H6 & H7) He. unfold ai_learn_store, LEARN_MEMORY in *.
  rewrite (bind_ok _ _ _ l l) by done. rewrite aset_in by lia. rewrite bind_some.
  eexists. split; [reflexivity|]. split; [|split; [done|]].
  - unfold learn_wf, LEARN_MEMORY. simpl.
    split; [done|]. split; [done|]. split; [by rewrite length_insert|]. split.
    { apply Forall_insert; [done|]. exact He. }
    split; [case_match; bool_hyps; lia|]. split; [|done].
    apply Z.mod_pos_bound. lia.
  - simpl. eexists. rewrite aget_insert by lia. done.
Qed.

Lemma learn_init_wf l : exists l' o, ai_learn_init l = Ok (tt, l', o) /\ learn_wf l'.
Proof.
  do 2 eexists. split; [reflexivity|]. unfold learn_wf, LEARN_MEMORY. simpl.
  split_and!; try done; try lia; repeat constructor; unfold exp_wf, LEARN_STATES, LEARN_ACTIONS; simpl; lia.
Qed.
End Safety.
