(* ===== verification/Cmt.v ===== *)
(** * The CMT engine (kernel/cmt_core.c, kernel/cmt_api.c)

    A 6-12-3 network run every fifty ticks, the level derived from its
    activations, and the history of its decisions.  [sensors] are the values
    that [cmt_perceive] reads from the heap, the page allocator and the AI
    engine. *)

From S2P Require Import Prelude Uart Fp.

Definition CMT_INPUTS : Z := 6.
Definition CMT_HIDDEN : Z := 12.
Definition CMT_OUTPUTS : Z := 3.
Definition CMT_PERIOD : Z := 50.
Definition CMT_HIST_LEN : Z := 32.
Definition CMT_MAGIC : Z := 0x434D5430.

Record cmt_input := mk_in { in_p : Z; in_m : Z; in_b : Z; in_s : Z; in_a : Z; in_x : Z }.
Record cmt_experience := mk_cexp { dims : list Z; energy : Z; coherence : Z }.
Record cmt_hist_entry := mk_chist { h_tick : Z; h_action : Z; h_level : Z; h_energy : Z }.

Record cmt_engine := mk_cmt {
  c_magic : Z;
  c_level : Z; c_action : Z; c_inferences : Z; c_errors : Z; c_hz : Z; c_uptime : Z;
  c_disabled : Z; c_verbose : Z;
  c_experience : cmt_experience; c_last_input : cmt_input;
  c_history : list cmt_hist_entry; c_hist_count : Z;
  c_ticks_since : Z; c_ticks_total : Z }.

Record sensors := mk_sensors {
  heap_used : Z; heap_capacity : Z; free_pages : Z; total_pages : Z;
  ai_inferences : Z; ai_errors : Z; ai_action : Z }.

Definition w1 : list (list Z) :=
  [[131072; 32768; 0; 0; 0; 0];
   [-131072; -32768; 0; 0; 0; 0];
   [32768; 131072; 0; 0; 0; 0];
   [0; 0; 131072; 0; 0; 0];
   [0; 0; 0; 131072; 0; 0];
   [0; 0; 0; 0; 131072; 0];
   [0; 0; 0; 0; 0; 131072];
   [32768; 32768; 0; 0; 0; 0];
   [0; 0; 32768; 32768; 0; 0];
   [0; 0; 0; 0; 32768; 32768];
   [-65536; -65536; -65536; 0; 0; 0];
   [0; 0; 0; 0; 0; 0]].
Definition b1 : list Z := [0; 0; -65536; 0; 0; 0; 0; 32768; 0; 0; 32768; 0].
Definition w2 : list (list Z) :=
  [[-16384; -16384; -16384; -16384; -16384; -16384; -16384; 32768; 32768; 32768; 32768; 32768];
   [131072; -131072; 0; 131072; 0; 0; 0; -32768; -32768; 0; -65536; 0];
   [0; 131072; 131072; -131072; -131072; -131072; -131072; 0; 0; -32768; 131072; 0]].
Definition b2 : list Z := [0; 0; 0].

Definition cmt_perceive (s : sensors) (c : cmt_engine) : option cmt_input :=
  let hu := heap_used s in let hc := heap_capacity s in
  let pf := free_pages s in let pt := total_pages s in
  let ph := fp_from_ratio hu hc in
  let pp := fp_from_ratio (u32 (pt - pf)) pt in
  sum ← chk (ph + pp);
  dm ← chk (FP_ONE - fp_from_ratio pf pt);
  db ← chk (fp_from_ratio (c_ticks_since c) CMT_PERIOD - FP_ONE);
  let ai_tot := u32 (ai_inferences s + ai_errors s) in
  Some (mk_in (Z.quot sum 2)
    (fp_clamp dm 0 FP_ONE)
    (fp_clamp db (- (2 * FP_ONE)) (2 * FP_ONE))
    (if ai_tot >? 0 then fp_from_ratio (ai_inferences s) ai_tot else FP_ONE)
    (Z.shiftl (ai_action s) 16)
    (fp_clamp (fp_from_ratio (c_uptime c mod 1000) 1000) 0 FP_ONE)).

(** [te += fp_abs(hidden[i])] over the hidden layer. *)
Fixpoint total_energy (te : Z) (hs : list Z) : option Z :=
  match hs with
  | [] => Some te
  | h :: hs' => te' ← chk (te + fp_abs h); total_energy te' hs'
  end.

Definition cmt_transform (i : cmt_input) : option (Z * cmt_experience) :=
  let inp := [in_p i; in_m i; in_b i; in_s i; in_a i; in_x i] in
  hidden ← hidden_layer w1 b1 inp;
  te ← total_energy 0 hidden;
  '(_, best) ← output_loop id w2 b2 hidden [] 0;
  h0 ← aget hidden 0;
  d ← chk (fp_abs h0 + 1);
  let coh := if te >? 0 then fp_clamp (Z.quot te d) 0 FP_ONE else 0 in
  Some (best, mk_cexp hidden (Z.quot te CMT_HIDDEN) coh).

Definition cmt_derive_level (e : cmt_experience) : Z :=
  if energy e <=? 0 then 0
  else if energy e <? Z.shiftl 1 15 then 1
  else if (energy e <? Z.shiftl 1 16) || (coherence e <? Z.shiftl 1 15) then 2
  else 3.

Definition set_history (hist : list cmt_hist_entry) (n : Z) (c : cmt_engine) : cmt_engine :=
  mk_cmt (c_magic c) (c_level c) (c_action c) (c_inferences c) (c_errors c) (c_hz c)
    (c_uptime c) (c_disabled c) (c_verbose c) (c_experience c) (c_last_input c)
    hist n (c_ticks_since c) (c_ticks_total c).

Definition cmt_record (tick action level en : Z) : M cmt_engine unit :=
  let* c := get in
  if c_hist_count c <? CMT_HIST_LEN then
    let* hist := of_opt (aset (c_history c) (c_hist_count c) (mk_chist tick (u8 action) level en)) in
    put (set_history hist (c_hist_count c + 1) c)
  else ret tt.

(** The three counters at the head of [cmt_on_tick]. *)
Definition count_tick (c : cmt_engine) : cmt_engine :=
  mk_cmt (c_magic c) (c_level c) (c_action c) (c_inferences c) (c_errors c) (c_hz c)
    (u32 (c_uptime c + 1)) (c_disabled c) (c_verbose c) (c_experience c) (c_last_input c)
    (c_history c) (c_hist_count c) (u32 (c_ticks_since c + 1)) (u32 (c_ticks_total c + 1)).
Definition begin_inference (c : cmt_engine) : cmt_engine :=
  mk_cmt (c_magic c) (c_level c) (c_action c) (u32 (c_inferences c + 1)) (c_errors c) (c_hz c)
    (c_uptime c) (c_disabled c) (c_verbose c) (c_experience c) (c_last_input c)
    (c_history c) (c_hist_count c) 0 (c_ticks_total c).
Definition end_inference (i : cmt_input) (act : Z) (e : cmt_experience) (c : cmt_engine) : cmt_engine :=
  mk_cmt (c_magic c) (cmt_derive_level e) (u8 act) (c_inferences c) (c_errors c) (c_hz c)
    (c_uptime c) (c_disabled c) (c_verbose c) e i
    (c_history c) (c_hist_count c) (c_ticks_since c) (c_ticks_total c).

Definition cmt_action_names : list string := ["SUSTAIN"; "BOOST"; "REST"]%string.
Definition cmt_core_action_name (a : Z) : string :=
  if (a >=? 0) && (a <? CMT_OUTPUTS)
  then nth (Z.to_nat a) cmt_action_names "UNKNOWN"%string else "UNKNOWN".

Definition cmt_on_tick (s : sensors) : M cmt_engine unit :=
  let* c := get in
  if negb (c_disabled c =? 0) then ret tt else
  modify count_tick ;;;
  let* c := get in
  if c_ticks_since c <? CMT_PERIOD then ret tt else
  modify begin_inference ;;;
  let* c := get in
  let* i := of_opt (cmt_perceive s c) in
  let* r := of_opt (cmt_transform i) in
  let '(action, e) := r in
  modify (end_inference i action e) ;;;
  let* c := get in
  cmt_record (c_ticks_total c) action (c_level c) (energy (c_experience c)) ;;;
  let* c := get in
  if negb (c_verbose c =? 0) then
    puts_nolf "  CMT: C=" ;;; put_dec (c_level c) ;;;
    puts_nolf " E=" ;;; put_dec (energy (c_experience c)) ;;;
    puts_nolf " A=" ;;;
    let* name := of_opt (aget cmt_action_names action) in
    puts_nolf name ;;;
    puts_nolf " H=" ;;; put_dec (coherence (c_experience c)) ;;; puts ""
  else ret tt.

Definition cmt_force_inference : M cmt_engine unit :=
  modify (fun c =>
    mk_cmt (c_magic c) (c_level c) (c_action c) (c_inferences c) (c_errors c) (c_hz c)
      (c_uptime c) (c_disabled c) (c_verbose c) (c_experience c) (c_last_input c)
      (c_history c) (c_hist_count c) CMT_PERIOD (c_ticks_total c)).

(** ** The interface of cmt_api.c *)

Definition cmt_init : M cmt_engine unit :=
  put (mk_cmt CMT_MAGIC 0 0 0 0 0 0 0 0 (mk_cexp (replicate 12 0) 0 0) (mk_in 0 0 0 0 0 0)
    (replicate 32 (mk_chist 0 0 0 0)) 0 0 0) ;;;
  puts "  CMT engine initialized".

Definition set_flags (dis verb : Z) (c : cmt_engine) : cmt_engine :=
  mk_cmt (c_magic c) (c_level c) (c_action c) (c_inferences c) (c_errors c) (c_hz c)
    (c_uptime c) dis verb (c_experience c) (c_last_input c)
    (c_history c) (c_hist_count c) (c_ticks_since c) (c_ticks_total c).
(** The flag is a [uint8_t]: only the low byte of the argument is kept. *)
Definition cmt_set_verbose (b : Z) : M cmt_engine unit :=
  modify (fun c => set_flags (c_disabled c) (u8 b) c).
Definition cmt_disable : M cmt_engine unit := modify (fun c => set_flags 1 (c_verbose c) c).
Definition cmt_enable : M cmt_engine unit := modify (fun c => set_flags 0 (c_verbose c) c).
Definition cmt_is_healthy (c : cmt_engine) : bool :=
  (c_magic c =? CMT_MAGIC) && (c_disabled c =? 0).
Definition cmt_inference_count (c : cmt_engine) : Z := c_inferences c.
Definition cmt_error_count (c : cmt_engine) : Z := c_errors c.
Definition cmt_last_action (c : cmt_engine) : Z := c_action c.
Definition cmt_current_hz (c : cmt_engine) : Z := c_hz c.
Definition cmt_consciousness_level (c : cmt_engine) : Z := c_level c.
Definition cmt_history_count (c : cmt_engine) : Z := i32 (c_hist_count c).

(** The entry at [idx], or [dflt] when the index is out of the history. *)
Definition history_field (f : cmt_hist_entry -> Z) (dflt idx : Z) : M cmt_engine Z :=
  let* c := get in
  if (idx <? 0) || (idx >=? i32 (c_hist_count c)) then ret dflt else
  let* e := of_opt (aget (c_history c) idx) in ret (f e).
Definition cmt_history_tick : Z -> M cmt_engine Z := history_field h_tick 0.
Definition cmt_history_action : Z -> M cmt_engine Z := history_field h_action (-1).
Definition cmt_history_level : Z -> M cmt_engine Z := history_field h_level (-1).
Definition cmt_history_energy : Z -> M cmt_engine Z := history_field h_energy 0.

Definition cmt_level_names : list string := ["unconscious"; "minimal"; "aware"; "focused"]%string.

Definition cmt_report : M cmt_engine unit :=
  let* c := get in
  puts "=== CMT Engine Report ===" ;;;
  puts_nolf "  Consciousness: Level " ;;; put_dec (c_level c) ;;; puts_nolf " (" ;;;
  let level := if c_level c >=? 4 then 3 else c_level c in
  let* name := of_opt (aget cmt_level_names level) in
  puts_nolf name ;;; puts ")" ;;;
  puts_nolf "  Action: " ;;; puts (cmt_core_action_name (c_action c)) ;;;
  puts_nolf "  Energy: " ;;; put_dec (energy (c_experience c)) ;;;
  puts_nolf "  Coherence: " ;;; put_dec (coherence (c_experience c)) ;;; puts "" ;;;
  puts_nolf "  Inferences: " ;;; put_dec (c_inferences c) ;;;
  puts_nolf "  History: " ;;; put_dec (c_hist_count c) ;;;
  puts_nolf "/" ;;; put_dec CMT_HIST_LEN ;;; puts "" ;;;
  puts_nolf "  Uptime: " ;;; put_dec (c_uptime c) ;;; puts " ticks".

(** ** Bounds *)

Definition sensors_ok (s : sensors) : Prop :=
  0 <= heap_used s <= heap_capacity s /\ heap_capacity s < 2 ^ 32 /\
  0 <= free_pages s <= total_pages s /\ total_pages s < 2 ^ 32 /\
  0 <= ai_inferences s < 2 ^ 31 /\ 0 <= ai_errors s < 2 ^ 31 /\ 0 <= ai_action s < 2 ^ 8.

Definition inputs_of (i : cmt_input) : list Z :=
  [in_p i; in_m i; in_b i; in_s i; in_a i; in_x i].

Lemma clamp_range x lo hi : lo <= hi -> lo <= fp_clamp x lo hi <= hi.
Proof. unfold fp_clamp. split_ifs; lia. Qed.

Lemma perceive_ok s c :
  sensors_ok s -> c_ticks_since c = 0 -> 0 <= c_uptime c < 2 ^ 32 ->
  exists i, cmt_perceive s c = Some i /\ Forall (fun v => Z.abs v <= 2 ^ 24) (inputs_of i).
Proof.
  intros (Hh & Hhc & Hp & Hpt & Hi & He & Ha) Hts Hup. unfold cmt_perceive. rewrite Hts.
  pose proof (fp_from_ratio_unit _ _ Hh Hhc) as Hr1.
  rewrite (u32_small (total_pages s - free_pages s)) by lia.
  pose proof (fp_from_ratio_unit (total_pages s - free_pages s) (total_pages s) ltac:(lia) Hpt) as Hr2.
  pose proof (fp_from_ratio_unit _ _ Hp Hpt) as Hr3. unfold FP_ONE in Hr1, Hr2, Hr3.
  cbv zeta. change (chk (fp_from_ratio 0 CMT_PERIOD - FP_ONE)) with (Some (-65536)).
  rewrite (chk_Some (FP_ONE - _)) by (unfold INT32_MIN, INT32_MAX, FP_ONE; lia).
  rewrite chk_Some by (unfold INT32_MIN, INT32_MAX; lia). cbn [mbind option_bind].
  eexists. split; [reflexivity|]. unfold inputs_of. simpl.
  pose proof (clamp_range (FP_ONE - fp_from_ratio (free_pages s) (total_pages s)) 0 FP_ONE ltac:(done)).
  pose proof (clamp_range (fp_from_ratio (c_uptime c mod 1000) 1000) 0 FP_ONE ltac:(done)).
  unfold FP_ONE in *. repeat apply Forall_cons_2; try apply Forall_nil_2.
  - assert (0 <= Z.quot (fp_from_ratio (heap_used s) (heap_capacity s) +
      fp_from_ratio (total_pages s - free_pages s) (total_pages s)) 2 <= 65536) by zlia. lia.
  - lia.
  - done.
  - rewrite u32_small by lia. case_match; [|done]. bool_hyps.
    pose proof (fp_from_ratio_unit (ai_inferences s) (ai_inferences s + ai_errors s) ltac:(lia) ltac:(lia)).
    unfold FP_ONE in *. lia.
  - rewrite Z.shiftl_mul_pow2 by lia. change (2 ^ 16) with 65536. lia.
  - lia.
Qed.

Lemma total_energy_ok hs te :
  Forall (fun h => Z.abs h <= 65535) hs -> 0 <= te -> te + 65535 * Z.of_nat (length hs) <= INT32_MAX ->
  exists te', total_energy te hs = Some te' /\ te <= te' <= te + 65535 * Z.of_nat (length hs).
Proof.
  intros Hf. revert te. induction Hf as [|h hs Hh _ IH]; intros te H0 Hm.
  { exists te. simpl. split; [done|lia]. }
  assert (0 <= fp_abs h <= 65535) as Ha by (unfold fp_abs, INT32_MIN, INT32_MAX; split_ifs; lia).
  simpl in Hm. cbn [total_energy]. rewrite chk_Some by (unfold INT32_MIN; lia).
  cbn [mbind option_bind]. destruct (IH (te + fp_abs h)) as (te' & -> & ?); [lia..|].
  exists te'. split; [done|]. simpl. lia.
Qed.

(** The network is defined on every input of magnitude up to 2^24 (256.0); it
    picks one of the three actions, and its mean activation stays below 1.0. *)
Lemma transform_ok i :
  Forall (fun v => Z.abs v <= 2 ^ 24) (inputs_of i) ->
  exists best e, cmt_transform i = Some (best, e) /\ 0 <= best < 3 /\
    0 <= energy e < 65536 /\ 0 <= coherence e <= FP_ONE /\ length (dims e) = 12%nat.
Proof.
  intros Hi. unfold cmt_transform. fold (inputs_of i).
  destruct (hidden_layer_safe (2 ^ 24) (2 ^ 30) ltac:(done) ltac:(done) 6 w1 b1 (inputs_of i))
    as (hs & -> & Hl & Hf); [by vm_compute|done|done|done|]. simpl in Hl.
  cbn [mbind option_bind].
  destruct (total_energy_ok hs 0 Hf ltac:(lia)) as (te & -> & Hte).
  { rewrite Hl. done. }
  rewrite Hl in Hte. cbn [mbind option_bind].
  destruct (output_loop_argmax id 12 65535 (2 ^ 30) w2 b2 hs [] 0) as (out & best & -> & Ho & Hb);
    [done|done|by vm_compute|done|done|by left|]. cbn [mbind option_bind].
  destruct Hb as [[? _]|(m & Hm & _)]; [done|]. apply aget_lt in Hm. rewrite Ho in Hm. simpl in Hm.
  destruct (aget_in hs 0) as [h0 Eh0]; [lia|]. rewrite Eh0. cbn [mbind option_bind].
  assert (Z.abs h0 <= 65535) as Hh0.
  { apply aget_Some in Eh0 as [_ Eh0]. by eapply Forall_lookup_1 in Hf. }
  assert (0 <= fp_abs h0 <= 65535) as Ha by (unfold fp_abs, INT32_MIN, INT32_MAX; split_ifs; lia).
  rewrite chk_Some by (unfold INT32_MIN, INT32_MAX; lia). cbn [mbind option_bind].
  do 2 eexists. split; [reflexivity|]. split; [lia|]. simpl. unfold CMT_HIDDEN. split; [zlia|].
  split; [|done]. case_match; [by apply clamp_range|done].
Qed.

Lemma level_at_most_two e : 0 <= energy e < 65536 -> 0 <= cmt_derive_level e <= 2.
Proof.
  intros He. unfold cmt_derive_level. change (Z.shiftl 1 16) with 65536.
  destruct (energy e <? 65536) eqn:E; bool_hyps; [|lia]. simpl. split_ifs; lia.
Qed.

(** ** The engine's invariant *)

Definition cmt_wf (c : cmt_engine) : Prop :=
  0 <= c_level c <= 2 /\ 0 <= c_action c < 3 /\
  length (c_history c) = 32%nat /\ 0 <= c_hist_count c <= 32 /\
  0 <= c_uptime c < 2 ^ 32 /\ 0 <= c_ticks_since c <= CMT_PERIOD.

Lemma wp_cmt_record t a lv en c (Q : unit -> cmt_engine -> list Z -> Prop) :
  length (c_history c) = 32%nat -> 0 <= c_hist_count c <= 32 ->
  (forall h, length h = 32%nat -> Q tt (set_history h (Z.min 32 (c_hist_count c + 1)) c) []) ->
  wp (cmt_record t a lv en) Q c.
Proof.
  intros Hl Hn HQ. unfold cmt_record, CMT_HIST_LEN. wp_go; bool_hyps.
  - specialize (HQ (<[Z.to_nat (c_hist_count c) := mk_chist t (u8 a) lv en]> (c_history c))).
    rewrite Z.min_r in HQ by lia. apply HQ. by rewrite length_insert.
  - specialize (HQ (c_history c) Hl). rewrite Z.min_l in HQ by lia.
    replace (set_history _ 32 c) with c in HQ; [done|]. destruct c. unfold set_history. simpl in *.
    f_equal. lia.
Qed.

(** What [n] ticks since [cmt_init] leave in the counters. *)
Definition cmt_counts (n : Z) (c : cmt_engine) : Prop :=
  c_disabled c = 0 /\ c_ticks_since c = n mod CMT_PERIOD /\ c_inferences c = u32 (n / CMT_PERIOD) /\
  c_uptime c = u32 n /\ c_ticks_total c = u32 n /\ c_hist_count c = Z.min 32 (n / CMT_PERIOD).

Lemma u32_succ n : u32 (u32 n + 1) = u32 (n + 1).
Proof. unfold u32. apply Zplus_mod_idemp_l. Qed.

Lemma div_mod_succ n :
  0 <= n ->
  n mod 50 + 1 < 50 /\ (n + 1) mod 50 = n mod 50 + 1 /\ (n + 1) / 50 = n / 50 \/
  n mod 50 + 1 = 50 /\ (n + 1) mod 50 = 0 /\ (n + 1) / 50 = n / 50 + 1.
Proof. zlia. Qed.

(** A tick keeps the invariant: it has no undefined behaviour, whatever the
    state of the rest of the kernel, and never raises the level above 2. *)
Lemma cmt_tick_wf s c (Q : unit -> cmt_engine -> list Z -> Prop) :
  sensors_ok s -> cmt_wf c ->
  (forall c' o, cmt_wf c' ->
     (forall n, 0 <= n -> cmt_counts n c -> cmt_counts (n + 1) c') -> Q tt c' o) ->
  wp (cmt_on_tick s) Q c.
Proof.
  intros Hs (Hlev & Hact & Hlen & Hcnt & Hup & Hts) HQ. unfold cmt_on_tick, CMT_PERIOD in *.
  wp_go; bool_hyps.
  { apply HQ; [done|]. intros n Hn (? & _). contradiction. }
  { cbn [c_ticks_since count_tick] in E0. apply HQ; simpl.
    - unfold cmt_wf, CMT_PERIOD. simpl.
      pose proof (u32_range (c_uptime c + 1)). pose proof (u32_range (c_ticks_since c + 1)). lia.
    - intros n Hn (H1 & H2 & H3 & H4 & H5 & H6). unfold cmt_counts, CMT_PERIOD in *. simpl.
      rewrite H2, u32_small in E0 by lia. rewrite H4, H5, !u32_succ, H2, (u32_small (_ + 1)) by zlia.
      destruct (div_mod_succ n Hn) as [(? & -> & ->)|(? & _)]; [|lia]. done. }
  cbn [c_ticks_since count_tick] in E0.
  destruct (perceive_ok s (begin_inference (count_tick c)) Hs eq_refl (u32_range _)) as (i & Ei & Hi).
  rewrite Ei. wp_go.
  destruct (transform_ok i Hi) as (best & e & Ee & Hb & Hen & Hco & Hd). rewrite Ee. wp_go.
  pose proof (level_at_most_two e Hen) as Hle.
  assert (exists nm, aget cmt_action_names best = Some nm) as [nm Hnm].
  { apply aget_in. simpl. lia. }
  apply wp_cmt_record; [done..|]. intros h Hh.
  set (c' := set_history h _ _).
  assert (Hwf : cmt_wf c').
  { unfold cmt_wf, CMT_PERIOD, c'. simpl. pose proof (u32_range (c_uptime c + 1)).
    rewrite u8_small by lia. lia. }
  assert (Hct : forall n, 0 <= n -> cmt_counts n c -> cmt_counts (n + 1) c').
  { intros n Hn (H1 & H2 & H3 & H4 & H5 & H6). unfold cmt_counts, CMT_PERIOD, c' in *. simpl.
    rewrite H2, u32_small in E0 by zlia. rewrite H3, H4, H5, H6, !u32_succ.
    destruct (div_mod_succ n Hn) as [(? & _)|(? & -> & ->)]; [lia|].
    split_and!; try done. lia. }
  rewrite Hnm. wp_auto; by apply HQ.
Qed.

Lemma cmt_init_wf c : exists c' o, cmt_init c = Ok (tt, c', o) /\ cmt_wf c' /\ cmt_counts 0 c'.
Proof.
  do 2 eexists. split; [reflexivity|]. unfold cmt_wf, cmt_counts, CMT_PERIOD. simpl.
  split_and!; done || lia.
Qed.

Fixpoint run_cmt (ss : list sensors) : M cmt_engine unit :=
  match ss with [] => ret tt | s :: ss' => cmt_on_tick s ;;; run_cmt ss' end.

Lemma run_cmt_wf ss c n (Q : unit -> cmt_engine -> list Z -> Prop) :
  Forall sensors_ok ss -> cmt_wf c -> 0 <= n -> cmt_counts n c ->
  (forall c' o, cmt_wf c' -> cmt_counts (n + Z.of_nat (length ss)) c' -> Q tt c' o) ->
  wp (run_cmt ss) Q c.
Proof.
  intros Hf. revert c n Q. induction Hf as [|s ss Hs _ IH]; intros c n Q Hc H0 Hn HQ.
  - apply wp_ret. apply HQ; [done|]. by rewrite Z.add_0_r.
  - apply wp_bind. apply cmt_tick_wf; [done..|]. intros c1 o1 Hc1 Hn1.
    apply (IH c1 (n + 1)); [done|lia|by apply Hn1|]. intros c2 o2 Hc2 Hn2. apply HQ; [done|].
    replace (n + Z.of_nat (length (s :: ss))) with (n + 1 + Z.of_nat (length ss)); [done|].
    simpl. lia.
Qed.

(** After [cmt_init], any number of ticks run without undefined behaviour,
    whatever the heap, the page allocator and the AI engine report: the network
    is evaluated once every fifty ticks, the history keeps the first thirty-two
    decisions, and the level is at most 2, so the documented level 3 (focus) is
    never reached. *)
Theorem cmt_never_focused ss c (Hss : Forall sensors_ok ss) :
  exists c' o, (cmt_init ;;; run_cmt ss) c = Ok (tt, c', o) /\
    0 <= cmt_consciousness_level c' <= 2 /\ 0 <= cmt_last_action c' < 3 /\
    cmt_inference_count c' = u32 (Z.of_nat (length ss) / CMT_PERIOD) /\
    cmt_history_count c' = Z.min 32 (Z.of_nat (length ss) / CMT_PERIOD).
Proof.
  destruct (cmt_init_wf c) as (c0 & o0 & E0 & Hwf & Hct).
  destruct (wp_run _ _ _ (run_cmt_wf ss c0 0 (fun _ c' _ =>
    cmt_wf c' /\ cmt_counts (0 + Z.of_nat (length ss)) c') Hss Hwf (Z.le_refl 0) Hct
    (fun c' o H1 H2 => conj H1 H2))) as (? & c' & o & E & Hwf' & Hct').
  exists c', (o0 ++ o). split; [unfold bind; rewrite E0, E; by destruct x|].
  destruct Hwf' as (? & ? & _ & Hc & _), Hct' as (_ & _ & Hi & _ & _ & Hh).
  unfold cmt_history_count. rewrite i32_small by lia. done.
Qed.

Definition idle_sensors : sensors := mk_sensors 1024 16777216 30000 32768 0 0 0.
Lemma cmt_never_focused_witness :
  exists c' o, (cmt_init ;;; run_cmt (replicate 100 idle_sensors))
      (mk_cmt 0 0 0 0 0 0 0 0 0 (mk_cexp [] 0 0) (mk_in 0 0 0 0 0 0) [] 0 0 0) = Ok (tt, c', o) /\
    0 <= cmt_consciousness_level c' <= 2 /\ 0 <= cmt_last_action c' < 3 /\
    cmt_inference_count c' = 2 /\ cmt_history_count c' = 2.
Proof.
  apply (cmt_never_focused (replicate 100 idle_sensors)).
  apply Forall_replicate. unfold sensors_ok. simpl. lia.
Defined.
