(* ===== verification/AiDebug.v ===== *)
(** * The self-debugger (kernel/ai_debug.c)

    The issue and fix tables, the scan and the automatic fixes.  Its state is
    the table together with what the fixes act on: the timer and the AI
    engine's disable flag. *)

From S2P Require Import Prelude Uart Tick.

Definition DEBUG_MAX_ISSUES : Z := 16.
Definition DEBUG_MAX_FIXES : Z := 8.

Definition ISSUE_NONE : Z := 0.
Definition ISSUE_MEM_LEAK : Z := 1.
Definition ISSUE_HIGH_ERRORS : Z := 2.
Definition ISSUE_SLOW_PERF : Z := 3.
Definition ISSUE_HUNG_TASK : Z := 4.
Definition ISSUE_STACK_OVERFLOW : Z := 5.
Definition ISSUE_DIV_ZERO : Z := 6.
Definition ISSUE_NULL_PTR : Z := 7.

Definition FIX_NONE : Z := 0.
Definition FIX_RESET_DEVICE : Z := 1.
Definition FIX_CLEAR_MEMORY : Z := 2.
Definition FIX_KILL_TASK : Z := 3.
Definition FIX_RESET_TIMER : Z := 4.
Definition FIX_DISABLE_AI : Z := 5.
Definition FIX_REBOOT : Z := 6.
Definition FIX_ADJUST_HZ : Z := 7.

Record debug_issue := mk_issue {
  i_type : Z; i_severity : Z; i_timestamp : Z; i_count : Z; i_details : list Z }.
Record debug_fix := mk_fix {
  f_issue : Z; f_fix : Z; f_success : Z; f_timestamp : Z; f_details : list Z }.
Record ai_debug := mk_debug {
  issues : list debug_issue; fixes : list debug_fix;
  issue_count : Z; fix_count : Z; scan_count : Z; total_issues : Z; total_fixes : Z;
  d_enabled : Z; auto_fix : Z }.

(** The debugger, the timer and [ai.disabled]. *)
Record dstate := mk_dstate { dbg : ai_debug; d_timer : timer; ai_off : Z }.

Definition on_dbg (f : ai_debug -> ai_debug) (s : dstate) : dstate :=
  mk_dstate (f (dbg s)) (d_timer s) (ai_off s).
Definition in_timer {A} (m : M timer A) : M dstate A :=
  zoom d_timer (fun t s => mk_dstate (dbg s) t (ai_off s)) m.
Definition set_issues (iss : list debug_issue) (d : ai_debug) : ai_debug :=
  mk_debug iss (fixes d) (issue_count d) (fix_count d) (scan_count d) (total_issues d)
    (total_fixes d) (d_enabled d) (auto_fix d).

Definition issue_names : list string :=
  ["none"; "mem_leak"; "high_errors"; "slow_perf";
   "hung_task"; "stack_overflow"; "div_zero"; "null_ptr"]%string.
Definition fix_names : list string :=
  ["none"; "reset_device"; "clear_memory"; "kill_task";
   "reset_timer"; "disable_ai"; "reboot"; "adjust_hz"]%string.

Definition clear_issue (i : debug_issue) : debug_issue := mk_issue ISSUE_NONE 0 0 0 (i_details i).
Definition clear_fix (f : debug_fix) : debug_fix := mk_fix ISSUE_NONE FIX_NONE 0 0 (f_details f).

Definition ai_debug_init : M dstate unit :=
  modify (on_dbg (fun d =>
    mk_debug (map clear_issue (issues d)) (map clear_fix (fixes d)) 0 0 0 0 0 1 1)) ;;;
  puts "  AI Debugger initialized".

(** The first recorded issue of type [t]: the search loop of [add_issue]. *)
Fixpoint find_type (t : Z) (l : list debug_issue) (i : Z) (n : nat) : option Z :=
  match n, l with
  | S n', x :: l' => if i_type x =? t then Some i else find_type t l' (i + 1) n'
  | _, _ => None
  end.

Definition add_issue (ty sev d0 d1 d2 d3 : Z) : M dstate unit :=
  let* s := get in
  let d := dbg s in
  match find_type ty (issues d) 0 (Z.to_nat (issue_count d)) with
  | Some i =>
      let* x := of_opt (aget (issues d) i) in
      let* iss := of_opt (aset (issues d) i
        (mk_issue (i_type x) (i_severity x) (i_timestamp x) (u32 (i_count x + 1)) [d0; d1; d2; d3])) in
      modify (on_dbg (set_issues iss))
  | None =>
      if issue_count d <? DEBUG_MAX_ISSUES then
        let* ts := in_timer timer_get_ticks in
        let* iss := of_opt (aset (issues d) (issue_count d) (mk_issue ty sev (u32 ts) 1 [d0; d1; d2; d3])) in
        modify (on_dbg (fun d => mk_debug iss (fixes d) (issue_count d + 1) (fix_count d) (scan_count d)
          (u32 (total_issues d + 1)) (total_fixes d) (d_enabled d) (auto_fix d)))
      else ret tt
  end.

(** A full table of fixes loses its oldest entry. *)
Definition shift_fixes (d : ai_debug) : ai_debug :=
  if fix_count d >=? DEBUG_MAX_FIXES then
    mk_debug (issues d) (drop 1 (fixes d) ++ drop 7 (fixes d)) (issue_count d) (DEBUG_MAX_FIXES - 1)
      (scan_count d) (total_issues d) (total_fixes d) (d_enabled d) (auto_fix d)
  else d.

Definition add_fix (issue_type fix_type success : Z) : M dstate unit :=
  modify (on_dbg shift_fixes) ;;;
  let* ts := in_timer timer_get_ticks in
  let* s := get in
  let* old := of_opt (aget (fixes (dbg s)) (fix_count (dbg s))) in
  let* fs := of_opt (aset (fixes (dbg s)) (fix_count (dbg s))
    (mk_fix issue_type fix_type success (u32 ts) (f_details old))) in
  modify (on_dbg (fun d => mk_debug (issues d) fs (issue_count d) (fix_count d + 1) (scan_count d)
    (total_issues d) (u32 (total_fixes d + 1)) (d_enabled d) (auto_fix d))).

(** What [ai_debug_scan] reads from the heap, the AI engine and CMT. *)
Record probe := mk_probe {
  p_heap_used : Z; p_heap_cap : Z; p_errors : Z; p_inferences : Z; p_hz : Z;
  p_level : Z; p_cmt_errors : Z }.

Definition check_heap (p : probe) : M dstate unit :=
  let pct := if p_heap_cap p >? 0 then u32 (p_heap_used p * 100) / p_heap_cap p else 0 in
  if pct >? 90 then add_issue ISSUE_MEM_LEAK 2 pct (p_heap_used p) (p_heap_cap p) 0
  else if pct >? 75 then add_issue ISSUE_MEM_LEAK 1 pct (p_heap_used p) (p_heap_cap p) 0
  else ret tt.
Definition check_errors (p : probe) : M dstate unit :=
  if p_inferences p >? 10 then
    let rate := u32 (p_errors p * 100) / p_inferences p in
    if rate >? 20 then add_issue ISSUE_HIGH_ERRORS 2 rate (p_errors p) (p_inferences p) 0
    else if rate >? 10 then add_issue ISSUE_HIGH_ERRORS 1 rate (p_errors p) (p_inferences p) 0
    else ret tt
  else ret tt.
Definition check_rate (p : probe) : M dstate unit :=
  if p_hz p <? 50 then add_issue ISSUE_SLOW_PERF 1 (p_hz p) 0 0 0 else ret tt.
Definition check_level (p : probe) : M dstate unit :=
  if (p_level p =? 0) && (p_inferences p >? 20)
  then add_issue ISSUE_HUNG_TASK 1 (p_level p) (p_cmt_errors p) 0 0 else ret tt.

Definition ai_debug_scan (p : probe) : M dstate unit :=
  let* s := get in
  if d_enabled (dbg s) =? 0 then ret tt else
  modify (on_dbg (fun d => mk_debug (issues d) (fixes d) (issue_count d) (fix_count d)
    (u32 (scan_count d + 1)) (total_issues d) (total_fixes d) (d_enabled d) (auto_fix d))) ;;;
  check_heap p ;;; check_errors p ;;; check_rate p ;;; check_level p.

(** The first issue of the highest severity; 0 when none has a severity. *)
Fixpoint worst (l : list debug_issue) (i : Z) (n : nat) (sev best : Z) : Z :=
  match n, l with
  | S n', x :: l' =>
      if i_severity x >? sev then worst l' (i + 1) n' (i_severity x) i
      else worst l' (i + 1) n' sev best
  | _, _ => best
  end.
Definition find_issue_to_fix (d : ai_debug) : Z :=
  worst (issues d) 0 (Z.to_nat (issue_count d)) 0 0.

Definition determine_fix (t : Z) : Z :=
  if t =? ISSUE_MEM_LEAK then FIX_CLEAR_MEMORY
  else if t =? ISSUE_HIGH_ERRORS then FIX_RESET_TIMER
  else if t =? ISSUE_SLOW_PERF then FIX_ADJUST_HZ
  else if t =? ISSUE_HUNG_TASK then FIX_RESET_TIMER
  else if t =? ISSUE_STACK_OVERFLOW then FIX_KILL_TASK
  else if t =? ISSUE_DIV_ZERO then FIX_DISABLE_AI
  else if t =? ISSUE_NULL_PTR then FIX_REBOOT
  else FIX_NONE.

Definition apply_fix (fix_type : Z) : M dstate Z :=
  if fix_type =? FIX_CLEAR_MEMORY then ret 1
  else if fix_type =? FIX_RESET_TIMER then in_timer (timer_set_hz 100) ;;; ret 1
  else if fix_type =? FIX_ADJUST_HZ then in_timer (timer_set_hz 150) ;;; ret 1
  else if fix_type =? FIX_KILL_TASK then ret 1
  else if fix_type =? FIX_DISABLE_AI then
    modify (fun s => mk_dstate (dbg s) (d_timer s) 1) ;;; ret 1
  else ret 0.

Definition ai_debug_autofix : M dstate unit :=
  let* s := get in
  let d := dbg s in
  if (d_enabled d =? 0) || (auto_fix d =? 0) then ret tt else
  if issue_count d =? 0 then ret tt else
  let idx := find_issue_to_fix d in
  let* x := of_opt (aget (issues d) idx) in
  if i_type x =? ISSUE_NONE then ret tt else
  let fix_type := determine_fix (i_type x) in
  if fix_type =? FIX_NONE then ret tt else
  let* success := apply_fix fix_type in
  add_fix (i_type x) fix_type success ;;;
  (if i_severity x >=? 1 then
     let* fname := of_opt (aget fix_names fix_type) in
     let* iname := of_opt (aget issue_names (i_type x)) in
     puts_nolf "  [AI Debug] Auto-fix: " ;;; puts_nolf fname ;;;
     puts_nolf " for " ;;; puts_nolf iname ;;;
     puts (if success =? 0 then " (failed)" else " (success)")
   else ret tt) ;;;
  if negb (success =? 0) then
    let* s := get in
    let* iss := of_opt (aset (issues (dbg s)) idx
      (mk_issue ISSUE_NONE 0 (i_timestamp x) (i_count x) (i_details x))) in
    modify (on_dbg (set_issues iss))
  else ret tt.

Definition severity_name (s : Z) : string :=
  if s >=? 2 then "CRIT" else if s >=? 1 then "WARN" else "INFO".

Fixpoint report_issues (l : list debug_issue) (n : nat) : M dstate unit :=
  match n, l with
  | S n', x :: l' =>
      (if i_type x =? ISSUE_NONE then ret tt else
       puts_nolf "    [" ;;; puts_nolf (severity_name (i_severity x)) ;;; puts_nolf "] " ;;;
       let* iname := of_opt (aget issue_names (i_type x)) in
       puts_nolf iname ;;; puts_nolf " x" ;;; put_dec (i_count x)) ;;;
      report_issues l' n'
  | S _, [] => ub
  | O, _ => ret tt
  end.

Fixpoint report_fixes (l : list debug_fix) : M dstate unit :=
  match l with
  | f :: l' =>
      puts_nolf "    " ;;;
      let* fname := of_opt (aget fix_names (f_fix f)) in
      puts_nolf fname ;;; puts_nolf " -> " ;;;
      let* iname := of_opt (aget issue_names (f_issue f)) in
      puts_nolf iname ;;;
      puts (if f_success f =? 0 then " [FAIL]" else " [OK]") ;;;
      report_fixes l'
  | [] => ret tt
  end.

Definition ai_debug_report : M dstate unit :=
  let* s := get in
  let d := dbg s in
  puts "=== AI Debug Report ===" ;;;
  puts_nolf "  Scans: " ;;; put_dec (scan_count d) ;;;
  puts_nolf "  Issues found: " ;;; put_dec (total_issues d) ;;; puts "" ;;;
  puts_nolf "  Fixes applied: " ;;; put_dec (total_fixes d) ;;;
  puts_nolf "  Enabled: " ;;; puts (if d_enabled d =? 0 then "no" else "yes") ;;;
  puts_nolf "  Auto-fix: " ;;; puts (if auto_fix d =? 0 then "no" else "yes") ;;;
  (if issue_count d >? 0 then
     puts "  Active Issues:" ;;; report_issues (issues d) (Z.to_nat (issue_count d))
   else ret tt) ;;;
  if fix_count d >? 0 then
    puts "  Recent Fixes:" ;;;
    let start := if fix_count d >? 5 then fix_count d - 5 else 0 in
    report_fixes (drop (Z.to_nat start) (take (Z.to_nat (fix_count d)) (fixes d)))
  else ret tt.

Definition ai_debug_get_issue_count : M dstate Z := let* s := get in ret (total_issues (dbg s)).
Definition ai_debug_get_fix_count : M dstate Z := let* s := get in ret (total_fixes (dbg s)).
Definition ai_debug_set_enabled (b : Z) : M dstate unit :=
  modify (on_dbg (fun d => mk_debug (issues d) (fixes d) (issue_count d) (fix_count d) (scan_count d)
    (total_issues d) (total_fixes d) (if b =? 0 then 0 else 1) (auto_fix d))).
Definition ai_debug_set_autofix (b : Z) : M dstate unit :=
  modify (on_dbg (fun d => mk_debug (issues d) (fixes d) (issue_count d) (fix_count d) (scan_count d)
    (total_issues d) (total_fixes d) (d_enabled d) (if b =? 0 then 0 else 1))).

(** ** The invariant

    Only the four issues that the scan can raise are ever recorded, and every
    issue recorded keeps its slot for good: [total_issues] is [issue_count]. *)
Definition dbg_wf (d : ai_debug) : Prop :=
  length (issues d) = 16%nat /\ length (fixes d) = 8%nat /\
  0 <= issue_count d <= 16 /\ 0 <= fix_count d <= 8 /\
  Forall (fun x => 0 <= i_type x <= 4) (issues d) /\ total_issues d = issue_count d.

Section DebugRules.
Implicit Types s : dstate.

Lemma find_type_bounds t l i n j :
  find_type t l i n = Some j -> i <= j < i + Z.of_nat (length l).
Proof.
  revert i n. induction l as [|x l IH]; intros i [|n] H; simplify_eq/=.
  case_match; simplify_eq; [lia|]. apply IH in H. lia.
Qed.

Lemma worst_bounds l i n sev best j :
  0 <= best < j -> i + Z.of_nat (length l) <= j -> 0 <= i ->
  0 <= worst l i n sev best < j.
Proof.
  revert i n sev best. induction l as [|x l IH]; intros i [|n] sev best Hb Hj Hi; cbn [worst]; try done.
  rewrite length_cons in Hj. destruct (_ >? _); apply IH; lia.
Qed.

Lemma wp_add_issue ty sev d0 d1 d2 d3 s (Q : unit -> dstate -> list Z -> Prop) :
  dbg_wf (dbg s) -> 0 <= ty <= 4 ->
  (forall d, dbg_wf d -> d_enabled d = d_enabled (dbg s) ->
     Q tt (mk_dstate d (d_timer s) (ai_off s)) []) ->
  wp (add_issue ty sev d0 d1 d2 d3) Q s.
Proof.
  intros (H1 & H2 & H3 & H4 & H5 & H6) Hty HQ. unfold add_issue, DEBUG_MAX_ISSUES. wp_step. wp_step.
  destruct (find_type _ _ _ _) as [i|] eqn:Ef.
  - apply find_type_bounds in Ef. destruct (aget_in (issues (dbg s)) i) as [x Hx]; [lia|].
    rewrite Hx. wp_go. apply HQ; [|done]. unfold dbg_wf. simpl. rewrite length_insert.
    split_and!; try done; try lia. apply Forall_insert; [done|]. simpl.
    apply aget_Some in Hx as [_ Hx]. by eapply Forall_lookup_1 in H5.
  - wp_go; bool_hyps.
    + apply wp_zoom. unfold timer_get_ticks. wp_go. apply HQ; [|done].
      unfold dbg_wf. simpl. rewrite length_insert, (u32_small (total_issues _ + 1)) by lia.
      split_and!; try done; try lia. by apply Forall_insert.
    + destruct s. by apply HQ.
Qed.

Lemma wp_check p c s (Q : unit -> dstate -> list Z -> Prop) :
  c ∈ [check_heap p; check_errors p; check_rate p; check_level p] -> dbg_wf (dbg s) ->
  (forall d, dbg_wf d -> Q tt (mk_dstate d (d_timer s) (ai_off s)) []) -> wp c Q s.
Proof.
  intros Hc Hw HQ. rewrite !elem_of_cons in Hc.
  destruct Hc as [->|[->|[->|[->|[]%elem_of_nil]]]];
    unfold check_heap, check_errors, check_rate, check_level; wp_go;
    (apply wp_add_issue; [done|done|]; intros d Hd _; by apply HQ) || (destruct s; by apply HQ).
Qed.

Lemma wp_scan p s (Q : unit -> dstate -> list Z -> Prop) :
  dbg_wf (dbg s) ->
  (forall d, dbg_wf d -> Q tt (mk_dstate d (d_timer s) (ai_off s)) []) ->
  wp (ai_debug_scan p) Q s.
Proof.
  intros Hw HQ. unfold ai_debug_scan. wp_go; [destruct s; by apply HQ|].
  eapply (wp_check p); [set_solver|done|]. intros d1 H1. apply wp_bind.
  eapply (wp_check p); [set_solver|done|]. intros d2 H2. apply wp_bind.
  eapply (wp_check p); [set_solver|done|]. intros d3 H3.
  eapply (wp_check p); [set_solver|done|]. intros d4 H4. by apply HQ.
Qed.

Lemma timer_set_hz_run hz t : exists t', timer_set_hz hz t = Ok (tt, t', []) /\ timer_ticks t' = timer_ticks t.
Proof. eexists. split; [reflexivity|done]. Qed.

Lemma wp_apply_fix ty s (Q : Z -> dstate -> list Z -> Prop) :
  0 <= ty <= 4 ->
  (forall b t, Q b (mk_dstate (dbg s) t (ai_off s)) []) ->
  wp (apply_fix (determine_fix ty)) Q s.
Proof.
  intros Hty HQ.
  assert (ty = 0 \/ ty = 1 \/ ty = 2 \/ ty = 3 \/ ty = 4) as Hc by lia.
  destruct s as [d t a]. destruct Hc as [->|[->|[->|[->| ->]]]]; apply HQ.
Qed.

Lemma wp_add_fix it ft b s (Q : unit -> dstate -> list Z -> Prop) :
  dbg_wf (dbg s) ->
  (forall d, dbg_wf d -> issues d = issues (dbg s) -> Q tt (mk_dstate d (d_timer s) (ai_off s)) []) ->
  wp (add_fix it ft b) Q s.
Proof.
  intros (H1 & H2 & H3 & H4 & H5 & H6) HQ. unfold add_fix. wp_step. wp_step.
  change (on_dbg shift_fixes s) with (mk_dstate (shift_fixes (dbg s)) (d_timer s) (ai_off s)).
  set (d1 := shift_fixes (dbg s)).
  assert (Hd1 : length (fixes d1) = 8%nat /\ 0 <= fix_count d1 <= 7 /\ issues d1 = issues (dbg s) /\
    issue_count d1 = issue_count (dbg s) /\ total_issues d1 = total_issues (dbg s)).
  { unfold d1, shift_fixes, DEBUG_MAX_FIXES. case_match; bool_hyps; simpl; [rewrite length_app, !length_drop|]; split_and!; done || lia. }
  destruct Hd1 as (Hl & Hc & Hi & Hn & Ht). clearbody d1.
  wp_step. apply wp_zoom. unfold timer_get_ticks. wp_go. simpl.
  destruct (aget_in (fixes d1) (fix_count d1)) as [old Hold]; [lia|]. rewrite Hold. wp_go.
  apply HQ; [|done]. unfold dbg_wf. simpl. rewrite length_insert, Hi, Hn, Ht. split_and!; done || lia.
Qed.

Lemma wp_autofix s (Q : unit -> dstate -> list Z -> Prop) :
  dbg_wf (dbg s) ->
  (forall d t o, dbg_wf d -> Q tt (mk_dstate d t (ai_off s)) o) ->
  wp ai_debug_autofix Q s.
Proof.
  intros Hw HQ. unfold ai_debug_autofix. wp_go; try (destruct s; by apply HQ).
  pose proof Hw as (H1 & H2 & H3 & H4 & H5 & H6). bool_hyps.
  set (idx := find_issue_to_fix (dbg s)).
  assert (Hidx : 0 <= idx < 16).
  { apply worst_bounds; lia. }
  destruct (aget_in (issues (dbg s)) idx) as [x Hx]; [lia|]. rewrite Hx.
  assert (Hty : 0 <= i_type x <= 4).
  { apply aget_Some in Hx as [_ Hx]. by eapply Forall_lookup_1 in H5. }
  wp_go; try (destruct s; by apply HQ).
  apply wp_apply_fix; [done|]. intros b t. apply wp_bind, wp_add_fix; [done|]. intros d Hd Hdi.
  assert (exists f, aget fix_names (determine_fix (i_type x)) = Some f) as [f Hf].
  { apply aget_in. unfold determine_fix. simpl. repeat case_match; lia || done. }
  assert (exists n, aget issue_names (i_type x) = Some n) as [n Hn].
  { apply aget_in. simpl. lia. }
  rewrite Hf, Hn. simpl in Hdi. pose proof Hd as (G1 & G2 & G3 & G4 & G5 & G6).
  assert (Hfin : dbg_wf (set_issues (<[Z.to_nat idx :=
    mk_issue ISSUE_NONE 0 (i_timestamp x) (i_count x) (i_details x)]> (issues d)) d)).
  { unfold dbg_wf. simpl. rewrite length_insert. split_and!; try done; try lia.
    apply Forall_insert; [done|]. simpl. unfold ISSUE_NONE. lia. }
  wp_auto; try by apply HQ.
  all: eapply wp_of_opt; [apply aset_in; simpl; lia|]; wp_go; by apply HQ.
Qed.
End DebugRules.

(** ** The table fills up for good *)

Lemma find_type_none t l i n :
  Forall (fun x => i_type x = ISSUE_NONE) l -> t <> ISSUE_NONE -> find_type t l i n = None.
Proof.
  intros Hf Ht. revert i n. induction Hf as [|x l Hx _ IH]; intros i [|n]; try done.
  cbn [find_type]. case_match; [bool_hyps; congruence|]. apply IH.
Qed.

(** Every slot has been used and every issue has been fixed. *)
Definition exhausted (d : ai_debug) : Prop :=
  dbg_wf d /\ issue_count d = DEBUG_MAX_ISSUES /\ Forall (fun x => i_type x = ISSUE_NONE) (issues d).

Lemma exhausted_add ty sev d0 d1 d2 d3 s :
  exhausted (dbg s) -> ty <> ISSUE_NONE -> add_issue ty sev d0 d1 d2 d3 s = Ok (tt, s, []).
Proof.
  intros (_ & Hc & Hf) Ht. unfold add_issue. rewrite (bind_ok _ _ _ s s) by done.
  rewrite find_type_none, Hc by done. done.
Qed.

Lemma exhausted_check p c s :
  exhausted (dbg s) -> c ∈ [check_heap p; check_errors p; check_rate p; check_level p] ->
  c s = Ok (tt, s, []).
Proof.
  intros He Hc. rewrite !elem_of_cons in Hc.
  destruct Hc as [->|[->|[->|[->|[]%elem_of_nil]]]];
    unfold check_heap, check_errors, check_rate, check_level; cbv zeta;
    repeat case_match; done || by apply exhausted_add.
Qed.

(** The slots of fixed issues are never reused: once sixteen issues have
    been recorded and fixed, a scan and an automatic fix record, fix and report
    nothing any more, whatever the heap, the error rate, the timer rate and the
    level are; only the number of scans still counts. *)
Theorem debugger_gives_up p s (He : exhausted (dbg s)) (Hen : d_enabled (dbg s) = 1) :
  exists s', (ai_debug_scan p ;;; ai_debug_autofix) s = Ok (tt, s', []) /\
    issues (dbg s') = issues (dbg s) /\ total_issues (dbg s') = DEBUG_MAX_ISSUES /\
    total_fixes (dbg s') = total_fixes (dbg s) /\ d_timer s' = d_timer s /\
    scan_count (dbg s') = u32 (scan_count (dbg s) + 1).
Proof.
  pose proof He as ((H1 & H2 & H3 & H4 & H5 & H6) & Hc & Hf).
  eassert (Hscan : ai_debug_scan p s = Ok (tt, _, [])).
  { unfold ai_debug_scan. rewrite (bind_ok _ _ _ s s) by done. rewrite Hen.
    change (1 =? 0) with false. cbv iota.
    erewrite bind_ok by reflexivity. set (s1 := on_dbg _ s).
    assert (He1 : exhausted (dbg s1)) by (unfold exhausted, dbg_wf; simpl; done).
    rewrite (bind_ok _ _ _ tt s1) by (apply (exhausted_check p); [done|set_solver]).
    rewrite (bind_ok _ _ _ tt s1) by (apply (exhausted_check p); [done|set_solver]).
    rewrite (bind_ok _ _ _ tt s1) by (apply (exhausted_check p); [done|set_solver]).
    apply (exhausted_check p); [done|set_solver]. }
  rewrite (bind_ok _ _ _ _ _ Hscan). set (s1 := on_dbg _ s).
  exists s1. split; [|split_and!; try done; simpl; congruence].
  unfold ai_debug_autofix. rewrite (bind_ok _ _ _ s1 s1) by done. cbv zeta.
  case_match; [done|]. case_match; [done|].
  assert (Hl1 : length (issues (dbg s1)) = 16%nat) by done.
  assert (Hidx : 0 <= find_issue_to_fix (dbg s1) < 16) by (apply worst_bounds; lia).
  destruct (aget_in (issues (dbg s1)) (find_issue_to_fix (dbg s1))) as [x Hx]; [lia|].
  rewrite Hx, bind_some. apply aget_Some in Hx as [_ Hx].
  eapply Forall_lookup_1 in Hf; [|exact Hx]. rewrite Hf. done.
Qed.

(** Sixteen rounds with a heap above ninety percent exhaust the table. *)
Definition full_heap : probe := mk_probe 16000000 16777216 0 0 100 1 0.
Definition blank_issue : debug_issue := mk_issue 0 0 0 0 [0; 0; 0; 0].
Definition debug_boot : dstate :=
  mk_dstate (mk_debug (replicate 16 blank_issue) (replicate 8 (mk_fix 0 0 0 0 [0; 0])) 0 0 0 0 0 0 0)
    boot_timer 0.
Fixpoint rounds (p : probe) (n : nat) : M dstate unit :=
  match n with O => ret tt | S n' => ai_debug_scan p ;;; ai_debug_autofix ;;; rounds p n' end.
Definition worn_out : dstate :=
  match (ai_debug_init ;;; rounds full_heap 16) debug_boot with
  | Ok (_, s, _) => s
  | _ => debug_boot
  end.
Lemma worn_out_exhausted : exhausted (dbg worn_out).
Proof.
  unfold exhausted, dbg_wf. vm_compute. split_and!; try done;
    repeat (apply Forall_cons_2; [first [done | split; done]|]); apply Forall_nil_2.
Qed.
Lemma debugger_gives_up_witness :
  exists s', (ai_debug_scan full_heap ;;; ai_debug_autofix) worn_out = Ok (tt, s', []) /\
    total_issues (dbg s') = 16.
Proof.
  destruct (debugger_gives_up full_heap worn_out worn_out_exhausted eq_refl)
    as (s' & E & _ & Ht & _). exists s'. exact (conj E Ht).
Defined.
