(* ===== verification/Ai.v ===== *)
(** * The AI engine (kernel/ai_core.c, kernel/ai_api.c)

    The 3-8-3 network and its control loop, composed with what a tick of it
    runs: the CMT engine, the learning engine, the debugger and the timer.  The
    heap and the page allocator are read only; [memstats] are their counters at
    the time of the tick. *)

From S2P Require Import Prelude Uart Tick Fp Learn Cmt AiDebug.

Definition AI_ACT_SUSTAIN : Z := 0.
Definition AI_ACT_BOOST : Z := 1.
Definition AI_ACT_REST : Z := 2.
Definition AI_INPUTS : Z := 3.
Definition AI_HIDDEN : Z := 8.
Definition AI_OUTPUTS : Z := 3.
Definition AI_HZ_MIN : Z := 20.
Definition AI_HZ_MAX : Z := 200.
Definition AI_HZ_STEP : Z := 25.
Definition AI_PERIOD_TICKS : Z := 50.
Definition AI_HIST_LEN : Z := 16.
Definition AI_MAGIC : Z := 0x41493130.

(** ** ai_core.c *)

Module Core.
Definition w1 : list (list Z) :=
  [[0; 0; 131072];
   [0; 0; -131072];
   [131072; 0; 0];
   [0; 131072; 0];
   [32768; 32768; 0];
   [-65536; -65536; -65536];
   [65536; 0; 65536];
   [0; 0; 0]].
Definition b1 : list Z := [0; 0; -65536; -65536; 0; 32768; 0; 0].
Definition w2 : list (list Z) :=
  [[-16384; -16384; -16384; -16384; 32768; 32768; -16384; 32768];
   [131072; -131072; 0; 0; -32768; -32768; 131072; 0];
   [0; 131072; 131072; 131072; 32768; 0; -32768; 0]].
Definition b2 : list Z := [0; 0; 0].

Definition ai_perceive (ticks_since heap_used heap_cap pages_free pages_total : Z) : option (list Z) :=
  d ← chk (fp_from_ratio ticks_since AI_PERIOD_TICKS - FP_ONE);
  Some [fp_from_ratio heap_used heap_cap;
        fp_from_ratio (u32 (pages_total - pages_free)) pages_total;
        fp_clamp d (- (2 * FP_ONE)) (2 * FP_ONE)].

(** Each output is clamped to four before it is compared. *)
Definition post (o : Z) : Z := fp_clamp o (- (4 * FP_ONE)) (4 * FP_ONE).
Definition ai_outputs (x : list Z) : option (list Z * Z) :=
  hidden ← hidden_layer w1 b1 x;
  output_loop post w2 b2 hidden [] 0.
Definition ai_decide (x : list Z) : option Z := snd <$> ai_outputs x.

(** The new value of [*hz]. *)
Definition ai_act (action cmt_level hz : Z) : Z :=
  let '(hz_step, hz_min, hz_max) :=
    if cmt_level <=? 1 then (if AI_HZ_STEP / 2 <? 1 then 1 else AI_HZ_STEP / 2, 80, 120)
    else if cmt_level >=? 3 then (AI_HZ_STEP * 2, 50, 200)
    else (AI_HZ_STEP, AI_HZ_MIN, AI_HZ_MAX) in
  if action =? AI_ACT_BOOST then
    (if u32 (hz + hz_step) <=? hz_max then u32 (hz + hz_step) else hz)
  else if action =? AI_ACT_REST then
    (if hz >=? hz_min + hz_step then u32 (hz - hz_step) else hz)
  else hz.

Definition ai_action_names : list string := ["SUSTAIN"; "BOOST"; "REST"]%string.
Definition ai_core_action_name (a : Z) : string :=
  if (a >=? 0) && (a <? AI_OUTPUTS)
  then nth (Z.to_nat a) ai_action_names "UNKNOWN"%string else "UNKNOWN".
End Core.
Import Core.

(** ** ai_api.c *)

Record ai_hist_entry := mk_ahist { ah_tick : Z; ah_action : Z }.
Record ai_state := mk_ai {
  ai_magic : Z; ai_ticks_total : Z; ai_ticks_since : Z; ai_infer : Z; ai_errs : Z;
  ai_hz : Z; ai_act_last : Z; ai_disabled : Z; ai_verbose : Z; ai_in_tick : Z;
  ai_hist : list ai_hist_entry; ai_hist_count : Z }.

(** The engines, the timer and the tick registry. *)
Record aik := mk_aik {
  k_ai : ai_state; k_learn : ai_learn; k_cmt : cmt_engine; k_debug : ai_debug;
  k_timer : timer; k_ticks : ticks }.

Record memstats := mk_mem { ms_used : Z; ms_cap : Z; ms_free : Z; ms_total : Z }.

Definition set_ai (a : ai_state) (k : aik) : aik :=
  mk_aik a (k_learn k) (k_cmt k) (k_debug k) (k_timer k) (k_ticks k).
Definition upd_ai (f : ai_state -> ai_state) : M aik unit := modify (fun k => set_ai (f (k_ai k)) k).
Definition in_learn {A} (m : M ai_learn A) : M aik A :=
  zoom k_learn (fun l k => mk_aik (k_ai k) l (k_cmt k) (k_debug k) (k_timer k) (k_ticks k)) m.
Definition in_cmt {A} (m : M cmt_engine A) : M aik A :=
  zoom k_cmt (fun c k => mk_aik (k_ai k) (k_learn k) c (k_debug k) (k_timer k) (k_ticks k)) m.
Definition in_timer {A} (m : M timer A) : M aik A :=
  zoom k_timer (fun t k => mk_aik (k_ai k) (k_learn k) (k_cmt k) (k_debug k) t (k_ticks k)) m.
Definition in_ticks {A} (m : M ticks A) : M aik A :=
  zoom k_ticks (fun t k => mk_aik (k_ai k) (k_learn k) (k_cmt k) (k_debug k) (k_timer k) t) m.
Definition set_disabled (d : Z) (a : ai_state) : ai_state :=
  mk_ai (ai_magic a) (ai_ticks_total a) (ai_ticks_since a) (ai_infer a) (ai_errs a) (ai_hz a)
    (ai_act_last a) d (ai_verbose a) (ai_in_tick a) (ai_hist a) (ai_hist_count a).
(** The debugger sees itself, the timer and the AI engine's disable flag. *)
Definition in_debug {A} (m : M dstate A) : M aik A :=
  zoom (fun k => mk_dstate (k_debug k) (k_timer k) (ai_disabled (k_ai k)))
    (fun d k => mk_aik (set_disabled (ai_off d) (k_ai k)) (k_learn k) (k_cmt k) (dbg d)
                  (d_timer d) (k_ticks k)) m.

Definition ai_healthy : M aik bool :=
  let* k := get in
  let a := k_ai k in
  if negb (ai_magic a =? AI_MAGIC) || negb (ai_disabled a =? 0) then
    upd_ai (fun a =>
      mk_ai (ai_magic a) (ai_ticks_total a) (ai_ticks_since a) (ai_infer a)
        (if ai_magic a =? AI_MAGIC then u32 (ai_errs a + 1) else ai_errs a) (ai_hz a)
        (ai_act_last a) 1 (ai_verbose a) (ai_in_tick a) (ai_hist a) (ai_hist_count a)) ;;;
    ret false
  else ret true.

Definition ai_init : M aik unit :=
  upd_ai (fun a => mk_ai AI_MAGIC 0 0 0 0 100 AI_ACT_SUSTAIN 0 0 0 (ai_hist a) 0) ;;;
  in_learn ai_learn_init ;;;
  in_debug ai_debug_init ;;;
  let* _ := in_ticks (tick_subscribe (Some AiOnTick)) in
  ret tt.

Definition set_in_tick (b : Z) (a : ai_state) : ai_state :=
  mk_ai (ai_magic a) (ai_ticks_total a) (ai_ticks_since a) (ai_infer a) (ai_errs a) (ai_hz a)
    (ai_act_last a) (ai_disabled a) (ai_verbose a) b (ai_hist a) (ai_hist_count a).
Definition count_ai_tick (a : ai_state) : ai_state :=
  mk_ai (ai_magic a) (u32 (ai_ticks_total a + 1)) (u32 (ai_ticks_since a + 1)) (ai_infer a) (ai_errs a)
    (ai_hz a) (ai_act_last a) (ai_disabled a) (ai_verbose a) 1 (ai_hist a) (ai_hist_count a).
Definition reset_since (a : ai_state) : ai_state :=
  mk_ai (ai_magic a) (ai_ticks_total a) 0 (ai_infer a) (ai_errs a) (ai_hz a)
    (ai_act_last a) (ai_disabled a) (ai_verbose a) (ai_in_tick a) (ai_hist a) (ai_hist_count a).
Definition set_hz (hz : Z) (a : ai_state) : ai_state :=
  mk_ai (ai_magic a) (ai_ticks_total a) (ai_ticks_since a) (ai_infer a) (ai_errs a) hz
    (ai_act_last a) (ai_disabled a) (ai_verbose a) (ai_in_tick a) (ai_hist a) (ai_hist_count a).
Definition record_decision (act : Z) (h : list ai_hist_entry) (a : ai_state) : ai_state :=
  mk_ai (ai_magic a) (ai_ticks_total a) (ai_ticks_since a) (u32 (ai_infer a + 1)) (ai_errs a) (ai_hz a)
    (u8 act) (ai_disabled a) (ai_verbose a) (ai_in_tick a) h (u32 (ai_hist_count a + 1)).

(** What CMT and the debugger read from the other components. *)
Definition cmt_sensors (m : memstats) (a : ai_state) : sensors :=
  mk_sensors (u32 (ms_used m)) (u32 (ms_cap m)) (u32 (ms_free m)) (u32 (ms_total m))
    (ai_infer a) (ai_errs a) (ai_act_last a).
Definition debug_probe (m : memstats) (k : aik) : probe :=
  mk_probe (u32 (ms_used m)) (u32 (ms_cap m)) (ai_errs (k_ai k)) (ai_infer (k_ai k)) (ai_hz (k_ai k))
    (c_level (k_cmt k)) (c_errors (k_cmt k)).

(** The branch of [ai_on_tick] taken every [AI_PERIOD_TICKS] ticks. *)
Definition ai_cycle (m : memstats) : M aik unit :=
  upd_ai reset_since ;;;
  let hu := u32 (ms_used m) in let hc := u32 (ms_cap m) in
  let pf := u32 (ms_free m) in let pt := u32 (ms_total m) in
  let heap_pct := if hc >? 0 then u32 (hu * 100) / hc else 0 in
  let page_pct := if pt >? 0 then u32 (u32 (pt - pf) * 100) / pt else 0 in
  let* k := get in
  let state := ai_learn_get_state heap_pct page_pct (ai_errs (k_ai k)) in
  let* action := in_learn (ai_learn_choose_action state) in
  let* x := of_opt (ai_perceive (ai_ticks_since (k_ai k)) hu hc pf pt) in
  let* nn_action := of_opt (ai_decide x) in
  let action := if (action =? AI_ACT_SUSTAIN) && negb (nn_action =? AI_ACT_SUSTAIN)
                then nn_action else action in
  let cmt_level := c_level (k_cmt k) in
  upd_ai (fun a => set_hz (ai_act action cmt_level (ai_hz a)) a) ;;;
  let* k := get in
  in_timer (timer_set_hz (ai_hz (k_ai k))) ;;;
  let* h := of_opt (aset (ai_hist (k_ai k)) (ai_hist_count (k_ai k) mod AI_HIST_LEN)
                      (mk_ahist (ai_ticks_total (k_ai k)) (u8 action))) in
  upd_ai (record_decision action h) ;;;
  let* k := get in
  let a := k_ai k in
  let reward := ai_learn_calculate_reward heap_pct page_pct (ai_errs a) (ai_infer a) in
  let next_state := ai_learn_get_state heap_pct page_pct (ai_errs a) in
  in_learn (ai_learn_store state (u8 action) reward next_state) ;;;
  (if ai_infer a mod 10 =? 0 then in_learn ai_learn_update else ret tt) ;;;
  (if ai_infer a mod 20 =? 0 then
     let* k := get in
     in_debug (ai_debug_scan (debug_probe m k)) ;;; in_debug ai_debug_autofix
   else ret tt) ;;;
  if negb (ai_verbose a =? 0) then
    puts_nolf "[ai] t=" ;;; put_dec (ai_ticks_total a) ;;;
    puts_nolf " C=" ;;; put_dec cmt_level ;;;
    puts_nolf " L=" ;;; put_dec action ;;;
    puts_nolf " -> " ;;; puts (ai_core_action_name action) ;;;
    puts_nolf "[ai] policy " ;;; put_dec (ai_hz a) ;;; puts " Hz"
  else ret tt.

Definition ai_on_tick (m : memstats) : M aik unit :=
  let* ok := ai_healthy in
  if negb ok then ret tt else
  let* k := get in
  if negb (ai_in_tick (k_ai k) =? 0) then ret tt else
  upd_ai count_ai_tick ;;;
  let* k := get in
  in_cmt (cmt_on_tick (cmt_sensors m (k_ai k))) ;;;
  let* k := get in
  (if ai_ticks_since (k_ai k) >=? AI_PERIOD_TICKS then ai_cycle m else ret tt) ;;;
  upd_ai (set_in_tick 0).

Definition set_verbose (b : Z) (a : ai_state) : ai_state :=
  mk_ai (ai_magic a) (ai_ticks_total a) (ai_ticks_since a) (ai_infer a) (ai_errs a) (ai_hz a)
    (ai_act_last a) (ai_disabled a) b (ai_in_tick a) (ai_hist a) (ai_hist_count a).
Definition ai_set_verbose (b : Z) : M aik unit :=
  upd_ai (set_verbose (if b =? 0 then 0 else 1)).

Definition ai_reset : M aik unit :=
  let* k := get in
  ai_init ;;;
  upd_ai (set_verbose (ai_verbose (k_ai k))).

Definition ai_inference_count (k : aik) : Z := ai_infer (k_ai k).
Definition ai_error_count (k : aik) : Z := ai_errs (k_ai k).
Definition ai_last_action (k : aik) : Z := ai_act_last (k_ai k).
Definition ai_action_name (a : Z) : string := ai_core_action_name a.
Definition ai_current_hz (k : aik) : Z := ai_hz (k_ai k).
Definition ai_is_healthy (k : aik) : bool :=
  (ai_magic (k_ai k) =? AI_MAGIC) && (ai_disabled (k_ai k) =? 0).

Definition ai_history_count (k : aik) : Z :=
  if ai_hist_count (k_ai k) <? AI_HIST_LEN then ai_hist_count (k_ai k) else AI_HIST_LEN.
(** The entry at [idx] of the window of the latest decisions, oldest first. *)
Definition history_entry (k : aik) (idx : Z) : option ai_hist_entry :=
  let n := ai_hist_count (k_ai k) in
  let start := if n <? AI_HIST_LEN then 0 else n - AI_HIST_LEN in
  aget (ai_hist (k_ai k)) (u32 (start + idx) mod AI_HIST_LEN).
Definition ai_history_tick (idx : Z) : M aik Z :=
  let* k := get in
  if (idx <? 0) || (idx >=? ai_history_count k) then ret 0 else
  let* e := of_opt (history_entry k idx) in ret (ah_tick e).
Definition ai_history_action (idx : Z) : M aik Z :=
  let* k := get in
  if (idx <? 0) || (idx >=? ai_history_count k) then ret (-1) else
  let* e := of_opt (history_entry k idx) in ret (ah_action e).

Definition ai_disable : M aik unit := upd_ai (set_disabled 1).
Definition ai_enable : M aik unit :=
  upd_ai (fun a => mk_ai AI_MAGIC (ai_ticks_total a) (ai_ticks_since a) (ai_infer a) (ai_errs a) (ai_hz a)
    (ai_act_last a) 0 (ai_verbose a) (ai_in_tick a) (ai_hist a) (ai_hist_count a)).

Fixpoint report_decisions (start i : Z) (n : nat) : M aik unit :=
  match n with
  | O => ret tt
  | S n' =>
      let* k := get in
      let* e := of_opt (aget (ai_hist (k_ai k)) (u32 (start + i) mod AI_HIST_LEN)) in
      puts_nolf "    t=" ;;; put_dec (ah_tick e) ;;; puts_nolf "  " ;;;
      puts (ai_core_action_name (ah_action e)) ;;;
      report_decisions start (i + 1) n'
  end.
Definition ai_report : M aik unit :=
  let* k := get in
  let a := k_ai k in
  puts_nolf "  AI healthy: " ;;;
  puts (if ai_is_healthy k then "yes" else "NO (fail-safe latched)") ;;;
  puts_nolf "  AI inferences: " ;;; put_dec (ai_infer a) ;;; puts "" ;;;
  puts_nolf "  AI errors: " ;;; put_dec (ai_errs a) ;;; puts "" ;;;
  puts_nolf "  AI last action: " ;;; puts (ai_core_action_name (ai_act_last a)) ;;;
  puts_nolf "  AI timer policy: " ;;; put_dec (ai_hz a) ;;; puts " Hz" ;;;
  let n := ai_history_count k in
  (if n >? 0 then
     puts "  AI decisions:" ;;;
     report_decisions (u32 (ai_hist_count a - n)) 0 (Z.to_nat n)
   else ret tt) ;;;
  in_learn ai_learn_report ;;;
  in_debug ai_debug_report.

(** ** The network *)

Lemma ai_act_range act lvl hz :
  AI_HZ_MIN <= hz <= AI_HZ_MAX -> AI_HZ_MIN <= ai_act act lvl hz <= AI_HZ_MAX.
Proof.
  unfold ai_act, AI_HZ_MIN, AI_HZ_MAX, AI_HZ_STEP, AI_ACT_BOOST, AI_ACT_REST. intros H.
  change (25 / 2 <? 1) with false. change (25 / 2) with 12.
  repeat case_match; simplify_eq; bool_hyps; try lia; rewrite u32_small in *; lia.
Qed.

(** On inputs of magnitude up to 2^24 the network is defined and picks the first
    of its largest outputs. *)
Lemma ai_outputs_ok x :
  length x = 3%nat -> Forall (fun v => Z.abs v <= 2 ^ 24) x ->
  exists out best, ai_outputs x = Some (out, best) /\ length out = 3%nat /\ argmax out best.
Proof.
  intros Hl Hx. unfold ai_outputs.
  destruct (hidden_layer_safe (2 ^ 24) (2 ^ 30) ltac:(done) ltac:(done) 3 w1 b1 x)
    as (hs & -> & Hh & Hf); [by vm_compute|done..|]. simpl in Hh. cbn [mbind option_bind].
  destruct (output_loop_argmax post 8 65535 (2 ^ 30) w2 b2 hs [] 0) as (out & best & -> & Ho & Hb);
    [done|done|by vm_compute|done|done|by left|].
  exists out, best. split_and!; [done|done|]. by destruct Hb as [[? _]|Hb].
Qed.

(** The activations on the inputs that the engine really feeds the network: its
    third input is always -1, because the tick counter has just been reset. *)
Lemma hidden_values x0 x1 :
  0 <= x0 <= 65536 -> 0 <= x1 <= 65536 ->
  exists h2 h3 h4 h5 h6,
    hidden_layer w1 b1 [x0; x1; -65536] = Some [-43690; 43690; h2; h3; h4; h5; h6; 0] /\
    Forall (fun h => Z.abs h <= 65535) [h2; h3; h4; h5; h6] /\ 0 <= h4 /\ h6 <= 0.
Proof.
  intros H0 H1.
  assert (Hm : forall w x, Z.abs w <= 131072 -> 0 <= x <= 65536 ->
    65536 * fp_mul w x <= w * x < 65536 * fp_mul w x + 65536)
    by (intros; apply fp_mul_floor; nia).
  pose proof (Hm 131072 x0 ltac:(lia) H0). pose proof (Hm 131072 x1 ltac:(lia) H1).
  pose proof (Hm 32768 x0 ltac:(lia) H0). pose proof (Hm 32768 x1 ltac:(lia) H1).
  pose proof (Hm (-65536) x0 ltac:(lia) H0). pose proof (Hm (-65536) x1 ltac:(lia) H1).
  pose proof (Hm 65536 x0 ltac:(lia) H0). clear Hm.
  assert (Hz : forall x, fp_mul 0 x = 0) by done.
  assert (Hs : forall s, Z.abs s <= 1000000 -> exists h, fp_softsign s = Some h /\ Z.abs h <= 65535 /\
    (0 <= s -> 0 <= h) /\ (s <= 0 -> h <= 0)).
  { intros s Hb. apply fp_softsign_spec. unfold INT32_MAX, FP_ONE. lia. }
  assert (Hc : forall s, Z.abs s <= 1000000 -> chk s = Some s).
  { intros s Hb. apply chk_Some. unfold INT32_MIN, INT32_MAX. lia. }
  destruct (Hs (-65536 + fp_mul 131072 x0 + 0 + 0)) as (h2 & E2 & B2 & _); [lia|].
  destruct (Hs (-65536 + 0 + fp_mul 131072 x1 + 0)) as (h3 & E3 & B3 & _); [lia|].
  destruct (Hs (0 + fp_mul 32768 x0 + fp_mul 32768 x1 + 0)) as (h4 & E4 & B4 & P4 & _); [lia|].
  destruct (Hs (32768 + fp_mul (-65536) x0 + fp_mul (-65536) x1 + 65536)) as (h5 & E5 & B5 & _); [lia|].
  destruct (Hs (0 + fp_mul 65536 x0 + 0 + -65536)) as (h6 & E6 & B6 & _ & P6); [lia|].
  exists h2, h3, h4, h5, h6. split; [|split; [by repeat constructor|lia]].
  assert (Eh7 : fp_softsign 0 = Some 0) by done.
  assert (Eh0 : fp_softsign (-131072) = Some (-43690)) by done.
  assert (Eh1 : fp_softsign 131072 = Some 43690) by done.
  unfold w1, b1. cbn [hidden_layer mac]. rewrite !Hz.
  change (fp_mul 131072 (-65536)) with (-131072). change (fp_mul (-131072) (-65536)) with 131072.
  change (fp_mul (-65536) (-65536)) with 65536. change (fp_mul 65536 (-65536)) with (-65536).
  repeat (rewrite Hc by lia; cbn [mbind option_bind]).
  replace (0 + 0 + 0 + -131072) with (-131072) by lia. replace (0 + 0 + 0 + 131072) with 131072 by lia.
  replace (0 + 0 + 0 + 0) with 0 by lia.
  rewrite Eh0, Eh1, E2, E3, E4, E5, E6, Eh7. reflexivity.
Qed.


Lemma ai_never_boosts_on x0 x1 :
  0 <= x0 <= 65536 -> 0 <= x1 <= 65536 ->
  exists a, ai_decide [x0; x1; -65536] = Some a /\ (a = AI_ACT_SUSTAIN \/ a = AI_ACT_REST).
Proof.
  intros H0 H1.
  destruct (ai_outputs_ok [x0; x1; -65536]) as (out & best & E & Hlen & Harg);
    [done|repeat constructor; lia|].
  exists best. unfold ai_decide. rewrite E. split; [done|].
  destruct Harg as (m & Hm & Hmax). pose proof (aget_lt _ _ _ Hm) as Hb. rewrite Hlen in Hb.
  unfold AI_ACT_SUSTAIN, AI_ACT_REST. destruct (decide (best = 1)) as [->|]; [exfalso|lia].
  destruct (hidden_values x0 x1 H0 H1) as (h2 & h3 & h4 & h5 & h6 & Eh & Hf & P4 & P6).
  unfold ai_outputs in E. rewrite Eh in E. cbn [mbind option_bind] in E.
  rewrite !Forall_cons in Hf. destruct Hf as (F2 & F3 & F4 & F5 & F6 & _).
  set (hs := [-43690; 43690; h2; h3; h4; h5; h6; 0]) in *.
  apply output_loop_values in E as (rs & -> & Hrs).
  apply Forall2_cons_inv_l in Hrs as (r0 & rs1 & E0 & Hrs & ->).
  apply Forall2_cons_inv_l in Hrs as (r1 & rs2 & E1 & _ & ->).
  assert (Hmul : forall w h, Z.abs w <= 131072 -> Z.abs h <= 65535 ->
    65536 * fp_mul w h <= w * h < 65536 * fp_mul w h + 65536)
    by (intros; apply fp_mul_floor; nia).
  assert (Hr0 : -90000 <= r0).
  { apply mac_dot in E0 as ->. unfold hs. cbn [dot fst snd].
    pose proof (Hmul (-16384) h2). pose proof (Hmul (-16384) h3). pose proof (Hmul 32768 h4).
    pose proof (Hmul 32768 h5). pose proof (Hmul (-16384) h6).
    change (fp_mul (-16384) (-43690)) with 10922. change (fp_mul (-16384) 43690) with (-10923).
    change (fp_mul 32768 0) with 0. lia. }
  assert (Hr1 : r1 <= -140000).
  { apply mac_dot in E1 as ->. unfold hs. cbn [dot fst snd].
    pose proof (Hmul (-32768) h4). pose proof (Hmul (-32768) h5). pose proof (Hmul 131072 h6).
    change (fp_mul 131072 (-43690)) with (-87380). change (fp_mul (-131072) 43690) with (-87380).
    change (fp_mul 0 h2) with 0. change (fp_mul 0 h3) with 0. change (fp_mul 0 0) with 0. lia. }
  assert (m = post r1) as -> by (unfold aget in Hm; simpl in Hm; congruence).
  destruct (Hmax 0 (post r0) eq_refl) as [_ Hlt]. specialize (Hlt ltac:(lia)).
  unfold post, fp_clamp, FP_ONE in Hlt. repeat case_match; bool_hyps; lia.
Qed.

(** ** The invariant of the control loop *)

#[local] Arguments ai_perceive : simpl never.
#[local] Arguments ai_decide : simpl never.
#[local] Arguments ai_act : simpl never.
#[local] Arguments ai_learn_get_state : simpl never.
#[local] Arguments ai_learn_calculate_reward : simpl never.
#[local] Arguments timer_set_hz : simpl never.

Definition memstats_ok (m : memstats) : Prop :=
  0 <= ms_used m <= ms_cap m /\ ms_cap m < 2 ^ 32 /\
  0 <= ms_free m <= ms_total m /\ ms_total m < 2 ^ 32.

Definition ai_wf (a : ai_state) : Prop :=
  AI_HZ_MIN <= ai_hz a <= AI_HZ_MAX /\ 0 <= ai_act_last a < AI_OUTPUTS /\
  ai_in_tick a = 0 /\ length (ai_hist a) = 16%nat.

Definition aik_wf (k : aik) : Prop :=
  ai_wf (k_ai k) /\ learn_wf (k_learn k) /\ cmt_wf (k_cmt k) /\ dbg_wf (k_debug k).

(** What a tick may do to the counters and to the fail-safe latch. *)
Definition tick_frame (a a' : ai_state) : Prop :=
  ai_magic a' = ai_magic a /\ (ai_infer a' = ai_infer a \/ ai_infer a' = u32 (ai_infer a + 1)) /\
  (ai_disabled a = 0 -> ai_magic a = AI_MAGIC -> ai_disabled a' = 0 /\ ai_errs a' = ai_errs a).

Section Tick.
Context (m : memstats) (Hm : memstats_ok m).

Lemma memstats_u32 :
  u32 (ms_used m) = ms_used m /\ u32 (ms_cap m) = ms_cap m /\
  u32 (ms_free m) = ms_free m /\ u32 (ms_total m) = ms_total m.
Proof. destruct Hm as (? & ? & ? & ?). rewrite !u32_small by lia. done. Qed.

Lemma perceive_run :
  exists a x0 x1, ai_perceive 0 (u32 (ms_used m)) (u32 (ms_cap m)) (u32 (ms_free m)) (u32 (ms_total m)) =
      Some [x0; x1; -65536] /\
    ai_decide [x0; x1; -65536] = Some a /\ (a = AI_ACT_SUSTAIN \/ a = AI_ACT_REST).
Proof.
  destruct memstats_u32 as (-> & -> & -> & ->). destruct Hm as (H1 & H2 & H3 & H4).
  unfold ai_perceive. rewrite (u32_small (ms_total m - ms_free m)) by lia.
  pose proof (fp_from_ratio_unit _ _ H1 H2) as R1.
  pose proof (fp_from_ratio_unit (ms_total m - ms_free m) (ms_total m) ltac:(lia) H4) as R2.
  change (chk (fp_from_ratio 0 AI_PERIOD_TICKS - FP_ONE)) with (Some (-65536)).
  cbn [mbind option_bind]. change (fp_clamp (-65536) _ _) with (-65536).
  destruct (ai_never_boosts_on _ _ R1 R2) as (a & Ea & Ha). do 3 eexists. split; [reflexivity|]. done.
Qed.

Lemma pct_nonneg a b : 0 <= (if b >? 0 then u32 a / b else 0).
Proof.
  case_match; bool_hyps; [|lia]. apply Z.div_pos; [apply u32_range|lia].
Qed.

(** The periodic learning update and debugger run. *)
Lemma wp_learn_step (b : bool) k (Q : unit -> aik -> list Z -> Prop) :
  learn_wf (k_learn k) ->
  (forall l', learn_wf l' -> Q tt (mk_aik (k_ai k) l' (k_cmt k) (k_debug k) (k_timer k) (k_ticks k)) []) ->
  wp (if b then in_learn ai_learn_update else ret tt) Q k.
Proof.
  intros Hk HQ. wp_step.
  - apply wp_zoom, wp_ai_learn_update; [done|]. intros l' Hl'. by apply HQ.
  - wp_go. destruct k. by apply HQ.
Qed.

Lemma wp_debug_step (b : bool) k (Q : unit -> aik -> list Z -> Prop) :
  dbg_wf (k_debug k) ->
  (forall d' t' o, dbg_wf d' -> Q tt (mk_aik (k_ai k) (k_learn k) (k_cmt k) d' t' (k_ticks k)) o) ->
  wp (if b then let* k := get in
        in_debug (ai_debug_scan (debug_probe m k)) ;;; in_debug ai_debug_autofix
      else ret tt) Q k.
Proof.
  destruct k as [a1 lr1 c1 d1 t1 r1]. simpl. intros Hk HQ. wp_step.
  - wp_go. apply wp_zoom, wp_scan; [done|]. intros d' Hd'. simpl.
    apply wp_zoom, wp_autofix; [done|]. intros d2 t2 o2 Hd2. simpl.
    specialize (HQ d2 t2 ([] ++ [] ++ o2) Hd2). by destruct a1.
  - wp_go. by apply HQ.
Qed.

(** One run of the cycle, from a tick in progress. *)
Lemma wp_ai_cycle k (Q : unit -> aik -> list Z -> Prop) :
  ai_wf (set_in_tick 0 (k_ai k)) -> learn_wf (k_learn k) -> cmt_wf (k_cmt k) -> dbg_wf (k_debug k) ->
  (forall k' o, ai_wf (set_in_tick 0 (k_ai k')) -> learn_wf (k_learn k') -> cmt_wf (k_cmt k') ->
     dbg_wf (k_debug k') -> ai_magic (k_ai k') = ai_magic (k_ai k) ->
     ai_disabled (k_ai k') = ai_disabled (k_ai k) -> ai_infer (k_ai k') = u32 (ai_infer (k_ai k) + 1) ->
     ai_errs (k_ai k') = ai_errs (k_ai k) -> Q tt k' o) ->
  wp (ai_cycle m) Q k.
Proof.
  destruct k as [a l c d t r]. simpl. intros (Hhz & Hact & _ & Hlen) Hl Hc Hd HQ. simpl in *.
  unfold ai_cycle, upd_ai. wp_step. wp_step. wp_step. wp_step.
  set (hp := if u32 (ms_cap m) >? 0 then _ else _). set (pp := if u32 (ms_total m) >? 0 then _ else _).
  assert (0 <= hp) by apply pct_nonneg. assert (0 <= pp) by apply pct_nonneg. clearbody hp pp.
  cbn [k_ai set_ai reset_since ai_errs ai_ticks_since k_cmt].
  pose proof (get_state_range hp pp (ai_errs a) ltac:(lia) ltac:(lia)) as Hst.
  set (st := ai_learn_get_state hp pp (ai_errs a)) in *. clearbody st.
  destruct (choose_action_run l st Hl ltac:(lia)) as (act & Eact & Hact').
  wp_step. eapply wp_intro; [apply zoom_ok; exact Eact|].
  destruct perceive_run as (nn & x0 & x1 & Ep & Ed & Hnn). rewrite Ep. wp_go. rewrite Ed. wp_go.
  set (act2 := if (act =? AI_ACT_SUSTAIN) && _ then nn else act).
  assert (Hact2 : 0 <= act2 < 3).
  { unfold act2, AI_ACT_SUSTAIN, AI_ACT_REST, LEARN_ACTIONS in *. case_match; lia. }
  clearbody act2. simpl.
  set (hz' := ai_act act2 (c_level c) (ai_hz a)).
  assert (Hhz' : AI_HZ_MIN <= hz' <= AI_HZ_MAX) by by apply ai_act_range. clearbody hz'.
  destruct (timer_set_hz_run hz' t) as (t' & Et & _).
  eapply wp_intro; [apply zoom_ok; exact Et|]. simpl.
  assert (Hix : 0 <= ai_hist_count a mod AI_HIST_LEN < 16) by (apply Z.mod_pos_bound; done).
  assert (exists h, aset (ai_hist a) (ai_hist_count a mod AI_HIST_LEN)
    (mk_ahist (ai_ticks_total a) (u8 act2)) = Some h /\ length h = 16%nat) as (hist' & Eh & Hh').
  { eexists. split; [apply aset_in; lia|]. by rewrite length_insert. }
  wp_step. eapply wp_of_opt; [exact Eh|]. wp_step. wp_step. wp_step. wp_step. simpl.
  rewrite (u8_small act2) by lia.
  set (reward := ai_learn_calculate_reward _ _ _ _).
  assert (- 2 ^ 15 <= reward < 2 ^ 15) by apply reward_range. clearbody reward.
  destruct (learn_store_run l st act2 reward (ai_learn_get_state hp pp (ai_errs a)) Hl)
    as (l1 & El1 & Hl1 & _).
  { unfold exp_wf, LEARN_ACTIONS. simpl. split_and!; try lia; by apply get_state_range. }
  wp_step. eapply wp_intro; [apply zoom_ok; exact El1|]. simpl.
  assert (Hai : ai_wf (set_in_tick 0 (record_decision act2 hist' (set_hz hz' (reset_since a))))).
  { unfold ai_wf, AI_OUTPUTS. simpl. by rewrite u8_small by lia. }
  apply wp_bind, wp_learn_step; [done|]. simpl. intros l2 Hl2.
  apply wp_bind, wp_debug_step; [done|]. simpl. intros d2 t2 o2 Hd2.
  wp_auto; by apply HQ.
Qed.

(** A tick of the AI engine. *)
Lemma wp_ai_on_tick k (Q : unit -> aik -> list Z -> Prop) :
  aik_wf k -> 0 <= ai_infer (k_ai k) < 2 ^ 31 -> 0 <= ai_errs (k_ai k) < 2 ^ 31 ->
  (forall k' o, aik_wf k' -> tick_frame (k_ai k) (k_ai k') -> Q tt k' o) ->
  wp (ai_on_tick m) Q k.
Proof.
  destruct k as [a l c d t r]. intros ((Hhz & Hact & Hin & Hlen) & Hl & Hc & Hd) Hi He HQ. simpl in *.
  unfold ai_on_tick, ai_healthy, upd_ai. wp_step. wp_step. wp_step. simpl. wp_step.
  { wp_step. wp_step. wp_step. cbn [negb]. wp_step. apply HQ; simpl; [by unfold aik_wf, ai_wf; simpl|].
    unfold tick_frame. simpl. split_and!; try done; [by left|].
    intros E0 EM. rewrite E0, EM in E. done. }
  bool_hyps. wp_step. cbn [negb]. wp_step. wp_step. simpl. rewrite Hin. cbn [Z.eqb negb].
  wp_step. wp_step. wp_step. wp_step. wp_step.
  apply wp_zoom. simpl. apply cmt_tick_wf; [|done|].
  { destruct Hm as (? & ? & ? & ?). destruct memstats_u32 as (E1 & E2 & E3 & E4).
    unfold sensors_ok, AI_OUTPUTS in *. simpl. rewrite E1, E2, E3, E4. lia. }
  intros c' o Hc' _. wp_step. wp_step. simpl.
  assert (Hfr : forall a', ai_magic a' = ai_magic a -> ai_disabled a' = ai_disabled a ->
    (ai_infer a' = ai_infer a \/ ai_infer a' = u32 (ai_infer a + 1)) -> ai_errs a' = ai_errs a ->
    tick_frame a (set_in_tick 0 a')).
  { intros a' H1 H2 H3 H4. unfold tick_frame. simpl. split_and!; try done. intros. split; congruence. }
  wp_step. wp_step.
  - apply wp_ai_cycle; [unfold ai_wf; simpl; done|done..|].
    intros k' o' Ha' Hl' Hck' Hd' E1 E2 E3 E4. wp_go. apply HQ; [done|]. apply Hfr; simpl in *; auto.
  - wp_go. apply HQ; [done|]. by apply Hfr; simpl; auto.
Qed.
End Tick.

(** ** Runs of the engine *)

Fixpoint run_ai (ms : list memstats) : M aik unit :=
  match ms with [] => ret tt | m :: ms' => ai_on_tick m ;;; run_ai ms' end.

(** The state the boot code hands over: the tables have their sizes. *)
Definition boot_ok (k : aik) : Prop :=
  length (ai_hist (k_ai k)) = 16%nat /\ cmt_wf (k_cmt k) /\ ticks_wf (k_ticks k) /\
  length (issues (k_debug k)) = 16%nat /\ length (fixes (k_debug k)) = 8%nat.

(** [ai_init] registers the tick function, once more on every call. *)
Lemma ai_init_run k :
  boot_ok k ->
  exists k' o, ai_init k = Ok (tt, k', o) /\ aik_wf k' /\ boot_ok k' /\
    k_ai k' = mk_ai AI_MAGIC 0 0 0 0 100 AI_ACT_SUSTAIN 0 0 0 (ai_hist (k_ai k)) 0 /\
    registered (k_ticks k') = registered (k_ticks k) ++
      (if decide (length (registered (k_ticks k)) < 4)%nat then [AiOnTick] else []).
Proof.
  destruct k as [a l c d t r]. intros (Hh & Hc & Hr & Hi & Hf). simpl in *.
  destruct (tick_subscribe_appends AiOnTick r Hr) as (v & r' & Er & Hr' & Hreg).
  destruct (learn_init_wf l) as (l' & ol & El & Hl').
  do 2 eexists. split.
  { unfold ai_init, upd_ai. erewrite bind_ok by reflexivity.
    eapply bind_run; [apply zoom_ok; exact El|].
    eapply bind_run; [apply zoom_ok; reflexivity|].
    eapply bind_run; [apply zoom_ok; exact Er|reflexivity]. }
  split_and!; simpl.
  - unfold aik_wf, ai_wf, dbg_wf, AI_HZ_MIN, AI_HZ_MAX, AI_OUTPUTS, AI_ACT_SUSTAIN. simpl.
    rewrite !length_map. split_and!; try done; try lia.
    apply Forall_map, Forall_true. intros x. simpl. unfold ISSUE_NONE. lia.
  - unfold boot_ok. simpl. by rewrite !length_map.
  - done.
  - destruct Hreg as [(_ & Hlt & ->)|(_ & Heq & ->)]; case_decide; try lia; by rewrite ?app_nil_r.
Qed.

Lemma run_ai_wf ms k n (Q : unit -> aik -> list Z -> Prop) :
  Forall memstats_ok ms -> aik_wf k -> ai_is_healthy k = true -> ai_errs (k_ai k) = 0 ->
  0 <= ai_infer (k_ai k) <= n -> n + Z.of_nat (length ms) < 2 ^ 31 ->
  (forall k' o, aik_wf k' -> ai_is_healthy k' = true -> Q tt k' o) ->
  wp (run_ai ms) Q k.
Proof.
  intros Hms. revert k n Q. induction Hms as [|m ms Hm _ IH]; intros k n Q Hk Hh He Hi Hn HQ.
  { apply wp_ret. by apply HQ. }
  rewrite length_cons in Hn. unfold ai_is_healthy in Hh. bool_hyps.
  cbn [run_ai]. apply wp_bind, wp_ai_on_tick; [done..|lia|lia|].
  intros k' o Hk' (F1 & F2 & F3). destruct (F3 ltac:(done) ltac:(done)) as [F4 F5].
  apply (IH k' (n + 1)); try done.
  - unfold ai_is_healthy. rewrite F1, F4. by apply andb_true_intro; split; apply Z.eqb_eq.
  - congruence.
  - destruct F2 as [->| ->]; [lia|]. rewrite u32_small; lia.
  - lia.
  - intros k2 o2 H1 H2. by apply HQ.
Qed.

(** C22: the AI control loop is safe and stays in its bounds: after [ai_init],
    any run of ticks (fewer than 2^31), whatever the memory counters are, has no
    undefined behaviour (no array is left, no signed sum overflows, nothing is
    divided by zero), keeps the timer policy between 20 and 200 Hz, the last
    action one of the three, every learned value within +-1.0 and the level at
    most 2, and never latches the fail-safe. *)
Theorem ai_loop_safe ms k (Hk : boot_ok k) (Hms : Forall memstats_ok ms)
  (Hn : Z.of_nat (length ms) < 2 ^ 31) :
  exists k' o, (ai_init ;;; run_ai ms) k = Ok (tt, k', o) /\
    AI_HZ_MIN <= ai_current_hz k' <= AI_HZ_MAX /\ 0 <= ai_last_action k' < AI_OUTPUTS /\
    ai_is_healthy k' = true /\ c_level (k_cmt k') <= 2 /\
    (forall s a q, qget (k_learn k') s a = Some q -> -65536 <= q <= 65536).
Proof.
  destruct (ai_init_run k Hk) as (k0 & o0 & E0 & Hwf & _ & Ha & _).
  destruct (wp_run _ _ _ (run_ai_wf ms k0 0 (fun _ k' _ => aik_wf k' /\ ai_is_healthy k' = true)
    Hms Hwf ltac:(unfold ai_is_healthy; by rewrite Ha) ltac:(by rewrite Ha) ltac:(by rewrite Ha) Hn
    (fun k' o H1 H2 => conj H1 H2))) as ([] & k' & o & E & Hk' & Hh).
  exists k', (o0 ++ o). split; [unfold bind; by rewrite E0, E|].
  destruct Hk' as ((Hz & Hact & _) & Hl & (Hlev & _) & _).
  split; [exact Hz|]. split; [exact Hact|]. split; [exact Hh|]. split; [lia|].
  intros s a q Hq. destruct Hl as (_ & Hrows & _). apply bind_Some in Hq as (row & Hrow & Hq).
  apply aget_Some in Hrow as [_ Hrow], Hq as [_ Hq].
  eapply Forall_lookup_1 in Hrows as [_ Hr]; [|exact Hrow]. by eapply Forall_lookup_1 in Hr.
Qed.

Definition demo_aik : aik :=
  mk_aik (mk_ai 0 0 0 0 0 0 0 0 0 0 (replicate 16 (mk_ahist 0 0)) 0)
    (mk_learn [] [] 0 0 0 0 0 0)
    (mk_cmt 0 0 0 0 0 0 0 0 0 (mk_cexp [] 0 0) (mk_in 0 0 0 0 0 0) (replicate 32 (mk_chist 0 0 0 0)) 0 0 0)
    (dbg debug_boot) boot_timer empty_ticks.
Lemma demo_boot_ok : boot_ok demo_aik.
Proof.
  unfold boot_ok, cmt_wf, ticks_wf, CMT_PERIOD. simpl. split_and!; try done; lia || constructor.
Qed.
Definition demo_mem : memstats := mk_mem 15000000 16777216 100 32768.
Lemma ai_loop_safe_witness :
  exists k' o, (ai_init ;;; run_ai (replicate 1000 demo_mem)) demo_aik = Ok (tt, k', o) /\
    AI_HZ_MIN <= ai_current_hz k' <= AI_HZ_MAX.
Proof.
  destruct (ai_loop_safe (replicate 1000 demo_mem) demo_aik demo_boot_ok) as (k' & o & E & Hz & _).
  - apply Forall_replicate. unfold memstats_ok. simpl. lia.
  - rewrite length_replicate. lia.
  - exact (ex_intro _ k' (ex_intro _ o (conj E Hz))).
Defined.

(** The network never decides to raise the rate: the cycle resets the tick
    counter before it is perceived, so the network's third input is always -1,
    and then, whatever the heap and the page counters are, its decision is
    SUSTAIN or REST. *)
Theorem network_never_boosts m st (Hm : memstats_ok m) :
  exists x a, ai_perceive (ai_ticks_since (reset_since st))
      (u32 (ms_used m)) (u32 (ms_cap m)) (u32 (ms_free m)) (u32 (ms_total m)) = Some x /\
    x !! 2%nat = Some (- FP_ONE) /\ ai_decide x = Some a /\ a <> AI_ACT_BOOST.
Proof.
  destruct (perceive_run m Hm) as (a & x0 & x1 & Ep & Ed & Ha). exists [x0; x1; -65536], a.
  split; [exact Ep|]. split; [done|]. split; [done|].
  unfold AI_ACT_SUSTAIN, AI_ACT_REST, AI_ACT_BOOST in *. lia.
Qed.

Lemma network_never_boosts_witness :
  exists x a, ai_perceive 0 15000000 16777216 100 32768 = Some x /\ ai_decide x = Some a /\
    a <> AI_ACT_BOOST.
Proof.
  destruct (network_never_boosts demo_mem (k_ai demo_aik)) as (x & a & Ep & _ & Ed & Ha).
  - unfold memstats_ok. simpl. lia.
  - exact (ex_intro _ x (ex_intro _ a (conj Ep (conj Ed Ha)))).
Defined.

(** [ai_reset] subscribes the tick function again: every reset with room in
    the registry adds one more run of [ai_on_tick] to every timer interrupt, so
    after the first reset the AI and CMT engines run twice per tick. *)
Theorem ai_reset_subscribes_again k (Hk : boot_ok k)
  (Hroom : (length (registered (k_ticks k)) < 4)%nat) :
  exists k' o, ai_reset k = Ok (tt, k', o) /\
    registered (k_ticks k') = registered (k_ticks k) ++ [AiOnTick].
Proof.
  destruct (ai_init_run k Hk) as (k' & o & E & _ & _ & _ & Hr). rewrite decide_True in Hr by done.
  exists (set_ai (set_verbose (ai_verbose (k_ai k)) (k_ai k')) k'), (o ++ []).
  split; [|done]. unfold ai_reset. rewrite (bind_ok _ _ _ k k) by done.
  unfold bind. by rewrite E.
Qed.

Lemma ai_reset_subscribes_again_witness :
  exists k' o, ai_reset demo_aik = Ok (tt, k', o) /\ registered (k_ticks k') = [AiOnTick].
Proof.
  apply (ai_reset_subscribes_again demo_aik demo_boot_ok). simpl. lia.
Defined.
