(* ===== verification/Device.v ===== *)
(** * Device framework (kernel/device.c)

    The table holds pointers to device objects that the drivers own; objects
    are kept in [devs], by address.  No driver of this framework is in the
    repository: a device has the addresses of its functions (0 for none), and
    [call] is what running the function at an address on a device does, to the
    table and to [rest], the part of the machine that drivers act on. *)

From S2P Require Import Prelude Uart.

Definition DEV_NAME_LEN : Z := 16.
Definition DEV_MAX : Z := 16.
Definition DEV_TYPE_CHAR : Z := 0.

Record device := mk_dev {
  d_name : list Z; d_type : Z; d_id : Z; d_open_count : Z; d_flags : Z;
  d_open : Z; d_read : Z; d_write : Z; d_ioctl : Z; d_close : Z }.

Record devtab {W : Type} := mk_devtab {
  dev_table : list Z; dev_count : Z; devs : gmap Z device; rest : W }.
Arguments devtab W : clear implicits.
Arguments mk_devtab {W}.

Definition set_open_count (n : Z) (d : device) : device :=
  mk_dev (d_name d) (d_type d) (d_id d) n (d_flags d)
    (d_open d) (d_read d) (d_write d) (d_ioctl d) (d_close d).

(** The name's sixteen bytes: cut after sixteen characters, padded with NULs. *)
Definition dev_name (nm : list Z) : list Z := take 16 (nm ++ replicate 16 0).

Section Ops.
Context {W : Type} (call : Z -> Z -> list Z -> M (devtab W) Z).

Definition get_dev (p : Z) : M (devtab W) device := let* s := get in of_opt (devs s !! p).
Definition put_dev (p : Z) (d : device) : M (devtab W) unit :=
  modify (fun s => mk_devtab (dev_table s) (dev_count s) (<[p := d]> (devs s)) (rest s)).

Definition device_init : M (devtab W) unit :=
  modify (fun s => mk_devtab (replicate 16 0) 0 (devs s) (rest s)) ;;;
  puts "  Device framework initialized".

(** [nm]: the characters of [name], without its NUL. *)
Definition device_register (nm : list Z) (ty p : Z) : M (devtab W) Z :=
  let* s := get in
  if dev_count s >=? DEV_MAX then ret (-1) else
  let* d := get_dev p in
  put_dev p (mk_dev (dev_name nm) ty (dev_count s) 0 0
    (d_open d) (d_read d) (d_write d) (d_ioctl d) (d_close d)) ;;;
  let* t := of_opt (aset (dev_table s) (dev_count s) p) in
  modify (fun s => mk_devtab t (u8 (dev_count s + 1)) (devs s) (rest s)) ;;;
  puts "  Device registered: " ;;;
  puts_bytes nm ;;;
  ret 0.

(** The inner loop of [device_open]: the first index at which the names differ,
    16 when they agree on all sixteen bytes. *)
Fixpoint name_diff (stored : list Z) (name : view) (j : nat) : nat :=
  match stored with
  | c :: stored' => if c =? name j then name_diff stored' name (S j) else j
  | [] => j
  end.
Definition name_hit (d : device) (name : view) : bool :=
  let j := name_diff (d_name d) name 0 in
  (j =? 16)%nat || (nth j (d_name d) 0 =? name j).

Fixpoint open_loop (name : view) (i : Z) (n : nat) : M (devtab W) Z :=
  match n with
  | O => ret 0
  | S n' =>
      let* s := get in
      if i >=? dev_count s then ret 0 else
      let* p := of_opt (aget (dev_table s) i) in
      if p =? 0 then open_loop name (i + 1) n' else
      let* d := get_dev p in
      if name_hit d name then
        put_dev p (set_open_count (u8 (d_open_count d + 1)) d) ;;;
        (if negb (d_open d =? 0) then let* _ := call (d_open d) p [] in ret tt else ret tt) ;;;
        ret p
      else open_loop name (i + 1) n'
  end.
(** The loop runs at most [DEV_MAX] rounds: the table has sixteen entries. *)
Definition device_open (name : view) : M (devtab W) Z := open_loop name 0 17.

Definition device_read (p buf len : Z) : M (devtab W) Z :=
  if p =? 0 then ret (-1) else
  let* d := get_dev p in
  if d_read d =? 0 then ret (-1) else call (d_read d) p [buf; len].
Definition device_write (p buf len : Z) : M (devtab W) Z :=
  if p =? 0 then ret (-1) else
  let* d := get_dev p in
  if d_write d =? 0 then ret (-1) else call (d_write d) p [buf; len].
Definition device_ioctl (p cmd arg : Z) : M (devtab W) Z :=
  if p =? 0 then ret (-1) else
  let* d := get_dev p in
  if d_ioctl d =? 0 then ret (-1) else call (d_ioctl d) p [cmd; arg].

Definition device_close (p : Z) : M (devtab W) unit :=
  if p =? 0 then ret tt else
  let* d := get_dev p in
  let n := if d_open_count d >? 0 then d_open_count d - 1 else d_open_count d in
  put_dev p (set_open_count n d) ;;;
  if (n =? 0) && negb (d_close d =? 0) then let* _ := call (d_close d) p [] in ret tt else ret tt.

Definition device_get_by_id (id : Z) : M (devtab W) Z :=
  if id >=? DEV_MAX then ret 0 else
  let* s := get in of_opt (aget (dev_table s) id).

Fixpoint list_loop (i : Z) (n : nat) : M (devtab W) unit :=
  match n with
  | O => ret tt
  | S n' =>
      let* s := get in
      if i >=? dev_count s then ret tt else
      let* p := of_opt (aget (dev_table s) i) in
      (if p =? 0 then ret tt else
       let* d := get_dev p in
       puts_nolf "  [" ;;; put_dec i ;;; puts_nolf "] " ;;;
       puts_bytes_nolf (cstr (d_name d)) ;;;
       puts_nolf " type=" ;;; puts_nolf (if d_type d =? DEV_TYPE_CHAR then "char" else "block") ;;;
       puts_nolf " open=" ;;; put_dec (d_open_count d) ;;; puts "") ;;;
      list_loop (i + 1) n'
  end.
Definition device_list : M (devtab W) unit := puts "=== Device List ===" ;;; list_loop 0 17.
End Ops.

(** ** Registration and lookup *)

(** The table's first [dev_count] entries are the registered devices, in
    order, and every one of them is an object. *)
Definition devtab_wf {W} (s : devtab W) : Prop :=
  length (dev_table s) = 16%nat /\ 0 <= dev_count s <= 16 /\
  forall i, 0 <= i < dev_count s -> exists p d, aget (dev_table s) i = Some p /\ p <> 0 /\
    devs s !! p = Some d /\ length (d_name d) = 16%nat.

(** What the sixteen bytes read at [name] are. *)
Definition key16 (name : view) : list Z := map name (seq 0 16).

Lemma name_diff_spec l name j :
  (j <= name_diff l name j <= j + length l)%nat /\
  (name_diff l name j = (j + length l)%nat <-> l = map name (seq j (length l))) /\
  (forall k, name_diff l name j = (j + k)%nat -> (k < length l)%nat -> nth k l 0 <> name (j + k)%nat).
Proof.
  revert j. induction l as [|c l IH]; intros j; simpl.
  { split; [lia|]. split; [split; [done|lia]|lia]. }
  destruct (IH (S j)) as (H1 & H2 & H3). case_match eqn:E; bool_hyps.
  - split; [lia|]. split.
    + replace (j + S (length l))%nat with (S j + length l)%nat by lia. rewrite H2, E.
      split; [by intros <-|]. by intros [= <-].
    + intros [|k] Hk Hl; [lia|]. replace (j + S k)%nat with (S j + k)%nat by lia. apply H3; lia.
  - split; [lia|]. split.
    + split; [lia|]. intros [= -> _]. done.
    + intros k Hk _. assert (k = 0%nat) as -> by lia. by rewrite Nat.add_0_r.
Qed.

(** A stored name matches exactly when all sixteen bytes agree, those after the
    searched string's NUL included. *)
Lemma name_hit_iff d name :
  length (d_name d) = 16%nat -> name_hit d name = true <-> d_name d = key16 name.
Proof.
  intros Hl. destruct (name_diff_spec (d_name d) name 0) as (H1 & H2 & H3).
  rewrite Hl in *. simpl in H1, H2. unfold name_hit, key16. rewrite orb_true_iff, Nat.eqb_eq, Z.eqb_eq.
  rewrite <- H2. split; [|by left]. intros [H|H]; [done|].
  destruct (decide (name_diff (d_name d) name 0 = 16%nat)) as [|Hne]; [done|].
  exfalso. apply (H3 (name_diff (d_name d) name 0)); [done|lia|done].
Qed.

(** [device_open] opens the first registered device with that name. *)
Lemma open_loop_spec {W} call name (s : devtab W) i n (Hwf : devtab_wf s) :
  0 <= i -> (Z.to_nat (dev_count s - i) < n)%nat ->
  (exists k p d, i <= k < dev_count s /\ aget (dev_table s) k = Some p /\ devs s !! p = Some d /\
     d_name d = key16 name /\
     (forall k' p' d', i <= k' < k -> aget (dev_table s) k' = Some p' -> devs s !! p' = Some d' ->
        d_name d' <> key16 name) /\
     open_loop call name i n s =
       (put_dev p (set_open_count (u8 (d_open_count d + 1)) d) ;;;
        (if negb (d_open d =? 0) then let* _ := call (d_open d) p [] in ret tt else ret tt) ;;;
        ret p) s) \/
  ((forall k p d, i <= k < dev_count s -> aget (dev_table s) k = Some p -> devs s !! p = Some d ->
      d_name d <> key16 name) /\ open_loop call name i n s = Ok (0, s, [])).
Proof.
  revert i. induction n as [|n IH]; intros i Hi Hn; [lia|].
  cbn [open_loop]. rewrite (bind_ok _ _ _ s s) by done.
  destruct (i >=? dev_count s) eqn:E; bool_hyps; [right; split; [lia|done]|].
  pose proof Hwf as (_ & _ & Hreg). destruct (Hreg i ltac:(lia)) as (p & d & Hp & Hp0 & Hd & Hl).
  rewrite Hp, bind_some. rewrite (proj2 (Z.eqb_neq p 0)) by done.
  rewrite (bind_ok (get_dev p) _ s d s) by (unfold get_dev, bind, get; by rewrite Hd).
  destruct (name_hit d name) eqn:Eh.
  - left. exists i, p, d. rewrite name_hit_iff in Eh by done. split_and!; try done; lia.
  - assert (Hne : d_name d <> key16 name) by (rewrite <- name_hit_iff by done; congruence).
    destruct (IH (i + 1) ltac:(lia) ltac:(lia)) as [(k & p' & d' & Hk & H1 & H2 & H3 & H4 & H5)|[H1 H2]].
    + left. exists k, p', d'. split_and!; try done; try lia. intros k2 p2 d2 Hk2 Hp2 Hd2.
      destruct (decide (k2 = i)) as [->|]; [congruence|]. by apply (H4 k2 p2 d2); [lia|..].
    + right. split; [|done]. intros k2 p2 d2 Hk2 Hp2 Hd2.
      destruct (decide (k2 = i)) as [->|]; [congruence|]. by apply (H1 k2 p2 d2); [lia|..].
Qed.

Lemma key16_literal nm : Forall (fun c => c <> 0) nm -> (length nm <= 15)%nat ->
  key16 (literal nm (fun _ => 0)) = dev_name nm.
Proof.
  intros Hnz Hl. apply list_eq. intros i. unfold key16, dev_name. rewrite list_lookup_fmap.
  destruct (decide (i < 16)%nat) as [Hi|Hi].
  - rewrite lookup_seq_lt, lookup_take_lt by done. cbn [fmap option_fmap option_map Nat.add]. unfold literal.
    destruct (i <? length nm)%nat eqn:E; [apply Nat.ltb_lt in E|apply Nat.ltb_ge in E].
    + rewrite lookup_app_l by done. destruct (lookup_lt_is_Some_2 nm i E) as [x Hx]. rewrite Hx. f_equal.
      by apply nth_lookup_Some.
    + rewrite lookup_app_r by done. rewrite lookup_replicate_2 by lia. by case_match.
  - rewrite lookup_seq_ge by lia. symmetry. apply lookup_take_ge. lia.
Qed.

(** No registered device has the sixteen bytes [key] for its name. *)
Definition unused_name {W} (key : list Z) (s : devtab W) : Prop :=
  forall k p d, 0 <= k < dev_count s -> aget (dev_table s) k = Some p -> devs s !! p = Some d -> d_name d <> key.

Section Register.
Context {W : Type} (call : Z -> Z -> list Z -> M (devtab W) Z) (s : devtab W) (Hwf : devtab_wf s)
  (nm : list Z) (ty p : Z) (d : device) (Hroom : dev_count s < 16) (Hd : devs s !! p = Some d) (Hp : p <> 0)
  (Hfresh : forall k, 0 <= k < dev_count s -> aget (dev_table s) k <> Some p).

Definition registered_dev : device :=
  mk_dev (dev_name nm) ty (dev_count s) 0 0 (d_open d) (d_read d) (d_write d) (d_ioctl d) (d_close d).
Definition after_register : devtab W :=
  mk_devtab (<[Z.to_nat (dev_count s) := p]> (dev_table s)) (dev_count s + 1)
    (<[p := registered_dev]> (devs s)) (rest s).

Lemma device_register_run : exists o, device_register nm ty p s = Ok (0, after_register, o).
Proof.
  destruct Hwf as (Hl & Hc & _). eexists. unfold device_register. rewrite (bind_ok get _ s s s) by done.
  unfold DEV_MAX. rewrite Z.geb_leb, (proj2 (Z.leb_gt 16 _)) by lia.
  rewrite (bind_ok (get_dev p) _ s d s) by (unfold get_dev, bind, get; by rewrite Hd).
  rewrite (bind_ok (put_dev p _) _ s tt (mk_devtab (dev_table s) (dev_count s) (<[p := registered_dev]> (devs s)) (rest s))) by done.
  rewrite aset_in by lia. rewrite bind_some.
  rewrite (bind_ok (modify _) _ _ tt after_register); [reflexivity|].
  unfold modify, after_register. cbn [dev_count devs rest]. by rewrite u8_small by lia.
Qed.

Lemma dev_name_length : length (dev_name nm) = 16%nat.
Proof. unfold dev_name. rewrite length_take, length_app, length_replicate. lia. Qed.

Lemma after_register_lookup k q e :
  aget (dev_table after_register) k = Some q -> devs after_register !! q = Some e -> 0 <= k < dev_count s + 1 ->
  (k = dev_count s /\ q = p /\ e = registered_dev) \/
  (k < dev_count s /\ aget (dev_table s) k = Some q /\ devs s !! q = Some e).
Proof.
  destruct Hwf as (Hl & Hc & _). cbn [dev_table devs after_register]. intros Hq He Hk.
  destruct (decide (k = dev_count s)) as [->|Hne].
  - left. rewrite aget_insert in Hq by lia. injection Hq as <-. rewrite lookup_insert_eq in He. by injection He as <-.
  - right. rewrite aget_insert_ne in Hq by lia. split; [lia|]. split; [done|].
    rewrite lookup_insert_ne in He; [done|]. intros <-. by apply (Hfresh k); [lia|].
Qed.

Lemma after_register_wf : devtab_wf after_register.
Proof.
  pose proof Hwf as (Hl & Hc & Hreg). split; [by cbn; rewrite length_insert|]. split; [cbn; lia|].
  cbn [dev_count dev_table devs after_register]. intros k Hk. destruct (decide (k = dev_count s)) as [->|Hne].
  - exists p, registered_dev. rewrite aget_insert by lia. rewrite lookup_insert_eq. split_and!; try done. apply dev_name_length.
  - destruct (Hreg k ltac:(lia)) as (q & e & Hq & Hq0 & He & Hle). exists q, e.
    rewrite aget_insert_ne by lia. rewrite lookup_insert_ne; [done|]. intros <-. by apply (Hfresh k); [lia|].
Qed.
End Register.

(** A device is found by the name it was registered under.  With room in the
    table and the name not taken, [device_register] succeeds, and [device_open]
    of the same name, padded with NULs to sixteen bytes, returns the device with
    its open count at 1; opening any other sixteen bytes that no device carries
    returns null and changes nothing. *)
Theorem device_register_open {W} call (s : devtab W) nm ty p d (Hwf : devtab_wf s)
  (Hroom : dev_count s < 16) (Hd : devs s !! p = Some d) (Hp : p <> 0) (Hopen : d_open d = 0)
  (Hfresh : forall k, 0 <= k < dev_count s -> aget (dev_table s) k <> Some p)
  (Hnm : Forall (fun c => c <> 0) nm /\ (length nm <= 15)%nat) (Hfree : unused_name (dev_name nm) s) :
  exists s1 s2 o d2, device_register nm ty p s = Ok (0, s1, o) /\ devtab_wf s1 /\
    device_open call (literal nm (fun _ => 0)) s1 = Ok (p, s2, []) /\
    devs s2 !! p = Some d2 /\ d_open_count d2 = 1 /\ d_type d2 = ty /\
    forall other, unused_name (key16 other) s -> key16 other <> dev_name nm ->
      device_open call other s1 = Ok (0, s1, []).
Proof.
  destruct Hnm as [Hnz Hlen]. pose proof Hwf as (_ & Hc & _).
  destruct (device_register_run s Hwf nm ty p d Hroom Hd) as (o & Er).
  set (s1 := after_register s nm ty p d) in *.
  pose proof (after_register_wf s Hwf nm ty p d Hroom Hp Hfresh) as Hwf1. fold s1 in Hwf1.
  exists s1, (mk_devtab (dev_table s1) (dev_count s1) (<[p := set_open_count 1 (registered_dev s nm ty d)]> (devs s1)) (rest s1)),
    o, (set_open_count 1 (registered_dev s nm ty d)).
  split; [exact Er|]. split; [exact Hwf1|]. split; [|split; [apply lookup_insert_eq|split; [done|split; [done|]]]].
  - destruct (open_loop_spec call (literal nm (fun _ => 0)) s1 0 17 Hwf1) as [H|[H _]]; [lia|cbn; lia| |].
    + destruct H as (k & q & e & Hk & Hq & He & Hn & _ & E). rewrite key16_literal in Hn by done.
      unfold device_open. rewrite E. clear E.
      destruct (after_register_lookup s Hwf nm ty p d Hroom Hfresh k q e Hq He ltac:(cbn in Hk; lia))
        as [(-> & -> & ->)|(H1 & H2 & H3)]; [|by destruct (Hfree k q e ltac:(lia) H2 H3)].
      cbn [d_open registered_dev]. rewrite Hopen. reflexivity.
    + exfalso. apply (H (dev_count s) p (registered_dev s nm ty d)); [cbn; lia|by apply aget_insert; destruct Hwf as (-> & _); lia|apply lookup_insert_eq|].
      by rewrite key16_literal.
  - intros other Hu Hne. destruct (open_loop_spec call other s1 0 17 Hwf1) as [H|[_ H]]; [lia|cbn; lia| |exact H].
    destruct H as (k & q & e & Hk & Hq & He & Hn & _).
    destruct (after_register_lookup s Hwf nm ty p d Hroom Hfresh k q e Hq He ltac:(cbn in Hk; lia))
      as [(-> & -> & ->)|(H1 & H2 & H3)]; [by destruct Hne|by destruct (Hu k q e ltac:(lia) H2 H3)].
Qed.

Definition demo_dev : device := mk_dev (replicate 16 0) 0 0 0 0 0 0 0 0 0.
Definition demo_tab : devtab unit := mk_devtab (replicate 16 0) 0 {[0x5000 := demo_dev]} tt.
Lemma device_register_open_witness :
  exists s1 s2 o, device_register (bytes "con") 0 0x5000 demo_tab = Ok (0, s1, o) /\
    device_open (fun _ _ _ => ret 0) (literal (bytes "con") (fun _ => 0)) s1 = Ok (0x5000, s2, []) /\
    device_open (fun _ _ _ => ret 0) (literal (bytes "con") (fun _ => 7)) s1 = Ok (0, s1, []).
Proof.
  destruct (device_register_open (fun _ _ _ => ret 0) demo_tab (bytes "con") 0 0x5000 demo_dev)
    as (s1 & s2 & o & d2 & H1 & _ & H2 & _ & _ & _ & H3).
  - split; [reflexivity|]. split; [cbn; lia|]. cbn [dev_count demo_tab]. intros i Hi. lia.
  - reflexivity.
  - reflexivity.
  - discriminate.
  - reflexivity.
  - cbn [dev_count demo_tab]. intros k Hk. lia.
  - split; [repeat constructor; discriminate|cbn; lia].
  - intros k q e Hk. cbn [dev_count demo_tab] in Hk. lia.
  - exists s1, s2, o. split; [exact H1|]. split; [exact H2|]. apply H3; [|discriminate].
    intros k q e Hk. cbn [dev_count demo_tab] in Hk. lia.
Defined.
