(* ===== verification/Proc.v ===== *)
(** * Processes (kernel/proc.c)

    The process table over the scheduler and the virtual memory manager.  The
    scheduler's interface [AddrSpaces] is discharged by [Vmm]'s address spaces.
    Page tables live in the VMM's words; the bytes of user blocks, which the
    image is copied to, are [ram]. *)

From S2P Require Import Prelude Uart Tick Pmm Heap Vmm Sched.

(** ** The virtual memory manager behind the scheduler's interface *)

#[export, refine] Instance vmm_spaces (kernel_pgd : Z) : AddrSpaces vmm := {
  as_load := as_switch kernel_pgd;
  as_now := as_active;
  as_exists := fun v a => a = 0 \/ is_Some (spaces v !! a);
}.
Proof.
  intros v a Ha. unfold as_switch. destruct (a =? as_active v) eqn:E; bool_hyps.
  { exists v. rewrite (bind_ok _ _ _ v v) by done. rewrite (proj2 (Z.eqb_eq _ _)) by done. done. }
  rewrite (bind_ok _ _ _ v v) by done. rewrite (proj2 (Z.eqb_neq _ _)) by done.
  destruct (a =? 0) eqn:E0; bool_hyps.
  - eexists. rewrite (bind_ok _ _ _ kernel_pgd v) by done. split; [reflexivity|]. done.
  - destruct Ha as [?|[x Hx]]; [done|]. exists (set_ttbr a (pgd x) v).
    rewrite (bind_ok _ _ _ (pgd x) v); [done|]. unfold get_as, bind, get. by rewrite Hx.
Defined.

(** ** The process table *)

Definition MAX_PROCS : Z := 8.
Definition PROC_NAME_LEN : Z := 12.
Definition PROC_FD_MAX : Z := 8.
Definition PROC_KSTACK_SIZE : Z := 1024.
Definition USER_VA_STACK : Z := USER_VA_BASE + 0x200000.

Inductive proc_status := PROC_NONE | PROC_ALIVE | PROC_ZOMBIE.
#[export] Instance proc_status_eq_dec : EqDecision proc_status.
Proof. solve_decision. Defined.

Record proc := mk_proc {
  p_state : proc_status; p_pid : Z; p_parent : Z; p_task : Z; p_as : Z;
  p_name : list Z; p_exit : Z; p_fds : list Z }.

Record pstate := mk_pstate {
  procs : list proc; next_pid : Z; kernel_fds : list Z; sch : sched vmm; ram : mem }.

Definition set_procs (ps : list proc) (s : pstate) : pstate :=
  mk_pstate ps (next_pid s) (kernel_fds s) (sch s) (ram s).
Definition set_sch (c : sched vmm) (s : pstate) : pstate :=
  mk_pstate (procs s) (next_pid s) (kernel_fds s) c (ram s).
Definition set_ram (m : mem) (s : pstate) : pstate :=
  mk_pstate (procs s) (next_pid s) (kernel_fds s) (sch s) m.

Definition set_fds (f : list Z) (p : proc) : proc :=
  mk_proc (p_state p) (p_pid p) (p_parent p) (p_task p) (p_as p) (p_name p) (p_exit p) f.

Definition in_sched {A} (m : M (sched vmm) A) : M pstate A := zoom sch set_sch m.
Definition in_vmm {A} (m : M vmm A) : M pstate A := in_sched (zoom vm set_vm m).
Definition in_frames {A} (m : M pmm A) : M pstate A := in_vmm (in_pmm m).

Section Ops.
(** Addresses the linker chooses: the kernel's top table, the two first-entry
    trampolines and [kstacks]. *)
Context (kernel_pgd task_trampoline syscall_user_drop kstacks : Z).
#[local] Existing Instance vmm_spaces.
Let spaces_i : AddrSpaces vmm := vmm_spaces kernel_pgd.
#[local] Existing Instance spaces_i.

(** The index of the first slot that satisfies [f]. *)
Fixpoint find_slot (f : proc -> bool) (ps : list proc) (i : Z) : option Z :=
  match ps with
  | [] => None
  | p :: ps' => if f p then Some i else find_slot f ps' (i + 1)
  end.
Definition is_pid (pid : Z) (p : proc) : bool :=
  (bool_decide (p_state p = PROC_ALIVE) || bool_decide (p_state p = PROC_ZOMBIE)) && (p_pid p =? pid).
Definition is_task (t : Z) (p : proc) : bool :=
  negb (bool_decide (p_state p = PROC_NONE)) && (p_task p =? t).
Definition find_pid (pid : Z) (s : pstate) : option Z := find_slot (is_pid pid) (procs s) 0.
Definition find_by_task (t : Z) (s : pstate) : option Z := find_slot (is_task t) (procs s) 0.

Definition get_proc (i : Z) : M pstate proc := let* s := get in of_opt (aget (procs s) i).
Definition put_proc (i : Z) (p : proc) : M pstate unit :=
  let* s := get in
  let* ps := of_opt (aset (procs s) i p) in
  put (set_procs ps s).

Definition proc_getpid : M pstate Z :=
  let* t := in_sched sched_current_index in
  let* s := get in
  match find_by_task t s with
  | Some i => let* p := get_proc i in ret (p_pid p)
  | None => ret 0
  end.

(** [image] are the bytes at the image pointer ([None] for a null pointer),
    [nm] those of the name. *)
Definition proc_spawn_image (nm : option view) (image : option (list Z)) (size entry_off : Z) : M pstate Z :=
  match image, nm with
  | Some img, Some nm =>
  if (size =? 0) || (entry_off >=? size) then ret (-1) else
  if size >? 0x100000 then ret (-1) else
  let* s := get in
  match find_slot (fun p => bool_decide (p_state p = PROC_NONE)) (procs s) 0 with
  | None => ret (-1)
  | Some slot =>
  let* a := in_vmm (as_create kernel_pgd) in
  if a =? 0 then ret (-1) else
  let* chunk := in_frames (pmm_alloc_pages 1024) in
  if chunk =? 0 then in_vmm (as_destroy kernel_pgd a) ;;; ret (-1) else
  let region := Z.land (u64 (chunk + 0x1FFFFF)) NOT_1FFFFF in
  modify (fun s => set_ram (memset (ram s) region 0 0x200000) s) ;;;
  modify (fun s => set_ram (mem_write (ram s) region (take (Z.to_nat size) img)) s) ;;;
  let* r := in_vmm (as_map_block a USER_VA_BASE region USER_BLOCK_RWX) in
  if negb (r =? 0) then
    in_frames (pmm_free_pages chunk 1024) ;;; in_vmm (as_destroy kernel_pgd a) ;;; ret (-1)
  else
  let usp := Z.land (USER_VA_STACK - 16) (u64 (Z.lnot 0xF)) in
  let* s := get in
  let* tidx := in_sched (sched_spawn_user_task syscall_user_drop nm a (USER_VA_BASE + entry_off) usp
                           (next_pid s) (kstacks + slot * PROC_KSTACK_SIZE) PROC_KSTACK_SIZE) in
  if tidx <? 0 then
    in_frames (pmm_free_pages chunk 1024) ;;; in_vmm (as_destroy kernel_pgd a) ;;; ret (-1)
  else
  let* p := get_proc slot in
  let* s := get in
  let pid := next_pid s in
  let name' := copy_name 11 nm (p_name p) in
  put_proc slot (mk_proc PROC_ALIVE pid 0 tidx a name' 0 (replicate 8 0)) ;;;
  modify (fun s => mk_pstate (procs s) (i32 (next_pid s + 1)) (kernel_fds s) (sch s) (ram s)) ;;;
  puts_nolf "[proc] spawned '" ;;; puts_bytes_nolf (cstr name') ;;;
  puts_nolf "' pid=" ;;; put_dec (u32 pid) ;;;
  puts_nolf " task=" ;;; put_dec (u32 tidx) ;;; puts "" ;;;
  ret pid
  end
  | _, _ => ret (-1)
  end.

Definition proc_exit (code : Z) : M pstate outcome :=
  let* t := in_sched sched_current_index in
  let* s := get in
  match find_by_task t s with
  | None => in_sched sched_exit
  | Some i =>
      let* p := get_proc i in
      put_proc i (mk_proc PROC_ZOMBIE (p_pid p) (p_parent p) (p_task p) (p_as p) (p_name p) code
                    (p_fds p)) ;;;
      puts_nolf "[proc] '" ;;; puts_bytes_nolf (cstr (p_name p)) ;;;
      puts_nolf "' exited code=" ;;; put_dec (u32 (if code <? 0 then 0 else code)) ;;; puts "" ;;;
      in_sched sched_exit
  end.

(** The branch of [proc_wait] that reaps the zombie in slot [i]. *)
Definition reap (i : Z) (p : proc) : M pstate Z :=
  in_vmm (as_destroy kernel_pgd (p_as p)) ;;;
  put_proc i (mk_proc PROC_NONE (p_pid p) (p_parent p) (-1) 0 (p_name p) (p_exit p) (p_fds p)) ;;;
  in_sched (sched_task_set_pid (p_task p) (-1)) ;;;
  ret (p_exit p).

(** [others k] is what the rest of the system does between the [k]th yield and
    the return to this task.  The result is the return value and the code. *)
Fixpoint proc_wait (pid : Z) (others : nat -> M pstate unit) (k fuel : nat) : M pstate (Z * Z) :=
  match fuel with
  | O => fun _ => NoFuel
  | S fuel' =>
      let* s := get in
      match find_pid pid s with
      | None => ret (-1, 0)
      | Some i =>
          let* p := get_proc i in
          if bool_decide (p_state p = PROC_ZOMBIE) then
            let* code := reap i p in ret (pid, code)
          else
            let* _ := in_sched sched_yield in
            others k ;;; proc_wait pid others (S k) fuel'
      end
  end.

Definition state_text (st : proc_status) : string :=
  match st with PROC_NONE => "-" | PROC_ALIVE => "ALIVE" | PROC_ZOMBIE => "ZOMBIE" end.
Definition report_proc (p : proc) : M pstate unit :=
  if bool_decide (p_state p = PROC_NONE) then ret tt else
  puts_nolf "    pid=" ;;; put_dec (u32 (p_pid p)) ;;;
  puts_nolf " '" ;;; puts_bytes_nolf (cstr (p_name p)) ;;; puts_nolf "' " ;;;
  puts_nolf (state_text (p_state p)) ;;;
  puts_nolf " parent=" ;;; put_dec (u32 (p_parent p)) ;;; puts "".
Definition proc_report : M pstate unit :=
  puts "  Process table:" ;;;
  let* s := get in
  foldr (fun p k => report_proc p ;;; k) (ret tt) (procs s).

(** ** File descriptors *)

(** The calling task's table: its process's, or the kernel threads' one. *)
Definition fd_table : M pstate (option Z * list Z) :=
  let* t := in_sched sched_current_index in
  let* s := get in
  match find_by_task t s with
  | Some i => let* p := get_proc i in ret (Some i, p_fds p)
  | None => ret (None, kernel_fds s)
  end.
Definition put_fd_table (who : option Z) (f : list Z) : M pstate unit :=
  match who with
  | Some i => let* p := get_proc i in put_proc i (set_fds f p)
  | None => modify (fun s => mk_pstate (procs s) (next_pid s) f (sch s) (ram s))
  end.

Fixpoint first_null (f : list Z) (i : Z) : option Z :=
  match f with
  | [] => None
  | d :: f' => if d =? 0 then Some i else first_null f' (i + 1)
  end.

Definition proc_fd_alloc (dev : Z) : M pstate Z :=
  let* r := fd_table in
  let '(who, f) := r in
  match first_null f 0 with
  | Some i =>
      let* f' := of_opt (aset f i dev) in
      put_fd_table who f' ;;; ret i
  | None => ret (-1)
  end.

Definition proc_fd_get (fd : Z) : M pstate Z :=
  let* r := fd_table in
  if (fd <? 0) || (fd >=? PROC_FD_MAX) then ret 0 else of_opt (aget r.2 fd).

Definition proc_fd_close (fd : Z) : M pstate unit :=
  let* r := fd_table in
  let '(who, f) := r in
  if (fd >=? 0) && (fd <? PROC_FD_MAX) then
    let* f' := of_opt (aset f fd 0) in put_fd_table who f'
  else ret tt.
End Ops.

(** ** Running the components inside the process state *)

Definition upd_vmm (v : vmm) (s : pstate) : pstate := set_sch (set_vm v (sch s)) s.

Lemma in_vmm_ok {A} (m : M vmm A) s a v o :
  m (vm (sch s)) = Ok (a, v, o) -> in_vmm m s = Ok (a, upd_vmm v s, o).
Proof. intros E. unfold in_vmm, in_sched, upd_vmm. by rewrite !(zoom_ok _ _ _ _ _ _ _ (zoom_ok _ _ _ _ _ _ _ E)). Qed.
Lemma in_frames_ok {A} (m : M pmm A) s a fr o :
  m (frames (vm (sch s))) = Ok (a, fr, o) ->
  in_frames m s = Ok (a, upd_vmm (set_frames fr (vm (sch s))) s, o).
Proof. intros E. apply in_vmm_ok. unfold in_pmm. by rewrite (zoom_ok _ _ _ _ _ _ _ E). Qed.
Lemma in_sched_ok {A} (m : M (sched vmm) A) s a c o :
  m (sch s) = Ok (a, c, o) -> in_sched m s = Ok (a, set_sch c s, o).
Proof. intros E. unfold in_sched. by rewrite (zoom_ok _ _ _ _ _ _ _ E). Qed.

Lemma find_slot_Some f ps i r :
  find_slot f ps i = Some r -> i <= r < i + Z.of_nat (length ps) /\
    exists p, ps !! Z.to_nat (r - i) = Some p /\ f p = true.
Proof.
  revert i. induction ps as [|p ps IH]; intros i; simpl; [done|]. destruct (f p) eqn:E.
  - intros [= <-]. split; [lia|]. exists p. by rewrite Z.sub_diag.
  - intros (Hr & q & Hq & Hf)%IH. split; [lia|]. exists q. split; [|done].
    by replace (Z.to_nat (r - i)) with (S (Z.to_nat (r - (i + 1)))) by lia.
Qed.

(** ** Loading a program *)

(** The 2 MB block inside a 4 MB chunk. *)
Definition block_of (chunk : Z) : Z := Z.land (u64 (chunk + 0x1FFFFF)) NOT_1FFFFF.

Lemma block_of_spec c : 0 <= c < 2 ^ 47 ->
  block_of c mod 2 ^ 21 = 0 /\ c <= block_of c /\ block_of c + 2 ^ 21 <= c + 2 ^ 22.
Proof.
  intros Hc. unfold block_of. change NOT_1FFFFF with (2 ^ 64 - 2 ^ 21).
  rewrite u64_small by lia. rewrite land_mask by lia. zlia.
Qed.

Section Spawn.
Context (kpgd kpud kpmd : Z) (Hpgd : table_addr kpgd) (Hpud : table_addr kpud) (Hpmd : table_addr kpmd)
        (Hdist : kpgd <> kpud /\ kpgd <> kpmd /\ kpud <> kpmd).
Context (v : vmm) (F : gset Z).

(** The kernel's map is in place, the heap has room for one more space, and
    8 MB of contiguous frames are free, none of them a kernel table's. *)
Definition memory_ready (g : Z) : Prop :=
  kernel_tables kpgd kpud kpmd 64 (words v) /\ rep (frames v) F /\ heap_wf (kheap v) /\
  heap_ptr (kheap v) + SIZEOF_ADDR_SPACE <= HEAP_END /\
  (forall f, f ∈ F -> frame_addr f <> kpgd /\ frame_addr f <> kpud /\ frame_addr f <> kpmd) /\
  fits F g 2049.

Lemma fits_after_one g f : fits F g 2049 -> exists h, fits (F ∖ {[f]}) h 1024.
Proof.
  unfold fits. intros H. change (Z.to_nat 2049) with (1024 + 1025)%nat in H.
  exists (if decide (f < g + 1024) then g + 1024 + 1 else g).
  intros x Hx%elem_of_run. specialize (H x). rewrite elem_of_run in H.
  apply elem_of_difference. split; [apply H|]; case_decide; rewrite ?elem_of_singleton; lia.
Qed.

(** [as_create], the chunk and [as_map_block], as [proc_spawn_image] calls them. *)
Lemma spawn_memory g : memory_ready g ->
  exists meta f1 f2 f3 c v1 fr v3, meta <> 0 /\ 0 <= c /\
    as_create kpgd v = Ok (meta, v1, []) /\
    pmm_alloc_pages 1024 (frames v1) = Ok (frame_addr c, fr, []) /\
    as_map_block meta USER_VA_BASE (block_of (frame_addr c)) USER_BLOCK_RWX (set_frames fr v1) = Ok (0, v3, []) /\
    run c 1024 ⊆ F /\ rep (frames v3) (F ∖ {[f1; f2; f3]} ∖ run c 1024) /\
    {[f1; f2; f3]} ⊆ F ∖ run c 1024 /\ f1 <> f2 /\ f1 <> f3 /\ f2 <> f3 /\
    spaces v3 !! meta = Some (mk_as (frame_addr f1) (<[2%nat := frame_addr f3]>
      (<[1%nat := frame_addr f2]> (<[0%nat := frame_addr f1]> (replicate 16 0)))) 3 0 true) /\
    forall i, 0 <= i < 2 ^ 21 ->
      walk (words v3) (frame_addr f1) (USER_VA_BASE + i) = block_of (frame_addr c) + i.
Proof.
  intros (Hk & Hrep & Hheap & Hroom & Howned & Hg).
  assert (HF : F <> ∅).
  { intros ->. specialize (Hg g). rewrite elem_of_run in Hg. set_solver by lia. }
  destruct (as_create_run kpgd kpud kpmd Hpgd v F Hrep Hheap Hroom Howned HF)
    as (f1 & v1 & Hf1 & Hr1 & Ec & Sp1 & _ & W1).
  set (meta := heap_ptr (kheap v)) in *.
  assert (Hm0 : meta <> 0).
  { destruct Hheap as [Hq _]. unfold meta, HEAP_START, KERNEL_BASE in *. lia. }
  destruct (fits_after_one g f1 Hg) as [h Hh].
  destruct (wp_run _ _ _ (alloc_pages_refines _ _ Hr1 1024 ltac:(lia))) as (a & fr & o & Ea & -> & F' & HF' & Hs).
  inversion Hs as [| |? ? [?|Hno]|? ? c ? Hc _| |]; subst; [lia|by destruct (Hno h)|].
  change (Z.to_nat 1024) with 1024%nat in *. unfold fits in Hc. change (Z.to_nat 1024) with 1024%nat in Hc.
  destruct (fits_range _ _ Hr1 c 1024 ltac:(lia) Hc) as [Hc0 Hc1].
  assert (Hca : 0 <= frame_addr c < 2 ^ 47).
  { unfold frame_addr, RAM_START, PAGE_SIZE. change TOTAL with 32768 in Hc1. lia. }
  destruct (block_of_spec _ Hca) as (B1 & B2 & B3).
  pose proof (size_run c 1024) as HsR. remember (run c 1024) as R eqn:ER.
  set (G := F ∖ {[f1]} ∖ R) in *.
  pose proof (bits_range _ _ _ (proj1 Hrep) Hf1) as Rf1. pose proof (frame_table f1 Rf1) as T1.
  destruct (map_block_user_run (set_frames fr v1) G meta (frame_addr f1) f1 USER_VA_BASE
    (block_of (frame_addr c)) USER_BLOCK_RWX)
    as (f2 & f3 & v3 & Hf2 & Hf3 & Hne & Hr3 & Em & Sp3 & _ & W3); try done.
  { unfold G. rewrite size_difference by done. rewrite HsR.
    assert (Hn : (2049 <= size F)%nat) by (apply subseteq_size in Hg; rewrite size_run in Hg; lia).
    rewrite size_difference by (clear -Hf1; set_solver). rewrite size_singleton. lia. }
  { unfold G. clear. set_solver. }
  { apply T1. }
  { simpl. rewrite W1 by (done || apply T1). rewrite Z.eqb_refl. by destruct Hk as (-> & _). }
  { lia. }
  assert (f2 ∈ F /\ f2 <> f1 /\ f2 ∉ R) as (I2 & N2 & O2) by (clear -Hf2; set_solver).
  assert (f3 ∈ F /\ f3 <> f1 /\ f3 ∉ R) as (I3 & N3 & O3) by (clear -Hf3; set_solver).
  exists meta, f1, f2, f3, c, v1, fr, v3.
  rewrite <- ER. split_and!; try assumption.
  - clear -Hc. set_solver.
  - replace (F ∖ {[f1; f2; f3]} ∖ R) with (G ∖ {[f2]} ∖ {[f3]}); [exact Hr3|].
    unfold G. clear. set_solver.
  - clear -Hc Hf1 I2 O2 I3 O3. set_solver.
  - congruence.
  - congruence.
  - intros i Hi.
    rewrite (space_walk kpgd kpud kpmd Hpgd Hpud Hpmd Hdist v F Hk Hrep Howned f1 f2 f3 (words v1)
      (words v3) USER_VA_BASE (block_of (frame_addr c)) USER_BLOCK_RWX); try assumption;
      try congruence; try reflexivity; try lia; try (unfold USER_VA_BASE; lia); try done.
    assert (Hsb : same_block USER_VA_BASE (USER_VA_BASE + i) = true /\ (USER_VA_BASE + i) mod 2 ^ 21 = i).
    { unfold same_block. rewrite !idx_div by lia. unfold USER_VA_BASE.
      rewrite !andb_true_iff, !Z.eqb_eq. clear -Hi. zlia. }
    destruct Hsb as [-> ->]. done.
Qed.
End Spawn.

Lemma spawn_user_run drop_addr (c : sched vmm) nm a ue us p st len t :
  aget (tasks c) (slot_alloc c) = Some t -> ue <> 0 -> us <> 0 -> st <> 0 -> 256 <= len ->
  sched_spawn_user_task drop_addr nm a ue us p st len c = Ok (slot_alloc c,
    set_tasks (<[Z.to_nat (slot_alloc c) := setup nm 0 drop_addr (stack_top st len) a p ue us t]> (tasks c)) c, []).
Proof.
  intros Ht H1 H2 H3 H4. pose proof (aget_lt _ _ _ Ht) as Hi.
  unfold sched_spawn_user_task. rewrite (bind_ok get _ c c c) by done. cbv beta zeta.
  rewrite (proj2 (Z.eqb_neq ue 0)), (proj2 (Z.eqb_neq us 0)), (proj2 (Z.eqb_neq st 0)),
    (proj2 (Z.ltb_ge len 256)), (proj2 (Z.ltb_ge (slot_alloc c) 0)) by lia.
  cbn [orb]. cbv iota. unfold upd_task, bind, get, of_opt, put, ret. rewrite Ht. cbn beta iota.
  by rewrite aset_in by lia.
Qed.

Definition USP : Z := USER_VA_STACK - 16.

(** What a successful spawn leaves behind: the PCB, the task and the memory. *)
Record spawned (drop_addr kstacks : Z) (img : list Z) (len off slot t : Z) (F : gset Z) (s s' : pstate) : Prop := {
  sp_pcb : exists p, aget (procs s') slot = Some p /\ p_state p = PROC_ALIVE /\
    p_pid p = next_pid s /\ p_task p = t /\ p_fds p = replicate 8 0;
  sp_task : exists tk, aget (tasks (sch s')) t = Some tk /\ state tk = TASK_READY /\ pid tk = next_pid s /\
    uentry tk = USER_VA_BASE + off /\ usp tk = USP /\
    nth 11 (regs tk) 0 = drop_addr /\ nth 12 (regs tk) 0 = stack_top (kstacks + slot * 1024) 1024;
  sp_image : exists p sp block, aget (procs s') slot = Some p /\
    spaces (vm (sch s')) !! p_as p = Some sp /\
    (forall i, 0 <= i < 2 ^ 21 -> walk (words (vm (sch s'))) (pgd sp) (USER_VA_BASE + i) = block + i) /\
    (forall i, 0 <= i < 2 ^ 21 -> ram s' (block + i) = if i <? len then nth (Z.to_nat i) img 0 else 0);
  sp_frames : exists G, rep (frames (vm (sch s'))) G /\ G ⊆ F /\ (size F = size G + 1027)%nat;
}.

Lemma load_image m b img len i :
  0 <= len <= 0x100000 -> (Z.to_nat len <= length img)%nat -> 0 <= i < 2 ^ 21 ->
  mem_write (memset m b 0 0x200000) b (take (Z.to_nat len) img) (b + i) =
    if i <? len then nth (Z.to_nat i) img 0 else 0.
Proof.
  intros Hl Himg Hi. destruct (i <? len) eqn:E; bool_hyps.
  - rewrite mem_write_in by (rewrite length_take; lia).
    replace (b + i - b) with i by lia. rewrite !nth_lookup. by rewrite lookup_take_lt by lia.
  - rewrite mem_write_out by (rewrite length_take; lia). unfold memset.
    rewrite (proj2 (Z.leb_le _ _)), (proj2 (Z.ltb_lt _ _)) by lia. done.
Qed.

(** The rest of [proc_spawn_image] once the memory is there. *)
Lemma frames_left (F : gset Z) f1 f2 f3 c :
  {[f1; f2; f3]} ⊆ F ∖ run c 1024 -> f1 <> f2 -> f1 <> f3 -> f2 <> f3 -> run c 1024 ⊆ F ->
  (size F = size (F ∖ {[f1; f2; f3]} ∖ run c 1024) + 1027)%nat.
Proof.
  intros H D1 D2 D3 HR. pose proof (size_run c 1024) as Hs. remember (run c 1024) as R eqn:ER. clear ER.
  assert (H3 : size ({[f1; f2; f3]} : gset Z) = 3%nat).
  { rewrite !size_union by set_solver. by rewrite !size_singleton. }
  assert (HF : {[f1; f2; f3]} ⊆ F) by set_solver.
  pose proof (subseteq_size _ _ HF). pose proof (subseteq_size _ _ H) as HB.
  rewrite (size_difference F R HR) in HB.
  rewrite (size_difference (F ∖ {[f1; f2; f3]}) R) by set_solver.
  rewrite (size_difference F {[f1; f2; f3]} HF). lia.
Qed.


(** ** Reaping *)

Lemma get_proc_ok s i p : aget (procs s) i = Some p -> get_proc i s = Ok (p, s, []).
Proof. intros E. unfold get_proc. rewrite bind_get, E. done. Qed.
Lemma put_proc_ok s i p : 0 <= i < Z.of_nat (length (procs s)) ->
  put_proc i p s = Ok (tt, set_procs (<[Z.to_nat i := p]> (procs s)) s, []).
Proof. intros Hi. unfold put_proc. rewrite bind_get, (aset_in _ _ _ Hi), bind_some. done. Qed.

(** The task a zombie leaves behind may be out of range or gone. *)
Lemma set_pid_ok (c : sched vmm) i q : length (tasks c) = 16%nat ->
  exists ts, sched_task_set_pid i q c = Ok (tt, set_tasks ts c, []) /\ length ts = 16%nat.
Proof.
  intros Hl. unfold sched_task_set_pid, valid_idx, MAX_TASKS.
  destruct ((i <? 0) || (i >=? 16)) eqn:E; simpl.
  { exists (tasks c). split; [by destruct c|done]. }
  bool_hyps. destruct (aget_in (tasks c) i ltac:(lia)) as [t Ht].
  exists (<[Z.to_nat i := set_pid q t]> (tasks c)). split; [|by rewrite length_insert].
  unfold upd_task. by rewrite bind_get, Ht, bind_some, (aset_in _ _ _ (aget_lt _ _ _ Ht)), bind_some.
Qed.

(** [proc_wait] on a zombie returns at once, without yielding, with its pid
    and exit code; the PCB is free again, the address space is destroyed (and
    left, if it was the active one), and the frames of its page tables are
    returned - and only those: the chunk behind the image is never freed. *)
Theorem proc_wait_reaps kpgd s i p a fs G others k fuel
  (Hfind : find_pid (p_pid p) s = Some i) (Hp : aget (procs s) i = Some p)
  (Hz : p_state p = PROC_ZOMBIE) (Hlen : length (tasks (sch s)) = 16%nat)
  (Has : p_as p <> 0 /\ spaces (vm (sch s)) !! p_as p = Some a /\ self a = true /\ user_region a = 0)
  (Hfs : take (Z.to_nat (table_count a)) (tables a) = frame_addr <$> fs /\ Forall (fun f => 0 <= f < TOTAL) fs)
  (Hrep : rep (frames (vm (sch s))) G) :
  exists s' q, proc_wait kpgd (p_pid p) others k (S fuel) s = Ok ((p_pid p, p_exit p), s', []) /\
    aget (procs s') i = Some q /\ p_state q = PROC_NONE /\ p_task q = -1 /\ p_as q = 0 /\
    rep (frames (vm (sch s'))) (G ∪ list_to_set fs) /\
    as_active (vm (sch s')) <> p_as p /\ current (sch s') = current (sch s).
Proof.
  destruct Has as (Ha0 & Ha & Hself & Hur), Hfs as [Hts Hfr]. pose proof (aget_lt _ _ _ Hp) as Hi.
  destruct (as_destroy_run kpgd (p_as p) a fs _ G Hrep Ha0 Ha Hself Hur Hts Hfr) as (v & Ed & Hr & Hact & _).
  set (q := mk_proc PROC_NONE (p_pid p) (p_parent p) (-1) 0 (p_name p) (p_exit p) (p_fds p)).
  set (s1 := set_procs (<[Z.to_nat i := q]> (procs s)) (upd_vmm v s)).
  destruct (set_pid_ok (sch s1) (p_task p) (-1) Hlen) as (ts & Es & _).
  exists (set_sch (set_tasks ts (sch s1)) s1), q. split.
  { cbn [proc_wait]. rewrite bind_get, Hfind, (bind_ok _ _ _ _ _ (get_proc_ok _ _ _ Hp)).
    rewrite bool_decide_eq_true_2 by done. unfold reap. rewrite (bind_ok _ _ _ (p_exit p) (set_sch (set_tasks ts (sch s1)) s1)); [done|].
    rewrite (bind_ok _ _ _ _ _ (in_vmm_ok _ _ _ _ _ Ed)).
    rewrite (bind_ok _ _ _ _ _ (put_proc_ok (upd_vmm v s) i q Hi)). fold s1.
    by rewrite (bind_ok _ _ _ _ _ (in_sched_ok _ _ _ _ _ Es)). }
  split; [apply aget_insert; done|]. split_and!; try done.
  simpl. rewrite Hact. destruct (as_active (vm (sch s)) =? p_as p) eqn:E; bool_hyps; congruence.
Qed.

(** ** File descriptors *)

Definition fds_wf (s : pstate) : Prop :=
  length (kernel_fds s) = 8%nat /\ Forall (fun p => length (p_fds p) = 8%nat) (procs s).

(** The caller's table can be read, and replaced by another of the same size. *)
Lemma find_slot_ext f g ps qs i :
  (forall p, f p = g p) -> Forall2 (fun p q => f p = f q) ps qs -> find_slot f ps i = find_slot g qs i.
Proof.
  intros Hfg H. revert i. induction H as [|p q ps qs Hpq _ IH]; intros i; simpl; [done|].
  by rewrite Hpq, Hfg, IH.
Qed.

Lemma fd_table_run s : fds_wf s ->
  exists who f, fd_table s = Ok ((who, f), s, []) /\ length f = 8%nat /\
    forall f', length f' = 8%nat -> exists s', put_fd_table who f' s = Ok (tt, s', []) /\
      fd_table s' = Ok ((who, f'), s', []) /\ fds_wf s'.
Proof.
  intros [Hk Hf]. unfold fd_table, in_sched, sched_current_index.
  rewrite (bind_ok _ _ s (current (sch s)) s) by (by destruct s). rewrite bind_get.
  destruct (find_by_task (current (sch s)) s) as [i|] eqn:E.
  - destruct (find_slot_Some _ _ _ _ E) as (Hi & p & Hp & Ht). rewrite Z.sub_0_r in Hp.
    assert (Hg : aget (procs s) i = Some p) by (apply aget_Some; split; [lia|done]).
    rewrite (bind_ok _ _ _ _ _ (get_proc_ok _ _ _ Hg)). exists (Some i), (p_fds p).
    split; [done|]. split; [by apply (Forall_lookup_1 _ _ _ _ Hf Hp)|]. intros f' Hf'.
    exists (set_procs (<[Z.to_nat i := set_fds f' p]> (procs s)) s). split; [|split; [|split; [done|]]].
    + cbn [put_fd_table]. rewrite (bind_ok _ _ _ _ _ (get_proc_ok _ _ _ Hg)). by rewrite put_proc_ok by lia.
    + rewrite (bind_ok _ _ _ (current (sch s)) (set_procs (<[Z.to_nat i := set_fds f' p]> (procs s)) s)) by (by destruct s).
      rewrite bind_get.
      assert (find_by_task (current (sch s)) (set_procs (<[Z.to_nat i := set_fds f' p]> (procs s)) s) = Some i) as ->.
      { rewrite <- E. unfold find_by_task. symmetry. apply find_slot_ext; [done|]. simpl.
        apply Forall2_same_length_lookup_2; [by rewrite length_insert|].
        intros j x y Hx [[-> ->]|[_ Hy]]%list_insert_cases; [|congruence].
        assert (x = p) as -> by congruence. done. }
      rewrite (bind_ok _ _ _ _ _ (get_proc_ok (set_procs (<[Z.to_nat i := set_fds f' p]> (procs s)) s) i
        (set_fds f' p) (aget_insert _ _ _ Hi))). done.
    + simpl. by apply Forall_insert.
  - exists None, (kernel_fds s). split; [done|]. split; [done|]. intros f' Hf'.
    eexists. split; [done|]. split; [|done].
    rewrite (bind_ok _ _ _ (current (sch s)) (mk_pstate (procs s) (next_pid s) f' (sch s) (ram s))) by (by destruct s).
    rewrite bind_get.
    change (find_by_task _ _) with (find_by_task (current (sch s)) s). by rewrite E.
Qed.

Lemma first_null_spec f i : 
  match first_null f i with
  | Some r => i <= r < i + Z.of_nat (length f) /\ f !! Z.to_nat (r - i) = Some 0 /\
      forall j d, (j < Z.to_nat (r - i))%nat -> f !! j = Some d -> d <> 0
  | None => Forall (fun d => d <> 0) f
  end.
Proof.
  revert i. induction f as [|d f IH]; intros i; cbn [first_null]; [done|].
  destruct (d =? 0) eqn:E; bool_hyps.
  - subst. rewrite Z.sub_diag. split_and!; simpl; try done; lia.
  - specialize (IH (i + 1)). destruct (first_null f (i + 1)) as [r|]; [|by constructor].
    destruct IH as (Hr & Hl & Hlow). replace (Z.to_nat (r - i)) with (S (Z.to_nat (r - (i + 1)))) by lia.
    split_and!; simpl; try lia; [done|]. intros [|j] d' Hj; simpl; [naive_solver|].
    apply Hlow. lia.
Qed.

(** a descriptor round trip.  [proc_fd_alloc] of a device takes the lowest
    empty descriptor of the calling process (or of the kernel threads' table);
    [proc_fd_get] then gives the device back and every other descriptor as
    before, and after [proc_fd_close] all of them are as before.  Allocation
    fails, with -1 and no change, exactly when all eight are taken. *)
Theorem fd_roundtrip s dev (Hwf : fds_wf s) :
  (proc_fd_alloc dev s = Ok (-1, s, []) /\
     forall fd, 0 <= fd < 8 -> exists d, proc_fd_get fd s = Ok (d, s, []) /\ d <> 0) \/
  exists fd s1 s2, proc_fd_alloc dev s = Ok (fd, s1, []) /\ 0 <= fd < 8 /\
    proc_fd_get fd s = Ok (0, s, []) /\
    (forall j d, 0 <= j < fd -> proc_fd_get j s = Ok (d, s, []) -> d <> 0) /\
    proc_fd_get fd s1 = Ok (dev, s1, []) /\ proc_fd_close fd s1 = Ok (tt, s2, []) /\
    (forall j d, j <> fd -> proc_fd_get j s = Ok (d, s, []) -> proc_fd_get j s1 = Ok (d, s1, [])) /\
    (forall j d, proc_fd_get j s = Ok (d, s, []) -> proc_fd_get j s2 = Ok (d, s2, [])).
Proof.
  destruct (fd_table_run s Hwf) as (who & f & Et & Hlen & Hput).
  assert (Hget : forall st g, fd_table st = Ok ((who, g), st, []) -> forall j, proc_fd_get j st =
    if (j <? 0) || (j >=? PROC_FD_MAX) then Ok (0, st, []) else of_opt (aget g j) st).
  { intros st g E j. unfold proc_fd_get. rewrite (bind_ok _ _ _ _ _ E). by destruct (_ || _). }
  unfold proc_fd_alloc. rewrite (bind_ok _ _ _ _ _ Et). cbv beta iota.
  pose proof (first_null_spec f 0) as Hn. destruct (first_null f 0) as [fd|].
  2: { left. split; [done|]. intros fd Hfd. destruct (aget_in f fd ltac:(lia)) as [d Hd].
       exists d. rewrite (Hget s f Et), Hd. unfold PROC_FD_MAX.
       rewrite (proj2 (Z.ltb_ge fd 0)), Z.geb_leb, (proj2 (Z.leb_gt 8 fd)) by lia. split; [done|].
       apply aget_Some in Hd as [_ Hd]. apply (Forall_lookup_1 _ _ _ _ Hn Hd). }
  right. rewrite Z.sub_0_r in Hn. destruct Hn as (Hr & H0 & Hlow). rewrite Hlen in Hr.
  destruct (Hput (<[Z.to_nat fd := dev]> f)) as (s1 & E1 & Et1 & Hwf1); [by rewrite length_insert|].
  destruct (fd_table_run s1 Hwf1) as (who' & f' & Et1' & _ & Hput1).
  rewrite Et1 in Et1'. injection Et1' as <- <-.
  destruct (Hput1 f Hlen) as (s2 & E2 & Et2 & _).
  assert (B : (fd <? 0) || (fd >=? PROC_FD_MAX) = false).
  { unfold PROC_FD_MAX. rewrite (proj2 (Z.ltb_ge fd 0)), Z.geb_leb, (proj2 (Z.leb_gt 8 fd)) by lia. done. }
  exists fd, s1, s2. split_and!.
  - rewrite aset_in by lia. rewrite bind_some. by rewrite (bind_ok _ _ _ _ _ E1).
  - lia.
  - lia.
  - rewrite (Hget s f Et), B. by rewrite (proj2 (aget_Some f fd 0) (conj (proj1 Hr) H0)).
  - intros j d Hj. rewrite (Hget s f Et). unfold PROC_FD_MAX.
    rewrite (proj2 (Z.ltb_ge j 0)), Z.geb_leb, (proj2 (Z.leb_gt 8 j)) by lia. cbn [orb]. cbv iota.
    destruct (aget f j) as [d'|] eqn:Ej; [|done]. intros [= ->]. apply aget_Some in Ej as [_ Ej].
    by apply (Hlow (Z.to_nat j)); [lia|].
  - rewrite (Hget s1 _ Et1), B. by rewrite aget_insert by lia.
  - unfold proc_fd_close. rewrite (bind_ok _ _ _ _ _ Et1). cbv beta iota. unfold PROC_FD_MAX.
    rewrite Z.geb_leb, (proj2 (Z.leb_le 0 fd)), (proj2 (Z.ltb_lt fd 8)) by lia. cbn [andb]. cbv iota.
    rewrite aset_in by (rewrite length_insert, Hlen; lia). rewrite bind_some, list_insert_insert_eq.
    rewrite list_insert_id by done. exact E2.
  - intros j d Hj. rewrite (Hget s f Et), (Hget s1 _ Et1). destruct ((j <? 0) || (j >=? PROC_FD_MAX)) eqn:Ej; [intros H; by injection H as ->|].
    bool_hyps. rewrite aget_insert_ne by lia. destruct (aget f j) as [x|]; [|done]. intros Hx. injection Hx as ->. done.
  - intros j d. rewrite (Hget s f Et), (Hget s2 _ Et2). destruct ((j <? 0) || (j >=? PROC_FD_MAX)); [intros H; by injection H as ->|].
    destruct (aget f j) as [x|]; [|done]. intros Hx. injection Hx as ->. done.
Qed.

(** ** Concrete runs *)

Definition blank_proc : proc := mk_proc PROC_NONE 0 0 0 0 (replicate 12 0) 0 (replicate 8 0).
Definition kernel_task : list task_struct := main_task :: replicate 15 blank_task.
Definition start_state (v : vmm) : pstate :=
  mk_pstate (replicate 8 blank_proc) 1 (replicate 8 0)
    (mk_sched vmm kernel_task 0 0 0 (replicate 13 0) true v (mk_ticks [] 0)) (fun _ => 0xAA).
Definition demo_name : view := literal (bytes "demo") (fun _ => 0).


(** A machine whose frames are all free. *)
Definition free_pmm : pmm := mk_pmm (replicate 4096 0) 32768 32768.
Definition free_vmm : vmm := mk_vmm free_pmm (mk_heap HEAP_START 0 (fun _ => 0)) (fun _ => 0) ∅ 0 0 0 0 0.

Lemma fd_roundtrip_witness :
  exists fd s1, proc_fd_alloc 0x5000 (start_state free_vmm) = Ok (fd, s1, []) /\
    proc_fd_get fd s1 = Ok (0x5000, s1, []).
Proof.
  destruct (fd_roundtrip (start_state free_vmm) 0x5000) as [[_ H]|(fd & s1 & s2 & H1 & _ & _ & _ & H2 & _)].
  - split; [reflexivity|]. repeat constructor.
  - destruct (H 0 ltac:(lia)) as (d & Hd & Hd0). vm_compute in Hd. congruence.
  - exists fd, s1. split; [exact H1|exact H2].
Defined.

(** The first process exits and is not waited for; the second one is given its
    task slot.  The result is the second pid and what [proc_getpid] then says. *)
Definition zombie_run : M pstate (Z * Z) :=
  let spawn := proc_spawn_image k_pgd 0x40081000 0x400B0000 (Some demo_name) (Some [1; 2; 3; 4]) 4 0 in
  let yield := in_sched (@sched_yield vmm (vmm_spaces k_pgd)) in
  let* _ := spawn in
  let* _ := yield in
  let* _ := proc_exit k_pgd 7 in
  let* q := spawn in
  let* _ := yield in
  let* me := proc_getpid in
  ret (q, me).
Definition value {S A} (r : res (A * S * list Z)) : option A :=
  match r with Ok (a, _, _) => Some a | _ => None end.

(** A zombie shadows the process that reuses its task slot.  The scheduler
    recycles a finished slot at once, while the zombie's PCB keeps naming it
    until it is reaped, and the lookup by task accepts zombies: the new process
    (pid 2) is told it is pid 1. *)
Theorem zombie_shadows_successor : value (zombie_run (start_state free_vmm)) = Some (2, 1).
Proof. vm_compute. reflexivity. Qed.

Definition zombie : proc :=
  mk_proc PROC_ZOMBIE 5 0 1 HEAP_START (bytes "demo" ++ replicate 8 0) 7 (replicate 8 0).
Definition zombie_space : addr_space := mk_as (frame_addr 100) (frame_addr 100 :: replicate 15 0) 1 0 true.
Definition zombie_state (fr : pmm) : pstate :=
  set_procs (<[2%nat := zombie]> (replicate 8 blank_proc))
    (start_state (mk_vmm fr fresh_heap (fun _ => 0) {[HEAP_START := zombie_space]} HEAP_START 0 0 0 0)).

Lemma proc_wait_reaps_witness :
  exists fr s', pmm_init boot_pmm = Ok (tt, fr, []) /\
    proc_wait k_pgd 5 (fun _ => ret tt) 0 1 (zombie_state fr) = Ok ((5, 7), s', []) /\
    rep (frames (vm (sch s'))) (run 4736 (Z.to_nat 28032) ∪ list_to_set [100]).
Proof.
  destruct boot_rep as (fr & E & Hr).
  destruct (proc_wait_reaps k_pgd (zombie_state fr) 2 zombie zombie_space [100] (run 4736 (Z.to_nat 28032))
    (fun _ => ret tt) 0 0) as (s' & q & Hw & _ & _ & _ & _ & Hf & _).
  - reflexivity.
  - reflexivity.
  - reflexivity.
  - reflexivity.
  - split; [discriminate|]. split; [reflexivity|]. split; reflexivity.
  - split; [reflexivity|]. apply List.Forall_cons; [change TOTAL with 32768; lia|apply List.Forall_nil].
  - exact Hr.
  - exists fr, s'. split; [exact E|]. split; [exact Hw|exact Hf].
Defined.
