(* ===== verification/Syscall.v ===== *)
(** * The system call gate (kernel/syscall.c, and the lower-EL part of
    boot/aarch64/irq.c)

    [syscall_dispatch] over the state of every component it calls.  User memory
    is reached through the page tables the processor walks, so a pointer is a
    virtual address and a store through it changes [ram]. *)

From S2P Require Import Prelude Uart Tick Pmm Heap Vmm Sched Proc Device.
From S2P Require Ramfs Ipc Cmt Ai.

Definition SYS_PRINT : Z := 1.
Definition SYS_TICKS : Z := 2.
Definition SYS_YIELD : Z := 3.
Definition SYS_EXIT : Z := 4.
Definition SYS_READ : Z := 5.
Definition SYS_WRITE : Z := 6.
Definition SYS_OPEN : Z := 7.
Definition SYS_CLOSE : Z := 8.
Definition SYS_IOCTL : Z := 9.
Definition SYS_CREATE : Z := 10.
Definition SYS_DELETE : Z := 11.
Definition SYS_LIST : Z := 12.
Definition SYS_TASK_SPAWN : Z := 13.
Definition SYS_TASK_EXIT : Z := 14.
Definition SYS_AI_REPORT : Z := 15.
Definition SYS_IPC_CREATE : Z := 16.
Definition SYS_IPC_SEND : Z := 17.
Definition SYS_IPC_RECV : Z := 18.
Definition SYS_IPC_DESTROY : Z := 19.
Definition SYS_GETPID : Z := 20.
Definition SYS_WAITPID : Z := 21.

(** [(uint64_t)-1] *)
Definition MINUS1 : Z := 2 ^ 64 - 1.

(** ** Pointer checks *)

Definition is_user_ptr (addr len : Z) : bool :=
  if addr =? 0 then false else
  if u64 (addr + len) <? addr then false else
  if (addr >=? RAM_START) && (u64 (addr + len) <=? RAM_END) then true else
  if (addr >=? USER_VA_BASE) && (u64 (addr + len) <=? USER_VA_STACK) then true else
  false.
Definition is_user_ptr_simple (addr : Z) : bool := is_user_ptr addr 1.

(** ** The kernel's state *)

(** [k_devs], [k_ndev] and [k_objs] are the device framework's table; the AI
    engine and its timer are [k_ai]; [legacy] is [legacy_stack_count]. *)
Record kst := mk_kst {
  k_proc : pstate; k_fs : Ramfs.ramfs; k_ipc : Ipc.ipc_state;
  k_devs : list Z; k_ndev : Z; k_objs : gmap Z device; k_ai : Ai.aik; legacy : Z }.

Definition set_proc (p : pstate) (k : kst) : kst :=
  mk_kst p (k_fs k) (k_ipc k) (k_devs k) (k_ndev k) (k_objs k) (k_ai k) (legacy k).
Definition in_proc {A} (m : M pstate A) : M kst A := zoom k_proc set_proc m.
Definition in_fs {A} (m : M Ramfs.ramfs A) : M kst A :=
  zoom k_fs (fun f k => mk_kst (k_proc k) f (k_ipc k) (k_devs k) (k_ndev k) (k_objs k) (k_ai k) (legacy k)) m.
Definition in_ipc {A} (m : M Ipc.ipc_state A) : M kst A :=
  zoom k_ipc (fun q k => mk_kst (k_proc k) (k_fs k) q (k_devs k) (k_ndev k) (k_objs k) (k_ai k) (legacy k)) m.
(** Drivers act on the process state, memory included. *)
Definition in_dev {A} (m : M (devtab pstate) A) : M kst A :=
  zoom (fun k => mk_devtab (k_devs k) (k_ndev k) (k_objs k) (k_proc k))
    (fun d k => mk_kst (rest d) (k_fs k) (k_ipc k) (dev_table d) (dev_count d) (devs d) (k_ai k) (legacy k)) m.
Definition in_ai {A} (m : M Ai.aik A) : M kst A :=
  zoom k_ai (fun a k => mk_kst (k_proc k) (k_fs k) (k_ipc k) (k_devs k) (k_ndev k) (k_objs k) a (legacy k)) m.

(** ** User memory *)

(** The physical address behind [va]: itself while the MMU is off; [None] where
    the walk from the active tables finds no mapping, which faults. *)
Definition xlate (v : vmm) (va : Z) : option Z :=
  if Z.testbit (sctlr_el1 v) 0 then
    let pa := walk (words v) (ttbr0_el1 v) va in if pa =? 0 then None else Some pa
  else Some va.

Definition load_byte (va : Z) : M kst Z :=
  let* k := get in
  let* pa := of_opt (xlate (vm (sch (k_proc k))) va) in
  ret (ram (k_proc k) pa).
Definition store_byte (va b : Z) : M kst unit :=
  let* k := get in
  let* pa := of_opt (xlate (vm (sch (k_proc k))) va) in
  in_proc (modify (fun p => set_ram (mem_write (ram p) pa [b]) p)).
Fixpoint load_bytes (va : Z) (n : nat) : M kst (list Z) :=
  match n with
  | O => ret []
  | S n' => let* b := load_byte va in let* bs := load_bytes (va + 1) n' in ret (b :: bs)
  end.
Fixpoint store_bytes (va : Z) (bs : list Z) : M kst unit :=
  match bs with
  | [] => ret tt
  | b :: bs' => store_byte va b ;;; store_bytes (va + 1) bs'
  end.
Definition bytes_view (bs : list Z) : view := fun i => nth i bs 0.

(** A name argument: sixteen bytes, as many as a lookup reads; a fault on any
    of them counts as a fault of the call. *)
Definition load_name (va : Z) : M kst view :=
  let* bs := load_bytes va 16 in ret (bytes_view bs).

(** ** The calls *)

(** [regs] is the saved frame: x0 is entry 0, the number is in x8. *)
Definition reg (regs : list Z) (i : nat) : Z := nth i regs 0.
Definition set_x0 (regs : list Z) (v : Z) : list Z := <[0%nat := u64 v]> regs.

(** [for (n = 0; n < 256 && s[n] != 0; n++) uart_putc(s[n]);], from index [i]
    with [n] rounds left; the result is the final [n]. *)
Fixpoint print_loop (s i : Z) (n : nat) : M kst Z :=
  match n with
  | O => ret i
  | S n' =>
      let* c := load_byte (s + i) in
      if c =? 0 then ret i else putc c ;;; print_loop s (i + 1) n'
  end.

Section Dispatch.
Context (kernel_pgd : Z) (call : Z -> Z -> list Z -> M (devtab pstate) Z).
(** What happens while a waiting task is switched out, and a bound on how often
    it wakes up. *)
Context (others : nat -> M pstate unit) (fuel : nat).

Definition done_with (regs : list Z) (v : Z) : M kst (outcome * list Z) := ret (Returned, set_x0 regs v).

Definition sys_print (regs : list Z) : M kst (outcome * list Z) :=
  let p := reg regs 0 in
  if negb ((p >=? 0x40000000) || ((p >=? USER_VA_BASE) && (p <? USER_VA_STACK)))
  then done_with regs (-1) else
  let* n := print_loop p 0 256 in
  done_with regs n.

Definition sys_waitpid (regs : list Z) : M kst (outcome * list Z) :=
  let* rc := in_proc (proc_wait kernel_pgd (i32 (reg regs 0)) others 0 fuel) in
  let '(r, code) := rc in
  if (r >=? 0) && negb (reg regs 1 =? 0) then
    if negb (is_user_ptr (reg regs 1) 4) then done_with regs (-1) else
    store_bytes (reg regs 1) (le_bytes 4 (u32 code)) ;;;
    done_with regs r
  else done_with regs r.

Definition sys_open (regs : list Z) : M kst (outcome * list Z) :=
  if negb (is_user_ptr_simple (reg regs 0)) then done_with regs (-1) else
  let* name := load_name (reg regs 0) in
  let* dev := in_dev (device_open call name) in
  if negb (dev =? 0) then
    let* fd := in_proc (proc_fd_alloc dev) in done_with regs fd
  else done_with regs (-1).

(** [SYS_READ] and [SYS_WRITE], with the device operation they call. *)
Definition sys_rw (op : Z -> Z -> Z -> M (devtab pstate) Z) (regs : list Z) : M kst (outcome * list Z) :=
  if negb (is_user_ptr (reg regs 1) (u32 (reg regs 2))) then done_with regs (-1) else
  let* dev := in_proc (proc_fd_get (i32 (reg regs 0))) in
  if negb (dev =? 0) then
    let* r := in_dev (op dev (reg regs 1) (u32 (reg regs 2))) in done_with regs r
  else done_with regs (-1).

Definition sys_ioctl (regs : list Z) : M kst (outcome * list Z) :=
  let* dev := in_proc (proc_fd_get (i32 (reg regs 0))) in
  if negb (dev =? 0) then
    let* r := in_dev (device_ioctl call dev (u32 (reg regs 1)) (u32 (reg regs 2))) in done_with regs r
  else done_with regs (-1).

Definition sys_ramfs (op : view -> M Ramfs.ramfs Z) (regs : list Z) : M kst (outcome * list Z) :=
  if negb (is_user_ptr_simple (reg regs 0)) then done_with regs (-1) else
  let* name := load_name (reg regs 0) in
  let* r := in_fs (op name) in
  done_with regs r.

(** [ipc_send] reads at most [IPC_MSG_SIZE] bytes of the buffer; they are read
    here before its own checks, so a fault counts even for a bad queue. *)
Definition sys_ipc_send (regs : list Z) : M kst (outcome * list Z) :=
  let n := u32 (reg regs 2) in
  if (n >? 0) && negb (is_user_ptr (reg regs 1) n) then done_with regs (-1) else
  let* bs := load_bytes (reg regs 1) (Z.to_nat (Z.min n Ipc.IPC_MSG_SIZE)) in
  let buf := if reg regs 1 =? 0 then None else Some (bytes_view bs) in
  let* r := in_ipc (Ipc.ipc_send (i32 (reg regs 0)) buf n (u32 (reg regs 3))) in
  done_with regs r.

Definition sys_ipc_recv (regs : list Z) : M kst (outcome * list Z) :=
  let buf := reg regs 1 in
  let len_ptr := reg regs 2 in
  let sender_ptr := reg regs 3 in
  if negb (is_user_ptr buf Ipc.IPC_MSG_SIZE) then done_with regs (-1) else
  if negb (len_ptr =? 0) && negb (is_user_ptr len_ptr 4) then done_with regs (-1) else
  if negb (sender_ptr =? 0) && negb (is_user_ptr sender_ptr 4) then done_with regs (-1) else
  let* rm := in_ipc (Ipc.ipc_recv (i32 (reg regs 0)) (negb (buf =? 0))) in
  let '(r, m) := rm in
  (match m with
   | Some (bs, len, sender) =>
       store_bytes buf bs ;;;
       (if negb (len_ptr =? 0) then store_bytes len_ptr (le_bytes 4 len) else ret tt) ;;;
       (if negb (sender_ptr =? 0) then store_bytes sender_ptr (le_bytes 4 sender) else ret tt)
   | None => ret tt
   end) ;;;
  done_with regs r.

(** The frame comes back with the result in x0.  A call that switches tasks
    returns when the task is next scheduled; [SYS_EXIT] never does. *)
Definition syscall_dispatch (regs : list Z) : M kst (outcome * list Z) :=
  let num := reg regs 8 in
  if num =? SYS_PRINT then sys_print regs else
  if num =? SYS_TICKS then
    let* t := in_ai (Ai.in_timer timer_get_ticks) in done_with regs t else
  if num =? SYS_YIELD then
    let* o := in_proc (in_sched (@sched_yield vmm (vmm_spaces kernel_pgd))) in ret (o, regs) else
  if num =? SYS_EXIT then
    let* o := in_proc (proc_exit kernel_pgd (i32 (reg regs 0))) in ret (o, regs) else
  if num =? SYS_GETPID then
    let* p := in_proc proc_getpid in done_with regs p else
  if num =? SYS_WAITPID then sys_waitpid regs else
  if num =? SYS_OPEN then sys_open regs else
  if num =? SYS_CLOSE then in_proc (proc_fd_close (i32 (reg regs 0))) ;;; done_with regs 0 else
  if num =? SYS_READ then sys_rw (device_read call) regs else
  if num =? SYS_WRITE then sys_rw (device_write call) regs else
  if num =? SYS_IOCTL then sys_ioctl regs else
  if num =? SYS_CREATE then sys_ramfs Ramfs.ramfs_create regs else
  if num =? SYS_DELETE then sys_ramfs Ramfs.ramfs_delete regs else
  if num =? SYS_AI_REPORT then
    in_ai (Ai.ai_report ;;; Ai.in_cmt Cmt.cmt_report) ;;; done_with regs 0 else
  if num =? SYS_IPC_CREATE then
    let* r := in_ipc (Ipc.ipc_create (u32 (reg regs 0))) in done_with regs r else
  if num =? SYS_IPC_SEND then sys_ipc_send regs else
  if num =? SYS_IPC_RECV then sys_ipc_recv regs else
  if num =? SYS_IPC_DESTROY then
    let* r := in_ipc (Ipc.ipc_destroy (i32 (reg regs 0))) in done_with regs r else
  done_with regs (-1).

(** ** Entering user mode *)

(** The values moved to SPSR_EL1, ELR_EL1 and SP_EL0 before the [eret]. *)
Definition syscall_user_drop : M pstate (Z * Z * Z) :=
  let* es := in_sched sched_current_user_point in ret (0, fst es, snd es).

(** [legacy_stacks] is the address of that array, [drop_addr] the one of
    [syscall_user_drop]. *)
Definition sched_spawn_user (legacy_stacks drop_addr : Z) (nm : view) (entry kstack kstack_len : Z) : M kst Z :=
  let* k := get in
  if legacy k >=? 2 then ret (-1) else
  modify (fun k => mk_kst (k_proc k) (k_fs k) (k_ipc k) (k_devs k) (k_ndev k) (k_objs k) (k_ai k) (legacy k + 1)) ;;;
  let usp := Z.land (u64 (legacy_stacks + legacy k * 1024 + 1024)) (u64 (Z.lnot 0xF)) in
  in_proc (in_sched (sched_spawn_user_task drop_addr nm 0 entry usp (-1) kstack kstack_len)).

(** ** Exceptions (boot/aarch64/irq.c) *)

Definition fault_halt (kind : string) (esr far elr : Z) : M kst outcome :=
  in_proc (in_sched (modify (set_irqs false))) ;;;
  puts "" ;;; puts "*** KERNEL FAULT ***" ;;;
  puts_nolf "  Class: " ;;; puts kind ;;;
  puts_nolf "  ESR_EL1: " ;;; put_hex esr ;;; puts "" ;;;
  puts_nolf "  FAR_EL1: " ;;; put_hex far ;;; puts "" ;;;
  puts_nolf "  ELR_EL1: " ;;; put_hex elr ;;; puts "" ;;;
  puts "System halted." ;;;
  ret Parked.

(** The system registers are arguments. *)
Definition sync_handler_c (esr far elr : Z) : M kst outcome :=
  fault_halt "Synchronous exception" esr far elr.

Definition ESR_EC_SVC : Z := 0x15.

Definition sync_lower_handler_c (esr : Z) (regs : list Z) : M kst (outcome * list Z) :=
  let ec := Z.land (Z.shiftr esr 26) 0x3F in
  if ec =? ESR_EC_SVC then syscall_dispatch regs else
  puts_nolf "[fault] task idx=" ;;;
  let* i := in_proc (in_sched sched_current_index) in
  put_dec (u32 i) ;;;
  puts_nolf " name='" ;;;
  let* n := in_proc (in_sched sched_current_name) in
  puts_bytes_nolf n ;;;
  puts "'" ;;;
  let* o := fault_halt "User-mode synchronous exception" esr 0 0 in
  ret (o, regs).

Definition fiq_handler_c (regs : list Z) : M kst unit := ret tt.
Definition serror_handler_c (esr : Z) : M kst outcome :=
  fault_halt "System Error (SError)" esr 0 0.

(** The writes to the interrupt controller, in order; [vbar] is the vector's
    address, moved to VBAR_EL1. *)
Definition irq_init (vbar : Z) : M kst (Z * writes) :=
  in_ai (Ai.in_timer timer_init) ;;;
  in_proc (in_sched irq_enable) ;;;
  ret (vbar, gic_init ++ gic_enable_irq IRQ_TIMER_INTID).
End Dispatch.

(** ** Pointer checks *)

(** The two windows a user pointer may lie in. *)
Definition in_window (addr len : Z) : Prop :=
  RAM_START <= addr /\ addr + len <= RAM_END \/
  USER_VA_BASE <= addr /\ addr + len <= USER_VA_STACK.

Lemma is_user_ptr_window addr len : 0 <= addr < 2 ^ 64 -> 0 <= len < 2 ^ 32 ->
  is_user_ptr addr len = true <-> in_window addr len.
Proof.
  intros Ha Hl.
  unfold is_user_ptr, in_window, RAM_START, RAM_END, RAM_START, RAM_SIZE, USER_VA_STACK, USER_VA_BASE.
  assert (Hw : u64 (addr + len) = addr + len /\ addr + len < 2 ^ 64 \/ u64 (addr + len) < addr /\ 2 ^ 64 <= addr + len)
    by (unfold u64; zlia).
  rewrite !Z.geb_leb.
  destruct (addr =? 0) eqn:E0, (u64 (addr + len) <? addr) eqn:E1,
    (0x40000000 <=? addr) eqn:E2, (u64 (addr + len) <=? 0x40000000 + 128 * 1024 * 1024) eqn:E3,
    (0x8000000000 <=? addr) eqn:E4, (u64 (addr + len) <=? 0x8000000000 + 0x200000) eqn:E5;
    cbn [andb]; bool_hyps; split; intros; try done; try lia.
Qed.

(** [is_user_ptr] accepts exactly the ranges that lie in RAM or in the
    per-process window: no null pointer, and no range that wraps around the
    address space.  (RAM holds the kernel too, so the first window lets a
    process name the kernel's memory.) *)
Theorem is_user_ptr_exact addr len (Ha : 0 <= addr < 2 ^ 64) (Hl : 0 <= len < 2 ^ 32) :
  (is_user_ptr addr len = true <-> in_window addr len) /\
  is_user_ptr KERNEL_BASE 0x1000 = true.
Proof.
  split; [by apply is_user_ptr_window|reflexivity].
Qed.

Lemma is_user_ptr_exact_witness : in_window USER_VA_BASE 4096 /\ is_user_ptr USER_VA_BASE 4096 = true.
Proof.
  assert (in_window USER_VA_BASE 4096) as H by (right; unfold USER_VA_STACK; lia).
  split; [exact H|]. refine (proj2 (proj1 (is_user_ptr_exact USER_VA_BASE 4096 _ _)) H); unfold USER_VA_BASE; lia.
Defined.

(** The outcome of a refused call: -1 in x0, nothing else changed. *)
Definition refused (m : M kst (outcome * list Z)) (regs : list Z) (k : kst) : Prop :=
  m k = Ok ((Returned, <[0%nat := MINUS1]> regs), k, []).

(** The user ranges a call checks before it does anything. *)
Definition checked_ranges (regs : list Z) : list (Z * Z) :=
  let num := reg regs 8 in
  if (num =? SYS_OPEN) || (num =? SYS_CREATE) || (num =? SYS_DELETE) then [(reg regs 0, 1)] else
  if (num =? SYS_READ) || (num =? SYS_WRITE) then [(reg regs 1, u32 (reg regs 2))] else
  if num =? SYS_IPC_SEND then
    if u32 (reg regs 2) >? 0 then [(reg regs 1, u32 (reg regs 2))] else [] else
  if num =? SYS_IPC_RECV then
    (reg regs 1, 64) :: (if reg regs 2 =? 0 then [] else [(reg regs 2, 4)]) ++
                        (if reg regs 3 =? 0 then [] else [(reg regs 3, 4)]) else [].

(** The numbers that are implemented. *)
Definition known_calls : list Z :=
  [SYS_PRINT; SYS_TICKS; SYS_YIELD; SYS_EXIT; SYS_READ; SYS_WRITE; SYS_OPEN; SYS_CLOSE; SYS_IOCTL;
   SYS_CREATE; SYS_DELETE; SYS_AI_REPORT; SYS_IPC_CREATE; SYS_IPC_SEND; SYS_IPC_RECV;
   SYS_IPC_DESTROY; SYS_GETPID; SYS_WAITPID].

Lemma unknown_refused kpgd call others fuel regs k :
  reg regs 8 ∉ known_calls -> refused (syscall_dispatch kpgd call others fuel regs) regs k.
Proof.
  intros Hn. unfold refused, syscall_dispatch. unfold known_calls in Hn. set_unfold in Hn.
  rewrite !(proj2 (Z.eqb_neq (reg regs 8) _)) by naive_solver. done.
Qed.

(** Reduce the dispatch once the call number is known. *)
Ltac dispatch Hn := rewrite Hn; repeat match goal with
  | |- context [?a =? ?b] => let v := eval compute in (a =? b) in change (a =? b) with v; cbv iota
  end.

Ltac refuse Hn := unfold syscall_dispatch; dispatch Hn;
  unfold refused, sys_open, sys_ramfs, sys_rw, sys_ipc_send, is_user_ptr_simple.

Section Refused.
Context (regs : list Z) (k : kst).
Lemma refused_recv :
  is_user_ptr (reg regs 1) 64 = false \/ (reg regs 2 <> 0 /\ is_user_ptr (reg regs 2) 4 = false) \/
  (reg regs 3 <> 0 /\ is_user_ptr (reg regs 3) 4 = false) -> refused (sys_ipc_recv regs) regs k.
Proof.
  unfold refused, sys_ipc_recv. change Ipc.IPC_MSG_SIZE with 64. intros H.
  destruct (is_user_ptr (reg regs 1) 64); [|done]. cbn [negb].
  destruct (reg regs 2 =? 0) eqn:E2, (is_user_ptr (reg regs 2) 4) eqn:P2; cbn [negb andb];
  destruct (reg regs 3 =? 0) eqn:E3, (is_user_ptr (reg regs 3) 4) eqn:P3; cbn [negb andb]; try done;
    bool_hyps; exfalso; naive_solver.
Qed.
End Refused.


(** ** Memory through the gate *)

(** The bytes at [a .. a + n) are mapped, each to its own address (the flat
    identity map of RAM). *)
Definition flat (k : kst) (a n : Z) : Prop :=
  forall i, a <= i < a + n -> xlate (vm (sch (k_proc k))) i = Some i.
Definition with_ram (m : mem) (k : kst) : kst := set_proc (set_ram m (k_proc k)) k.

Lemma load_byte_flat k a : flat k a 1 -> load_byte a k = Ok (ram (k_proc k) a, k, []).
Proof. intros Hf. unfold load_byte. rewrite bind_get, (Hf a) by lia. done. Qed.

Lemma load_bytes_flat k a n : flat k a (Z.of_nat n) ->
  load_bytes a n k = Ok (mem_read (ram (k_proc k)) a n, k, []).
Proof.
  revert a. induction n as [|n IH]; intros a Hf; [done|]. cbn [load_bytes].
  rewrite (bind_ok _ _ _ _ _ (load_byte_flat k a ltac:(intros i Hi; apply Hf; lia))).
  rewrite (bind_ok _ _ _ _ _ (IH (a + 1) ltac:(intros i Hi; apply Hf; lia))).
  unfold mem_read. cbn [seq map]. rewrite <- seq_shift, map_map. rewrite Z.add_0_r.
  unfold ret. do 4 f_equal. apply map_ext. intros i. f_equal. lia.
Qed.

Lemma store_bytes_flat k a bs : flat k a (Z.of_nat (length bs)) ->
  exists m, store_bytes a bs k = Ok (tt, with_ram m k, []) /\
    forall x, m x = mem_write (ram (k_proc k)) a bs x.
Proof.
  revert k a. induction bs as [|b bs IH]; intros k a Hf; cbn [length] in Hf.
  { exists (ram (k_proc k)). split; [by destruct k as [[]]|]. intros x. rewrite mem_write_out; [done|simpl; lia]. }
  set (k1 := with_ram (mem_write (ram (k_proc k)) a [b]) k).
  destruct (IH k1 (a + 1)) as (m & E & Hm); [intros i Hi; apply Hf; lia|].
  exists m. split.
  - cbn [store_bytes]. rewrite (bind_ok _ _ k tt k1).
    + rewrite E. done.
    + unfold store_byte. rewrite bind_get, (Hf a), bind_some by lia. done.
  - intros x. rewrite Hm. unfold k1. cbn [k_proc with_ram set_proc ram set_ram].
    unfold mem_write. cbn [length].
    destruct (decide (x = a)) as [->|Hx].
    + rewrite (proj2 (Z.leb_gt (a + 1) a)), Z.leb_refl, (proj2 (Z.ltb_lt a (a + Z.of_nat 1))),
        (proj2 (Z.ltb_lt a (a + Z.of_nat (S (length bs))))) by lia.
      cbn [andb]. by rewrite Z.sub_diag.
    + assert (((a <=? x) && (x <? a + Z.of_nat 1)) = false) as -> by (apply andb_false_iff; rewrite Z.leb_gt, Z.ltb_ge; lia).
      assert (((a + 1 <=? x) && (x <? a + 1 + Z.of_nat (length bs))) =
              ((a <=? x) && (x <? a + Z.of_nat (S (length bs))))) as ->.
      { apply eq_true_iff_eq. rewrite !andb_true_iff, !Z.leb_le, !Z.ltb_lt. lia. }
      destruct ((a <=? x) && (x <? a + Z.of_nat (S (length bs)))) eqn:E2; [|done]. bool_hyps.
      by replace (Z.to_nat (x - a)) with (S (Z.to_nat (x - (a + 1)))) by lia.
Qed.

(** The bytes read at a user pointer. *)
Definition umem (k : kst) : mem := fun va =>
  match xlate (vm (sch (k_proc k))) va with Some pa => ram (k_proc k) pa | None => 0 end.

Lemma print_loop_run k p i n :
  (forall j, i <= j < i + Z.of_nat n -> is_Some (xlate (vm (sch (k_proc k))) (p + j))) -> 0 <= i ->
  let s := str_take (ptr_view (umem k) p) (Z.to_nat i) n in
  print_loop p i n k = Ok (i + Z.of_nat (length s), k, Pl011.uart_puts_nolf s).
Proof.
  cbv zeta. revert i. induction n as [|n IH]; intros i Hm Hi; cbn [print_loop str_take].
  { simpl. by rewrite Z.add_0_r. }
  destruct (Hm i ltac:(lia)) as [pa Hpa].
  assert (Hb : umem k (p + i) = ram (k_proc k) pa) by (unfold umem; by rewrite Hpa).
  rewrite (bind_ok _ _ k (umem k (p + i)) k).
  2: { unfold load_byte. rewrite bind_get, Hpa, bind_some, Hb. done. }
  assert (Hc : ptr_view (umem k) p (Z.to_nat i) = umem k (p + i)) by (unfold ptr_view; by rewrite Z2Nat.id).
  rewrite Hc.
  destruct (umem k (p + i) =? 0) eqn:E; [simpl; by rewrite Z.add_0_r|].
  erewrite (bind_run (putc _) _ k tt k); [|reflexivity|apply IH; [intros j Hj; apply Hm; lia|lia]].
  replace (Z.to_nat (i + 1)) with (S (Z.to_nat i)) by lia. cbn [length].
  rewrite Nat2Z.inj_succ. unfold Pl011.uart_puts_nolf. cbn [flat_map].
  by replace (i + 1 + Z.of_nat (length (str_take (ptr_view (umem k) p) (S (Z.to_nat i)) n)))
    with (i + Z.succ (Z.of_nat (length (str_take (ptr_view (umem k) p) (S (Z.to_nat i)) n)))) by lia.
Qed.

(** [SYS_PRINT] prints the characters at the pointer up to its NUL and never
    more than 256, returns how many there were, and leaves the kernel as it was.
    The pointer check has no upper bound: every address from 0x40000000 on
    passes, whichever memory it names. *)
Theorem sys_print_bounded kpgd call others fuel regs k
  (Hnum : reg regs 8 = SYS_PRINT) (Hp : 0x40000000 <= reg regs 0 < 2 ^ 64)
  (Hm : forall j, 0 <= j < 256 -> is_Some (xlate (vm (sch (k_proc k))) (reg regs 0 + j))) :
  let s := str_take (ptr_view (umem k) (reg regs 0)) 0 256 in
  syscall_dispatch kpgd call others fuel regs k =
    Ok ((Returned, <[0%nat := Z.of_nat (length s)]> regs), k, Pl011.uart_puts_nolf s) /\
  (length s <= 256)%nat.
Proof.
  intros s. pose proof (str_take_length (ptr_view (umem k) (reg regs 0)) 0 256) as Hl. fold s in Hl.
  split; [|done]. unfold syscall_dispatch. dispatch Hnum. unfold sys_print.
  rewrite Z.geb_leb, (proj2 (Z.leb_le _ _)) by lia. cbn [orb negb]. cbv iota.
  assert (Hm' : forall j, 0 <= j < 0 + Z.of_nat 256 -> is_Some (xlate (vm (sch (k_proc k))) (reg regs 0 + j))).
  { intros j Hj. apply Hm. lia. }
  pose proof (print_loop_run k (reg regs 0) 0 256 Hm' ltac:(lia)) as E.
  cbv zeta in E. change (Z.to_nat 0) with 0%nat in E. fold s in E.
  erewrite bind_run; [|exact E|reflexivity]. rewrite app_nil_r. unfold set_x0.
  by rewrite u64_small by lia.
Qed.

(** ** A message from one process to another *)

Lemma in_ipc_ok {A} (m : M Ipc.ipc_state A) k a q o : m (k_ipc k) = Ok (a, q, o) ->
  in_ipc m k = Ok (a, mk_kst (k_proc k) (k_fs k) q (k_devs k) (k_ndev k) (k_objs k) (k_ai k) (legacy k), o).
Proof. intros E. unfold in_ipc. by rewrite (zoom_ok _ _ _ _ _ _ _ E). Qed.

Lemma map_bytes_view bs n : length bs = n -> map (bytes_view bs) (seq 0 n) = bs.
Proof.
  intros <-. apply list_eq. intros i. rewrite list_lookup_fmap.
  destruct (decide (i < length bs)%nat) as [Hi|Hi].
  - rewrite lookup_seq_lt by done. destruct (lookup_lt_is_Some_2 bs i Hi) as [x Hx]. rewrite Hx.
    cbn [fmap option_fmap option_map]. f_equal. by apply nth_lookup_Some.
  - rewrite lookup_seq_ge by lia. symmetry. apply lookup_ge_None. lia.
Qed.

Definition no_overlap (a n b m : Z) : Prop := a + n <= b \/ b + m <= a.

Section Message.
Context (k : kst) (q own : Z) (Hwf : Ipc.ipc_wf (k_ipc k)).

(** Sending a message of [n] bytes, at [a], to an empty queue. *)
Lemma send_call regs a n :
  aget (Ipc.abs (k_ipc k)) q = Some (Some (own, [])) ->
  i32 (reg regs 0) = q -> reg regs 1 = a -> u32 (reg regs 2) = n -> 0 < n <= 64 ->
  0 <= a < 2 ^ 64 -> in_window a n -> flat k a n ->
  exists qs, sys_ipc_send regs k = Ok ((Returned, set_x0 regs 0),
      mk_kst (k_proc k) (k_fs k) qs (k_devs k) (k_ndev k) (k_objs k) (k_ai k) (legacy k), []) /\
    Ipc.ipc_wf qs /\ Ipc.abs qs = <[Z.to_nat q := Some (own, [(mem_read (ram (k_proc k)) a (Z.to_nat n), u32 (reg regs 3))])]>
      (Ipc.abs (k_ipc k)).
Proof.
  intros Hq Eq Ea En Hn Ha Hw Hf. unfold sys_ipc_send. rewrite En, Ea.
  rewrite (proj2 (is_user_ptr_window a n Ha ltac:(lia)) Hw). rewrite andb_false_r.
  change Ipc.IPC_MSG_SIZE with 64. rewrite Z.min_l by lia.
  rewrite (bind_ok _ _ _ _ _ (load_bytes_flat k a (Z.to_nat n) ltac:(by rewrite Z2Nat.id by lia))).
  assert (Ha0 : a <> 0) by (destruct Hw as [[? _]|[? _]]; unfold RAM_START, USER_VA_BASE in *; lia).
  rewrite (proj2 (Z.eqb_neq a 0)) by done. set (bs := mem_read _ a _).
  pose proof (Ipc.send_refines q (Some (bytes_view bs)) n (u32 (reg regs 3)) (k_ipc k) Hwf ltac:(lia)) as Hr.
  apply wp_run in Hr as (r & qs & o & E & -> & Hwf' & Hs). cbn [Ipc.run_op] in E.
  cbn [Ipc.spec_op] in Hs. rewrite Hq in Hs. cbn [length] in Hs.
  change (Ipc.IPC_MAX_MSG <=? Z.of_nat 0) with false in Hs. cbv iota in Hs.
  rewrite Z.min_l in Hs by lia. rewrite map_bytes_view in Hs by apply mem_read_length. cbn [app] in Hs. injection Hs as <- Habs.
  destruct (Ipc.ipc_send q (Some (bytes_view bs)) n (u32 (reg regs 3)) (k_ipc k)) as [[[r qs'] o]| |] eqn:Es;
    unfold bind in E; rewrite Es in E; [|done..]. cbv [ret] in E. injection E as -> -> Eo. rewrite app_nil_r in Eo. subst o.
  exists qs. split; [|by rewrite Habs]. rewrite Eq, (bind_ok _ _ _ _ _ (in_ipc_ok _ _ _ _ _ Es)). done.
Qed.

(** Receiving the only message of a queue. *)
Lemma recv_call regs bs snd b lp sp :
  aget (Ipc.abs (k_ipc k)) q = Some (Some (own, [(bs, snd)])) -> (length bs <= 64)%nat ->
  i32 (reg regs 0) = q -> reg regs 1 = b -> reg regs 2 = lp -> reg regs 3 = sp ->
  0 <= b < 2 ^ 64 -> 0 <= lp < 2 ^ 64 -> 0 <= sp < 2 ^ 64 ->
  in_window b 64 -> in_window lp 4 -> in_window sp 4 -> flat k b 64 -> flat k lp 4 -> flat k sp 4 ->
  exists qs m, sys_ipc_recv regs k = Ok ((Returned, set_x0 regs 0), with_ram m
      (mk_kst (k_proc k) (k_fs k) qs (k_devs k) (k_ndev k) (k_objs k) (k_ai k) (legacy k)), []) /\
    Ipc.ipc_wf qs /\ Ipc.abs qs = <[Z.to_nat q := Some (own, [])]> (Ipc.abs (k_ipc k)) /\
    forall x, m x = mem_write (mem_write (mem_write (ram (k_proc k)) b bs) lp (le_bytes 4 (Z.of_nat (length bs))))
                      sp (le_bytes 4 snd) x.
Proof.
  intros Hq Hlen Eq Eb El Es Hb Hl Hs Wb Wl Ws Fb Fl Fs. unfold sys_ipc_recv. rewrite Eb, El, Es.
  change Ipc.IPC_MSG_SIZE with 64.
  rewrite (proj2 (is_user_ptr_window b 64 Hb ltac:(lia)) Wb), (proj2 (is_user_ptr_window lp 4 Hl ltac:(lia)) Wl),
    (proj2 (is_user_ptr_window sp 4 Hs ltac:(lia)) Ws).
  assert (Hnz : forall a n, in_window a n -> (a =? 0) = false).
  { intros a n Hw. apply Z.eqb_neq. destruct Hw as [[? _]|[? _]]; unfold RAM_START, USER_VA_BASE in *; lia. }
  rewrite (Hnz b 64), (Hnz lp 4), (Hnz sp 4) by done. cbn [negb andb]. cbv iota.
  pose proof (Ipc.recv_refines q true (k_ipc k) Hwf) as Hr.
  apply wp_run in Hr as (r & qs & o & E & -> & Hwf' & Hsp). cbn [Ipc.run_op] in E.
  cbn [Ipc.spec_op] in Hsp. rewrite Hq in Hsp. injection Hsp as <- Habs.
  rewrite Eq, (bind_ok _ _ _ _ _ (in_ipc_ok _ _ _ _ _ E)). cbv beta iota.
  set (k1 := mk_kst (k_proc k) _ _ _ _ _ _ _).
  destruct (store_bytes_flat k1 b bs ltac:(intros i Hi; apply Fb; lia)) as (m1 & E1 & H1).
  destruct (store_bytes_flat (with_ram m1 k1) lp (le_bytes 4 (Z.of_nat (length bs)))
    ltac:(intros i Hi; apply Fl; rewrite le_bytes_length in Hi; lia)) as (m2 & E2 & H2).
  destruct (store_bytes_flat (with_ram m2 (with_ram m1 k1)) sp (le_bytes 4 snd)
    ltac:(intros i Hi; apply Fs; rewrite le_bytes_length in Hi; lia)) as (m3 & E3 & H3).
  exists qs, m3. split; [|split; [done|split; [by rewrite Habs|]]].
  - rewrite (bind_ok _ _ k1 tt (with_ram m3 k1)); [done|].
    rewrite (bind_ok _ _ _ _ _ E1), (bind_ok _ _ _ _ _ E2), E3. done.
  - intros x. rewrite H3. unfold mem_write at 1 2. case_match; [done|].
    cbn [k_proc with_ram set_proc ram set_ram]. rewrite H2. unfold mem_write at 1 2. case_match; [done|].
    apply H1.
Qed.
End Message.


(** ** Concrete runs *)

Definition open_queue : Ipc.ipc_queue :=
  Ipc.mk_queue 0 1 0 true (Ipc.queue Ipc.boot_queue) 0 0 0.
Definition demo_kst : kst :=
  mk_kst (start_state free_vmm) Ramfs.boot_ramfs (<[0%nat := open_queue]> Ipc.boot_table)
    (replicate 16 0) 0 ∅ Ai.demo_aik 0.
Definition frame (x0 x1 x2 x3 x8 : Z) : list Z := [x0; x1; x2; x3; 0; 0; 0; 0; x8] ++ replicate 22 0.
Definition no_call : Z -> Z -> list Z -> M (devtab pstate) Z := fun _ _ _ => ret 0.

Lemma frame_ok x0 x1 x2 x3 x8 i :
  Forall (fun x => 0 <= x < 2 ^ 64) [x0; x1; x2; x3; x8] -> 0 <= reg (frame x0 x1 x2 x3 x8) i < 2 ^ 64.
Proof.
  intros H. rewrite !Forall_cons in H. destruct H as (H0 & H1 & H2 & H3 & H8 & _). unfold reg, frame.
  assert (Hf : Forall (fun x => 0 <= x < 2 ^ 64) ([x0; x1; x2; x3; 0; 0; 0; 0; x8] ++ replicate 22 0)).
  2: { destruct (nth_in_or_default i ([x0; x1; x2; x3; 0; 0; 0; 0; x8] ++ replicate 22 0) 0) as [Hi|Hi].
       - by apply (proj1 (List.Forall_forall _ _) Hf).
       - rewrite Hi. lia. }
  apply Forall_app. split; [|by apply Forall_replicate]. repeat constructor; lia.
Qed.


Lemma sys_print_bounded_witness :
  exists o, syscall_dispatch k_pgd no_call (fun _ => ret tt) 1 (frame 0x40200000 0 0 0 SYS_PRINT) demo_kst =
    Ok ((Returned, frame 256 0 0 0 SYS_PRINT), demo_kst, o) /\ (length o = 256)%nat.
Proof.
  pose proof (sys_print_bounded k_pgd no_call (fun _ => ret tt) 1 (frame 0x40200000 0 0 0 SYS_PRINT) demo_kst) as H.
  destruct H as [H _].
  - reflexivity.
  - cbn. lia.
  - intros j _. by eexists.
  - eexists. split; [exact H|]. vm_compute. reflexivity.
Defined.

