(* ===== verification/Net.v ===== *)
(** * The network stack (kernel/net.c)

    Frames are byte lists.  The driver is used through [Nic]: the device's
    address and what its [k]th receive call returns; [clock] is what the [k]th
    read of the tick counter returns.  Frames handed to [vnet_send] are logged
    in [sent].  Structures are laid out as aarch64 stores them, the least
    significant byte of a 16-bit field first. *)

From S2P Require Import Prelude Uart.

Definition VNET_ETH_MTU : Z := 1500.

(** What the stack relies on (kernel/vnet.h). *)
Class Nic := {
  nic_mac : list Z;
  nic_mac_len : length nic_mac = 6%nat;
  nic_recv : nat -> list Z;                  (* [] when nothing is pending *)
  nic_recv_cap : forall k, (length (nic_recv k) <= 1500)%nat;
}.

Definition our_ip : list Z := [10; 0; 2; 15].
Definition gw_ip : list Z := [10; 0; 2; 2].
Definition bcast : list Z := replicate 6 255.
Definition icmp_id : Z := 0x4145.
Definition ET_ARP : Z := 0x0806.
Definition ET_IP4 : Z := 0x0800.
Definition ARP_REPLY : Z := 2.
Definition IP_PROTO_ICMP : Z := 1.

(** [reply_body] is the static buffer of [icmp_reply]; [recvs] and [reads]
    count the calls of the driver and of the clock. *)
Record net := mk_net {
  gw_mac : list Z; have_gw_mac : bool; reply_body : list Z;
  sent : list (list Z); recvs : nat; reads : nat }.

Definition set_gw (m : list Z) (s : net) : net :=
  mk_net m true (reply_body s) (sent s) (recvs s) (reads s).
Definition set_body (b : list Z) (s : net) : net :=
  mk_net (gw_mac s) (have_gw_mac s) b (sent s) (recvs s) (reads s).
Definition add_sent (f : list Z) (s : net) : net :=
  mk_net (gw_mac s) (have_gw_mac s) (reply_body s) (sent s ++ [f]) (recvs s) (reads s).

(** ** The checksum *)

(** The first loop and the odd byte after it. *)
Fixpoint cksum_sum (b : list Z) (sum : Z) : Z :=
  match b with
  | hi :: lo :: b' => cksum_sum b' (u32 (sum + Z.lor (Z.shiftl hi 8) lo))
  | [hi] => u32 (sum + Z.shiftl hi 8)
  | [] => sum
  end.
(** [while (sum >> 16) sum = (sum & 0xFFFF) + (sum >> 16);] *)
Fixpoint cksum_fold (sum : Z) (n : nat) : option Z :=
  match n with
  | O => None
  | S n' => if Z.shiftr sum 16 =? 0 then Some sum
            else cksum_fold (u32 (Z.land sum 0xFFFF + Z.shiftr sum 16)) n'
  end.
(** Three rounds are enough for any 32-bit sum. *)
Definition cksum (b : list Z) : option Z :=
  s ← cksum_fold (cksum_sum b 0) 4; Some (u16 (Z.lnot s)).

Definition be16 (v : Z) : Z := u16 (Z.lor (Z.shiftr v 8) (Z.shiftl v 8)).
Definition net_our_ip : string := "10.0.2.15".

(** A 16-bit field in memory. *)
Definition f16 (v : Z) : list Z := le_bytes 2 v.

Section Stack.
Context `{!Nic} (clock : nat -> Z).

(** ** Transmit *)

Definition eth_send (dst : list Z) (type : Z) (payload : list Z) : M net unit :=
  let plen := Z.to_nat (Z.min (Z.of_nat (length payload)) (VNET_ETH_MTU - 14)) in
  modify (add_sent (dst ++ nic_mac ++ f16 (be16 type) ++ take plen payload)).

(** The twenty-eight bytes of [arp_pkt_t]. *)
Definition arp_pkt (oper : Z) (sha spa tha tpa : list Z) : list Z :=
  f16 (be16 1) ++ f16 (be16 ET_IP4) ++ [6; 4] ++ f16 (be16 oper) ++ sha ++ spa ++ tha ++ tpa.
Definition arp_send (oper : Z) (tha tpa : list Z) : M net unit :=
  eth_send (if oper =? 1 then bcast else tha) ET_ARP (arp_pkt oper nic_mac our_ip tha tpa).

(** The twenty bytes of [ip_hdr_t] with the given checksum field. *)
Definition ip_hdr (total proto ck : Z) (dst : list Z) : list Z :=
  [0x45; 0] ++ f16 (be16 total) ++ f16 (be16 0x1234) ++ f16 0 ++ [64; proto] ++ f16 ck ++ our_ip ++ dst.
Definition ip_send (dst : list Z) (proto : Z) (body : list Z) : M net unit :=
  let blen := Z.min (Z.of_nat (length body)) (1500 - 20) in
  let total := u16 (20 + blen) in
  let* ck := of_opt (cksum (ip_hdr total proto 0 dst)) in
  let pkt := ip_hdr total proto ck dst ++ take (Z.to_nat blen) body in
  let* s := get in
  eth_send (if have_gw_mac s then gw_mac s else bcast) ET_IP4 pkt.

(** Storing a checksum in the header at the start of [body]. *)
Definition put_ck (ck : Z) (body : list Z) : list Z := take 2 body ++ f16 ck ++ drop 4 body.

Definition icmp_reply (src req : list Z) : M net unit :=
  let len := Nat.min (length req) (1500 - 8) in
  let* s := get in
  let body := put_ck 0 (take len req ++ drop len (reply_body s)) in
  let* ck := of_opt (cksum (take (8 + len) body)) in
  let body := put_ck ck body in
  modify (set_body body) ;;;
  ip_send src IP_PROTO_ICMP (take (8 + len) body).

Definition icmp_echo_request (ip_be seq : Z) : M net unit :=
  let body := [8; 0] ++ f16 0 ++ f16 icmp_id ++ f16 (be16 (u16 seq)) ++ replicate 32 0 in
  let* ck := of_opt (cksum body) in
  ip_send (le_bytes 4 ip_be) IP_PROTO_ICMP (put_ck ck body).

(** ** Receive *)

(** [n] bytes of the frame at [off]. *)
Definition slice (f : list Z) (off n : nat) : list Z := take n (drop off f).
Definition h16 (f : list Z) (off : nat) : Z := le_word (slice f off 2).

Definition handle_arp (a : list Z) : M net unit :=
  (if (be16 (h16 a 6) =? 1) && bool_decide (slice a 24 4 = our_ip)
   then arp_send ARP_REPLY (slice a 8 6) (slice a 14 4) else ret tt) ;;;
  (if (be16 (h16 a 6) =? 2) && bool_decide (slice a 14 4 = gw_ip)
   then modify (set_gw (slice a 8 6)) else ret tt).

Definition handle_rx (f : list Z) : M net unit :=
  let len := length f in
  if (len <? 14 + 2)%nat then ret tt else
  let ethertype := h16 f 12 in
  if (ethertype =? be16 ET_ARP) && (14 + 28 <=? len)%nat then handle_arp (slice f 14 28) else
  if (ethertype =? be16 ET_IP4) && (14 + 20 <=? len)%nat then
    let ih := slice f 14 20 in
    if negb (nth 9 ih 0 =? IP_PROTO_ICMP) then ret tt else
    if negb (bool_decide (slice ih 16 4 = our_ip)) then ret tt else
    let body := drop (14 + 20) f in
    if (8 <=? length body)%nat && (nth 0 body 0 =? 8) then icmp_reply (slice ih 12 4) body else ret tt
  else ret tt.

Definition vnet_recv : M net (list Z) :=
  let* s := get in
  put (mk_net (gw_mac s) (have_gw_mac s) (reply_body s) (sent s) (S (recvs s)) (reads s)) ;;;
  ret (nic_recv (recvs s)).
Definition timer_get_ticks : M net Z :=
  let* s := get in
  put (mk_net (gw_mac s) (have_gw_mac s) (reply_body s) (sent s) (recvs s) (S (reads s))) ;;;
  ret (clock (reads s)).

(** [while ((n = vnet_recv(...)) > 0) handle_rx(...);], [fuel] rounds at most. *)
Fixpoint net_poll (fuel : nat) : M net unit :=
  match fuel with
  | O => fun _ => NoFuel
  | S fuel' =>
      let* f := vnet_recv in
      if (length f =? 0)%nat then ret tt else handle_rx f ;;; net_poll fuel'
  end.

(** [for (t0 = ...; ticks - t0 < limit && !have_gw_mac;) net_poll();] *)
Fixpoint wait_gw (t0 limit : Z) (fuel : nat) : M net unit :=
  match fuel with
  | O => fun _ => NoFuel
  | S fuel' =>
      let* t := timer_get_ticks in
      let* s := get in
      if (u64 (t - t0) <? limit) && negb (have_gw_mac s)
      then net_poll fuel ;;; wait_gw t0 limit fuel'
      else ret tt
  end.

Definition print_ip (ip_be : Z) : M net unit :=
  put_dec (Z.land (Z.shiftr ip_be 24) 0xFF) ;;; putc 46 ;;;
  put_dec (Z.land (Z.shiftr ip_be 16) 0xFF) ;;; putc 46 ;;;
  put_dec (Z.land (Z.shiftr ip_be 8) 0xFF) ;;; putc 46 ;;;
  put_dec (Z.land ip_be 0xFF).

(** The loop that waits for the reply to request [i]; the result is [got]. *)
Fixpoint wait_reply (ip_be i sent_at t0 : Z) (fuel : nat) : M net bool :=
  match fuel with
  | O => fun _ => NoFuel
  | S fuel' =>
      let* t := timer_get_ticks in
      if u64 (t - t0) <? 100 then
        net_poll fuel ;;;
        let* f := vnet_recv in
        if (14 + 20 + 8 <? length f)%nat && (nth 34 f 0 =? 0) && (nth 41 f 0 =? u8 i) then
          let* now := timer_get_ticks in
          puts_nolf "  reply from " ;;; print_ip ip_be ;;;
          puts_nolf ": time " ;;; put_dec (u32 (u32 (u64 (now - sent_at)) * 10)) ;;; puts " ms" ;;;
          let* _ := timer_get_ticks in
          ret true
        else wait_reply ip_be i sent_at t0 fuel'
      else ret false
  end.

Definition ZERO_MAC : list Z := replicate 6 0.

(** Requests [i], ..., [i + n - 1]. *)
Fixpoint ping_loop (ip_be i : Z) (n : nat) (replies : Z) (fuel : nat) : M net Z :=
  match n with
  | O => ret replies
  | S n' =>
      let* s := get in
      (if have_gw_mac s then ret tt else
         arp_send 1 ZERO_MAC gw_ip ;;;
         let* t0 := timer_get_ticks in
         wait_gw t0 30 fuel) ;;;
      let* s := get in
      if negb (have_gw_mac s) then ping_loop ip_be (i + 1) n' replies fuel else
      let* sent_at := timer_get_ticks in
      icmp_echo_request ip_be i ;;;
      let* t0 := timer_get_ticks in
      let* got := wait_reply ip_be i sent_at t0 fuel in
      (if got then ret tt else puts "  request timeout") ;;;
      ping_loop ip_be (i + 1) n' (if got then replies + 1 else replies) fuel
  end.
Definition net_ping (ip_be count : Z) (fuel : nat) : M net Z :=
  ping_loop ip_be 1 (Z.to_nat count) 0 fuel.

(** [up] is the result of [vnet_init]. *)
Definition net_init (up : bool) (fuel : nat) : M net unit :=
  if negb up then ret tt else
  arp_send 1 ZERO_MAC gw_ip ;;;
  let* t0 := timer_get_ticks in
  wait_gw t0 50 fuel ;;;
  puts_nolf "[net] stack up: 10.0.2.15/24 gw 10.0.2.2 " ;;;
  let* s := get in
  puts (if have_gw_mac s then "(gw resolved)" else "(gw pending)").
End Stack.

(** ** Dotted quads *)

(** The loop of [net_parse_ip] on the characters left; [None] is [ok = 0]. *)
Fixpoint parse_loop (s : list Z) (out part parts : Z) : option (Z * Z * Z) :=
  match s with
  | [] => Some (out, part, parts)
  | c :: s' =>
      if (c >=? 48) && (c <=? 57) then
        let part := part * 10 + (c - 48) in
        if part >? 255 then None else parse_loop s' out part parts
      else if c =? 46 then parse_loop s' (Z.lor (u32 (Z.shiftl out 8)) part) 0 (parts + 1)
      else None
  end.
Definition net_parse_ip (s : list Z) : Z :=
  match parse_loop s 0 0 0 with
  | None => 0
  | Some (out, part, parts) =>
      if negb (parts =? 3) then 0 else
      let out := Z.lor (u32 (Z.shiftl out 8)) part in
      if (out =? 0) || (out =? 0xFFFFFFFF) then 0 else out
  end.

(** ** The checksum against its definition *)

(** The big-endian 16-bit words, an odd byte padded with a zero, and their sum. *)
Fixpoint word_sum (b : list Z) : Z :=
  match b with
  | hi :: lo :: b' => hi * 256 + lo + word_sum b'
  | [hi] => hi * 256
  | [] => 0
  end.
(** The one's-complement sum of RFC 1071: end-around carry is arithmetic modulo
    65535, with 65535 for a nonzero multiple. *)
Definition ones_sum (s : Z) : Z := if s =? 0 then 0 else (s - 1) mod 65535 + 1.

Definition byte (x : Z) : Prop := 0 <= x < 256.

Lemma pair_ind (P : list Z -> Prop) :
  P [] -> (forall a, P [a]) -> (forall a b l, P l -> P (a :: b :: l)) -> forall l, P l.
Proof.
  intros H0 H1 H2 l. assert (P l /\ forall a, P (a :: l)) as [? _]; [|done].
  induction l as [|x l [IH1 IH2]]; [done|]. split; [apply IH2|]. intros a. by apply H2.
Qed.

Lemma word_sum_bound l : Forall byte l -> 0 <= word_sum l <= 65535 * ((Z.of_nat (length l) + 1) / 2).
Proof.
  induction l as [|a|a b l IH] using pair_ind; intros Hl; [by vm_compute| |].
  - apply Forall_cons in Hl as [Ha _]. unfold byte in Ha. cbn [word_sum length].
    change ((Z.of_nat 1 + 1) / 2) with 1. lia.
  - rewrite !Forall_cons in Hl. destruct Hl as (Ha & Hb & Hl). specialize (IH Hl). unfold byte in *.
    cbn [word_sum length]. replace (Z.of_nat (S (S (length l))) + 1) with (Z.of_nat (length l) + 1 + 1 * 2) by lia.
    rewrite Z.div_add by lia. lia.
Qed.

Lemma be_word hi lo : 0 <= hi -> byte lo -> Z.lor (Z.shiftl hi 8) lo = hi * 256 + lo.
Proof.
  unfold byte. intros Hh Hl. rewrite Z.shiftl_mul_pow2 by lia. apply (lor_low _ _ 8); [lia| |lia].
  by apply Z.mod_mul.
Qed.

Lemma cksum_sum_eq l s : Forall byte l -> 0 <= s -> s + word_sum l < 2 ^ 32 -> cksum_sum l s = s + word_sum l.
Proof.
  revert s. induction l as [|a|a b l IH] using pair_ind; intros s Hl Hs Hb; cbn [cksum_sum word_sum] in *.
  - lia.
  - apply Forall_cons in Hl as [Ha _]. unfold byte in Ha. rewrite Z.shiftl_mul_pow2 by lia.
    rewrite u32_small; lia.
  - rewrite !Forall_cons in Hl. destruct Hl as (Ha & Hbb & Hl). pose proof (word_sum_bound l Hl) as Hw.
    rewrite be_word by (unfold byte in *; done || lia). unfold byte in *. rewrite u32_small by lia. rewrite IH by (done || lia). lia.
Qed.

Lemma ones_sum_range s : 0 <= s -> 0 <= ones_sum s <= 65535.
Proof. intros. unfold ones_sum. case_match; bool_hyps; [lia|zlia]. Qed.

Lemma ones_sum_small s : 0 <= s <= 65535 -> ones_sum s = s.
Proof. intros. unfold ones_sum. case_match; bool_hyps; [lia|]. rewrite Z.mod_small; lia. Qed.

(** One round of folding keeps the one's-complement sum. *)
Lemma fold_step s : 0 <= s -> ones_sum (s mod 65536 + s / 65536) = ones_sum s.
Proof.
  intros Hs. unfold ones_sum. set (t := s mod 65536 + s / 65536).
  assert (Ht : s = t + 65535 * (s / 65536)) by (unfold t; zlia).
  assert (Ht0 : t = 0 <-> s = 0) by (unfold t; zlia).
  destruct (t =? 0) eqn:E1, (s =? 0) eqn:E2; bool_hyps; try tauto.
  f_equal. rewrite Ht. replace (t + 65535 * (s / 65536) - 1) with (t - 1 + s / 65536 * 65535) by lia.
  by rewrite Z.mod_add by lia.
Qed.

Lemma cksum_fold_eq s n : 0 <= s < 2 ^ 32 -> (n = 4%nat \/ (n = 3%nat /\ s <= 131070) \/ (n = 2%nat /\ s <= 65536) \/ (n = 1%nat /\ s <= 65535)) ->
  cksum_fold s n = Some (ones_sum s).
Proof.
  revert s. induction n as [|n IH]; intros s Hs Hn; [lia|]. cbn [cksum_fold].
  rewrite Z.shiftr_div_pow2 by lia. change (2 ^ 16) with 65536.
  destruct (s / 65536 =? 0) eqn:E; bool_hyps.
  - by rewrite ones_sum_small by zlia.
  - change 0xFFFF with (Z.ones 16). rewrite Z.land_ones by lia. change (2 ^ 16) with 65536.
    rewrite u32_small by zlia. rewrite IH; [by rewrite fold_step by lia|zlia|].
    destruct Hn as [Hn|[[Hn Hb]|[[Hn Hb]|[Hn Hb]]]];
      [right; left|right; right; left|right; right; right|exfalso]; clear IH; zlia.
Qed.

Lemma cksum_eq l : Forall byte l -> Z.of_nat (length l) <= 65536 -> cksum l = Some (65535 - ones_sum (word_sum l)).
Proof.
  intros Hl Hn. pose proof (word_sum_bound l Hl) as Hb.
  assert (65535 * ((Z.of_nat (length l) + 1) / 2) < 2 ^ 32) by zlia.
  unfold cksum. rewrite cksum_sum_eq by (done || lia). rewrite Z.add_0_l.
  rewrite cksum_fold_eq by (lia || (left; done)). cbn [mbind option_bind]. f_equal.
  pose proof (ones_sum_range (word_sum l) ltac:(lia)). unfold u16, Z.lnot. zlia.
Qed.

(** ** Storing and checking a checksum *)

Lemma word_sum_app l l' : Nat.even (length l) = true -> word_sum (l ++ l') = word_sum l + word_sum l'.
Proof.
  induction l as [|a|a b l IH] using pair_ind; intros He; [done|done|].
  cbn [app word_sum]. rewrite IH by done. lia.
Qed.

(** A checksum field at an even offset, holding the bytes [x] and [y]. *)
Section Field.
Context (pre post : list Z) (Hpre : Forall byte pre) (Hpost : Forall byte post)
  (Heven : Nat.even (length pre) = true) (Hlen : Z.of_nat (length pre + length post + 2) <= 65536).
Definition with_field (x y : Z) : list Z := pre ++ [x; y] ++ post.

Lemma field_sum x y : word_sum (with_field x y) = word_sum (with_field 0 0) + (x * 256 + y).
Proof. unfold with_field. rewrite !word_sum_app by done. cbn [app word_sum]. lia. Qed.

Lemma field_bytes x y : byte x -> byte y -> Forall byte (with_field x y) /\ Z.of_nat (length (with_field x y)) <= 65536.
Proof.
  intros Hx Hy. unfold with_field. split; [|rewrite !length_app; simpl; lia].
  apply Forall_app. split; [done|]. by apply Forall_cons_2; [|apply Forall_cons_2].
Qed.

(** The check of a receiver succeeds exactly when the value stored, read in
    network order, is the checksum up to the two zeros of one's complement. *)
Lemma field_check c x y :
  cksum (with_field 0 0) = Some c -> byte x -> byte y ->
  cksum (with_field x y) = Some 0 <-> (x * 256 + y) mod 65535 = c mod 65535 /\ (word_sum (with_field x y) <> 0).
Proof.
  intros Hc Hx Hy. destruct (field_bytes 0 0) as [F0 L0]; [done..|]. destruct (field_bytes x y Hx Hy) as [F1 L1].
  rewrite (cksum_eq _ F0 L0) in Hc. injection Hc as Hc. rewrite (cksum_eq _ F1 L1). rewrite field_sum.
  pose proof (proj1 (word_sum_bound _ F0)) as H0. unfold byte in *.
  set (s := word_sum (with_field 0 0)) in *. set (v := x * 256 + y) in *. assert (0 <= v) by lia.
  unfold ones_sum in *. clearbody s v. split.
  - intros [= E]. destruct (s + v =? 0) eqn:E1, (s =? 0) eqn:E2; bool_hyps; try lia; zlia.
  - intros [E Hn]. f_equal. destruct (s + v =? 0) eqn:E1, (s =? 0) eqn:E2; bool_hyps; try lia; zlia.
Qed.
End Field.

(** C20: [cksum] is the Internet checksum.  On at most 65536 bytes it is the
    complement of the one's-complement sum of the big-endian words - no overflow
    of the 32-bit accumulator, and three folds are enough - and a message whose
    checksum field (at an even offset, zero while the sum is taken) holds the
    result in network order checks to zero. *)
Theorem cksum_internet pre post (Hpre : Forall byte pre) (Hpost : Forall byte post)
  (Heven : Nat.even (length pre) = true) (Hlen : Z.of_nat (length pre + length post + 2) <= 65536) :
  exists c, cksum (with_field pre post 0 0) = Some c /\ 0 <= c < 65536 /\
    c = 65535 - ones_sum (word_sum (with_field pre post 0 0)) /\
    cksum (with_field pre post (c / 256) (c mod 256)) = Some 0.
Proof.
  destruct (field_bytes pre post Hpre Hpost Hlen 0 0) as [F0 L0]; [done..|].
  pose proof (cksum_eq _ F0 L0) as Hc. pose proof (proj1 (word_sum_bound _ F0)) as H0.
  pose proof (ones_sum_range _ H0) as Hr. set (c := 65535 - ones_sum _) in *.
  exists c. split; [done|]. split; [lia|]. split; [done|].
  assert (Hv : c / 256 * 256 + c mod 256 = c) by zlia.
  apply (field_check pre post Hpre Hpost Heven Hlen c _ _ Hc); [unfold byte; zlia..|]. rewrite Hv. split; [done|].
  rewrite field_sum, Hv by done. unfold c, ones_sum. case_match; bool_hyps; zlia.
Qed.

(** ** Headers *)

Lemma f16_bytes v : Forall byte (f16 v).
Proof. unfold f16, byte. repeat constructor; zlia. Qed.
Lemma f16_length v : length (f16 v) = 2%nat.
Proof. done. Qed.

Definition ip_pre (total proto : Z) : list Z :=
  [0x45; 0] ++ f16 (be16 total) ++ f16 (be16 0x1234) ++ f16 0 ++ [64; proto].
Lemma ip_hdr_field total proto ck dst :
  ip_hdr total proto ck dst = with_field (ip_pre total proto) (our_ip ++ dst) (ck mod 256) (ck / 256 mod 256).
Proof. reflexivity. Qed.

Lemma ip_pre_bytes total proto : byte proto -> Forall byte (ip_pre total proto).
Proof.
  intros Hp. unfold ip_pre. rewrite !Forall_app.
  split_and!; try apply f16_bytes; repeat (apply Forall_cons_2 || apply Forall_nil_2); done || (unfold byte; lia).
Qed.
Lemma ip_post_bytes dst : Forall byte dst -> Forall byte (our_ip ++ dst).
Proof.
  intros Hd. apply Forall_app. split; [|done].
  unfold our_ip, byte. repeat (apply Forall_cons_2 || apply Forall_nil_2); lia.
Qed.

Section Sending.
Context `{!Nic}.

(** The frame [eth_send] builds: what follows the Ethernet header. *)
Lemma eth_payload dst type payload n :
  length dst = 6%nat -> (n <= length payload)%nat -> (n <= 1486)%nat ->
  slice (dst ++ nic_mac ++ f16 (be16 type) ++
         take (Z.to_nat (Z.min (Z.of_nat (length payload)) (VNET_ETH_MTU - 14))) payload) 14 n = take n payload.
Proof.
  intros Hd Hn Hm. pose proof nic_mac_len as Hmac. unfold slice, VNET_ETH_MTU.
  rewrite !(app_assoc _ _ (take _ _)), drop_app_length'.
  - rewrite take_take. f_equal. lia.
  - rewrite !length_app, Hd, Hmac. done.
Qed.

Definition net_ok (s : net) : Prop := length (gw_mac s) = 6%nat /\ length (reply_body s) = 1500%nat.

Lemma ip_send_run dst proto body s : net_ok s -> Forall byte dst -> length dst = 4%nat -> byte proto ->
  let total := u16 (20 + Z.min (Z.of_nat (length body)) 1480) in
  exists ck f, cksum (ip_hdr total proto 0 dst) = Some ck /\ 0 <= ck < 65536 /\
    ip_send dst proto body s = Ok (tt, add_sent f s, []) /\ slice f 14 20 = ip_hdr total proto ck dst.
Proof.
  intros [Hg _] Hd Hl Hp total.
  pose proof (ip_pre_bytes total proto Hp) as Hpre. pose proof (ip_post_bytes dst Hd) as Hpost.
  destruct (field_bytes (ip_pre total proto) (our_ip ++ dst) Hpre Hpost) with (x := 0) (y := 0) as [F0 L0];
    [rewrite length_app, Hl; done|done|done|].
  pose proof (cksum_eq _ F0 L0) as Hc. pose proof (proj1 (word_sum_bound _ F0)) as H0.
  pose proof (ones_sum_range _ H0) as Hr.
  eexists _, _. split; [rewrite ip_hdr_field; exact Hc|]. split; [lia|]. split.
  - unfold ip_send. cbv zeta. change (1500 - 20) with 1480. fold total.
    change (cksum (ip_hdr total proto 0 dst)) with (cksum (with_field (ip_pre total proto) (our_ip ++ dst) 0 0)).
    rewrite Hc, bind_some.
    rewrite (bind_ok get _ s s s) by done. reflexivity.
  - cbv zeta. rewrite eth_payload.
    + rewrite take_app_length'; [done|]. rewrite ip_hdr_field. unfold with_field. rewrite !length_app, Hl. done.
    + by destruct (have_gw_mac s).
    + rewrite ip_hdr_field. unfold with_field. rewrite !length_app, Hl. simpl. lia.
    + lia.
Qed.

(** A body that fits is sent whole. *)
Lemma ip_send_whole dst proto body s : net_ok s -> Forall byte dst -> length dst = 4%nat -> byte proto ->
  (length body <= 1466)%nat ->
  exists eh ih, length eh = 14%nat /\ length ih = 20%nat /\
    ip_send dst proto body s = Ok (tt, add_sent (eh ++ ih ++ body) s, []).
Proof.
  intros Hok Hd Hl Hp Hn. destruct (ip_send_run dst proto body s Hok Hd Hl Hp) as (ck & _ & Hc & _). cbv zeta in Hc.
  set (total := u16 _) in Hc. set (m := if have_gw_mac s then gw_mac s else bcast).
  exists (m ++ nic_mac ++ f16 (be16 ET_IP4)), (ip_hdr total proto ck dst).
  assert (Hih : length (ip_hdr total proto ck dst) = 20%nat).
  { rewrite ip_hdr_field. unfold with_field. rewrite !length_app, Hl. done. }
  split; [|split; [exact Hih|]].
  - rewrite !length_app, nic_mac_len. unfold m. by destruct (have_gw_mac s); [rewrite (proj1 Hok)|].
  - unfold ip_send. cbv zeta. change (1500 - 20) with 1480. fold total. rewrite Hc, bind_some.
    rewrite (bind_ok get _ s s s) by done. fold m. unfold eth_send, VNET_ETH_MTU, modify.
    rewrite (take_ge body) by lia. rewrite take_ge by (rewrite length_app, Hih; lia).
    by rewrite !app_assoc.
Qed.
End Sending.

(** The header checksum goes out in the wrong byte order.  For every
    destination, protocol and body, [ip_send] sends one frame; a receiver's check
    of its IP header succeeds exactly when the two bytes of the checksum happen
    to be equal, and always would if they were exchanged. *)
Theorem ip_checksum_swapped `{!Nic} dst proto body s (Hok : net_ok s)
  (Hdst : Forall byte dst /\ length dst = 4%nat) (Hproto : byte proto) :
  exists f hi lo pre post, ip_send dst proto body s = Ok (tt, add_sent f s, []) /\
    slice f 14 20 = with_field pre post lo hi /\ length pre = 10%nat /\
    cksum (with_field pre post hi lo) = Some 0 /\
    (cksum (slice f 14 20) = Some 0 <-> hi = lo).
Proof.
  destruct Hdst as [Hd Hl].
  destruct (ip_send_run dst proto body s Hok Hd Hl Hproto) as (ck & f & Hc & Hr & E & Hs). cbv zeta in *.
  set (total := u16 _) in *. rewrite ip_hdr_field in Hc.
  pose proof (ip_pre_bytes total proto Hproto) as Hpre. pose proof (ip_post_bytes dst Hd) as Hpost.
  assert (Hlen : Z.of_nat (length (ip_pre total proto) + length (our_ip ++ dst) + 2) <= 65536)
    by (rewrite length_app, Hl; done).
  exists f, (ck / 256), (ck mod 256), (ip_pre total proto), (our_ip ++ dst).
  assert (Hs' : slice f 14 20 = with_field (ip_pre total proto) (our_ip ++ dst) (ck mod 256) (ck / 256)).
  { rewrite Hs, ip_hdr_field. f_equal. zlia. }
  split; [exact E|]. split; [exact Hs'|]. split; [done|].
  assert (Hnz : forall x y, byte x -> byte y -> word_sum (with_field (ip_pre total proto) (our_ip ++ dst) x y) <> 0).
  { intros x y Hx Hy. unfold with_field. rewrite word_sum_app by done.
    pose proof (word_sum_bound _ Hpre). unfold ip_pre. rewrite word_sum_app by done.
    pose proof (field_bytes [] (our_ip ++ dst) (Forall_nil_2 _) Hpost ltac:(rewrite length_app, Hl; done) x y Hx Hy) as [Hb _].
    unfold with_field in Hb. pose proof (proj1 (word_sum_bound _ Hb)).
    assert (Ht : Forall byte (f16 (be16 total) ++ f16 (be16 0x1234) ++ f16 0 ++ [64; proto])).
    { unfold ip_pre in Hpre. by apply Forall_app in Hpre as [_ ?]. }
    pose proof (proj1 (word_sum_bound _ Ht)). cbn [app word_sum] in *. lia. }
  assert (B1 : byte (ck / 256)) by (unfold byte; zlia). assert (B2 : byte (ck mod 256)) by (unfold byte; zlia).
  split.
  - apply (field_check _ _ Hpre Hpost eq_refl Hlen ck); [exact Hc|done..|]. split; [f_equal; zlia|by apply Hnz].
  - rewrite Hs', (field_check _ _ Hpre Hpost eq_refl Hlen ck) by done. unfold byte in *.
    split; [intros [Hm _]|intros Hm; split; [f_equal|by apply Hnz]]; zlia.
Qed.

(** ** ARP *)

(** an ARP request for our address is answered.  Whatever the Ethernet
    header's addresses, a frame that carries a request from [sha], [spa] for
    10.0.2.15 makes the stack send exactly one frame: to [sha], an ARP reply that
    gives the device's address for 10.0.2.15 and names [sha], [spa] as its target;
    the gateway's entry is not touched. *)
Theorem arp_request_answered `{!Nic} dst src sha spa tha s
  (Hd : length dst = 6%nat /\ length src = 6%nat)
  (Ha : length sha = 6%nat /\ length spa = 4%nat /\ length tha = 6%nat) :
  handle_rx (dst ++ src ++ f16 (be16 ET_ARP) ++ arp_pkt 1 sha spa tha our_ip) s =
    Ok (tt, add_sent (sha ++ nic_mac ++ f16 (be16 ET_ARP) ++ arp_pkt 2 nic_mac our_ip sha spa) s, []).
Proof.
  destruct Hd as [H1 H2], Ha as (H3 & H4 & H5). pose proof nic_mac_len as Hm.
  do 7 (destruct dst as [|? dst]; try discriminate). do 7 (destruct src as [|? src]; try discriminate).
  do 7 (destruct sha as [|? sha]; try discriminate). do 5 (destruct spa as [|? spa]; try discriminate).
  do 7 (destruct tha as [|? tha]; try discriminate).
  unfold handle_rx, handle_arp, arp_send, eth_send, modify. 
  destruct nic_mac as [|m0 [|m1 [|m2 [|m3 [|m4 [|m5 [|]]]]]]]; try discriminate. reflexivity.
Qed.

(** ** Addresses *)

(** The decimal digits of a byte, as the console prints it. *)
Definition dec3 (v : Z) : list Z :=
  if v <? 10 then [48 + v] else if v <? 100 then [48 + v / 10; 48 + v mod 10]
  else [48 + v / 100; 48 + v / 10 mod 10; 48 + v mod 10].
Definition dotted (a b c d : Z) : list Z := dec3 a ++ 46 :: dec3 b ++ 46 :: dec3 c ++ 46 :: dec3 d.

Lemma parse_digit d s out part parts : 0 <= d <= 9 -> 0 <= part * 10 + d <= 255 ->
  parse_loop ((48 + d) :: s) out part parts = parse_loop s out (part * 10 + d) parts.
Proof.
  intros Hd Hp. cbn [parse_loop]. rewrite Z.geb_leb, !(proj2 (Z.leb_le _ _)) by lia. cbn [andb].
  replace (48 + d - 48) with d by lia. rewrite Z.gtb_ltb, (proj2 (Z.ltb_ge _ _)) by lia. done.
Qed.

Lemma parse_dec3 v s out parts : byte v -> parse_loop (dec3 v ++ s) out 0 parts = parse_loop s out v parts.
Proof.
  unfold byte, dec3. intros Hv. repeat case_match; bool_hyps; cbn [app]; rewrite !parse_digit by zlia; f_equal; zlia.
Qed.

Lemma shift_in out v : 0 <= out < 2 ^ 24 -> byte v -> Z.lor (u32 (Z.shiftl out 8)) v = out * 256 + v.
Proof.
  intros Ho Hv. rewrite u32_small by (rewrite Z.shiftl_mul_pow2 by lia; lia). apply be_word; [lia|done].
Qed.

Definition quad (a b c d : Z) : Z := ((a * 256 + b) * 256 + c) * 256 + d.

Lemma parse_dotted a b c d : byte a -> byte b -> byte c -> byte d ->
  net_parse_ip (dotted a b c d) = if (quad a b c d =? 0) || (quad a b c d =? 0xFFFFFFFF) then 0 else quad a b c d.
Proof.
  intros Ha Hb Hc Hd. unfold net_parse_ip, dotted.
  assert (Hdot : forall s out part parts, parse_loop (46 :: s) out part parts =
    parse_loop s (Z.lor (u32 (Z.shiftl out 8)) part) 0 (parts + 1)) by done.
  rewrite parse_dec3, Hdot, parse_dec3, Hdot, parse_dec3, Hdot by done.
  rewrite <- (app_nil_r (dec3 d)), parse_dec3 by done. cbn [parse_loop].
  change (negb (0 + 1 + 1 + 1 =? 3)) with false. cbv iota zeta. unfold byte in *.
  rewrite (shift_in 0 a), (shift_in (0 * 256 + a) b), (shift_in ((0 * 256 + a) * 256 + b) c),
    (shift_in (((0 * 256 + a) * 256 + b) * 256 + c) d) by (unfold byte; lia). done.
Qed.

Lemma quad_bytes a b c d : byte a -> byte b -> byte c -> byte d -> le_bytes 4 (quad a b c d) = [d; c; b; a].
Proof. unfold byte, quad. intros. cbn [le_bytes]. repeat f_equal; zlia. Qed.

(** [net_parse_ip] reads every dotted quad as the number of its four bytes,
    most significant first (0 for 0.0.0.0 and 255.255.255.255) - and
    [icmp_echo_request] then sends the four bytes of that number as the processor
    stores them: a ping of a.b.c.d goes to d.c.b.a. *)
Theorem ping_address_reversed `{!Nic} a b c d seq s (Hok : net_ok s)
  (Hq : byte a /\ byte b /\ byte c /\ byte d) (Hv : 0 < quad a b c d < 0xFFFFFFFF) :
  net_parse_ip (dotted a b c d) = quad a b c d /\
  exists f, icmp_echo_request (net_parse_ip (dotted a b c d)) seq s = Ok (tt, add_sent f s, []) /\
    slice f 30 4 = [d; c; b; a].
Proof.
  destruct Hq as (Ha & Hb & Hc & Hd).
  assert (Hp : net_parse_ip (dotted a b c d) = quad a b c d).
  { rewrite parse_dotted by done. rewrite !(proj2 (Z.eqb_neq _ _)) by lia. done. }
  split; [exact Hp|]. rewrite Hp. unfold icmp_echo_request. cbv zeta.
  set (body := [8; 0] ++ _). rewrite quad_bytes by done.
  assert (Hb0 : Forall byte body).
  { unfold body. rewrite !Forall_app. split_and!; try apply f16_bytes; try (by apply Forall_replicate);
      repeat (apply Forall_cons_2 || apply Forall_nil_2); unfold byte; lia. }
  rewrite (cksum_eq body Hb0) by done. rewrite bind_some.
  destruct (ip_send_run [d; c; b; a] IP_PROTO_ICMP (put_ck (65535 - ones_sum (word_sum body)) body) s Hok)
    as (ck & f & _ & _ & E & Hs); [by repeat (apply Forall_cons_2 || apply Forall_nil_2)|done|by vm_compute|].
  exists f. split; [exact E|].
  assert (Hsl : slice f 30 4 = slice (slice f 14 20) 16 4).
  { unfold slice. rewrite skipn_firstn_comm, drop_drop, take_take. done. }
  rewrite Hsl, Hs. done.
Qed.

(** ** Echo *)

Lemma put_ck_twice c c' X : (4 <= length X)%nat -> put_ck c (put_ck c' X) = put_ck c X.
Proof.
  intros Hl. unfold put_ck. destruct X as [|x0 [|x1 [|x2 [|x3 X]]]]; simpl in Hl; try lia. reflexivity.
Qed.

(** an echo request is answered with another request.  The message sent back
    for an ICMP echo request of [n] bytes still has type 8, and it is [n + 8]
    bytes long: the last eight are whatever the static buffer held from earlier
    messages. *)
Theorem echo_reply_is_request `{!Nic} src req s (Hok : net_ok s)
  (Hsrc : Forall byte src /\ length src = 4%nat) (Hreq : Forall byte req /\ (8 <= length req <= 1400)%nat)
  (Hbody : Forall byte (reply_body s)) (Htype : nth 0 req 0 = 8) :
  exists f s', icmp_reply src req s = Ok (tt, s', []) /\ sent s' = sent s ++ [f] /\
    nth 34 f 0 = 8 /\ length f = (34 + length req + 8)%nat /\
    drop (34 + length req) f = slice (reply_body s) (length req) 8.
Proof.
  destruct Hsrc as [Hs1 Hs2], Hreq as [Hr1 Hr2], Hok as [Hg Hb].
  unfold icmp_reply. cbv zeta. rewrite (bind_ok get _ s s s) by done.
  rewrite (Nat.min_l (length req) (1500 - 8)) by lia. rewrite (take_ge req (length req)) by lia.
  set (n := length req) in *. set (X := req ++ drop n (reply_body s)).
  assert (HX : Forall byte X) by (apply Forall_app; split; [done|by apply Forall_drop]).
  assert (HXl : length X = 1500%nat) by (unfold X; rewrite length_app, length_drop, Hb; fold n; lia).
  assert (Hck : forall c, Forall byte (put_ck c X) /\ length (put_ck c X) = 1500%nat).
  { intros c. unfold put_ck. split.
    - rewrite !Forall_app. split_and!; [by apply Forall_take|apply f16_bytes|by apply Forall_drop].
    - rewrite !length_app, length_take, length_drop, HXl. done. }
  destruct (Hck 0) as [Hb0 Hl0]. rewrite (cksum_eq (take (8 + n) (put_ck 0 X))), bind_some.
  2: by apply Forall_take.
  2: rewrite length_take, Hl0; lia.
  set (ck := 65535 - _). rewrite put_ck_twice by (rewrite HXl; lia).
  destruct (Hck ck) as [Hb1 Hl1]. set (s1 := set_body (put_ck ck X) s).
  rewrite (bind_ok (modify _) _ s tt s1) by done.
  destruct (ip_send_whole src IP_PROTO_ICMP (take (8 + n) (put_ck ck X)) s1) as (eh & ih & He & Hi & E);
    [split; [done|by rewrite <- Hl1]|done|done|by vm_compute|rewrite length_take; lia|].
  eexists _, _. split; [exact E|]. split; [reflexivity|].
  assert (Hpk : take (8 + n) (put_ck ck X) = take 2 req ++ f16 ck ++ drop 4 req ++ slice (reply_body s) n 8).
  { unfold put_ck, X. rewrite (take_app_le req _ 2), (drop_app_le req _ 4) by (fold n; lia). unfold slice.
    rewrite take_app_ge by (rewrite length_take; lia). rewrite length_take. f_equal.
    rewrite take_app_ge by (rewrite f16_length; fold n; lia). f_equal. rewrite f16_length.
    rewrite take_app_ge by (rewrite length_drop; fold n; lia). f_equal.
    rewrite length_drop. f_equal. fold n. lia. }
  assert (Hhd : length (eh ++ ih) = 34%nat) by (by rewrite length_app, He, Hi).
  split_and!.
  - rewrite app_assoc, app_nth2 by (rewrite Hhd; lia). rewrite Hhd, Hpk.
    clear -Htype Hr2. unfold n in *. destruct req as [|r0 [|r1 req]]; cbn [length] in Hr2; [lia|lia|].
    cbn [nth] in Htype. by subst r0.
  - rewrite app_assoc, length_app, Hhd, length_take. lia.
  - rewrite app_assoc, drop_app_ge by (rewrite Hhd; lia). rewrite Hhd, Hpk.
    replace (34 + n - 34)%nat with n by lia. rewrite !app_assoc, drop_app_length'; [done|].
    rewrite !length_app, length_take, length_drop, f16_length. fold n. lia.
Qed.

(** ** Concrete runs *)

#[export] Program Instance demo_nic : Nic :=
  {| nic_mac := [0x52; 0x54; 0; 0x12; 0x34; 0x56]; nic_recv := fun _ => [] |}.
Solve All Obligations with (simpl; lia).
Definition demo_net : net := mk_net (replicate 6 2) true (replicate 1500 0) [] 0 0.
Lemma demo_net_ok : net_ok demo_net.
Proof. by vm_compute. Qed.

Lemma cksum_internet_witness :
  exists c, cksum (with_field [0x45; 0] [1; 2; 3] 0 0) = Some c /\
    cksum (with_field [0x45; 0] [1; 2; 3] (c / 256) (c mod 256)) = Some 0.
Proof.
  destruct (cksum_internet [0x45; 0] [1; 2; 3]) as (c & H1 & _ & _ & H2).
  - repeat constructor; simpl; lia.
  - repeat constructor; simpl; lia.
  - reflexivity.
  - simpl. lia.
  - exists c. split; [exact H1|exact H2].
Defined.

Lemma ip_checksum_swapped_witness :
  exists f, ip_send gw_ip IP_PROTO_ICMP (replicate 40 0) demo_net = Ok (tt, add_sent f demo_net, []) /\
    cksum (slice f 14 20) <> Some 0.
Proof.
  destruct (ip_checksum_swapped gw_ip IP_PROTO_ICMP (replicate 40 0) demo_net demo_net_ok)
    as (f & hi & lo & pre & post & E & _).
  - split; [|reflexivity]. repeat constructor; simpl; lia.
  - by vm_compute.
  - exists f. split; [exact E|]. vm_compute in E. injection E as <-. vm_compute. discriminate.
Defined.

Lemma arp_request_answered_witness :
  handle_rx (bcast ++ replicate 6 2 ++ f16 (be16 ET_ARP) ++ arp_pkt 1 (replicate 6 2) gw_ip ZERO_MAC our_ip) demo_net =
  Ok (tt, add_sent (replicate 6 2 ++ nic_mac ++ f16 (be16 ET_ARP) ++ arp_pkt 2 nic_mac our_ip (replicate 6 2) gw_ip) demo_net, []).
Proof. apply (arp_request_answered bcast (replicate 6 2) (replicate 6 2) gw_ip ZERO_MAC demo_net); repeat split. Defined.

Lemma ping_address_reversed_witness :
  exists f, icmp_echo_request (net_parse_ip (bytes "10.0.2.2")) 1 demo_net = Ok (tt, add_sent f demo_net, []) /\
    slice f 30 4 = [2; 2; 0; 10].
Proof.
  refine (proj2 (ping_address_reversed 10 0 2 2 1 demo_net demo_net_ok _ _)).
  - unfold byte. lia.
  - unfold quad. lia.
Defined.

Lemma echo_reply_is_request_witness :
  exists f s', icmp_reply gw_ip (8 :: replicate 11 1) demo_net = Ok (tt, s', []) /\ sent s' = sent demo_net ++ [f] /\
    nth 34 f 0 = 8.
Proof.
  destruct (echo_reply_is_request gw_ip (8 :: replicate 11 1) demo_net demo_net_ok) as (f & s' & H1 & H2 & H3 & _).
  - split; [|reflexivity]. repeat constructor; simpl; lia.
  - split; [repeat constructor; simpl; lia|simpl; lia].
  - apply Forall_replicate. by vm_compute.
  - reflexivity.
  - exists f, s'. split; [exact H1|]. split; [exact H2|exact H3].
Defined.
