(* ===== verification/Sdk.v ===== *)
(** * The host-side mirror of the kernel (sdk/bindings/src/aeos_kernel.c)

    The library behind the Python SDK keeps a small copy of the kernel's state
    and its own copy of the policy network, so that "decisions match what the
    real kernel computes".  The network is translated from this file's text and
    compared with the kernel's. *)

From S2P Require Import Prelude Ring Fp Ai.

Module Net.
(** ** The policy network, as this file writes it *)

Definition fp_softsign (x : Z) : option Z :=
  a ← (if x <? 0 then chk (- x) else Some x);
  denom ← chk (FP_ONE + a);
  if denom =? 0 then None else Some (i32 (Z.quot (Z.shiftl x 16) denom)).

Definition w1 : list (list Z) :=
  [[0; 0; Z.shiftl 2 16];
   [0; 0; - Z.shiftl 2 16];
   [Z.shiftl 2 16; 0; 0];
   [0; Z.shiftl 2 16; 0];
   [Z.shiftl 1 15; Z.shiftl 1 15; 0];
   [- Z.shiftl 1 16; - Z.shiftl 1 16; - Z.shiftl 1 16];
   [Z.shiftl 1 16; 0; Z.shiftl 1 16];
   [0; 0; 0]].
Definition b1 : list Z := [0; 0; - Z.shiftl 1 16; - Z.shiftl 1 16; 0; Z.shiftl 1 15; 0; 0].
Definition w2 : list (list Z) :=
  [[- Z.shiftl 1 14; - Z.shiftl 1 14; - Z.shiftl 1 14; - Z.shiftl 1 14;
    Z.shiftl 1 15; Z.shiftl 1 15; - Z.shiftl 1 14; Z.shiftl 1 15];
   [Z.shiftl 2 16; - Z.shiftl 2 16; 0; 0; - Z.shiftl 1 15; - Z.shiftl 1 15; Z.shiftl 2 16; 0];
   [0; Z.shiftl 2 16; Z.shiftl 2 16; Z.shiftl 2 16; Z.shiftl 1 15; 0; - Z.shiftl 1 15; 0]].
Definition b2 : list Z := [0; 0; 0].

(** The hidden loop, its inner sum written out for the three inputs. *)
Fixpoint hidden_loop (w : list (list Z)) (b : list Z) (x0 x1 x2 : Z) : option (list Z) :=
  match w, b with
  | [wa; wb; wc] :: w', bi :: b' =>
      s ← chk (bi + fp_mul wa x0);
      s ← chk (s + fp_mul wb x1);
      s ← chk (s + fp_mul wc x2);
      h ← fp_softsign s;
      hs ← hidden_loop w' b' x0 x1 x2;
      Some (h :: hs)
  | [], [] => Some []
  | _, _ => None
  end.

(** [out[j] += ...] over the hidden cells, then the clamp and the comparison. *)
Fixpoint out_loop (w : list (list Z)) (b hidden out : list Z) (best : Z) : option Z :=
  match w, b with
  | wj :: w', bj :: b' =>
      o ← mac bj wj hidden;
      let o := fp_clamp o (- (4 * FP_ONE)) (4 * FP_ONE) in
      let out := out ++ [o] in
      ob ← aget out best;
      out_loop w' b' hidden out (if o >? ob then Z.of_nat (length out) - 1 else best)
  | [], [] => Some best
  | _, _ => None
  end.

Definition ai_decide (x : list Z) : option Z :=
  match x with
  | [x0; x1; x2] =>
      hidden ← hidden_loop w1 b1 x0 x1 x2;
      out_loop w2 b2 hidden [] 0
  | _ => None
  end.
End Net.

Definition SDK_PAGE_SIZE : Z := 4096.
Definition SDK_RAM_SIZE : Z := 128 * 1024 * 1024.
Definition DEFAULT_HZ : Z := 100.
Definition HZ_MIN : Z := 10.
Definition HZ_MAX : Z := 500.

Record hist_entry := mk_he { he_tick : Z; he_action : Z }.

Record sdk := mk_sdk {
  k_total_pages : Z; k_free_pages : Z; k_ticks : Z; k_hz : Z; k_inferences : Z; k_reads : Z;
  k_last_action : string; ai_history : list hist_entry; ai_hist_count : Z; ai_disabled_flag : Z }.

Definition sdk_start : sdk :=
  mk_sdk (SDK_RAM_SIZE / SDK_PAGE_SIZE) (32768 - 4608) 0 DEFAULT_HZ 0 0 "SUSTAIN"
    (replicate 16 (mk_he 0 0)) 0 0.

Definition set_khz (hz : Z) (s : sdk) : sdk :=
  mk_sdk (k_total_pages s) (k_free_pages s) (k_ticks s) hz (k_inferences s) (k_reads s)
    (k_last_action s) (ai_history s) (ai_hist_count s) (ai_disabled_flag s).
Definition set_free (n : Z) (s : sdk) : sdk :=
  mk_sdk (k_total_pages s) n (k_ticks s) (k_hz s) (k_inferences s) (k_reads s)
    (k_last_action s) (ai_history s) (ai_hist_count s) (ai_disabled_flag s).
Definition set_time (t r : Z) (s : sdk) : sdk :=
  mk_sdk (k_total_pages s) (k_free_pages s) t (k_hz s) (k_inferences s) r
    (k_last_action s) (ai_history s) (ai_hist_count s) (ai_disabled_flag s).
Definition set_decision (nm : string) (s : sdk) : sdk :=
  mk_sdk (k_total_pages s) (k_free_pages s) (k_ticks s) (k_hz s) (u32 (k_inferences s + 1)) (k_reads s)
    nm (ai_history s) (ai_hist_count s) (ai_disabled_flag s).
Definition set_sdk_hist (h : list hist_entry) (n : Z) (s : sdk) : sdk :=
  mk_sdk (k_total_pages s) (k_free_pages s) (k_ticks s) (k_hz s) (k_inferences s) (k_reads s)
    (k_last_action s) h n (ai_disabled_flag s).
Definition set_off (d : Z) (s : sdk) : sdk :=
  mk_sdk (k_total_pages s) (k_free_pages s) (k_ticks s) (k_hz s) (k_inferences s) (k_reads s)
    (k_last_action s) (ai_history s) (ai_hist_count s) d.

Definition ai_perceive (s : sdk) : option (list Z) :=
  d ← chk (fp_from_ratio AI_PERIOD_TICKS AI_PERIOD_TICKS - FP_ONE);
  let used := u32 (k_total_pages s - k_free_pages s) in
  Some [fp_from_ratio used (k_total_pages s); fp_from_ratio used (k_total_pages s);
        fp_clamp d (- (2 * FP_ONE)) (2 * FP_ONE)].

Definition ai_act (action : Z) : M sdk unit :=
  modify (fun s =>
    if action =? AI_ACT_BOOST then
      (if u32 (k_hz s + 25) <=? HZ_MAX then set_khz (u32 (k_hz s + 25)) s else s)
    else if action =? AI_ACT_REST then
      (if k_hz s >=? 25 + HZ_MIN then set_khz (u32 (k_hz s - 25)) s else s)
    else s).

Definition ai_action_names : list string := ["SUSTAIN"; "BOOST"; "REST"]%string.

(** [k_last_action = ai_action_names[action]; k_inferences++;] *)
Definition note_decision (action : Z) : M sdk unit :=
  let* nm := of_opt (aget ai_action_names action) in modify (set_decision nm).

Definition ai_step : M sdk unit :=
  let* s := get in
  let* x := of_opt (ai_perceive s) in
  let* action := of_opt (Net.ai_decide x) in
  ai_act action ;;;
  note_decision action.

Definition aeos_memory_total_pages (s : sdk) : Z := k_total_pages s.
Definition aeos_memory_free_pages (s : sdk) : Z := k_free_pages s.

Definition aeos_timer_ticks : M sdk Z :=
  let* s := get in
  let reads := u32 (k_reads s + 1) in
  modify (set_time (u64 (k_ticks s + k_hz s)) reads) ;;;
  (if reads >=? AI_PERIOD_TICKS then
     modify (fun s => set_time (k_ticks s) 0 s) ;;; ai_step
   else ret tt) ;;;
  let* s := get in ret (k_ticks s).

Definition aeos_timer_hz (s : sdk) : Z := k_hz s.
Definition aeos_ai_inference_count (s : sdk) : Z := k_inferences s.
Definition aeos_ai_last_action (s : sdk) : string := k_last_action s.

Definition aeos_set_timer_hz (hz : Z) : M sdk unit :=
  let hz := if hz <? HZ_MIN then HZ_MIN else hz in
  let hz := if hz >? HZ_MAX then HZ_MAX else hz in
  modify (set_khz hz).

Definition aeos_sim_allocate_pages (count : Z) : M sdk unit :=
  modify (fun s => if count <=? k_free_pages s then set_free (u32 (k_free_pages s - count)) s else s).

Definition aeos_sim_reset : M sdk unit :=
  modify (fun s => mk_sdk (k_total_pages s) (u32 (k_total_pages s - 4608)) 0 DEFAULT_HZ 0 0 "SUSTAIN"
    (ai_history s) (ai_hist_count s) (ai_disabled_flag s)).

Definition aeos_ai_force_inference : M sdk unit :=
  let* s := get in
  if negb (ai_disabled_flag s =? 0) then ret tt else
  let used := u32 (k_total_pages s - k_free_pages s) in
  let x := [fp_from_ratio used (k_total_pages s); fp_from_ratio used (k_total_pages s); 2 * FP_ONE] in
  let* action := of_opt (Net.ai_decide x) in
  ai_act action ;;;
  note_decision action ;;;
  let* s := get in
  let* h := of_opt (aset (ai_history s) (ai_hist_count s mod AI_HIST_LEN) (mk_he (k_ticks s) (u8 action))) in
  modify (set_sdk_hist h (u32 (ai_hist_count s + 1))).

Definition aeos_ai_get_history_count (s : sdk) : Z :=
  if ai_hist_count s <? AI_HIST_LEN then ai_hist_count s else AI_HIST_LEN.

(** [ai_history[(start + idx) % AI_HIST_LEN]] *)
Definition hist_at (s : sdk) (idx : Z) : option hist_entry :=
  let start := if ai_hist_count s <? AI_HIST_LEN then 0 else u32 (ai_hist_count s - AI_HIST_LEN) in
  aget (ai_history s) (u32 (start + idx) mod AI_HIST_LEN).

Definition aeos_ai_get_history_tick (idx : Z) : M sdk Z :=
  let* s := get in
  if (idx <? 0) || (idx >=? aeos_ai_get_history_count s) then ret 0 else
  let* e := of_opt (hist_at s idx) in ret (he_tick e).
Definition aeos_ai_get_history_action (idx : Z) : M sdk Z :=
  let* s := get in
  if (idx <? 0) || (idx >=? aeos_ai_get_history_count s) then ret (-1) else
  let* e := of_opt (hist_at s idx) in ret (he_action e).

Definition aeos_ai_is_healthy (s : sdk) : bool := ai_disabled_flag s =? 0.
Definition aeos_ai_disable : M sdk unit := modify (set_off 1).
Definition aeos_ai_enable : M sdk unit := modify (set_off 0).

(** ** The network is the kernel's *)

Lemma chk_range x y : chk x = Some y -> y = x /\ INT32_MIN <= x <= INT32_MAX.
Proof. unfold chk. case_match; [|done]. bool_hyps. intros [= <-]. lia. Qed.

(** Where this file's activation is defined, the kernel's agrees. *)
Lemma softsign_agrees x : INT32_MIN <= x <= INT32_MAX -> forall h,
  Net.fp_softsign x = Some h -> fp_softsign x = Some h.
Proof.
  intros Hx h. unfold Net.fp_softsign, fp_softsign, INT32_MIN, INT32_MAX, FP_ONE in *. cbv zeta.
  destruct (x <? 0) eqn:E; bool_hyps; cbn [mbind option_bind].
  - destruct (chk (- x)) as [a|] eqn:Ea; [|done]. cbn [mbind option_bind].
    apply chk_range in Ea as [-> Ha]. unfold INT32_MIN, INT32_MAX in Ha.
    rewrite (u32_small (- (x + 1))) by lia. replace (- (x + 1) + 1) with (- x) by lia.
    rewrite (u32_small (- x)), (i32_small (- x)) by lia. done.
  - rewrite (u32_small x), (i32_small x) by lia. done.
Qed.

Lemma hidden_agrees w b x0 x1 x2 hs :
  Net.hidden_loop w b x0 x1 x2 = Some hs -> hidden_layer w b [x0; x1; x2] = Some hs.
Proof.
  revert b hs. induction w as [|r w IH]; intros [|bi b] hs; cbn [Net.hidden_loop hidden_layer]; try done.
  { by destruct r as [|? [|? [|? [|]]]]. }
  destruct r as [|wa [|wb [|wc [|]]]]; try done. intros H.
  apply bind_Some in H as (s1 & E1 & H). apply bind_Some in H as (s2 & E2 & H).
  apply bind_Some in H as (s3 & E3 & H). apply bind_Some in H as (h & Eh & H).
  apply bind_Some in H as (hs' & Ehs & [= <-]).
  cbn [mac]. rewrite E1. cbn [mbind option_bind]. rewrite E2. cbn [mbind option_bind]. rewrite E3.
  cbn [mbind option_bind]. apply chk_range in E3 as [-> R3].
  rewrite (softsign_agrees _ R3 _ Eh). cbn [mbind option_bind]. by rewrite (IH _ _ Ehs).
Qed.

Lemma out_agrees w b h out best :
  Net.out_loop w b h out best = snd <$> output_loop Core.post w b h out best.
Proof.
  revert b out best. induction w as [|wj w IH]; intros [|bj b] out best; cbn [Net.out_loop output_loop]; try done.
  destruct (mac bj wj h) as [o|]; [|done]. cbn [mbind option_bind]. cbv zeta. fold (Core.post o).
  destruct (aget (out ++ [Core.post o]) best) as [ob|]; [|done]. cbn [mbind option_bind].
  rewrite IH. do 2 f_equal. case_match; [|done]. rewrite length_app. simpl. lia.
Qed.

Lemma tables_agree : Net.w1 = Core.w1 /\ Net.b1 = Core.b1 /\ Net.w2 = Core.w2 /\ Net.b2 = Core.b2.
Proof. by vm_compute. Qed.

Lemma decide_agrees x a : Net.ai_decide x = Some a -> Core.ai_decide x = Some a.
Proof.
  unfold Net.ai_decide. destruct x as [|x0 [|x1 [|x2 [|]]]]; try done.
  destruct tables_agree as (-> & -> & -> & ->). intros H. apply bind_Some in H as (hs & Eh & H).
  unfold Core.ai_decide, Core.ai_outputs. rewrite (hidden_agrees _ _ _ _ _ _ Eh). cbn [mbind option_bind].
  by rewrite <- out_agrees.
Qed.

Lemma softsign_same x : Z.abs x <= INT32_MAX - FP_ONE -> Net.fp_softsign x = fp_softsign x.
Proof.
  intros Hx. destruct (fp_softsign_spec x Hx) as (h & E & _).
  assert (Hn : is_Some (Net.fp_softsign x)).
  { unfold Net.fp_softsign, INT32_MAX, FP_ONE in *.
    assert ((if x <? 0 then chk (- x) else Some x) = Some (Z.abs x)) as ->.
    { case_match; bool_hyps; [rewrite chk_Some by (unfold INT32_MIN, INT32_MAX; lia)|]; f_equal; lia. }
    cbn [mbind option_bind]. rewrite chk_Some by (unfold INT32_MIN, INT32_MAX; lia). cbn [mbind option_bind].
    rewrite (proj2 (Z.eqb_neq _ 0)) by lia. by eexists. }
  destruct Hn as [h' E']. rewrite E'. symmetry. apply softsign_agrees; [|done].
  unfold INT32_MIN, INT32_MAX, FP_ONE in *. lia.
Qed.

Lemma hidden_same B L w b x0 x1 x2 :
  0 <= B -> L <= INT32_MAX - FP_ONE -> layer_ok 3 B L w b = true ->
  Forall (fun v => Z.abs v <= B) [x0; x1; x2] ->
  Net.hidden_loop w b x0 x1 x2 = hidden_layer w b [x0; x1; x2].
Proof.
  unfold layer_ok. intros HB HL Hok Hx. apply andb_true_iff in Hok as [Hlen Hrows].
  apply Nat.eqb_eq in Hlen. revert b Hlen Hrows.
  induction w as [|r w IH]; intros [|bi b] Hlen Hrows; try done.
  cbn [zip zip_with forallb] in Hrows. apply andb_true_iff in Hrows as [Hr Hrows].
  destruct (row_ok_mac B L HB ltac:(unfold FP_ONE, INT32_MAX in *; lia) 3 r bi [x0; x1; x2] Hr eq_refl Hx) as (s & Es & Hs).
  assert (Hl : length r = 3%nat).
  { unfold row_ok in Hr. cbn [fst] in Hr. bool_hyps. by apply Nat.eqb_eq. }
  destruct r as [|wa [|wb [|wc [|]]]]; try done. cbn [Net.hidden_loop hidden_layer].
  rewrite Es. cbn [mbind option_bind]. cbn [mac] in Es.
  apply bind_Some in Es as (s1 & E1 & Es). apply bind_Some in Es as (s2 & E2 & Es).
  apply bind_Some in Es as (s3 & E3 & [= ->]).
  rewrite E1. cbn [mbind option_bind]. rewrite E2. cbn [mbind option_bind]. rewrite E3. cbn [mbind option_bind].
  rewrite softsign_same by lia. destruct (fp_softsign s); [|done]. cbn [mbind option_bind].
  rewrite IH by (done || (simpl in Hlen; lia)). done.
Qed.

Lemma decide_bounded x : length x = 3%nat -> Forall (fun v => Z.abs v <= 2 ^ 24) x ->
  exists a, Net.ai_decide x = Some a /\ Core.ai_decide x = Some a /\ 0 <= a < 3.
Proof.
  intros Hl Hx.
  destruct (ai_outputs_ok x Hl Hx) as (out & best & E & Hlen & Harg).
  exists best. destruct Harg as (m & Hm & _). apply aget_lt in Hm. rewrite Hlen in Hm.
  assert (Hc : Core.ai_decide x = Some best) by (unfold Core.ai_decide; by rewrite E).
  split; [|done]. rewrite <- Hc. destruct x as [|x0 [|x1 [|x2 [|]]]]; try done.
  unfold Net.ai_decide, Core.ai_decide, Core.ai_outputs. destruct tables_agree as (-> & -> & -> & ->).
  rewrite (hidden_same (2 ^ 24) (2 ^ 30) _ _ x0 x1 x2); [|by vm_compute..|done].
  destruct (hidden_layer Core.w1 Core.b1 [x0; x1; x2]) as [hs|]; [|done]. cbn [mbind option_bind].
  apply out_agrees.
Qed.

(** C21: the host-side policy network decides as the kernel's.  Whenever its
    computation is defined the kernel's gives the same action, for every input;
    and on every input of magnitude at most 256.0, far beyond what either side
    perceives, both are defined and choose one of the three actions. *)
Theorem sdk_decides_as_kernel x :
  (forall a, Net.ai_decide x = Some a -> Core.ai_decide x = Some a) /\
  (length x = 3%nat -> Forall (fun v => Z.abs v <= 2 ^ 24) x ->
   exists a, Net.ai_decide x = Some a /\ Core.ai_decide x = Some a /\ 0 <= a < 3).
Proof. split; [apply decide_agrees|apply decide_bounded]. Qed.

Lemma sdk_decides_as_kernel_witness :
  exists a, Net.ai_decide [9216; 9216; 131072] = Some a /\ Core.ai_decide [9216; 9216; 131072] = Some a /\ 0 <= a < 3.
Proof.
  refine (proj2 (sdk_decides_as_kernel [9216; 9216; 131072]) _ _); [reflexivity|].
  repeat constructor; unfold FP_ONE; lia.
Defined.

(** ** The exported calls *)

Inductive sdk_op :=
| OpTicks | OpSetHz (hz : Z) | OpAllocate (n : Z) | OpReset | OpForce | OpDisable | OpEnable.

Definition run_call (op : sdk_op) : M sdk unit :=
  match op with
  | OpTicks => let* _ := aeos_timer_ticks in ret tt
  | OpSetHz hz => aeos_set_timer_hz hz
  | OpAllocate n => aeos_sim_allocate_pages n
  | OpReset => aeos_sim_reset
  | OpForce => aeos_ai_force_inference
  | OpDisable => aeos_ai_disable
  | OpEnable => aeos_ai_enable
  end.
Fixpoint run_calls (ops : list sdk_op) : M sdk unit :=
  match ops with [] => ret tt | op :: ops' => run_call op ;;; run_calls ops' end.

(** Arguments are 32-bit unsigned. *)
Definition call_ok (op : sdk_op) : Prop :=
  match op with OpSetHz x | OpAllocate x => 0 <= x < 2 ^ 32 | _ => True end.

Definition sdk_wf (s : sdk) : Prop :=
  k_total_pages s = 32768 /\ 0 <= k_free_pages s <= 28160 /\ HZ_MIN <= k_hz s <= HZ_MAX /\
  0 <= k_reads s < 50 /\ 0 <= k_inferences s < 2 ^ 32 /\ k_last_action s ∈ ai_action_names /\
  length (ai_history s) = 16%nat /\ Forall (fun e => 0 <= he_action e < 3) (ai_history s) /\
  0 <= ai_hist_count s < 2 ^ 32.

(** The parts of the invariant that an update does not touch. *)
Ltac sdk_parts := split_and!; try done; simpl; unfold HZ_MIN, HZ_MAX in *; try apply u32_range; try lia.

Lemma act_wf a s : sdk_wf s ->
  wp (ai_act a) (fun _ s' o => o = [] /\ sdk_wf s' /\ k_ticks s' = k_ticks s) s.
Proof.
  intros (H1 & H2 & H3 & H4 & H5 & H6 & H7 & H8 & H9). unfold ai_act. wp_go. split; [done|].
  unfold HZ_MIN, HZ_MAX in *.
  assert (Hw : forall hz, 10 <= hz <= 500 -> sdk_wf (set_khz hz s) /\ k_ticks (set_khz hz s) = k_ticks s)
    by (intros; split; [sdk_parts|done]).
  assert (Hs : sdk_wf s /\ k_ticks s = k_ticks s) by (split; [sdk_parts|done]).
  destruct (a =? AI_ACT_BOOST); [|destruct (a =? AI_ACT_REST)]; [| |done]; case_match eqn:E; try done;
    bool_hyps; unfold HZ_MIN, HZ_MAX in *; rewrite ?u32_small in * by lia; apply Hw; lia.
Qed.

Lemma note_wf a s : 0 <= a < 3 -> sdk_wf s ->
  wp (note_decision a) (fun _ s' o => o = [] /\ sdk_wf s' /\ k_ticks s' = k_ticks s /\
    ai_hist_count s' = ai_hist_count s) s.
Proof.
  intros Ha (H1 & H2 & H3 & H4 & H5 & H6 & H7 & H8 & H9). unfold note_decision.
  destruct (aget_in ai_action_names a Ha) as [nm Hnm]. wp_go. split; [done|]. split; [|done].
  sdk_parts.
  apply aget_Some in Hnm as [_ Hnm]. apply list_elem_of_lookup. eauto.
Qed.

(** What either inference feeds the network. *)
Lemma decide_used s x2 : sdk_wf s -> Z.abs x2 <= 2 ^ 24 ->
  let used := u32 (k_total_pages s - k_free_pages s) in
  exists a, Net.ai_decide [fp_from_ratio used (k_total_pages s); fp_from_ratio used (k_total_pages s); x2] = Some a /\
    0 <= a < 3.
Proof.
  intros (H1 & H2 & _) Hx. cbv zeta. rewrite H1. rewrite u32_small by lia.
  pose proof (fp_from_ratio_unit (32768 - k_free_pages s) 32768 ltac:(lia) ltac:(lia)) as Hr. unfold FP_ONE in Hr.
  destruct (decide_bounded [fp_from_ratio (32768 - k_free_pages s) 32768; fp_from_ratio (32768 - k_free_pages s) 32768; x2])
    as (a & Ha & _ & Hb); [done|repeat constructor; lia|]. eauto.
Qed.

Lemma step_wf s : sdk_wf s -> wp ai_step (fun _ s' o => o = [] /\ sdk_wf s' /\ k_ticks s' = k_ticks s) s.
Proof.
  intros Hwf. unfold ai_step. apply wp_bind, wp_get.
  change (ai_perceive s) with (Some [fp_from_ratio (u32 (k_total_pages s - k_free_pages s)) (k_total_pages s);
    fp_from_ratio (u32 (k_total_pages s - k_free_pages s)) (k_total_pages s); 0]).
  destruct (decide_used s 0 Hwf ltac:(done)) as (a & Ea & Ha).
  apply wp_bind. eapply wp_of_opt; [reflexivity|]. apply wp_bind. eapply wp_of_opt; [exact Ea|].
  apply wp_bind. eapply wp_mono; [apply (act_wf a s Hwf)|]. intros _ s1 o1 (-> & Hw1 & Et).
  eapply wp_mono; [apply (note_wf a s1 Ha Hw1)|]. intros _ s2 o2 (-> & Hw2 & Et2 & _). rewrite Et2. done.
Qed.

Lemma force_wf s : sdk_wf s -> wp aeos_ai_force_inference (fun _ s' o => o = [] /\ sdk_wf s') s.
Proof.
  intros Hwf. unfold aeos_ai_force_inference. apply wp_bind, wp_get.
  destruct (negb (ai_disabled_flag s =? 0)); [by wp_go|]. cbv zeta.
  destruct (decide_used s (2 * FP_ONE) Hwf ltac:(unfold FP_ONE; lia)) as (a & Ea & Ha).
  apply wp_bind. eapply wp_of_opt; [exact Ea|].
  apply wp_bind. eapply wp_mono; [apply (act_wf a s Hwf)|]. intros _ s1 o1 (-> & Hw1 & _).
  apply wp_bind. eapply wp_mono; [apply (note_wf a s1 Ha Hw1)|]. intros _ s2 o2 (-> & Hw2 & _).
  destruct Hw2 as (H1 & H2 & H3 & H4 & H5 & H6 & H7 & H8 & H9).
  apply wp_bind, wp_get. apply wp_bind. eapply wp_of_opt.
  { apply aset_in. rewrite H7. unfold AI_HIST_LEN. zlia. }
  wp_go. split; [done|]. sdk_parts.
  - by rewrite length_insert.
  - apply Forall_insert; [done|]. cbn [he_action]. rewrite u8_small; lia.
Qed.

Lemma call_wf op s : call_ok op -> sdk_wf s -> wp (run_call op) (fun _ s' o => o = [] /\ sdk_wf s') s.
Proof.
  intros Hop Hwf. destruct op; cbn [run_call].
  5: by apply force_wf.
  all: destruct Hwf as (H1 & H2 & H3 & H4 & H5 & H6 & H7 & H8 & H9); unfold HZ_MIN, HZ_MAX in *; simpl in Hop.
  - unfold aeos_timer_ticks. apply wp_bind, wp_bind, wp_get. cbv zeta. rewrite u32_small by lia.
    apply wp_bind, wp_modify. unfold AI_PERIOD_TICKS.
    destruct (k_reads s + 1 >=? 50) eqn:E; bool_hyps.
    + apply wp_bind, wp_bind, wp_modify. eapply wp_mono; [apply step_wf; sdk_parts|].
      intros _ s1 o1 (-> & Hw1 & _). wp_go. done.
    + wp_go. split; [done|]. sdk_parts.
  - unfold aeos_set_timer_hz. wp_go. split; [done|]. sdk_parts;
      repeat case_match; bool_hyps; lia.
  - unfold aeos_sim_allocate_pages. wp_go. split; [done|]. case_match eqn:E; bool_hyps; sdk_parts;
      rewrite u32_small; lia.
  - unfold aeos_sim_reset. wp_go. split; [done|]. rewrite H1. change (u32 (32768 - 4608)) with 28160.
    unfold DEFAULT_HZ. sdk_parts. apply list_elem_of_In. by left.
  - unfold aeos_ai_disable. wp_go. split; [done|]. sdk_parts.
  - unfold aeos_ai_enable. wp_go. split; [done|]. sdk_parts.
Qed.

(** C23: the library's calls stay within their documented values.  After any
    sequence of calls from load time (the arguments being 32-bit), nothing is
    undefined; the rate is between 10 and 500 - not the kernel's 20 to 200 -,
    the last action is one of the three names, the history has at most sixteen
    entries, and reading any index gives an action 0, 1, 2, or -1 outside. *)
Theorem sdk_calls_typed ops (Hops : Forall call_ok ops) :
  exists s, run_calls ops sdk_start = Ok (tt, s, []) /\
    10 <= aeos_timer_hz s <= 500 /\ aeos_ai_last_action s ∈ ai_action_names /\
    0 <= aeos_memory_free_pages s <= aeos_memory_total_pages s /\
    0 <= aeos_ai_get_history_count s <= 16 /\
    forall idx, exists a, aeos_ai_get_history_action idx s = Ok (a, s, []) /\ -1 <= a < 3 /\
      (a = -1 <-> ~ 0 <= idx < aeos_ai_get_history_count s).
Proof.
  assert (Hwp : forall s, sdk_wf s -> wp (run_calls ops) (fun _ s' o => o = [] /\ sdk_wf s') s).
  { induction Hops as [|op ops' Hop _ IH]; intros s Hwf; cbn [run_calls]; [by wp_go|].
    apply wp_bind. eapply wp_mono; [by apply call_wf|]. intros _ s1 o1 (-> & Hw1).
    eapply wp_mono; [by apply IH|]. by intros _ s2 o2 (-> & ?). }
  destruct (wp_run _ _ _ (Hwp sdk_start ltac:(split_and!; try done; try (by apply list_elem_of_In; left); by apply Forall_replicate)))
    as ([] & s & o & E & -> & Hwf).
  exists s. split; [exact E|]. clear Hwp E. destruct Hwf as (H1 & H2 & H3 & H4 & H5 & H6 & H7 & H8 & H9).
  unfold aeos_timer_hz, HZ_MIN, HZ_MAX in *. split; [done|]. split; [done|].
  unfold aeos_memory_free_pages, aeos_memory_total_pages. split; [lia|].
  assert (Hc : 0 <= aeos_ai_get_history_count s <= 16).
  { unfold aeos_ai_get_history_count, AI_HIST_LEN. case_match; bool_hyps; lia. }
  split; [done|]. intros idx. unfold aeos_ai_get_history_action. rewrite (bind_ok get _ s s s) by done.
  destruct ((idx <? 0) || (idx >=? aeos_ai_get_history_count s)) eqn:Ei; bool_hyps.
  { exists (-1). split; [done|]. split; [lia|]. split; [|done]. intros _. destruct Ei; bool_hyps; lia. }
  destruct (aget_in (ai_history s) (u32 ((if ai_hist_count s <? AI_HIST_LEN then 0
    else u32 (ai_hist_count s - AI_HIST_LEN)) + idx) mod AI_HIST_LEN)) as [e He].
  { rewrite H7. unfold AI_HIST_LEN. apply Z.mod_pos_bound. lia. }
  unfold hist_at. rewrite He, bind_some. exists (he_action e). split; [done|].
  apply aget_Some in He as [_ He]. pose proof (Forall_lookup_1 _ _ _ _ H8 He) as Ha. simpl in Ha. split; [lia|].
  split; [lia|]. intros Hn. destruct Hn. lia.
Qed.

Lemma sdk_calls_typed_witness :
  exists s, run_calls [OpForce; OpSetHz 7; OpTicks] sdk_start = Ok (tt, s, []) /\ 10 <= aeos_timer_hz s <= 500.
Proof.
  destruct (sdk_calls_typed [OpForce; OpSetHz 7; OpTicks]) as (s & E & Hz & _).
  - repeat constructor; simpl; lia.
  - exists s. split; [exact E|exact Hz].
Defined.
