(* ===== verification/Smp.v ===== *)
(** * Secondary cores and their job queue (boot/aarch64/smp.c)

    Every core runs the code of [spin_lock], [smp_submit] and [job_pop] one
    memory access at a time; a world is the shared memory, each core's program
    counter and the exclusive monitors behind [ldaxr]/[stxr].  The trace keeps
    which jobs were accepted and which were taken. *)

From S2P Require Import Prelude Uart Ring.

Definition MAX_APS : Z := 4.
Definition JOB_QUEUE : Z := 16.

Record job := mk_job { fn : Z; arg : Z }.

(** What a core is about to do.  [SubLoad] and [SubStore] are the two halves of
    [spin_lock] in [smp_submit] ([ldaxr] and [stxr]), [PopLoad] and [PopStore]
    those in [job_pop]; the other names are the statements that follow. *)
Inductive pc :=
| Idle
| SubLoad (j : job) | SubStore (j : job)
| SubCheck (j : job)                 (* next = ...; if (next == q_head) *)
| SubWrite (j : job) (next : Z)      (* jobq[q_tail] = ... *)
| SubTail (j : job) (next : Z)       (* q_tail = next *)
| SubUnlock (accepted : bool)
| SubCount                           (* ap_job_count++ *)
| PopLoad | PopStore
| PopCheck                           (* if (q_head != q_tail) *)
| PopRead                            (* *out = jobq[q_head] *)
| PopHead (j : job)                  (* q_head = ... *)
| PopUnlock (got : option job)
| Run (j : job).                     (* j.fn(j.arg) *)

Record world := mk_world {
  locked : bool; jobq : list job; q_head : Z; q_tail : Z; ap_job_count : Z;
  pcs : nat -> pc; monitors : gset nat;
  accepted : list job; taken : list job }.

Definition upd_pc (f : nat -> pc) (c : nat) (p : pc) : nat -> pc := fun d => if decide (d = c) then p else f d.

(** Only the program counter moves. *)
Definition goto (c : nat) (p : pc) (w : world) : world :=
  mk_world (locked w) (jobq w) (q_head w) (q_tail w) (ap_job_count w) (upd_pc (pcs w) c p) (monitors w)
    (accepted w) (taken w).
(** [ldaxr]: loop while the lock is taken, otherwise reserve it. *)
Definition ldaxr (c : nat) (again next : pc) (w : world) : world :=
  if locked w then goto c again w else
  mk_world (locked w) (jobq w) (q_head w) (q_tail w) (ap_job_count w) (upd_pc (pcs w) c next)
    ({[c]} ∪ monitors w) (accepted w) (taken w).
(** [stxr]: fails without a reservation, and may fail with one ([luck]); a
    successful store clears every core's reservation. *)
Definition stxr (c : nat) (luck : bool) (again next : pc) (w : world) : world :=
  if luck && bool_decide (c ∈ monitors w) then
    mk_world true (jobq w) (q_head w) (q_tail w) (ap_job_count w) (upd_pc (pcs w) c next) ∅
      (accepted w) (taken w)
  else goto c again w.
(** [stlr wzr]. *)
Definition spin_unlock (c : nat) (next : pc) (w : world) : world :=
  mk_world false (jobq w) (q_head w) (q_tail w) (ap_job_count w) (upd_pc (pcs w) c next) ∅
    (accepted w) (taken w).

(** What an idle core starts. *)
Inductive choice := Submit (j : job) | Poll.

(** One step of core [c]; [None] is an access outside [jobq]. *)
Definition step (c : nat) (ch : choice) (luck : bool) (w : world) : option world :=
  match pcs w c with
  | Idle => Some (goto c (match ch with Submit j => SubLoad j | Poll => PopLoad end) w)
  | SubLoad j => Some (ldaxr c (SubLoad j) (SubStore j) w)
  | SubStore j => Some (stxr c luck (SubLoad j) (SubCheck j) w)
  | SubCheck j =>
      let next := (q_tail w + 1) mod JOB_QUEUE in
      Some (goto c (if next =? q_head w then SubUnlock false else SubWrite j next) w)
  | SubWrite j next =>
      q ← aset (jobq w) (q_tail w) j;
      Some (mk_world (locked w) q (q_head w) (q_tail w) (ap_job_count w)
              (upd_pc (pcs w) c (SubTail j next)) (monitors w) (accepted w) (taken w))
  | SubTail j next =>
      Some (mk_world (locked w) (jobq w) (q_head w) next (ap_job_count w)
              (upd_pc (pcs w) c (SubUnlock true)) (monitors w) (accepted w ++ [j]) (taken w))
  | SubUnlock acc => Some (spin_unlock c (if acc then SubCount else Idle) w)
  | SubCount =>
      Some (mk_world (locked w) (jobq w) (q_head w) (q_tail w) (u64 (ap_job_count w + 1))
              (upd_pc (pcs w) c Idle) (monitors w) (accepted w) (taken w))
  | PopLoad => Some (ldaxr c PopLoad PopStore w)
  | PopStore => Some (stxr c luck PopLoad PopCheck w)
  | PopCheck => Some (goto c (if negb (q_head w =? q_tail w) then PopRead else PopUnlock None) w)
  | PopRead => j ← aget (jobq w) (q_head w); Some (goto c (PopHead j) w)
  | PopHead j =>
      Some (mk_world (locked w) (jobq w) ((q_head w + 1) mod JOB_QUEUE) (q_tail w) (ap_job_count w)
              (upd_pc (pcs w) c (PopUnlock (Some j))) (monitors w) (accepted w) (taken w ++ [j]))
  | PopUnlock got => Some (spin_unlock c (match got with Some j => Run j | None => Idle end) w)
  | Run _ => Some (goto c Idle w)
  end.

(** [smp_init] leaves the queue empty and unlocked, every core idle. *)
Definition start (q : list job) (n : Z) : world := mk_world false q 0 0 n (fun _ => Idle) ∅ [] [].

Inductive reachable (w0 : world) : world -> Prop :=
| reach_here : reachable w0 w0
| reach_more w c ch luck w' : reachable w0 w -> step c ch luck w = Some w' -> reachable w0 w'.

(** ** Invariant *)

(** Inside the critical section. *)
Definition crit (p : pc) : bool :=
  match p with
  | SubCheck _ | SubWrite _ _ | SubTail _ _ | SubUnlock _ | PopCheck | PopRead | PopHead _ | PopUnlock _ => true
  | _ => false
  end.

Definition queued (w : world) : nat := Z.to_nat ((q_tail w - q_head w) mod 16).

(** What a core's position says of the queue. *)
Definition pc_ok (w : world) (p : pc) : Prop :=
  match p with
  | SubWrite _ next => next = (q_tail w + 1) mod 16 /\ next <> q_head w
  | SubTail j next => next = (q_tail w + 1) mod 16 /\ next <> q_head w /\ aget (jobq w) (q_tail w) = Some j
  | PopRead => q_head w <> q_tail w
  | PopHead j => q_head w <> q_tail w /\ aget (jobq w) (q_head w) = Some j
  | _ => True
  end.

Record inv (w : world) : Prop := {
  i_len : length (jobq w) = 16%nat;
  i_ix : 0 <= q_head w < 16 /\ 0 <= q_tail w < 16;
  i_excl : forall c d, crit (pcs w c) = true -> crit (pcs w d) = true -> c = d;
  i_lock : forall c, crit (pcs w c) = true -> locked w = true;
  i_mon : forall c, c ∈ monitors w -> locked w = false;
  i_pc : forall c, pc_ok w (pcs w c);
  i_fifo : accepted w = taken w ++ ring (jobq w) (q_head w) (queued w);
}.

Lemma upd_pc_eq f c p : upd_pc f c p c = p.
Proof. unfold upd_pc. by rewrite decide_True. Qed.
Lemma upd_pc_ne f c d p : d <> c -> upd_pc f c p d = f d.
Proof. intros. unfold upd_pc. by rewrite decide_False. Qed.

(** Outside the critical section a position says nothing. *)
Lemma pc_ok_out w p : crit p = false -> pc_ok w p.
Proof. by destruct p. Qed.

(** The queue's memory is as [w]'s. *)
Definition same_queue (w w' : world) : Prop :=
  jobq w' = jobq w /\ q_head w' = q_head w /\ q_tail w' = q_tail w /\ accepted w' = accepted w /\ taken w' = taken w.

Lemma same_queue_ok w w' p : same_queue w w' -> pc_ok w p -> pc_ok w' p.
Proof. intros (E1 & E2 & E3 & _). destruct p; simpl; rewrite ?E1, ?E2, ?E3; done. Qed.

Lemma inv_same w w' c p :
  inv w -> same_queue w w' -> pcs w' = upd_pc (pcs w) c p -> pc_ok w p ->
  (crit p = true -> forall d, d <> c -> crit (pcs w d) = false) ->
  (forall d, crit (pcs w' d) = true -> locked w' = true) ->
  (forall d, d ∈ monitors w' -> locked w' = false) -> inv w'.
Proof.
  intros [Hl Hix Hex Hlk Hm Hpc Hf] Hq Hp Hok Hnew Hlk' Hm'. pose proof Hq as (E1 & E2 & E3 & E4 & E5).
  constructor; rewrite ?E1, ?E2, ?E3; try done.
  - intros a b. rewrite Hp. intros Ha Hb. unfold upd_pc in *.
    destruct (decide (a = c)) as [->|Na], (decide (b = c)) as [->|Nb]; try done.
    + by rewrite (Hnew Ha b Nb) in Hb.
    + by rewrite (Hnew Hb a Na) in Ha.
    + by apply Hex.
  - intros d. apply (same_queue_ok w); [done|]. rewrite Hp. unfold upd_pc. by destruct (decide (d = c)).
  - rewrite E4, E5. unfold queued. rewrite E2, E3. exact Hf.
Qed.

(** Moving on without entering or leaving the critical section. *)
Lemma inv_goto w c p : inv w -> pc_ok w p -> (crit p = crit (pcs w c)) -> inv (goto c p w).
Proof.
  intros Hi Hok Hc. pose proof Hi as [_ _ Hex Hlk Hm _ _].
  apply (inv_same w (goto c p w) c p Hi); try done.
  - intros Hp d Hd. destruct (crit (pcs w d)) eqn:E; [|done]. rewrite Hc in Hp. destruct Hd. by apply Hex.
  - intros d. simpl. unfold upd_pc. destruct (decide (d = c)) as [->|]; [rewrite Hc|]; apply Hlk.
Qed.

Lemma inv_ldaxr w c again next : inv w -> crit (pcs w c) = false -> crit again = false -> crit next = false ->
  inv (ldaxr c again next w).
Proof.
  intros Hi H0 H1 H2. unfold ldaxr. destruct (locked w) eqn:E.
  { apply inv_goto; [done|by apply pc_ok_out|congruence]. }
  pose proof Hi as [_ _ Hex Hlk Hm _ _].
  eapply (inv_same w _ c next Hi); try done; [by apply pc_ok_out|congruence|].
  simpl. intros d. unfold upd_pc. destruct (decide (d = c)); [congruence|]. intros Hd. by rewrite (Hlk d Hd) in E.
Qed.

Lemma inv_stxr w c luck again next : inv w -> crit (pcs w c) = false -> crit again = false -> pc_ok w next ->
  inv (stxr c luck again next w).
Proof.
  intros Hi H0 H1 H2. unfold stxr. destruct (luck && bool_decide (c ∈ monitors w)) eqn:E.
  2: { apply inv_goto; [done|by apply pc_ok_out|congruence]. }
  bool_hyps. pose proof Hi as [_ _ Hex Hlk Hm _ _]. assert (Hc : c ∈ monitors w) by (by eapply bool_decide_eq_true_1).
  eapply (inv_same w _ c next Hi); try done.
  intros _ d _. destruct (crit (pcs w d)) eqn:Ed; [|done]. specialize (Hm c Hc). by rewrite (Hlk d Ed) in Hm.
Qed.

Lemma inv_unlock w c next : inv w -> crit (pcs w c) = true -> crit next = false -> inv (spin_unlock c next w).
Proof.
  intros Hi H0 H1. pose proof Hi as [_ _ Hex Hlk Hm _ _].
  eapply (inv_same w _ c next Hi); try done; [by apply pc_ok_out|congruence| ].
  simpl. intros d. unfold upd_pc. destruct (decide (d = c)); [congruence|]. intros Hd. by destruct n; apply Hex.
Qed.

(** ** The queue itself *)

Lemma queued_tail w : 0 <= q_head w < 16 -> 0 <= q_tail w < 16 -> ring_ix 16 (q_head w) (queued w) = q_tail w.
Proof.
  intros Hh Ht. unfold ring_ix, queued. rewrite Z2Nat.id by zlia. rewrite Zplus_mod_idemp_r.
  replace (q_head w + (q_tail w - q_head w)) with (q_tail w) by lia. by apply Z.mod_small.
Qed.

Lemma queued_room w : 0 <= q_head w < 16 -> 0 <= q_tail w < 16 ->
  (q_tail w + 1) mod 16 <> q_head w -> (queued w < 15)%nat.
Proof. unfold queued. intros. zlia. Qed.

Lemma ring_insert_after {A} (l : list A) h n x : (n < length l)%nat -> 0 <= h < Z.of_nat (length l) ->
  ring (<[Z.to_nat (ring_ix (Z.of_nat (length l)) h n) := x]> l) h n = ring l h n.
Proof.
  intros Hn Hh. pose proof (ring_push l h n x Hh Hn) as E.
  set (l' := <[_ := x]> l) in *. assert (Hl : (0 < length l')%nat) by (unfold l'; rewrite length_insert; lia).
  unfold ring in E at 1. rewrite seq_S, omap_app in E. fold (ring l' h n) in E.
  apply app_inj_1 in E as [E _]; [done|]. by rewrite !ring_length by lia.
Qed.

(** A step of the core that holds the lock, which keeps it. *)
Lemma inv_inside w w' c p :
  inv w -> crit (pcs w c) = true -> crit p = true -> pcs w' = upd_pc (pcs w) c p ->
  locked w' = locked w -> monitors w' = monitors w ->
  length (jobq w') = 16%nat -> 0 <= q_head w' < 16 /\ 0 <= q_tail w' < 16 -> pc_ok w' p ->
  accepted w' = taken w' ++ ring (jobq w') (q_head w') (queued w') -> inv w'.
Proof.
  intros [Hl Hix Hex Hlk Hm Hpc Hf] Hc Hp Ep El Em Hl' Hix' Hok Hf'.
  assert (Hout : forall d, d <> c -> crit (pcs w d) = false).
  { intros d Hd. destruct (crit (pcs w d)) eqn:E; [|done]. destruct Hd. by apply Hex. }
  constructor; try done.
  - rewrite Ep. intros a b. unfold upd_pc. destruct (decide (a = c)) as [->|Na], (decide (b = c)) as [->|Nb]; try done;
      rewrite ?(Hout _ Na), ?(Hout _ Nb); done.
  - intros d. rewrite Ep, El. unfold upd_pc. destruct (decide (d = c)); [intros _; by apply (Hlk c)|apply Hlk].
  - intros d. rewrite Em, El. apply Hm.
  - intros d. rewrite Ep. unfold upd_pc. destruct (decide (d = c)) as [->|Nd]; [done|]. by apply pc_ok_out, Hout.
Qed.

Lemma inv_step w c ch luck : inv w -> exists w', step c ch luck w = Some w' /\ inv w'.
Proof.
  intros Hi. pose proof Hi as [Hl [Hh Ht] Hex Hlk Hm Hpc Hf]. unfold step, JOB_QUEUE.
  specialize (Hpc c). pose proof (queued_tail w Hh Ht) as Hq. destruct (pcs w c) as [|j|j|j|j nx|j nx|acc| | | | | |j|got|j] eqn:E; simpl in Hpc.
  - eexists. split; [done|]. destruct ch; apply inv_goto; by rewrite ?E.
  - eexists. split; [done|]. apply inv_ldaxr; by rewrite ?E.
  - eexists. split; [done|]. apply inv_stxr; by rewrite ?E.
  - eexists. split; [done|]. case_match eqn:En; bool_hyps; apply inv_goto; rewrite ?E; done.
  - destruct Hpc as [-> Hnx]. pose proof (queued_room w Hh Ht Hnx) as Hr. rewrite aset_in by (rewrite Hl; lia).
    eexists. split; [done|]. eapply (inv_inside w _ c (SubTail j ((q_tail w + 1) mod 16)) Hi); rewrite ?E; try done; cbn [jobq q_head q_tail taken accepted].
    + by rewrite length_insert.
    + split_and!; try done. simpl. apply aget_insert. rewrite Hl. lia.
    + rewrite Hf. f_equal. change (queued (mk_world _ _ _ _ _ _ _ _ _)) with (queued w). symmetry.
      pose proof (ring_insert_after (jobq w) (q_head w) (queued w) j) as Hri. rewrite Hl in Hri.
      change (Z.of_nat 16) with 16 in Hri. rewrite Hq in Hri. apply Hri; lia.
  - destruct Hpc as (-> & Hnx & Hj). pose proof (queued_room w Hh Ht Hnx) as Hr.
    eexists. split; [done|]. eapply (inv_inside w _ c (SubUnlock true) Hi); rewrite ?E; try done; cbn [jobq q_head q_tail taken accepted].
    + split; [done|]. apply Z.mod_pos_bound. lia.
    + match goal with |- context [queued ?W] => assert (Eq : queued W = S (queued w)) end.
      { unfold queued. cbn [q_head q_tail]. zlia. }
      rewrite Eq, Hf, <- app_assoc. f_equal.
      rewrite <- (ring_push (jobq w) (q_head w) (queued w) j) by (rewrite Hl; lia).
      rewrite Hl. change (Z.of_nat 16) with 16. rewrite Hq. apply aget_Some in Hj as [_ Hj]. by rewrite list_insert_id.
  - eexists. split; [done|]. apply inv_unlock; rewrite ?E; by destruct acc.
  - eexists. split; [done|]. eapply (inv_same w _ c Idle Hi); try done. simpl. intros d. unfold upd_pc.
    destruct (decide (d = c)); [done|apply Hlk].
  - eexists. split; [done|]. apply inv_ldaxr; by rewrite ?E.
  - eexists. split; [done|]. apply inv_stxr; by rewrite ?E.
  - eexists. split; [done|]. case_match eqn:En; bool_hyps; apply inv_goto; rewrite ?E; done.
  - destruct (aget_in (jobq w) (q_head w)) as [j Hj]; [rewrite Hl; lia|]. rewrite Hj.
    eexists. split; [done|]. apply inv_goto; rewrite ?E; done.
  - destruct Hpc as (Hne & Hj).
    eexists. split; [done|]. eapply (inv_inside w _ c (PopUnlock (Some j)) Hi); rewrite ?E; try done; cbn [jobq q_head q_tail taken accepted].
    + split; [|done]. apply Z.mod_pos_bound. lia.
    + match goal with |- context [queued ?W] => assert (Eq : queued w = S (queued W)) end.
      { unfold queued. cbn [q_head q_tail]. zlia. }
      rewrite Hf, Eq, <- app_assoc. f_equal.
      apply aget_Some in Hj as [_ Hj]. rewrite (ring_pop _ _ _ j) by (rewrite ?Hl; done || lia).
      by rewrite Hl.
  - eexists. split; [done|]. apply inv_unlock; rewrite ?E; by destruct got.
  - eexists. split; [done|]. apply inv_goto; by rewrite ?E.
Qed.

Lemma inv_start q n : length q = 16%nat -> inv (start q n).
Proof. intros Hq. constructor; try done; simpl; lia. Qed.

Lemma inv_reachable w0 w : inv w0 -> reachable w0 w -> inv w.
Proof.
  intros H0. induction 1 as [|w c ch luck w' _ IH E]; [done|].
  destruct (inv_step w c ch luck IH) as (w2 & E2 & Hi). congruence.
Qed.


(** ** Bringing cores up *)

(** [while (v) { v &= v - 1; c++; }] *)
Fixpoint popcnt_loop (v c : Z) (n : nat) : option Z :=
  match n with
  | O => None
  | S n' => if v =? 0 then Some c else popcnt_loop (Z.land v (u32 (v - 1))) (c + 1) n'
  end.
(** At most one round per set bit of a 32-bit value. *)
Definition popcnt (v : Z) : option Z := popcnt_loop v 0 33.

(** The cores' registration: the bit mask, the identifiers and the lock of
    [uart_puts_safe], which a single call leaves free. *)
Record cores := mk_cores { ap_online : Z; ap_mpidr : list Z }.

(** The decimal digits built in [tmp]. *)
Fixpoint digits (v : Z) (buf : list Z) (n : nat) : list Z :=
  match n with
  | O => buf
  | S n' => if v =? 0 then buf else digits (v / 10) (48 + v mod 10 :: buf) n'
  end.
Definition dec_text (v : Z) : list Z := if v =? 0 then [48] else digits v [] 4.

(** *** PSCI (boot/aarch64/psci.c)

    The registers x0 to x3 at the [hvc], and the firmware's answer in x0. *)
Definition PSCI_FN_SYSTEM_RESET : Z := 0x84000009.
Definition PSCI_FN_CPU_ON : Z := 0xC4000003.
Record regs := mk_regs { x0 : Z; x1 : Z; x2 : Z; x3 : Z }.

Definition psci_cpu_on_regs (entry_pa context_id : Z) : regs := mk_regs PSCI_FN_CPU_ON context_id entry_pa 0.
Definition psci_cpu_on (hvc : regs -> Z) (entry_pa context_id : Z) : Z :=
  i32 (hvc (psci_cpu_on_regs entry_pa context_id)).

(** [smp_entry] (smp_entry.S): the stack pointer and the argument of
    [smp_main], from x0 at the entry. *)
Definition smp_entry (ap_stacks x0 : Z) : Z * Z := (u64 (ap_stacks + u64 (Z.shiftl (u64 (x0 - 1)) 12)), x0).

(** [hvc] is the firmware; [online] is what [ap_online] reads after the delay. *)
Definition smp_init (hvc : regs -> Z) (entry : Z) (online : Z) : M cores unit :=
  let started := length (filter (fun i => psci_cpu_on hvc entry (i + 1) = 0) [0; 1; 2; 3]) in
  let* n := of_opt (popcnt online) in
  puts_bytes (bytes "[smp] APs online: " ++ dec_text n ++ 47 :: dec_text MAX_APS) ;;;
  if (started =? 0)%nat && (online =? 0) then puts "[smp] no secondary cores (boot with -smp N)" else ret tt.

Definition smp_online_count : M cores Z := let* s := get in of_opt (popcnt (ap_online s)).

Fixpoint hex16 (v : Z) (n : nat) (buf : list Z) : list Z :=
  match n with
  | O => buf
  | S n' => hex16 (Z.shiftr v 4) n' (Pl011.hex_char (Z.land v 0xF) :: buf)
  end.

(** [smp_main] up to its loop, whose rounds are [Poll] steps of a core;
    [vmm_ap_enable_mmu] is the virtual memory manager's. *)
Definition smp_main (ctx mpidr : Z) : M cores unit :=
  let* s := get in
  let* l := of_opt (aset (ap_mpidr s) (u64 (ctx - 1)) mpidr) in
  put (mk_cores (ap_online s) l) ;;;
  let* s := get in
  put (mk_cores (Z.lor (ap_online s) (u32 (Z.shiftl 1 (u64 (ctx - 1))))) (ap_mpidr s)) ;;;
  puts_bytes (bytes "[smp] cpu online: id=" ++ dec_text ctx ++ bytes " mpidr=0x" ++ hex16 mpidr 16 []).

Fixpoint report_aps (i : Z) (ids : list Z) (online : Z) : M cores unit :=
  match ids with
  | [] => ret tt
  | m :: ids' =>
      (if Z.testbit online i then
         puts_nolf "    cpu" ;;; put_dec (i + 1) ;;;
         puts_nolf " (worker)   mpidr=0x" ;;; put_hex m ;;; puts ""
       else ret tt) ;;;
      report_aps (i + 1) ids' online
  end.
(** [mpidr0] is the primary core's identifier, [jobs] is [ap_job_count]. *)
Definition smp_report (mpidr0 jobs : Z) : M cores unit :=
  puts "  Cores:" ;;; puts_nolf "    cpu0 (primary) mpidr=0x" ;;; put_hex mpidr0 ;;; puts "" ;;;
  let* s := get in
  report_aps 0 (ap_mpidr s) (ap_online s) ;;;
  puts_nolf "    jobs queued total: " ;;; put_dec (u32 jobs) ;;; puts "".

(** ** Registration *)

(** [popcnt] against its specification: the number of ones of the binary
    digits. *)
Fixpoint bits_set (v : Z) (n : nat) : Z :=
  match n with O => 0 | S n' => (if Z.odd v then 1 else 0) + bits_set (Z.div2 v) n' end.

(** [v & (v - 1)] clears the lowest one. *)
Lemma land_pred_odd v : Z.odd v = true -> Z.land v (v - 1) = v - 1.
Proof.
  intros H. apply Z.odd_spec in H as [k ->]. replace (2 * k + 1 - 1) with (2 * k) by lia.
  apply Z.bits_inj'. intros m Hm. rewrite Z.land_spec.
  destruct (Z.eq_dec m 0) as [->|]; [by rewrite !Z.testbit_even_0, andb_false_r|].
  replace m with (Z.succ (m - 1)) by lia.
  rewrite Z.testbit_odd_succ, Z.testbit_even_succ by lia. apply andb_diag.
Qed.
Lemma land_pred_even k : Z.land (2 * k) (2 * k - 1) = 2 * Z.land k (k - 1).
Proof.
  replace (2 * k - 1) with (2 * (k - 1) + 1) by lia.
  apply Z.bits_inj'. intros m Hm. rewrite Z.land_spec.
  destruct (Z.eq_dec m 0) as [->|]; [by rewrite !Z.testbit_even_0|].
  replace m with (Z.succ (m - 1)) by lia.
  by rewrite Z.testbit_odd_succ, !Z.testbit_even_succ, Z.land_spec by lia.
Qed.
Lemma bits_set_clear n : forall v, 0 < v < 2 ^ Z.of_nat n ->
  0 <= Z.land v (v - 1) < v /\ bits_set (Z.land v (v - 1)) n = bits_set v n - 1.
Proof.
  induction n as [|n IH]; intros v Hv; [change (2 ^ Z.of_nat 0) with 1 in Hv; lia|].
  assert (E : 2 ^ Z.of_nat (S n) = 2 * 2 ^ Z.of_nat n) by (rewrite Nat2Z.inj_succ, Z.pow_succ_r; lia).
  rewrite E in Hv. destruct (Z.odd v) eqn:Ho.
  - rewrite land_pred_odd by done. split; [lia|]. apply Z.odd_spec in Ho as [k ->].
    replace (2 * k + 1 - 1) with (2 * k) by lia. cbn [bits_set].
    rewrite Z.odd_even, Z.odd_odd, !Z.div2_div. replace ((2 * k) / 2) with k by zlia.
    replace ((2 * k + 1) / 2) with k by zlia. lia.
  - rewrite <- Z.negb_even in Ho. apply negb_false_iff, Z.even_spec in Ho as [k ->].
    destruct (IH k) as [Hr Hb]; [lia|]. rewrite land_pred_even. split; [lia|]. cbn [bits_set].
    rewrite !Z.odd_even, !Z.div2_div. replace ((2 * k) / 2) with k by zlia.
    replace (2 * Z.land k (k - 1) / 2) with (Z.land k (k - 1)) by zlia. lia.
Qed.
Lemma bits_set_bound n : forall v, 0 <= bits_set v n <= Z.of_nat n.
Proof. induction n as [|n IH]; intros v; cbn [bits_set]; [lia|]. specialize (IH (Z.div2 v)). case_match; lia. Qed.
Lemma bits_set_0 n : bits_set 0 n = 0.
Proof. induction n as [|n IH]; [done|exact IH]. Qed.
Lemma bits_set_pos n v : 0 < v < 2 ^ Z.of_nat n -> 0 < bits_set v n.
Proof. intros H. destruct (bits_set_clear n v H) as [_ E]. pose proof (bits_set_bound n (Z.land v (v - 1))). lia. Qed.

Lemma popcnt_loop_spec f : forall v c, 0 <= v < 2 ^ 32 -> bits_set v 32 < Z.of_nat f ->
  popcnt_loop v c f = Some (c + bits_set v 32).
Proof.
  induction f as [|f IH]; intros v c Hv Hf; [pose proof (bits_set_bound 32 v); lia|].
  cbn [popcnt_loop]. destruct (Z.eqb_spec v 0) as [->|Hn]; [rewrite bits_set_0; f_equal; lia|].
  destruct (bits_set_clear 32 v ltac:(lia)) as [Hr E].
  unfold u32. rewrite (Z.mod_small (v - 1)) by lia. rewrite IH by lia. f_equal. lia.
Qed.

(** The loop of [popcnt] ends, and counts the cores that are registered. *)
Theorem popcnt_counts v : 0 <= v < 2 ^ 32 -> popcnt v = Some (bits_set v 32).
Proof. intros Hv. pose proof (bits_set_bound 32 v). unfold popcnt. by rewrite (popcnt_loop_spec 33 v 0) by lia. Qed.

(** PSCI's CPU_ON (Arm DEN0022, 5.1.4): x1 is the target core, x2 the address it
    starts at, and x3 the context identifier, which it finds in x0. *)
Definition cpu_on_target (r : regs) : Z := x1 r.
Definition cpu_on_start (r : regs) : Z * Z := (x2 r, x3 r).

(** [psci_cpu_on] leaves x3 at zero, so every core it starts runs [smp_main]
    with context 0: it stores outside [ap_mpidr] before it registers, on a stack
    that begins a page below [ap_stacks].  And the stack pointer of the core
    whose context were [c] is the low end of its own stack, at which that of
    the core before it ends. *)
Theorem cores_start_out_of_bounds ap_stacks entry c mpidr s :
  length (ap_mpidr s) = 4%nat -> 4096 <= ap_stacks < 2 ^ 63 -> 1 <= c <= 4 ->
  let '(pc, a0) := cpu_on_start (psci_cpu_on_regs entry c) in
  pc = entry /\ smp_entry ap_stacks a0 = (ap_stacks - 4096, 0) /\ smp_main 0 mpidr s = UB /\
  (smp_entry ap_stacks c).1 = ap_stacks + 4096 * (c - 1).
Proof.
  intros Hl Hs Hc. cbn [cpu_on_start psci_cpu_on_regs x2 x3]. split; [done|]. split.
  - unfold smp_entry. f_equal. change (u64 (Z.shiftl (u64 (0 - 1)) 12)) with (2 ^ 64 - 4096). unfold u64. zlia.
  - split.
    + unfold smp_main, bind, get, of_opt, aset. cbn. rewrite Hl. done.
    + unfold smp_entry, u64. cbn [fst]. rewrite (Z.mod_small (c - 1)) by lia.
      rewrite Z.shiftl_mul_pow2 by lia. rewrite (Z.mod_small ((c - 1) * 2 ^ 12)) by lia.
      rewrite Z.mod_small by lia. lia.
Qed.

(** The two memory accesses of [ap_online |= bit], for each of the cores that
    come up; a core's register is its loaded value. *)
Inductive reg_pc := RLoad | RStore (v : Z) | RDone.
Definition reg_step (bit : Z) (s : Z * reg_pc) : Z * reg_pc :=
  match s.2 with
  | RLoad => (s.1, RStore s.1)
  | RStore v => (Z.lor v bit, RDone)
  | RDone => s
  end.
(** Cores 1 and 2 coming up, in the order of [sched] ([true] for core 1). *)
Fixpoint reg_run (sched : list bool) (online : Z) (a b : reg_pc) : Z * reg_pc * reg_pc :=
  match sched with
  | [] => (online, a, b)
  | true :: sched' => let '(o, a') := reg_step 1 (online, a) in reg_run sched' o a' b
  | false :: sched' => let '(o, b') := reg_step 2 (online, b) in reg_run sched' o a b'
  end.

(** The registration of two cores can lose one of them: both stores done, the
    mask has one bit. *)
Theorem registration_lost : reg_run [true; false; true; false] 0 RLoad RLoad = (2, RDone, RDone).
Proof. reflexivity. Qed.

Definition demo_jobs : list job := replicate 16 (mk_job 0 0).
Definition demo_submit : list (nat * choice) :=
  repeat (0%nat, Submit (mk_job 7 9)) 8 ++ repeat (1%nat, Poll) 7.
Fixpoint run_steps (l : list (nat * choice)) (w : world) : option world :=
  match l with [] => Some w | (c, ch) :: l' => w' ← step c ch true w; run_steps l' w' end.

Lemma run_steps_reachable l w0 w w' : reachable w0 w -> run_steps l w = Some w' -> reachable w0 w'.
Proof.
  revert w. induction l as [|[c ch] l IH]; intros w Hr; cbn [run_steps]; [by intros [= <-]|].
  intros H. apply bind_Some in H as (w1 & E & H). apply (IH w1); [|done]. by eapply reach_more.
Qed.

