(* ===== verification/Loader.v ===== *)
(** * The stage-2 loader (boot/aarch64/loader.c)

    The flattened device tree that the firmware leaves in memory is a [region]:
    a load outside it is [None].  [token] is the part that the two walkers
    [dtb_find_uart] and [dtb_memory] have in common.  The theorems say that
    [dtb_memory] is safe on every blob, whatever its bytes, and that it reads
    back the memory node of every tree that was flattened. *)

From S2P Require Import Prelude Uart Pmm.

Definition DTB_MAGIC_BE : Z := 0xD00DFEED.
Definition KERNEL_MIN_SIZE : Z := 4096.
Definition DEFAULT_RAM_SIZE : Z := 128 * 1024 * 1024.
Definition DTB_PTR_LIMIT : Z := RAM_START + Z.shiftl 16 30.
Definition FDT_BEGIN_NODE : Z := 1.
Definition FDT_END_NODE : Z := 2.
Definition FDT_PROP : Z := 3.
Definition FDT_NOP : Z := 4.
Definition FDT_END : Z := 9.
Definition UART_BASE : Z := 0x09000000.
Definition BOOTINFO_MAGIC : Z := 0x41453053.
Definition LOADER_VERSION : Z := 0x00010001.
Definition BI_FLAG_DTB_VALID : Z := 1.
Definition BI_FLAG_RAM_MEASURED : Z := 2.
Definition BI_FLAG_UART_VALID : Z := 4.

(** ** Memory and strings *)

(** The memory that may be read: [rbytes] from address [rbase] on. *)
Record region := mk_region { rbase : Z; rbytes : list Z }.

Definition ld8 (m : region) (a : Z) : option Z := aget (rbytes m) (a - rbase m).
(** A little-endian machine's load. *)
Definition ld32 (m : region) (a : Z) : option Z :=
  b0 ← ld8 m a; b1 ← ld8 m (a + 1); b2 ← ld8 m (a + 2); b3 ← ld8 m (a + 3);
  Some (u32 (le_word [b0; b1; b2; b3])).

Definition be32 (v : Z) : Z :=
  u32 (Z.lor (Z.lor (Z.lor (Z.shiftl (Z.land v 0xFF) 24) (Z.shiftl (Z.land v 0xFF00) 8))
                    (Z.land (Z.shiftr v 8) 0xFF00))
             (Z.land (Z.shiftr v 24) 0xFF)).
Definition rd32 (m : region) (p : Z) : option Z := v ← ld32 m p; Some (be32 v).

Fixpoint lstrlen_loop (m : region) (p e : Z) (n : nat) : option Z :=
  match n with
  | O => Some p
  | S n' => if p <? e then c ← ld8 m p; if c =? 0 then Some p else lstrlen_loop m (p + 1) e n' else Some p
  end.
(** The loop runs at most [e - s] times. *)
Definition lstrlen (m : region) (s e : Z) : option Z :=
  p ← lstrlen_loop m s e (Z.to_nat (e - s)); Some (u32 (p - s)).

(** The second argument is a literal; the end of the list is its NUL. *)
Fixpoint lstrcmp (m : region) (a : Z) (b : list Z) : option Z :=
  c ← ld8 m a;
  match b with
  | [] => Some c
  | x :: b' => if negb (c =? 0) && (c =? x) then lstrcmp m (a + 1) b' else Some (c - x)
  end.
Fixpoint lstrcmp_n (m : region) (a : Z) (b : list Z) (n : nat) {struct n} : option Z :=
  match n with
  | O => Some 0
  | S n' =>
      c ← ld8 m a;
      match b with
      | [] => Some c
      | x :: b' => if negb (c =? 0) && (c =? x) then lstrcmp_n m (a + 1) b' n' else Some (c - x)
      end
  end.

(** [dtb_sniff]: [Some (Some size)] when the blob is accepted. *)
Definition dtb_sniff (m : region) (ptr : Z) : option (option Z) :=
  if (ptr <? RAM_START) || (DTB_PTR_LIMIT <=? ptr) || negb (Z.land ptr 7 =? 0) then Some None else
  magic ← ld32 m ptr;
  if negb (be32 magic =? DTB_MAGIC_BE) then Some None else
  v ← ld32 m (ptr + 4);
  let size := be32 v in
  if (size =? 0) || (u32 (DTB_PTR_LIMIT - ptr) <? size) then Some None else Some (Some size).

(** ** The walkers *)

(** A pointer into the strings block; 0 is [NULL]. *)
Definition fdt_string (m : region) (base e off : Z) : option Z :=
  let s := base + off in
  if e <=? s then Some 0 else
  l ← lstrlen m s e; if l =? u32 (e - s) then Some 0 else Some s.

(** [(x + 3u) & ~3u] *)
Definition align4 (x : Z) : Z := Z.land (u32 (x + 3)) 0xFFFFFFFC.

(** What stands at [sp], and where the walk goes on. *)
Inductive tok :=
| TEnd
| TNop (next : Z)
| TBegin (name nlen next : Z)
| TEndNode (next : Z)
| TProp (len nameoff val next : Z)
| TBad.

Definition token (m : region) (sp send : Z) : option tok :=
  tok ← rd32 m sp;
  let sp := sp + 4 in
  if tok =? FDT_END then Some TEnd else
  if tok =? FDT_NOP then Some (TNop sp) else
  if tok =? FDT_BEGIN_NODE then
    nlen ← lstrlen m sp send;
    let next := sp + align4 (u32 (nlen + 1)) in
    if send <? next then Some TBad else Some (TBegin sp nlen next)
  else if tok =? FDT_END_NODE then Some (TEndNode sp)
  else if tok =? FDT_PROP then
    if send <? sp + 8 then Some TBad else
    len ← rd32 m sp; nameoff ← rd32 m (sp + 4);
    let val := sp + 8 in
    let next := val + align4 len in
    if (send <? val + len) || (send <? next) then Some TBad else Some (TProp len nameoff val next)
  else Some TBad.

(** [for (i = 0; i < n; i++) x = (x << 32) | rd32(p + 4u * i);] *)
Fixpoint cells (m : region) (p : Z) (n : nat) (x : Z) : option Z :=
  match n with
  | O => Some x
  | S n' => v ← rd32 m p; cells m (p + 4) n' (Z.lor (u64 (Z.shiftl x 32)) v)
  end.

(** [nlen >= n && lstrcmp_n(name, lit, n) == 0] *)
Definition prefix (m : region) (name nlen : Z) (lit : list Z) : option bool :=
  if Z.of_nat (length lit) <=? nlen then c ← lstrcmp_n m name lit (length lit); Some (c =? 0) else Some false.
(** [nlen == n || name[n] == '@'] *)
Definition ends_or_at (m : region) (name nlen n : Z) : option bool :=
  if nlen =? n then Some true else c ← ld8 m (name + n); Some (c =? 64).

Definition is_memory (m : region) (name nlen parent_depth : Z) : option bool :=
  if negb (parent_depth =? 1) then Some false else
  p ← prefix m name nlen (bytes "memory");
  if (p : bool) then ends_or_at m name nlen 6 else Some false.
Definition is_uart (m : region) (name nlen parent_depth : Z) : option bool :=
  if negb (parent_depth =? 1) then Some false else
  p ← prefix m name nlen (bytes "serial@"); if (p : bool) then Some true else
  p ← prefix m name nlen (bytes "uart@"); if (p : bool) then Some true else
  p ← prefix m name nlen (bytes "pl011@"); if (p : bool) then Some true else
  p ← prefix m name nlen (bytes "ns16550"); if (p : bool) then ends_or_at m name nlen 7 else Some false.

(** [lstrcmp(pname, lit) == 0] *)
Definition streq (m : region) (pname : Z) (lit : list Z) : option bool := c ← lstrcmp m pname lit; Some (c =? 0).

Section Walk.
Context (m : region) (send sb sbend : Z).

(** The loop of [dtb_memory]; [Some None] is [return 0]. *)
Fixpoint mem_walk (sp depth : Z) (mem_node : bool) (ac sc : Z) (n : nat) : option (option (Z * Z)) :=
  match n with
  | O => None
  | S n' =>
      if negb (sp + 4 <=? send) then Some None else
      t ← token m sp send;
      match t with
      | TEnd | TBad => Some None
      | TNop next => mem_walk next depth mem_node ac sc n'
      | TBegin name nlen next =>
          b ← is_memory m name nlen depth; mem_walk next (depth + 1) b ac sc n'
      | TEndNode next => mem_walk next (if 0 <? depth then depth - 1 else depth) false ac sc n'
      | TProp len off val next =>
          pname ← fdt_string m sb sbend off;
          if pname =? 0 then mem_walk next depth mem_node ac sc n' else
          reg ← (if mem_node then streq m pname (bytes "reg") else Some false);
          if (reg : bool) then
            if (ac <? 1) || (2 <? ac) || (sc <? 1) || (2 <? sc) || negb (len =? u32 ((ac + sc) * 4)) then Some None else
            base ← cells m val (Z.to_nat ac) 0;
            size ← cells m (val + 4 * ac) (Z.to_nat sc) 0;
            Some (Some (base, size))
          else if negb mem_node && (depth =? 1) && (len =? 4) then
            a ← streq m pname (bytes "#address-cells");
            if (a : bool) then v ← rd32 m val; mem_walk next depth mem_node v sc n' else
            s ← streq m pname (bytes "#size-cells");
            if (s : bool) then v ← rd32 m val; mem_walk next depth mem_node ac v n' else
            mem_walk next depth mem_node ac sc n'
          else mem_walk next depth mem_node ac sc n'
      end
  end.

(** The loop of [dtb_find_uart]. *)
Fixpoint uart_walk (sp depth : Z) (candidate : bool) (found ac : Z) (n : nat) : option Z :=
  match n with
  | O => None
  | S n' =>
      if negb (sp + 4 <=? send) then Some found else
      t ← token m sp send;
      match t with
      | TEnd => Some found
      | TBad => Some 0
      | TNop next => uart_walk next depth candidate found ac n'
      | TBegin name nlen next =>
          b ← is_uart m name nlen depth; uart_walk next (depth + 1) b found ac n'
      | TEndNode next => uart_walk next (if 0 <? depth then depth - 1 else depth) false found ac n'
      | TProp len off val next =>
          pname ← fdt_string m sb sbend off;
          if pname =? 0 then uart_walk next depth candidate found ac n' else
          a ← (if (depth =? 1) && negb candidate && (len =? 4) then streq m pname (bytes "#address-cells")
               else Some false);
          if (a : bool) then v ← rd32 m val; uart_walk next depth candidate found v n' else
          r ← (if candidate && (found =? 0) then streq m pname (bytes "reg") else Some false);
          if (r : bool) then
            if (ac <? 1) || (2 <? ac) then Some 0 else
            base ← cells m val (Z.to_nat ac) 0;
            uart_walk next depth candidate base ac n'
          else uart_walk next depth candidate found ac n'
      end
  end.
End Walk.

(** Every round moves four bytes forward at least. *)
Definition rounds (size : Z) : nat := S (Z.to_nat (size / 4)).

Definition dtb_memory (m : region) (dtb dtb_size : Z) : option (option (Z * Z)) :=
  struct_off ← rd32 m (dtb + 8); strings_off ← rd32 m (dtb + 12); struct_size ← rd32 m (dtb + 36);
  if (struct_size =? 0) || (dtb_size <? struct_off) || (dtb_size <? strings_off)
     || (dtb_size - struct_off <? struct_size) then Some None else
  strings_size ← rd32 m (dtb + 32);
  if dtb_size - strings_off <? strings_size then Some None else
  let sp := dtb + struct_off in
  let sb := dtb + strings_off in
  mem_walk m (sp + struct_size) sb (sb + strings_size) sp 0 false 2 1 (rounds struct_size).

Definition dtb_find_uart (m : region) (dtb dtb_size : Z) : option Z :=
  struct_off ← rd32 m (dtb + 8); strings_off ← rd32 m (dtb + 12); struct_size ← rd32 m (dtb + 36);
  if (struct_size =? 0) || (dtb_size <? struct_off) || (dtb_size <? strings_off)
     || (dtb_size - struct_off <? struct_size) then Some 0 else
  strings_size ← rd32 m (dtb + 32);
  let sp := dtb + struct_off in
  let sb := dtb + strings_off in
  uart_walk m (sp + struct_size) sb (sb + strings_size) sp 0 false 0 2 (rounds struct_size).

(** ** The hand-off *)

Record bootinfo := mk_bi {
  bi_magic : Z; bi_version : Z; bi_ram_base : Z; bi_ram_size : Z; bi_uart_base : Z;
  bi_dtb_ptr : Z; bi_dtb_size : Z; bi_kernel_size : Z; bi_flags : Z; bi_reserved : Z }.

(** The addresses that the linker script defines, and where [bi] lives. *)
Record image := mk_image { kernel_start : Z; kernel_end : Z; kernel_image_end : Z; bi_addr : Z }.

Definition validate_kernel (k : image) : bool :=
  if kernel_start k <? KERNEL_BASE then false else
  if u64 (kernel_end k - kernel_start k) <? KERNEL_MIN_SIZE then false else
  if RAM_END <? kernel_end k then false else true.

Definition banner : M bootinfo unit :=
  puts "" ;;; puts "=========================================" ;;;
  puts "  AEOS - Ajeeb Embodied AI OS  [LDR v1.1]" ;;;
  puts "=========================================".

(** What the device tree contributes: flags, UART base, RAM size. *)
Definition read_dtb (m : region) (dtb : Z) (dtb_size : Z) : M bootinfo (Z * Z * Z) :=
  puts_nolf "[LDR] DTB found @ " ;;; put_hex dtb ;;; puts_nolf " (" ;;; put_dec dtb_size ;;; puts " bytes)" ;;;
  let* ubase := of_opt (dtb_find_uart m dtb dtb_size) in
  let* fu :=
    if negb (ubase =? 0) then
      puts_nolf "[LDR] UART: " ;;; put_hex ubase ;;; puts " (from DTB)" ;;;
      ret (Z.lor BI_FLAG_DTB_VALID BI_FLAG_UART_VALID, ubase)
    else ret (BI_FLAG_DTB_VALID, UART_BASE) in
  let* r := of_opt (dtb_memory m dtb dtb_size) in
  match r with
  | Some (base, size) =>
      if (base =? RAM_START) && (KERNEL_MIN_SIZE <=? size) && (size <=? Z.shiftl 4 30)
      then ret (Z.lor fu.1 BI_FLAG_RAM_MEASURED, fu.2, size)
      else ret (fu.1, fu.2, DEFAULT_RAM_SIZE)
  | None => ret (fu.1, fu.2, DEFAULT_RAM_SIZE)
  end.

Definition loader_main (k : image) (m : region) (dtb_ptr_raw : Z) : M bootinfo Z :=
  banner ;;; puts "[LDR] AEOS-LDR stage-2 v1.1" ;;;
  if negb (validate_kernel k) then
    puts "[LDR] FATAL: kernel image invalid" ;;; puts_nolf "[LDR]   start=" ;;; put_hex (kernel_start k) ;;;
    puts_nolf " end=" ;;; put_hex (kernel_end k) ;;; puts "" ;;; ret 0
  else
  puts_nolf "[LDR] Kernel OK: " ;;; put_dec (u32 (kernel_end k - kernel_start k)) ;;;
  puts_nolf " bytes @ " ;;; put_hex (kernel_start k) ;;; puts "" ;;;
  let* dtb_ok := of_opt (dtb_sniff m dtb_ptr_raw) in
  let* r :=
    match dtb_ok with
    | Some dtb_size => read_dtb m dtb_ptr_raw dtb_size
    | None => puts "[LDR] No DTB - using built-in defaults" ;;; ret (0, UART_BASE, DEFAULT_RAM_SIZE)
    end in
  let '(flags, uart, ram_size) := r in
  puts_nolf "[LDR] RAM: " ;;; put_dec (u32 (Z.shiftr ram_size 20)) ;;; puts_nolf " MB (" ;;;
  puts (if negb (Z.land flags BI_FLAG_RAM_MEASURED =? 0) then "measured from DTB)" else "built-in default)") ;;;
  put (mk_bi BOOTINFO_MAGIC LOADER_VERSION RAM_START ram_size uart
         (match dtb_ok with Some _ => dtb_ptr_raw | None => 0 end)
         (match dtb_ok with Some size => size | None => 0 end)
         (u32 (kernel_image_end k - kernel_start k)) flags 0) ;;;
  puts "[LDR] Handing off to kernel..." ;;; puts "" ;;;
  ret (bi_addr k).

(** ** Safety *)

Definition inside (m : region) (a n : Z) : Prop :=
  rbase m <= a /\ a + n <= rbase m + Z.of_nat (length (rbytes m)).

Section Safe.
Context (m : region).

Lemma ld8_in a : inside m a 1 -> is_Some (ld8 m a).
Proof. unfold inside, ld8. intros. destruct (aget_in (rbytes m) (a - rbase m)) as [x ->]; [lia|done]. Qed.

Lemma ld32_in a : inside m a 4 -> is_Some (ld32 m a).
Proof.
  intros H. unfold ld32.
  do 4 (match goal with |- context [ld8 m ?p ≫= _] =>
          destruct (ld8_in p) as [? ->]; [unfold inside in *; lia|]; cbn [mbind option_bind] end).
  done.
Qed.

Lemma be32_range v : 0 <= be32 v < 2 ^ 32.
Proof. apply u32_range. Qed.

Lemma rd32_in a : inside m a 4 -> exists v, rd32 m a = Some v /\ 0 <= v < 2 ^ 32.
Proof. intros H. unfold rd32. destruct (ld32_in a H) as [v ->]. eexists. split; [done|]. apply be32_range. Qed.

Lemma lstrlen_loop_in n : forall p e, Z.of_nat n = e - p -> inside m p (e - p) ->
  exists q, lstrlen_loop m p e n = Some q /\ p <= q <= e /\
    (q < e -> ld8 m q = Some 0) /\ (forall i, p <= i < q -> exists c, ld8 m i = Some c /\ c <> 0).
Proof.
  induction n as [|n IH]; intros p e Hn Hi; cbn [lstrlen_loop].
  - exists p. repeat split; [lia..|]. intros; lia.
  - destruct (Z.ltb_spec p e); [|lia]. destruct (ld8_in p) as [c Ec]; [unfold inside in *; lia|].
    rewrite Ec. cbn [mbind option_bind]. destruct (Z.eqb_spec c 0) as [->|Hc].
    + exists p. repeat split; [lia..|done|]. intros; lia.
    + destruct (IH (p + 1) e) as (q & -> & Hq & Hz & Hnz); [lia|unfold inside in *; lia|].
      exists q. repeat split; [lia..|done|]. intros i Hr. destruct (decide (i = p)) as [->|]; [eauto|]. apply Hnz. lia.
Qed.

(** The length of a string within a window, and its terminator. *)
Lemma lstrlen_in s e : s <= e < s + 2 ^ 32 -> inside m s (e - s) ->
  exists l, lstrlen m s e = Some l /\ 0 <= l <= e - s /\
    (l < e - s -> ld8 m (s + l) = Some 0) /\ (forall i, s <= i < s + l -> exists c, ld8 m i = Some c /\ c <> 0).
Proof.
  intros Hs Hi. unfold lstrlen. destruct (lstrlen_loop_in (Z.to_nat (e - s)) s e) as (q & -> & Hq & Hz & Hnz); [lia|done|].
  cbn [mbind option_bind]. unfold u32. rewrite Z.mod_small by lia. exists (q - s).
  replace (s + (q - s)) with q by lia. repeat split; [lia..| |done]. intros; apply Hz; lia.
Qed.

(** Comparing with a literal stays within the bytes up to the NUL. *)
Lemma lstrcmp_in b : forall a l, 0 <= l -> ld8 m (a + l) = Some 0 ->
  (forall i, a <= i < a + l -> is_Some (ld8 m i)) -> is_Some (lstrcmp m a b).
Proof.
  induction b as [|x b IH]; intros a l Hl Hz Hs; cbn [lstrcmp].
  - destruct (decide (l = 0)) as [->|]; [replace (a + 0) with a in Hz by lia; by rewrite Hz|].
    destruct (Hs a) as [c ->]; [lia|done].
  - destruct (decide (l = 0)) as [->|]; [replace (a + 0) with a in Hz by lia; by rewrite Hz|].
    destruct (Hs a) as [c ->]; [lia|]. cbn [mbind option_bind]. case_match; [|done].
    apply (IH (a + 1) (l - 1)); [lia|by replace (a + 1 + (l - 1)) with (a + l) by lia|]. intros i Hi. apply Hs. lia.
Qed.
Lemma lstrcmp_n_in n : forall a b, inside m a (Z.of_nat n) -> is_Some (lstrcmp_n m a b n).
Proof.
  induction n as [|n IH]; intros a b Hi; cbn [lstrcmp_n]; [done|].
  destruct (ld8_in a) as [c ->]; [unfold inside in *; lia|]. cbn [mbind option_bind].
  destruct b; [done|]. case_match; [|done]. apply IH. unfold inside in *. lia.
Qed.

(** What [fdt_string] returns can be compared with any literal. *)
Lemma fdt_string_in base e off : 0 < base -> 0 <= off -> base <= e < base + 2 ^ 32 -> inside m base (e - base) ->
  exists s, fdt_string m base e off = Some s /\ (s <> 0 -> forall lit, is_Some (streq m s lit)).
Proof.
  intros Hb Ho He Hi. unfold fdt_string. destruct (Z.leb_spec e (base + off)); [by exists 0|].
  destruct (lstrlen_in (base + off) e) as (l & -> & Hl & Hz & Hnz); [lia|unfold inside in *; lia|].
  cbn [mbind option_bind]. unfold u32. rewrite Z.mod_small by lia.
  case_match; bool_hyps; [by exists 0|]. eexists. split; [done|]. intros _ lit. unfold streq.
  destruct (lstrcmp_in lit (base + off) l) as [c ->]; [lia|apply Hz; lia| |done].
  intros i Hr. destruct (Hnz i Hr) as (c & -> & _). done.
Qed.

Lemma align4_eq x : align4 x = u32 (x + 3) / 4 * 4.
Proof.
  unfold align4. pose proof (u32_range (x + 3)). set (y := u32 (x + 3)) in *. clearbody y.
  rewrite <- (Z.mod_small y (2 ^ 32)) at 1 by done. rewrite <- (land_low y 32), <- Z.land_assoc by lia.
  change (Z.land (2 ^ 32 - 1) 0xFFFFFFFC) with (Z.shiftl (2 ^ 30 - 1) 2).
  change (y / 4 * 4) with (y / 2 ^ 2 * 2 ^ 2). rewrite <- Z.shiftr_div_pow2, <- Z.shiftl_mul_pow2 by lia.
  replace (Z.shiftr y 2) with (Z.land (Z.shiftr y 2) (2 ^ 30 - 1)).
  2: { rewrite (land_low _ 30), Z.shiftr_div_pow2 by lia. apply Z.mod_small. zlia. }
  apply Z.bits_inj'. intros i Hi. rewrite Z.land_spec.
  destruct (Z.ltb_spec i 2); [rewrite !Z.shiftl_spec_low by lia; apply andb_false_r|].
  rewrite !Z.shiftl_spec, Z.land_spec, Z.shiftr_spec by lia. by replace (i - 2 + 2) with i by lia.
Qed.
Lemma align4_range x : 0 <= align4 x < 2 ^ 32.
Proof. rewrite align4_eq. pose proof (u32_range (x + 3)). zlia. Qed.

(** Where a token's parts lie. *)
Definition tok_ok (sp send : Z) (t : tok) : Prop :=
  match t with
  | TEnd | TBad => True
  | TNop next | TEndNode next => next = sp + 4
  | TBegin name nlen next => name = sp + 4 /\ 0 <= nlen /\ name + nlen <= send /\ name <= next <= send
  | TProp len off val next =>
      0 <= off /\ val = sp + 12 /\ 0 <= len /\ val + len <= send /\ val <= next <= send
  end.

Lemma token_in sp send : sp + 4 <= send < sp + 2 ^ 32 -> inside m sp (send - sp) ->
  exists t, token m sp send = Some t /\ tok_ok sp send t.
Proof.
  intros Hs Hi. unfold token. destruct (rd32_in sp) as (v & -> & _); [unfold inside in *; lia|].
  cbn [mbind option_bind]. repeat (case_match; [by eexists|]). case_match; [|case_match; [by eexists|case_match]].
  - destruct (lstrlen_in (sp + 4) send) as (l & -> & Hl & _); [lia|unfold inside in *; lia|].
    cbn [mbind option_bind]. case_match; bool_hyps; [by eexists|]. eexists. split; [done|]. cbn.
    pose proof (align4_range (u32 (l + 1))). lia.
  - case_match; bool_hyps; [by eexists|].
    destruct (rd32_in (sp + 4)) as (len & -> & Hlen); [unfold inside in *; lia|]. cbn [mbind option_bind].
    destruct (rd32_in (sp + 4 + 4)) as (off & -> & Hoff); [unfold inside in *; lia|]. cbn [mbind option_bind].
    pose proof (align4_range len). case_match; bool_hyps; [by eexists|]. eexists. split; [done|].
    cbn. lia.
  - by eexists.
Qed.

Lemma prefix_in name nlen lit : 0 <= nlen -> inside m name nlen ->
  exists b, prefix m name nlen lit = Some b /\ (b = true -> Z.of_nat (length lit) <= nlen).
Proof.
  intros Hn Hi. unfold prefix. destruct (Z.leb_spec (Z.of_nat (length lit)) nlen); [|by exists false].
  destruct (lstrcmp_n_in (length lit) name lit) as [c ->]; [unfold inside in *; lia|]. by eexists.
Qed.
Lemma ends_or_at_in name nlen n : 0 <= n <= nlen -> inside m name nlen -> is_Some (ends_or_at m name nlen n).
Proof.
  intros Hn Hi. unfold ends_or_at. case_match; bool_hyps; [done|].
  destruct (ld8_in (name + n)) as [c ->]; [unfold inside in *; lia|done].
Qed.
Lemma is_memory_in name nlen d : 0 <= nlen -> inside m name nlen -> is_Some (is_memory m name nlen d).
Proof.
  intros Hn Hi. unfold is_memory. case_match; [done|].
  destruct (prefix_in name nlen (bytes "memory") Hn Hi) as (b & -> & Hb). cbn [mbind option_bind].
  destruct b; [|done]. specialize (Hb eq_refl). apply ends_or_at_in; [|done]. split; [lia|exact Hb].
Qed.
Lemma is_uart_in name nlen d : 0 <= nlen -> inside m name nlen -> is_Some (is_uart m name nlen d).
Proof.
  intros Hn Hi. unfold is_uart. case_match; [done|].
  do 3 (match goal with |- context [prefix m name nlen ?l] =>
          destruct (prefix_in name nlen l Hn Hi) as ([] & -> & _); cbn [mbind option_bind]; [done|] end).
  destruct (prefix_in name nlen (bytes "ns16550") Hn Hi) as (b & -> & Hb). cbn [mbind option_bind].
  destruct b; [|done]. specialize (Hb eq_refl). apply ends_or_at_in; [|done]. split; [lia|exact Hb].
Qed.
Lemma cells_in n : forall p x, inside m p (4 * Z.of_nat n) -> is_Some (cells m p n x).
Proof.
  induction n as [|n IH]; intros p x Hi; cbn [cells]; [done|].
  destruct (rd32_in p) as (v & -> & _); [unfold inside in *; lia|]. apply IH. unfold inside in *. lia.
Qed.

Context (send sb sbend : Z).
Hypothesis sb_pos : 0 < sb.
Hypothesis strings_size : sb <= sbend < sb + 2 ^ 32.
Hypothesis strings_in : inside m sb (sbend - sb).

Lemma mem_walk_in n : forall sp depth mem ac sc, sp <= send < sp + 2 ^ 32 -> inside m sp (send - sp) ->
  (send - sp) / 4 < Z.of_nat n -> is_Some (mem_walk m send sb sbend sp depth mem ac sc n).
Proof.
  induction n as [|n IH]; intros sp depth mem ac sc Hs Hi Hn; [zlia|]. cbn [mem_walk].
  case_match; bool_hyps; [done|].
  destruct (token_in sp send) as (t & -> & Ht); [lia|done|]. cbn [mbind option_bind].
  assert (Hgo : forall next, sp + 4 <= next <= send -> forall d mm a s,
            is_Some (mem_walk m send sb sbend next d mm a s n)).
  { intros next Hx d mm a s. apply IH; [lia|unfold inside in *; lia|zlia]. }
  destruct t as [|next|name nlen next|next|len off val next|]; cbn [tok_ok] in Ht; [done|apply Hgo; lia| |apply Hgo; lia| |done].
  - destruct (is_memory_in name nlen depth) as [b ->]; [lia|unfold inside in *; lia|]. apply Hgo. lia.
  - destruct (fdt_string_in sb sbend off) as (s & -> & Hst); [lia..|done|]. cbn [mbind option_bind].
    destruct (Z.eqb_spec s 0) as [|Hs0]; [apply Hgo; lia|].
    assert (Hnext : sp + 4 <= next <= send) by lia. specialize (Hgo next Hnext).
    destruct (Hst Hs0 (bytes "reg")) as [b Hb]. destruct (Hst Hs0 (bytes "#address-cells")) as [b1 Hb1].
    destruct (Hst Hs0 (bytes "#size-cells")) as [b2 Hb2]. rewrite Hb, Hb1, Hb2.
    assert (Hr : is_Some (if mem then Some b else Some false)) by (destruct mem; done). destruct Hr as [r ->].
    cbn [mbind option_bind]. destruct r.
    + case_match; bool_hyps; [done|]. assert (len = (ac + sc) * 4) by (unfold u32 in *; rewrite Z.mod_small in *; lia).
      destruct (cells_in (Z.to_nat ac) val 0) as [x ->]; [unfold inside in *; lia|]. cbn [mbind option_bind].
      destruct (cells_in (Z.to_nat sc) (val + 4 * ac) 0) as [y ->]; [unfold inside in *; lia|]. done.
    + case_match; [|apply Hgo]. bool_hyps. destruct (rd32_in val) as (v & -> & _); [unfold inside in *; lia|].
      destruct b1, b2; cbn [mbind option_bind]; apply Hgo.
Qed.

(** Eight readable bytes after the structure block are enough for
    [dtb_find_uart], which does not look at the length of [reg]. *)
Lemma uart_walk_in n : forall sp depth cand found ac, sp <= send < sp + 2 ^ 32 -> inside m sp (send + 8 - sp) ->
  (send - sp) / 4 < Z.of_nat n -> is_Some (uart_walk m send sb sbend sp depth cand found ac n).
Proof.
  induction n as [|n IH]; intros sp depth cand found ac Hs Hi Hn; [zlia|]. cbn [uart_walk].
  case_match; bool_hyps; [done|].
  destruct (token_in sp send) as (t & -> & Ht); [lia|unfold inside in *; lia|]. cbn [mbind option_bind].
  assert (Hgo : forall next, sp + 4 <= next <= send -> forall d mm a s,
            is_Some (uart_walk m send sb sbend next d mm a s n)).
  { intros next Hx d mm a s. apply IH; [lia|unfold inside in *; lia|zlia]. }
  destruct t as [|next|name nlen next|next|len off val next|]; cbn [tok_ok] in Ht; [done|apply Hgo; lia| |apply Hgo; lia| |done].
  - destruct (is_uart_in name nlen depth) as [b ->]; [lia|unfold inside in *; lia|]. apply Hgo. lia.
  - destruct (fdt_string_in sb sbend off) as (s & -> & Hst); [lia..|done|]. cbn [mbind option_bind].
    destruct (Z.eqb_spec s 0) as [|Hs0]; [apply Hgo; lia|].
    assert (Hnext : sp + 4 <= next <= send) by lia. specialize (Hgo next Hnext).
    destruct (Hst Hs0 (bytes "reg")) as [b Hb]. destruct (Hst Hs0 (bytes "#address-cells")) as [b1 Hb1].
    rewrite Hb, Hb1. destruct (rd32_in val) as (v & -> & _); [unfold inside in *; lia|].
    assert (Ha : is_Some (if (depth =? 1) && negb cand && (len =? 4) then Some b1 else Some false)) by (case_match; done).
    assert (Hr : is_Some (if cand && (found =? 0) then Some b else Some false)) by (by destruct (cand && (found =? 0))).
    destruct Ha as [a1 ->]. destruct Hr as [r1 ->]. cbn [mbind option_bind]. destruct a1; [apply Hgo|].
    destruct r1; [|apply Hgo]. case_match; bool_hyps; [done|].
    destruct (cells_in (Z.to_nat ac) val 0) as [x ->]; [unfold inside in *; lia|]. apply Hgo.
Qed.
End Safe.

Lemma rounds_ok size : 0 <= size -> size / 4 < Z.of_nat (rounds size).
Proof. intros. unfold rounds. zlia. Qed.

(** ** Flattened trees *)

(** A node: its name, its properties and its children. *)
Inductive fdt := Node (name : list Z) (props : list (list Z * list Z)) (subs : list fdt).

(** The induction principle that goes through the lists of children. *)
Fixpoint fdt_nested_ind (P : fdt -> Prop)
  (H : forall name props subs, Forall P subs -> P (Node name props subs)) (t : fdt) : P t :=
  match t with
  | Node name props subs =>
      H name props subs
        ((fix go l : Forall P l :=
            match l with
            | [] => Forall_nil_2 P
            | x :: l' => Forall_cons_2 P x l' (fdt_nested_ind P H x) (go l')
            end) subs)
  end.

(** The format (Devicetree Specification 0.4, chapter 5): big-endian words, names
    and values padded to four bytes, property names by their offset in a block of
    strings. *)
Definition be4 (x : Z) : list Z := [x / 2 ^ 24 mod 256; x / 2 ^ 16 mod 256; x / 2 ^ 8 mod 256; x mod 256].
Definition pad (l : list Z) : list Z := l ++ replicate (Z.to_nat ((- Z.of_nat (length l)) mod 4)) 0.

Fixpoint strings_bytes (names : list (list Z)) : list Z :=
  match names with [] => [] | n :: names' => n ++ 0 :: strings_bytes names' end.
Fixpoint str_off (names : list (list Z)) (n : list Z) : Z :=
  match names with
  | [] => 0
  | x :: names' => if decide (x = n) then 0 else Z.of_nat (length x) + 1 + str_off names' n
  end.

Section Flatten.
Context (names : list (list Z)).

Definition flat_prop (p : list Z * list Z) : list Z :=
  be4 FDT_PROP ++ be4 (Z.of_nat (length p.2)) ++ be4 (str_off names p.1) ++ pad p.2.
Fixpoint flatten (t : fdt) : list Z :=
  match t with
  | Node name props subs =>
      be4 FDT_BEGIN_NODE ++ pad (name ++ [0]) ++ concat (map flat_prop props) ++
      (fix go l := match l with [] => [] | x :: l' => flatten x ++ go l' end) subs ++ be4 FDT_END_NODE
  end.
Definition flatten_all (l : list fdt) : list Z := concat (map flatten l).

(** A blob: header, structure block, strings. *)
Definition fdt_blob (t : fdt) : list Z :=
  let st := flatten t ++ be4 FDT_END in
  let ss := strings_bytes names in
  let n := Z.of_nat (length st) in
  concat (map be4 [DTB_MAGIC_BE; 40 + n + Z.of_nat (length ss); 40; 40 + n; 40; 17; 16; 0; Z.of_nat (length ss); n])
  ++ st ++ ss.
End Flatten.

Definition nonzero (c : Z) : Prop := c <> 0.
Definition is_byte (c : Z) : Prop := 0 <= c < 256.
(** Names have no NUL, property names are in the strings block, values are
    bytes. *)
Definition prop_wf (names : list (list Z)) (p : list Z * list Z) : Prop :=
  p.1 ∈ names /\ Forall is_byte p.2.
Inductive fdt_wf (names : list (list Z)) : fdt -> Prop :=
| node_wf name props subs : Forall nonzero name -> Forall (prop_wf names) props -> Forall (fdt_wf names) subs ->
    fdt_wf names (Node name props subs).

(** *** What the memory node of a tree says *)

Definition be_value (l : list Z) : Z := fold_left (fun x b => x * 256 + b) l 0.

Definition root_cell (c : Z * Z) (p : list Z * list Z) : Z * Z :=
  if (length p.2 =? 4)%nat then
    if decide (p.1 = bytes "#address-cells") then (be_value p.2, c.2)
    else if decide (p.1 = bytes "#size-cells") then (c.1, be_value p.2) else c
  else c.
Definition memory_name (name : list Z) : bool :=
  bool_decide (take 6 name = bytes "memory") && ((length name =? 6)%nat || (nth 6 name 0 =? 64)).
Fixpoint find_reg (props : list (list Z * list Z)) : option (list Z) :=
  match props with
  | [] => None
  | p :: props' => if decide (p.1 = bytes "reg") then Some p.2 else find_reg props'
  end.
Definition decode_reg (c : Z * Z) (v : list Z) : option (Z * Z) :=
  if (c.1 <? 1) || (2 <? c.1) || (c.2 <? 1) || (2 <? c.2) || negb (Z.of_nat (length v) =? (c.1 + c.2) * 4) then None
  else Some (be_value (take (4 * Z.to_nat c.1) v), be_value (drop (4 * Z.to_nat c.1) v)).
(** The first child named [memory] or [memory@...] that has a [reg]. *)
Fixpoint memory_reg (subs : list fdt) : option (list Z) :=
  match subs with
  | [] => None
  | Node name props _ :: subs' =>
      match (if memory_name name then find_reg props else None) with
      | Some v => Some v
      | None => memory_reg subs'
      end
  end.
Definition memory_spec (t : fdt) : option (Z * Z) :=
  match t with
  | Node _ props subs => v ← memory_reg subs; decode_reg (fold_left root_cell props (2, 1)) v
  end.

(** *** Reading the encodings back *)

Definition holds (m : region) (a : Z) (l : list Z) : Prop :=
  forall i x, l !! i = Some x -> ld8 m (a + Z.of_nat i) = Some x.

Section Read.
Context (m : region).

Lemma holds_app a l1 l2 : holds m a (l1 ++ l2) <-> holds m a l1 /\ holds m (a + Z.of_nat (length l1)) l2.
Proof.
  split.
  - intros H. split; intros i x E.
    + apply H. by apply lookup_app_l_Some.
    + replace (a + Z.of_nat (length l1) + Z.of_nat i) with (a + Z.of_nat (length l1 + i)) by lia.
      apply H. rewrite lookup_app_r by lia. by replace (length l1 + i - length l1)%nat with i by lia.
  - intros [H1 H2] i x E. apply lookup_app_Some in E as [E|[Hl E]]; [by apply H1|].
    specialize (H2 _ _ E). by replace (a + Z.of_nat (length l1) + Z.of_nat (i - length l1)) with (a + Z.of_nat i) in H2 by lia.
Qed.
Lemma holds_cons a x l : holds m a (x :: l) <-> ld8 m a = Some x /\ holds m (a + 1) l.
Proof.
  change (x :: l) with ([x] ++ l). rewrite holds_app. split; intros [H1 H2]; (split; [|done]).
  - specialize (H1 0%nat x eq_refl). by rewrite Z.add_0_r in H1.
  - intros [|i] y E; [|done]. cbn in E. injection E as ->. by rewrite Z.add_0_r.
Qed.
Lemma holds_self b l : holds (mk_region b l) b l.
Proof. intros i x E. unfold ld8. cbn. apply aget_Some. split; [lia|]. by replace (Z.to_nat (b + Z.of_nat i - b)) with i by lia. Qed.
Lemma holds_inside a l : l <> [] -> holds m a l -> inside m a (Z.of_nat (length l)).
Proof.
  intros Hl H. destruct l as [|x l]; [done|]. assert (exists y, (x :: l) !! length l = Some y) as [y Hy].
  { apply lookup_lt_is_Some_2. simpl. lia. }
  pose proof (H 0%nat x eq_refl) as H0. pose proof (H _ _ Hy) as H1. unfold ld8 in *.
  apply aget_lt in H0, H1. unfold inside. simpl length. lia.
Qed.

Lemma be32_bytes b0 b1 b2 b3 : is_byte b0 -> is_byte b1 -> is_byte b2 -> is_byte b3 ->
  be32 (le_word [b0; b1; b2; b3]) = b0 * 2 ^ 24 + b1 * 2 ^ 16 + b2 * 2 ^ 8 + b3.
Proof.
  unfold is_byte. intros. unfold be32. cbn [le_word]. set (v := b0 + 256 * (b1 + 256 * (b2 + 256 * (b3 + 256 * 0)))).
  assert (E : forall w, Z.land w 0xFF00 = Z.land (Z.shiftr w 8) 0xFF * 2 ^ 8).
  { intros w. rewrite <- Z.shiftl_mul_pow2 by lia. apply Z.bits_inj'. intros i Hi.
    change 0xFF00 with (Z.shiftl 0xFF 8). rewrite Z.land_spec. destruct (Z.ltb_spec i 8).
    - rewrite !Z.shiftl_spec_low by lia. apply andb_false_r.
    - rewrite !Z.shiftl_spec, Z.land_spec, Z.shiftr_spec by lia. by replace (i - 8 + 8) with i by lia. }
  rewrite !E, Z.shiftr_shiftr, !(land_low _ 8), !Z.shiftr_div_pow2, !Z.shiftl_mul_pow2 by lia.
  replace (v mod 2 ^ 8) with b0 by (unfold v; zlia). replace ((v / 2 ^ 8) mod 2 ^ 8) with b1 by (unfold v; zlia).
  replace ((v / 2 ^ (8 + 8)) mod 2 ^ 8) with b2 by (unfold v; zlia).
  replace ((v / 2 ^ 24) mod 2 ^ 8) with b3 by (unfold v; zlia).
  rewrite (lor_low (b0 * 2 ^ 24) _ 24) by zlia. rewrite (lor_low _ (b2 * 2 ^ 8) 16) by zlia.
  rewrite (lor_low _ b3 8) by zlia. rewrite u32_small by lia. lia.
Qed.

Lemma rd32_holds a b0 b1 b2 b3 : is_byte b0 -> is_byte b1 -> is_byte b2 -> is_byte b3 -> holds m a [b0; b1; b2; b3] ->
  rd32 m a = Some (b0 * 2 ^ 24 + b1 * 2 ^ 16 + b2 * 2 ^ 8 + b3).
Proof.
  intros H0 H1 H2 H3 H. rewrite !holds_cons in H. destruct H as (E0 & E1 & E2 & E3 & _).
  unfold rd32, ld32. replace (a + 2) with (a + 1 + 1) by lia. replace (a + 3) with (a + 1 + 1 + 1) by lia.
  rewrite E0, E1, E2, E3. cbn [mbind option_bind]. rewrite u32_small; [by rewrite be32_bytes|].
  unfold is_byte in *. cbn [le_word]. lia.
Qed.
Lemma rd32_be4 a x : 0 <= x < 2 ^ 32 -> holds m a (be4 x) -> rd32 m a = Some x.
Proof. intros Hx H. erewrite rd32_holds; [|..|exact H]; [|unfold is_byte; zlia..]. f_equal. zlia. Qed.

Lemma lstrlen_loop_holds s e : forall a n, Forall nonzero s -> holds m a (s ++ [0]) ->
  a + Z.of_nat (length s) < e -> (length s < n)%nat -> lstrlen_loop m a e n = Some (a + Z.of_nat (length s)).
Proof.
  induction s as [|c s IH]; intros a n Hz H He Hn; (destruct n as [|n]; [simpl in Hn; lia|]); cbn [lstrlen_loop app length] in *.
  - apply holds_cons in H as [-> _]. destruct (Z.ltb_spec a e); [|lia]. cbn. f_equal. lia.
  - apply Forall_cons in Hz as [Hc Hz]. apply holds_cons in H as [-> H]. destruct (Z.ltb_spec a e); [|lia].
    cbn [mbind option_bind]. destruct (Z.eqb_spec c 0); [done|]. rewrite IH; [|done|done|lia..]. f_equal. lia.
Qed.
Lemma lstrlen_holds a s e : Forall nonzero s -> holds m a (s ++ [0]) -> a + Z.of_nat (length s) < e < a + 2 ^ 32 ->
  lstrlen m a e = Some (Z.of_nat (length s)).
Proof.
  intros Hz H He. unfold lstrlen. rewrite (lstrlen_loop_holds s e) by (done || lia). cbn [mbind option_bind].
  f_equal. rewrite u32_small by lia. lia.
Qed.

Lemma fdt_string_holds sb e off s : Forall nonzero s -> holds m (sb + off) (s ++ [0]) ->
  sb + off + Z.of_nat (length s) < e < sb + off + 2 ^ 32 -> fdt_string m sb e off = Some (sb + off).
Proof.
  intros Hz H He. unfold fdt_string. destruct (Z.leb_spec e (sb + off)); [lia|].
  rewrite (lstrlen_holds _ s e) by done. cbn [mbind option_bind]. rewrite u32_small by lia. case_match; bool_hyps; [lia|done].
Qed.

Lemma lstrcmp_holds s : forall a lit, Forall nonzero s -> Forall nonzero lit -> holds m a (s ++ [0]) ->
  exists c, lstrcmp m a lit = Some c /\ (c = 0 <-> s = lit).
Proof.
  induction s as [|x s IH]; intros a lit Hs Hl H; cbn [app] in H; apply holds_cons in H as [E H].
  - destruct lit as [|y lit]; cbn [lstrcmp]; rewrite E; cbn; [by exists 0|].
    apply Forall_cons in Hl as [Hy _]. exists (- y). unfold nonzero in Hy. split; [done|split; [lia|done]].
  - apply Forall_cons in Hs as [Hx Hs]. unfold nonzero in Hx.
    destruct lit as [|y lit]; cbn [lstrcmp]; rewrite E; cbn [mbind option_bind]; [by exists x|].
    apply Forall_cons in Hl as [Hy Hl]. destruct (Z.eqb_spec x 0); [done|]. cbn [negb andb].
    destruct (Z.eqb_spec x y) as [->|Hne].
    + destruct (IH (a + 1) lit Hs Hl H) as (c & -> & Hc). exists c. split; [done|]. rewrite Hc. split; congruence.
    + exists (x - y). split; [done|]. split; [lia|congruence].
Qed.
Lemma streq_holds s a lit : Forall nonzero s -> Forall nonzero lit -> holds m a (s ++ [0]) ->
  streq m a lit = Some (bool_decide (s = lit)).
Proof.
  intros Hs Hl H. unfold streq. destruct (lstrcmp_holds s a lit Hs Hl H) as (c & -> & Hc). cbn [mbind option_bind].
  f_equal. case_bool_decide; [by apply Z.eqb_eq, Hc|]. apply Z.eqb_neq. tauto.
Qed.

Lemma lstrcmp_n_holds lit : forall a s, Forall nonzero lit -> holds m a s -> (length lit <= length s)%nat ->
  exists c, lstrcmp_n m a lit (length lit) = Some c /\ (c = 0 <-> take (length lit) s = lit).
Proof.
  induction lit as [|y lit IH]; intros a s Hl H Hn; cbn [length lstrcmp_n]; [by exists 0|].
  destruct s as [|x s]; [simpl in Hn; lia|]. apply holds_cons in H as [E H]. rewrite E. cbn [mbind option_bind take].
  apply Forall_cons in Hl as [Hy Hl]. unfold nonzero in Hy. destruct (Z.eqb_spec x y) as [->|Hne].
  - destruct (Z.eqb_spec y 0); [done|]. cbn [negb andb].
    destruct (IH (a + 1) s Hl H ltac:(simpl in Hn; lia)) as (c & -> & Hc). exists c. split; [done|]. rewrite Hc. split; congruence.
  - rewrite andb_false_r. exists (x - y). split; [done|]. split; [lia|congruence].
Qed.
Lemma is_memory_holds a s : holds m a s -> is_memory m a (Z.of_nat (length s)) 1 = Some (memory_name s).
Proof.
  intros H. unfold is_memory, prefix, memory_name. cbn [Z.eqb Pos.eqb negb].
  change (Z.of_nat (length (bytes "memory"))) with 6. destruct (Z.leb_spec 6 (Z.of_nat (length s))) as [Hl|Hl].
  - destruct (lstrcmp_n_holds (bytes "memory") a s) as (c & -> & Hc); [by repeat constructor|done|cbn; lia|].
    cbn [mbind option_bind]. change (length (bytes "memory")) with 6%nat in Hc. destruct (Z.eqb_spec c 0) as [E|E].
    + rewrite bool_decide_true by (by apply Hc). unfold ends_or_at.
      destruct (Z.eqb_spec (Z.of_nat (length s)) 6) as [E6|E6].
      * by replace (length s) with 6%nat by lia.
      * destruct (lookup_lt_is_Some_2 s 6) as [x Hx]; [lia|]. pose proof (H _ _ Hx) as Hb. change (Z.of_nat 6) with 6 in Hb. rewrite Hb.
        cbn [mbind option_bind]. rewrite (nth_lookup_Some _ _ _ _ Hx).
        destruct (Nat.eqb_spec (length s) 6); [lia|done].
    + rewrite bool_decide_false by tauto. done.
  - cbn [mbind option_bind]. rewrite bool_decide_false; [done|]. intros E. apply (f_equal length) in E.
    rewrite length_take in E. change (length (bytes "memory")) with 6%nat in E. lia.
Qed.

Lemma be_value_app l1 l2 : be_value (l1 ++ l2) = be_value l1 * 256 ^ Z.of_nat (length l2) + be_value l2.
Proof.
  unfold be_value. rewrite fold_left_app. generalize (fold_left (fun x b => x * 256 + b) l1 0). intros x.
  assert (G : forall y x, fold_left (fun x b => x * 256 + b) l2 (x + y) =
    x * 256 ^ Z.of_nat (length l2) + fold_left (fun x b => x * 256 + b) l2 y).
  { induction l2 as [|b l IH]; intros y z; cbn [fold_left length]; [change (256 ^ Z.of_nat 0) with 1; lia|].
    replace ((z + y) * 256 + b) with (z * 256 + (y * 256 + b)) by lia. rewrite IH.
    rewrite Nat2Z.inj_succ, Z.pow_succ_r by lia. lia. }
  specialize (G 0 x). by rewrite Z.add_0_r in G.
Qed.
Lemma be_value_range l : Forall is_byte l -> 0 <= be_value l < 256 ^ Z.of_nat (length l).
Proof.
  induction l as [|b l IH] using rev_ind; intros H; [done|]. apply Forall_app in H as [Hl Hb].
  apply Forall_cons in Hb as [Hb _]. specialize (IH Hl). unfold is_byte in Hb. rewrite be_value_app, length_app.
  cbn [length]. replace (Z.of_nat (length l + 1)) with (Z.succ (Z.of_nat (length l))) by lia.
  rewrite Z.pow_succ_r by lia. change (256 ^ Z.of_nat 1) with 256. change (be_value [b]) with b. lia.
Qed.
Lemma rd32_value a l : Forall is_byte l -> length l = 4%nat -> holds m a l -> rd32 m a = Some (be_value l).
Proof.
  intros Hb Hl H. destruct l as [|b0 [|b1 [|b2 [|b3 [|]]]]]; [done..| |done].
  rewrite !Forall_cons in Hb. destruct Hb as (H0 & H1 & H2 & H3 & _). rewrite (rd32_holds a b0 b1 b2 b3) by done.
  f_equal. unfold be_value. cbn [fold_left]. lia.
Qed.
Lemma cells_value n : forall a l x, Forall is_byte l -> length l = (4 * n)%nat -> holds m a l ->
  0 <= x * 2 ^ (32 * Z.of_nat n) < 2 ^ 64 -> (n <= 2)%nat -> 0 <= x ->
  cells m a n x = Some (x * 2 ^ (32 * Z.of_nat n) + be_value l).
Proof.
  induction n as [|n IH]; intros a l x Hb Hl H Hx Hn Hx0; cbn [cells].
  - destruct l; [|done]. change (2 ^ (32 * Z.of_nat 0)) with 1. change (be_value []) with 0. f_equal. lia.
  - rewrite <- (take_drop 4 l) in H, Hb. apply Forall_app in Hb as [Hb1 Hb2].
    assert (Ht : length (take 4 l) = 4%nat) by (rewrite length_take; lia).
    apply holds_app in H as [H1 H2]. rewrite Ht in H2. rewrite (rd32_value a (take 4 l)) by done. cbn [mbind option_bind].
    pose proof (be_value_range _ Hb1) as Hv. rewrite Ht in Hv. change (256 ^ Z.of_nat 4) with (2 ^ 32) in Hv.
    assert (Ep : 2 ^ (32 * Z.of_nat (S n)) = 2 ^ 32 * 2 ^ (32 * Z.of_nat n))
      by (rewrite <- Z.pow_add_r by lia; f_equal; lia).
    assert (0 < 2 ^ (32 * Z.of_nat n)) by (apply Z.pow_pos_nonneg; lia).
    assert (Hx2 : x * 2 ^ 32 < 2 ^ 64) by nia.
    rewrite Z.shiftl_mul_pow2, u64_small by lia.
    rewrite (lor_low _ _ 32) by (lia || apply Z.mod_mul; lia).
    assert (Hd : length (drop 4 l) = (4 * n)%nat) by (rewrite length_drop; lia).
    rewrite (IH (a + 4) (drop 4 l)); [|done|done|exact H2| |lia|lia].
    + f_equal. rewrite <- (take_drop 4 l) at 3. rewrite be_value_app, Hd, Ep.
      replace (256 ^ Z.of_nat (4 * n)) with (2 ^ (32 * Z.of_nat n)); [lia|].
      change 256 with (2 ^ 8). rewrite <- Z.pow_mul_r by lia. f_equal. lia.
    + destruct n as [|[|]]; [change (2 ^ (32 * Z.of_nat 0)) with 1; lia| |lia].
      change (2 ^ (32 * Z.of_nat 1)) with (2 ^ 32) in *. change (2 ^ (32 * Z.of_nat 2)) with (2 ^ 64) in *. nia.
Qed.
End Read.

Lemma length_pad l : Z.of_nat (length (pad l)) = (Z.of_nat (length l) + 3) / 4 * 4.
Proof. unfold pad. rewrite length_app, length_replicate. zlia. Qed.
Lemma align4_pad l : Z.of_nat (length l) < 2 ^ 32 - 3 -> align4 (Z.of_nat (length l)) = Z.of_nat (length (pad l)).
Proof. intros H. rewrite align4_eq, length_pad, u32_small by lia. done. Qed.

Section Walking.
Context (m : region) (send sb : Z) (names : list (list Z)).
Let sbend : Z := sb + Z.of_nat (length (strings_bytes names)).
Hypothesis names_nz : Forall (Forall nonzero) names.
Hypothesis sb_pos : 0 < sb.
Hypothesis strings_held : holds m sb (strings_bytes names).
Hypothesis strings_small : Z.of_nat (length (strings_bytes names)) < 2 ^ 32.

Lemma str_off_ok n : n ∈ names -> exists l1 l2,
  strings_bytes names = l1 ++ (n ++ [0]) ++ l2 /\ Z.of_nat (length l1) = str_off names n.
Proof.
  clear. induction names as [|x l IH]; intros H; [by apply elem_of_nil in H|]. cbn [strings_bytes str_off].
  destruct (decide (x = n)) as [->|Hne].
  - exists [], (strings_bytes l). split; [|done]. by rewrite <- app_assoc.
  - apply elem_of_cons in H as [->|H]; [done|]. destruct (IH H) as (l1 & l2 & E & El).
    exists (x ++ 0 :: l1), l2. rewrite E, <- El, length_app. split; [by rewrite <- !app_assoc|]. simpl. lia.
Qed.
Lemma name_at n : n ∈ names -> Forall nonzero n /\ holds m (sb + str_off names n) (n ++ [0]) /\
  0 <= str_off names n /\ str_off names n + Z.of_nat (length n) < Z.of_nat (length (strings_bytes names)).
Proof.
  intros Hn. split; [by apply (proj1 (Forall_forall _ _) names_nz)|]. destruct (str_off_ok n Hn) as (l1 & l2 & E & El).
  pose proof strings_held as H. rewrite E in H. apply holds_app in H as [_ H]. apply holds_app in H as [H _].
  rewrite El in H. split; [done|]. rewrite E, !length_app, <- El. simpl. lia.
Qed.

(** Tokens at their encodings. *)
Lemma token_begin sp name : Forall nonzero name -> holds m sp (be4 FDT_BEGIN_NODE ++ pad (name ++ [0])) ->
  sp + 4 + Z.of_nat (length (pad (name ++ [0]))) <= send < sp + 2 ^ 32 ->
  token m sp send = Some (TBegin (sp + 4) (Z.of_nat (length name)) (sp + 4 + Z.of_nat (length (pad (name ++ [0]))))).
Proof.
  intros Hz H Hs. apply holds_app in H as [H0 H]. change (Z.of_nat (length (be4 FDT_BEGIN_NODE))) with 4 in H.
  unfold token. rewrite (rd32_be4 m sp FDT_BEGIN_NODE) by (done || lia). cbn [mbind option_bind].
  change (FDT_BEGIN_NODE =? FDT_END) with false. change (FDT_BEGIN_NODE =? FDT_NOP) with false.
  change (FDT_BEGIN_NODE =? FDT_BEGIN_NODE) with true. cbv iota.
  pose proof (length_pad (name ++ [0])) as Hp. rewrite length_app in Hp. cbn [length] in Hp.
  unfold pad in H. apply holds_app in H as [H _]. rewrite (lstrlen_holds m (sp + 4) name) by (done || zlia).
  cbn [mbind option_bind]. rewrite u32_small by zlia.
  replace (Z.of_nat (length name) + 1) with (Z.of_nat (length (name ++ [0]))) by (rewrite length_app; simpl; lia).
  rewrite align4_pad by (rewrite length_app; simpl; zlia). destruct (Z.ltb_spec send (sp + 4 + Z.of_nat (length (pad (name ++ [0]))))); [lia|done].
Qed.

Lemma token_prop sp p : prop_wf names p -> holds m sp (flat_prop names p) ->
  sp + Z.of_nat (length (flat_prop names p)) <= send < sp + 2 ^ 32 ->
  token m sp send =
    Some (TProp (Z.of_nat (length p.2)) (str_off names p.1) (sp + 12) (sp + Z.of_nat (length (flat_prop names p)))) /\
  holds m (sp + 12) p.2.
Proof.
  intros [Hn Hb] H Hs. destruct (name_at _ Hn) as (_ & _ & Ho1 & Ho2).
  assert (El : Z.of_nat (length (flat_prop names p)) = 12 + Z.of_nat (length (pad p.2)))
    by (unfold flat_prop; rewrite !length_app; unfold be4; simpl; lia).
  rewrite El in *. pose proof (length_pad p.2) as Hp.
  unfold flat_prop in H. rewrite !holds_app in H. destruct H as (H0 & H1 & H2 & H3).
  change (Z.of_nat (length (be4 _))) with 4 in *. unfold pad in H3. apply holds_app in H3 as [H3 _].
  replace (sp + 4 + 4 + 4) with (sp + 12) in H3 by lia. split; [|done].
  unfold token. rewrite (rd32_be4 m sp FDT_PROP) by (done || lia). cbn [mbind option_bind].
  change (FDT_PROP =? FDT_END) with false. change (FDT_PROP =? FDT_NOP) with false.
  change (FDT_PROP =? FDT_BEGIN_NODE) with false. change (FDT_PROP =? FDT_END_NODE) with false.
  change (FDT_PROP =? FDT_PROP) with true. cbv iota. destruct (Z.ltb_spec send (sp + 4 + 8)); [lia|].
  rewrite (rd32_be4 m (sp + 4) (Z.of_nat (length p.2))), (rd32_be4 m (sp + 4 + 4) (str_off names p.1)) by (done || zlia).
  cbn [mbind option_bind]. rewrite align4_pad by zlia.
  destruct (Z.ltb_spec send (sp + 4 + 8 + Z.of_nat (length p.2))); [zlia|].
  destruct (Z.ltb_spec send (sp + 4 + 8 + Z.of_nat (length (pad p.2)))); [lia|]. cbn [orb].
  do 2 f_equal; lia.
Qed.

Lemma token_end_node sp : holds m sp (be4 FDT_END_NODE) -> token m sp send = Some (TEndNode (sp + 4)).
Proof. intros H. unfold token. by rewrite (rd32_be4 m sp FDT_END_NODE) by (done || lia). Qed.
Lemma token_end sp : holds m sp (be4 FDT_END) -> token m sp send = Some TEnd.
Proof. intros H. unfold token. by rewrite (rd32_be4 m sp FDT_END) by (done || lia). Qed.

(** *** The walk, for any sufficient fuel *)

Definition walks (sp depth : Z) (mem : bool) (c : Z * Z) (r : option (Z * Z)) : Prop :=
  exists n, mem_walk m send sb sbend sp depth mem c.1 c.2 n = Some r.

Lemma walk_end sp depth mem c : holds m sp (be4 FDT_END) -> sp + 4 <= send -> walks sp depth mem c None.
Proof.
  intros H Hs. exists 1%nat. cbn [mem_walk]. destruct (Z.leb_spec (sp + 4) send); [|lia].
  by rewrite (token_end sp H).
Qed.
Lemma walk_end_node sp depth mem c r : 0 < depth -> holds m sp (be4 FDT_END_NODE) -> sp + 4 <= send ->
  walks (sp + 4) (depth - 1) false c r -> walks sp depth mem c r.
Proof.
  intros Hd H Hs [n Hn]. exists (S n). cbn [mem_walk]. destruct (Z.leb_spec (sp + 4) send); [|lia].
  rewrite (token_end_node sp H). cbn [negb mbind option_bind]. by destruct (Z.ltb_spec 0 depth); [|lia].
Qed.
Lemma walk_begin sp depth mem name c r b : Forall nonzero name -> holds m sp (be4 FDT_BEGIN_NODE ++ pad (name ++ [0])) ->
  sp + 4 + Z.of_nat (length (pad (name ++ [0]))) <= send < sp + 2 ^ 32 ->
  b = (depth =? 1) && memory_name name ->
  walks (sp + 4 + Z.of_nat (length (pad (name ++ [0])))) (depth + 1) b c r -> walks sp depth mem c r.
Proof.
  intros Hz H Hs -> [n Hn]. exists (S n). cbn [mem_walk]. destruct (Z.leb_spec (sp + 4) send); [|lia].
  rewrite (token_begin sp name) by done. cbn [negb mbind option_bind].
  apply holds_app in H as [_ H]. change (Z.of_nat (length (be4 _))) with 4 in H.
  assert (E : is_memory m (sp + 4) (Z.of_nat (length name)) depth = Some ((depth =? 1) && memory_name name)).
  { destruct (Z.eqb_spec depth 1) as [->|Hd].
    - apply is_memory_holds. unfold pad in H. rewrite !holds_app in H. tauto.
    - unfold is_memory. by destruct (Z.eqb_spec depth 1). }
  by rewrite E.
Qed.

Lemma decode_cells c a v : Forall is_byte v -> holds m a v ->
  (if (c.1 <? 1) || (2 <? c.1) || (c.2 <? 1) || (2 <? c.2) || negb (Z.of_nat (length v) =? u32 ((c.1 + c.2) * 4)) then Some None else
   base ← cells m a (Z.to_nat c.1) 0; size ← cells m (a + 4 * c.1) (Z.to_nat c.2) 0; Some (Some (base, size))) =
  Some (decode_reg c v).
Proof.
  intros Hb H. unfold decode_reg. destruct c as [ac sc]. cbn [fst snd].
  destruct (Z.ltb_spec ac 1), (Z.ltb_spec 2 ac), (Z.ltb_spec sc 1), (Z.ltb_spec 2 sc); cbn [orb]; [done..|].
  rewrite u32_small by lia. destruct (Z.eqb_spec (Z.of_nat (length v)) ((ac + sc) * 4)) as [E|E]; cbn [negb]; [|done].
  rewrite <- (take_drop (4 * Z.to_nat ac) v) in Hb, H. apply Forall_app in Hb as [Hb1 Hb2]. apply holds_app in H as [Hv1 Hv2].
  assert (L1 : length (take (4 * Z.to_nat ac) v) = (4 * Z.to_nat ac)%nat) by (rewrite length_take; lia).
  rewrite L1 in Hv2. replace (Z.of_nat (4 * Z.to_nat ac)) with (4 * ac) in Hv2 by lia.
  rewrite (cells_value m _ a (take (4 * Z.to_nat ac) v) 0) by (done || lia). cbn [mbind option_bind].
  rewrite (cells_value m _ (a + 4 * ac) (drop (4 * Z.to_nat ac) v) 0) by (done || lia || (rewrite length_drop; lia)).
  done.
Qed.

Lemma walk_prop_eq sp p d mem c n : prop_wf names p -> holds m sp (flat_prop names p) ->
  sp + Z.of_nat (length (flat_prop names p)) <= send < sp + 2 ^ 32 ->
  mem_walk m send sb sbend sp d mem c.1 c.2 (S n) =
  if mem && bool_decide (p.1 = bytes "reg") then Some (decode_reg c p.2) else
  let c' := if negb mem && (d =? 1) then root_cell c p else c in
  mem_walk m send sb sbend (sp + Z.of_nat (length (flat_prop names p))) d mem c'.1 c'.2 n.
Proof.
  intros Hp H Hs. destruct (token_prop sp p Hp H Hs) as [Et Hv]. pose proof Hp as [Hn Hb].
  destruct (name_at _ Hn) as (Hnz & Hh & Ho1 & Ho2). cbn [mem_walk].
  destruct (Z.leb_spec (sp + 4) send);
    [|unfold flat_prop in Hs; rewrite !length_app in Hs; unfold be4 in Hs; simpl in Hs; lia].
  rewrite Et. cbn [negb mbind option_bind]. unfold sbend at 1.
  rewrite (fdt_string_holds m sb _ _ p.1) by (done || lia). cbn [mbind option_bind].
  destruct (Z.eqb_spec (sb + str_off names p.1) 0); [lia|].
  assert (Hst : forall lit, Forall nonzero lit -> streq m (sb + str_off names p.1) lit = Some (bool_decide (p.1 = lit))).
  { intros lit Hl. by apply streq_holds. }
  rewrite !Hst by (by repeat constructor).
  destruct mem; cbn [negb andb mbind option_bind].
  - case_bool_decide; [by apply decode_cells|done].
  - destruct (Z.eqb_spec d 1); [|done]. unfold root_cell. cbn [andb].
    replace (Z.of_nat (length p.2) =? 4) with (length p.2 =? 4)%nat
      by (destruct (Nat.eqb_spec (length p.2) 4), (Z.eqb_spec (Z.of_nat (length p.2)) 4); [done|lia|lia|done]).
    destruct (Nat.eqb_spec (length p.2) 4) as [L|L]; [|done]. rewrite (rd32_value m (sp + 12) p.2) by done.
    cbn [mbind option_bind]. repeat case_bool_decide; repeat case_decide; done.
Qed.

Definition flat_props (ps : list (list Z * list Z)) : list Z := concat (map (flat_prop names) ps).

Lemma walk_props d r : forall ps sp c, Forall (prop_wf names) ps -> holds m sp (flat_props ps) ->
  sp + Z.of_nat (length (flat_props ps)) <= send < sp + 2 ^ 32 ->
  walks (sp + Z.of_nat (length (flat_props ps))) d false (if d =? 1 then fold_left root_cell ps c else c) r ->
  walks sp d false c r.
Proof.
  induction ps as [|p ps IH]; intros sp c Hp H Hs Hw; unfold flat_props in *; cbn [map concat fold_left] in *.
  - cbn [length] in Hw. rewrite Z.add_0_r in Hw. by destruct (d =? 1).
  - apply Forall_cons in Hp as [Hp Hps]. rewrite length_app in Hs, Hw. apply holds_app in H as [H1 H2].
    destruct (IH (sp + Z.of_nat (length (flat_prop names p))) (if d =? 1 then root_cell c p else c)) as [n Hn]; [done|done|lia| |].
    + rewrite Nat2Z.inj_add, Z.add_assoc in Hw. by destruct (d =? 1).
    + exists (S n). rewrite (walk_prop_eq sp p) by (done || lia). cbn [andb negb]. by destruct (d =? 1).
Qed.

Lemma walk_props_mem d r c : forall ps sp, Forall (prop_wf names) ps -> holds m sp (flat_props ps) ->
  sp + Z.of_nat (length (flat_props ps)) <= send < sp + 2 ^ 32 ->
  (find_reg ps = None -> walks (sp + Z.of_nat (length (flat_props ps))) d true c r) ->
  (forall v, find_reg ps = Some v -> r = decode_reg c v) -> walks sp d true c r.
Proof.
  induction ps as [|p ps IH]; intros sp Hp H Hs Hw Hr; unfold flat_props in *; cbn [map concat find_reg] in *.
  - cbn [length] in Hw. rewrite Z.add_0_r in Hw. by apply Hw.
  - apply Forall_cons in Hp as [Hp Hps]. rewrite length_app in Hs, Hw. apply holds_app in H as [H1 H2].
    destruct (decide (p.1 = bytes "reg")) as [E|E].
    + exists 1%nat. rewrite (walk_prop_eq sp p) by (done || lia). rewrite bool_decide_true by done. cbn [andb].
      by rewrite (Hr p.2 eq_refl).
    + destruct (IH (sp + Z.of_nat (length (flat_prop names p)))) as [n Hn]; [done|done|lia| |done|].
      * intros Hf. specialize (Hw Hf). by rewrite Nat2Z.inj_add, Z.add_assoc in Hw.
      * exists (S n). rewrite (walk_prop_eq sp p) by (done || lia). by rewrite bool_decide_false.
Qed.

Lemma flatten_eq name ps subs :
  flatten names (Node name ps subs) =
  (be4 FDT_BEGIN_NODE ++ pad (name ++ [0])) ++ flat_props ps ++ flatten_all names subs ++ be4 FDT_END_NODE.
Proof.
  cbn [flatten]. rewrite <- app_assoc. do 4 f_equal. unfold flatten_all.
  induction subs as [|x l IH]; [done|]. cbn [map concat]. by rewrite IH.
Qed.

(** The room that an encoding takes within the structure block. *)
Definition fits (sp : Z) (l : list Z) : Prop :=
  holds m sp l /\ sp + Z.of_nat (length l) <= send < sp + 2 ^ 32.
Lemma fits_app sp l1 l2 : fits sp (l1 ++ l2) -> fits sp l1 /\ fits (sp + Z.of_nat (length l1)) l2.
Proof. unfold fits. rewrite holds_app, length_app. intros [[H1 H2] Hs]. repeat split; (done || lia). Qed.

(** Below the root's children nothing is looked at. *)
Definition skips (t : fdt) : Prop := forall sp d mem c r, 2 <= d -> fdt_wf names t -> fits sp (flatten names t) ->
  walks (sp + Z.of_nat (length (flatten names t))) d false c r -> walks sp d mem c r.

Lemma skip_all subs : Forall skips subs -> forall sp d mem c r, 2 <= d -> Forall (fdt_wf names) subs ->
  fits sp (flatten_all names subs ++ be4 FDT_END_NODE) ->
  walks (sp + Z.of_nat (length (flatten_all names subs)) + 4) (d - 1) false c r -> walks sp d mem c r.
Proof.
  induction 1 as [|t subs Ht _ IH]; intros sp d mem c r Hd Hwf Hf Hw; unfold flatten_all in *; cbn [map concat app] in *.
  - cbn [length] in Hw. rewrite Z.add_0_r in Hw. destruct Hf as [H Hs]. change (Z.of_nat (length (be4 _))) with 4 in Hs.
    apply walk_end_node; (done || lia).
  - apply Forall_cons in Hwf as [Hwt Hwf]. rewrite <- app_assoc in Hf. apply fits_app in Hf as [Hf1 Hf2].
    rewrite length_app, Nat2Z.inj_add, Z.add_assoc in Hw. apply (Ht sp d mem c r); [done..|]. by apply IH.
Qed.


(** Entering a node: its properties and its children follow. *)
Lemma walk_node sp d mem name ps subs c r :
  let a := sp + 4 + Z.of_nat (length (pad (name ++ [0]))) in
  Forall nonzero name -> fits sp (flatten names (Node name ps subs)) ->
  (fits a (flat_props ps) ->
   fits (a + Z.of_nat (length (flat_props ps))) (flatten_all names subs ++ be4 FDT_END_NODE) ->
   sp + Z.of_nat (length (flatten names (Node name ps subs))) =
     a + Z.of_nat (length (flat_props ps)) + Z.of_nat (length (flatten_all names subs)) + 4 ->
   walks a (d + 1) ((d =? 1) && memory_name name) c r) ->
  walks sp d mem c r.
Proof.
  intros a Hn Hf Hw. rewrite flatten_eq in Hf, Hw. set (hd := be4 FDT_BEGIN_NODE ++ pad (name ++ [0])) in *.
  assert (Eh : sp + Z.of_nat (length hd) = a)
    by (unfold hd, a; rewrite length_app; change (length (be4 _)) with 4%nat; lia).
  rewrite !length_app, !Nat2Z.inj_add in Hw. change (Z.of_nat (length (be4 _))) with 4 in Hw.
  apply fits_app in Hf as [[H1 Hs1] Hf]. rewrite Eh in *. apply fits_app in Hf as [Hf2 Hf3].
  eapply walk_begin; [done|exact H1|fold a; lia|done|]. fold a. apply Hw; [done|done|lia].
Qed.

Lemma skip_node t : skips t.
Proof.
  induction t as [name ps subs IH] using fdt_nested_ind. intros sp d mem c r Hd Hwf Hf Hw.
  inversion Hwf as [? ? ? Hn Hp Hsub]; subst. apply (walk_node sp d mem name ps subs); [done..|].
  intros [Hf1 Hs1] Hf2 El. rewrite El in Hw. destruct (Z.eqb_spec d 1); [lia|]. cbn [andb].
  apply (walk_props (d + 1) r ps _ c); [done..|]. destruct (Z.eqb_spec (d + 1) 1); [lia|].
  apply (skip_all subs IH); [lia|done|done|]. by replace (d + 1 - 1) with d by lia.
Qed.

Lemma walk_children r c : forall subs sp mem, Forall (fdt_wf names) subs ->
  fits sp (flatten_all names subs ++ be4 FDT_END_NODE) ->
  (memory_reg subs = None -> walks (sp + Z.of_nat (length (flatten_all names subs)) + 4) 0 false c r) ->
  (forall v, memory_reg subs = Some v -> r = decode_reg c v) -> walks sp 1 mem c r.
Proof.
  induction subs as [|[name ps gs] subs IH]; intros sp mem Hwf Hf Hw Hr; unfold flatten_all in *; cbn [map concat app memory_reg] in *.
  - cbn [length] in Hw. rewrite Z.add_0_r in Hw. destruct Hf as [H Hs]. change (Z.of_nat (length (be4 _))) with 4 in Hs.
    apply walk_end_node; [lia|done|lia|by apply Hw].
  - apply Forall_cons in Hwf as [Hwt Hwf]. rewrite <- app_assoc in Hf. apply fits_app in Hf as [Hf1 Hf2].
    rewrite length_app, Nat2Z.inj_add, Z.add_assoc in Hw. inversion Hwt as [? ? ? Hn Hp Hsub]; subst.
    specialize (IH _ false Hwf Hf2).
    assert (Hgs : Forall skips gs) by (apply Forall_forall; intros; apply skip_node).
    apply (walk_node sp 1 mem name ps gs); [done..|]. intros [Hp1 Hp2] Hg El. rewrite El in *. cbn [Z.eqb Pos.eqb andb].
    destruct (memory_name name).
    + apply (walk_props_mem 2 r c ps); [done..| |by intros v Hv; apply Hr; rewrite Hv].
      intros Hv. rewrite Hv in Hw, Hr. apply (skip_all gs Hgs); [lia|done|done|]. by apply IH.
    + apply (walk_props 2 r ps _ c); [done..|]. cbn [Z.eqb Pos.eqb].
      apply (skip_all gs Hgs); [lia|done|done|]. by apply IH.
Qed.

Lemma walk_root t sp : fdt_wf names t -> fits sp (flatten names t ++ be4 FDT_END) ->
  walks sp 0 false (2, 1) (memory_spec t).
Proof.
  intros Hwf Hf. destruct t as [name ps subs]. inversion Hwf as [? ? ? Hn Hp Hsub]; subst.
  apply fits_app in Hf as [Hf [He Hs]]. change (Z.of_nat (length (be4 _))) with 4 in Hs.
  apply (walk_node sp 0 false name ps subs); [done..|]. intros [Hp1 Hp2] Hg El. rewrite El in He, Hs. cbn [Z.eqb andb].
  apply (walk_props 1 _ ps _ (2, 1)); [done..|]. cbn [Z.eqb Pos.eqb memory_spec].
  apply (walk_children _ _ subs); [done|done| |].
  - intros ->. apply walk_end; [done|lia].
  - by intros v ->.
Qed.

(** More fuel does not change the answer. *)
Lemma mem_walk_mono n : forall n' sp d mem ac sc r, (n <= n')%nat ->
  mem_walk m send sb sbend sp d mem ac sc n = Some r -> mem_walk m send sb sbend sp d mem ac sc n' = Some r.
Proof.
  induction n as [|n IH]; intros [|n'] sp d mem ac sc r Hn; [done|done|lia|]. cbn [mem_walk].
  assert (G : forall sp d mem ac sc r, mem_walk m send sb sbend sp d mem ac sc n = Some r ->
            mem_walk m send sb sbend sp d mem ac sc n' = Some r) by (intros; apply IH; [lia|done]). clear IH.
  case_match; [done|]. destruct (token m sp send) as [t|]; [|done]. cbn [mbind option_bind].
  destruct t; [done|apply G| |apply G| |done].
  - destruct (is_memory m name nlen d); [apply G|done].
  - destruct (fdt_string m sb sbend nameoff) as [s|]; [|done]. cbn [mbind option_bind]. case_match; [apply G|].
    destruct (if mem then streq m s (bytes "reg") else Some false) as [[]|]; [done| |done]. cbn [mbind option_bind].
    case_match; [|apply G]. destruct (streq m s (bytes "#address-cells")) as [[]|]; [| |done]; cbn [mbind option_bind].
    + destruct (rd32 m val); [apply G|done].
    + destruct (streq m s (bytes "#size-cells")) as [[]|]; [| |done]; cbn [mbind option_bind]; [|apply G].
      destruct (rd32 m val); [apply G|done].
Qed.
End Walking.

(** ** Theorems *)

Lemma dtb_memory_in m dtb dtb_size : 0 < dtb -> 40 <= dtb_size < 2 ^ 32 -> inside m dtb dtb_size ->
  is_Some (dtb_memory m dtb dtb_size).
Proof.
  intros Hp Hs Hi. unfold dtb_memory.
  destruct (rd32_in m (dtb + 8)) as (so & -> & Hso); [unfold inside in *; lia|].
  destruct (rd32_in m (dtb + 12)) as (sto & -> & Hsto); [unfold inside in *; lia|].
  destruct (rd32_in m (dtb + 36)) as (ssz & -> & Hssz); [unfold inside in *; lia|].
  destruct (rd32_in m (dtb + 32)) as (stz & -> & Hstz); [unfold inside in *; lia|]. cbn [mbind option_bind].
  case_match; bool_hyps; [done|]. case_match; bool_hyps; [done|].
  apply mem_walk_in; [lia|lia|unfold inside in *; lia|lia|unfold inside in *; lia|].
  replace (dtb + so + ssz - (dtb + so)) with ssz by lia. apply rounds_ok. lia.
Qed.


(** [dtb_find_uart] needs more of its caller: the strings block inside the blob,
    and eight readable bytes after it. *)
Lemma dtb_find_uart_safe m dtb dtb_size sto stz : 0 < dtb -> 40 <= dtb_size < 2 ^ 32 -> inside m dtb (dtb_size + 8) ->
  rd32 m (dtb + 12) = Some sto -> rd32 m (dtb + 32) = Some stz -> sto + stz <= dtb_size ->
  is_Some (dtb_find_uart m dtb dtb_size).
Proof.
  intros Hp Hs Hi E1 E2 Hst. unfold dtb_find_uart. rewrite E1, E2.
  destruct (rd32_in m (dtb + 12)) as (x & Ex & Hx); [unfold inside in *; lia|]. rewrite E1 in Ex. injection Ex as <-.
  destruct (rd32_in m (dtb + 32)) as (x & Ex & Hx2); [unfold inside in *; lia|]. rewrite E2 in Ex. injection Ex as <-.
  destruct (rd32_in m (dtb + 8)) as (so & -> & Hso); [unfold inside in *; lia|].
  destruct (rd32_in m (dtb + 36)) as (ssz & -> & Hssz); [unfold inside in *; lia|]. cbn [mbind option_bind].
  case_match; bool_hyps; [done|].
  apply uart_walk_in; [lia|lia|unfold inside in *; lia|lia|unfold inside in *; lia|].
  replace (dtb + so + ssz - (dtb + so)) with ssz by lia. apply rounds_ok. lia.
Qed.

(** The header of a blob that was built. *)
Section Blob.
Context (names : list (list Z)) (t : fdt) (rest : list Z) (ptr : Z).
Let m := mk_region ptr (fdt_blob names t ++ rest).
Let st := flatten names t ++ be4 FDT_END.
Let ss := strings_bytes names.
Let total : Z := Z.of_nat (length (fdt_blob names t)).
Hypothesis total_small : total < 2 ^ 32.

Lemma blob_length : total = 40 + Z.of_nat (length st) + Z.of_nat (length ss).
Proof. unfold total, fdt_blob. fold st ss. rewrite !length_app. cbn. lia. Qed.
Lemma st_length : 4 <= Z.of_nat (length st).
Proof. unfold st. rewrite length_app. change (length (be4 _)) with 4%nat. lia. Qed.

Lemma blob_held : holds m ptr (concat (map be4 [DTB_MAGIC_BE; total; 40; 40 + Z.of_nat (length st); 40; 17; 16; 0;
    Z.of_nat (length ss); Z.of_nat (length st)]) ++ st ++ ss).
Proof.
  assert (H : holds m ptr (fdt_blob names t)) by (apply (proj1 (holds_app m ptr (fdt_blob names t) rest)), holds_self).
  unfold fdt_blob in H. fold st ss in H. by rewrite <- blob_length in H.
Qed.

Lemma blob_word i x : nth_error [DTB_MAGIC_BE; total; 40; 40 + Z.of_nat (length st); 40; 17; 16; 0;
    Z.of_nat (length ss); Z.of_nat (length st)] i = Some x -> rd32 m (ptr + 4 * Z.of_nat i) = Some x.
Proof.
  intros E. pose proof blob_length as Hl.
  assert (Hx : 0 <= x < 2 ^ 32)
    by (do 10 (destruct i as [|i]; [injection E as <-; unfold DTB_MAGIC_BE; lia|]); destruct i; discriminate).
  apply rd32_be4; [done|].
  assert (H : holds m ptr (concat (map be4 [DTB_MAGIC_BE; total; 40; 40 + Z.of_nat (length st); 40; 17; 16; 0;
    Z.of_nat (length ss); Z.of_nat (length st)]))) by (exact (proj1 (proj1 (holds_app _ _ _ _) blob_held))).
  revert H E. generalize [DTB_MAGIC_BE; total; 40; 40 + Z.of_nat (length st); 40; 17; 16; 0;
    Z.of_nat (length ss); Z.of_nat (length st)]. clear. intros l.
  generalize ptr. induction l as [|y l IH] in i |- *; intros p H E; [by destruct i|].
  cbn [map concat] in H. apply holds_app in H as [H1 H2]. destruct i as [|i].
  - injection E as <-. by replace (p + 4 * Z.of_nat 0) with p by lia.
  - specialize (IH i _ H2 E). change (Z.of_nat (length (be4 y))) with 4 in IH.
    by replace (p + 4 * Z.of_nat (S i)) with (p + 4 + 4 * Z.of_nat i) by lia.
Qed.

Lemma blob_parts : holds m (ptr + 40) st /\ holds m (ptr + 40 + Z.of_nat (length st)) ss.
Proof.
  pose proof blob_held as H. apply holds_app in H as [_ H]. by apply holds_app in H.
Qed.
Lemma blob_inside n : 0 <= n <= Z.of_nat (length rest) -> inside m ptr (total + n).
Proof. intros Hn. unfold inside, m. cbn [rbase rbytes]. rewrite length_app. unfold total. lia. Qed.
End Blob.

Lemma dtb_memory_blob names t rest ptr : 0 < ptr -> Forall (Forall nonzero) names -> fdt_wf names t ->
  Z.of_nat (length (fdt_blob names t)) < 2 ^ 32 ->
  dtb_memory (mk_region ptr (fdt_blob names t ++ rest)) ptr (Z.of_nat (length (fdt_blob names t))) = Some (memory_spec t).
Proof.
  intros Hp Hn Ht Hs.
  pose proof (blob_length names t) as Hl. pose proof (st_length names t) as Hst.
  destruct (blob_parts names t rest ptr) as [Hb1 Hb2].
  destruct (dtb_memory_in (mk_region ptr (fdt_blob names t ++ rest)) ptr (Z.of_nat (length (fdt_blob names t)))) as [r Hr];
    [done|lia| |].
  { pose proof (blob_inside names t rest ptr 0 ltac:(lia)) as Hi. by rewrite Z.add_0_r in Hi. }
  rewrite Hr. f_equal. unfold dtb_memory in Hr. set (m := mk_region ptr _) in *. set (total := Z.of_nat (length (fdt_blob names t))) in *.
  set (n := Z.of_nat (length (flatten names t ++ be4 FDT_END))) in *. set (k := Z.of_nat (length (strings_bytes names))) in *.
  replace (rd32 m (ptr + 8)) with (Some 40) in Hr by (symmetry; exact (blob_word names t rest ptr Hs 2 _ eq_refl)).
  replace (rd32 m (ptr + 12)) with (Some (40 + n)) in Hr by (symmetry; exact (blob_word names t rest ptr Hs 3 _ eq_refl)).
  replace (rd32 m (ptr + 36)) with (Some n) in Hr by (symmetry; exact (blob_word names t rest ptr Hs 9 _ eq_refl)).
  replace (rd32 m (ptr + 32)) with (Some k) in Hr by (symmetry; exact (blob_word names t rest ptr Hs 8 _ eq_refl)).
  cbn [mbind option_bind] in Hr.
  destruct (Z.eqb_spec n 0), (Z.ltb_spec total 40), (Z.ltb_spec total (40 + n)), (Z.ltb_spec (total - 40) n),
    (Z.ltb_spec (total - (40 + n)) k); try lia. cbn [orb] in Hr. rewrite Z.add_assoc in Hr.
  destruct (walk_root m (ptr + 40 + n) (ptr + 40 + n) names Hn ltac:(lia) Hb2 ltac:(lia) t (ptr + 40) Ht) as [f Hf].
  { split; [exact Hb1|]. fold n. lia. }
  fold k in Hf. cbn [fst snd] in Hf.
  apply (mem_walk_mono _ _ _ _ _ (f + rounds n)) in Hf; [|lia]. fold k in Hf.
  apply (mem_walk_mono m (ptr + 40 + n) (ptr + 40 + n) names _ (f + rounds n)) in Hr; [|lia]. fold k in Hr.
  congruence.
Qed.

(** C26: reading back a flattened tree: for every tree whose names and values
    are well formed, [dtb_memory] on its blob returns what the specification says
    of the tree - the [reg] of the first child of the root that is named [memory]
    or [memory@...], decoded with the cell counts of the root (two and one where
    it gives none) - or nothing where the tree has no such node or its [reg] does
    not fit the counts. *)
Theorem dtb_memory_roundtrip names t rest ptr (Hp : 0 < ptr) (Hn : Forall (Forall nonzero) names)
  (Ht : fdt_wf names t) (Hs : Z.of_nat (length (fdt_blob names t)) < 2 ^ 32) :
  dtb_memory (mk_region ptr (fdt_blob names t ++ rest)) ptr (Z.of_nat (length (fdt_blob names t))) = Some (memory_spec t).
Proof. by apply dtb_memory_blob. Qed.

Lemma rd32_ld32 m a x : rd32 m a = Some x -> exists v, ld32 m a = Some v /\ be32 v = x.
Proof. unfold rd32. intros H. apply bind_Some in H as (v & -> & [= <-]). eauto. Qed.

Lemma blob_sniffed names t rest ptr : Z.of_nat (length (fdt_blob names t)) < 2 ^ 32 ->
  RAM_START <= ptr < DTB_PTR_LIMIT -> ptr mod 8 = 0 ->
  Z.of_nat (length (fdt_blob names t)) <= u32 (DTB_PTR_LIMIT - ptr) ->
  dtb_sniff (mk_region ptr (fdt_blob names t ++ rest)) ptr = Some (Some (Z.of_nat (length (fdt_blob names t)))).
Proof.
  intros Hs Hp Ha Hl. unfold dtb_sniff. rewrite (land_low _ 3) by lia. change (2 ^ 3) with 8. rewrite Ha.
  destruct (Z.ltb_spec ptr RAM_START), (Z.leb_spec DTB_PTR_LIMIT ptr); try lia. cbn [orb Z.eqb negb].
  destruct (rd32_ld32 _ _ _ (blob_word names t rest ptr Hs 0 _ eq_refl)) as (v0 & E0 & B0).
  destruct (rd32_ld32 _ _ _ (blob_word names t rest ptr Hs 1 _ eq_refl)) as (v1 & E1 & B1).
  replace (ptr + 4 * Z.of_nat 0) with ptr in E0 by lia. rewrite E0. cbn [mbind option_bind]. rewrite B0.
  change (negb (DTB_MAGIC_BE =? DTB_MAGIC_BE)) with false. cbv iota.
  replace (ptr + 4 * Z.of_nat 1) with (ptr + 4) in E1 by lia. rewrite E1. cbn [mbind option_bind]. rewrite B1.
  pose proof (blob_length names t). pose proof (st_length names t).
  destruct (Z.eqb_spec (Z.of_nat (length (fdt_blob names t))) 0); [lia|].
  destruct (Z.ltb_spec (u32 (DTB_PTR_LIMIT - ptr)) (Z.of_nat (length (fdt_blob names t)))); [lia|done].
Qed.

(** The RAM size of a tree, and whether it was measured. *)
Definition ram_of (t : fdt) : Z * bool :=
  match memory_spec t with
  | Some (base, size) =>
      if (base =? RAM_START) && (KERNEL_MIN_SIZE <=? size) && (size <=? 2 ^ 32) then (size, true)
      else (DEFAULT_RAM_SIZE, false)
  | None => (DEFAULT_RAM_SIZE, false)
  end.

(** with a valid kernel image and a device tree in memory, [loader_main]
    returns the address of the boot information, filled with the blob's address
    and size, the RAM size that the tree's memory node gives where it is the
    machine's RAM and of a plausible size and the default otherwise, and the flag
    that tells the two apart. *)
Theorem loader_hands_off k names t rest ptr s (Hk : validate_kernel k = true) (Hn : Forall (Forall nonzero) names)
  (Ht : fdt_wf names t) (Hp : RAM_START <= ptr < DTB_PTR_LIMIT) (Ha : ptr mod 8 = 0) (Hr : (8 <= length rest)%nat)
  (Hl : Z.of_nat (length (fdt_blob names t)) <= u32 (DTB_PTR_LIMIT - ptr)) :
  wp (loader_main k (mk_region ptr (fdt_blob names t ++ rest)) ptr)
     (fun v b _ => v = bi_addr k /\ bi_magic b = BOOTINFO_MAGIC /\ bi_dtb_ptr b = ptr /\
        bi_dtb_size b = Z.of_nat (length (fdt_blob names t)) /\
        bi_ram_base b = RAM_START /\ bi_ram_size b = (ram_of t).1 /\
        Z.testbit (bi_flags b) 0 = true /\ Z.testbit (bi_flags b) 1 = (ram_of t).2 /\
        (Z.testbit (bi_flags b) 2 = false -> bi_uart_base b = UART_BASE)) s.
Proof.
  pose proof (u32_range (DTB_PTR_LIMIT - ptr)) as Hu. pose proof (blob_length names t) as Hbl.
  assert (Hs : Z.of_nat (length (fdt_blob names t)) < 2 ^ 32) by lia. unfold RAM_START in Hp at 1.
  destruct (dtb_find_uart_safe (mk_region ptr (fdt_blob names t ++ rest)) ptr (Z.of_nat (length (fdt_blob names t)))
    _ _ ltac:(lia) ltac:(lia) (blob_inside names t rest ptr 8 ltac:(lia))
    (blob_word names t rest ptr Hs 3 _ eq_refl) (blob_word names t rest ptr Hs 8 _ eq_refl) ltac:(lia)) as [u Hu2].
  unfold loader_main, banner. rewrite Hk. cbn [negb].
  wp_auto. eapply wp_of_opt; [by apply blob_sniffed|]. cbn beta iota. unfold read_dtb. wp_auto.
  all: eapply wp_of_opt; [exact Hu2|]; cbn beta iota; wp_auto.
  all: eapply wp_of_opt; [apply dtb_memory_blob; [lia|done..]|]; cbn beta iota.
  all: unfold ram_of; destruct (memory_spec t) as [[base size]|].
  all: change (Z.shiftl 4 30) with (2 ^ 32); wp_auto.
  all: cbn; repeat split; done.
Qed.

(** A kernel image that does not fit is refused: the loader returns 0 and the boot
    information is not touched. *)
Theorem loader_refuses k m ptr s : validate_kernel k = false ->
  wp (loader_main k m ptr) (fun v b _ => v = 0 /\ b = s) s.
Proof. intros Hk. unfold loader_main, banner. rewrite Hk. cbn [negb]. wp_auto. done. Qed.

(** A blob at the start of RAM is never accepted: the room up to the limit, 16 GB,
    is cut to 32 bits, which are all zero. *)
Theorem dtb_at_ram_start_rejected m size : dtb_sniff m RAM_START <> Some (Some size).
Proof.
  unfold dtb_sniff. change (_ || _ || _) with false. cbv iota. intros H.
  apply bind_Some in H as (v & _ & H). case_match; [done|]. apply bind_Some in H as (w & _ & H).
  pose proof (be32_range w). change (u32 (DTB_PTR_LIMIT - RAM_START)) with 0 in H.
  destruct (Z.eqb_spec (be32 w) 0), (Z.ltb_spec 0 (be32 w)); cbn [orb] in H; (discriminate || lia).
Qed.

(** *** A tree *)

Definition demo_names : list (list Z) := [bytes "#address-cells"; bytes "#size-cells"; bytes "reg"].
Definition demo_tree : fdt :=
  Node [] [(bytes "#address-cells", be4 2); (bytes "#size-cells", be4 2)]
    [Node (bytes "cpus") [(bytes "#address-cells", be4 1)] [Node (bytes "cpu@0") [(bytes "reg", be4 0)] []];
     Node (bytes "serial@9000000") [(bytes "reg", be4 0 ++ be4 0x09000000)] [];
     Node (bytes "memory@40000000") [(bytes "reg", be4 0 ++ be4 0x40000000 ++ be4 0 ++ be4 0x20000000)] []].
Definition demo_image : image := mk_image 0x40080000 0x400c0000 0x400b0000 0x400b8000.
Definition demo_bi : bootinfo := mk_bi 0 0 0 0 0 0 0 0 0 0.

(** [dtb_find_uart] does not look at the length of [reg]: from an empty one it takes
    the tokens that follow (two END_NODEs) for the address. *)
Example short_reg_misread :
  let t := Node [] [] [Node (bytes "serial@0") [(bytes "reg", [])] []] in
  let b := fdt_blob [bytes "reg"] t in
  dtb_find_uart (mk_region 0x48000000 b) 0x48000000 (Z.of_nat (length b)) = Some 0x200000002.
Proof. vm_compute. reflexivity. Qed.

Lemma demo_names_nz : Forall (Forall nonzero) demo_names.
Proof. by repeat constructor. Qed.
Lemma bytes_be4 x : Forall is_byte (be4 x).
Proof. unfold be4, is_byte. repeat constructor; zlia. Qed.
Lemma demo_tree_wf : fdt_wf demo_names demo_tree.
Proof.
  assert (H : forall i n v, demo_names !! i = Some n -> Forall is_byte v -> prop_wf demo_names (n, v)).
  { intros i n v E Hv. split; [by eapply list_elem_of_lookup_2|done]. }
  repeat first [constructor | by apply (H 0%nat) | by apply (H 1%nat) | apply (H 2%nat); [done|]
    | apply Forall_app_2 | apply bytes_be4 | discriminate].
Qed.


Lemma dtb_memory_roundtrip_witness :
  let b := fdt_blob demo_names demo_tree in
  dtb_memory (mk_region 0x48000000 (b ++ [])) 0x48000000 (Z.of_nat (length b)) = Some (Some (0x40000000, 0x20000000)).
Proof. exact (dtb_memory_roundtrip demo_names demo_tree [] 0x48000000 ltac:(lia) demo_names_nz demo_tree_wf eq_refl). Defined.

Lemma loader_hands_off_witness :
  wp (loader_main demo_image (mk_region 0x48000000 (fdt_blob demo_names demo_tree ++ replicate 8 0)) 0x48000000)
     (fun v b _ => v = 0x400b8000 /\ bi_ram_size b = 0x20000000) demo_bi.
Proof.
  pose proof (loader_hands_off demo_image demo_names demo_tree (replicate 8 0) 0x48000000 demo_bi eq_refl demo_names_nz
    demo_tree_wf ltac:(split; [discriminate|reflexivity]) eq_refl ltac:(reflexivity) ltac:(vm_compute; discriminate)) as H.
  unfold wp in *. destruct (loader_main _ _ _ _) as [[[v b] o]| |]; [|done..].
  destruct H as (-> & _ & _ & _ & _ & E & _). split; [reflexivity|]. exact E.
Defined.
