(* ===== verification/Shell.v ===== *)
(** * The shell (kernel/shell.c)

    The line editor and the commands, over the state of every component they
    reach: the kernel's ([ker]), the file system's ([disk]) and the cores'
    ([aps]).  The full-screen dashboard ([tui_dashboard], modelled in [Tui]) and what
    lies in memory behind the line buffer are parameters. *)

From S2P Require Import Prelude Uart Tick Pmm Heap Vmm Sched Proc Syscall.
From S2P Require Afs AfsSpec Ai Smp.

Definition LINE_MAX : Z := 64.

Record shell {D : Type} := mk_shell {
  line : list Z; line_len : Z; cat_buf : list Z; verify_buf : list Z;
  disk : Afs.afs D; ker : kst; aps : Smp.cores; job_count : Z }.
Arguments shell D : clear implicits.
Arguments mk_shell {D}.

(** How a command ends: back to the loop, or with a reset. *)
Inductive ending := Goes_on | Resets.

Section Shell.
Context {D : Type} `{!Afs.BlockDevice D}.
Implicit Types s : shell D.

Definition set_line (l : list Z) (n : Z) s : shell D :=
  mk_shell l n (cat_buf s) (verify_buf s) (disk s) (ker s) (aps s) (job_count s).
Definition in_disk {A} (m : M (Afs.afs D) A) : M (shell D) A :=
  zoom disk (fun d s => mk_shell (line s) (line_len s) (cat_buf s) (verify_buf s) d (ker s) (aps s) (job_count s)) m.
Definition in_ker {A} (m : M kst A) : M (shell D) A :=
  zoom ker (fun k s => mk_shell (line s) (line_len s) (cat_buf s) (verify_buf s) (disk s) k (aps s) (job_count s)) m.
Definition in_aps {A} (m : M Smp.cores A) : M (shell D) A :=
  zoom aps (fun c s => mk_shell (line s) (line_len s) (cat_buf s) (verify_buf s) (disk s) (ker s) c (job_count s)) m.

(** ** Line handling *)

Definition prompt : M (shell D) unit := puts_nolf "aeos> ".

Definition line_reset : M (shell D) unit :=
  let* s := get in
  let* l := of_opt (aset (line s) 0 0) in
  put (set_line l 0 s) ;;; prompt.

Definition line_backspace : M (shell D) unit :=
  let* s := get in
  if line_len s =? 0 then ret tt else
  put (set_line (line s) (line_len s - 1) s) ;;;
  putc 8 ;;; putc 32 ;;; putc 8.

Definition line_accept_char (c : Z) : M (shell D) unit :=
  let* s := get in
  if line_len s >=? LINE_MAX - 1 then ret tt else
  let* l := of_opt (aset (line s) (line_len s) c) in
  let* l := of_opt (aset l (line_len s + 1) 0) in
  put (set_line l (line_len s + 1) s) ;;;
  putc c.

(** ** Arguments *)

(** [for (i = 0; i < line_len; i++) if (line[i] == ' ') break;] *)
Fixpoint find_space (l : list Z) (i : Z) (n : nat) : option Z :=
  match n with
  | O => Some i
  | S n' => c ← aget l i; if c =? 32 then Some i else find_space l (i + 1) n'
  end.
(** [while (line[i + 1] == ' ') i++;] *)
Fixpoint skip_spaces (l : list Z) (i : Z) (n : nat) : option Z :=
  match n with
  | O => None
  | S n' => c ← aget l (i + 1); if c =? 32 then skip_spaces l (i + 1) n' else Some i
  end.

(** The index of the argument in [line], or [None] for a null pointer.  The
    array bounds the second loop. *)
Definition cmd_arg : M (shell D) (option Z) :=
  let* s := get in
  let* i := of_opt (find_space (line s) 0 (Z.to_nat (line_len s))) in
  if i =? line_len s then ret None else
  let* l := of_opt (aset (line s) i 0) in
  put (set_line l (line_len s) s) ;;;
  let* i := of_opt (skip_spaces l i 65) in
  let* c := of_opt (aget l (i + 1)) in
  if c =? 0 then ret None else ret (Some (i + 1)).

(** The string at [line + i], as memory and as printed. *)
Definition arg_view (beyond : view) (l : list Z) (i : Z) : view := fun k =>
  match l !! (Z.to_nat i + k)%nat with Some c => c | None => beyond (Z.to_nat i + k - length l)%nat end.
Definition arg_text (l : list Z) (i : Z) : list Z := cstr (drop (Z.to_nat i) l).

(** ** Commands *)

Context (kernel_pgd : Z) (tui_dashboard : M (shell D) unit) (beyond : view).
(** The running image: its bytes from [_kernel_start] on and its size. *)
Context (image : view) (image_size : Z).

Definition cmd_ls : M (shell D) unit := in_disk Afs.afs_ls.

(** Storing what [afs_read] copies at a buffer. *)
Definition fill (data buf : list Z) : option (list Z) :=
  if (length data <=? length buf)%nat then Some (data ++ drop (length data) buf) else None.

Definition put_chars (l : list Z) : M (shell D) unit := foldr (fun c k => putc c ;;; k) (ret tt) l.

Definition cmd_cat (i : Z) : M (shell D) unit :=
  let* s := get in
  let* r := in_disk (Afs.afs_read (Some (arg_view beyond (line s) i)) true (2048 - 1)) in
  let '(n, data) := r in
  let* b := of_opt (fill data (cat_buf s)) in
  modify (fun s => mk_shell (line s) (line_len s) b (verify_buf s) (disk s) (ker s) (aps s) (job_count s)) ;;;
  if n <? 0 then puts_nolf "  no such file: " ;;; puts_bytes (arg_text (line s) i) else
  let* b := of_opt (aset b n 0) in
  modify (fun s => mk_shell (line s) (line_len s) b (verify_buf s) (disk s) (ker s) (aps s) (job_count s)) ;;;
  put_chars (take (Z.to_nat n) b) ;;;
  if n =? 0 then ret tt else
  let* c := of_opt (aget b (n - 1)) in
  if c =? 10 then ret tt else puts "".

(** What [snprintf_payload] leaves in [payload], without its NUL. *)
Definition payload : list Z := bytes "written by AEOS shell - persistent storage works!".

Definition cmd_write (i : Z) : M (shell D) unit :=
  let* s := get in
  let* n := in_disk (Afs.afs_write (Some (arg_view beyond (line s) i)) (Some (literal payload (fun _ => 0)))
                       (Z.of_nat (length payload))) in
  if n <? 0 then puts "  write failed (fs full or not mounted)" else
  puts_nolf "  wrote " ;;; put_dec (u32 n) ;;; puts_nolf " bytes to " ;;; puts_bytes (arg_text (line s) i).

Definition cmd_rm (i : Z) : M (shell D) unit :=
  let* s := get in
  let* r := in_disk (Afs.afs_delete (arg_view beyond (line s) i)) in
  if negb (r =? 0) then puts "  delete failed" else ret tt.

(** [sum = (sum << 1) ^ data[i]] over the bytes. *)
Definition simple_checksum (data : list Z) : Z :=
  fold_left (fun sum b => u32 (Z.lxor (u32 (Z.shiftl sum 1)) b)) data 0.

Definition cmd_install : M (shell D) unit :=
  if image_size >? 1024 * 1024 then puts "  REFUSE: kernel image too large for integrity check" else
  let before := simple_checksum (map image (seq 0 (Z.to_nat image_size))) in
  puts_nolf "  checksum before: 0x" ;;; put_hex32 before ;;; puts "" ;;;
  let* n := in_disk (Afs.afs_write (Some (literal (bytes "kernel.bin") (fun _ => 0))) (Some image) image_size) in
  if n <? 0 then puts "  install FAILED (fs not mounted or full)" else
  puts_nolf "  self-update: " ;;; put_dec (u32 n) ;;; puts " bytes written to kernel.bin" ;;;
  let* s := get in
  let* r := in_disk (Afs.afs_read (Some (literal (bytes "kernel.bin") (fun _ => 0))) true 4096) in
  let '(read_back, data) := r in
  let* b := of_opt (fill data (verify_buf s)) in
  modify (fun s => mk_shell (line s) (line_len s) (cat_buf s) b (disk s) (ker s) (aps s) (job_count s)) ;;;
  if read_back <? 0 then puts "  WARNING: could not verify (read failed)" else
  let after := simple_checksum (take (Z.to_nat read_back) b) in
  puts_nolf "  checksum after:  0x" ;;; put_hex32 after ;;; puts "" ;;;
  if before =? after then puts "  integrity check PASSED" ;;; puts "  reboot to activate"
  else puts "  WARNING: checksum mismatch - write may be corrupted" ;;;
       puts "  reboot to retry (original image unchanged in RAM)".

(** [mpidr0] is the register that [smp_report] reads. *)
Context (mpidr0 : Z).
Definition cmd_cores : M (shell D) unit := let* s := get in in_aps (Smp.smp_report mpidr0 (job_count s)).
Definition cmd_tui : M (shell D) unit := tui_dashboard ;;; puts "  back to shell".
Definition cmd_reboot : M (shell D) ending := puts "  rebooting..." ;;; ret Resets.

Definition cmd_help : M (shell D) unit :=
  puts "commands:" ;;;
  puts "  help          this text" ;;;
  puts "  ps            task table" ;;;
  puts "  procs         process table" ;;;
  puts "  mem           memory stats" ;;;
  puts "  ai            AI engine report" ;;;
  puts "  ls            list files (AEOS-FS)" ;;;
  puts "  cat NAME      print file contents" ;;;
  puts "  write NAME    store demo text as file" ;;;
  puts "  rm NAME       delete a file" ;;;
  puts "  cores         SMP core report" ;;;
  puts "  tui           full-screen dashboard" ;;;
  puts "  install       write running kernel to disk" ;;;
  puts "  reboot        reset via PSCI (BIOS reruns)" ;;;
  puts "  uptime        ticks since boot" ;;;
  puts "  about         banner" ;;;
  puts "  clear         clear screen".

Definition cmd_ps : M (shell D) unit := in_ker (in_proc (in_sched sched_report)).
Definition cmd_procs : M (shell D) unit := in_ker (in_proc proc_report).
Definition cmd_mem : M (shell D) unit :=
  puts_nolf "  pmm: " ;;;
  let* f := in_ker (in_proc (in_frames pmm_get_free_pages)) in put_dec f ;;;
  puts_nolf "/" ;;;
  let* t := in_ker (in_proc (in_frames pmm_get_total_pages)) in put_dec t ;;;
  puts " pages free" ;;;
  puts_nolf "  heap used: " ;;;
  let* u := in_ker (in_proc (in_vmm (in_heap heap_get_used))) in put_dec u ;;;
  puts " bytes" ;;;
  puts_nolf "  heap free: " ;;;
  let* f := in_ker (in_proc (in_vmm (in_heap heap_get_free))) in put_dec f ;;;
  puts " bytes".
Definition cmd_uptime : M (shell D) unit :=
  let* t := in_ker (in_proc (in_sched sched_uptime_ticks)) in
  puts_nolf "  uptime: " ;;; put_dec t ;;; puts_nolf " ticks (~" ;;; put_dec (t / 100) ;;; puts " s)".
Definition cmd_about : M (shell D) unit :=
  puts "AEOS - Ajeeb Embodied AI OS" ;;; puts "Phase 0 kernel: boot/mem/irq/AI/sched/shell".

(** ** Dispatch *)

(** The second argument of both is a literal, its end the NUL. *)
Fixpoint strncmp2 (l : list Z) (i : Z) (prefix : list Z) : option bool :=
  match prefix with
  | [] => Some true
  | x :: p => c ← aget l i; if negb (c =? x) then Some false else strncmp2 l (i + 1) p
  end.
Fixpoint streq (l : list Z) (i : Z) (b : list Z) : option bool :=
  c ← aget l i;
  match b with
  | [] => Some (c =? 0)
  | x :: b' => if negb (c =? 0) && (c =? x) then streq l (i + 1) b' else Some (c =? x)
  end.

(** [if (streq(line, w)) ... else ...], and the same for a prefix. *)
Definition on_word (w : string) (yes no : M (shell D) ending) : M (shell D) ending :=
  let* s := get in let* b := of_opt (streq (line s) 0 (bytes w)) in if (b : bool) then yes else no.
Definition on_prefix (w : string) (yes no : M (shell D) ending) : M (shell D) ending :=
  let* s := get in let* b := of_opt (strncmp2 (line s) 0 (bytes w)) in if (b : bool) then yes else no.
Definition goes (m : M (shell D) unit) : M (shell D) ending := m ;;; ret Goes_on.
(** A command that takes a name. *)
Definition with_arg (cmd : Z -> M (shell D) unit) (usage : string) : M (shell D) ending :=
  let* a := cmd_arg in
  match a with Some i => goes (cmd i) | None => goes (puts usage) end.

Definition execute : M (shell D) ending :=
  puts "" ;;;
  let* s := get in
  if line_len s =? 0 then goes prompt else
  let* e :=
    on_word "help" (goes cmd_help) (
    on_word "ps" (goes cmd_ps) (
    on_word "procs" (goes cmd_procs) (
    on_word "ls" (goes cmd_ls) (
    on_word "install" (goes cmd_install) (
    on_word "cores" (goes cmd_cores) (
    on_word "tui" (goes cmd_tui) (
    on_word "reboot" cmd_reboot (
    on_prefix "cat " (with_arg cmd_cat "  usage: cat NAME") (
    on_prefix "write " (with_arg cmd_write "  usage: write NAME") (
    on_prefix "rm " (with_arg cmd_rm "  usage: rm NAME") (
    on_word "mem" (goes cmd_mem) (
    on_word "ai" (goes (in_ker (in_ai Ai.ai_report))) (
    on_word "uptime" (goes cmd_uptime) (
    on_word "about" (goes cmd_about) (
    on_word "clear" (goes (puts_bytes (27 :: bytes "[2J" ++ 27 :: bytes "[H"))) (
    goes (let* s := get in
          puts_nolf "unknown command: " ;;; puts_bytes (cstr (line s)) ;;; puts "(try 'help')"))))))))))))))))) in
  match e with
  | Resets => ret Resets
  | Goes_on => line_reset ;;; ret Goes_on
  end.

(** One round of [shell_task] after [uart_getc_nonblock]: no byte, or a byte. *)
Definition shell_round (key : option Z) : M (shell D) ending :=
  match key with
  | None => goes (let* _ := in_ker (in_proc (in_sched (@sched_yield vmm (vmm_spaces kernel_pgd)))) in ret tt)
  | Some c =>
      if (c =? 13) || (c =? 10) then execute
      else if (c =? 0x7F) || (c =? 8) then goes line_backspace
      else if (0x20 <=? c) && (c <? 0x7F) then goes (line_accept_char c)
      else ret Goes_on
  end.

(** [shell_task] before its loop, and [shell_start]. *)
Definition shell_banner : M (shell D) unit := puts "" ;;; puts "Shell ready. Type 'help'." ;;; line_reset.
Definition shell_start (task_trampoline shell_task stack stack_len : Z) : M (shell D) Z :=
  in_ker (in_proc (in_sched (sched_spawn task_trampoline (literal (bytes "shell") (fun _ => 0)) shell_task stack stack_len))).

(** ** The line editor *)

(** Typing: the text the user sees, and the text that [execute] will see. *)
Definition edit (e : list Z * list Z) (key : Z) : list Z * list Z :=
  let '(text, seen) := e in
  if (key =? 0x7F) || (key =? 8) then (take (length text - 1) text, seen)
  else if (0x20 <=? key) && (key <? 0x7F) then
    if (length text <? 63)%nat then (text ++ [key], text ++ [key]) else e
  else e.
Definition is_enter (c : Z) : bool := (c =? 13) || (c =? 10).

(** The editor's state: [text] is what [line_len] counts, [seen] the C string. *)
Definition line_is (l : list Z) (n : Z) (text seen : list Z) : Prop :=
  length l = 64%nat /\ n = Z.of_nat (length text) /\ (length text <= 63)%nat /\ take (length text) l = text /\
  Forall (fun c => 0x20 <= c < 0x7F) seen /\ text `prefix_of` seen /\
  exists rest, l = seen ++ 0 :: rest.

Lemma line_is_cstr l n text seen : line_is l n text seen -> cstr l = seen.
Proof.
  intros (_ & _ & _ & _ & Hs & _ & rest & ->). apply cstr_app_nz. eapply Forall_impl; [exact Hs|]. simpl. lia.
Qed.

Lemma line_is_reset l : length l = 64%nat -> exists l', aset l 0 0 = Some l' /\ line_is l' 0 [] [].
Proof.
  intros Hl. rewrite aset_in by lia. eexists. split; [done|]. change (Z.to_nat 0) with 0%nat.
  destruct l as [|x l]; [done|]. split_and!; [done..|simpl; lia|done|done|done|]. by exists l.
Qed.

Lemma line_is_backspace l n text seen : line_is l n text seen -> n <> 0 ->
  line_is l (n - 1) (take (length text - 1) text) seen.
Proof.
  intros (Hl & -> & Hle & Ht & Hs & Hp & Hr) Hn. unfold line_is. rewrite length_take.
  split_and!; [done|lia|lia| |done| |done].
  - rewrite <- Ht at 4. rewrite take_take. by f_equal.
  - destruct Hp as [k ->]. exists (drop (length text - 1) text ++ k). by rewrite app_assoc, take_drop.
Qed.

Lemma line_is_accept l n text seen c : line_is l n text seen -> (length text < 63)%nat -> 0x20 <= c < 0x7F ->
  exists l1 l2, aset l n c = Some l1 /\ aset l1 (n + 1) 0 = Some l2 /\ line_is l2 (n + 1) (text ++ [c]) (text ++ [c]).
Proof.
  intros (Hl & -> & Hle & Ht & Hs & Hp & Hr) Hn Hc. rewrite aset_in by lia. eexists _, _. split; [done|].
  rewrite aset_in by (rewrite length_insert; lia). split; [done|].
  replace (Z.to_nat (Z.of_nat (length text) + 1)) with (S (length text)) by lia. rewrite Nat2Z.id.
  assert (E : <[S (length text) := 0]> (<[length text := c]> l) = (text ++ [c]) ++ 0 :: drop (length text + 2) l).
  { rewrite <- (take_drop (length text) l) at 1. rewrite Ht.
    assert (Hd : length (drop (length text) l) = (64 - length text)%nat) by (rewrite length_drop; lia).
    replace (drop (length text + 2) l) with (drop 2 (drop (length text) l)) by (rewrite drop_drop; done).
    destruct (drop (length text) l) as [|x [|y tl]]; [simpl in Hd; lia..|].
    rewrite (insert_app_r_alt text _ (length text)) by lia. rewrite Nat.sub_diag. cbn [list_insert insert].
    rewrite (insert_app_r_alt text _ (S (length text))) by lia.
    replace (S (length text) - length text)%nat with 1%nat by lia. by rewrite <- app_assoc. }
  rewrite E. split_and!.
  - rewrite !length_app. cbn [length]. rewrite length_drop. lia.
  - rewrite length_app. simpl. lia.
  - rewrite length_app. simpl. lia.
  - by apply take_app_length.
  - apply Forall_app. split; [|by apply Forall_singleton]. destruct Hp as [k ->]. by apply Forall_app in Hs as [Hs _].
  - done.
  - by eexists.
Qed.

(** What a command leaves alone. *)
Definition same_rest s s' : Prop :=
  disk s' = disk s /\ ker s' = ker s /\ aps s' = aps s /\ job_count s' = job_count s /\
  cat_buf s' = cat_buf s /\ verify_buf s' = verify_buf s.

Lemma round_edits s text seen c : is_enter c = false -> line_is (line s) (line_len s) text seen ->
  wp (shell_round (Some c)) (fun e s' _ => e = Goes_on /\ same_rest s s' /\
    line_is (line s') (line_len s') (edit (text, seen) c).1 (edit (text, seen) c).2) s.
Proof.
  intros He Hl. unfold shell_round, is_enter, edit in *. rewrite He. pose proof Hl as (Hlen & Hn & Hle & _).
  destruct ((c =? 127) || (c =? 8)).
  - unfold goes, line_backspace. wp_auto; bool_hyps.
    + split; [done|]. split; [done|]. cbn [fst snd]. assert (length text = 0%nat) as E0 by lia.
      by rewrite E0, (nil_length_inv _ E0) in *.
    + split; [done|]. split; [done|]. cbn. by apply line_is_backspace.
  - destruct ((32 <=? c) && (c <? 127)) eqn:Er; [bool_hyps|wp_auto; done].
    unfold goes, line_accept_char, LINE_MAX. apply wp_bind. apply wp_bind, wp_get. cbn beta.
    destruct (Nat.ltb_spec (length text) 63).
    + rewrite Z.geb_leb. destruct (Z.leb_spec (64 - 1) (line_len s)); [lia|].
      destruct (line_is_accept _ _ _ _ c Hl) as (l1 & l2 & E1 & E2 & Hl2); [lia|lia|].
      rewrite E1. apply wp_bind, (wp_of_opt _ l1); [done|]. rewrite E2. apply wp_bind, (wp_of_opt _ l2); [done|].
      wp_auto. done.
    + rewrite Z.geb_leb. destruct (Z.leb_spec (64 - 1) (line_len s)); [|lia]. wp_auto. done.
Qed.

(** The bytes of a line, one round each. *)
Fixpoint typed (keys : list Z) : M (shell D) ending :=
  match keys with
  | [] => ret Goes_on
  | c :: keys' =>
      let* e := shell_round (Some c) in
      match e with Resets => ret Resets | Goes_on => typed keys' end
  end.

Lemma typed_edits keys : forall s text seen, Forall (fun c => is_enter c = false) keys ->
  line_is (line s) (line_len s) text seen ->
  wp (typed keys) (fun e s' _ => e = Goes_on /\ same_rest s s' /\
    line_is (line s') (line_len s') (fold_left edit keys (text, seen)).1 (fold_left edit keys (text, seen)).2) s.
Proof.
  induction keys as [|c keys IH]; intros s text seen Hk Hl; cbn [typed fold_left].
  - by apply wp_ret.
  - apply Forall_cons in Hk as [Hc Hk]. apply wp_bind. eapply wp_mono; [by apply round_edits|].
    intros e s1 o1 (-> & Hr1 & Hl1). eapply wp_mono; [apply IH; [done|exact Hl1]|].
    intros e s2 o2 (-> & Hr2 & Hl2). rewrite <- surjective_pairing in Hl2. split; [done|]. split; [|done].
    unfold same_rest in *. naive_solver congruence.
Qed.

(** ** Commands on a line *)

Definition nz (l : list Z) : Prop := Forall (fun c => c <> 0) l.

Lemma aget_mid pre (x : Z) tl : aget (pre ++ x :: tl) (Z.of_nat (length pre)) = Some x.
Proof. apply aget_Some. split; [lia|]. rewrite Nat2Z.id. by apply list_lookup_middle. Qed.

Lemma streq_at b : forall pre str rest, nz str -> nz b ->
  streq (pre ++ str ++ 0 :: rest) (Z.of_nat (length pre)) b = Some (bool_decide (str = b)).
Proof.
  induction b as [|x b IH]; intros pre str rest Hs Hb; cbn [streq].
  - destruct str as [|y str]; cbn [app]; rewrite aget_mid; cbn [mbind option_bind]; [done|].
    apply Forall_cons in Hs as [Hy _]. rewrite (proj2 (Z.eqb_neq y 0)) by done. by rewrite bool_decide_false.
  - apply Forall_cons in Hb as [Hx Hb]. destruct str as [|y str]; cbn [app]; rewrite aget_mid; cbn [mbind option_bind].
    + rewrite (proj2 (Z.eqb_neq 0 x)) by lia. cbn. by rewrite bool_decide_false.
    + apply Forall_cons in Hs as [Hy Hs]. rewrite (proj2 (Z.eqb_neq y 0)) by done. cbn [negb andb].
      destruct (Z.eqb_spec y x) as [->|Hne]; [|by rewrite bool_decide_false by congruence].
      specialize (IH (pre ++ [x]) str rest Hs Hb). rewrite length_app, Nat2Z.inj_add, <- app_assoc in IH.
      cbn [app] in IH. change (Z.of_nat (length [x])) with 1 in IH. rewrite IH. f_equal.
      apply bool_decide_ext. split; congruence.
Qed.
Lemma strncmp2_at b : forall pre str rest, nz str -> nz b ->
  strncmp2 (pre ++ str ++ 0 :: rest) (Z.of_nat (length pre)) b = Some (bool_decide (b `prefix_of` str)).
Proof.
  induction b as [|x b IH]; intros pre str rest Hs Hb; cbn [strncmp2].
  - rewrite bool_decide_true; [done|]. apply prefix_nil.
  - apply Forall_cons in Hb as [Hx Hb]. destruct str as [|y str]; cbn [app]; rewrite aget_mid; cbn [mbind option_bind].
    + rewrite (proj2 (Z.eqb_neq 0 x)) by lia. cbn. rewrite bool_decide_false; [done|]. by intros [k Hk].
    + apply Forall_cons in Hs as [Hy Hs]. destruct (Z.eqb_spec y x) as [->|Hne]; cbn [negb].
      * specialize (IH (pre ++ [x]) str rest Hs Hb). rewrite length_app, Nat2Z.inj_add, <- app_assoc in IH.
        cbn [app] in IH. change (Z.of_nat (length [x])) with 1 in IH. rewrite IH. f_equal.
        apply bool_decide_ext. split; [apply prefix_cons|apply prefix_cons_inv_2].
      * rewrite bool_decide_false; [done|]. intros Hp%prefix_cons_inv_1. congruence.
Qed.

(** The line as a C string. *)
Definition holds_line s (str : list Z) : Prop := nz str /\ exists rest, line s = str ++ 0 :: rest.

Lemma wp_on_word w yes no str Q s : holds_line s str -> nz (bytes w) ->
  wp (if bool_decide (str = bytes w) then yes else no) Q s -> wp (on_word w yes no) Q s.
Proof.
  intros [Hs [rest Hl]] Hw Hq. unfold on_word. apply wp_bind, wp_get, wp_bind.
  eapply wp_of_opt; [rewrite Hl; exact (streq_at (bytes w) [] str rest Hs Hw)|]. exact Hq.
Qed.
Lemma wp_on_prefix w yes no str Q s : holds_line s str -> nz (bytes w) ->
  wp (if bool_decide (bytes w `prefix_of` str) then yes else no) Q s -> wp (on_prefix w yes no) Q s.
Proof.
  intros [Hs [rest Hl]] Hw Hq. unfold on_prefix. apply wp_bind, wp_get, wp_bind.
  eapply wp_of_opt; [rewrite Hl; exact (strncmp2_at (bytes w) [] str rest Hs Hw)|]. exact Hq.
Qed.

Lemma find_space_at w : forall pre tl n, 32 ∉ w -> (length w < n)%nat ->
  find_space (pre ++ w ++ 32 :: tl) (Z.of_nat (length pre)) n = Some (Z.of_nat (length pre + length w)).
Proof.
  induction w as [|x w IH]; intros pre tl [|n] Hw Hn; cbn [length] in *; [lia| |lia|]; cbn [find_space app]; rewrite aget_mid; cbn [mbind option_bind].
  - cbn. do 2 f_equal. lia.
  - rewrite (proj2 (Z.eqb_neq x 32)) by set_solver.
    specialize (IH (pre ++ [x]) tl n ltac:(set_solver) ltac:(lia)). rewrite length_app, Nat2Z.inj_add, <- app_assoc in IH.
    cbn [app length] in IH. change (Z.of_nat 1) with 1 in IH. rewrite IH. do 2 f_equal. lia.
Qed.

(** A word, one space and a name: the argument is the name. *)
Lemma wp_cmd_arg s w name rest Q : 32 ∉ w -> name <> [] -> hd 0 name <> 32 -> nz name ->
  line s = w ++ 32 :: name ++ 0 :: rest -> line_len s = Z.of_nat (length w + 1 + length name) ->
  (Q (Some (Z.of_nat (length w + 1))) (set_line (w ++ 0 :: name ++ 0 :: rest) (line_len s) s) []) ->
  wp cmd_arg Q s.
Proof.
  intros Hw Hn0 Hh Hnz Hl Hlen Hq. unfold cmd_arg. apply wp_bind, wp_get, wp_bind. rewrite Hl, Hlen, Nat2Z.id.
  eapply wp_of_opt; [apply (find_space_at w [] (name ++ 0 :: rest)); [done|lia]|].
  cbn [length Nat.add]. rewrite (proj2 (Z.eqb_neq _ _)) by lia. apply wp_bind.
  eapply wp_of_opt; [apply aset_in; rewrite length_app; cbn [length]; lia|]. rewrite Nat2Z.id, insert_app_r_alt by lia.
  rewrite Nat.sub_diag. cbn [list_insert insert]. apply wp_bind, wp_put, wp_bind.
  destruct name as [|x name]; [done|]. cbn [hd] in Hh. apply Forall_cons in Hnz as [Hx _].
  assert (Hg : aget (w ++ 0 :: (x :: name) ++ 0 :: rest) (Z.of_nat (length w) + 1) = Some x).
  { pose proof (aget_mid (w ++ [0]) x (name ++ 0 :: rest)) as Hg. rewrite <- app_assoc, length_app in Hg.
    cbn [length app] in *. by replace (Z.of_nat (length w + 1)) with (Z.of_nat (length w) + 1) in Hg by lia. }
  eapply wp_of_opt.
  { cbn [skip_spaces]. rewrite Hg. cbn [mbind option_bind]. by rewrite (proj2 (Z.eqb_neq x 32)) by done. }
  apply wp_bind. eapply wp_of_opt; [exact Hg|]. rewrite (proj2 (Z.eqb_neq x 0)) by done. apply wp_ret.
  rewrite Hlen in Hq. rewrite Nat2Z.inj_add in Hq. exact Hq.
Qed.

Lemma arg_is pre name rest : nz name -> (length name < 24)%nat ->
  Afs.name_is (arg_view beyond (pre ++ name ++ 0 :: rest) (Z.of_nat (length pre))) name.
Proof.
  intros Hz Hl. split; [|done]. unfold arg_view. rewrite Nat2Z.id.
  set (l := pre ++ name ++ 0 :: rest).
  assert (G : forall nm i k, nz nm -> (length nm < k)%nat ->
    (forall j, (j < length nm)%nat -> l !! (length pre + (i + j))%nat = nm !! j) ->
    l !! (length pre + (i + length nm))%nat = Some 0 ->
    nm = str_take (fun k => match l !! (length pre + k)%nat with Some c => c
                            | None => beyond (length pre + k - length l)%nat end) i k).
  { induction nm as [|x nm IH]; intros i [|k] Hnz Hk Hin H0; cbn [length] in *; [lia| |lia|]; cbn [str_take].
    - rewrite Nat.add_0_r in H0. by rewrite H0.
    - apply Forall_cons in Hnz as [Hx Hnz]. pose proof (Hin 0%nat ltac:(lia)) as Hx0. rewrite Nat.add_0_r in Hx0. rewrite Hx0.
      cbn. rewrite (proj2 (Z.eqb_neq x 0)) by done. f_equal. apply IH; [done|lia| |].
      + intros j Hj. replace (S i + j)%nat with (i + S j)%nat by lia. apply Hin. lia.
      + by replace (S i + length nm)%nat with (i + S (length nm))%nat by lia. }
  apply G; [done|lia| |].
  - intros j Hj. unfold l. rewrite Nat.add_0_l, lookup_app_r by lia. replace (length pre + j - length pre)%nat with j by lia.
    by apply lookup_app_l.
  - unfold l. rewrite Nat.add_0_l, lookup_app_r by lia. replace (length pre + length name - length pre)%nat with (length name) by lia.
    by apply list_lookup_middle.
Qed.

(** The console's bytes for the characters [l]. *)
Definition on_wire (l : list Z) : list Z := concat (map Pl011.uart_putc l).
Lemma wp_put_chars l : forall (Q : unit -> shell D -> list Z -> Prop) s, Q tt s (on_wire l) -> wp (put_chars l) Q s.
Proof.
  induction l as [|c l IH]; intros Q s Hq; unfold put_chars in *; cbn [foldr]; [by apply wp_ret|].
  apply wp_bind, wp_putc. by apply IH.
Qed.

Lemma wp_line_reset (Q : unit -> shell D -> list Z -> Prop) s : length (line s) = 64%nat ->
  (forall l o, line_is l 0 [] [] -> Q tt (set_line l 0 s) o) -> wp line_reset Q s.
Proof.
  intros Hl Hq. unfold line_reset, prompt. destruct (line_is_reset _ Hl) as (l & E & Hi).
  apply wp_bind, wp_get, wp_bind. eapply wp_of_opt; [exact E|]. wp_auto. by apply Hq.
Qed.

(** A name that the file system stores in full. *)
Definition good_name (name : list Z) : Prop :=
  Forall (fun c => 0x20 < c < 0x7F) name /\ (0 < length name < 24)%nat.

Lemma good_name_nz name : good_name name -> nz name /\ name <> [] /\ hd 0 name <> 32.
Proof.
  intros [Hc Hl]. split; [eapply Forall_impl; [exact Hc|simpl; lia]|]. destruct name as [|x name]; [simpl in Hl; lia|].
  apply Forall_cons in Hc as [Hx _]. split; [done|]. simpl. lia.
Qed.

(** A typed line [word name], and the state it is executed in. *)
Definition ready s (w name : list Z) : Prop :=
  length (line s) = 64%nat /\ (exists rest, line s = w ++ 32 :: name ++ 0 :: rest) /\
  line_len s = Z.of_nat (length w + 1 + length name).

Lemma ready_line s w name : ready s w name -> nz w -> good_name name -> holds_line s (w ++ 32 :: name).
Proof.
  intros (_ & [rest Hl] & _) Hw Hn. split; [|exists rest; rewrite Hl; by rewrite <- app_assoc].
  apply Forall_app. split; [done|]. apply Forall_cons. split; [done|]. by apply good_name_nz.
Qed.

(** Running through the dispatcher on a line whose first word is known. *)
Ltac skip_word Hline := eapply wp_on_word; [exact Hline|by repeat constructor|]; rewrite bool_decide_false by discriminate.
Ltac skip_prefix Hline := eapply wp_on_prefix; [exact Hline|by repeat constructor|];
  rewrite bool_decide_false by (by intros [? ?]; discriminate).
Ltac take_prefix Hline := eapply wp_on_prefix; [exact Hline|by repeat constructor|];
  rewrite bool_decide_true by (by eexists).

(** After [cmd_arg], the name is at hand and the line can be reset. *)
Lemma wp_with_arg s w name cmd usage (Q : ending -> shell D -> list Z -> Prop) : ready s w name -> 32 ∉ w -> good_name name ->
  (forall l, length l = 64%nat -> Afs.name_is (arg_view beyond l (Z.of_nat (length w + 1))) name ->
     wp (cmd (Z.of_nat (length w + 1))) (fun _ s' o => Q Goes_on s' o) (set_line l (line_len s) s)) ->
  wp (with_arg cmd usage) Q s.
Proof.
  intros (Hl & [rest E] & Hlen) Hw Hn Hc. destruct (good_name_nz _ Hn) as (Hnz & Hn0 & Hh). unfold with_arg. apply wp_bind.
  eapply wp_cmd_arg; [done|exact Hn0|done|done|exact E|done|]. cbn beta iota. unfold goes. apply wp_bind.
  eapply wp_mono.
  - apply Hc.
    + rewrite E in Hl. rewrite !length_app in *. cbn [length] in *. rewrite !length_app in *. cbn [length] in *. lia.
    + pose proof (arg_is (w ++ [0]) name rest Hnz (proj2 (proj2 Hn))) as Ha. rewrite <- app_assoc, length_app in Ha. exact Ha.
  - intros ? s' o Hq. apply wp_ret. by rewrite app_nil_r.
Qed.

(** What the terminal shows when a write fails. *)
Definition write_failed : list Z := Pl011.uart_puts (bytes "  write failed (fs full or not mounted)").

Lemma exec_write s name : ready s (bytes "write") name -> good_name name -> Afs.afs_wf (disk s) ->
  wp execute (fun e s' o => e = Goes_on /\ line_is (line s') (line_len s') [] [] /\ cat_buf s' = cat_buf s /\
    Afs.afs_wf (disk s') /\
    (Afs.file (disk s') name = Some payload /\ (forall m, m <> name -> Afs.file (disk s') m = Afs.file (disk s) m) \/
     (forall m, Afs.file (disk s') m = Afs.file (disk s) m) /\ exists o1 o2, o = o1 ++ write_failed ++ o2)) s.
Proof.
  intros Hr Hn Hwf. pose proof (ready_line s _ _ Hr ltac:(by repeat constructor) Hn) as Hline.
  unfold execute. apply wp_bind, wp_puts, wp_bind, wp_get.
  rewrite (proj2 (Z.eqb_neq _ _)) by (destruct Hr as (_ & _ & ->); lia). apply wp_bind.
  do 8 skip_word Hline. skip_prefix Hline. take_prefix Hline.
  eapply wp_with_arg; [exact Hr|vm_compute; set_solver|done|]. intros l Hl Hname. unfold cmd_write. apply wp_bind, wp_get, wp_bind.
  destruct (AfsSpec.write_run (disk s) _ _ (literal payload (fun _ => 0)) (Z.of_nat (length payload)) Hwf Hname) as (r & d & E & Hwf2 & Hd).
  { vm_compute. split; discriminate. }
  eapply wp_zoom, wp_intro; [exact E|]. cbn beta iota.
  destruct Hd as [(-> & Hf & Hother)|[-> Hother]].
  - change (Z.of_nat (length payload) <? 0) with false. cbn beta iota. wp_auto.
    apply wp_line_reset; [done|]. intros l2 o2 Hl2. wp_auto. do 4 (split; [done|]). left. split; [|done].
    exact Hf.
  - change (-1 <? 0) with true. cbn beta iota. wp_auto.
    apply wp_line_reset; [done|]. intros l2 o2 Hl2. wp_auto. do 4 (split; [done|]). right. split; [done|].
    exists (Pl011.uart_puts (bytes "")), (o2 ++ []). by rewrite !app_nil_l.
Qed.

Lemma exec_cat s name c : ready s (bytes "cat") name -> good_name name -> Afs.afs_wf (disk s) -> length (cat_buf s) = 2048%nat ->
  Afs.file (disk s) name = Some c -> (length c <= 2047)%nat ->
  wp execute (fun e s' o => e = Goes_on /\ line_is (line s') (line_len s') [] [] /\ length (cat_buf s') = 2048%nat /\
    Afs.afs_wf (disk s') /\ (forall m, Afs.file (disk s') m = Afs.file (disk s) m) /\
    exists o1 o2, o = o1 ++ on_wire c ++ o2) s.
Proof.
  intros Hr Hn Hwf Hbuf Hc Hsz. pose proof (ready_line s _ _ Hr ltac:(by repeat constructor) Hn) as Hline.
  unfold execute. apply wp_bind, wp_puts, wp_bind, wp_get.
  rewrite (proj2 (Z.eqb_neq _ _)) by (destruct Hr as (_ & _ & ->); lia). apply wp_bind.
  do 8 skip_word Hline. take_prefix Hline.
  eapply wp_with_arg; [exact Hr|vm_compute; set_solver|done|]. intros l Hl Hname. unfold cmd_cat. apply wp_bind, wp_get, wp_bind.
  destruct (AfsSpec.read_run (disk s) _ _ (2048 - 1) Hwf Hname) as (d & E & Hwf2 & Hd); [lia|]. rewrite Hc in E. cbv zeta in E.
  assert (Er : Afs.read_end (Z.of_nat (length c)) (2048 - 1) = Z.of_nat (length c)) by (unfold Afs.read_end; zlia).
  rewrite Er, Nat2Z.id, take_ge in E by lia.
  eapply wp_zoom, wp_intro; [exact E|]. cbn beta iota. apply wp_bind.
  cbn [cat_buf set_line]. eapply wp_of_opt.
  { unfold fill. rewrite Hbuf. by rewrite (proj2 (Nat.leb_le _ _)) by lia. }
  apply wp_bind, wp_modify. rewrite (proj2 (Z.ltb_ge _ _)) by lia. apply wp_bind.
  assert (Lb : length (c ++ drop (length c) (cat_buf s)) = 2048%nat) by (rewrite length_app, length_drop; lia).
  eapply wp_of_opt; [apply aset_in; rewrite Lb; lia|]. rewrite Nat2Z.id.
  assert (Eb : take (length c) (<[length c := 0]> (c ++ drop (length c) (cat_buf s))) = c).
  { rewrite insert_app_r_alt by lia. by rewrite take_app_length. }
  apply wp_bind, wp_modify, wp_bind. rewrite Eb. apply wp_put_chars.
  assert (Hend : forall o2 s', length (line s') = 64%nat -> disk s' = d -> length (cat_buf s') = 2048%nat ->
    wp (line_reset ;;; ret Goes_on) (fun e s2 o3 => e = Goes_on /\ line_is (line s2) (line_len s2) [] [] /\
      length (cat_buf s2) = 2048%nat /\ Afs.afs_wf (disk s2) /\ (forall m, Afs.file (disk s2) m = Afs.file (disk s) m) /\
      exists o4 o5, Pl011.uart_puts (bytes "") ++ (on_wire c ++ o2) ++ o3 = o4 ++ on_wire c ++ o5) s').
  { intros o2 s' L1 L2 L3. apply wp_bind, wp_line_reset; [done|]. intros l2 o3 Hl2. wp_auto.
    cbn [set_line disk line line_len cat_buf]. rewrite L2. do 5 (split; [done|]). eexists _, _. by rewrite <- app_assoc. }
  assert (Lb2 : length (<[length c := 0]> (c ++ drop (length c) (cat_buf s))) = 2048%nat) by (by rewrite length_insert).
  case_match; bool_hyps; [by apply wp_ret, Hend|]. apply wp_bind.
  destruct (aget_in (<[length c := 0]> (c ++ drop (length c) (cat_buf s))) (Z.of_nat (length c) - 1)) as [x Hx]; [rewrite Lb2; lia|].
  eapply wp_of_opt; [exact Hx|]. case_match; [by apply wp_ret, Hend|by apply wp_puts, Hend].
Qed.

(** ** From keys to files *)

Lemma wp_typed_app k1 : forall k2 (Q : ending -> shell D -> list Z -> Prop) s,
  wp (typed k1) (fun e s1 o1 => e = Goes_on /\ wp (typed k2) (fun e2 s2 o2 => Q e2 s2 (o1 ++ o2)) s1) s ->
  wp (typed (k1 ++ k2)) Q s.
Proof.
  induction k1 as [|c k1 IH]; intros k2 Q s Hw; cbn [typed app] in *; [by destruct Hw|].
  apply wp_run in Hw as (e & s1 & o & Hrun & -> & Hw). unfold bind in Hrun.
  apply wp_bind. unfold wp at 1. destruct (shell_round (Some c) s) as [[[e1 s2] o1]| |]; [|done..].
  destruct e1; [|done]. destruct (typed k1 s2) as [[[e3 s3] o3]| |] eqn:E3; [|done..]. injection Hrun as -> -> <-.
  apply IH. eapply wp_intro; [exact E3|]. split; [done|]. eapply wp_mono; [exact Hw|]. intros. by rewrite app_assoc.
Qed.
Lemma wp_typed_one c (Q : ending -> shell D -> list Z -> Prop) s : wp (shell_round (Some c)) Q s -> wp (typed [c]) Q s.
Proof.
  intros Hw. cbn [typed]. apply wp_bind. eapply wp_mono; [exact Hw|]. intros [] s' o Hq; apply wp_ret; by rewrite app_nil_r.
Qed.

Lemma edit_word w : forall text, Forall (fun c => 0x20 <= c < 0x7F) w -> (length text + length w <= 63)%nat -> w <> [] ->
  fold_left edit w (text, text) = (text ++ w, text ++ w).
Proof.
  induction w as [|c w IH]; intros text Hw Hl Hne; [done|]. apply Forall_cons in Hw as [Hc Hw]. cbn [fold_left length] in *.
  assert (E : edit (text, text) c = (text ++ [c], text ++ [c])).
  { unfold edit. rewrite (proj2 (Z.eqb_neq c 127)), (proj2 (Z.eqb_neq c 8)), (proj2 (Z.leb_le 32 c)), (proj2 (Z.ltb_lt c 127)) by lia.
    by rewrite (proj2 (Nat.ltb_lt _ _)) by lia. }
  rewrite E. destruct w as [|d w]; [done|]. rewrite IH; [by rewrite <- app_assoc|done|rewrite length_app; simpl in *; lia|done].
Qed.

(** Typing [word name] on an empty line makes it ready for execution. *)
Lemma typed_ready s w name : line_is (line s) (line_len s) [] [] -> Forall (fun c => 0x20 < c < 0x7F) w ->
  good_name name -> (length w <= 39)%nat ->
  wp (typed (w ++ 32 :: name)) (fun e s' _ => e = Goes_on /\ same_rest s s' /\ ready s' w name) s.
Proof.
  intros Hl Hw Hn Hlen. pose proof Hn as [Hc Hnl].
  assert (Hall : Forall (fun c => 0x20 <= c < 0x7F) (w ++ 32 :: name)).
  { apply Forall_app. split; [eapply Forall_impl; [exact Hw|simpl; lia]|]. apply Forall_cons. split; [lia|].
    eapply Forall_impl; [exact Hc|simpl; lia]. }
  eapply wp_mono; [apply (typed_edits _ _ [] [])|].
  - eapply Forall_impl; [exact Hall|]. intros x Hx. unfold is_enter. simpl in Hx.
    by rewrite (proj2 (Z.eqb_neq x 13)), (proj2 (Z.eqb_neq x 10)) by lia.
  - done.
  - intros e s' o (-> & Hr & Hl'). split; [done|]. split; [done|]. rewrite edit_word in Hl'; [|done| |].
    + destruct Hl' as (L64 & Ln & _ & _ & _ & _ & rest & Er). split; [done|]. cbn [fst snd app] in *.
      split; [exists rest; by rewrite Er, <- app_assoc|]. rewrite Ln, length_app. simpl. lia.
    + rewrite length_app. simpl. lia.
    + intros E%(f_equal length). rewrite length_app in E. simpl in E. lia.
Qed.

Lemma same_rest_disk s s' : same_rest s s' -> disk s' = disk s /\ cat_buf s' = cat_buf s.
Proof. unfold same_rest. tauto. Qed.

Lemma typed_command s w name (Q : ending -> shell D -> list Z -> Prop) : line_is (line s) (line_len s) [] [] ->
  Forall (fun c => 0x20 < c < 0x7F) w -> good_name name -> (length w <= 39)%nat ->
  (forall s1 o1, ready s1 w name -> disk s1 = disk s -> cat_buf s1 = cat_buf s ->
     wp execute (fun e s' o => Q e s' (o1 ++ o)) s1) ->
  wp (typed ((w ++ 32 :: name) ++ [13])) Q s.
Proof.
  intros Hl Hw Hn Hlen Hx. apply wp_typed_app. eapply wp_mono; [by apply typed_ready|].
  intros e s1 o1 (-> & Hr & Hrd). split; [done|]. apply wp_typed_one. destruct (same_rest_disk _ _ Hr). by apply Hx.
Qed.
End Shell.

(** the line editor.  After any keys other than Enter on an empty line,
    [line_len] counts the edited text - printable characters appended up to 63,
    the last one removed by a backspace - and it stands at the start of [line];
    the C string that [execute] will read is the text as it was after the last
    accepted character, since a backspace does not move the NUL.  Nothing else
    changes. *)
Theorem line_editor {D} `{!Afs.BlockDevice D} kernel_pgd tui beyond image image_size mpidr0 (s : shell D) keys
  (Hk : Forall (fun c => is_enter c = false) keys) (Hl : line_is (line s) (line_len s) [] []) :
  wp (typed kernel_pgd tui beyond image image_size mpidr0 keys)
     (fun e s' _ => let '(text, seen) := fold_left edit keys ([], []) in
        e = Goes_on /\ same_rest s s' /\ line_len s' = Z.of_nat (length text) /\
        take (length text) (line s') = text /\ cstr (line s') = seen) s.
Proof.
  eapply wp_mono; [by apply (typed_edits _ _ _ _ _ _ keys s [] [])|]. intros e s' o (He & Hr & Hi).
  destruct (fold_left edit keys ([], [])) as [text seen]. pose proof (line_is_cstr _ _ _ _ Hi) as Hc.
  destruct Hi as (_ & Hn & _ & Ht & _). done.
Qed.


(** *** What the commands get wrong *)

(** [cat] of a file of more than 2048 bytes overruns its buffer. *)
Theorem cat_overruns {D} `{!Afs.BlockDevice D} beyond (s : shell D) i name c :
  Afs.afs_wf (disk s) -> Afs.name_is (arg_view beyond (line s) i) name -> length (cat_buf s) = 2048%nat ->
  Afs.file (disk s) name = Some c -> 2048 < Z.of_nat (length c) -> cmd_cat beyond i s = UB.
Proof.
  intros Hwf Hn Hb Hc Hl. unfold cmd_cat. rewrite (bind_ok get _ s s s) by done.
  destruct (AfsSpec.read_run (disk s) _ _ (2048 - 1) Hwf Hn) as (d & E & _); [lia|]. rewrite Hc in E. cbv zeta in E.
  unfold in_disk. rewrite (bind_ok _ _ _ _ _ (zoom_ok _ _ _ _ _ _ _ E)). unfold bind, fill.
  rewrite Hb, (proj2 (Nat.leb_gt _ _)); [done|]. rewrite length_take. unfold Afs.read_end. zlia.
Qed.

Lemma checksum_fold l : forall x, 0 <= x < 2 ^ 32 ->
  fold_left (fun sum b => u32 (Z.lxor (u32 (Z.shiftl sum 1)) b)) l x =
  u32 (Z.lxor (Z.shiftl x (Z.of_nat (length l))) (simple_checksum l)).
Proof.
  unfold simple_checksum. induction l as [|b l IH] using rev_ind; intros x Hx.
  - cbn [fold_left length]. change (Z.of_nat 0) with 0. rewrite Z.shiftl_0_r, Z.lxor_0_r. by rewrite u32_small.
  - rewrite !fold_left_app, IH by done. cbn [fold_left].
    set (y := fold_left _ l 0). rewrite length_app. cbn [length].
    replace (Z.of_nat (length l + 1)) with (Z.succ (Z.of_nat (length l))) by lia.
    unfold u32. rewrite <- !Z.land_ones by lia. apply Z.bits_inj'. intros k Hk.
    rewrite !Z.land_spec, !Z.lxor_spec, !Z.land_spec. destruct (Z.testbit (Z.ones 32) k) eqn:Eo; rewrite ?andb_true_r, ?andb_false_r; [|done].
    assert (k < 32) by (destruct (Z.ltb_spec k 32); [done|by rewrite Z.ones_spec_high in Eo by lia]).
    destruct (decide (k = 0)) as [->|Hne].
    + rewrite !Z.shiftl_spec_low, Z.lxor_spec, Z.land_spec by lia. by rewrite Z.shiftl_spec_low by lia.
    + rewrite Z.lxor_spec, Z.land_spec, Eo, andb_true_r, !Z.shiftl_spec, Z.land_spec, Z.lxor_spec by lia.
      rewrite (Z.ones_spec_low 32 (k - 1)), !andb_true_r, Z.shiftl_spec by lia. replace (k - 1 - Z.of_nat (length l)) with (k - Z.succ (Z.of_nat (length l))) by lia.
      by destruct (Z.testbit x _), (Z.testbit y _), (Z.testbit b k).
Qed.

(** The checksum of [install] depends on the last 32 bytes only, so that comparing
    that of the image with that of its first 4096 bytes compares two windows of
    32 bytes at different places. *)
Theorem checksum_forgets a b : (32 <= length b)%nat -> simple_checksum (a ++ b) = simple_checksum b.
Proof.
  intros Hb. unfold simple_checksum at 1. rewrite fold_left_app.
  assert (Hr : forall l x, 0 <= x < 2 ^ 32 -> 0 <= fold_left (fun sum b => u32 (Z.lxor (u32 (Z.shiftl sum 1)) b)) l x < 2 ^ 32).
  { induction l as [|y l IH]; intros x Hx; cbn [fold_left]; [done|]. apply IH, u32_range. }
  rewrite checksum_fold by (apply Hr; lia). set (x := fold_left _ a 0). specialize (Hr b 0 ltac:(lia)). fold (simple_checksum b) in Hr.
  rewrite <- (u32_small (simple_checksum b)) at 2 by done. unfold u32. rewrite <- !Z.land_ones by lia.
  apply Z.bits_inj'. intros k Hk. rewrite !Z.land_spec, Z.lxor_spec.
  destruct (Z.ltb_spec k 32).
  - rewrite Z.shiftl_spec_low by lia. by rewrite xorb_false_l.
  - by rewrite Z.ones_spec_high, !andb_false_r by lia.
Qed.

(** *** A session *)

#[local] Existing Instance AfsSpec.ramdisk_device.
Definition demo_shell : shell AfsSpec.ramdisk :=
  mk_shell (replicate 64 0) 0 (replicate 2048 0) (replicate 4096 0) AfsSpec.fmt demo_kst (Smp.mk_cores 0 [0; 0; 0; 0]) 0.
Lemma demo_line : line_is (line demo_shell) (line_len demo_shell) [] [].
Proof. split_and!; [done..|simpl; lia|done|done|done|]. by exists (replicate 63 0). Qed.

Lemma line_editor_witness :
  wp (typed 0 (ret tt) (fun _ => 0) (fun _ => 0) 0 0 (bytes "psx" ++ [8]))
     (fun _ s' _ => line_len s' = 2 /\ cstr (line s') = bytes "psx") demo_shell.
Proof.
  pose proof (line_editor 0 (ret tt) (fun _ => 0) (fun _ => 0) 0 0 demo_shell (bytes "psx" ++ [8])
    ltac:(repeat constructor) demo_line) as Hw.
  eapply wp_mono; [exact Hw|]. cbn. intros e s' o (_ & _ & Hn & _ & Hc). exact (conj Hn Hc).
Defined.

