(* ===== verification/Vring.v ===== *)
(** * The split virtqueue in memory

    What the block driver (boot/aarch64/virtio.c) and the network driver
    (boot/aarch64/vnet.c) share: the interface to a device on the virtio-mmio bus,
    little-endian accesses, and the sixteen-byte descriptor both files declare as
    [vdesc_t] and fill with the same stores. *)

From S2P Require Import Prelude.

(** A device on the virtio-mmio bus: 32-bit registers by address, and a step of
    its own, which may write to memory (DMA). *)
Class VirtioDev (Dv : Type) := {
  vread : Z -> Dv -> Z;
  vwrite : Z -> Z -> Dv -> Dv;
  vstep : Dv -> mem -> Dv * mem }.

(** The device and memory after [k] steps of its own. *)
Fixpoint vsteps {Dv} `{!VirtioDev Dv} (k : nat) (x : Dv * mem) : Dv * mem :=
  match k with O => x | S k' => vsteps k' (vstep x.1 x.2) end.

(** Little-endian loads and stores of [n] bytes. *)
Definition load (n : nat) (a : Z) (m : mem) : Z := le_word (mem_read m a n).
Definition store (n : nat) (a v : Z) (m : mem) : mem := mem_write m a (le_bytes n v).

(** The fields of the descriptor at [d]. *)
Definition put_desc (d addr len flags next : Z) (m : mem) : mem :=
  store 2 (d + 14) next (store 2 (d + 12) flags (store 4 (d + 8) len (store 8 d addr m))).
Definition desc_is (d addr len flags next : Z) (m : mem) : bool :=
  (load 8 d m =? addr) && (load 4 (d + 8) m =? len) && (load 2 (d + 12) m =? flags) && (load 2 (d + 14) m =? next).

(** ** Memory *)

(** Two ranges that do not meet. *)
Definition apart (a n b k : Z) : Prop := a + n <= b \/ b + k <= a.

Lemma load_same n a v m : 0 <= v < 256 ^ Z.of_nat n -> load n a (store n a v m) = v.
Proof.
  intros Hv. unfold load, store. pose proof (mem_read_write m a (le_bytes n v)) as E.
  rewrite le_bytes_length in E. rewrite E. by apply le_word_bytes.
Qed.
Lemma load_other n a k b v m : apart a (Z.of_nat n) b (Z.of_nat k) -> load n a (store k b v m) = load n a m.
Proof.
  intros H. unfold load, store. f_equal. apply mem_read_ext. intros x Hx. apply mem_write_out.
  rewrite le_bytes_length. unfold apart in H. lia.
Qed.
Lemma store_out n a v m x : ~ (a <= x < a + Z.of_nat n) -> store n a v m x = m x.
Proof. intros H. apply mem_write_out. by rewrite le_bytes_length. Qed.

(** Reading a descriptor. *)
Definition desc_at (d : Z) (m : mem) : Z * Z * Z * Z := (load 8 d m, load 4 (d + 8) m, load 2 (d + 12) m, load 2 (d + 14) m).

Lemma desc_at_put d addr len flags next m : 0 <= addr < 2 ^ 64 -> 0 <= len < 2 ^ 32 -> 0 <= flags < 2 ^ 16 -> 0 <= next < 2 ^ 16 ->
  desc_at d (put_desc d addr len flags next m) = (addr, len, flags, next).
Proof.
  intros Ha Hl Hf Hn. unfold desc_at, put_desc.
  rewrite (load_same 2 (d + 14)) by done.
  rewrite (load_other 2 (d + 12)) by (unfold apart; lia). rewrite (load_same 2 (d + 12)) by done.
  rewrite (load_other 4 (d + 8)), (load_other 4 (d + 8)) by (unfold apart; lia). rewrite (load_same 4 (d + 8)) by done.
  rewrite !(load_other 8 d) by (unfold apart; lia). by rewrite (load_same 8 d).
Qed.
Lemma desc_at_ext d m1 m2 : (forall x, d <= x < d + 16 -> m1 x = m2 x) -> desc_at d m1 = desc_at d m2.
Proof.
  intros H. unfold desc_at, load. rewrite (mem_read_ext m1 m2 d 8), (mem_read_ext m1 m2 (d + 8) 4),
    (mem_read_ext m1 m2 (d + 12) 2), (mem_read_ext m1 m2 (d + 14) 2); [done|intros; apply H; lia..].
Qed.
Lemma put_desc_out d addr len flags next m x : ~ (d <= x < d + 16) -> put_desc d addr len flags next m x = m x.
Proof. intros H. unfold put_desc. rewrite !store_out by lia. done. Qed.

Lemma desc_is_put d addr len flags next m : 0 <= addr < 2 ^ 64 -> 0 <= len < 2 ^ 32 -> 0 <= flags < 2 ^ 16 -> 0 <= next < 2 ^ 16 ->
  desc_is d addr len flags next (put_desc d addr len flags next m) = true.
Proof.
  intros Ha Hl Hf Hn. pose proof (desc_at_put d addr len flags next m Ha Hl Hf Hn) as E. unfold desc_at in E.
  unfold desc_is. injection E as -> -> -> ->. by rewrite !Z.eqb_refl.
Qed.

(** ** What the device finds *)

(** The chain that starts at descriptor [i] of the table at [d], as the device
    walks it: address, length, flags. *)
Fixpoint chain (d q i : Z) (m : mem) (n : nat) : option (list (Z * Z * Z)) :=
  match n with
  | O => None
  | S n' =>
      if (0 <=? i) && (i <? q) then
        let '(addr, len, flags, next) := desc_at (d + 16 * i) m in
        if Z.testbit flags 0 then l ← chain d q next m n'; Some ((addr, len, flags) :: l)
        else Some [(addr, len, flags)]
      else None
  end.
