(* ===== verification/Virtio.v ===== *)
(** * The virtio block driver (boot/aarch64/virtio.c)

    The queue lies in byte memory, laid out as the split virtqueue of the virtio
    specification.  The device is used through [VirtioDev]: its registers, and
    what it does on its own between two polls of the driver.  [publish] is
    [submit] up to the notification, [await] the rest. *)

From S2P Require Import Prelude Uart Pmm Heap Vring.

Definition V_MAGIC : Z := 0x000.
Definition V_VERSION : Z := 0x004.
Definition V_DEVID : Z := 0x008.
Definition V_DRVFEAT : Z := 0x020.
Definition V_DRVFEATSEL : Z := 0x024.
Definition V_GUESTPAGESZ : Z := 0x028.
Definition V_QALIGN : Z := 0x02C.
Definition V_QPFNSEL : Z := 0x030.
Definition V_QNUMMAX : Z := 0x034.
Definition V_QNUM : Z := 0x038.
Definition V_QPFN : Z := 0x040.
Definition V_QREADY : Z := 0x044.
Definition V_QNOTIFY : Z := 0x050.
Definition V_STATUS : Z := 0x070.
Definition V_QDESCLO : Z := 0x080.
Definition V_QDESCHI : Z := 0x084.
Definition V_QAVAILLO : Z := 0x090.
Definition V_QAVAILHI : Z := 0x094.
Definition V_QUSEDLO : Z := 0x0A0.
Definition V_QUSEDHI : Z := 0x0A4.
Definition V_CONFIG : Z := 0x100.
Definition VBLK_MAGIC : Z := 0x74726976.
Definition VBLK_DEVID_BLK : Z := 2.
Definition V_SLOT_BASE : Z := 0x0A000000.
Definition V_SLOT_STEP : Z := 0x200.
Definition V_SLOTS : Z := 32.
Definition S_ACK : Z := 1.
Definition S_DRIVER : Z := 2.
Definition S_DRIVER_OK : Z := 4.
Definition S_FEATURES_OK : Z := 8.
Definition D_NEXT : Z := 1.
Definition D_WRITE : Z := 2.
Definition BLK_T_IN : Z := 0.
Definition BLK_T_OUT : Z := 1.
Definition VIRTIO_BLK_SECT_SIZE : Z := 512.

Record vblk_dev := mk_vblk {
  base : Z; qnum : Z; desc : Z; avail : Z; used : Z; hdr : Z; st : Z;
  ready : bool; capacity : Z; next_desc : Z; next_slot : Z; pub_idx : Z }.

(** The device, memory, the driver's variables and the page allocator. *)
Record bst {Dv : Type} := mk_bst { bdev : Dv; bmem : mem; vblk : vblk_dev; modern : bool; bframes : pmm }.
Arguments bst Dv : clear implicits.
Arguments mk_bst {Dv}.

Section Driver.
Context {Dv : Type} `{!VirtioDev Dv}.
Implicit Types s : bst Dv.

Definition set_bdev d s : bst Dv := mk_bst d (bmem s) (vblk s) (modern s) (bframes s).
Definition set_bmem m s : bst Dv := mk_bst (bdev s) m (vblk s) (modern s) (bframes s).
Definition set_vblk v s : bst Dv := mk_bst (bdev s) (bmem s) v (modern s) (bframes s).
Definition set_modern b s : bst Dv := mk_bst (bdev s) (bmem s) (vblk s) b (bframes s).
Definition in_bframes {A} (m : M pmm A) : M (bst Dv) A :=
  zoom bframes (fun p s => mk_bst (bdev s) (bmem s) (vblk s) (modern s) p) m.

(** ** Registers and memory *)

Definition rd32 (b off : Z) : M (bst Dv) Z := let* s := get in ret (u32 (vread (b + off) (bdev s))).
Definition wr32 (b off v : Z) : M (bst Dv) unit := modify (fun s => set_bdev (vwrite (b + off) (u32 v) (bdev s)) s).

Definition ld (n : nat) (a : Z) : M (bst Dv) Z := let* s := get in ret (load n a (bmem s)).
Definition sto (n : nat) (a v : Z) : M (bst Dv) unit := modify (fun s => set_bmem (store n a v (bmem s)) s).

Definition vblk_capacity : M (bst Dv) Z :=
  let* s := get in ret (if ready (vblk s) then capacity (vblk s) else 0).

(** ** Bringing the device up *)

Definition probe_slot (b : Z) : M (bst Dv) bool :=
  let* m := rd32 b V_MAGIC in
  if negb (m =? VBLK_MAGIC) then ret false else
  let* ver := rd32 b V_VERSION in
  if negb (ver =? 1) && negb (ver =? 2) then ret false else
  modify (set_modern (ver =? 2)) ;;;
  let* id := rd32 b V_DEVID in
  ret (id =? VBLK_DEVID_BLK).

Fixpoint probe_loop (i : Z) (n : nat) : M (bst Dv) Z :=
  match n with
  | O => ret 0
  | S n' =>
      let cand := V_SLOT_BASE + i * V_SLOT_STEP in
      let* ok := probe_slot cand in
      if (ok : bool) then ret cand else probe_loop (i + 1) n'
  end.

Definition upd_vblk (f : vblk_dev -> vblk_dev) : M (bst Dv) unit := modify (fun s => set_vblk (f (vblk s)) s).

(** Lines 170 to 209: reset, features, queue size.  [false] when the device
    refuses. *)
Definition negotiate (b : Z) : M (bst Dv) bool :=
  wr32 b V_STATUS 0 ;;;
  wr32 b V_STATUS S_ACK ;;;
  wr32 b V_STATUS (Z.lor S_ACK S_DRIVER) ;;;
  let* s := get in
  (if modern s then
     wr32 b V_DRVFEATSEL 0 ;;; wr32 b V_DRVFEAT 0 ;;; wr32 b V_DRVFEATSEL 1 ;;; wr32 b V_DRVFEAT 1
   else wr32 b V_GUESTPAGESZ PAGE_SIZE ;;; wr32 b V_QALIGN PAGE_SIZE) ;;;
  wr32 b V_STATUS (Z.lor (Z.lor S_ACK S_DRIVER) S_FEATURES_OK) ;;;
  let* status := rd32 b V_STATUS in
  if Z.land status S_FEATURES_OK =? 0 then puts "[blk] device rejected features" ;;; ret false else
  wr32 b V_QPFNSEL 0 ;;;
  let* maxq := rd32 b V_QNUMMAX in
  if maxq =? 0 then puts "[blk] device reports empty queue - abort" ;;; ret false else
  let q := if maxq <? 120 then maxq else 120 in
  upd_vblk (fun v => mk_vblk (base v) q (desc v) (avail v) (used v) (hdr v) (st v) (ready v) (capacity v)
                       (next_desc v) (next_slot v) (pub_idx v)) ;;;
  wr32 b V_QNUM q ;;; ret true.

(** Lines 216 to 246: where the parts of the queue lie, and telling the device. *)
Definition modern_used (qpages q : Z) : Z :=
  let avail_pa := Z.land (u64 (qpages + 16 * q + 1)) (u64 (Z.lnot 1)) in
  Z.land (u64 (avail_pa + 6 + 2 * q + 3)) (u64 (Z.lnot 3)).
Definition legacy_used (qpages q : Z) : Z := u64 (qpages + 16 * q + Z.land (6 + 2 * q + 0xFFF) (u64 (Z.lnot 0xFFF))).
Definition place_queue (b qpages : Z) : M (bst Dv) unit :=
  let* s := get in
  let q := qnum (vblk s) in
  let av := qpages + 16 * q in
  (if modern s then
     wr32 b V_QDESCLO qpages ;;; wr32 b V_QDESCHI 0 ;;;
     wr32 b V_QAVAILLO (Z.land (u64 (av + 1)) (u64 (Z.lnot 1))) ;;; wr32 b V_QAVAILHI 0 ;;;
     wr32 b V_QUSEDLO (modern_used qpages q) ;;; wr32 b V_QUSEDHI 0 ;;;
     wr32 b V_QREADY 1
   else wr32 b V_QPFN (Z.shiftr qpages 12)) ;;;
  upd_vblk (fun v => mk_vblk b q qpages av (if modern s then modern_used qpages q else legacy_used qpages q)
                       (qpages + PAGE_SIZE) (qpages + PAGE_SIZE + 16) (ready v) (capacity v)
                       (next_desc v) (next_slot v) (pub_idx v)) ;;;
  let* s := get in
  sto 2 (avail (vblk s)) 0 ;;; sto 2 (avail (vblk s) + 2) 0 ;;; sto 2 (used (vblk s) + 2) 0.

Definition vblk_init : M (bst Dv) Z :=
  let* b := probe_loop 0 (Z.to_nat V_SLOTS) in
  if b =? 0 then puts "[blk] no virtio-blk device found" ;;; ret 0 else
  let* ok := negotiate b in
  if negb ok then ret 0 else
  let* qpages := in_bframes (pmm_alloc_pages 2) in
  if qpages =? 0 then ret 0 else
  modify (fun s => set_bmem (memset (bmem s) qpages 0 (2 * PAGE_SIZE)) s) ;;;
  place_queue b qpages ;;;
  let* lo := rd32 b V_CONFIG in
  let* hi := rd32 b (V_CONFIG + 4) in
  let cap := u64 (Z.lor lo (Z.shiftl hi 32) * VIRTIO_BLK_SECT_SIZE) in
  wr32 b V_STATUS (Z.lor (Z.lor (Z.lor S_ACK S_DRIVER) S_FEATURES_OK) S_DRIVER_OK) ;;;
  upd_vblk (fun v => mk_vblk (base v) (qnum v) (desc v) (avail v) (used v) (hdr v) (st v) true cap
                       (next_desc v) (next_slot v) (pub_idx v)) ;;;
  puts_nolf "[blk] virtio-blk ready @ 0x" ;;; put_hex b ;;; puts_nolf " " ;;;
  let* s := get in
  puts (if modern s then "modern" else "legacy") ;;;
  puts_nolf "  qn=" ;;; put_dec (qnum (vblk s)) ;;;
  puts_nolf " cap=" ;;; put_dec (u32 (Z.shiftr cap 20)) ;;; puts " MB" ;;;
  ret 1.

(** ** Requests *)

Fixpoint wr_desc_loop (d addr len flags next : Z) (tries : nat) : M (bst Dv) unit :=
  match tries with
  | O => puts "[blk][dbg] desc write did not stick!"
  | S tries' =>
      modify (fun s => set_bmem (put_desc d addr len flags next (bmem s)) s) ;;;
      let* s := get in
      if desc_is d addr len flags next (bmem s) then ret tt else wr_desc_loop d addr len flags next tries'
  end.
Definition wr_desc (i addr len flags next : Z) : M (bst Dv) unit :=
  let* s := get in wr_desc_loop (desc (vblk s) + 16 * i) (u64 addr) (u32 len) (u16 flags) (u16 next) 4.

(** [submit] up to the notification; the result is [last_used].  The read of the
    payload for an OUT request has no effect and is left out. *)
Definition publish (type lba buf nbytes : Z) : M (bst Dv) Z :=
  let* s := get in
  let v := vblk s in
  let mask := u16 (qnum v - 1) in
  let head := next_desc v in
  upd_vblk (fun v => mk_vblk (base v) (qnum v) (desc v) (avail v) (used v) (hdr v) (st v) (ready v) (capacity v)
                       (u16 (next_desc v + 3)) (next_slot v) (pub_idx v)) ;;;
  sto 4 (hdr v) type ;;; sto 4 (hdr v + 4) 0 ;;; sto 8 (hdr v + 8) lba ;;;
  wr_desc head (hdr v) 16 D_NEXT (Z.land (head + 1) mask) ;;;
  wr_desc (Z.land (head + 1) mask) buf nbytes (Z.lor (if type =? BLK_T_IN then D_WRITE else 0) D_NEXT) (Z.land (head + 2) mask) ;;;
  wr_desc (Z.land (head + 2) mask) (st v) 1 D_WRITE 0 ;;;
  sto 1 (st v) 0xEE ;;;
  let* last := ld 2 (used v + 2) in
  let slot := next_slot v in
  upd_vblk (fun v => mk_vblk (base v) (qnum v) (desc v) (avail v) (used v) (hdr v) (st v) (ready v) (capacity v)
                       (next_desc v) (u16 ((next_slot v + 1) mod qnum v)) (pub_idx v)) ;;;
  sto 2 (avail v + 4 + 2 * slot) head ;;;
  let* a := ld 8 (desc v + 16 * head) in
  let* b := ld 8 (desc v + 16 * Z.land (head + 1) mask) in
  let* c := ld 8 (desc v + 16 * Z.land (head + 2) mask) in
  let* cl := ld 4 (desc v + 16 * Z.land (head + 2) mask + 8) in
  (if negb (a =? hdr v) || negb (b =? buf) || negb (c =? st v) || negb (cl =? 1)
   then puts "[blk] WARNING: descriptor chain unstable" else ret tt) ;;;
  upd_vblk (fun v => mk_vblk (base v) (qnum v) (desc v) (avail v) (used v) (hdr v) (st v) (ready v) (capacity v)
                       (next_desc v) (next_slot v) (u16 (pub_idx v + 1))) ;;;
  let* s := get in
  sto 2 (avail v + 2) (pub_idx (vblk s)) ;;;
  wr32 (base v) V_QNOTIFY 0 ;;;
  ret last.

(** The reads of [used->idx], the device going on in between; [true] when it
    has moved. *)
Fixpoint poll (last : Z) (n : nat) : M (bst Dv) bool :=
  match n with
  | O => ret false
  | S n' =>
      modify (fun s => let '(d, m) := vstep (bdev s) (bmem s) in set_bmem m (set_bdev d s)) ;;;
      let* s := get in
      let* i := ld 2 (used (vblk s) + 2) in
      if i =? last then poll last n' else ret true
  end.
(** The loop gives up after the read that follows the 20,000,000th. *)
Definition SPIN_LIMIT : Z := 20000000.

Definition await (last : Z) : M (bst Dv) Z :=
  let* done_ := poll last (Z.to_nat (SPIN_LIMIT + 1)) in
  let* s := get in
  let v := vblk s in
  if negb done_ then
    let* status := rd32 (base v) V_STATUS in
    puts "[blk] TIMEOUT waiting for device" ;;; puts_nolf "  status=0x" ;;; put_hex status ;;;
    let* a := ld 2 (avail v + 2) in
    puts_nolf " avail_idx=" ;;; put_dec a ;;;
    let* u := ld 2 (used v + 2) in
    puts_nolf " used_idx=" ;;; put_dec u ;;; puts "" ;;;
    ret (-1)
  else
  let* status := ld 1 (st v) in ret (if status =? 0 then 0 else -1).

Definition submit (type lba buf nbytes : Z) : M (bst Dv) Z :=
  let* s := get in
  if negb (ready (vblk s)) || (nbytes =? 0) then ret (-1) else
  let* last := publish type lba buf nbytes in await last.

Definition vblk_read (lba buf count : Z) : M (bst Dv) Z :=
  if count =? 0 then ret 0 else submit BLK_T_IN lba buf (u32 (count * VIRTIO_BLK_SECT_SIZE)).
Definition vblk_write (lba buf count : Z) : M (bst Dv) Z :=
  if count =? 0 then ret 0 else submit BLK_T_OUT lba buf (u32 (count * VIRTIO_BLK_SECT_SIZE)).
End Driver.

(** ** What the device finds *)

(** The parts of the queue lie apart, in the lower half of the address space. *)
Record queue_ok (v : vblk_dev) : Prop := {
  q_num : 3 <= qnum v <= 120;
  q_desc : 0 < desc v /\ desc v + 16 * qnum v <= avail v;
  q_avail : avail v + 4 + 2 * qnum v <= used v;
  q_used : used v + 4 + 8 * qnum v <= hdr v;
  q_hdr : hdr v + 16 <= st v < 2 ^ 63 }.

(** The next three descriptors are in the table, and distinct. *)
Definition heads_ok (q head : Z) : Prop :=
  let i := Z.land (head + 1) (q - 1) in let j := Z.land (head + 2) (q - 1) in
  0 <= head < q /\ 0 <= i < q /\ 0 <= j < q /\ head <> i /\ head <> j /\ i <> j.

Section Publish.
Context {Dv : Type} `{!VirtioDev Dv}.
Implicit Types s : bst Dv.


(** The first try sticks in memory. *)
Lemma wr_desc_run i addr len flags next s :
  wr_desc i addr len flags next s =
  Ok (tt, set_bmem (put_desc (desc (vblk s) + 16 * i) (u64 addr) (u32 len) (u16 flags) (u16 next) (bmem s)) s, []).
Proof.
  unfold wr_desc. rewrite (bind_ok get _ s s s) by done. cbn [wr_desc_loop]. unfold bind, modify, get, ret.
  cbn [bmem set_bmem]. rewrite desc_is_put; [done|apply u64_range|apply u32_range|apply u16_range|apply u16_range].
Qed.

Lemma bind_ld {B} n a (k : Z -> M (bst Dv) B) s : bind (ld n a) k s = k (load n a (bmem s)) s.
Proof. by apply bind_ok. Qed.
Lemma bind_sto {B} n a x (k : unit -> M (bst Dv) B) s : bind (sto n a x) k s = k tt (set_bmem (store n a x (bmem s)) s).
Proof. by apply bind_ok. Qed.
Lemma bind_upd {B} f (k : unit -> M (bst Dv) B) s : bind (upd_vblk f) k s = k tt (set_vblk (f (vblk s)) s).
Proof. by apply bind_ok. Qed.
Lemma bind_wr32 {B} b off x (k : unit -> M (bst Dv) B) s :
  bind (wr32 b off x) k s = k tt (set_bdev (vwrite (b + off) (u32 x) (bdev s)) s).
Proof. by apply bind_ok. Qed.
Lemma bind_wr_desc {B} i addr len flags next (k : unit -> M (bst Dv) B) s :
  bind (wr_desc i addr len flags next) k s =
  k tt (set_bmem (put_desc (desc (vblk s) + 16 * i) (u64 addr) (u32 len) (u16 flags) (u16 next) (bmem s)) s).
Proof. apply bind_ok, wr_desc_run. Qed.

Ltac brun := repeat (first [rewrite bind_get | rewrite bind_ld | rewrite bind_sto | rewrite bind_upd | rewrite bind_wr_desc
  | rewrite bind_wr32]; cbn [bmem bdev vblk set_bmem set_bdev set_vblk modern bframes]).

(** Memory when the chain is built, and when it is published. *)
Definition chain_mem (v : vblk_dev) (type lba buf nbytes : Z) (m : mem) : mem :=
  let i := Z.land (next_desc v + 1) (u16 (qnum v - 1)) in let j := Z.land (next_desc v + 2) (u16 (qnum v - 1)) in
  store 1 (st v) 0xEE
    (put_desc (desc v + 16 * j) (u64 (st v)) 1 D_WRITE 0
    (put_desc (desc v + 16 * i) (u64 buf) (u32 nbytes) (u16 (Z.lor (if type =? BLK_T_IN then D_WRITE else 0) D_NEXT)) (u16 j)
    (put_desc (desc v + 16 * next_desc v) (u64 (hdr v)) 16 D_NEXT (u16 i)
    (store 8 (hdr v + 8) lba (store 4 (hdr v + 4) 0 (store 4 (hdr v) type m)))))).
Definition published_mem (v : vblk_dev) (type lba buf nbytes : Z) (m : mem) : mem :=
  store 2 (avail v + 2) (u16 (pub_idx v + 1))
    (store 2 (avail v + 4 + 2 * next_slot v) (next_desc v) (chain_mem v type lba buf nbytes m)).
Definition advanced (v : vblk_dev) : vblk_dev :=
  mk_vblk (base v) (qnum v) (desc v) (avail v) (used v) (hdr v) (st v) (ready v) (capacity v)
    (u16 (next_desc v + 3)) (u16 ((next_slot v + 1) mod qnum v)) (u16 (pub_idx v + 1)).

Section Layout.
Context (v : vblk_dev) (Hq : queue_ok v) (Hh : heads_ok (qnum v) (next_desc v)) (Hs : 0 <= next_slot v < qnum v).
Context (type lba buf nbytes : Z) (m : mem).
Let i := Z.land (next_desc v + 1) (u16 (qnum v - 1)).
Let j := Z.land (next_desc v + 2) (u16 (qnum v - 1)).

Lemma mask_small : u16 (qnum v - 1) = qnum v - 1.
Proof. destruct Hq. apply u16_small. lia. Qed.
Lemma indices : 0 <= next_desc v < qnum v /\ 0 <= i < qnum v /\ 0 <= j < qnum v /\ next_desc v <> i /\ next_desc v <> j /\ i <> j.
Proof. unfold i, j. rewrite mask_small. exact Hh. Qed.

(** The descriptors after all stores. *)
Lemma published_descs : 0 <= buf < 2 ^ 64 -> 0 <= nbytes < 2 ^ 32 ->
  desc_at (desc v + 16 * next_desc v) (published_mem v type lba buf nbytes m) = (hdr v, 16, D_NEXT, i) /\
  desc_at (desc v + 16 * i) (published_mem v type lba buf nbytes m) =
    (buf, nbytes, Z.lor (if type =? BLK_T_IN then D_WRITE else 0) D_NEXT, j) /\
  desc_at (desc v + 16 * j) (published_mem v type lba buf nbytes m) = (st v, 1, D_WRITE, 0).
Proof.
  intros Hb Hn. destruct Hq as [Hq1 Hq2 Hq3 Hq4 Hq5]. destruct indices as (H1 & H2 & H3 & H4 & H5 & H6).
  unfold published_mem, chain_mem. fold i j. cbv zeta.
  assert (Hf : 0 <= Z.lor (if type =? BLK_T_IN then D_WRITE else 0) D_NEXT < 2 ^ 16) by (case_match; vm_compute; split; congruence).
  rewrite (u64_small (st v)), (u64_small buf), (u64_small (hdr v)), (u32_small nbytes), (u16_small (Z.lor _ _)),
    (u16_small i), (u16_small j) by (done || lia).
  split; [|split].
  - etransitivity; [|apply (desc_at_put (desc v + 16 * next_desc v) (hdr v) 16 D_NEXT i); (done || lia)].
    apply desc_at_ext. intros x Hx.
    rewrite !store_out, (put_desc_out (desc v + 16 * j)), (put_desc_out (desc v + 16 * i)) by lia. reflexivity.
  - etransitivity; [|apply (desc_at_put (desc v + 16 * i) buf nbytes _ j); (done || lia)].
    apply desc_at_ext. intros x Hx. rewrite !store_out, (put_desc_out (desc v + 16 * j)) by lia. reflexivity.
  - etransitivity; [|apply (desc_at_put (desc v + 16 * j) (st v) 1 D_WRITE 0); (done || lia)].
    apply desc_at_ext. intros x Hx. rewrite !store_out by lia. reflexivity.
Qed.

Lemma published_chain : 0 <= buf < 2 ^ 64 -> 0 <= nbytes < 2 ^ 32 ->
  chain (desc v) (qnum v) (next_desc v) (published_mem v type lba buf nbytes m) 3 =
  Some [(hdr v, 16, D_NEXT); (buf, nbytes, Z.lor (if type =? BLK_T_IN then D_WRITE else 0) D_NEXT); (st v, 1, D_WRITE)].
Proof.
  intros Hb Hn. destruct (published_descs Hb Hn) as (E1 & E2 & E3). destruct indices as (H1 & H2 & H3 & _).
  cbn [chain]. rewrite E1, E2, E3.
  assert (G : forall k, 0 <= k < qnum v -> (0 <=? k) && (k <? qnum v) = true).
  { intros k Hk. by rewrite (proj2 (Z.leb_le _ _)), (proj2 (Z.ltb_lt _ _)) by lia. }
  rewrite !G by done. change (Z.testbit D_NEXT 0) with true. change (Z.testbit D_WRITE 0) with false.
  replace (Z.testbit (Z.lor (if type =? BLK_T_IN then D_WRITE else 0) D_NEXT) 0) with true by (by case_match). done.
Qed.

(** The other cells that the device reads. *)
Lemma published_cells : 0 <= type < 2 ^ 32 -> 0 <= lba < 2 ^ 32 ->
  let m' := published_mem v type lba buf nbytes m in
  load 2 (avail v + 2) m' = u16 (pub_idx v + 1) /\ load 2 (avail v + 4 + 2 * next_slot v) m' = next_desc v /\
  load 4 (hdr v) m' = type /\ load 8 (hdr v + 8) m' = lba /\ load 1 (st v) m' = 0xEE /\
  (forall x, ~ (desc v <= x < st v + 1) -> m' x = m x).
Proof.
  intros Ht Hl m'. destruct Hq as [Hq1 Hq2 Hq3 Hq4 Hq5]. destruct indices as (H1 & H2 & H3 & _).
  assert (Hp : forall n a d addr len flags next mm, apart a (Z.of_nat n) d 16 ->
             load n a (put_desc d addr len flags next mm) = load n a mm).
  { intros n a d addr len flags next mm Ha. unfold load. f_equal. apply mem_read_ext. intros x Hx.
    apply put_desc_out. unfold apart in Ha. lia. }
  unfold m', published_mem, chain_mem. fold i j. cbv zeta. split_and!.
  - apply load_same. apply u16_range.
  - rewrite load_other by (unfold apart; lia). apply load_same. change (256 ^ Z.of_nat 2) with (2 ^ 16). lia.
  - rewrite !(load_other 4 (hdr v)) by (unfold apart; lia). rewrite !Hp by (unfold apart; lia).
    rewrite !(load_other 4 (hdr v)) by (unfold apart; lia). by apply load_same.
  - rewrite !(load_other 8 (hdr v + 8)) by (unfold apart; lia). rewrite !Hp by (unfold apart; lia).
    apply load_same. change (256 ^ Z.of_nat 8) with (2 ^ 64). lia.
  - rewrite !(load_other 1 (st v)) by (unfold apart; lia). by apply load_same.
  - intros x Hx. rewrite !store_out, !put_desc_out, !store_out by lia. done.
Qed.
End Layout.

Lemma publish_run type lba buf nbytes s : queue_ok (vblk s) -> heads_ok (qnum (vblk s)) (next_desc (vblk s)) ->
  0 <= next_slot (vblk s) < qnum (vblk s) -> 0 <= buf < 2 ^ 64 -> 0 <= nbytes < 2 ^ 32 ->
  publish type lba buf nbytes s =
  Ok (load 2 (used (vblk s) + 2) (bmem s),
      set_bdev (vwrite (base (vblk s) + V_QNOTIFY) 0 (bdev s))
        (set_bmem (published_mem (vblk s) type lba buf nbytes (bmem s)) (set_vblk (advanced (vblk s)) s)), []).
Proof.
  intros Hq Hh Hs Hb Hn. pose proof Hq as [Hq1 Hq2 Hq3 Hq4 Hq5].
  destruct (indices (vblk s) Hq Hh) as (H1 & H2 & H3 & H4 & H5 & H6).
  destruct (published_descs (vblk s) Hq Hh Hs type lba buf nbytes (bmem s) Hb Hn) as (E1 & E2 & E3).
  assert (G : forall k x, 0 <= k < qnum (vblk s) ->
    desc_at (desc (vblk s) + 16 * k) (published_mem (vblk s) type lba buf nbytes (bmem s)) = x ->
    desc_at (desc (vblk s) + 16 * k) (store 2 (avail (vblk s) + 4 + 2 * next_slot (vblk s)) (next_desc (vblk s))
      (chain_mem (vblk s) type lba buf nbytes (bmem s))) = x).
  { intros k x Hk <-. apply desc_at_ext. intros y Hy. unfold published_mem. by rewrite (store_out 2 (avail (vblk s) + 2)) by lia. }
  apply G in E1, E2, E3; [|done..]. unfold desc_at in E1, E2, E3.
  injection E1 as E1 _ _ _. injection E2 as E2 _ _ _. injection E3 as E3 E4 _ _.
  assert (Eu : load 2 (used (vblk s) + 2) (chain_mem (vblk s) type lba buf nbytes (bmem s)) = load 2 (used (vblk s) + 2) (bmem s)).
  { unfold load. f_equal. apply mem_read_ext. intros y Hy. unfold chain_mem. by rewrite !store_out, !put_desc_out, !store_out by lia. }
  unfold publish. brun. cbn [base qnum desc avail used hdr st ready capacity next_desc next_slot pub_idx].
  change (u32 1) with 1. change (u32 16) with 16. change (u16 D_WRITE) with D_WRITE. change (u16 D_NEXT) with D_NEXT.
  change (u16 0) with 0. fold (chain_mem (vblk s) type lba buf nbytes (bmem s)). rewrite Eu, E1, E2, E3, E4, !Z.eqb_refl.
  cbn [negb orb]. rewrite (bind_ok _ _ _ _ _ (eq_refl : ret tt _ = _)). brun.
  cbn [base qnum desc avail used hdr st ready capacity next_desc next_slot pub_idx]. reflexivity.
Qed.

(** ** Completion *)

Definition after (k : nat) s : bst Dv :=
  let x := vsteps k (bdev s, bmem s) in set_bmem x.2 (set_bdev x.1 s).
(** [used->idx] as the [k]th poll reads it. *)
Definition used_idx (k : nat) s : Z := load 2 (used (vblk s) + 2) (vsteps k (bdev s, bmem s)).2.

Lemma poll_unfold last n s : poll last (S n) s =
  if used_idx 1 s =? last then poll last n (after 1 s) else Ok (true, after 1 s, []).
Proof.
  cbn [poll]. rewrite bind_modify, bind_get. unfold used_idx, after. cbn [vsteps fst snd].
  destruct (vstep (bdev s) (bmem s)) as [d m]. rewrite bind_ld. cbn [fst snd bmem set_bmem vblk set_bdev]. by case_match.
Qed.
Lemma after_S k s : after (S k) s = after k (after 1 s).
Proof. unfold after. cbn [vsteps fst snd bdev bmem set_bmem set_bdev]. by rewrite <- surjective_pairing. Qed.
Lemma used_idx_S k s : used_idx (S k) s = used_idx k (after 1 s).
Proof. unfold used_idx, after. cbn [vsteps fst snd bdev bmem set_bmem set_bdev vblk]. by rewrite <- surjective_pairing. Qed.
Lemma after_0 s : after 0 s = s.
Proof. by destruct s. Qed.

(** The device moves the index before poll [k + 1] and not earlier. *)
Lemma poll_done k : forall last n s, (k < n)%nat -> (forall i, (0 < i <= k)%nat -> used_idx i s = last) ->
  used_idx (S k) s <> last -> poll last n s = Ok (true, after (S k) s, []).
Proof.
  induction k as [|k IH]; intros last [|n] s Hn Hi Hd; [lia| |lia|]; rewrite poll_unfold.
  - by rewrite (proj2 (Z.eqb_neq _ _)) by done.
  - rewrite (Hi 1%nat) by lia. rewrite Z.eqb_refl, (after_S (S k)). apply IH; [lia| |by rewrite <- used_idx_S].
    intros i Hr. rewrite <- used_idx_S. apply Hi. lia.
Qed.
Lemma poll_timeout n : forall last s, (forall i, (0 < i <= n)%nat -> used_idx i s = last) ->
  poll last n s = Ok (false, after n s, []).
Proof.
  induction n as [|n IH]; intros last s Hi; [by rewrite after_0|]. rewrite poll_unfold, (Hi 1%nat) by lia.
  rewrite Z.eqb_refl, (after_S n). apply IH. intros i Hr. rewrite <- used_idx_S. apply Hi. lia.
Qed.

Lemma await_done k last s : Z.of_nat k <= SPIN_LIMIT -> (forall i, (0 < i <= k)%nat -> used_idx i s = last) ->
  used_idx (S k) s <> last ->
  await last s = Ok (if load 1 (st (vblk s)) (bmem (after (S k) s)) =? 0 then 0 else -1, after (S k) s, []).
Proof.
  intros Hk Hi Hd. unfold await. rewrite (bind_ok _ _ _ _ _ (poll_done k last (Z.to_nat (SPIN_LIMIT + 1)) s ltac:(lia) Hi Hd)), bind_get.
  cbn [negb]. by rewrite bind_ld.
Qed.

(** The state when the device has been notified. *)
Definition notified s (type lba buf nbytes : Z) : bst Dv :=
  set_bdev (vwrite (base (vblk s) + V_QNOTIFY) 0 (bdev s))
    (set_bmem (published_mem (vblk s) type lba buf nbytes (bmem s)) (set_vblk (advanced (vblk s)) s)).
End Publish.

(** Everything the driver relies on before a request. *)
Record blk_ok (v : vblk_dev) : Prop := {
  b_queue : queue_ok v; b_heads : heads_ok (qnum v) (next_desc v); b_slot : 0 <= next_slot v < qnum v; b_ready : ready v = true }.

(** what [submit] hands to the device.  When the device is notified, the
    available ring's index has advanced by one and its newest entry is the head
    of a chain of three descriptors: the request header with the type and the
    sector, the caller's buffer (device-writable exactly for a read), and the
    status byte; memory outside the queue is untouched.  If the device then moves
    the used index within 20,000,001 polls, the result is 0 exactly when it left
    0 in the status byte. *)
Theorem submit_request {Dv} `{!VirtioDev Dv} (s : bst Dv) type lba buf nbytes k
  (Hok : blk_ok (vblk s)) (Ht : 0 <= type < 2 ^ 32) (Hl : 0 <= lba < 2 ^ 32) (Hb : 0 <= buf < 2 ^ 64) (Hn : 0 < nbytes < 2 ^ 32)
  (Hk : Z.of_nat k <= SPIN_LIMIT)
  (Hi : forall i, (0 < i <= k)%nat -> used_idx i (notified s type lba buf nbytes) = load 2 (used (vblk s) + 2) (bmem s))
  (Hd : used_idx (S k) (notified s type lba buf nbytes) <> load 2 (used (vblk s) + 2) (bmem s)) :
  let v := vblk s in let m := bmem (notified s type lba buf nbytes) in
  (load 2 (avail v + 2) m = u16 (pub_idx v + 1) /\
   load 2 (avail v + 4 + 2 * next_slot v) m = next_desc v /\
   chain (desc v) (qnum v) (next_desc v) m 3 =
     Some [(hdr v, 16, D_NEXT); (buf, nbytes, Z.lor (if type =? BLK_T_IN then D_WRITE else 0) D_NEXT); (st v, 1, D_WRITE)] /\
   load 4 (hdr v) m = type /\ load 8 (hdr v + 8) m = lba /\
   (forall x, ~ (desc v <= x < st v + 1) -> m x = bmem s x)) /\
  let s' := after (S k) (notified s type lba buf nbytes) in
  submit type lba buf nbytes s = Ok (if load 1 (st v) (bmem s') =? 0 then 0 else -1, s', []).
Proof.
  intros v m. destruct Hok as [Hq Hh Hs Hr].
  destruct (published_cells v Hq Hh Hs type lba buf nbytes (bmem s) Ht Hl) as (C1 & C2 & C3 & C4 & _ & C6).
  split; [split_and!; try done; apply (published_chain v Hq Hh Hs); lia|]. intros s'. unfold submit. rewrite bind_get.
  rewrite Hr, (proj2 (Z.eqb_neq nbytes 0)) by lia. cbn [negb orb].
  rewrite (bind_ok _ _ _ _ _ (publish_run type lba buf nbytes s Hq Hh Hs Hb ltac:(lia))).
  fold (notified s type lba buf nbytes). exact (await_done k _ _ Hk Hi Hd).
Qed.

(** A device that never answers: after the last poll the request fails. *)
Theorem submit_times_out {Dv} `{!VirtioDev Dv} (s : bst Dv) type lba buf nbytes :
  blk_ok (vblk s) -> 0 <= buf < 2 ^ 64 -> 0 < nbytes < 2 ^ 32 ->
  (forall i, 0 < Z.of_nat i <= SPIN_LIMIT + 1 ->
     used_idx i (notified s type lba buf nbytes) = load 2 (used (vblk s) + 2) (bmem s)) ->
  wp (submit type lba buf nbytes) (fun r s' _ => r = -1 /\ vblk s' = advanced (vblk s)) s.
Proof.
  intros [Hq Hh Hs Hr] Hb Hn Hi. unfold submit. apply wp_bind, wp_get.
  rewrite Hr, (proj2 (Z.eqb_neq nbytes 0)) by lia. cbn [negb orb]. apply wp_bind.
  eapply wp_intro; [exact (publish_run type lba buf nbytes s Hq Hh Hs Hb ltac:(lia))|].
  fold (notified s type lba buf nbytes). unfold await. apply wp_bind.
  eapply wp_intro; [apply poll_timeout; intros i Hr2; apply Hi; unfold SPIN_LIMIT in *; lia|].
  apply wp_bind, wp_get. cbn [negb]. unfold rd32, ld. wp_auto. done.
Qed.

(** ** Bringing the queue up *)

Lemma modern_used_eq qpages q : 0 <= qpages < 2 ^ 48 -> qpages mod 4096 = 0 -> 0 <= q <= 120 ->
  Z.land (u64 (qpages + 16 * q + 1)) (u64 (Z.lnot 1)) = qpages + 16 * q /\
  modern_used qpages q = (qpages + 16 * q + 2 * q + 9) / 4 * 4.
Proof.
  intros Hp Ha Hq. unfold modern_used. change (u64 (Z.lnot 1)) with (2 ^ 64 - 2 ^ 1).
  change (u64 (Z.lnot 3)) with (2 ^ 64 - 2 ^ 2). rewrite (u64_small (qpages + 16 * q + 1)) by lia.
  assert (E : Z.land (qpages + 16 * q + 1) (2 ^ 64 - 2 ^ 1) = qpages + 16 * q) by (rewrite land_mask by lia; zlia).
  split; [exact E|]. rewrite E, u64_small, land_mask by lia. zlia.
Qed.

Section Init.
Context {Dv : Type} `{!VirtioDev Dv}.
Implicit Types s : bst Dv.
(** The slot, and what the registers of a virtio-mmio device say (virtio 1.2,
    4.2.2): the status register reads as written, the others do not depend on
    what the driver writes. *)
Context (b maxq lo hi : Z).
Hypothesis status_reads_back : forall x d, vread (b + V_STATUS) (vwrite (b + V_STATUS) x d) = x.
Hypothesis maxq_fixed : forall d, u32 (vread (b + V_QNUMMAX) d) = maxq.
Hypothesis config_fixed : forall d, u32 (vread (b + V_CONFIG) d) = lo /\ u32 (vread (b + (V_CONFIG + 4)) d) = hi.

Lemma negotiate_run s : 3 <= maxq -> modern s = true ->
  wp (negotiate b) (fun ok s' _ => ok = true /\ bmem s' = bmem s /\ bframes s' = bframes s /\ modern s' = true /\
    vblk s' = mk_vblk (base (vblk s)) (Z.min maxq 120) (desc (vblk s)) (avail (vblk s)) (used (vblk s)) (hdr (vblk s)) (st (vblk s))
      (ready (vblk s)) (capacity (vblk s)) (next_desc (vblk s)) (next_slot (vblk s)) (pub_idx (vblk s))) s.
Proof.
  intros Hm Hmod. unfold negotiate, wr32, rd32, upd_vblk. do 3 (apply wp_bind, wp_modify). apply wp_bind, wp_get.
  cbn [modern set_bdev]. rewrite Hmod. apply wp_bind. do 3 (apply wp_bind, wp_modify). apply wp_modify. apply wp_bind, wp_modify.
  apply wp_bind, wp_bind, wp_get, wp_ret. cbn [bdev set_bdev]. rewrite status_reads_back.
  change (Z.land _ S_FEATURES_OK =? 0) with false. cbv iota. apply wp_bind, wp_modify. apply wp_bind, wp_bind, wp_get, wp_ret.
  rewrite maxq_fixed, (proj2 (Z.eqb_neq maxq 0)) by lia. apply wp_bind, wp_modify, wp_bind, wp_modify, wp_ret.
  cbn. split_and!; try done. f_equal. destruct (Z.ltb_spec maxq 120); lia.
Qed.

Lemma place_queue_run s qpages : 0 < qpages < 2 ^ 48 -> qpages mod 4096 = 0 -> 3 <= qnum (vblk s) <= 120 -> modern s = true ->
  wp (place_queue b qpages) (fun _ s' _ => modern s' = true /\ bframes s' = bframes s /\
    let v := vblk s' in queue_ok v /\ base v = b /\ qnum v = qnum (vblk s) /\ desc v = qpages /\
      avail v = qpages + 16 * qnum v /\ hdr v = qpages + 4096 /\
      next_desc v = next_desc (vblk s) /\ next_slot v = next_slot (vblk s) /\ pub_idx v = pub_idx (vblk s)) s.
Proof.
  intros Hp Ha Hq Hm. destruct (modern_used_eq qpages (qnum (vblk s))) as [_ Eu]; [lia|done|lia|].
  unfold place_queue, wr32, upd_vblk, sto. apply wp_bind, wp_get. rewrite Hm. apply wp_bind.
  do 6 (apply wp_bind, wp_modify). apply wp_modify, wp_bind, wp_modify, wp_bind, wp_get.
  do 2 (apply wp_bind, wp_modify). apply wp_modify. cbn. rewrite Eu. split_and!; try done.
  unfold PAGE_SIZE. split; cbn; zlia.
Qed.

(** bringing up a modern device: if a slot answers as a virtio 1.x block
    device with a queue of at least three entries, [vblk_init] returns 1 and
    leaves the driver ready with the queue's parts - descriptor table, available
    ring, used ring, request header, status byte - apart from one another in the
    two pages it took, at most 120 entries, and the capacity in bytes that the
    device reports. *)
Theorem vblk_init_layout s qpages p' :
  probe_loop 0 32 s = Ok (b, set_modern true s, []) -> b <> 0 -> 3 <= maxq ->
  pmm_alloc_pages 2 (bframes s) = Ok (qpages, p', []) -> 0 < qpages < 2 ^ 48 -> qpages mod 4096 = 0 ->
  wp vblk_init (fun r s' _ => r = 1 /\
    let v := vblk s' in queue_ok v /\ ready v = true /\ base v = b /\ qnum v = Z.min maxq 120 /\ desc v = qpages /\
      avail v = qpages + 16 * qnum v /\ capacity v = u64 (Z.lor lo (Z.shiftl hi 32) * 512) /\
      next_desc v = next_desc (vblk s) /\ next_slot v = next_slot (vblk s) /\ pub_idx v = pub_idx (vblk s)) s.
Proof.
  intros Hprobe Hb Hm Hpm Hp Ha. unfold vblk_init. apply wp_bind. eapply wp_intro; [exact Hprobe|].
  rewrite (proj2 (Z.eqb_neq b 0)) by done. apply wp_bind. eapply wp_mono; [by apply negotiate_run|].
  intros ok s1 o1 (-> & _ & Ef & Em & Ev). cbn [negb]. apply wp_bind. unfold in_bframes. apply wp_zoom.
  rewrite Ef. eapply wp_intro; [exact Hpm|]. rewrite (proj2 (Z.eqb_neq qpages 0)) by lia. apply wp_bind, wp_modify, wp_bind.
  eapply wp_mono; [apply place_queue_run; [done|done| |done]; cbn; rewrite Ev; cbn; lia|].
  intros ? s2 o2 (Em2 & _ & Hq & E1 & E2 & E3 & E4 & E5 & E6 & E7 & E8). cbn in E2, E6, E7, E8. rewrite Ev in E2, E6, E7, E8. cbn in E2, E6, E7, E8.
  unfold rd32, wr32, upd_vblk. apply wp_bind, wp_bind, wp_get, wp_ret, wp_bind, wp_bind, wp_get, wp_ret.
  rewrite (proj1 (config_fixed _)), (proj2 (config_fixed _)).
  apply wp_bind, wp_modify, wp_bind, wp_modify. wp_auto. all: cbn; split; [done|].
  all: split_and!; try done; by destruct Hq.
Qed.
End Init.

(** ** A device

    A virtio 1.x block device in slot 0, as the specification describes it (2.7,
    5.2.6): on a notification it takes the newest entry of the available ring,
    walks the chain, moves the sectors, stores the status and advances the used
    index.  A chain it cannot walk is never answered. *)

Record rdev := mk_rdev {
  r_status : Z; r_qnum : Z; r_desc : Z; r_avail : Z; r_used : Z; r_pending : bool; r_disk : Z -> list Z }.

Definition SLOT0 : Z := 0x0A000000.

Definition r_read (a : Z) (d : rdev) : Z :=
  if a =? SLOT0 + V_MAGIC then VBLK_MAGIC else
  if a =? SLOT0 + V_VERSION then 2 else
  if a =? SLOT0 + V_DEVID then VBLK_DEVID_BLK else
  if a =? SLOT0 + V_STATUS then r_status d else
  if a =? SLOT0 + V_QNUMMAX then 1024 else
  if a =? SLOT0 + V_CONFIG then 64 else 0.
Definition r_write (a x : Z) (d : rdev) : rdev :=
  if a =? SLOT0 + V_STATUS then mk_rdev x (r_qnum d) (r_desc d) (r_avail d) (r_used d) (r_pending d) (r_disk d) else
  if a =? SLOT0 + V_QNUM then mk_rdev (r_status d) x (r_desc d) (r_avail d) (r_used d) (r_pending d) (r_disk d) else
  if a =? SLOT0 + V_QDESCLO then mk_rdev (r_status d) (r_qnum d) x (r_avail d) (r_used d) (r_pending d) (r_disk d) else
  if a =? SLOT0 + V_QAVAILLO then mk_rdev (r_status d) (r_qnum d) (r_desc d) x (r_used d) (r_pending d) (r_disk d) else
  if a =? SLOT0 + V_QUSEDLO then mk_rdev (r_status d) (r_qnum d) (r_desc d) (r_avail d) x (r_pending d) (r_disk d) else
  if a =? SLOT0 + V_QNOTIFY then mk_rdev (r_status d) (r_qnum d) (r_desc d) (r_avail d) (r_used d) true (r_disk d) else d.

(** The sectors from [lba] on, and the disk after a write. *)
Definition sectors_at (disk : Z -> list Z) (lba : Z) (n : Z) : list Z := concat (map disk (seqZ lba n)).
Definition disk_write (disk : Z -> list Z) (lba : Z) (data : list Z) : Z -> list Z := fun i =>
  if (lba <=? i) && (i <? lba + Z.of_nat (length data) / 512)
  then take 512 (drop (Z.to_nat (512 * (i - lba))) data) else disk i.

Definition r_step (d : rdev) (m : mem) : rdev * mem :=
  if negb (r_pending d) then (d, m) else
  let idle := mk_rdev (r_status d) (r_qnum d) (r_desc d) (r_avail d) (r_used d) false in
  let idx := load 2 (r_avail d + 2) m in
  let head := load 2 (r_avail d + 4 + 2 * ((idx - 1) mod r_qnum d)) m in
  match chain (r_desc d) (r_qnum d) head m 3 with
  | Some [(h, _, _); (a, n, _); (sa, _, _)] =>
      let lba := load 8 (h + 8) m in
      let '(disk, m1) :=
        if load 4 h m =? BLK_T_IN then (r_disk d, mem_write m a (sectors_at (r_disk d) lba (n / 512)))
        else (disk_write (r_disk d) lba (mem_read m a (Z.to_nat n)), m) in
      (idle disk, store 2 (r_used d + 2) idx (store 1 sa 0 m1))
  | _ => (idle (r_disk d), m)
  end.

#[export] Instance rdev_device : VirtioDev rdev := {| vread := r_read; vwrite := r_write; vstep := r_step |}.

(** ** Forty requests *)

(** The driver and the device agree on the queue, and [n] requests have been
    made. *)
Record wired (n : Z) (s : bst rdev) : Prop := {
  w_queue : queue_ok (vblk s); w_qnum : qnum (vblk s) = 120; w_ready : ready (vblk s) = true; w_base : base (vblk s) = SLOT0;
  w_count : next_desc (vblk s) = 3 * n /\ next_slot (vblk s) = n /\ pub_idx (vblk s) = n;
  w_dev : r_qnum (bdev s) = 120 /\ r_desc (bdev s) = desc (vblk s) /\ r_avail (bdev s) = avail (vblk s) /\
          r_used (bdev s) = used (vblk s);
  w_used : load 2 (used (vblk s) + 2) (bmem s) = n;
  w_disk : forall i, length (r_disk (bdev s) i) = 512%nat }.

Lemma heads_120 n : 0 <= n < 40 -> heads_ok 120 (3 * n).
Proof.
  intros Hn. assert (G : forallb (fun k => let h := 3 * k in let i := Z.land (h + 1) 119 in let j := Z.land (h + 2) 119 in
    (0 <=? h) && (h <? 120) && (0 <=? i) && (i <? 120) && (0 <=? j) && (j <? 120) &&
    negb (h =? i) && negb (h =? j) && negb (i =? j)) (seqZ 0 40) = true) by (vm_compute; reflexivity).
  rewrite forallb_forall in G. specialize (G n). cbv zeta in G.
  assert (Hin : In n (seqZ 0 40)) by (apply list_elem_of_In, elem_of_seqZ; lia). specialize (G Hin). unfold heads_ok.
  change (120 - 1) with 119. bool_hyps. repeat match goal with H : negb _ = true |- _ => apply negb_true_iff in H end. bool_hyps.
  cbv zeta. lia.
Qed.

Lemma sectors_at_length disk lba n : (forall i, length (disk i) = 512%nat) -> 0 <= n ->
  Z.of_nat (length (sectors_at disk lba n)) = 512 * n.
Proof.
  intros Hd Hn. unfold sectors_at. assert (G : forall l, length (concat (map disk l)) = (512 * length l)%nat).
  { induction l as [|x l IH]; [done|]. cbn [map concat length]. rewrite length_app, IH, Hd. lia. }
  rewrite G, length_seqZ. lia.
Qed.

Section Serve.
Context (n : Z) (s : bst rdev) (Hw : wired n s) (Hn : 0 <= n < 40).
Context (type lba buf cnt : Z) (Ht : 0 <= type < 2 ^ 32) (Hl : 0 <= lba < 2 ^ 32) (Hc : 0 < cnt < 2 ^ 23).
Context (Hb : 0 <= buf /\ buf + 512 * cnt < 2 ^ 63) (Ha : apart buf (512 * cnt) (desc (vblk s)) (st (vblk s) + 1 - desc (vblk s))).
Local Notation v := (vblk s).
Let m1 := published_mem v type lba buf (512 * cnt) (bmem s).
Let data := sectors_at (r_disk (bdev s)) lba cnt.

Lemma wired_ok : blk_ok v.
Proof.
  destruct Hw as [Hq Eq Er Eb (E1 & E2 & E3) _ _ _]. split; [done|rewrite Eq, E1; by apply heads_120|lia|done].
Qed.

Definition served : rdev * mem :=
  let d := bdev s in
  let '(disk, m2) := if type =? BLK_T_IN then (r_disk d, mem_write m1 buf data)
                     else (disk_write (r_disk d) lba (mem_read m1 buf (Z.to_nat (512 * cnt))), m1) in
  (mk_rdev (r_status d) 120 (desc v) (avail v) (used v) false disk, store 2 (used v + 2) (n + 1) (store 1 (st v) 0 m2)).

Lemma step_serves : vstep (vwrite (base v + V_QNOTIFY) 0 (bdev s)) m1 = served.
Proof.
  destruct wired_ok as [Hq Hh Hs _]. destruct Hw as [_ Eq Er Eb (E1 & E2 & E3) (D1 & D2 & D3 & D4) Eu Ed].
  destruct (published_cells v Hq Hh Hs type lba buf (512 * cnt) (bmem s) Ht Hl) as (C1 & C2 & C3 & C4 & _ & _).
  pose proof (published_chain v Hq Hh Hs type lba buf (512 * cnt) (bmem s) ltac:(lia) ltac:(lia)) as Cc.
  fold m1 in C1, C2, C3, C4, Cc. rewrite E3, u16_small in C1 by lia. rewrite E2 in C2.
  unfold vstep, rdev_device. rewrite Eb. change (vwrite (SLOT0 + V_QNOTIFY) 0 (bdev s)) with
    (mk_rdev (r_status (bdev s)) (r_qnum (bdev s)) (r_desc (bdev s)) (r_avail (bdev s)) (r_used (bdev s)) true (r_disk (bdev s))).
  unfold r_step. cbn [r_pending negb r_avail r_desc r_qnum r_used r_status r_disk]. rewrite D1, D2, D3, D4, C1.
  replace ((n + 1 - 1) mod 120) with n by zlia. rewrite C2. rewrite Eq in Cc. rewrite Cc, C3, C4.
  replace (512 * cnt / 512) with cnt by zlia. unfold served. fold data. by case_match.
Qed.

Lemma served_used : load 2 (used v + 2) served.2 = n + 1.
Proof.
  unfold served. destruct (type =? BLK_T_IN); cbn [snd]; apply load_same; change (256 ^ Z.of_nat 2) with (2 ^ 16); lia.
Qed.
Lemma served_status : load 1 (st v) served.2 = 0.
Proof.
  destruct wired_ok as [[Q1 Q2 Q3 Q4 Q5] _ _ _].
  unfold served. destruct (type =? BLK_T_IN); cbn [snd]; (rewrite load_other by (unfold apart; lia)); by apply load_same.
Qed.

Definition final : bst rdev := set_bmem served.2 (set_bdev served.1 (set_vblk (advanced v) s)).

Lemma vsteps_1 (s' : bst rdev) : vsteps 1 (bdev s', bmem s') = vstep (bdev s') (bmem s').
Proof. cbn [vsteps fst snd]. by destruct (vstep _ _). Qed.

Lemma after_serves : after 1 (notified s type lba buf (512 * cnt)) = final.
Proof.
  unfold after. rewrite vsteps_1. unfold notified. cbn [bdev bmem set_bmem set_bdev set_vblk]. fold m1. by rewrite step_serves.
Qed.

Lemma used_serves : used_idx 1 (notified s type lba buf (512 * cnt)) = n + 1.
Proof.
  unfold used_idx. rewrite vsteps_1. unfold notified. cbn [bdev bmem set_bmem set_bdev set_vblk vblk]. fold m1.
  rewrite step_serves. apply served_used.
Qed.

Lemma submit_serves : submit type lba buf (512 * cnt) s = Ok (0, final, []).
Proof.
  pose proof wired_ok as Hok. destruct Hok as [Hq Hh Hs Hr].
  unfold submit. rewrite bind_get. rewrite Hr, (proj2 (Z.eqb_neq (512 * cnt) 0)) by lia. cbn [negb orb].
  rewrite (bind_ok _ _ _ _ _ (publish_run type lba buf (512 * cnt) s Hq Hh Hs ltac:(lia) ltac:(lia))).
  fold (notified s type lba buf (512 * cnt)).
  rewrite (await_done 0 _ (notified s type lba buf (512 * cnt))); [|vm_compute; discriminate|lia|].
  - rewrite after_serves. replace (bmem final) with served.2 by reflexivity.
    change (st (vblk (notified s type lba buf (512 * cnt)))) with (st v). by rewrite served_status.
  - rewrite used_serves. destruct Hw as [_ _ _ _ _ _ -> _]. lia.
Qed.

Lemma final_wired : wired (n + 1) final.
Proof.
  destruct wired_ok as [Hq Hh Hs Hr]. destruct Hw as [_ Eq Er Eb (E1 & E2 & E3) (D1 & D2 & D3 & D4) Eu Ed].
  split; cbn [final vblk bdev bmem set_bmem set_bdev set_vblk].
  - destruct Hq as [Q1 Q2 Q3 Q4 Q5]. by split.
  - done.
  - done.
  - done.
  - unfold advanced. cbn [next_desc next_slot pub_idx]. rewrite E1, E2, E3, Eq. rewrite !u16_small by zlia. split; [lia|]. split; zlia.
  - unfold served. by case_match.
  - apply served_used.
  - intros i. unfold served. destruct (type =? BLK_T_IN); cbn [fst r_disk]; [done|].
    unfold disk_write. rewrite mem_read_length. case_match; [|done]. bool_hyps.
    rewrite length_take, length_drop, mem_read_length. zlia.
Qed.

(** Memory outside the queue: as before, but for the buffer of a read. *)
Lemma served_mem x : ~ (desc v <= x < st v + 1) ->
  served.2 x = if (type =? BLK_T_IN) && (buf <=? x) && (x <? buf + 512 * cnt) then nth (Z.to_nat (x - buf)) data 0 else bmem s x.
Proof.
  intros Hx. destruct wired_ok as [Hq Hh Hs _]. pose proof Hq as [Q1 Q2 Q3 Q4 Q5].
  destruct (published_cells v Hq Hh Hs type lba buf (512 * cnt) (bmem s) Ht Hl) as (_ & _ & _ & _ & _ & C6).
  assert (Ld : Z.of_nat (length data) = 512 * cnt) by (apply sectors_at_length; [by destruct Hw|lia]).
  unfold served. destruct (type =? BLK_T_IN); cbn [snd andb]; rewrite !store_out by lia; [|by apply C6].
  unfold mem_write. rewrite Ld. case_match; [done|]. by apply C6.
Qed.
End Serve.


(** Then the descriptors run out: the head of the forty-first request is not
    taken modulo the queue size, so it names no descriptor, whatever memory
    holds, and what is stored for it lands on the available ring. *)
Theorem descriptors_run_out s (Hw : wired 40 s) (Ha : avail (vblk s) = desc (vblk s) + 16 * qnum (vblk s)) m k :
  chain (desc (vblk s)) (qnum (vblk s)) (next_desc (vblk s)) m k = None /\
  desc (vblk s) + 16 * next_desc (vblk s) = avail (vblk s).
Proof.
  destruct Hw as [_ Eq _ _ (E1 & _ & _) _ _ _]. rewrite Ha, E1, Eq. split; [|lia]. by destruct k.
Qed.

(** On the legacy transport the device takes the used ring to begin at the page
    boundary after the available ring (virtio 1.2, 2.7.2 with QueueAlign 4096);
    the driver looks 1920 bytes further, and keeps its request header there. *)
Theorem legacy_used_misplaced qpages : 0 <= qpages < 2 ^ 48 -> qpages mod 4096 = 0 ->
  legacy_used qpages 120 = qpages + 6016 /\ (qpages + 16 * 120 + 6 + 2 * 120 + 4095) / 4096 * 4096 = qpages + 4096.
Proof.
  intros Hp Ha. unfold legacy_used. change (Z.land (6 + 2 * 120 + 0xFFF) (u64 (Z.lnot 0xFFF))) with 4096.
  rewrite u64_small by lia. split; [lia|zlia].
Qed.

(** *** Instances *)

Definition demo_rdev : rdev := mk_rdev 0 0 0 0 0 false (fun _ => []).

Definition demo_frames : pmm := mk_pmm (replicate 8 0) 64 64.
Definition demo_bst : bst rdev := mk_bst demo_rdev (fun _ => 0) (mk_vblk 0 0 0 0 0 0 0 false 0 0 0 0) false demo_frames.

(** A driver wired to the device, at 0x40000000. *)
Definition demo_wired : bst rdev :=
  mk_bst (mk_rdev 15 120 0x40000000 0x40000780 0x40000878 false (fun i => replicate 512 (i mod 256))) (fun _ => 0)
    (mk_vblk SLOT0 120 0x40000000 0x40000780 0x40000878 0x40001000 0x40001010 true 32768 0 0 0) true demo_frames.
Lemma demo_wired_ok : wired 0 demo_wired.
Proof.
  split; [split; vm_compute; (done || split; congruence)|done..|done|done|vm_compute; reflexivity|].
  intros i. apply length_replicate.
Qed.


Lemma submit_request_witness :
  (exists r s', submit BLK_T_IN 5 0x41000000 512 demo_wired = Ok (r, s', [])) /\
  load 8 0x40001008 (bmem (notified demo_wired BLK_T_IN 5 0x41000000 512)) = 5.
Proof.
  destruct (submit_request demo_wired BLK_T_IN 5 0x41000000 512 0) as [(_ & _ & _ & _ & El & _) E].
  - exact (wired_ok 0 demo_wired demo_wired_ok ltac:(lia)).
  - split; [discriminate|reflexivity].
  - lia.
  - lia.
  - lia.
  - discriminate.
  - intros i Hi. exfalso. lia.
  - assert (U : used_idx 1 (notified demo_wired BLK_T_IN 5 0x41000000 (512 * 1)) = 0 + 1)
      by (apply used_serves; (exact demo_wired_ok || discriminate || lia || done)).
    change (512 * 1) with 512 in U. rewrite U. intros E. change (0 + 1) with 1 in E. change (load 2 (used (vblk demo_wired) + 2) (bmem demo_wired)) with 0 in E. lia.
  - cbv zeta in E, El. split; [rewrite E; by do 2 eexists|exact El].
Defined.

Lemma vblk_init_layout_witness : wp vblk_init (fun r s' _ => r = 1 /\ qnum (vblk s') = 120 /\ capacity (vblk s') = 32768) demo_bst.
Proof.
  eapply wp_mono; [apply (vblk_init_layout SLOT0 1024 64 0) with (qpages := 0x40000000)
    (p' := match pmm_alloc_pages 2 demo_frames with Ok (_, p, _) => p | _ => demo_frames end)|].
  - reflexivity.
  - reflexivity.
  - intros d. split; reflexivity.
  - vm_compute. reflexivity.
  - discriminate.
  - lia.
  - vm_compute. reflexivity.
  - lia.
  - reflexivity.
  - intros r s' o (-> & _ & _ & _ & Eq & _ & _ & Ec & _). split; [reflexivity|]. rewrite Eq, Ec. split; reflexivity.
Defined.
