(* ===== verification/Vnet.v ===== *)
(** * The virtio network driver (boot/aarch64/vnet.c)

    The driver as the aarch64 Makefile builds it (VNET_SINGLE_DESC_TEST: a frame
    is one descriptor).  Byte memory holds the rings, the descriptor arrays
    [vn.rx.desc] and [vn.tx.desc] at the addresses [tab], and [vn.rxbuf]; the
    remaining variables are the record [vnet].  The device goes on at the end of
    every [kick], and before every read of a used index.  An access through the
    null pointer that a failed [vq_setup] leaves behind is undefined. *)

From S2P Require Import Prelude Uart Pmm Heap Vring.

Definition V_MAGIC : Z := 0x000.
Definition V_VERSION : Z := 0x004.
Definition V_DEVID : Z := 0x008.
Definition V_DRVFEAT : Z := 0x020.
Definition V_DRVFEATSEL : Z := 0x024.
Definition V_QPFNSEL : Z := 0x030.
Definition V_QNUMMAX : Z := 0x034.
Definition V_QNUM : Z := 0x038.
Definition V_STATUS : Z := 0x070.
Definition V_QREADY : Z := 0x044.
Definition V_QDESCLO : Z := 0x080.
Definition V_QDESCHI : Z := 0x084.
Definition V_QAVAILLO : Z := 0x090.
Definition V_QAVAILHI : Z := 0x094.
Definition V_QUSEDLO : Z := 0x0A0.
Definition V_QUSEDHI : Z := 0x0A4.
Definition V_CFG : Z := 0x100.
Definition V_GUESTPAGESZ : Z := 0x028.
Definition V_QALIGN : Z := 0x02C.
Definition V_QPFN : Z := 0x040.
Definition QUEUE_NOTIFY : Z := 0x050.
Definition S_ACK : Z := 1.
Definition S_DRIVER : Z := 2.
Definition S_DRIVER_OK : Z := 4.
Definition S_FEATURES_OK : Z := 8.
Definition VNET_DEVID : Z := 1.
Definition V_SLOT_BASE : Z := 0x0A000000.
Definition V_SLOT_STEP : Z := 0x200.
Definition V_SLOTS : Z := 32.
Definition VNET_MAGIC : Z := 0x74726976.
Definition QN : Z := 32.
Definition VNET_ETH_MTU : Z := 1500.
Definition VNET_MAC_LEN : Z := 6.

(** The driver reads the device's configuration space byte by byte. *)
Class VirtioCfg (Dv : Type) := { vread8 : Z -> Dv -> Z }.

Record vq := mk_vq { tab : Z; avail : Z; used : Z; next_desc : Z; pub_idx : Z; last_used : Z }.
Record vnet := mk_vnet { base : Z; ready : bool; mac : list Z; rx : vq; tx : vq; rxbuf : Z }.

(** Which of the two queues. *)
Inductive qsel := RX | TX.
Definition queue (w : qsel) (v : vnet) : vq := match w with RX => rx v | TX => tx v end.
Definition set_queue (w : qsel) (q : vq) (v : vnet) : vnet :=
  match w with
  | RX => mk_vnet (base v) (ready v) (mac v) q (tx v) (rxbuf v)
  | TX => mk_vnet (base v) (ready v) (mac v) (rx v) q (rxbuf v)
  end.

(** The device, memory, the driver's variables and the page allocator. *)
Record nst {Dv : Type} := mk_nst { ndev : Dv; nmem : mem; vn : vnet; legacy : bool; nframes : pmm }.
Arguments nst Dv : clear implicits.
Arguments mk_nst {Dv}.

Section Driver.
Context {Dv : Type} `{!VirtioDev Dv, !VirtioCfg Dv}.
Implicit Types s : nst Dv.

Definition set_ndev d s : nst Dv := mk_nst d (nmem s) (vn s) (legacy s) (nframes s).
Definition set_nmem m s : nst Dv := mk_nst (ndev s) m (vn s) (legacy s) (nframes s).
Definition set_vn v s : nst Dv := mk_nst (ndev s) (nmem s) v (legacy s) (nframes s).
Definition set_legacy b s : nst Dv := mk_nst (ndev s) (nmem s) (vn s) b (nframes s).
Definition in_nframes {A} (m : M pmm A) : M (nst Dv) A :=
  zoom nframes (fun p s => mk_nst (ndev s) (nmem s) (vn s) (legacy s) p) m.
Definition upd_vn (f : vnet -> vnet) : M (nst Dv) unit := modify (fun s => set_vn (f (vn s)) s).
Definition upd_q (w : qsel) (f : vq -> vq) : M (nst Dv) unit := upd_vn (fun v => set_queue w (f (queue w v)) v).

(** ** Registers and memory *)

Definition rd32 (b o : Z) : M (nst Dv) Z := let* s := get in ret (u32 (vread (b + o) (ndev s))).
Definition wr32 (b o v : Z) : M (nst Dv) unit := modify (fun s => set_ndev (vwrite (b + o) (u32 v) (ndev s)) s).

(** A field at offset [o] behind a pointer. *)
Definition ld (n : nat) (p o : Z) : M (nst Dv) Z :=
  if p =? 0 then ub else let* s := get in ret (load n (p + o) (nmem s)).
Definition sto (n : nat) (p o v : Z) : M (nst Dv) unit :=
  if p =? 0 then ub else modify (fun s => set_nmem (store n (p + o) v (nmem s)) s).

(** The device runs for a while. *)
Definition step_dev s : nst Dv := let '(d, m) := vstep (ndev s) (nmem s) in set_nmem m (set_ndev d s).

(** ** Queues *)

Fixpoint wr_desc_loop (d addr len flags next : Z) (tries : nat) : M (nst Dv) unit :=
  match tries with
  | O => puts "[net] WARN: descriptor unstable"
  | S tries' =>
      modify (fun s => set_nmem (put_desc d addr len flags next (nmem s)) s) ;;;
      let* s := get in
      if desc_is d addr len flags next (nmem s) then ret tt else wr_desc_loop d addr len flags next tries'
  end.
Definition wr_desc (w : qsel) (i addr len flags next : Z) : M (nst Dv) unit :=
  let* s := get in wr_desc_loop (tab (queue w (vn s)) + 16 * i) (u64 addr) (u32 len) (u16 flags) (u16 next) 4.

Definition vq_setup (w : qsel) (sel : Z) : M (nst Dv) unit :=
  let* s := get in
  let b := base (vn s) in
  wr32 b V_QPFNSEL sel ;;;
  let* maxq := rd32 b V_QNUMMAX in
  let maxq := if (maxq =? 0) || (QN <? maxq) then (if QN <? maxq then QN else maxq) else maxq in
  if maxq <? 8 then puts "[net] queue too small" else
  wr32 b V_QNUM maxq ;;;
  let* region := in_nframes (pmm_alloc_pages 2) in
  if region =? 0 then ret tt else
  modify (fun s => set_nmem (memset (nmem s) region 0 (2 * PAGE_SIZE)) s) ;;;
  let a := u64 (region + 16 * QN) in
  let u := Z.land (u64 (region + 16 * QN + 132 + 3)) (u64 (Z.lnot 3)) in
  upd_q w (fun q => mk_vq (tab q) a u (next_desc q) (pub_idx q) (last_used q)) ;;;
  let* ver := rd32 b V_VERSION in
  if ver =? 1 then
    wr32 b V_QPFN (Z.shiftr region 12) ;;;
    upd_q w (fun q => mk_vq (tab q) (avail q) (u64 (region + PAGE_SIZE)) (next_desc q) (pub_idx q) (last_used q))
  else
    wr32 b V_QDESCLO region ;;; wr32 b V_QDESCHI 0 ;;;
    wr32 b V_QAVAILLO a ;;; wr32 b V_QAVAILHI 0 ;;;
    wr32 b V_QUSEDLO u ;;; wr32 b V_QUSEDHI 0 ;;;
    wr32 b V_QREADY 1.

Definition kick (sel : Z) : M (nst Dv) unit :=
  let* s := get in wr32 (base (vn s)) QUEUE_NOTIFY sel ;;; modify step_dev.

(** One more entry on the available ring: descriptor [d]. *)
Definition offer (w : qsel) (d : Z) : M (nst Dv) unit :=
  let* s := get in
  let a := avail (queue w (vn s)) in
  let* i := ld 2 a 2 in
  sto 2 a (4 + 2 * Z.land i (QN - 1)) (u16 d) ;;;
  upd_q w (fun q => mk_vq (tab q) (avail q) (used q) (next_desc q) (u16 (pub_idx q + 1)) (last_used q)) ;;;
  let* s := get in sto 2 a 2 (pub_idx (queue w (vn s))).

(** Hand receive buffer [k] to the device (lines 258 to 265 and 369 to 375). *)
Definition post_rx (k : Z) : M (nst Dv) unit :=
  let* s := get in
  let d := Z.land (next_desc (rx (vn s))) (QN - 1) in
  upd_q RX (fun q => mk_vq (tab q) (avail q) (used q) (u16 (next_desc q + 1)) (pub_idx q) (last_used q)) ;;;
  wr_desc RX d (rxbuf (vn s) + 2048 * k) 2048 2 0 ;;;
  offer RX d.
Fixpoint post_all (i : Z) (n : nat) : M (nst Dv) unit :=
  match n with O => ret tt | S n' => post_rx i ;;; post_all (i + 1) n' end.

(** ** Bringing the device up *)

Fixpoint probe_loop (i : Z) (n : nat) : M (nst Dv) Z :=
  match n with
  | O => ret 0
  | S n' =>
      let cand := V_SLOT_BASE + i * V_SLOT_STEP in
      let* m := rd32 cand V_MAGIC in
      if negb (m =? VNET_MAGIC) then probe_loop (i + 1) n' else
      let* ver := rd32 cand V_VERSION in
      if negb (ver =? 1) && negb (ver =? 2) then probe_loop (i + 1) n' else
      let* id := rd32 cand V_DEVID in
      if id =? VNET_DEVID then ret cand else probe_loop (i + 1) n'
  end.

Definition hx (d : Z) : Z := nth (Z.to_nat d) (bytes "0123456789abcdef") 0.
Definition mac_text (m : list Z) : list Z :=
  concat (imap (fun k b => (if (k =? 0)%nat then [] else bytes ":") ++ [hx (Z.shiftr b 4); hx (Z.land b 15)]) m).

(** Lines 212 to 236: reset and features; [false] when the device refuses. *)
Definition negotiate (b : Z) : M (nst Dv) bool :=
  let* ver := rd32 b V_VERSION in
  modify (set_legacy (ver =? 1)) ;;;
  wr32 b V_STATUS 0 ;;;
  wr32 b V_STATUS (Z.lor S_ACK S_DRIVER) ;;;
  let* s := get in
  (if legacy s then wr32 b V_GUESTPAGESZ PAGE_SIZE ;;; wr32 b V_QALIGN PAGE_SIZE
   else wr32 b V_DRVFEATSEL 1 ;;; wr32 b V_DRVFEAT 1) ;;;
  wr32 b V_STATUS (Z.lor (Z.lor S_ACK S_DRIVER) S_FEATURES_OK) ;;;
  let* st := rd32 b V_STATUS in
  if Z.land st S_FEATURES_OK =? 0 then
    puts_nolf "[net] FEATURES_OK refused, status=0x" ;;; put_hex st ;;; puts "" ;;; ret false
  else ret true.

(** [memset(&vn.rx, 0, sizeof vn.rx)]: the descriptor array and the fields. *)
Definition clear_q (w : qsel) : M (nst Dv) unit :=
  modify (fun s => set_nmem (memset (nmem s) (tab (queue w (vn s))) 0 (16 * QN)) s) ;;;
  upd_q w (fun q => mk_vq (tab q) 0 0 0 0 0).

Definition vnet_init : M (nst Dv) Z :=
  let* b := probe_loop 0 (Z.to_nat V_SLOTS) in
  if b =? 0 then puts "[net] no virtio-net device found" ;;; ret 0 else
  let* ok := negotiate b in
  if negb ok then ret 0 else
  upd_vn (fun v => mk_vnet b (ready v) (mac v) (rx v) (tx v) (rxbuf v)) ;;;
  clear_q RX ;;; clear_q TX ;;;
  vq_setup TX 1 ;;; vq_setup RX 0 ;;;
  let* s := get in
  let m := map (fun i => u8 (vread8 (b + V_CFG + Z.of_nat i) (ndev s))) (seq 0 (Z.to_nat VNET_MAC_LEN)) in
  upd_vn (fun v => mk_vnet (base v) (ready v) m (rx v) (tx v) (rxbuf v)) ;;;
  wr32 b V_STATUS (Z.lor (Z.lor (Z.lor S_ACK S_DRIVER) S_FEATURES_OK) S_DRIVER_OK) ;;;
  upd_vn (fun v => mk_vnet (base v) true (mac v) (rx v) (tx v) (rxbuf v)) ;;;
  post_all 0 8 ;;;
  kick 0 ;;;
  puts_nolf "[net] virtio-net ready @ 0x" ;;; put_hex b ;;;
  puts_nolf " mac=" ;;; puts_bytes (mac_text m) ;;;
  ret 1.

Definition vnet_get_mac : M (nst Dv) (list Z) := let* s := get in ret (mac (vn s)).

(** ** Frames *)

(** The first loop after the notification: at most 5,000,000 reads. *)
Fixpoint spin (n : nat) : M (nst Dv) unit :=
  match n with
  | O => ret tt
  | S n' =>
      modify step_dev ;;;
      let* s := get in
      let* i := ld 2 (used (tx (vn s))) 2 in
      if i =? last_used (tx (vn s)) then spin n' else ret tt
  end.
Definition TX_SPINS : Z := 5000000.

(** The second: [last_used] catches up with the used index. *)
Fixpoint reclaim (n : nat) : M (nst Dv) unit :=
  match n with
  | O => fun _ => NoFuel
  | S n' =>
      modify step_dev ;;;
      let* s := get in
      let* i := ld 2 (used (tx (vn s))) 2 in
      if last_used (tx (vn s)) =? i then ret tt else
      upd_q TX (fun q => mk_vq (tab q) (avail q) (used q) (next_desc q) (pub_idx q) (u16 (last_used q + 1))) ;;;
      reclaim n'
  end.

(** [vnet_send] up to the notification. *)
Definition publish_tx (pkt len : Z) : M (nst Dv) unit :=
  let* s := get in
  let q := tx (vn s) in
  let d0 := Z.land (next_desc q) (QN - 1) in
  upd_q TX (fun q => mk_vq (tab q) (avail q) (used q) (u16 (next_desc q + 2)) (pub_idx q) (last_used q)) ;;;
  wr_desc TX d0 pkt len 0 0 ;;;
  offer TX d0 ;;;
  let* a := ld 8 (tab q) (16 * d0) in
  let* s := get in
  let* ai := ld 2 (avail (tx (vn s))) 2 in
  if (a =? 0) || negb (ai =? pub_idx (tx (vn s))) then puts "[net] WARN: tx publish unstable" else ret tt.

Definition vnet_send (pkt len : Z) : M (nst Dv) Z :=
  let* s := get in
  if negb (ready (vn s)) || (pkt =? 0) || (len =? 0) || (VNET_ETH_MTU <? len) then ret (-1) else
  publish_tx pkt len ;;;
  kick 1 ;;;
  spin (Z.to_nat TX_SPINS) ;;;
  reclaim (Z.to_nat (2 ^ 16)) ;;;
  ret 0.

(** The loop of [vnet_recv]; it goes on after a frame of no bytes. *)
Fixpoint recv_loop (buf cap : Z) (n : nat) : M (nst Dv) Z :=
  match n with
  | O => fun _ => NoFuel
  | S n' =>
      let* s := get in
      let q := rx (vn s) in
      let* i := ld 2 (used q) 2 in
      if last_used q =? i then ret 0 else
      let e := last_used q mod 64 in
      let* id := ld 4 (used q) (4 + 8 * e) in
      let* len := ld 4 (used q) (8 + 8 * e) in
      let len := u32 (len - 12) in
      let len := if cap <? len then cap else len in
      if 2048 <? len then ub else
      let src := rxbuf (vn s) + 2048 * (id mod 8) in
      modify (fun s => set_nmem (mem_write (nmem s) buf (mem_read (nmem s) src (Z.to_nat len))) s) ;;;
      post_rx (id mod 8) ;;;
      upd_q RX (fun q => mk_vq (tab q) (avail q) (used q) (next_desc q) (pub_idx q) (u16 (last_used q + 1))) ;;;
      kick 0 ;;;
      if len =? 0 then recv_loop buf cap n' else ret len
  end.
Definition vnet_recv (buf cap : Z) : M (nst Dv) Z :=
  let* s := get in
  if negb (ready (vn s)) then ret 0 else
  modify step_dev ;;; recv_loop buf cap (Z.to_nat (2 ^ 16)).

Definition vnet_dbg : M (nst Dv) (Z * Z) :=
  let* s := get in ret (last_used (rx (vn s)), last_used (tx (vn s))).
End Driver.

(** ** Running the driver *)

Section Run.
Context {Dv : Type} `{!VirtioDev Dv, !VirtioCfg Dv}.
Implicit Types s : nst Dv.

(** The first try sticks in memory. *)
Lemma vn_wr_desc_run w i addr len flags next s :
  wr_desc w i addr len flags next s =
  Ok (tt, set_nmem (put_desc (tab (queue w (vn s)) + 16 * i) (u64 addr) (u32 len) (u16 flags) (u16 next) (nmem s)) s, []).
Proof.
  unfold wr_desc. rewrite bind_get. cbn [wr_desc_loop]. rewrite bind_modify, bind_get. cbn [nmem set_nmem].
  rewrite desc_is_put; [done|apply u64_range|apply u32_range|apply u16_range|apply u16_range].
Qed.

Lemma vn_bind_wr_desc {B} w i addr len flags next (k : unit -> M (nst Dv) B) s :
  bind (wr_desc w i addr len flags next) k s =
  k tt (set_nmem (put_desc (tab (queue w (vn s)) + 16 * i) (u64 addr) (u32 len) (u16 flags) (u16 next) (nmem s)) s).
Proof. apply bind_ok, vn_wr_desc_run. Qed.
Lemma vn_bind_ld {B} n p o (k : Z -> M (nst Dv) B) s : p <> 0 -> bind (ld n p o) k s = k (load n (p + o) (nmem s)) s.
Proof. intros Hp. apply bind_ok. unfold ld. by rewrite (proj2 (Z.eqb_neq _ _)). Qed.
Lemma sto_run n p o x s : p <> 0 -> sto n p o x s = Ok (tt, set_nmem (store n (p + o) x (nmem s)) s, []).
Proof. intros Hp. unfold sto. by rewrite (proj2 (Z.eqb_neq _ _)). Qed.
Lemma vn_bind_sto {B} n p o x (k : unit -> M (nst Dv) B) s :
  p <> 0 -> bind (sto n p o x) k s = k tt (set_nmem (store n (p + o) x (nmem s)) s).
Proof. intros Hp. by apply bind_ok, sto_run. Qed.
Lemma bind_upd_q {B} w f (k : unit -> M (nst Dv) B) s :
  bind (upd_q w f) k s = k tt (set_vn (set_queue w (f (queue w (vn s))) (vn s)) s).
Proof. by apply bind_ok. Qed.

(** What [offer] leaves. *)
Definition set_pub (p : Z) (q : vq) : vq := mk_vq (tab q) (avail q) (used q) (next_desc q) p (last_used q).
Definition set_next (d : Z) (q : vq) : vq := mk_vq (tab q) (avail q) (used q) d (pub_idx q) (last_used q).
Definition set_last (u : Z) (q : vq) : vq := mk_vq (tab q) (avail q) (used q) (next_desc q) (pub_idx q) u.
Definition on_q (w : qsel) (f : vq -> vq) s : nst Dv := set_vn (set_queue w (f (queue w (vn s))) (vn s)) s.

Definition ring_slot (q : vq) (m : mem) : Z := avail q + (4 + 2 * Z.land (load 2 (avail q + 2) m) (QN - 1)).
Definition offered_mem (q : vq) (d : Z) (m : mem) : mem :=
  store 2 (avail q + 2) (u16 (pub_idx q + 1)) (store 2 (ring_slot q m) (u16 d) m).

Lemma offer_run w d s : avail (queue w (vn s)) <> 0 ->
  offer w d s = Ok (tt, set_nmem (offered_mem (queue w (vn s)) d (nmem s))
                          (on_q w (set_pub (u16 (pub_idx (queue w (vn s)) + 1))) s), []).
Proof.
  intros Ha. unfold offer. rewrite bind_get, vn_bind_ld, vn_bind_sto, bind_upd_q, bind_get, sto_run by done. by destruct w.
Qed.

(** A queue that has been set up: its parts lie apart. *)
Record q_ok (q : vq) : Prop := {
  o_tab : 0 < tab q; o_avail : 0 < avail q; o_used : 0 < used q; o_apart : apart (tab q) 512 (avail q) 68 }.

Lemma masked x : Z.land x (QN - 1) = x mod 32.
Proof. exact (land_low x 5 ltac:(lia)). Qed.
Lemma masked_range x : 0 <= x mod 32 < 32.
Proof. apply Z.mod_pos_bound. lia. Qed.

(** What the ring and a descriptor array hold after [offer]. *)
Lemma offered_cells q d m : q_ok q ->
  load 2 (avail q + 2) (offered_mem q d m) = u16 (pub_idx q + 1) /\
  load 2 (ring_slot q m) (offered_mem q d m) = u16 d /\
  (forall x, ~ (avail q <= x < avail q + 68) -> offered_mem q d m x = m x).
Proof.
  intros [_ Ha _ _]. pose proof (masked_range (load 2 (avail q + 2) m)). unfold offered_mem.
  assert (Hs : ring_slot q m = avail q + (4 + 2 * (load 2 (avail q + 2) m mod 32))) by (unfold ring_slot; by rewrite masked).
  split_and!.
  - apply load_same, u16_range.
  - rewrite load_other by (unfold apart; lia). apply load_same, u16_range.
  - intros x Hx. by rewrite !store_out by lia.
Qed.

Lemma offered_desc q d m i : q_ok q -> 0 <= i < 32 -> desc_at (tab q + 16 * i) (offered_mem q d m) = desc_at (tab q + 16 * i) m.
Proof.
  intros Hq Hi. apply desc_at_ext. intros x Hx. apply (offered_cells q d m Hq). destruct Hq as [_ _ _ Hap]. unfold apart in Hap. lia.
Qed.

(** Memory with a buffer described under the next descriptor and offered, and
    what a reader finds in it. *)
Definition posted_mem (q : vq) (addr len flags : Z) (m : mem) : mem :=
  offered_mem q (next_desc q mod 32) (put_desc (tab q + 16 * (next_desc q mod 32)) addr len flags 0 m).

Lemma posted_cells q addr len flags m : q_ok q -> 0 <= addr < 2 ^ 64 -> 0 <= len < 2 ^ 32 -> 0 <= flags < 2 ^ 16 ->
  load 2 (avail q + 2) m = pub_idx q -> let m' := posted_mem q addr len flags m in
  load 2 (avail q + 2) m' = u16 (pub_idx q + 1) /\
  load 2 (avail q + 4 + 2 * (pub_idx q mod 32)) m' = next_desc q mod 32 /\
  desc_at (tab q + 16 * (next_desc q mod 32)) m' = (addr, len, flags, 0) /\
  (forall x, ~ (avail q <= x < avail q + 68) -> ~ (tab q <= x < tab q + 512) -> m' x = m x).
Proof.
  intros Hq Had Hl Hf Hi m'. pose proof Hq as [_ Ha _ Hap]. unfold apart in Hap.
  pose proof (masked_range (next_desc q)). pose proof (masked_range (pub_idx q)).
  set (m1 := put_desc (tab q + 16 * (next_desc q mod 32)) addr len flags 0 m).
  assert (E0 : load 2 (avail q + 2) m1 = pub_idx q).
  { transitivity (load 2 (avail q + 2) m); [|exact Hi]. unfold load. f_equal. apply mem_read_ext. intros x Hx.
    apply put_desc_out. lia. }
  destruct (offered_cells q (next_desc q mod 32) m1 Hq) as (C1 & C2 & C3).
  change m' with (offered_mem q (next_desc q mod 32) m1). split_and!.
  - exact C1.
  - replace (avail q + 4 + 2 * (pub_idx q mod 32)) with (ring_slot q m1) by (unfold ring_slot; rewrite masked, E0; lia).
    rewrite C2. apply u16_small. lia.
  - rewrite offered_desc by done. by apply desc_at_put.
  - intros x Hx Hx2. rewrite C3 by done. apply put_desc_out. lia.
Qed.

(** ** Sending *)

(** The state when a frame has been published, and when the device has been
    notified of it. *)
Definition published s (pkt len : Z) : nst Dv :=
  set_nmem (posted_mem (tx (vn s)) pkt len 0 (nmem s))
    (on_q TX (fun q => set_pub (u16 (pub_idx q + 1)) (set_next (u16 (next_desc q + 2)) q)) s).
Definition notified s (pkt len : Z) : nst Dv :=
  set_ndev (vwrite (base (vn s) + QUEUE_NOTIFY) 1 (ndev s)) (published s pkt len).

Lemma bind_kick {B} sel (k : unit -> M (nst Dv) B) s :
  bind (kick sel) k s = k tt (step_dev (set_ndev (vwrite (base (vn s) + QUEUE_NOTIFY) (u32 sel) (ndev s)) s)).
Proof. by apply bind_ok. Qed.

Lemma publish_tx_run pkt len s : q_ok (tx (vn s)) -> 0 < pkt < 2 ^ 64 -> 0 < len < 2 ^ 32 ->
  publish_tx pkt len s = Ok (tt, published s pkt len, []).
Proof.
  intros Hq Hp Hl. pose proof Hq as [Ht Ha _ _]. set (q := tx (vn s)) in *.
  unfold publish_tx. rewrite bind_get, bind_upd_q, vn_bind_wr_desc. cbn [vn set_vn set_nmem nmem queue set_queue tx tab next_desc].
  fold q. rewrite masked, (u64_small pkt), (u32_small len) by lia. change (u16 0) with 0.
  erewrite bind_ok; [|apply offer_run; cbn; fold q; lia]. cbn [vn set_vn set_nmem nmem queue set_queue tx].
  rewrite vn_bind_ld, bind_get, vn_bind_ld by (cbn; fold q; lia).
  cbn [vn set_vn set_nmem nmem queue set_queue tx on_q set_pub avail tab pub_idx set_next].
  fold q. set (m1 := put_desc _ pkt len 0 0 (nmem s)).
  change (offered_mem (mk_vq (tab q) (avail q) (used q) (u16 (next_desc q + 2)) (pub_idx q) (last_used q)) (next_desc q mod 32) m1)
    with (offered_mem q (next_desc q mod 32) m1).
  pose proof (offered_desc q (next_desc q mod 32) m1 (next_desc q mod 32) Hq (masked_range _)) as Ed.
  unfold m1 in Ed at 2. rewrite desc_at_put in Ed by (done || lia). unfold desc_at in Ed. injection Ed as Ed _ _ _.
  rewrite Ed, (proj1 (offered_cells q (next_desc q mod 32) m1 Hq)), Z.eqb_refl, (proj2 (Z.eqb_neq pkt 0)) by lia. reflexivity.
Qed.

(** The device after [k] steps, and the used index it shows then. *)
Definition after (k : nat) s : nst Dv := let x := vsteps k (ndev s, nmem s) in set_nmem x.2 (set_ndev x.1 s).
Definition used_at (k : nat) s : Z := load 2 (used (tx (vn s)) + 2) (vsteps k (ndev s, nmem s)).2.

Lemma vn_after_0 s : after 0 s = s.
Proof. by destruct s. Qed.
Lemma vn_after_S k s : after (S k) s = after k (step_dev s).
Proof. unfold after, step_dev. cbn [vsteps fst snd]. by destruct (vstep (ndev s) (nmem s)). Qed.
Lemma used_at_S k s : used_at (S k) s = used_at k (step_dev s).
Proof. unfold used_at, step_dev. cbn [vsteps fst snd]. by destruct (vstep (ndev s) (nmem s)). Qed.
Lemma step_dev_vn s : vn (step_dev s) = vn s.
Proof. unfold step_dev. by destruct (vstep (ndev s) (nmem s)). Qed.

Lemma on_q_last u s : last_used (tx (vn s)) = u -> on_q TX (set_last u) s = s.
Proof. intros <-. by destruct s as [? ? [? ? ? ? [] ?] ? ?]. Qed.

(** The first loop always ends. *)
Lemma spin_run n : forall s, used (tx (vn s)) <> 0 -> exists k, (k <= n)%nat /\ spin n s = Ok (tt, after k s, []).
Proof.
  induction n as [|n IH]; intros s Hu; [exists O; split; [lia|]; by rewrite vn_after_0|].
  cbn [spin]. rewrite bind_modify, bind_get, vn_bind_ld by (by rewrite step_dev_vn). case_match.
  - destruct (IH (step_dev s)) as (k & Hk & E); [by rewrite step_dev_vn|]. exists (S k). split; [lia|]. by rewrite vn_after_S.
  - exists 1%nat. split; [lia|]. by rewrite vn_after_S, vn_after_0.
Qed.

(** The second ends as soon as the used index rests. *)
Lemma reclaim_run u n : forall s, used (tx (vn s)) <> 0 -> 0 <= u < 2 ^ 16 -> 0 <= last_used (tx (vn s)) < 2 ^ 16 ->
  (u - last_used (tx (vn s))) mod 2 ^ 16 < Z.of_nat n -> (forall k, used_at (S k) s = u) ->
  exists k, reclaim n s = Ok (tt, on_q TX (set_last u) (after k s), []).
Proof.
  induction n as [|n IH]; intros s Hs Hu Hl Hn Hr; [pose proof (Z.mod_pos_bound (u - last_used (tx (vn s))) (2 ^ 16)); lia|].
  cbn [reclaim]. rewrite bind_modify, bind_get, vn_bind_ld by (by rewrite step_dev_vn).
  assert (E1 : load 2 (used (tx (vn (step_dev s))) + 2) (nmem (step_dev s)) = u).
  { rewrite <- (Hr O), used_at_S. reflexivity. }
  rewrite E1, step_dev_vn. case_match; bool_hyps.
  - exists 1%nat. rewrite vn_after_S, vn_after_0. by rewrite on_q_last by (by rewrite step_dev_vn).
  - rewrite bind_upd_q. edestruct (IH (on_q TX (fun q => set_last (u16 (last_used q + 1)) q) (step_dev s))) as [k E];
      [| | | |intros k; specialize (Hr (S k)); rewrite used_at_S in Hr; rewrite <- Hr; reflexivity|].
    + cbn. by rewrite step_dev_vn.
    + done.
    + cbn. apply u16_range.
    + cbn. rewrite step_dev_vn. unfold u16. zlia.
    + exists (S k). rewrite vn_after_S. exact E.
Qed.

Lemma after_add k : forall j s, after j (after k s) = after (k + j) s.
Proof. induction k as [|k IH]; intros j s; [by rewrite vn_after_0|]. cbn [Nat.add]. by rewrite !vn_after_S, IH. Qed.
Lemma used_at_add k : forall j s, used_at j (after k s) = used_at (k + j) s.
Proof. induction k as [|k IH]; intros j s; [by rewrite vn_after_0|]. cbn [Nat.add]. by rewrite vn_after_S, used_at_S, IH. Qed.
Lemma after_vn k s : vn (after k s) = vn s.
Proof. done. Qed.

Lemma vnet_send_run s pkt len u : ready (vn s) = true -> q_ok (tx (vn s)) -> 0 < pkt < 2 ^ 64 -> 0 < len <= VNET_ETH_MTU ->
  0 <= u < 2 ^ 16 -> 0 <= last_used (tx (vn s)) < 2 ^ 16 -> (forall k, used_at (S k) (notified s pkt len) = u) ->
  exists k, vnet_send pkt len s = Ok (0, on_q TX (set_last u) (after k (notified s pkt len)), []).
Proof.
  intros Hr Hq Hp Hl Hu Hlu Hrest. unfold VNET_ETH_MTU in Hl. unfold vnet_send. rewrite bind_get, Hr. pose proof Hq as [_ _ Hus _].
  rewrite (proj2 (Z.eqb_neq pkt 0)), (proj2 (Z.eqb_neq len 0)), (proj2 (Z.ltb_ge VNET_ETH_MTU len)) by (unfold VNET_ETH_MTU; lia).
  cbn [negb orb]. rewrite (bind_ok _ _ _ _ _ (publish_tx_run pkt len s Hq Hp ltac:(lia))), bind_kick.
  change (set_ndev _ (published s pkt len)) with (notified s pkt len).
  rewrite <- (vn_after_0 (step_dev _)), <- vn_after_S. set (s1 := notified s pkt len) in *.
  assert (E1 : used (tx (vn s1)) <> 0) by (cbn; lia).
  destruct (spin_run (Z.to_nat TX_SPINS) (after 1 s1)) as (k & _ & Es); [done|].
  rewrite (bind_ok _ _ _ _ _ Es), after_add.
  destruct (reclaim_run u (Z.to_nat (2 ^ 16)) (after (1 + k) s1)) as [j Ej].
  - done.
  - done.
  - rewrite after_vn. exact Hlu.
  - pose proof (Z.mod_pos_bound (u - last_used (tx (vn (after (1 + k) s1)))) (2 ^ 16)). lia.
  - intros j. rewrite used_at_add. cbn [Nat.add]. apply Hrest.
  - exists (1 + k + j)%nat. rewrite (bind_ok _ _ _ _ _ Ej), after_add. reflexivity.
Qed.
End Run.

(** what [vnet_send] hands over.  When the device is notified, the available
    index has advanced by one, its newest entry names a descriptor of the driver's
    array that describes exactly the frame, and memory outside the ring and the
    array is untouched.  If the used index then comes to rest, the call returns 0
    with [last_used] caught up - whether or not the device took the frame. *)
Theorem vnet_send_publishes {Dv} `{!VirtioDev Dv, !VirtioCfg Dv} (s : nst Dv) pkt len u
  (Hr : ready (vn s) = true) (Hq : q_ok (tx (vn s))) (Hp : 0 < pkt < 2 ^ 64) (Hl : 0 < len <= VNET_ETH_MTU)
  (Hi : load 2 (avail (tx (vn s)) + 2) (nmem s) = pub_idx (tx (vn s)))
  (Hu : 0 <= u < 2 ^ 16) (Hlu : 0 <= last_used (tx (vn s)) < 2 ^ 16)
  (Hrest : forall k, used_at (S k) (notified s pkt len) = u) :
  let q := tx (vn s) in let m := nmem (notified s pkt len) in
  (load 2 (avail q + 2) m = u16 (pub_idx q + 1) /\
   load 2 (avail q + 4 + 2 * (pub_idx q mod 32)) m = next_desc q mod 32 /\
   desc_at (tab q + 16 * (next_desc q mod 32)) m = (pkt, len, 0, 0) /\
   (forall x, ~ (avail q <= x < avail q + 68) -> ~ (tab q <= x < tab q + 512) -> m x = nmem s x)) /\
  exists s', vnet_send pkt len s = Ok (0, s', []) /\ last_used (tx (vn s')) = u /\ rx (vn s') = rx (vn s) /\
    (exists k, nmem s' = nmem (after k (notified s pkt len))).
Proof.
  intros q m. unfold VNET_ETH_MTU in Hl. split; [apply posted_cells; (done || lia)|].
  destruct (vnet_send_run s pkt len u Hr Hq Hp Hl Hu Hlu Hrest) as [k E]. eexists. split; [exact E|].
  split; [done|]. split; [done|]. by exists k.
Qed.

(** ** Receiving *)

Section Recv.
Context {Dv : Type} `{!VirtioDev Dv, !VirtioCfg Dv}.
Implicit Types s : nst Dv.

Definition reposted s (addr : Z) : nst Dv :=
  set_nmem (posted_mem (rx (vn s)) addr 2048 2 (nmem s))
    (on_q RX (fun q => set_pub (u16 (pub_idx q + 1)) (set_next (u16 (next_desc q + 1)) q)) s).

Lemma post_rx_run k s : q_ok (rx (vn s)) -> 0 <= rxbuf (vn s) + 2048 * k < 2 ^ 64 ->
  post_rx k s = Ok (tt, reposted s (rxbuf (vn s) + 2048 * k), []).
Proof.
  intros Hq Hx. destruct Hq as [_ Ha _ _]. unfold post_rx. rewrite bind_get, bind_upd_q, vn_bind_wr_desc, masked.
  rewrite (u64_small (_ + _)) by done. rewrite offer_run by (cbn; lia). reflexivity.
Qed.

(** One frame: the state before the notification. *)
Definition received s (buf id n : Z) : nst Dv :=
  on_q RX (fun q => set_last (u16 (last_used q + 1)) q)
    (reposted (set_nmem (mem_write (nmem s) buf (mem_read (nmem s) (rxbuf (vn s) + 2048 * (id mod 8)) (Z.to_nat n))) s)
       (rxbuf (vn s) + 2048 * (id mod 8))).

Lemma recv_loop_run s buf cap id len k : q_ok (rx (vn s)) -> 0 <= rxbuf (vn s) < 2 ^ 63 ->
  load 2 (used (rx (vn s)) + 2) (nmem s) <> last_used (rx (vn s)) ->
  load 4 (used (rx (vn s)) + (4 + 8 * (last_used (rx (vn s)) mod 64))) (nmem s) = id ->
  load 4 (used (rx (vn s)) + (8 + 8 * (last_used (rx (vn s)) mod 64))) (nmem s) = len ->
  let n := Z.min (u32 (len - 12)) cap in 0 < n <= 2048 ->
  recv_loop buf cap (S k) s =
  Ok (n, step_dev (set_ndev (vwrite (base (vn s) + QUEUE_NOTIFY) 0 (ndev s)) (received s buf id n)), []).
Proof.
  intros Hq Hx Hi Hid Hlen n Hn. pose proof Hq as [_ _ Hu _]. cbn [recv_loop]. rewrite bind_get, vn_bind_ld by lia.
  rewrite (proj2 (Z.eqb_neq _ _)) by (by apply not_eq_sym). rewrite vn_bind_ld, vn_bind_ld by lia. rewrite Hid, Hlen.
  replace (if cap <? u32 (len - 12) then cap else u32 (len - 12)) with n by (unfold n; case_match; bool_hyps; lia).
  rewrite (proj2 (Z.ltb_ge 2048 n)) by lia. rewrite bind_modify.
  pose proof (Z.mod_pos_bound id 8 ltac:(lia)).
  erewrite bind_ok; [|apply post_rx_run; [exact Hq|cbn; lia]]. rewrite bind_upd_q, bind_kick.
  rewrite (proj2 (Z.eqb_neq n 0)) by lia. reflexivity.
Qed.
End Recv.

(** C33: what [vnet_recv] delivers.  When the used index has moved on, the entry at
    [last_used] names buffer [id mod 8]; the caller gets its first [len - 12]
    bytes, at most [cap], and the buffer is handed back to the device under the
    next descriptor of the array and the next slot of the ring.  The bytes start
    with the twelve of the virtio header, so the last twelve of the frame are
    dropped instead; and an entry shorter than the header, which wraps, delivers
    [cap] bytes of whatever the buffer holds. *)
Theorem vnet_recv_delivers {Dv} `{!VirtioDev Dv, !VirtioCfg Dv} (s : nst Dv) buf cap id len
  (Hr : ready (vn s) = true) (Hq : q_ok (rx (vn s))) (Hx : 0 <= rxbuf (vn s) < 2 ^ 63) :
  let s1 := step_dev s in let q := rx (vn s) in let m := nmem s1 in let n := Z.min (u32 (len - 12)) cap in
  load 2 (used q + 2) m <> last_used q -> load 2 (avail q + 2) m = pub_idx q ->
  load 4 (used q + (4 + 8 * (last_used q mod 64))) m = id -> load 4 (used q + (8 + 8 * (last_used q mod 64))) m = len ->
  0 < n <= 2048 -> apart buf n (tab q) 512 -> apart buf n (avail q) 68 ->
  exists s2, vnet_recv buf cap s = Ok (n, step_dev (set_ndev (vwrite (base (vn s) + QUEUE_NOTIFY) 0 (ndev s1)) s2), []) /\
    mem_read (nmem s2) buf (Z.to_nat n) = mem_read m (rxbuf (vn s) + 2048 * (id mod 8)) (Z.to_nat n) /\
    desc_at (tab q + 16 * (next_desc q mod 32)) (nmem s2) = (rxbuf (vn s) + 2048 * (id mod 8), 2048, 2, 0) /\
    load 2 (avail q + 4 + 2 * (pub_idx q mod 32)) (nmem s2) = next_desc q mod 32 /\
    load 2 (avail q + 2) (nmem s2) = u16 (pub_idx q + 1) /\
    last_used (rx (vn s2)) = u16 (last_used q + 1) /\ tx (vn s2) = tx (vn s).
Proof.
  intros s1 q m n Hi Hpub Hid Hlen Hn Hb1 Hb2. exists (received s1 buf id n). unfold apart in Hb1, Hb2.
  pose proof (Z.mod_pos_bound id 8 ltac:(lia)). set (src := rxbuf (vn s) + 2048 * (id mod 8)).
  set (m1 := mem_write m buf (mem_read m src (Z.to_nat n))).
  assert (Lr : Z.of_nat (length (mem_read m src (Z.to_nat n))) = n) by (rewrite mem_read_length; lia).
  assert (Ev : vn s1 = vn s) by apply step_dev_vn.
  assert (Em : nmem (received s1 buf id n) = posted_mem q src 2048 2 m1).
  { cbn. rewrite Ev. reflexivity. }
  assert (Ei : load 2 (avail q + 2) m1 = pub_idx q).
  { rewrite <- Hpub. unfold load. f_equal. apply mem_read_ext. intros x Hxx. apply mem_write_out. lia. }
  destruct (posted_cells q src 2048 2 m1 Hq ltac:(lia) ltac:(lia) ltac:(lia) Ei) as (C1 & C2 & C3 & C4). rewrite Em. split_and!.
  - unfold vnet_recv. rewrite bind_get, Hr. cbn [negb]. rewrite bind_modify. fold s1.
    destruct (Z.to_nat (2 ^ 16)) as [|k] eqn:Ek; [lia|]. rewrite <- Ev. apply recv_loop_run; rewrite ?Ev; done.
  - rewrite <- (mem_read_write m buf (mem_read m src (Z.to_nat n))) at 1. rewrite mem_read_length.
    apply mem_read_ext. intros x Hxx. apply C4; lia.
  - exact C3.
  - exact C2.
  - exact C1.
  - cbn. by rewrite Ev.
  - cbn. by rewrite Ev.
Qed.

(** ** What the device finds in its descriptor tables

    [vq_setup] tells the device that the descriptors of a queue lie at the start
    of the two pages it took; [wr_desc] writes them to the array in [vn]. *)

Section Unseen.
Context {Dv : Type} `{!VirtioDev Dv, !VirtioCfg Dv}.
Implicit Types s : nst Dv.

(** The pages of the two queues, and the arrays of [vn]. *)
Variables (rt rr tt_ tr : Z).
Definition in_tables (x : Z) : Prop := rt <= x < rt + 512 \/ rr <= x < rr + 512.
Hypothesis pages_range : 0 < rt < 2 ^ 48 /\ 0 < rr < 2 ^ 48.
Hypothesis pages_apart : apart rt 8192 rr 8192.
Hypothesis arrays_apart : forall x, tt_ <= x < tt_ + 512 \/ tr <= x < tr + 512 -> ~ in_tables x.
(** A device never writes to its descriptor tables (virtio 1.2, 2.7.5). *)
Hypothesis tables_read_only : forall d m x, in_tables x -> (vstep d m).2 x = m x.

(** The descriptor arrays stay where the linker put them. *)
Definition arrays s : Prop := tab (tx (vn s)) = tt_ /\ tab (rx (vn s)) = tr.
Definition tx_placed s : Prop := arrays s /\ avail (tx (vn s)) = rt + 512 /\ (forall x, rt <= x < rt + 512 -> nmem s x = 0).
Definition unseen s : Prop :=
  arrays s /\ avail (tx (vn s)) = rt + 512 /\ avail (rx (vn s)) = rr + 512 /\ (forall x, in_tables x -> nmem s x = 0).

Lemma keeps_mem (f : mem -> mem) : (forall m x, in_tables x -> f m x = m x) ->
  keeps unseen (modify (fun s => set_nmem (f (nmem s)) s)).
Proof. intros Hf. apply triple_modify. intros s (Ha & H1 & H2 & Hz). split_and!; try done. intros x Hx. cbn. rewrite Hf by done. by apply Hz. Qed.
Lemma keeps_sto n p o v : (forall x, p + o <= x < p + o + Z.of_nat n -> ~ in_tables x) -> keeps unseen (sto n p o v).
Proof.
  intros Hx. unfold sto. case_match; [apply triple_ub|]. apply (keeps_mem (store n (p + o) v)). intros m x Ht.
  apply store_out. intros Hr. by apply (Hx x).
Qed.
Lemma keeps_ld (P : nst Dv -> Prop) n p o : keeps P (ld n p o).
Proof. unfold ld. case_match; [apply triple_ub|]. apply triple_get. intros s0 _. by apply triple_ret. Qed.
Lemma keeps_wr32 b o v : keeps unseen (wr32 b o v).
Proof. by apply triple_modify. Qed.
Lemma keeps_step : keeps unseen (modify step_dev).
Proof.
  apply triple_modify. intros s (Ha & H1 & H2 & Hz). unfold unseen, arrays. rewrite step_dev_vn. split_and!; try done; [apply Ha..|].
  intros x Hx. unfold step_dev. rewrite <- (Hz x Hx). pose proof (tables_read_only (ndev s) (nmem s) x Hx).
  by destruct (vstep (ndev s) (nmem s)).
Qed.
Lemma keeps_upd_q w f : (forall q, tab (f q) = tab q /\ avail (f q) = avail q) -> keeps unseen (upd_q w f).
Proof.
  intros Hf. apply triple_modify. intros s ((Ht & Hr) & H1 & H2 & Hz). destruct (Hf (queue w (vn s))) as [E1 E2].
  destruct w; cbn in E1, E2; repeat split; cbn; congruence || apply Hz.
Qed.
Lemma keeps_upd_vn f : (forall v, tx (f v) = tx v /\ rx (f v) = rx v) -> keeps unseen (upd_vn f).
Proof.
  intros Hf. apply triple_modify. intros s ((Ht & Hr) & H1 & H2 & Hz). destruct (Hf (vn s)) as [E1 E2].
  repeat split; cbn; congruence || apply Hz.
Qed.
Lemma keeps_puts x : keeps unseen (puts x). Proof. apply keeps_out. Qed.
Lemma keeps_puts_nolf x : keeps unseen (puts_nolf x). Proof. apply keeps_out. Qed.
Lemma keeps_ret {A} (P : nst Dv -> Prop) (a : A) : keeps P (ret a). Proof. by apply triple_ret. Qed.

Create HintDb vnet.
#[local] Hint Resolve keeps_ld keeps_wr32 keeps_step keeps_puts keeps_puts_nolf keeps_ret : vnet.
#[local] Hint Extern 1 (keeps _ (upd_q _ _)) => apply keeps_upd_q; by intros [] : vnet.
#[local] Hint Extern 1 (keeps _ (upd_vn _)) => apply keeps_upd_vn; by intros [] : vnet.
Ltac keep := repeat (first [apply triple_get; intros ? ? | apply triple_seq; [by eauto with vnet|intros ?] | progress case_match]); eauto with vnet.

Lemma keeps_wr_desc w i addr len flags next : 0 <= i < 32 -> keeps unseen (wr_desc w i addr len flags next).
Proof.
  intros Hi. unfold wr_desc. apply triple_get. intros s0 ((Ht & Hr) & _).
  assert (Hk : forall a l f n tries, keeps unseen (wr_desc_loop (tab (queue w (vn s0)) + 16 * i) a l f n tries)).
  { intros a l f n tries. induction tries as [|tries IH]; cbn [wr_desc_loop]; [apply keeps_puts|]. apply triple_seq.
    - apply (keeps_mem (put_desc (tab (queue w (vn s0)) + 16 * i) a l f n)). intros m x Hx. apply put_desc_out. intros Hd.
      apply (arrays_apart x); [|done]. destruct w; cbn in *; lia.
    - intros ?. keep. }
  apply Hk.
Qed.

Lemma keeps_offer w d : keeps unseen (offer w d).
Proof.
  unfold offer. apply triple_get. intros s0 (_ & H1 & H2 & _).
  assert (Ha : forall o, 0 <= o <= 66 -> forall x, avail (queue w (vn s0)) + o <= x < avail (queue w (vn s0)) + o + Z.of_nat 2 -> ~ in_tables x).
  { intros o Ho x Hx. unfold in_tables. unfold apart in pages_apart. destruct w; cbn in Hx; lia. }
  apply triple_seq; [apply keeps_ld|]. intros i. pose proof (masked_range i). rewrite masked.
  apply triple_seq; [apply keeps_sto, Ha; lia|]. intros ?. apply triple_seq; [eauto with vnet|]. intros ?.
  apply triple_get. intros s1 _. apply keeps_sto, Ha. lia.
Qed.
#[local] Hint Resolve keeps_offer : vnet.

Lemma keeps_post_rx k : keeps unseen (post_rx k).
Proof.
  unfold post_rx. apply triple_get. intros s0 _. rewrite masked. apply triple_seq; [eauto with vnet|]. intros ?.
  apply triple_seq; [apply keeps_wr_desc, masked_range|]. intros ?. apply keeps_offer.
Qed.
Lemma keeps_post_all n : forall i, keeps unseen (post_all i n).
Proof. induction n as [|n IH]; intros i; cbn [post_all]; [apply keeps_ret|]. apply triple_seq; [apply keeps_post_rx|]. intros ?. apply IH. Qed.
Lemma keeps_kick sel : keeps unseen (kick sel).
Proof. unfold kick. keep. Qed.
#[local] Hint Resolve keeps_post_rx keeps_post_all keeps_kick : vnet.

Lemma keeps_send pkt len : keeps unseen (vnet_send pkt len).
Proof.
  assert (Hsp : forall n, keeps unseen (spin n)) by (induction n; cbn [spin]; keep).
  assert (Hre : forall n, keeps unseen (reclaim n)) by (induction n; cbn [reclaim]; [by intros ? ? ? ? _ ?|keep]).
  unfold vnet_send, publish_tx. apply triple_get. intros s0 _. case_match; [apply keeps_ret|]. apply triple_seq.
  - apply triple_get. intros s1 _. rewrite masked. apply triple_seq; [eauto with vnet|]. intros ?.
    apply triple_seq; [apply keeps_wr_desc, masked_range|]. intros ?. keep.
  - intros ?. keep.
Qed.

Lemma keeps_recv buf cap : (forall x, buf <= x < buf + cap -> ~ in_tables x) -> keeps unseen (vnet_recv buf cap).
Proof.
  intros Hb.
  assert (Hl : forall n, keeps unseen (recv_loop buf cap n)).
  { induction n as [|n IH]; cbn [recv_loop]; [by intros ? ? ? ? _ ?|]. apply triple_get. intros s0 _.
    apply triple_seq; [apply keeps_ld|]. intros i. case_match; [apply keeps_ret|].
    apply triple_seq; [apply keeps_ld|]. intros id. apply triple_seq; [apply keeps_ld|]. intros len.
    set (n1 := if cap <? u32 (len - 12) then cap else u32 (len - 12)). case_match; [apply triple_ub|].
    assert (Hn : n1 <= cap) by (unfold n1; case_match; bool_hyps; lia).
    apply triple_seq; [|intros ?; keep].
    apply (keeps_mem (fun m => mem_write m buf (mem_read m _ (Z.to_nat n1)))). intros m x Hx. apply mem_write_out.
    rewrite mem_read_length. intros Hr. apply (Hb x); [lia|done]. }
  unfold vnet_recv. apply triple_get. intros s0 _. case_match; [apply keeps_ret|]. apply triple_seq; [apply keeps_step|].
  intros ?. apply Hl.
Qed.

(** *** Bringing the device up *)

Variables (f0 f1 f2 : pmm).
Hypothesis alloc_tx : pmm_alloc_pages 2 f0 = Ok (rt, f1, []).
Hypothesis alloc_rx : pmm_alloc_pages 2 f1 = Ok (rr, f2, []).
(** Every slot that holds a device has queues of at least eight entries. *)
Definition is_slot (b : Z) : Prop := exists k, 0 <= k < V_SLOTS /\ b = V_SLOT_BASE + k * V_SLOT_STEP.
Hypothesis queue_size : forall b d, is_slot b -> 8 <= u32 (vread (b + V_QNUMMAX) d).

(** Setting up one queue: the pages at [r] are its own, and zero. *)
Lemma vq_setup_places w sel r f f' (P : nst Dv -> Prop) : 0 < r < 2 ^ 48 -> pmm_alloc_pages 2 f = Ok (r, f', []) ->
  (forall s, P s -> is_slot (base (vn s))) -> (forall s d, P s -> P (set_ndev d s)) -> (forall s, P s -> P (set_nmem (memset (nmem s) r 0 8192) s)) ->
  (forall s p, P s -> P (mk_nst (ndev s) (nmem s) (vn s) (legacy s) p)) ->
  (forall s a u, P s -> P (on_q w (fun q => mk_vq (tab q) a u (next_desc q) (pub_idx q) (last_used q)) s)) ->
  triple (fun s => P s /\ nframes s = f) (vq_setup w sel)
    (fun _ s => P s /\ nframes s = f' /\ avail (queue w (vn s)) = r + 512 /\ (forall x, r <= x < r + 512 -> nmem s x = 0)).
Proof.
  intros Hr Ha Hb Hd Hm Hf Hq. unfold vq_setup. apply triple_get. intros s0 [HP _]. apply Hb in HP.
  set (b := base (vn s0)). apply triple_seq; [apply triple_modify; intros s [Hs ?]; split; [by apply Hd|done]|]. intros ?.
  apply triple_bind with (fun v s => (P s /\ nframes s = f) /\ 8 <= v).
  { apply triple_get. intros s1 _. apply triple_ret. intros s Hs. split; [done|]. by apply queue_size. }
  intros maxq. apply triple_pure. intros Hmq.
  set (mq := if _ || _ then _ else maxq). destruct (Z.ltb_spec mq 8) as [Hlt|_].
  { exfalso. unfold mq, QN in Hlt. destruct (Z.ltb_spec 32 maxq); [rewrite orb_true_r in Hlt; lia|]. destruct ((maxq =? 0) || false); lia. }
  set (Q1 := fun s => P s /\ nframes s = f' /\ avail (queue w (vn s)) = r + 512 /\ (forall x, r <= x < r + 512 -> nmem s x = 0)).
  apply triple_bind with (fun _ s => P s /\ nframes s = f).
  { apply triple_modify. intros s [Hs ?]. split; [by apply Hd|done]. }
  intros ?. apply triple_bind with (fun v s => (P s /\ nframes s = f') /\ v = r).
  { apply triple_zoom. intros k v p o [Hk Ef] E. rewrite Ef, Ha in E. injection E as <- <- _. split; [|done]. split; [by apply Hf|done]. }
  intros region. apply triple_pure. intros ->.
  rewrite (proj2 (Z.eqb_neq r 0)) by lia.
  apply triple_bind with (fun _ s => P s /\ nframes s = f' /\ (forall x, r <= x < r + 512 -> nmem s x = 0)).
  { apply triple_modify. intros s (Hs & Ef). split; [by apply Hm|]. split; [done|]. intros x Hx. cbn. unfold memset.
    unfold PAGE_SIZE. case_match; [done|]. bool_hyps. lia. }
  intros ?. apply triple_bind with (fun _ => Q1).
  { apply triple_modify. intros s (Hs & Ef & Hz). split; [by apply Hq|]. split; [done|]. split; [|done].
    unfold QN. destruct w; cbn; apply u64_small; lia. }
  assert (Hw : forall b o v, keeps Q1 (wr32 b o v)).
  { intros b' o' v'. apply triple_modify. intros s (Hs & Hs2). split; [by apply Hd|done]. }
  intros ?. apply triple_seq; [apply triple_get; intros s1 _; by apply triple_ret|]. intros ver. destruct (ver =? 1).
  - apply triple_seq; [apply Hw|]. intros ?. apply triple_modify. intros s (Hs & Ef & Hav & Hz).
    split; [exact (Hq s (avail (queue w (vn s))) (u64 (r + PAGE_SIZE)) Hs)|]. split; [done|]. split; [|done]. by destruct w.
  - do 6 (apply triple_seq; [apply Hw|]; intros ?). apply Hw.
Qed.

Lemma keeps_rd32 (P : nst Dv -> Prop) b o : keeps P (rd32 b o).
Proof. apply triple_get. intros s _. by apply triple_ret. Qed.

Definition at_start s : Prop := arrays s /\ nframes s = f0.
Lemma probe_slot n : forall i, 0 <= i -> i + Z.of_nat n <= V_SLOTS ->
  triple at_start (probe_loop i n) (fun b s => at_start s /\ (b = 0 \/ is_slot b)).
Proof.
  induction n as [|n IH]; intros i Hi Hn; cbn [probe_loop]; [apply triple_ret; auto|]. specialize (IH (i + 1) ltac:(lia) ltac:(lia)).
  apply triple_seq; [apply keeps_rd32|]. intros m. destruct (negb (m =? VNET_MAGIC)); [apply IH|].
  apply triple_seq; [apply keeps_rd32|]. intros v. destruct (negb (v =? 1) && negb (v =? 2)); [apply IH|].
  apply triple_seq; [apply keeps_rd32|]. intros d. destruct (d =? VNET_DEVID); [|apply IH].
  apply triple_ret. intros s Hs. split; [done|]. right. exists i. split; [lia|done].
Qed.
Lemma keeps_negotiate b : keeps at_start (negotiate b).
Proof.
  assert (Hw : forall b o v, keeps at_start (wr32 b o v)) by (intros; by apply triple_modify).
  unfold negotiate. apply triple_seq; [apply keeps_rd32|]. intros ver. apply triple_seq; [by apply triple_modify|]. intros ?.
  do 2 (apply triple_seq; [apply Hw|]; intros ?). apply triple_get. intros s0 _.
  apply triple_seq; [destruct (legacy s0); (apply triple_seq; [apply Hw|]; intros ?; apply Hw)|]. intros ?.
  apply triple_seq; [apply Hw|]. intros ?. apply triple_seq; [apply keeps_rd32|]. intros st. case_match; [|apply keeps_ret].
  apply triple_seq; [apply keeps_out|]. intros ?. apply triple_seq; [apply keeps_out|]. intros ?.
  apply triple_seq; [apply keeps_out|]. intros ?. apply keeps_ret.
Qed.
Lemma keeps_clear w b : keeps (fun s => (arrays s /\ base (vn s) = b) /\ nframes s = f0) (clear_q w).
Proof.
  unfold clear_q. apply triple_seq; [by apply triple_modify|]. intros ?. apply triple_modify.
  intros s (((Ht & Hr) & Hb) & Hf). destruct w; by repeat split.
Qed.

Lemma init_unseen : triple at_start vnet_init (fun r s => r = 1 -> unseen s).
Proof.
  assert (H0 : forall v, v <> 1 -> triple at_start (ret v) (fun r s => r = 1 -> unseen s)) by (intros v Hv; by apply triple_ret).
  unfold vnet_init. eapply triple_bind; [apply probe_slot; done|]. intros b. apply triple_pure. intros Hb.
  destruct (Z.eqb_spec b 0); [apply triple_seq; [apply keeps_out|]; intros ?; by apply H0|]. destruct Hb as [?|Hslot]; [done|].
  apply triple_seq; [apply keeps_negotiate|]. intros ok. destruct (negb ok); [by apply H0|].
  eapply triple_bind with (Q := fun _ s => (arrays s /\ base (vn s) = b) /\ nframes s = f0);
    [apply triple_modify; by intros s [? ?]|]. intros ?.
  do 2 (apply triple_seq; [apply keeps_clear|]; intros ?).
  eapply triple_bind; [apply (vq_setup_places TX 1 rt f0 f1 (fun s => arrays s /\ base (vn s) = b));
    [apply pages_range|exact alloc_tx|by intros s [_ ->]|done..]|].
  intros ?. eapply triple_bind with (Q := fun _ s => unseen s).
  { intros s v s' o ((Ha & Eb) & Ef & Hav & Hz) E.
    destruct (vq_setup_places RX 0 rr f1 f2 (fun s => tx_placed s /\ base (vn s) = b)) with (s := s) (a := v) (s' := s') (o := o) as (((Ha' & H1 & Hz1) & _) & _ & H2 & Hz2).
    - apply pages_range.
    - exact alloc_rx.
    - by intros s1 [_ ->].
    - done.
    - intros s1 ((? & ? & Hz3) & ?). split; [|done]. split_and!; [done..|]. intros x Hx. cbn. unfold memset. case_match; [done|by apply Hz3].
    - done.
    - done.
    - done.
    - exact E.
    - split_and!; [done..|]. intros x [Hx|Hx]; [by apply Hz1|by apply Hz2]. }
  intros ?. apply triple_get. intros s0 _.
  repeat (apply triple_seq; [solve [eauto with vnet | apply keeps_out]|]; intros ?). by apply triple_ret.
Qed.

(** What can happen once the driver is up: its own operations, and other stores
    that leave the tables alone. *)
Inductive reach s0 : nst Dv -> Prop :=
| R_init s o : vnet_init s0 = Ok (1, s, o) -> reach s0 s
| R_send s pkt len r s' o : reach s0 s -> vnet_send pkt len s = Ok (r, s', o) -> reach s0 s'
| R_recv s buf cap r s' o : reach s0 s -> (forall x, buf <= x < buf + cap -> ~ in_tables x) ->
    vnet_recv buf cap s = Ok (r, s', o) -> reach s0 s'
| R_store s m : reach s0 s -> (forall x, in_tables x -> m x = nmem s x) -> reach s0 (set_nmem m s).

Lemma reach_unseen s0 s : at_start s0 -> reach s0 s -> unseen s.
Proof.
  intros H0 Hr. induction Hr as [s o E|s pkt len r s' o _ IH E|s buf cap r s' o _ IH Hb E|s m _ IH Hm].
  - by eapply init_unseen.
  - by eapply keeps_send.
  - by eapply keeps_recv.
  - destruct IH as (Ha & H1 & H2 & Hz). split_and!; [done..|]. intros x Hx. cbn. rewrite Hm by done. by apply Hz.
Qed.
End Unseen.


(** An entry of the used ring that the device has not written, such as number 32
    of a ring of 32, which the driver looks up at index 32 of 64, delivers [cap]
    bytes of the first buffer. *)
Theorem stale_entry_delivers {Dv} `{!VirtioDev Dv, !VirtioCfg Dv} (s : nst Dv) buf cap :
  let q := rx (vn s) in ready (vn s) = true -> q_ok q -> 0 <= rxbuf (vn s) < 2 ^ 63 -> 0 < cap <= 2048 ->
  (forall d m, vstep d m = (d, m)) -> last_used q = 32 -> load 2 (used q + 2) (nmem s) = 33 ->
  load 4 (used q + 260) (nmem s) = 0 -> load 4 (used q + 264) (nmem s) = 0 ->
  exists s', vnet_recv buf cap s = Ok (cap, s', []).
Proof.
  intros q Hr Hq Hx Hc Hv Hl Hi Hid Hlen. assert (Es : step_dev s = s) by (unfold step_dev; rewrite Hv; by destruct s).
  unfold vnet_recv. rewrite bind_get, Hr. cbn [negb]. rewrite bind_modify, Es.
  destruct (Z.to_nat (2 ^ 16)) as [|k] eqn:Ek; [lia|]. assert (En : Z.min (u32 (0 - 12)) cap = cap) by (change (u32 (0 - 12)) with 4294967284; lia).
  pose proof (recv_loop_run s buf cap 0 0 k Hq Hx) as E. fold q in E. rewrite Hl, Hi in E. cbv zeta in E. rewrite En in E.
  eexists. apply E; (done || lia).
Qed.

(** *** Instances *)

(** A card in slot 0 that answers the probe, records what it is told and does
    nothing. *)
Record card := mk_card { c_log : list (Z * Z) }.
#[export] Instance card_device : VirtioDev card := {|
  vread a _ := let o := a mod 512 in
    if (a <? V_SLOT_BASE) || (V_SLOT_BASE + 512 <=? a) then (if o =? V_QNUMMAX then 64 else 0)
    else if o =? V_MAGIC then VNET_MAGIC else if o =? V_VERSION then 2 else if o =? V_DEVID then VNET_DEVID
    else if o =? V_STATUS then 15 else if o =? V_QNUMMAX then 64 else 0;
  vwrite a v c := mk_card (c_log c ++ [(a, v)]);
  vstep c m := (c, m) |}.
#[export] Instance card_config : VirtioCfg card := {| vread8 a _ := a mod 16 + 0x50 |}.

Definition demo_q (t : Z) : vq := mk_vq t 0 0 0 0 0.
Definition demo_nst : nst card :=
  mk_nst (mk_card []) (fun _ => 0) (mk_vnet 0 false [] (demo_q 0x40090000) (demo_q 0x40094400) 0x40090400) false
    (mk_pmm (replicate 8 0) 64 64).

(** The pages of the transmit and the receive queue, as the device is told. *)
Example device_told_pages :
  match vnet_init demo_nst with
  | Ok (r, s, _) => r = 1 /\ map snd (filter (fun w => w.1 = V_SLOT_BASE + V_QDESCLO) (c_log (ndev s))) = [0x40000000; 0x40002000]
  | _ => False
  end.
Proof. vm_compute. split; reflexivity. Qed.

Lemma demo_up : exists s o, vnet_init demo_nst = Ok (1, s, o).
Proof.
  assert (E : match vnet_init demo_nst with Ok (r, _, _) => r =? 1 | _ => false end = true) by (vm_compute; reflexivity).
  destruct (vnet_init demo_nst) as [[[r s] o]| |]; [|discriminate..]. apply Z.eqb_eq in E as ->. by exists s, o.
Qed.

Lemma card_qnum k (d : card) : 0 <= k < V_SLOTS -> vread (V_SLOT_BASE + k * V_SLOT_STEP + V_QNUMMAX) d = 64.
Proof.
  intros Hk. unfold vread, card_device. unfold V_SLOT_BASE, V_SLOT_STEP, V_QNUMMAX.
  assert (E : (0x0A000000 + k * 0x200 + 0x34) mod 512 = 0x34) by (symmetry; apply (Z.mod_unique_pos _ _ (327680 + k)); lia).
  rewrite E. by repeat case_match.
Qed.


(** A driver that is up, with an empty transmit queue, and one frame of a hundred
    bytes in receive buffer 0. *)
Definition demo_live : nst card :=
  mk_nst (mk_card []) (store 4 0x4000228C 112 (store 2 0x40002286 1 (fun _ => 0)))
    (mk_vnet V_SLOT_BASE true (replicate 6 0x52) (mk_vq 0x40090000 0x40002200 0x40002284 8 0 0)
       (mk_vq 0x40094400 0x40000200 0x40000284 0 0 0) 0x40090400) false (mk_pmm (replicate 8 0) 64 64).

Lemma card_rests (x : card * mem) k : vsteps k x = x.
Proof. induction k as [|k IH]; [done|]. cbn [vsteps]. by destruct x. Qed.

Lemma vnet_send_publishes_witness :
  exists s', vnet_send 0x41000000 60 demo_live = Ok (0, s', []) /\ last_used (tx (vn s')) = 0.
Proof.
  destruct (vnet_send_publishes demo_live 0x41000000 60 0) as [_ (s' & E & Hl & _)].
  - reflexivity.
  - split; cbn; (lia || (unfold apart; lia)).
  - lia.
  - unfold VNET_ETH_MTU. lia.
  - reflexivity.
  - lia.
  - cbn. lia.
  - intros k. unfold used_at. rewrite card_rests. reflexivity.
  - exists s'. exact (conj E Hl).
Defined.

Lemma vnet_recv_delivers_witness :
  exists s', vnet_recv 0x41000000 1500 demo_live = Ok (100, s', []).
Proof.
  destruct (vnet_recv_delivers demo_live 0x41000000 1500 0 112) as (s2 & E & _).
  - reflexivity.
  - split; cbn; (lia || (unfold apart; lia)).
  - cbn. lia.
  - discriminate.
  - reflexivity.
  - reflexivity.
  - reflexivity.
  - split; [reflexivity|discriminate].
  - right. cbn. discriminate.
  - right. cbn. discriminate.
  - eexists. exact E.
Defined.
