(* ===== verification/Log.v ===== *)
(** * The kernel log (kernel/log.c)

    The formatter [vsnprintf_simple] on a [char] array, with every store checked,
    the ring of 64 entries, and the reports.  The reference for the formatter is
    [render], with stdpp's decimal printer. *)

From stdpp Require Import pretty.
From S2P Require Import Prelude Uart Ring.

Definition LOG_MAX_ENTRIES : Z := 64.
Definition LOG_SOURCE_LEN : Z := 8.
Definition LOG_MSG_LEN : Z := 128.
Definition LOG_INFO : Z := 2.
Definition LOG_ERROR : Z := 4.
Definition LOG_NONE : Z := 6.

Definition level_names : list string := ["TRACE"; "DEBUG"; "INFO"; "WARN"; "ERROR"; "FATAL"; "NONE"]%string.
(** The escape character, and a sequence that starts with it. *)
Definition esc (x : string) : list Z := 27 :: bytes x.
Definition level_colors : list (list Z) := [esc "[90m"; esc "[36m"; esc "[32m"; esc "[33m"; esc "[31m"; esc "[35m"; []].
Definition COLOR_RESET : list Z := esc "[0m".

(** ** Formatting *)

(** A variable argument: an [int] or an [unsigned], or a string ([None] is the
    null pointer). *)
Inductive arg := AInt (z : Z) | AStr (s : option (list Z)).

(** [while (val > 0 && i < n) { tmp[i++] = '0' + val % 10; val /= 10; }] *)
Fixpoint dec_digits (n : nat) (val : Z) : list Z :=
  match n with
  | O => []
  | S n' => if 0 <? val then 48 + val mod 10 :: dec_digits n' (val / 10) else []
  end.
Fixpoint hex_digits (hex : list Z) (n : nat) (val : Z) : list Z :=
  match n with
  | O => []
  | S n' => if 0 <? val then nth (Z.to_nat (Z.land val 15)) hex 0 :: hex_digits hex n' (Z.shiftr val 4) else []
  end.

(** What each conversion leaves in [tmp]. *)
Definition tmp_int (val : Z) : option (list Z) :=
  if val =? INT32_MIN then None else            (* -val overflows *)
  let a := Z.abs val in
  let ds := if a =? 0 then [48] else dec_digits 10 a in
  Some (if val <? 0 then ds ++ [45] else ds).
Definition tmp_unsigned (val : Z) : list Z := if val =? 0 then [48] else dec_digits 10 val.
Definition tmp_hex (hex : list Z) (val : Z) : list Z := if val =? 0 then [48] else hex_digits hex 8 val.

Definition lower_hex : list Z := bytes "0123456789abcdef".
Definition upper_hex : list Z := bytes "0123456789ABCDEF".

(** The characters a conversion emits, and the arguments it leaves; an argument
    that is missing or of the wrong kind is undefined. *)
Definition convert (k : Z) (args : list arg) : option (list Z * list arg) :=
  if (k =? 100) || (k =? 105) then
    match args with AInt z :: r => t ← tmp_int (i32 z); Some (rev t, r) | _ => None end
  else if k =? 117 then match args with AInt z :: r => Some (rev (tmp_unsigned (u32 z)), r) | _ => None end
  else if (k =? 120) || (k =? 88) then
    match args with AInt z :: r => Some (rev (tmp_hex (if k =? 120 then lower_hex else upper_hex) (u32 z)), r) | _ => None end
  else if k =? 115 then
    match args with AStr (Some s) :: r => Some (cstr s, r) | AStr None :: r => Some (bytes "(null)", r) | _ => None end
  else if k =? 99 then match args with AInt z :: r => Some ([u8 z], r) | _ => None end
  else if k =? 37 then Some ([37], args)
  else Some ([], args).

(** [while (... && pos < bufsize - 1) buf[pos++] = ...] *)
Fixpoint emit (bufsize : Z) (l : list Z) (buf : list Z) (pos : Z) : option (list Z * Z) :=
  match l with
  | [] => Some (buf, pos)
  | c :: l' => if pos <? bufsize - 1 then buf' ← aset buf pos c; emit bufsize l' buf' (pos + 1) else Some (buf, pos)
  end.

(** [fmt] without its NUL.  A lone [%] at the end makes the loop read past it. *)
Fixpoint vsn_loop (bufsize : Z) (fmt : list Z) (args : list arg) (buf : list Z) (pos : Z) {struct fmt} : option (list Z * Z) :=
  match fmt with
  | [] => Some (buf, pos)
  | c :: f =>
      if pos <? bufsize - 1 then
        if c =? 37 then
          match f with
          | [] => None
          | k :: f' =>
              '(l, args') ← convert k args;
              '(buf', pos') ← emit bufsize l buf pos;
              vsn_loop bufsize f' args' buf' pos'
          end
        else buf' ← aset buf pos c; vsn_loop bufsize f args buf' (pos + 1)
      else Some (buf, pos)
  end.
Definition vsnprintf_simple (buf : list Z) (bufsize : Z) (fmt : list Z) (args : list arg) : option (list Z * Z) :=
  '(buf', pos) ← vsn_loop bufsize fmt args buf 0;
  buf'' ← aset buf' pos 0; Some (buf'', pos).

(** ** The ring of entries *)

Record log_entry := mk_entry { timestamp : Z; level : Z; source : list Z; message : list Z }.
Record log := mk_log {
  current_level : Z; log_buffer : list log_entry; log_head : Z; log_total_count : Z; log_error_total : Z }.

(** The buffer of [kernel_printf] is an uninitialised local array of 256 bytes,
    of which only what the formatter stored is read. *)
Definition kernel_printf (fmt : list Z) (args : list arg) : M log unit :=
  let* r := of_opt (vsnprintf_simple (replicate 256 0) 256 fmt args) in puts_bytes (cstr r.1).

Definition name_of (l : Z) : M log (list Z) := let* n := of_opt (aget level_names l) in ret (bytes n).

(** [source[i]] up to seven characters, then NUL. *)
Definition copy_source (src old : list Z) : list Z :=
  let t := take (Z.to_nat (LOG_SOURCE_LEN - 1)) src in t ++ 0 :: drop (S (length t)) old.

(** The new entry (lines 157 to 175). *)
Definition fill_entry (ticks lv : Z) (src fmt : list Z) (args : list arg) (e : log_entry) : option log_entry :=
  '(msg, _) ← vsnprintf_simple (message e) LOG_MSG_LEN fmt args;
  Some (mk_entry ticks lv (copy_source src (source e)) msg).

Definition line_fmt : list Z := bytes "%s[%5s]%s [%s] %s".

(** [ticks] is what [timer_get_ticks] returns. *)
Definition log_write (ticks lv : Z) (src fmt : list Z) (args : list arg) : M log unit :=
  let* s := get in
  if lv <? current_level s then ret tt else
  let* e := of_opt (aget (log_buffer s) (log_head s)) in
  let* e' := of_opt (fill_entry ticks lv src fmt args e) in
  let* b := of_opt (aset (log_buffer s) (log_head s) e') in
  put (mk_log (current_level s) b (u32 (log_head s + 1) mod LOG_MAX_ENTRIES) (u32 (log_total_count s + 1))
         (if LOG_ERROR <=? lv then u32 (log_error_total s + 1) else log_error_total s)) ;;;
  let* color := of_opt (aget level_colors lv) in
  let* name := name_of lv in
  kernel_printf line_fmt [AStr (Some color); AStr (Some name); AStr (Some COLOR_RESET); AStr (Some (source e')); AStr (Some (message e'))].

Definition clear_entry (e : log_entry) : log_entry :=
  mk_entry 0 LOG_NONE (match source e with [] => [] | _ :: r => 0 :: r end) (match message e with [] => [] | _ :: r => 0 :: r end).
Definition log_init (ticks : Z) : M log unit :=
  modify (fun s => mk_log LOG_INFO (map clear_entry (log_buffer s)) 0 0 0) ;;;
  let* name := name_of LOG_INFO in
  log_write ticks LOG_INFO (bytes "LOG") (bytes "Logging initialized (level=%s)") [AStr (Some name)].

Definition log_set_level (lv : Z) : M log unit :=
  if lv <=? LOG_NONE then
    modify (fun s => mk_log lv (log_buffer s) (log_head s) (log_total_count s) (log_error_total s))
  else ret tt.
Definition log_get_level : M log Z := let* s := get in ret (current_level s).

Definition dump_fmt : list Z := bytes "  [%5s] t=%d [%s] %s".
Fixpoint dump_loop (start i : Z) (n : nat) : M log unit :=
  match n with
  | O => ret tt
  | S n' =>
      let* s := get in
      let* e := of_opt (aget (log_buffer s) (u32 (start + i) mod LOG_MAX_ENTRIES)) in
      let* name := name_of (level e) in
      kernel_printf dump_fmt [AStr (Some name); AInt (timestamp e); AStr (Some (source e)); AStr (Some (message e))] ;;;
      dump_loop start (i + 1) n'
  end.
Definition log_dump : M log unit :=
  let* s := get in
  let t := log_total_count s in
  let count := if t <? LOG_MAX_ENTRIES then t else LOG_MAX_ENTRIES in
  let start := if t <? LOG_MAX_ENTRIES then 0 else t - LOG_MAX_ENTRIES in
  kernel_printf (bytes "=== Log Buffer (%d entries) ===") [AInt count] ;;;
  dump_loop start 0 (Z.to_nat count).

Definition log_count : M log Z := let* s := get in ret (log_total_count s).
Definition log_error_count : M log Z := let* s := get in ret (log_error_total s).

(** ** The formatter against its reference *)

(** The decimal text of an integer, by the library's printer. *)
Definition dec_text (z : Z) : list Z := bytes (pretty z).
(** Hexadecimal without leading zeros, most significant digit first. *)
Fixpoint hex_text (hex : list Z) (n : nat) (z : Z) : list Z :=
  match n with
  | O => []
  | S n' => (if z <? 16 then [] else hex_text hex n' (z / 16)) ++ [nth (Z.to_nat (z mod 16)) hex 0]
  end.

Definition conversion (k : Z) (args : list arg) : option (list Z * list arg) :=
  match args with
  | AInt z :: r =>
      if (k =? 100) || (k =? 105) then (if i32 z =? INT32_MIN then None else Some (dec_text (i32 z), r))
      else if k =? 117 then Some (dec_text (u32 z), r)
      else if k =? 120 then Some (hex_text lower_hex 8 (u32 z), r)
      else if k =? 88 then Some (hex_text upper_hex 8 (u32 z), r)
      else if k =? 99 then Some ([u8 z], r)
      else if k =? 115 then None
      else Some (if k =? 37 then [37] else [], args)
  | AStr s :: r =>
      if k =? 115 then Some (default (bytes "(null)") (cstr <$> s), r)
      else if existsb (Z.eqb k) [100; 105; 117; 120; 88; 99] then None
      else Some (if k =? 37 then [37] else [], args)
  | [] =>
      if existsb (Z.eqb k) [100; 105; 117; 120; 88; 99; 115] then None
      else Some (if k =? 37 then [37] else [], args)
  end.

(** The text of a format and its arguments, of whatever length. *)
Fixpoint render (fmt : list Z) (args : list arg) {struct fmt} : option (list Z) :=
  match fmt with
  | [] => Some []
  | c :: f =>
      if c =? 37 then
        match f with
        | [] => None
        | k :: f' => '(l, args') ← conversion k args; t ← render f' args'; Some (l ++ t)
        end
      else t ← render f args; Some (c :: t)
  end.

Lemma bytes_app a b : bytes (a +:+ b) = bytes a ++ bytes b.
Proof. induction a as [|c a IH]; [done|]. exact (f_equal (cons _) IH). Qed.
Lemma digit_byte x : (x < 10)%N -> Z.of_nat (Ascii.nat_of_ascii (pretty_N_char x)) = 48 + Z.of_N x.
Proof.
  intros Hx. assert (x = 0 \/ x = 1 \/ x = 2 \/ x = 3 \/ x = 4 \/ x = 5 \/ x = 6 \/ x = 7 \/ x = 8 \/ x = 9)%N as Hi by lia.
  by destruct_or! Hi; subst.
Qed.

Lemma dec_digits_go n : forall v s, 0 <= v < 10 ^ Z.of_nat n ->
  rev (dec_digits n v) ++ bytes s = bytes (pretty_N_go (Z.to_N v) s).
Proof.
  induction n as [|n IH]; intros v s Hv.
  - change (10 ^ Z.of_nat 0) with 1 in Hv. replace v with 0 by lia. reflexivity.
  - cbn [dec_digits]. destruct (Z.ltb_spec 0 v) as [Hp|Hp]; [|replace v with 0 by lia; reflexivity].
    rewrite pretty_N_go_step by lia. cbn [rev]. rewrite <- app_assoc.
    replace (Z.to_N v `div` 10)%N with (Z.to_N (v / 10)) by (rewrite Z2N.inj_div by lia; reflexivity).
    rewrite <- IH.
    + f_equal. unfold bytes at 2. cbn [map String.list_ascii_of_string]. rewrite digit_byte by (apply N.mod_lt; lia).
      f_equal. rewrite N2Z.inj_mod, Z2N.id by lia. reflexivity.
    + rewrite Nat2Z.inj_succ, Z.pow_succ_r in Hv by lia. split; [zlia|]. apply Z.div_lt_upper_bound; lia.
Qed.
Lemma dec_digits_text v : 0 < v < 2 ^ 32 -> rev (dec_digits 10 v) = dec_text v.
Proof.
  intros Hv. pose proof (dec_digits_go 10 v "" ltac:(lia)) as E. rewrite app_nil_r in E. rewrite E. unfold dec_text.
  destruct v as [|p|p]; [lia| |lia]. reflexivity.
Qed.
Lemma tmp_unsigned_text v : 0 <= v < 2 ^ 32 -> rev (tmp_unsigned v) = dec_text v.
Proof. intros Hv. unfold tmp_unsigned. destruct (Z.eqb_spec v 0) as [->|]; [done|]. apply dec_digits_text. lia. Qed.
Lemma tmp_int_text v : - 2 ^ 31 < v < 2 ^ 31 -> tmp_int v = Some (rev (dec_text v)).
Proof.
  intros Hv. unfold tmp_int, INT32_MIN. rewrite (proj2 (Z.eqb_neq v _)) by lia. f_equal. destruct (Z.ltb_spec v 0) as [Hn|Hp].
  - rewrite (proj2 (Z.eqb_neq _ _)) by lia. destruct v as [|p|p]; [lia..|].
    unfold dec_text. change (pretty (Z.neg p)) with ("-" +:+ pretty (Z.pos p)). rewrite bytes_app, rev_app_distr.
    change (rev (bytes "-")) with [45]. f_equal. rewrite <- (rev_involutive (dec_digits 10 _)), dec_digits_text by lia. reflexivity.
  - rewrite Z.abs_eq by lia. rewrite <- (rev_involutive (if v =? 0 then _ else _)). f_equal.
    apply (tmp_unsigned_text v). lia.
Qed.

Lemma hex_digits_text hex n : forall v, 0 < v < 16 ^ Z.of_nat n -> rev (hex_digits hex n v) = hex_text hex n v.
Proof.
  induction n as [|n IH]; intros v Hv; [change (16 ^ Z.of_nat 0) with 1 in Hv; lia|].
  cbn [hex_digits hex_text]. rewrite (proj2 (Z.ltb_lt 0 v)) by lia. cbn [rev].
  change 15 with (2 ^ 4 - 1). rewrite land_low by lia. rewrite Z.shiftr_div_pow2 by lia. change (2 ^ 4) with 16.
  f_equal. destruct (Z.ltb_spec v 16).
  - rewrite Z.div_small by lia. by destruct n.
  - apply IH. rewrite Nat2Z.inj_succ, Z.pow_succ_r in Hv by lia. split; [apply Z.div_str_pos; lia|apply Z.div_lt_upper_bound; lia].
Qed.
Lemma tmp_hex_text hex v : nth 0 hex 0 = 48 -> 0 <= v < 2 ^ 32 -> rev (tmp_hex hex v) = hex_text hex 8 v.
Proof.
  intros Hh Hv. unfold tmp_hex. destruct (Z.eqb_spec v 0) as [->|]; [by rewrite <- Hh|]. apply hex_digits_text. lia.
Qed.

Lemma convert_ok k args : convert k args = conversion k args.
Proof.
  unfold convert, conversion, existsb.
  destruct (Z.eqb_spec k 100) as [->|]; [|destruct (Z.eqb_spec k 105) as [->|]].
  1,2: cbn; destruct args as [|[z|[t|]] r]; try done; pose proof (i32_range z);
    unfold INT32_MIN; destruct (Z.eqb_spec (i32 z) (- 2 ^ 31)) as [E|]; [by rewrite E|];
    rewrite tmp_int_text by lia; cbn; by rewrite rev_involutive.
  destruct (Z.eqb_spec k 117) as [->|].
  { cbn. destruct args as [|[z|[t|]] r]; try done. by rewrite tmp_unsigned_text by apply u32_range. }
  destruct (Z.eqb_spec k 120) as [->|]; [|destruct (Z.eqb_spec k 88) as [->|]].
  1,2: cbn; destruct args as [|[z|[t|]] r]; try done; by rewrite tmp_hex_text by (done || apply u32_range).
  destruct (Z.eqb_spec k 115) as [->|]; [by destruct args as [|[z|[t|]] r]|].
  destruct (Z.eqb_spec k 99) as [->|]; [by destruct args as [|[z|[t|]] r]|].
  destruct (Z.eqb_spec k 37) as [->|]; by destruct args as [|[z|[t|]] r].
Qed.

(** Storing behind the text written so far. *)
Lemma aset_app (text rest : list Z) (r c : Z) : aset (text ++ r :: rest) (Z.of_nat (length text)) c = Some (text ++ c :: rest).
Proof.
  rewrite aset_in by (rewrite length_app; cbn; lia). by rewrite Nat2Z.id, insert_app_r_alt, Nat.sub_diag by lia.
Qed.

(** The characters of [t] that fit behind [m] others in a buffer of [n], its NUL
    included. *)
Definition fitting (n : Z) (m : nat) (t : list Z) : list Z := take (Z.to_nat (n - 1) - m) t.
Lemma fitting_app n m a b : fitting n m (a ++ b) = fitting n m a ++ fitting n (m + length (fitting n m a)) b.
Proof.
  unfold fitting. rewrite take_app. f_equal. rewrite length_take. f_equal. lia.
Qed.

Lemma emit_run n l : forall text rest, n - Z.of_nat (length text) <= Z.of_nat (length rest) ->
  let t := fitting n (length text) l in
  emit n l (text ++ rest) (Z.of_nat (length text)) = Some ((text ++ t) ++ drop (length t) rest, Z.of_nat (length (text ++ t))).
Proof.
  induction l as [|c l IH]; intros text rest Hr; cbn zeta.
  - unfold fitting. rewrite take_nil, app_nil_r. reflexivity.
  - cbn [emit]. unfold fitting in *. destruct (Z.ltb_spec (Z.of_nat (length text)) (n - 1)) as [Hlt|Hge].
    + destruct rest as [|r rest]; [cbn in Hr; lia|]. rewrite aset_app. cbn [mbind option_bind].
      specialize (IH (text ++ [c]) rest). rewrite length_app in IH. cbn [length] in IH, Hr.
      replace (Z.of_nat (length text + 1)) with (Z.of_nat (length text) + 1) in IH by lia.
      rewrite (cons_middle c text rest), app_assoc, IH by lia.
      replace (Z.to_nat (n - 1) - length text)%nat with (S (Z.to_nat (n - 1) - (length text + 1)))%nat by lia.
      cbn [take length drop]. by rewrite <- !app_assoc.
    + replace (Z.to_nat (n - 1) - length text)%nat with 0%nat by lia. cbn [take length drop]. by rewrite app_nil_r.
Qed.

Lemma vsn_run n : forall fmt args text rest t, n - Z.of_nat (length text) <= Z.of_nat (length rest) ->
  render fmt args = Some t -> let u := fitting n (length text) t in
  vsn_loop n fmt args (text ++ rest) (Z.of_nat (length text)) =
  Some ((text ++ u) ++ drop (length u) rest, Z.of_nat (length (text ++ u))).
Proof.
  intros fmt. induction fmt as [fmt IH] using (induction_ltof1 _ (@length Z)). unfold ltof in IH.
  intros args text rest t Hr Hf. cbn zeta. destruct fmt as [|c f]; cbn [render vsn_loop] in *.
  { injection Hf as <-. unfold fitting. rewrite take_nil, app_nil_r. reflexivity. }
  destruct (Z.ltb_spec (Z.of_nat (length text)) (n - 1)) as [Hlt|Hge].
  2:{ unfold fitting. replace (Z.to_nat (n - 1) - length text)%nat with 0%nat by lia. cbn [take length drop]. by rewrite app_nil_r. }
  destruct (c =? 37).
  - destruct f as [|k f]; [done|]. rewrite convert_ok. destruct (conversion k args) as [[l args']|]; [|done].
    cbn [mbind option_bind] in *. destruct (render f args') as [t'|] eqn:Ef; [|done]. injection Hf as <-.
    rewrite emit_run by done. cbn [mbind option_bind]. set (u := fitting n (length text) l).
    assert (Hu : (length u <= length rest)%nat).
    { unfold u, fitting. rewrite length_take. lia. }
    rewrite (IH f ltac:(cbn; lia) args' (text ++ u) (drop (length u) rest) t'); [|rewrite length_app, length_drop; lia|done].
    rewrite fitting_app. fold u. rewrite length_app, !app_assoc, drop_drop, !length_app. do 2 f_equal.
  - destruct (render f args) as [t'|] eqn:Ef; [|done]. injection Hf as <-.
    destruct rest as [|r rest]; [cbn in Hr; lia|]. rewrite aset_app. cbn [mbind option_bind].
    replace (Z.of_nat (length text) + 1) with (Z.of_nat (length (text ++ [c]))) by (rewrite length_app; cbn; lia).
    rewrite (cons_middle c text rest), app_assoc. rewrite (IH f ltac:(cbn; lia) args (text ++ [c]) rest t'); [|rewrite length_app; cbn in *; lia|done].
    change (c :: t') with ([c] ++ t'). rewrite fitting_app.
    assert (E1 : fitting n (length text) [c] = [c]).
    { unfold fitting. destruct (Z.to_nat (n - 1) - length text)%nat eqn:E; [lia|]. cbn [take]. by rewrite take_nil. }
    rewrite E1, length_app. cbn [length]. by rewrite !app_assoc.
Qed.

Lemma vsnprintf_run buf n fmt args t : 0 < n <= Z.of_nat (length buf) -> render fmt args = Some t ->
  let u := take (Z.to_nat (n - 1)) t in
  vsnprintf_simple buf n fmt args = Some (u ++ 0 :: drop (S (length u)) buf, Z.of_nat (length u)).
Proof.
  intros Hn Hf u. unfold vsnprintf_simple.
  pose proof (vsn_run n fmt args [] buf t ltac:(cbn; lia) Hf) as E. cbn [app length] in E. cbn zeta in E.
  unfold fitting in E. rewrite Nat.sub_0_r in E. fold u in E. change (Z.of_nat 0) with 0 in E. rewrite E. cbn [mbind option_bind].
  assert (Hu : (length u < length buf)%nat) by (unfold u; rewrite length_take; lia).
  destruct (drop (length u) buf) as [|r rest] eqn:Ed; [apply (f_equal length) in Ed; rewrite length_drop in Ed; cbn in Ed; lia|].
  rewrite aset_app. cbn [mbind option_bind]. do 4 f_equal. replace (S (length u)) with (length u + 1)%nat by lia.
  by rewrite <- drop_drop, Ed.
Qed.

(** C35: [vsnprintf_simple] against its reference.  On a buffer of at least
    [bufsize] bytes, for every format and arguments that [render] accepts, the
    formatter stores the rendered text cut off at [bufsize - 1] characters, a NUL
    behind it, nothing else, and returns the number of characters stored; no store
    leaves the buffer. *)
Theorem vsnprintf_renders buf bufsize fmt args t (Hn : 0 < bufsize <= Z.of_nat (length buf)) (Hf : render fmt args = Some t) :
  exists k, vsnprintf_simple buf bufsize fmt args = Some (take k t ++ 0 :: drop (S k) buf, Z.of_nat k) /\
    k = Nat.min (Z.to_nat (bufsize - 1)) (length t).
Proof.
  pose proof (vsnprintf_run buf bufsize fmt args t Hn Hf) as E. cbn zeta in E. rewrite length_take in E.
  eexists. split; [|reflexivity]. rewrite E. do 3 f_equal.
  destruct (Nat.min_spec (Z.to_nat (bufsize - 1)) (length t)) as [[_ ->]|[? ->]]; [done|]. by rewrite !take_ge by lia.
Qed.

(** ** The ring *)

(** One call of [log_write], and what a reader of the log should find of it. *)
Record call := mk_call { c_ticks : Z; c_level : Z; c_src : list Z; c_fmt : list Z; c_args : list arg }.
Definition write (c : call) : M log unit := log_write (c_ticks c) (c_level c) (c_src c) (c_fmt c) (c_args c).
Definition call_ok (c : call) : Prop :=
  0 <= c_level c <= LOG_NONE /\ Forall (fun x => x <> 0) (c_src c) /\ is_Some (render (c_fmt c) (c_args c)).
Definition seen (e : log_entry) : Z * Z * list Z * list Z := (timestamp e, level e, cstr (source e), cstr (message e)).
Definition expected (c : call) : Z * Z * list Z * list Z :=
  (c_ticks c, c_level c, take 7 (c_src c), cstr (take 127 (default [] (render (c_fmt c) (c_args c))))).
Definition errors (h : list (Z * Z * list Z * list Z)) : list _ := filter (fun x => LOG_ERROR <= x.1.1.2) h.

(** The entries [log_dump] visits, oldest first. *)
Definition recent (s : log) : list log_entry :=
  let t := log_total_count s in
  if t <? LOG_MAX_ENTRIES then ring (log_buffer s) 0 (Z.to_nat t) else ring (log_buffer s) ((t - LOG_MAX_ENTRIES) mod LOG_MAX_ENTRIES) 64.

Definition entry_wf (e : log_entry) : Prop := length (source e) = 8%nat /\ length (message e) = 128%nat /\ 0 <= level e <= LOG_NONE.

(** The log holds the history [h], oldest first. *)
Record log_ok (s : log) (h : list (Z * Z * list Z * list Z)) : Prop := {
  l_len : length (log_buffer s) = 64%nat;
  l_wf : Forall entry_wf (log_buffer s);
  l_small : Z.of_nat (length h) < 2 ^ 32;
  l_total : log_total_count s = Z.of_nat (length h);
  l_head : log_head s = Z.of_nat (length h) mod 64;
  l_recent : map seen (recent s) = drop (length h - 64) h;
  l_errors : log_error_total s = Z.of_nat (length (errors h)) }.

Lemma cstr_cut l r : cstr (l ++ 0 :: r) = cstr l.
Proof. induction l as [|c l IH]; [done|]. cbn. case_match; [done|]. by rewrite IH. Qed.
Lemma cstr_nz l : Forall (fun x => x <> 0) l -> cstr l = l.
Proof. induction 1 as [|c l Hc _ IH]; [done|]. cbn. rewrite (proj2 (Z.eqb_neq c 0)) by done. by rewrite IH. Qed.

Lemma fill_entry_run c e : call_ok c -> entry_wf e -> exists e',
  fill_entry (c_ticks c) (c_level c) (c_src c) (c_fmt c) (c_args c) e = Some e' /\ entry_wf e' /\ seen e' = expected c.
Proof.
  intros (Hl & Hs & [t Ht]) (Ls & Lm & _). unfold fill_entry.
  rewrite (vsnprintf_run (message e) LOG_MSG_LEN (c_fmt c) (c_args c) t) by (done || (rewrite Lm; split; done)).
  cbn [mbind option_bind]. eexists. split; [reflexivity|]. change (Z.to_nat (LOG_MSG_LEN - 1)) with 127%nat.
  unfold copy_source. change (Z.to_nat (LOG_SOURCE_LEN - 1)) with 7%nat.
  pose proof (length_take (c_src c) 7). pose proof (length_take t 127). split.
  - split_and!; cbn [source message level]; [rewrite length_app; cbn [length]; rewrite length_drop; lia..|lia|lia].
  - unfold seen, expected. cbn [source message level timestamp]. rewrite !cstr_cut, Ht. cbn [default].
    by rewrite (cstr_nz (take 7 (c_src c))) by (by apply Forall_take).
Qed.

(** The line that [log_write] prints. *)
Definition log_line (lv : Z) (src : list Z) : list Z :=
  default [] (level_colors !! Z.to_nat lv) ++ bytes "[s]" ++ bytes (default ""%string (level_names !! Z.to_nat lv)) ++
  bytes " [" ++ COLOR_RESET ++ bytes "] " ++ take 7 src.

Lemma line_render c n r src m : render line_fmt [AStr (Some c); AStr (Some n); AStr (Some r); AStr (Some src); m] =
  Some (cstr c ++ bytes "[s]" ++ cstr n ++ bytes " [" ++ cstr r ++ bytes "] " ++ cstr src).
Proof. rewrite <- (app_nil_r (cstr src)). reflexivity. Qed.

(** The name and the colour of a level. *)
Lemma level_text lv : 0 <= lv <= LOG_NONE -> exists c n, aget level_colors lv = Some c /\ aget level_names lv = Some n /\
  default [] (level_colors !! Z.to_nat lv) = cstr c /\ bytes (default ""%string (level_names !! Z.to_nat lv)) = cstr (bytes n) /\
  (length (cstr c) <= 5)%nat /\ (length (cstr (bytes n)) <= 5)%nat.
Proof.
  unfold LOG_NONE. intros Hl. assert (H : lv = 0 \/ lv = 1 \/ lv = 2 \/ lv = 3 \/ lv = 4 \/ lv = 5 \/ lv = 6) by lia.
  destruct_or! H; subst lv; do 2 eexists; split_and!; (reflexivity || (apply Nat.leb_le; reflexivity)).
Qed.

Lemma kernel_printf_run fmt args t s : render fmt args = Some t ->
  kernel_printf fmt args s = Ok (tt, s, Pl011.uart_puts (cstr (take 255 t))).
Proof.
  intros Hf. unfold kernel_printf. rewrite (vsnprintf_run (replicate 256 0) 256 fmt args t ltac:(split; [lia|done]) Hf), bind_some.
  cbn [fst]. by rewrite cstr_cut.
Qed.
Lemma name_of_run lv n s : aget level_names lv = Some n -> name_of lv s = Ok (bytes n, s, []).
Proof. unfold name_of. intros ->. by rewrite bind_some. Qed.

(** Storing at the head drops the oldest entry once the ring is full. *)
Lemma recent_push cl b t er er' e : length b = 64%nat -> 0 <= t < 2 ^ 32 - 1 ->
  recent (mk_log cl (<[Z.to_nat (t mod 64) := e]> b) ((t + 1) mod 64) (t + 1) er') =
  (if t <? 64 then recent (mk_log cl b (t mod 64) t er) else tail (recent (mk_log cl b (t mod 64) t er))) ++ [e].
Proof.
  intros Hb Ht. unfold recent. cbn [log_total_count log_buffer]. unfold LOG_MAX_ENTRIES. destruct (Z.ltb_spec t 64) as [Hs|Hs].
  - pose proof (ring_push b 0 (Z.to_nat t) e ltac:(lia) ltac:(lia)) as E. rewrite Hb in E. rewrite ring_ix_small in E by lia.
    rewrite Z.mod_small by lia. replace (0 + Z.of_nat (Z.to_nat t)) with t in E by lia.
    replace (S (Z.to_nat t)) with (Z.to_nat (t + 1)) in E by lia. rewrite <- E.
    destruct (Z.ltb_spec (t + 1) 64); [reflexivity|]. assert (t = 63) as -> by lia.
    change ((63 + 1 - 64) mod 64) with 0. change (Z.to_nat (63 + 1)) with 64%nat. reflexivity.
  - rewrite (proj2 (Z.ltb_ge _ _)) by lia.
    assert (Hm : 0 <= t mod 64 < Z.of_nat (length b)) by (rewrite Hb; apply Z.mod_pos_bound; lia).
    pose proof (ring_overwrite b (t mod 64) 63 e Hb Hm) as E. rewrite Hb in E. change (Z.of_nat 64) with 64 in E.
    replace ((t - 64) mod 64) with (t mod 64) by zlia. replace ((t + 1 - 64) mod 64) with ((t mod 64 + 1) mod 64) by zlia.
    exact E.
Qed.
Lemma last_64 {A} (h : list A) x : (if Z.of_nat (length h) <? 64 then drop (length h - 64) h else tail (drop (length h - 64) h)) ++ [x] =
  drop (length (h ++ [x]) - 64) (h ++ [x]).
Proof.
  rewrite length_app. cbn [length]. destruct (Z.ltb_spec (Z.of_nat (length h)) 64).
  - by rewrite (proj2 (Nat.sub_0_le (length h) 64)), (proj2 (Nat.sub_0_le (length h + 1) 64)) by lia.
  - rewrite (drop_app_le h [x]) by lia. f_equal. replace (tail (drop (length h - 64) h)) with (drop 1 (drop (length h - 64) h)) by (by destruct (drop _ h)).
    rewrite drop_drop. f_equal. lia.
Qed.
Lemma errors_snoc h x er : er = Z.of_nat (length (errors h)) -> Z.of_nat (length h) + 1 < 2 ^ 32 ->
  (if LOG_ERROR <=? x.1.1.2 then u32 (er + 1) else er) = Z.of_nat (length (errors (h ++ [x]))).
Proof.
  intros -> Hh. unfold errors. rewrite filter_app, length_app. pose proof (length_filter (fun x => LOG_ERROR <= x.1.1.2) h).
  cbn [filter list_filter]. destruct (Z.leb_spec LOG_ERROR x.1.1.2); [rewrite decide_True by done|rewrite decide_False by lia]; cbn [length]; [|lia].
  rewrite u32_small; lia.
Qed.

(** One accepted message. *)
Lemma log_write_run s h c : log_ok s h -> call_ok c -> current_level s <= c_level c -> Z.of_nat (length h) + 1 < 2 ^ 32 ->
  exists s', write c s = Ok (tt, s', Pl011.uart_puts (cstr (log_line (c_level c) (c_src c)))) /\
    log_ok s' (h ++ [expected c]) /\ current_level s' = current_level s.
Proof.
  intros [Hn Hw Hsm Ht Hh Hr He] Hc Hlv Hlt. pose proof Hc as (Hl & Hs & _). unfold write, log_write. rewrite bind_get.
  rewrite (proj2 (Z.ltb_ge _ _)) by lia. pose proof (Z.mod_pos_bound (Z.of_nat (length h)) 64 ltac:(lia)) as Hhd. rewrite <- Hh in Hhd.
  destruct (aget_in (log_buffer s) (log_head s)) as [e Ee]; [lia|]. rewrite Ee, bind_some.
  destruct (fill_entry_run c e Hc) as (e' & Ef & Hw' & Hs'); [by eapply Forall_lookup_1, aget_Some|].
  rewrite Ef, bind_some, aset_in, bind_some by lia. erewrite bind_ok by reflexivity.
  destruct (level_text (c_level c) Hl) as (co & n & Ec & En & Dc & Dn & Lc & Ln). rewrite Ec, bind_some.
  assert (Es : cstr (source e') = take 7 (c_src c)) by (injection Hs'; auto).
  assert (Hline : cstr co ++ bytes "[s]" ++ cstr (bytes n) ++ bytes " [" ++ cstr COLOR_RESET ++ bytes "] " ++ cstr (source e') =
    log_line (c_level c) (c_src c)) by (unfold log_line; by rewrite Dc, Dn, Es).
  eexists. split.
  - rewrite (bind_ok _ _ _ _ _ (name_of_run _ _ _ En)), (kernel_printf_run _ _ _ _ (line_render _ _ _ _ _)).
    rewrite Hline, take_ge; [reflexivity|]. rewrite <- Hline, !length_app, Es, length_take.
    change (length (bytes "[s]")) with 3%nat. change (length (bytes " [")) with 2%nat. change (length (bytes "] ")) with 2%nat.
    change (length (cstr COLOR_RESET)) with 4%nat. lia.
  - split; [|done]. split; cbn [log_buffer log_head log_total_count log_error_total].
    + by rewrite length_insert.
    + by apply Forall_insert.
    + rewrite length_app. cbn. lia.
    + rewrite length_app, Ht, u32_small by lia. cbn. lia.
    + rewrite length_app, Hh, u32_small by (rewrite <- Hh; lia). cbn. unfold LOG_MAX_ENTRIES. rewrite Zplus_mod_idemp_l. f_equal. lia.
    + rewrite <- last_64, <- Hr, <- Hs'. rewrite Hh, Ht, (u32_small (_ mod _ + 1)), (u32_small (Z.of_nat _ + 1)) by (rewrite <- ?Hh; lia).
      unfold LOG_MAX_ENTRIES. rewrite Zplus_mod_idemp_l, (recent_push _ _ _ (log_error_total s)) by lia. rewrite map_app. f_equal.
      destruct s as [cl b hd t er]. cbn in *. subst hd t. destruct (_ <? 64); [reflexivity|].
      by destruct (recent (mk_log cl b _ _ er)).
    + by apply (errors_snoc h (expected c)).
Qed.

Lemma log_write_dropped s c : c_level c < current_level s -> write c s = Ok (tt, s, []).
Proof. intros Hl. unfold write, log_write. rewrite bind_get. by rewrite (proj2 (Z.ltb_lt _ _)). Qed.

(** A client of the log: messages, and changes of the threshold. *)
Inductive log_op := OWrite (c : call) | OLevel (lv : Z).
Fixpoint run_ops (ops : list log_op) : M log unit :=
  match ops with
  | [] => ret tt
  | OWrite c :: r => write c ;;; run_ops r
  | OLevel lv :: r => log_set_level lv ;;; run_ops r
  end.
Definition op_ok (o : log_op) : Prop := match o with OWrite c => call_ok c | OLevel lv => 0 <= lv end.

(** The messages that pass the threshold. *)
Fixpoint history (lv : Z) (ops : list log_op) : list (Z * Z * list Z * list Z) :=
  match ops with
  | [] => []
  | OWrite c :: r => if lv <=? c_level c then expected c :: history lv r else history lv r
  | OLevel l :: r => history (if l <=? LOG_NONE then l else lv) r
  end.

Lemma run_ops_ok ops : forall s h, log_ok s h -> Forall op_ok ops ->
  Z.of_nat (length h + length (history (current_level s) ops)) < 2 ^ 32 ->
  wp (run_ops ops) (fun _ s' _ => log_ok s' (h ++ history (current_level s) ops)) s.
Proof.
  induction ops as [|[c|lv] ops IH]; intros s h Hok Ho Hl; cbn [run_ops history] in *.
  - by rewrite app_nil_r.
  - apply Forall_cons in Ho as [Hc Ho]. apply wp_bind. destruct (Z.leb_spec (current_level s) (c_level c)) as [Hle|Hgt].
    + cbn [length] in Hl. destruct (log_write_run s h c Hok Hc Hle ltac:(lia)) as (s' & E & Hok' & Elv).
      eapply wp_intro; [exact E|]. rewrite <- Elv in Hl |- *. eapply wp_mono; [apply (IH s' _ Hok' Ho); rewrite length_app; cbn; lia|].
      intros ? s2 o2. cbn. by rewrite <- app_assoc.
    + eapply wp_intro; [by apply log_write_dropped|]. by apply IH.
  - apply Forall_cons in Ho as [_ Ho]. apply wp_bind. unfold log_set_level. case_match.
    + apply wp_modify. apply (IH (mk_log lv _ _ _ _)); [|done|done]. by destruct Hok.
    + apply wp_ret. by apply IH.
Qed.

Definition entry_shape (e : log_entry) : Prop := length (source e) = 8%nat /\ length (message e) = 128%nat.
Definition init_call (ticks : Z) : call :=
  mk_call ticks LOG_INFO (bytes "LOG") (bytes "Logging initialized (level=%s)") [AStr (Some (bytes "INFO"))].

(** C36: the log keeps the newest 64 messages.  After [log_init] and any sequence
    of messages and threshold changes, with fewer than 2^32 accepted messages,
    the entries that [log_dump] visits are the last 64 messages that passed the
    threshold, oldest first, each with its tick count, level, source cut at seven
    characters and text cut at 127; the counters give the number of accepted
    messages and of those at level ERROR or above. *)
Theorem log_keeps_newest s ticks ops (Hn : length (log_buffer s) = 64%nat) (Hs : Forall entry_shape (log_buffer s))
  (Ho : Forall op_ok ops) (Hl : Z.of_nat (length (history LOG_INFO ops)) < 2 ^ 32 - 1) :
  wp (log_init ticks ;;; run_ops ops)
     (fun _ s' _ => let h := expected (init_call ticks) :: history LOG_INFO ops in
        map seen (recent s') = drop (length h - 64) h /\
        log_total_count s' = Z.of_nat (length h) /\ log_error_total s' = Z.of_nat (length (errors h))) s.
Proof.
  set (s0 := mk_log LOG_INFO (map clear_entry (log_buffer s)) 0 0 0).
  assert (H0 : log_ok s0 []).
  { split; cbn; try done; [by rewrite length_map|]. apply Forall_map. eapply Forall_impl; [exact Hs|]. intros e [Ls Lm].
    unfold clear_entry, entry_wf, LOG_NONE. cbn. by destruct (source e), (message e). }
  destruct (log_write_run s0 [] (init_call ticks) H0) as (s1 & E1 & Hok1 & El1).
  { split; [done|]. split; [by repeat constructor|]. by eexists. }
  { done. }
  { done. }
  apply wp_bind. eapply wp_intro.
  { unfold log_init. rewrite bind_modify. fold s0. rewrite (bind_ok _ _ _ _ _ (name_of_run LOG_INFO "INFO" s0 eq_refl)). exact E1. }
  eapply wp_mono; [apply (run_ops_ok ops s1 _ Hok1 Ho); rewrite El1; change (current_level s0) with LOG_INFO; cbn [app length]; lia|].
  intros ? s2 o2 [_ _ _ Ht _ Hr He]. rewrite El1 in Ht, Hr, He. done.
Qed.

(** ** What it prints *)

(** The formatter knows no field width: in [%5s] the digit is skipped and the [s]
    is text, so every later conversion gets the argument before its own.  A line
    shows the level's name where the colour is reset, and never the message. *)
Theorem log_line_garbled s h c : log_ok s h -> call_ok c -> current_level s <= c_level c -> Z.of_nat (length h) + 1 < 2 ^ 32 ->
  exists s', write c s = Ok (tt, s', Pl011.uart_puts (cstr (log_line (c_level c) (c_src c)))).
Proof. intros Hok Hc Hl Hs. destruct (log_write_run s h c Hok Hc Hl Hs) as (s' & E & _). by exists s'. Qed.

Lemma render_text pre f args t : 37 ∉ pre -> render f args = Some t -> render (pre ++ f) args = Some (pre ++ t).
Proof.
  intros Hp Hf. induction pre as [|c pre IH]; [done|]. cbn [app render]. rewrite (proj2 (Z.eqb_neq c 37)) by set_solver.
  by rewrite IH by set_solver.
Qed.
Lemma render_conv k f args l args' t : conversion k args = Some (l, args') -> render f args' = Some t ->
  render (37 :: k :: f) args = Some (l ++ t).
Proof. intros Hc Hf. cbn [render Z.eqb]. rewrite Hc. cbn [mbind option_bind]. by rewrite Hf. Qed.
Lemma count_render z : i32 z <> INT32_MIN -> exists t, render (bytes "=== Log Buffer (%d entries) ===") [AInt z] = Some t.
Proof.
  intros Hz. eexists. apply (render_text (bytes "=== Log Buffer (") (37 :: 100 :: bytes " entries) ===")); [by vm_compute; set_solver|].
  eapply render_conv; [|apply (render_text (bytes " entries) ===") [] []); [by vm_compute; set_solver|done]].
  apply Z.eqb_neq in Hz. unfold conversion. rewrite Hz. reflexivity.
Qed.

(** In [log_dump] the argument that [%d] gets is a pointer, and the pointer that
    the next [%s] gets is the tick count: undefined as soon as the log has an
    entry. *)
Theorem log_dump_undefined s h : log_ok s h -> h <> [] -> log_dump s = UB.
Proof.
  intros [Hn Hw _ Ht _ _ _] Hh. unfold log_dump. rewrite bind_get. rewrite Ht.
  set (count := if _ <? LOG_MAX_ENTRIES then _ else LOG_MAX_ENTRIES).
  assert (Hc : 1 <= count <= 64) by (unfold count, LOG_MAX_ENTRIES; destruct h; [done|]; case_match; bool_hyps; cbn [length] in *; lia).
  assert (E1 : exists o, kernel_printf (bytes "=== Log Buffer (%d entries) ===") [AInt count] s = Ok (tt, s, o)).
  { destruct (count_render count) as [t Et]; [rewrite i32_small by lia; unfold INT32_MIN; lia|]. eexists. by apply kernel_printf_run. }
  destruct E1 as [o E1]. unfold bind at 1. rewrite E1. destruct (Z.to_nat count) as [|n] eqn:En; [lia|]. cbn [dump_loop]. rewrite bind_get.
  set (start := if _ <? LOG_MAX_ENTRIES then 0 else _).
  destruct (aget_in (log_buffer s) (u32 (start + 0) mod LOG_MAX_ENTRIES)) as [e Ee].
  { rewrite Hn. apply Z.mod_pos_bound. done. }
  rewrite Ee, bind_some. assert (He : entry_wf e) by (by eapply Forall_lookup_1, aget_Some).
  destruct (level_text (level e)) as (co & nm & _ & Enm & _); [by destruct He as (_ & _ & ?)|].
  rewrite (bind_ok _ _ _ _ _ (name_of_run _ _ _ Enm)). reflexivity.
Qed.

(** *** Instances *)

Definition blank_log : log := mk_log 0 (replicate 64 (mk_entry 0 0 (replicate 8 0) (replicate 128 0))) 0 0 0.

Lemma vsnprintf_renders_witness :
  vsnprintf_simple (replicate 8 1) 8 (bytes "n=%d%%") [AInt (-42)] = Some (bytes "n=-42%" ++ [0; 1], 6).
Proof.
  destruct (vsnprintf_renders (replicate 8 1) 8 (bytes "n=%d%%") [AInt (-42)] (bytes "n=-42%")) as (k & E & ->).
  - split; [lia|done].
  - vm_compute. reflexivity.
  - exact E.
Defined.

Lemma log_keeps_newest_witness :
  wp (log_init 7 ;;; run_ops [OLevel 4; OWrite (mk_call 8 3 (bytes "MEM") (bytes "low") []); OWrite (mk_call 9 5 (bytes "DRV") (bytes "gone %x") [AInt 255])])
     (fun _ s' _ => map seen (recent s') =
        [(7, 2, bytes "LOG", bytes "Logging initialized (level=INFO)"); (9, 5, bytes "DRV", bytes "gone ff")] /\
        log_error_total s' = 1) blank_log.
Proof.
  eapply wp_mono; [apply log_keeps_newest|].
  - reflexivity.
  - by apply Forall_replicate.
  - repeat constructor; cbn; (lia || discriminate || by eexists).
  - vm_compute. reflexivity.
  - intros ? s' o (H1 & _ & H2). split; [exact H1|exact H2].
Defined.
