(* ===== verification/AfsMount.v ===== *)
(** * Mounting (kernel/afs.c, [afs_mount])

    The file system across a power cycle: what [afs_mount] finds in a superblock
    and a directory that an earlier boot left behind. *)

From S2P Require Import Prelude Uart Afs AfsSpec.

Section Mount.
Context {D : Type} `{!BlockDevice D}.
Implicit Types s : afs D.

(** The static variables of afs.c at power on, over the driver [d]. *)
Definition at_reset (d : D) : afs D :=
  mk_afs d false 0 0 0 AFS_BASE_LBA (replicate 32 (0, 0)) 0 (replicate 4 (replicate 4096 0)) (replicate 16 empty_dirent).

Lemma volume_same s s' : volume s -> same_volume s s' -> volume s'.
Proof.
  unfold volume. intros Hv (Hb & Ht & _ & Hs). unfold AFS_SB_LBA in *. rewrite Z.add_0_r in *. by rewrite Hb, Ht, Hs.
Qed.

(** ** Resuming the allocator *)

Definition end_of (e : dirent) : Z := start_lba e + sectors_of (dsize e).

Lemma resume_fold l total : total < 2 ^ 32 -> forall n, n <= total ->
  Forall (fun e => in_use e = true -> 0 <= end_of e <= total) l ->
  n <= foldl resume n l <= total /\ forall e, e ∈ l -> in_use e = true -> end_of e <= foldl resume n l.
Proof.
  intros Ht. induction l as [|e l IH]; intros n Hn Hl; [split; [cbn; lia|set_solver]|].
  apply Forall_cons in Hl as [He Hl]. cbn [foldl].
  assert (Hr : n <= resume n e <= total /\ (in_use e = true -> end_of e <= resume n e)).
  { unfold resume, in_use, end_of in *. destruct (start_lba e =? 0); [split; [lia|done]|]. specialize (He eq_refl).
    rewrite u32_small by lia. case_match; bool_hyps; lia. }
  destruct (IH (resume n e)) as [H1 H2]; [lia|done|]. split; [lia|]. intros x [->|Hx]%elem_of_cons Hu; [|by apply H2].
  destruct Hr as [_ Hr]. specialize (Hr Hu). lia.
Qed.

Lemma dir_ends s : afs_wf s -> Forall (fun e => in_use e = true -> 0 <= end_of e <= total_sectors s) (dir s).
Proof.
  intros Hwf. apply Forall_lookup. intros i e Hi Hu. destruct (entry_bounds s i e Hwf Hi Hu) as (Hsz & Hst & He).
  unfold end_of. rewrite sectors_of_small by lia. pose proof (sector_count (dsize e) ltac:(lia)). lia.
Qed.

(** The extents of the files lie below the point where allocation resumes. *)
Lemma resumed_layout s : afs_wf s -> layout (dir s) [] (foldl resume 2 (dir s)).
Proof.
  intros Hwf. pose proof Hwf as (Hs & _ & Hnd & Hall). pose proof (shape_bounds s Hs).
  destruct (resume_fold (dir s) (total_sectors s) ltac:(lia) 2 ltac:(lia) (dir_ends s Hwf)) as [_ Hend].
  unfold layout. change (fsecs []) with (@nil Z). rewrite app_nil_r. split; [by apply NoDup_app in Hnd as [? _]|].
  apply Forall_app in Hall as [Hall _]. rewrite Forall_forall in Hall. apply Forall_forall. intros x Hx.
  split; [by apply Hall|]. unfold dsecs in Hx. apply list_elem_of_In, in_concat in Hx as (l & Hl & Hxl%list_elem_of_In).
  apply in_map_iff in Hl as (e & <- & He%list_elem_of_In). unfold esecs in Hxl. destruct (in_use e) eqn:Hu; [|set_solver].
  apply elem_of_seqZ in Hxl. specialize (Hend e He Hu). unfold end_of in Hend. lia.
Qed.

(** ** [afs_mount] after a power cycle *)

Lemma le_field n k (l l' : list Z) x : (k + n <= 16)%nat -> take 16 l = l' -> 0 <= x < 256 ^ Z.of_nat n ->
  take n (drop k l') = le_bytes n x -> le_word (take n (drop k l)) = x.
Proof.
  intros Hk <- Hx H. rewrite <- (le_word_bytes n x Hx), <- H. f_equal.
  rewrite !take_drop_commute, take_take. f_equal. f_equal. lia.
Qed.

Lemma superblock_fields (l : list Z) total : 0 <= total < 2 ^ 32 -> take 16 l = sb_bytes AFS_MAGIC 1 total 2 ->
  le_word (take 4 l) = AFS_MAGIC /\ le_word (take 4 (drop 4 l)) = 1 /\
  le_word (take 4 (drop 8 l)) = total /\ le_word (take 4 (drop 12 l)) = 2.
Proof.
  intros Ht Hl. change (take 4 l) with (take 4 (drop 0 l)).
  split_and!; (eapply le_field; [|exact Hl| |]; [lia|try done; lia|reflexivity]).
Qed.

Lemma mount_run s :
  afs_wf s -> volume s -> afs_base s = AFS_BASE_LBA ->
  exists s' o, afs_mount (at_reset (dev s)) = Ok (1, s', o) /\ same_volume s s' /\ afs_wf s' /\
    next_free_lba s' <= total_sectors s /\ forall n, file s' n = file s n.
Proof.
  intros Hwf Hv Hb. pose proof Hwf as (Hs & Hd & _). pose proof (shape_bounds s Hs) as (_ & Ht & Hsec).
  destruct (capacity_sectors (dev s)) as [Hcap _]. unfold AFS_BASE_LBA in Hb. unfold afs_mount.
  rewrite (bind_ok get _ _ (at_reset (dev s)) (at_reset (dev s))) by done. cbn [dev at_reset].
  rewrite (proj2 (Z.eqb_neq (vblk_capacity (dev s)) 0)) by lia.
  set (sb := sector (dev s) (afs_base s)). assert (Hsb : length sb = 512%nat) by apply sector_length.
  unfold volume, AFS_SB_LBA in Hv. rewrite Z.add_0_r in Hv. fold sb in Hv.
  destruct (superblock_fields sb (total_sectors s) ltac:(lia) Hv) as (H1 & H2 & H3 & H4).
  rewrite (bind_ok (rd_sectors AFS_SB_LBA 1) _ (at_reset (dev s)) (0, sb) (at_reset (dev s))).
  2: { unfold rd_sectors. rewrite (bind_ok get _ _ (at_reset (dev s)) (at_reset (dev s))) by done. cbn [dev at_reset afs_base].
       change (u32 (AFS_BASE_LBA + AFS_SB_LBA)) with 8192.
       erewrite zoom_ok by (apply vblk_read_law; lia). cbn [dev at_reset].
       rewrite (proj2 (Z.leb_le _ _)) by lia. rewrite seqZ_1. cbn [fmap list_fmap concat].
       rewrite app_nil_r. unfold sb. by rewrite Hb. }
  change (negb (fst (0, sb) =? 0)) with false. cbn [snd].
  rewrite (bind_ok get _ _ (at_reset (dev s)) (at_reset (dev s))) by done. cbn [iobuf at_reset].
  destruct (stage_run (replicate 4 (replicate 4096 0)) 0 sb) as (old & b & Est & Hb0 & Hold & Hb1 & Hb2);
    [done|by apply Forall_replicate|lia|lia|].
  rewrite Est, bind_some. rewrite (bind_ok (put _) _ _ tt (set_iobuf b (at_reset (dev s)))) by done.
  rewrite H1, H2, H3, H4. change (negb (AFS_MAGIC =? AFS_MAGIC) || negb (1 =? 1)) with false. cbv iota.
  set (s1 := set_mounted (total_sectors s) 2 (set_iobuf b (at_reset (dev s)))).
  rewrite (bind_ok (modify _) _ _ tt s1) by done.
  assert (Hs1 : shape s1).
  { unfold shape. cbn. unfold AFS_BASE_LBA. split_and!; try done; try lia. }
  assert (Hdir : dir s1 = dir s) by (unfold dir; cbn; unfold AFS_BASE_LBA; by rewrite Hb).
  rewrite (bind_ok _ _ _ _ _ (dir_load_run s1 Hs1)), Hdir.
  destruct (resume_fold (dir s) (total_sectors s) ltac:(lia) 2 ltac:(lia) (dir_ends s Hwf)) as [Hres _].
  set (s2 := set_next (foldl resume 2 (dir s)) (set_diobuf (dir s) s1)).
  rewrite (bind_ok (modify _) _ _ tt s2) by done.
  destruct (Pl011.uart_dec_spec (u64 (total_sectors s)) (u64_range _)) as (ds & Eds & _).
  exists s2. eexists. split.
  { unfold put_dec, bind, get. cbn -[Pl011.uart_dec u64 Pl011.uart_puts_nolf Pl011.uart_puts]. rewrite Eds. reflexivity. }
  assert (Hdir2 : dir s2 = dir s) by exact Hdir.
  split; [done|]. split; [split; [|split]|].
  - destruct Hs1 as (? & ? & ? & _ & ?). split_and!; try done; apply Hres.
  - by rewrite Hdir2.
  - rewrite Hdir2. by apply resumed_layout.
  - split; [apply Hres|]. intros n. unfold file, contents. rewrite Hdir2. cbn [afs_base dev s2 set_next set_diobuf s1 set_mounted set_iobuf at_reset]. unfold AFS_BASE_LBA. by rewrite Hb.
Qed.

(** ** A volume in service

    The mounted file system is well formed, its superblock is on the disk, and it
    starts at the sector that afs.c is compiled with. *)

Definition in_service s : Prop := afs_wf s /\ volume s /\ afs_base s = AFS_BASE_LBA.

Lemma in_service_keep s s' : in_service s -> same_volume s s' -> afs_wf s' -> in_service s'.
Proof. intros (_ & Hv & Hb) Hsv Hwf. split; [done|]. split; [by eapply volume_same|]. destruct Hsv as [-> _]. done. Qed.

Lemma file_size s n c : in_service s -> file s n = Some c -> 1 <= Z.of_nat (length c) <= 2 ^ 20.
Proof.
  intros [Hwf _] Hf. destruct (file_entry s n c Hwf Hf) as (i & e & _ & _ & _ & -> & Hsz & _).
  unfold contents. rewrite length_map, length_seq. lia.
Qed.

(** Reading a file into a buffer that it fits. *)
Lemma read_end_fits size max : size <= max -> 0 <= max -> read_end size max = size.
Proof. intros. unfold read_end. zlia. Qed.

Lemma wp_mount s (Q : Z -> afs D -> list Z -> Prop) : in_service s ->
  (forall s' o, in_service s' -> (forall n, file s' n = file s n) -> Q 1 s' o) -> wp afs_mount Q (at_reset (dev s)).
Proof.
  intros Hs HQ. pose proof Hs as (Hwf & Hv & Hb). destruct (mount_run s Hwf Hv Hb) as (s' & o & E & Hsv & Hwf' & _ & Hf).
  eapply wp_intro; [exact E|]. apply HQ; [by eapply in_service_keep|done].
Qed.

Lemma wp_read s nm n max (Q : Z * list Z -> afs D -> list Z -> Prop) : in_service s -> name_is nm n -> 0 < max ->
  (forall s', in_service s' -> (forall m, file s' m = file s m) ->
     Q (match file s n with
        | None => (-1, [])
        | Some c => (read_end (Z.of_nat (length c)) max, take (Z.to_nat (read_end (Z.of_nat (length c)) max)) c)
        end) s' []) -> wp (afs_read (Some nm) true max) Q s.
Proof.
  intros Hs Hn Hm HQ. destruct (read_run_volume s nm n max (proj1 Hs) Hn Hm) as (s' & E & Hsv & Hwf' & Hf).
  eapply wp_intro; [exact E|]. apply HQ; [by eapply in_service_keep|done].
Qed.

Lemma wp_write s nm n src len (Q : Z -> afs D -> list Z -> Prop) : in_service s -> name_is nm n -> 1 <= len <= 2 ^ 20 ->
  (forall s', in_service s' -> file s' n = Some (map src (seq 0 (Z.to_nat len))) ->
     (forall m, m <> n -> file s' m = file s m) -> Q len s' []) ->
  (forall s', in_service s' -> (forall m, file s' m = file s m) ->
     (forall c, file s n = Some c -> (Z.of_nat (length c) + 511) / 512 < (len + 511) / 512) -> Q (-1) s' []) ->
  wp (afs_write (Some nm) (Some src) len) Q s.
Proof.
  intros Hs Hn Hl H1 H2. destruct (write_run_volume s nm n src len (proj1 Hs) Hn Hl) as (r & s' & E & [Hsv Hwf'] & H).
  eapply wp_intro; [exact E|]. pose proof (in_service_keep s s' Hs Hsv Hwf').
  destruct H as [(-> & ? & ?)|(-> & ? & ?)]; [by apply H1|by apply H2].
Qed.
End Mount.

(** C29: a file system that was in service is in service again after a power
    cycle: [afs_mount] finds the superblock and returns 1, every file has its old
    content, and allocation resumes below the end of the volume at a place past
    every file. *)
Theorem afs_survives_reboot {D} `{!BlockDevice D} (s : afs D)
  (Hwf : afs_wf s) (Hv : volume s) (Hb : afs_base s = AFS_BASE_LBA) :
  exists s' o, afs_mount (at_reset (dev s)) = Ok (1, s', o) /\ in_service s' /\
    next_free_lba s' <= total_sectors s /\ forall n, file s' n = file s n.
Proof.
  destruct (mount_run s Hwf Hv Hb) as (s' & o & E & Hsv & Hwf' & Hn & Hf). exists s', o. split; [done|]. split; [|done].
  by apply (in_service_keep s).
Qed.

(** ** A disk with a volume at sector 8192 *)

Definition shifted (d : ramdisk) : ramdisk := mk_ramdisk (AFS_BASE_LBA + rd_n d) (fun i => rd_img d (i - AFS_BASE_LBA)).
(** The volume of [s], which starts at sector 0, moved to the place of a GPT image. *)
Definition partition (s : afs ramdisk) : afs ramdisk :=
  mk_afs (shifted (dev s)) (mounted s) (total_sectors s) (data_lba s) (next_free_lba s) AFS_BASE_LBA
    (free_extents s) (free_extent_count s) (iobuf s) (diobuf s).

Lemma partition_in_service (s : afs ramdisk) :
  afs_wf s -> volume s -> afs_base s = 0 -> 0 <= rd_n (dev s) < 2 ^ 30 -> in_service (partition s).
Proof.
  intros (Hs & Hd & Hl) Hv Hb Hn.
  assert (Hsec : forall i, sector (dev (partition s)) (AFS_BASE_LBA + i) = sector (dev s) (0 + i)).
  { intros i. cbn. unfold rd_sector. cbn [rd_img shifted]. by replace (AFS_BASE_LBA + i - AFS_BASE_LBA) with (0 + i) by lia. }
  assert (Hdir : dir (partition s) = dir s).
  { unfold dir. change (afs_base (partition s)) with AFS_BASE_LBA. by rewrite Hsec, Hb. }
  split; [split; [|by rewrite Hdir]|split; [|done]].
  - destruct Hs as (H1 & H2 & H3 & H4 & H5). split; [done|]. split; [done|]. split; [|done].
    cbn in *. rewrite Hb in H3. unfold rd_sectors_of in *. cbn [rd_n shifted]. unfold AFS_BASE_LBA. lia.
  - unfold volume in *. change (afs_base (partition s)) with AFS_BASE_LBA. rewrite Hsec. by rewrite Hb in Hv.
Qed.

Lemma in_service_write (s : afs ramdisk) nm n src len : in_service s -> name_is nm n -> 1 <= len <= 2 ^ 20 ->
  in_service (fs_of (afs_write (Some nm) (Some src) len s)).
Proof.
  intros Hs Hn Hl. destruct (write_run_volume s nm n src len (proj1 Hs) Hn Hl) as (r & s' & E & [Hsv Hwf'] & _).
  rewrite E. by apply (in_service_keep s).
Qed.

(** The names of the files that the boot uses. *)
Lemma kernel_name : name_is (str "kernel.bin") (bytes "kernel.bin").
Proof. split; [reflexivity|simpl; lia]. Qed.
Lemma count_name : name_is (str "bootcount.txt") (bytes "bootcount.txt").
Proof. split; [reflexivity|simpl; lia]. Qed.
Lemma hello_name : name_is (str "hello.txt") (bytes "hello.txt").
Proof. split; [reflexivity|simpl; lia]. Qed.

(** A volume with a kernel of 4096 bytes and a boot counter. *)
Definition demo_kernel : view := fun i => Z.of_nat i mod 251.
Definition demo_volume : afs ramdisk :=
  fs_of (afs_write (Some (str "bootcount.txt")) (Some (str "41")) 2
    (fs_of (afs_write (Some (str "kernel.bin")) (Some demo_kernel) 4096 (partition fmt)))).

Lemma demo_in_service : in_service demo_volume.
Proof.
  apply (in_service_write _ _ (bytes "bootcount.txt")); [|exact count_name|lia].
  apply (in_service_write _ _ (bytes "kernel.bin")); [|exact kernel_name|lia].
  apply partition_in_service; [exact fmt_wf|vm_compute; reflexivity|vm_compute; reflexivity|].
  assert (rd_n (dev fmt) = 64) as -> by (vm_compute; reflexivity). lia.
Qed.
Lemma demo_kernel_file : file demo_volume (bytes "kernel.bin") = Some (map demo_kernel (seq 0 4096)).
Proof. vm_compute. reflexivity. Qed.
Lemma demo_count_file : file demo_volume (bytes "bootcount.txt") = Some (bytes "41").
Proof. vm_compute. reflexivity. Qed.

Lemma afs_survives_reboot_witness : exists s' o, afs_mount (at_reset (dev demo_volume)) = Ok (1, s', o) /\
  file s' (bytes "kernel.bin") = Some (map demo_kernel (seq 0 4096)).
Proof.
  destruct (afs_survives_reboot demo_volume) as (s' & o & E & _ & _ & Hf).
  - exact (proj1 demo_in_service).
  - exact (proj1 (proj2 demo_in_service)).
  - exact (proj2 (proj2 demo_in_service)).
  - exists s', o. split; [exact E|]. rewrite Hf. exact demo_kernel_file.
Defined.

(** [afs_format] records the sectors of the whole disk, while the volume starts at
    sector 8192: on a disk of 8200 sectors six are left for files, but a file of
    seven is given an extent.  Writing it fails, and its extent stays taken: a
    file of one sector is refused as well. *)
Definition small_disk : ramdisk := mk_ramdisk 8200 (fun _ => replicate 512 0).
Definition small_fmt : afs ramdisk := fs_of (afs_format (at_reset small_disk)).
Definition small_full : afs ramdisk := fs_of (afs_write (Some (str "big")) (Some (fun _ => 1)) (7 * 512) small_fmt).
Theorem format_overcounts :
  ret_of (afs_format (at_reset small_disk)) = Some 0 /\ total_sectors small_fmt = 8200 /\
  afs_base small_fmt + total_sectors small_fmt > sectors (dev small_fmt) /\
  ret_of (afs_write (Some (str "one")) (Some (fun _ => 1)) 1 small_fmt) = Some 1 /\
  ret_of (afs_write (Some (str "big")) (Some (fun _ => 1)) (7 * 512) small_fmt) = Some (-1) /\
  ret_of (afs_write (Some (str "one")) (Some (fun _ => 1)) 1 small_full) = Some (-1).
Proof. vm_compute. split_and!; reflexivity. Qed.
