(* ===== verification/Boot.v ===== *)
(** * Booting from the disk (boot/bios/bios_main.c, boot/aarch64/kernel.c stage 7)

    The firmware that loads "kernel.bin" from the volume and enters it, and the
    storage stage of the kernel: mounting, the boot counter and the greeting
    file.  Both use the block driver through [PoweredDevice].  The console's and
    the frame allocator's initialisation leave nothing that the rest reads. *)

From S2P Require Import Prelude Uart Pmm Afs AfsSpec AfsMount.
From S2P Require Shell Smp Syscall.

(** A block device that has to be brought up after power on; the disk it then
    shows is the one it had before. *)
Class PoweredDevice (D : Type) := {
  power_off : D -> D;
  vblk_init : M D Z;
  vblk_up : forall d, exists o, vblk_init (power_off d) = Ok (1, d, o);
}.

Definition KERNEL_LOAD_ADDR : Z := 0x40080000.
Definition KERNEL_MAX_BYTES : Z := 4 * 1024 * 1024.


(** ** Decimal text *)

(** [for (i = 0; buf[i] >= '0' && buf[i] <= '9'; i++) count = count * 10 + ...] *)
Fixpoint parse_count (buf : list Z) (count : Z) : option Z :=
  match buf with
  | [] => None
  | c :: buf' => if (c >=? 48) && (c <=? 57) then parse_count buf' (u32 (count * 10 + (c - 48))) else Some count
  end.

(** [while (v) { rev[r++] = '0' + v % 10; v /= 10; }]: [rv] holds the digits
    stored so far, [room] the cells of [rev] that are left. *)
Fixpoint rev_digits (room : nat) (v : Z) (rv : list Z) : option (list Z) :=
  if v =? 0 then Some rv
  else match room with
       | O => None
       | S room' => rev_digits room' (v / 10) (rv ++ [48 + v mod 10])
       end.
(** The text in [out], whose 12 cells also take its NUL. *)
Definition count_text (count : Z) : option (list Z) :=
  rv ← rev_digits 12 count [];
  let out := (if count =? 0 then [48] else []) ++ reverse rv in
  if (length out <? 12)%nat then Some out else None.

Section Decimal.
Import Pl011.

Lemma dec_value_nonneg l : Forall is_digit l -> 0 <= dec_value l.
Proof.
  induction 1 as [|c l Hc _ IH]; [done|]. rewrite dec_value_cons. unfold is_digit in Hc.
  pose proof (Z.pow_nonneg 10 (Z.of_nat (length l)) ltac:(lia)). nia.
Qed.

Lemma parse_digits l r : forall a, Forall is_digit l -> 0 <= a -> a * 10 ^ Z.of_nat (length l) + dec_value l < 2 ^ 32 ->
  parse_count (l ++ 0 :: r) a = Some (a * 10 ^ Z.of_nat (length l) + dec_value l).
Proof.
  induction l as [|c l IH]; intros a Hd Ha Hb; [cbn; f_equal; unfold dec_value; simpl; lia|].
  apply Forall_cons in Hd as [Hc Hd]. unfold is_digit in Hc. pose proof (dec_value_nonneg l Hd) as Hn.
  rewrite dec_value_cons in *. cbn [length] in *. rewrite Nat2Z.inj_succ, Z.pow_succ_r in * by lia.
  set (p := 10 ^ Z.of_nat (length l)) in *. assert (0 < p) by (apply Z.pow_pos_nonneg; lia).
  cbn [app parse_count]. rewrite (proj2 (Z.leb_le c 57)), Z.geb_leb, (proj2 (Z.leb_le 48 c)) by lia. cbn [andb].
  assert (a * 10 + (c - 48) < 2 ^ 32) by nia. rewrite u32_small, IH by (done || nia || lia). f_equal. unfold p. lia.
Qed.

Lemma rev_digits_dec room : forall v rv, 0 <= v -> rev_digits room v rv = reverse <$> dec_loop room v (reverse rv).
Proof.
  induction room as [|room IH]; intros v rv Hv; cbn [rev_digits dec_loop]; rewrite Z.gtb_ltb;
    destruct (Z.eqb_spec v 0) as [->|]; try (cbn; by rewrite reverse_involutive);
    rewrite (proj2 (Z.ltb_lt 0 v)) by lia; [done|].
  rewrite IH by zlia. by rewrite reverse_app, reverse_singleton.
Qed.

Lemma dec_loop_room r r' v b x : (r <= r')%nat -> dec_loop r v b = Some x -> dec_loop r' v b = Some x.
Proof.
  revert r' v b. induction r as [|r IH]; intros r' v b Hr; destruct r' as [|r']; cbn [dec_loop]; case_match; try done; [lia|].
  apply IH. lia.
Qed.

Lemma count_text_spec v : 0 <= v < 2 ^ 32 ->
  exists ds, count_text v = Some ds /\ Forall is_digit ds /\ dec_value ds = v /\ (1 <= length ds <= 10)%nat.
Proof.
  intros Hv. destruct (dec_loop_spec 10 v []) as (ds & E & Hd & Hval & Hlen); [simpl; lia|done|]. rewrite app_nil_r in E.
  unfold count_text. rewrite rev_digits_dec by lia. change (reverse []) with (@nil Z). rewrite (dec_loop_room 10 12 v [] ds) by (lia || done).
  cbn [fmap option_fmap option_map mbind option_bind]. rewrite reverse_involutive. destruct (Z.eqb_spec v 0) as [->|Hv0].
  - vm_compute in E. injection E as <-. exists [48]. split_and!; try done; [|simpl; lia..]. repeat constructor; unfold is_digit; lia.
  - cbn [app]. rewrite (proj2 (Nat.ltb_lt _ _)) by lia. exists ds. split_and!; try done.
    destruct ds; [unfold dec_value in Hval; simpl in Hval; lia|simpl; lia].
Qed.
End Decimal.

Section Boot.
Context {D : Type} `{!BlockDevice D, !PoweredDevice D}.

Definition bring_up : M (afs D) Z := zoom dev set_dev vblk_init.

(** ** The firmware *)

Record bios := mk_bios { fs : afs D; frames : pmm; ram : mem }.
Definition in_fs {A} (m : M (afs D) A) : M bios A := zoom fs (fun f b => mk_bios f (frames b) (ram b)) m.
Definition in_frames {A} (m : M pmm A) : M bios A := zoom frames (fun p b => mk_bios (fs b) p (ram b)) m.

(** How the firmware ends: halted with a message, or in the kernel at [entry]
    with [x0]. *)
Inductive ending := Halted (msg : string) | Entered (entry x0 : Z).

Definition halt (msg : string) : M bios ending :=
  puts_nolf "[BIOS] FATAL: " ;;; puts msg ;;; ret (Halted msg).

(** From [afs_read] to the jump. *)
Definition load_kernel : M bios ending :=
  let* r := in_fs (afs_read (Some (str "kernel.bin")) true KERNEL_MAX_BYTES) in
  modify (fun b => mk_bios (fs b) (frames b) (mem_write (ram b) KERNEL_LOAD_ADDR (snd r))) ;;;
  let size := fst r in
  if size <=? 0 then halt "kernel.bin not found on the volume" else
  if size <? 4096 then halt "kernel.bin too small to be a kernel" else
  puts_nolf "[BIOS] kernel.bin: " ;;; put_dec (u32 size) ;;;
  puts_nolf " bytes -> 0x" ;;; put_hex KERNEL_LOAD_ADDR ;;; puts "" ;;;
  puts "[BIOS] jumping to AEOS..." ;;; puts "" ;;;
  ret (Entered KERNEL_LOAD_ADDR 0).

Definition bios_main : M bios ending :=
  puts "" ;;;
  puts "=========================================" ;;;
  puts "  AEOS-BIOS v1.0 - Ajeeb Embodied Firmware" ;;;
  puts "=========================================" ;;;
  puts "[BIOS] console up, scanning bus..." ;;;
  in_frames pmm_init ;;;
  let* up := in_fs bring_up in
  if up =? 0 then halt "no virtio-blk device on the bus" else
  let* m := in_fs afs_mount in
  let* ok := (if m =? 0 then
                puts "[BIOS] blank or foreign disk - formatting..." ;;;
                let* f := in_fs afs_format in ret (f =? 0)
              else ret true) in
  if negb ok then halt "disk format failed" else load_kernel.

(** ** The storage stage of the kernel *)

(** [buf] and [rbuf] hold what the stack held: [junk16] and [junk64]. *)
Context (junk16 junk64 : list Z).

Definition boot_counter : M (afs D) unit :=
  let* r := afs_read (Some (str "bootcount.txt")) true (16 - 1) in
  let n := fst r in
  let* buf := of_opt (Shell.fill (snd r) junk16) in
  let* count := (if n >? 0 then
                   let* buf := of_opt (aset buf n 0) in of_opt (parse_count buf 0)
                 else ret 0) in
  let count := u32 (count + 1) in
  puts_nolf "[self] boot #" ;;; put_dec count ;;; puts "" ;;;
  let* text := of_opt (count_text count) in
  let* _ := afs_write (Some (str "bootcount.txt")) (Some (literal text (fun _ => 0))) (Z.of_nat (length text)) in
  ret tt.

(** The characters of [msg], its NUL included. *)
Definition hello_msg : list Z := bytes "AEOS-FS: hello from persistent storage!" ++ [LF; 0].

Definition hello_file : M (afs D) unit :=
  let* w := afs_write (Some (str "hello.txt")) (Some (literal hello_msg (fun _ => 0))) (Z.of_nat (length hello_msg)) in
  if w >? 0 then
    let* r := afs_read (Some (str "hello.txt")) true (64 - 1) in
    let n := fst r in
    let* rbuf := of_opt (Shell.fill (snd r) junk64) in
    if n >? 0 then
      let* rbuf := of_opt (aset rbuf n 0) in
      puts_nolf "  [fs] read back: " ;;; puts_bytes_nolf (cstr rbuf) ;;; puts "" ;;;
      puts "  [fs] write+read verify OK"
    else ret tt
  else ret tt.

Definition storage_stage : M (afs D) unit :=
  puts "" ;;; puts "=== Stage 7: Storage (virtio-blk + AEOS-FS) ===" ;;;
  let* up := bring_up in
  if up =? 0 then puts "  [fs] no block device - storage disabled" else
  let* m := afs_mount in
  (if m =? 0 then let* _ := afs_format in ret tt else ret tt) ;;;
  boot_counter ;;;
  hello_file.

(** [k] boots in a row, the machine switched off in between. *)
Fixpoint boots (k : nat) : M (afs D) unit :=
  match k with
  | O => ret tt
  | S k' => modify (fun s => at_reset (power_off (dev s))) ;;; storage_stage ;;; boots k'
  end.

(** ** What they do to a volume in service *)

Lemma wp_bring_up d (Q : Z -> afs D -> list Z -> Prop) :
  (forall o, Q 1 (at_reset d) o) -> wp bring_up Q (at_reset (power_off d)).
Proof.
  intros HQ. destruct (vblk_up d) as [o E]. apply wp_zoom. cbn [dev at_reset]. eapply wp_intro; [exact E|]. apply HQ.
Qed.

(** What the firmware makes of the file "kernel.bin". *)
Definition verdict (kernel : option (list Z)) : ending :=
  match kernel with
  | None => Halted "kernel.bin not found on the volume"
  | Some img => if Z.of_nat (length img) <? 4096 then Halted "kernel.bin too small to be a kernel"
                else Entered KERNEL_LOAD_ADDR 0
  end.
Definition loaded (kernel : option (list Z)) (m : mem) : mem := mem_write m KERNEL_LOAD_ADDR (default [] kernel).

Lemma wp_load_kernel b (Q : ending -> bios -> list Z -> Prop) : in_service (fs b) ->
  let kernel := file (fs b) (bytes "kernel.bin") in
  (forall f o, in_service f -> (forall n, file f n = file (fs b) n) ->
     Q (verdict kernel) (mk_bios f (frames b) (loaded kernel (ram b))) o) ->
  wp load_kernel Q b.
Proof.
  intros Hs kernel HQ. unfold load_kernel. apply wp_bind, wp_zoom.
  eapply wp_read; [exact Hs|exact kernel_name|done|]. intros f Hs' Hf'. fold kernel.
  apply wp_bind, wp_modify. cbn [fs frames ram]. unfold verdict, loaded in HQ.
  destruct kernel as [img|] eqn:Ek; cbn [fst snd default] in *; [|by unfold halt; wp_auto; [apply HQ|done..]].
  pose proof (file_size _ _ _ Hs Ek) as Hl. rewrite read_end_fits by (unfold KERNEL_MAX_BYTES; lia).
  rewrite Nat2Z.id, take_ge by lia. rewrite (proj2 (Z.leb_gt _ _)) by lia.
  unfold halt. case_match; wp_auto; by apply HQ.
Qed.

Lemma wp_bios_main s p m (Q : ending -> bios -> list Z -> Prop) : in_service s ->
  let kernel := file s (bytes "kernel.bin") in
  (forall f p' o, in_service f -> (forall n, file f n = file s n) ->
     Q (verdict kernel) (mk_bios f p' (loaded kernel m)) o) ->
  wp bios_main Q (mk_bios (at_reset (power_off (dev s))) p m).
Proof.
  intros Hs kernel HQ. unfold bios_main. do 5 (apply wp_bind, wp_puts).
  apply wp_bind, wp_zoom. eapply wp_mono; [apply pmm_init_wp|]. intros _ p' o _. cbn [fs frames ram].
  apply wp_bind, wp_zoom, wp_bring_up. intros o'. cbn [fs frames ram]. change (1 =? 0) with false. cbv iota.
  apply wp_bind, wp_zoom. apply wp_mount; [done|]. intros f o2 Hf Hff. cbn [fs frames ram]. change (1 =? 0) with false. cbv iota.
  apply wp_bind, wp_ret. cbn [negb]. apply wp_load_kernel; [done|]. cbn [fs frames ram]. intros f' o3 Hf' Hff'.
  rewrite Hff. apply HQ; [done|]. intros n. by rewrite Hff'.
Qed.

(** ** The storage stage on a volume in service *)

Lemma map_literal l r : map (literal l r) (seq 0 (length l)) = l.
Proof.
  apply list_eq. intros i. rewrite list_lookup_fmap. destruct (decide (i < length l)%nat) as [Hi|Hi].
  - rewrite lookup_seq_lt by done. cbn. unfold literal. rewrite (proj2 (Nat.ltb_lt _ _)) by done.
    destruct (lookup_lt_is_Some_2 l i Hi) as [x Hx]. rewrite Hx. f_equal. by apply nth_lookup_Some.
  - rewrite lookup_seq_ge by lia. cbn. symmetry. apply lookup_ge_None. lia.
Qed.

Definition counter s (c : Z) : Prop := exists ds, file s (bytes "bootcount.txt") = Some ds /\
  Forall Pl011.is_digit ds /\ (length ds <= 15)%nat /\ Pl011.dec_value ds = c.

Context (H16 : length junk16 = 16%nat) (H64 : length junk64 = 64%nat).

Lemma wp_boot_counter s c (Q : unit -> afs D -> list Z -> Prop) : in_service s -> counter s c -> c + 1 < 2 ^ 32 ->
  (forall s' o, in_service s' -> counter s' (c + 1) -> (forall m, m <> bytes "bootcount.txt" -> file s' m = file s m) ->
     Q tt s' o) -> wp boot_counter Q s.
Proof.
  intros Hs (ds & Hf & Hd & Hl & <-) Hc HQ. unfold boot_counter. apply wp_bind.
  eapply wp_read; [exact Hs|exact count_name|done|]. intros s1 Hs1 Hf1. rewrite Hf.
  pose proof (file_size _ _ _ Hs Hf) as Hsz. rewrite read_end_fits by lia. rewrite Nat2Z.id, take_ge by lia. cbn [fst snd].
  apply wp_bind. eapply wp_of_opt; [unfold Shell.fill; rewrite (proj2 (Nat.leb_le _ _)) by lia; reflexivity|].
  set (rest := drop (length ds) junk16). assert (Hr : length rest = (16 - length ds)%nat) by (unfold rest; rewrite length_drop; lia).
  apply wp_bind. rewrite Z.gtb_ltb, (proj2 (Z.ltb_lt _ _)) by lia.
  apply wp_bind. eapply wp_of_opt; [apply aset_in; rewrite length_app; lia|]. rewrite Nat2Z.id.
  destruct rest as [|x rest']; [simpl in Hr; lia|].
  replace (<[length ds := 0]> (ds ++ x :: rest')) with (ds ++ 0 :: rest')
    by (by rewrite insert_app_r_alt, Nat.sub_diag by lia).
  pose proof (dec_value_nonneg ds Hd) as Hn. eapply wp_of_opt; [apply (parse_digits ds rest' 0); [done|lia|lia]|].
  rewrite Z.mul_0_l, Z.add_0_l. set (c := Pl011.dec_value ds) in *. rewrite u32_small by lia.
  wp_auto. destruct (count_text_spec (c + 1)) as (ds' & E & Hd' & Hv' & Hl'); [lia|].
  eapply wp_of_opt; [exact E|]. apply wp_bind. eapply wp_write; [exact Hs1|exact count_name|lia| |].
  - intros s2 Hs2 Hw Ho. wp_auto. apply HQ; [done| |].
    + exists ds'. rewrite Nat2Z.id, map_literal in Hw. split_and!; [done..|lia|done].
    + intros m Hm. by rewrite Ho.
  - intros s2 Hs2 _ Hno. exfalso. rewrite Hf1 in Hno. specialize (Hno ds Hf). zlia.
Qed.

Lemma wp_hello_file s (Q : unit -> afs D -> list Z -> Prop) : in_service s ->
  (forall s' o, in_service s' -> (forall m, m <> bytes "hello.txt" -> file s' m = file s m) -> Q tt s' o) ->
  wp hello_file Q s.
Proof.
  intros Hs HQ. unfold hello_file. apply wp_bind.
  eapply wp_write; [exact Hs|exact hello_name|vm_compute; split; discriminate| |].
  - intros s1 Hs1 Hw Ho. change (Z.of_nat (length hello_msg) >? 0) with true. cbv iota. rewrite Nat2Z.id, map_literal in Hw.
    apply wp_bind. eapply wp_read; [exact Hs1|exact hello_name|done|]. intros s2 Hs2 Hf2. rewrite Hw.
    change (read_end (Z.of_nat (length hello_msg)) (64 - 1)) with 41. change (take (Z.to_nat 41) hello_msg) with hello_msg.
    cbn [fst snd]. apply wp_bind. eapply wp_of_opt; [unfold Shell.fill; rewrite H64; reflexivity|].
    change (41 >? 0) with true. cbv iota. apply wp_bind. eapply wp_of_opt.
    { apply aset_in. rewrite length_app, length_drop, H64. vm_compute. split; [discriminate|done]. }
    wp_auto. apply HQ; [done|]. intros m Hm. by rewrite Hf2, Ho.
  - intros s1 Hs1 Ho _. change (-1 >? 0) with false. cbv iota. wp_auto. apply HQ; [done|]. intros m _. apply Ho.
Qed.

Lemma wp_storage_stage s c (Q : unit -> afs D -> list Z -> Prop) : in_service s -> counter s c -> c + 1 < 2 ^ 32 ->
  (forall s' o, in_service s' -> counter s' (c + 1) ->
     (forall m, m <> bytes "bootcount.txt" -> m <> bytes "hello.txt" -> file s' m = file s m) -> Q tt s' o) ->
  wp storage_stage Q (at_reset (power_off (dev s))).
Proof.
  intros Hs Hcnt Hc HQ. unfold storage_stage. do 2 (apply wp_bind, wp_puts).
  apply wp_bind, wp_bring_up. intros o. change (1 =? 0) with false. cbv iota.
  apply wp_bind, wp_mount; [done|]. intros s1 o1 Hs1 Hf1. change (1 =? 0) with false. cbv iota.
  apply wp_bind, wp_ret, wp_bind. eapply wp_boot_counter; [exact Hs1| |exact Hc|].
  { destruct Hcnt as (ds & Hf & H). exists ds. by rewrite Hf1. }
  intros s2 o2 Hs2 Hcnt2 Ho2. apply wp_hello_file; [done|]. intros s3 o3 Hs3 Ho3. apply HQ; [done| |].
  - destruct Hcnt2 as (ds & Hf & H). exists ds. by rewrite Ho3 by done.
  - intros m H1 H2. by rewrite Ho3, Ho2, Hf1.
Qed.
End Boot.
Arguments bios D : clear implicits.
Arguments mk_bios {D}.

(** ** Installing and booting *)

Section Install.
Context {D : Type} `{!BlockDevice D, !PoweredDevice D} (image : view) (image_size : Z).
Definition kernel_image : list Z := map image (seq 0 (Z.to_nat image_size)).

Lemma wp_cmd_install (s : Shell.shell D) (Q : unit -> Shell.shell D -> list Z -> Prop) :
  in_service (Shell.disk s) -> length (Shell.verify_buf s) = 4096%nat -> 1 <= image_size <= 2 ^ 20 ->
  (forall s' o, in_service (Shell.disk s') -> file (Shell.disk s') (bytes "kernel.bin") = Some kernel_image ->
     (forall m, m <> bytes "kernel.bin" -> file (Shell.disk s') m = file (Shell.disk s) m) -> Q tt s' o) ->
  (forall s' o, in_service (Shell.disk s') -> (forall m, file (Shell.disk s') m = file (Shell.disk s) m) ->
     (forall c, file (Shell.disk s) (bytes "kernel.bin") = Some c ->
        (Z.of_nat (length c) + 511) / 512 < (image_size + 511) / 512) -> Q tt s' o) ->
  wp (Shell.cmd_install image image_size) Q s.
Proof.
  intros Hs Hv Hsz H1 H2. unfold Shell.cmd_install. rewrite Z.gtb_ltb, (proj2 (Z.ltb_ge _ _)) by lia.
  apply wp_bind, wp_puts_nolf, wp_bind, wp_put_hex32, wp_bind, wp_puts, wp_bind, wp_zoom.
  eapply wp_write; [exact Hs|exact kernel_name|done| |].
  - intros f Hf Hk Ho. rewrite (proj2 (Z.ltb_ge _ _)) by lia.
    apply wp_bind, wp_puts_nolf, wp_bind, wp_put_dec. intros o1. apply wp_bind, wp_puts, wp_bind, wp_get, wp_bind, wp_zoom.
    cbn [Shell.disk Shell.verify_buf]. eapply wp_read; [exact Hf|exact kernel_name|done|]. intros f2 Hf2 Hff2. rewrite Hk.
    pose proof (file_size _ _ _ Hf Hk) as Hl. set (img := map image _) in *. set (n := read_end _ _).
    assert (Hn : 1 <= n <= 4096) by (unfold n, read_end; zlia). cbn beta iota zeta. apply wp_bind. eapply wp_of_opt.
    { unfold Shell.fill. rewrite Hv, (proj2 (Nat.leb_le _ _)) by (rewrite length_take; lia). reflexivity. }
    apply wp_bind, wp_modify. rewrite (proj2 (Z.ltb_ge _ _)) by lia.
    apply wp_bind, wp_puts_nolf, wp_bind, wp_put_hex32, wp_bind, wp_puts.
    assert (HQ : forall o s', Shell.disk s' = f2 -> Q tt s' o).
    { intros o s' E. apply H1; rewrite E; [done|by rewrite Hff2|]. intros m Hm. by rewrite Hff2, Ho. }
    case_match; wp_auto; by apply HQ.
  - intros f Hf Ho Hno. change (-1 <? 0) with true. cbv iota. wp_auto. by apply H2.
Qed.
End Install.


(** C31: the boot counter survives power cycles: from a volume in service whose
    "bootcount.txt" holds the number [c], [k] boots in a row leave [c + k] in it,
    and every file but it and "hello.txt" as it was. *)
Theorem boot_counter_persists {D} `{!BlockDevice D, !PoweredDevice D} junk16 junk64 (s : afs D) k c
  (Hjunk : length junk16 = 16%nat /\ length junk64 = 64%nat) (Hs : in_service s) (Hcnt : counter s c)
  (Hc : c + Z.of_nat k < 2 ^ 32) :
  exists s' o, boots junk16 junk64 k s = Ok (tt, s', o) /\ in_service s' /\ counter s' (c + Z.of_nat k) /\
    forall m, m <> bytes "bootcount.txt" -> m <> bytes "hello.txt" -> file s' m = file s m.
Proof.
  destruct Hjunk as [H16 H64].
  assert (H : wp (boots junk16 junk64 k) (fun _ s' _ => in_service s' /\ counter s' (c + Z.of_nat k) /\
    forall m, m <> bytes "bootcount.txt" -> m <> bytes "hello.txt" -> file s' m = file s m) s).
  { revert s c Hs Hcnt Hc. induction k as [|k IH]; intros s c Hs Hcnt Hc.
    { apply wp_ret. split; [done|]. split; [|done]. by rewrite Z.add_0_r. }
    cbn [boots]. apply wp_bind, wp_modify, wp_bind. eapply (wp_storage_stage junk16 junk64 H16 H64 s c); [done..|lia|].
    intros s1 o1 Hs1 Hc1 Ho1. eapply wp_mono; [apply (IH s1 (c + 1)); [done..|lia]|]. cbn beta.
    intros _ s2 o2 (Hs2 & Hc2 & Ho2). split; [done|]. split.
    - by replace (c + Z.of_nat (S k)) with (c + 1 + Z.of_nat k) by lia.
    - intros m Hm1 Hm2. by rewrite Ho2, Ho1. }
  apply wp_run in H as ([] & s' & o & E & H). by exists s', o.
Qed.


(** ** The boot counter's buffer *)

(** A "bootcount.txt" of sixteen bytes or more overruns [buf]: [afs_read] copies
    up to 4096 bytes into the sixteen. *)
Theorem long_counter_undefined {D} `{!BlockDevice D} junk16 (s : afs D) c (Hs : in_service s)
  (Hjunk : length junk16 = 16%nat) (Hf : file s (bytes "bootcount.txt") = Some c) (Hc : (16 <= length c)%nat) :
  boot_counter junk16 s = UB.
Proof.
  destruct (read_run s _ _ (16 - 1) (proj1 Hs) count_name) as (s' & E & _); [lia|]. rewrite Hf in E. cbv zeta in E.
  unfold boot_counter. rewrite (bind_ok _ _ _ _ _ E). cbn [fst snd]. set (n := read_end _ _) in *.
  assert (Hn : 16 <= n <= Z.of_nat (length c)) by (unfold n, read_end; zlia). unfold Shell.fill. rewrite length_take, Hjunk.
  destruct (Nat.leb_spec (Z.to_nat n `min` length c) 16) as [Hle|Hlt]; [|done]. rewrite bind_some.
  rewrite Z.gtb_ltb, (proj2 (Z.ltb_lt _ _)) by lia. unfold aset.
  rewrite length_app, length_drop, length_take, Hjunk, (proj2 (Z.ltb_ge _ _)) by lia. by rewrite andb_false_r.
Qed.

(** ** A machine with a RAM disk *)

#[export, refine] Instance ramdisk_powered : PoweredDevice ramdisk := {| power_off := id; vblk_init := ret 1 |}.
Proof. intros d. by exists []. Defined.

Definition demo_bios : bios ramdisk := mk_bios (at_reset (dev demo_volume)) (mk_pmm [] 0 0) (fun _ => 0).


Lemma boot_counter_persists_witness : exists s' o, boots (replicate 16 170) (replicate 64 170) 3 demo_volume = Ok (tt, s', o) /\
  counter s' 44.
Proof.
  destruct (boot_counter_persists (replicate 16 170) (replicate 64 170) demo_volume 3 41) as (s' & o & E & _ & Hc & _).
  - split; reflexivity.
  - exact demo_in_service.
  - exists (bytes "41"). split; [exact demo_count_file|]. change (bytes "41") with [52; 49].
    split; [apply Forall_cons; split; [|apply Forall_cons; split; [|constructor]]; unfold Pl011.is_digit; lia|]. split; [cbn; lia|reflexivity].
  - lia.
  - exists s', o. exact (conj E Hc).
Defined.

(** The shell of a machine that runs from that disk. *)
Definition demo_update : Shell.shell ramdisk :=
  Shell.mk_shell (replicate 64 0) 0 (replicate 2048 0) (replicate 4096 0) demo_volume Syscall.demo_kst
    (Smp.mk_cores 0 [0; 0; 0; 0]) 0.

