(* ===== verification/Tui.v ===== *)
(** * The text dashboard (kernel/tui.c)

    What the dashboard puts on the wire, and a terminal ([feed]) that says what
    the user then sees.  The terminal is the specification: the part of a VT100
    that the escape sequences of the dashboard address, on an unbounded page. *)

From S2P Require Import Prelude Uart Tick Pmm Heap Vmm Sched Proc Syscall.
From S2P Require Ai Cmt Boot.

Definition ROWS : Z := 24.
Definition COLS : Z := 80.
Definition PANEL_TASKS_ROW : Z := 2.
Definition PANEL_MEM_ROW : Z := 14.
Definition PANEL_AI_ROW : Z := 18.
Definition TUI_GREEN : Z := 2.
Definition TUI_YELLOW : Z := 3.
Definition TUI_MAGENTA : Z := 5.
Definition TUI_CYAN : Z := 6.
Definition TUI_WHITE : Z := 7.

Definition ESC : Z := 27.
(** An escape sequence of the program text. *)
Definition esc (x : string) : list Z := ESC :: bytes x.

(** ** Primitives *)

Section Primitives.
Context {S : Type}.

Definition tui_enter : M S unit := puts_bytes_nolf (esc "[?1049h" ++ esc "[H" ++ esc "[2J" ++ esc "[?25l").
Definition tui_leave : M S unit := puts_bytes_nolf (esc "[?25h" ++ esc "[?1049l").
Definition tui_clear : M S unit := puts_bytes_nolf (esc "[H" ++ esc "[2J").

(** [if (!v) tmp[n++] = '0'; while (v) ...; while (n) ...]: the digits in the
    order in which they are copied out of [tmp], which has [room] cells. *)
Definition dec_chars (room : nat) (v : Z) : option (list Z) :=
  if v =? 0 then Some [48] else reverse <$> Boot.rev_digits room v [].

Definition tui_at (row col : Z) : M S unit :=
  let* r := of_opt (dec_chars 6 (u32 (row + 1))) in
  let* c := of_opt (dec_chars 6 (u32 (col + 1))) in
  puts_bytes_nolf (ESC :: 91 :: r ++ 59 :: c ++ [72]).

Definition tui_color (fg : Z) (bold : bool) : M S unit :=
  puts_bytes_nolf [ESC; 91; if bold then 49 else 48; 59; 51; u8 (48 + fg); 109].
Definition tui_reset : M S unit := puts_bytes_nolf (esc "[0m").

Definition term_putc (c : Z) : M S unit := putc c.
Definition put_all (l : list Z) : M S unit := foldr (fun c k => term_putc c ;;; k) (ret tt) l.

(** [while ( *s && maxw--) { if ( *s == '\n') break; term_putc( *s++); }]; [s] is the
    string without its NUL. *)
Fixpoint text_loop (s : list Z) (maxw : Z) : M S unit :=
  match s with
  | [] => ret tt
  | c :: s' => if maxw =? 0 then ret tt else if c =? LF then ret tt else term_putc c ;;; text_loop s' (maxw - 1)
  end.
Definition tui_text (row col : Z) (s : list Z) (maxw : Z) : M S unit := tui_at row col ;;; text_loop s maxw.

(** [for (x = 1; x < w - 1; x++) term_putc(c);] *)
Definition fill_row (w c : Z) : M S unit := put_all (replicate (Z.to_nat (u32 (w - 1) - 1)) c).
Fixpoint box_rows (row col w y : Z) (n : nat) : M S unit :=
  match n with
  | O => ret tt
  | Datatypes.S n' =>
      tui_at (u32 (row + y)) col ;;; term_putc 124 ;;; fill_row w 32 ;;;
      tui_at (u32 (row + y)) (u32 (col + w - 1)) ;;; term_putc 124 ;;;
      box_rows row col w (y + 1) n'
  end.
Definition tui_box (row col w h : Z) (title : list Z) : M S unit :=
  tui_color TUI_CYAN true ;;;
  tui_at row col ;;; term_putc 44 ;;; fill_row w 45 ;;; term_putc 46 ;;;
  box_rows row col w 1 (Z.to_nat (u32 (h - 1) - 1)) ;;;
  tui_at (u32 (row + h - 1)) col ;;; term_putc 96 ;;; fill_row w 45 ;;; term_putc 39 ;;;
  (match title with [] => ret tt | _ => tui_text row (u32 (col + 2)) title (u32 (w - 4)) end) ;;;
  tui_reset.

Definition tui_bar (row col width pct color : Z) : M S unit :=
  let pct := if pct <? 0 then 0 else pct in
  let pct := if pct >? 100 then 100 else pct in
  let filled := u32 (pct * width) / 100 in
  tui_at row col ;;; tui_color TUI_WHITE false ;;; term_putc 91 ;;;
  tui_color color true ;;;
  put_all (map (fun i => if i <? filled then 35 else 46) (seqZ 0 width)) ;;;
  tui_color TUI_WHITE false ;;; term_putc 93 ;;; tui_reset.

Definition tui_num (row col v : Z) : M S unit :=
  let* out := of_opt (dec_chars 11 (u32 v)) in tui_text row col out 11.

Definition pad_text (row col : Z) (s : list Z) (width : Z) : M S unit :=
  tui_at row col ;;;
  put_all (take (Z.to_nat width) s) ;;;
  put_all (replicate (Z.to_nat width - length s) 32).
End Primitives.

(** ** Panels *)

Definition st_text (st : task_state) : string :=
  match st with
  | TASK_UNUSED => "UNUSED" | TASK_READY => "READY " | TASK_RUNNING => "RUN   " | TASK_FINISHED => "FIN   "
  end.

Fixpoint task_rows (idx line : Z) (n : nat) : M kst unit :=
  match n with
  | O => ret tt
  | S n' =>
      let* r := in_proc (in_sched (sched_snapshot idx)) in
      match snd r with
      | None => task_rows (idx + 1) line n'
      | Some (name, st, ticks, yields) =>
          pad_text line 3 [] 0 ;;;
          tui_num line 3 idx ;;;
          pad_text line 8 name (TASK_NAME_LEN + 1) ;;;
          tui_text line 22 (bytes (st_text st)) 6 ;;;
          tui_num line 31 ticks ;;;
          tui_num line 40 yields ;;;
          task_rows (idx + 1) (line + 1) n'
      end
  end.
Definition panel_tasks : M kst unit :=
  let line := PANEL_TASKS_ROW in
  tui_color TUI_YELLOW true ;;; tui_text line 3 (bytes "TASKS") 60 ;;; tui_reset ;;;
  tui_color TUI_CYAN false ;;;
  tui_text (line + 1) 3 (bytes "id   name        state   ticks  yields") 70 ;;; tui_reset ;;;
  task_rows 0 (line + 2) (Z.to_nat MAX_TASKS) ;;;
  tui_reset.

Definition percent (part whole : Z) : Z := if whole =? 0 then 0 else i32 (u64 (100 * part) / whole).
Definition panel_memory : M kst unit :=
  let* total_p := in_proc (in_frames pmm_get_total_pages) in
  let* free_p := in_proc (in_frames pmm_get_free_pages) in
  let* hu := in_proc (in_vmm (in_heap heap_get_used)) in
  let* hf := in_proc (in_vmm (in_heap heap_get_free)) in
  let used_pct := percent (u64 (total_p - free_p)) total_p in
  let hpct := percent hu (u64 (hu + hf)) in
  tui_color TUI_YELLOW true ;;; tui_text PANEL_MEM_ROW 3 (bytes "MEMORY") 60 ;;; tui_reset ;;;
  tui_bar (PANEL_MEM_ROW + 1) 3 40 used_pct TUI_GREEN ;;;
  tui_text (PANEL_MEM_ROW + 1) 47 (bytes "physical pages") 20 ;;;
  tui_bar (PANEL_MEM_ROW + 2) 3 40 hpct TUI_MAGENTA ;;;
  tui_text (PANEL_MEM_ROW + 2) 47 (bytes "kernel heap") 20.

Definition get_ticks : M kst Z := in_ai (Ai.in_timer timer_get_ticks).
Definition panel_ai : M kst unit :=
  let* k := get in
  let c := Ai.k_cmt (k_ai k) in
  tui_color TUI_YELLOW true ;;; tui_text PANEL_AI_ROW 3 (bytes "AI / CMT ENGINES") 60 ;;; tui_reset ;;;
  tui_text (PANEL_AI_ROW + 1) 3 (bytes "CMT level ") 30 ;;;
  tui_color TUI_GREEN true ;;; tui_num (PANEL_AI_ROW + 1) 14 (Cmt.cmt_consciousness_level c) ;;; tui_reset ;;;
  tui_text (PANEL_AI_ROW + 1) 17 (bytes " action ") 30 ;;;
  tui_color TUI_CYAN true ;;;
  tui_text (PANEL_AI_ROW + 1) 26 (bytes (Cmt.cmt_core_action_name (Cmt.cmt_last_action c))) 10 ;;; tui_reset ;;;
  tui_text (PANEL_AI_ROW + 1) 38 (bytes " policy ") 30 ;;;
  tui_num (PANEL_AI_ROW + 1) 48 (Cmt.cmt_current_hz c) ;;;
  tui_text (PANEL_AI_ROW + 1) 52 (bytes " Hz") 10 ;;;
  tui_text (PANEL_AI_ROW + 2) 3 (bytes "inferences ") 30 ;;;
  tui_color TUI_MAGENTA true ;;; tui_num (PANEL_AI_ROW + 2) 15 (Cmt.cmt_inference_count c) ;;; tui_reset ;;;
  tui_text (PANEL_AI_ROW + 2) 28 (bytes "uptime ticks ") 30 ;;;
  let* t := get_ticks in tui_num (PANEL_AI_ROW + 2) 42 t.

Definition panels : M kst unit := panel_tasks ;;; panel_memory ;;; panel_ai.

(** ** The main loop *)

Definition quits (key : option Z) : bool :=
  match key with Some c => (c =? 113) || (c =? 81) || (c =? 27) | None => false end.

(** One entry of [rounds] per iteration: what [tui_key] returns, and what the
    interrupts do until the next poll.  False while the loop is still running. *)
Fixpoint dash_loop (last_frame : Z) (rounds : list (option Z * M kst unit)) : M kst bool :=
  match rounds with
  | [] => ret false
  | (key, irq) :: rounds' =>
      if quits key then ret true else
      let* now := get_ticks in
      let* last := (if u64 (now - last_frame) >=? 10 then panels ;;; ret now else ret last_frame) in
      irq ;;;
      dash_loop last rounds'
  end.

Definition tui_dashboard (rounds : list (option Z * M kst unit)) : M kst bool :=
  tui_enter ;;; tui_clear ;;;
  tui_box 0 0 COLS ROWS (bytes " AEOS DASHBOARD ") ;;;
  tui_text (ROWS - 1) 3 (bytes "[q] quit   refresh ~100ms") 50 ;;;
  panels ;;;
  let* q := dash_loop 0 rounds in
  (if q : bool then tui_leave else ret tt) ;;;
  ret q.

(** ** The terminal *)

(** A colour and the bold flag; [plain_pen] after a reset. *)
Definition attr : Type := Z * bool.
Definition plain_pen : attr := (9, false).
Definition page : Type := Z -> Z -> Z * attr.
Definition blank_page : page := fun _ _ => (32, plain_pen).
Definition write_at (r c : Z) (x : Z * attr) (p : page) : page := fun r' c' => if (r' =? r) && (c' =? c) then x else p r' c'.

(** The input parser: text, after ESC, or in a control sequence with the
    parameters before the current one. *)
Inductive parser := Ground | Escape | Csi (priv : bool) (before : list Z) (cur : Z).

Record term := mk_term {
  main_page : page; alt_page : page; on_alt : bool; saved : Z * Z; pos : Z * Z; pen : attr;
  cursor_on : bool; ps : parser }.

Definition set_ps (p : parser) (t : term) : term :=
  mk_term (main_page t) (alt_page t) (on_alt t) (saved t) (pos t) (pen t) (cursor_on t) p.
Definition set_pen (a : attr) (t : term) : term :=
  mk_term (main_page t) (alt_page t) (on_alt t) (saved t) (pos t) a (cursor_on t) (ps t).
Definition goto (r c : Z) (t : term) : term :=
  mk_term (main_page t) (alt_page t) (on_alt t) (saved t) (r, c) (pen t) (cursor_on t) (ps t).
Definition set_cursor (b : bool) (t : term) : term :=
  mk_term (main_page t) (alt_page t) (on_alt t) (saved t) (pos t) (pen t) b (ps t).
(** The page on show. *)
Definition screen (t : term) : page := if on_alt t then alt_page t else main_page t.
Definition set_screen (p : page) (t : term) : term :=
  if on_alt t then mk_term (main_page t) p true (saved t) (pos t) (pen t) (cursor_on t) (ps t)
  else mk_term p (alt_page t) false (saved t) (pos t) (pen t) (cursor_on t) (ps t).
Definition type_char (c : Z) (t : term) : term :=
  goto (fst (pos t)) (snd (pos t) + 1) (set_screen (write_at (fst (pos t)) (snd (pos t)) (c, pen t) (screen t)) t).

Definition enter_alt (t : term) : term :=
  if on_alt t then t else mk_term (main_page t) (alt_page t) true (pos t) (pos t) (pen t) (cursor_on t) (ps t).
Definition leave_alt (t : term) : term :=
  if on_alt t then mk_term (main_page t) (alt_page t) false (saved t) (saved t) (pen t) (cursor_on t) (ps t) else t.

Definition sgr (a : attr) (n : Z) : attr :=
  if n =? 0 then plain_pen else if n =? 1 then (fst a, true)
  else if (30 <=? n) && (n <=? 37) then (n - 30, snd a) else a.
Definition run_csi (priv : bool) (args : list Z) (c : Z) (t : term) : term :=
  let arg i := Z.max 1 (nth i args 1) in
  if priv then
    match args with
    | [n] => if n =? 1049 then (if c =? 104 then enter_alt t else if c =? 108 then leave_alt t else t)
             else if n =? 25 then (if c =? 104 then set_cursor true t else if c =? 108 then set_cursor false t else t)
             else t
    | _ => t
    end
  else if c =? 72 then goto (arg 0%nat - 1) (arg 1%nat - 1) t
  else if c =? 74 then (if nth 0 args 0 =? 2 then set_screen blank_page t else t)
  else if c =? 109 then set_pen (fold_left sgr args (pen t)) t
  else t.

Definition feed1 (t : term) (c : Z) : term :=
  match ps t with
  | Ground =>
      if c =? ESC then set_ps Escape t
      else if c =? CR then goto (fst (pos t)) 0 t
      else if c =? LF then goto (fst (pos t) + 1) (snd (pos t)) t
      else type_char c t
  | Escape => if c =? 91 then set_ps (Csi false [] 0) t else set_ps Ground t
  | Csi priv before cur =>
      if c =? 63 then set_ps (Csi true before cur) t
      else if (48 <=? c) && (c <=? 57) then set_ps (Csi priv before (10 * cur + (c - 48))) t
      else if c =? 59 then set_ps (Csi priv (before ++ [cur]) 0) t
      else run_csi priv (before ++ [cur]) c (set_ps Ground t)
  end.
Definition feed (t : term) (l : list Z) : term := fold_left feed1 l t.

(** ** What the primitives show *)

(** [m] turns the terminal [t] into [t'], whatever the state, which it leaves. *)
Definition shows {S} (m : M S unit) (t t' : term) : Prop :=
  forall s, exists o, m s = Ok (tt, s, o) /\ feed t o = t'.

Section Shows.
Context {S : Type}.
Implicit Types m k : M S unit.

Lemma shows_seq m k t t1 t2 : shows m t t1 -> shows k t1 t2 -> shows (m ;;; k) t t2.
Proof.
  intros Hm Hk s. destruct (Hm s) as (o1 & E1 & F1). destruct (Hk s) as (o2 & E2 & F2). exists (o1 ++ o2). split.
  - by rewrite (bind_run _ _ _ _ _ _ _ _ _ E1 E2).
  - unfold feed in *. by rewrite fold_left_app, F1.
Qed.
Lemma shows_ret t : shows (ret tt : M S unit) t t.
Proof. intros s. by exists []. Qed.
Lemma shows_of_opt {A} (x : option A) a (f : A -> M S unit) t t' :
  x = Some a -> shows (f a) t t' -> shows (bind (of_opt x) f) t t'.
Proof. intros -> H s. rewrite bind_some. apply H. Qed.

Definition no_break (c : Z) : Prop := c <> CR /\ c <> LF.
Lemma puts_no_break l : Forall no_break l -> Pl011.uart_puts_nolf l = l.
Proof.
  induction 1 as [|c l [Hc Hl] _ IH]; [done|]. unfold Pl011.uart_puts_nolf in *. cbn [flat_map]. rewrite IH. unfold Pl011.uart_putc.
  by rewrite (proj2 (Z.eqb_neq _ _) Hc), (proj2 (Z.eqb_neq _ _) Hl).
Qed.
Lemma shows_puts l t t' : Forall no_break l -> feed t l = t' -> shows (puts_bytes_nolf l : M S unit) t t'.
Proof. intros Hl <- s. eexists. split; [reflexivity|]. by rewrite puts_no_break. Qed.

Definition printable (c : Z) : Prop := c <> CR /\ c <> LF /\ c <> ESC.
Lemma shows_putc c t : printable c -> ps t = Ground -> shows (term_putc c : M S unit) t (type_char c t).
Proof.
  intros (H1 & H2 & H3) Hg s. eexists. split; [reflexivity|]. unfold Pl011.uart_putc.
  rewrite (proj2 (Z.eqb_neq _ _) H1), (proj2 (Z.eqb_neq _ _) H2). unfold feed, feed1. cbn [fold_left]. rewrite Hg.
  by rewrite (proj2 (Z.eqb_neq _ _) H1), (proj2 (Z.eqb_neq _ _) H2), (proj2 (Z.eqb_neq _ _) H3).
Qed.

(** *** Numbers *)

Lemma dec_chars_spec room v : (5 <= room)%nat -> 0 <= v < 10 ^ Z.of_nat room ->
  exists ds, dec_chars room v = Some ds /\ Forall Pl011.is_digit ds /\ Pl011.dec_value ds = v.
Proof.
  intros Hr Hv. unfold dec_chars. destruct (Z.eqb_spec v 0) as [->|Hv0].
  { exists [48]. split_and!; try done. repeat constructor; unfold Pl011.is_digit; lia. }
  destruct (Pl011.dec_loop_spec room v []) as (ds & E & Hd & Hval & _); [done|done|].
  rewrite Boot.rev_digits_dec by lia. change (reverse []) with (@nil Z). rewrite E, app_nil_r. cbn [fmap option_fmap option_map].
  rewrite reverse_involutive. by exists ds.
Qed.

Lemma set_ps_twice p q t : set_ps p (set_ps q t) = set_ps p t.
Proof. done. Qed.

Lemma feed_digits ds priv before : Forall Pl011.is_digit ds -> forall cur t, ps t = Csi priv before cur ->
  feed t ds = set_ps (Csi priv before (cur * 10 ^ Z.of_nat (length ds) + Pl011.dec_value ds)) t.
Proof.
  induction 1 as [|c ds Hc Hds IH]; intros cur t Hp.
  { cbn. rewrite Z.mul_1_r, Z.add_0_r, <- Hp. by destruct t. }
  unfold Pl011.is_digit in Hc. cbn [feed fold_left]. fold (feed (feed1 t c) ds).
  assert (E : feed1 t c = set_ps (Csi priv before (10 * cur + (c - 48))) t).
  { unfold feed1. rewrite Hp. rewrite (proj2 (Z.eqb_neq c 63)), (proj2 (Z.leb_le 48 c)), (proj2 (Z.leb_le c 57)) by lia. done. }
  rewrite E. erewrite IH by reflexivity. rewrite set_ps_twice. do 2 f_equal.
  rewrite Pl011.dec_value_cons. cbn [length]. rewrite Nat2Z.inj_succ, Z.pow_succ_r by lia. lia.
Qed.

Lemma digits_no_break ds : Forall Pl011.is_digit ds -> Forall no_break ds.
Proof. intros H. eapply Forall_impl; [exact H|]. unfold Pl011.is_digit, no_break, CR, LF. lia. Qed.

Lemma shows_at row col t : 0 <= row < 99999 -> 0 <= col < 99999 -> ps t = Ground ->
  shows (tui_at row col : M S unit) t (goto row col t).
Proof.
  intros Hr Hc Hg. unfold tui_at. rewrite !u32_small by lia.
  destruct (dec_chars_spec 6 (row + 1)) as (dr & Er & Hdr & Hvr); [lia|simpl; lia|].
  destruct (dec_chars_spec 6 (col + 1)) as (dc & Ec & Hdc & Hvc); [lia|simpl; lia|].
  eapply shows_of_opt; [exact Er|]. eapply shows_of_opt; [exact Ec|]. apply shows_puts.
  { repeat (apply Forall_cons; split; [done|]). apply Forall_app. split; [by apply digits_no_break|].
    apply Forall_cons. split; [done|]. apply Forall_app. split; [by apply digits_no_break|]. by repeat constructor. }
  unfold feed. cbn [fold_left]. rewrite fold_left_app. cbn [fold_left].
  assert (E1 : feed1 (feed1 t ESC) 91 = set_ps (Csi false [] 0) t).
  { unfold feed1 at 2. rewrite Hg. by destruct t. }
  rewrite E1. change (fold_left feed1 dr ?x) with (feed x dr). erewrite feed_digits by (done || reflexivity).
  rewrite Hvr, Z.mul_0_l, Z.add_0_l. rewrite fold_left_app. cbn [fold_left].
  assert (E2 : forall p, feed1 (set_ps (Csi false [] (row + 1)) (set_ps p t)) 59 = set_ps (Csi false [row + 1] 0) t).
  { intros p. by destruct t. }
  rewrite E2. change (fold_left feed1 dc ?x) with (feed x dc). erewrite feed_digits by (done || reflexivity).
  rewrite Hvc, Z.mul_0_l, Z.add_0_l. unfold feed1. cbn [ps set_ps]. change (72 =? 63) with false. cbv iota.
  change ((48 <=? 72) && (72 <=? 57)) with false. change (72 =? 59) with false. cbv iota. cbn [app].
  unfold run_csi. cbn [nth]. change (72 =? 72) with true. cbv iota.
  replace (Z.max 1 (row + 1) - 1) with row by lia. replace (Z.max 1 (col + 1) - 1) with col by lia.
  destruct t. cbn in Hg. by subst.
Qed.

Lemma shows_color fg bold t : 0 <= fg <= 7 -> ps t = Ground -> shows (tui_color fg bold : M S unit) t (set_pen (fg, bold) t).
Proof.
  intros Hf Hg. unfold tui_color. apply shows_puts.
  - rewrite u8_small by lia. repeat (apply Forall_cons; split; [unfold no_break, ESC, CR, LF; destruct bold; lia|]). constructor.
  - destruct t as [m a al sv ps_ pn cu p]. cbn in Hg. subst p.
    assert (fg = 0 \/ fg = 1 \/ fg = 2 \/ fg = 3 \/ fg = 4 \/ fg = 5 \/ fg = 6 \/ fg = 7) as Hcase by lia.
    destruct Hcase as [->|[->|[->|[->|[->|[->|[->| ->]]]]]]]; by destruct bold.
Qed.
Lemma shows_reset t : ps t = Ground -> shows (tui_reset : M S unit) t (set_pen plain_pen t).
Proof. intros Hg. apply shows_puts; [by repeat constructor|]. destruct t. cbn in Hg. by subst. Qed.

(** *** Text *)

Definition type_all (l : list Z) (t : term) : term := fold_left (fun t c => type_char c t) l t.

Lemma type_char_ps c t : ps (type_char c t) = ps t.
Proof. unfold type_char, set_screen. by destruct (on_alt t). Qed.
Lemma type_all_ps l : forall t, ps (type_all l t) = ps t.
Proof. induction l as [|c l IH]; intros t; [done|]. cbn. unfold type_all in IH. by rewrite IH, type_char_ps. Qed.

Lemma set_pen_ps a t : ps (set_pen a t) = ps t. Proof. done. Qed.
Lemma goto_ps r c t : ps (goto r c t) = ps t. Proof. done. Qed.

Lemma type_char_look c t : screen (type_char c t) = write_at (fst (pos t)) (snd (pos t)) (c, pen t) (screen t) /\
  pos (type_char c t) = (fst (pos t), snd (pos t) + 1) /\ pen (type_char c t) = pen t.
Proof. unfold type_char, set_screen, screen. by destruct t as [? ? [] ? ? ? ? ?]. Qed.

Lemma type_all_look l : forall t,
  (forall r c, screen (type_all l t) r c =
     if (r =? fst (pos t)) && (snd (pos t) <=? c) && (c <? snd (pos t) + Z.of_nat (length l))
     then (nth (Z.to_nat (c - snd (pos t))) l 0, pen t) else screen t r c) /\
  pos (type_all l t) = (fst (pos t), snd (pos t) + Z.of_nat (length l)) /\ pen (type_all l t) = pen t.
Proof.
  induction l as [|x l IH]; intros t.
  { split; [|split; [|done]].
    - intros r c. destruct (_ && _ && _) eqn:E; [|done]. bool_hyps. simpl in *. lia.
    - cbn. rewrite Z.add_0_r. by destruct (pos t). }
  cbn [type_all fold_left]. fold (type_all l (type_char x t)). destruct (type_char_look x t) as (Hs & Hp & Ha).
  destruct (IH (type_char x t)) as (IH1 & IH2 & IH3). rewrite IH2, IH3, Hp, Ha. cbn [fst snd length].
  split; [|split; [f_equal; lia|done]]. intros r c. rewrite IH1, Hs, Hp, Ha. cbn [fst snd]. unfold write_at.
  destruct (Z.eqb_spec r (fst (pos t))) as [->|Hr]; cbn [andb]; [|done].
  destruct (Z.eqb_spec c (snd (pos t))) as [->|Hc].
  - rewrite (proj2 (Z.leb_gt (snd (pos t) + 1) _)), (proj2 (Z.leb_le (snd (pos t)) _)) by lia. cbn [andb].
    rewrite (proj2 (Z.ltb_lt _ _)) by lia. by rewrite Z.sub_diag.
  - destruct (Z.leb_spec (snd (pos t) + 1) c), (Z.leb_spec (snd (pos t)) c); try lia; cbn [andb]; [|done].
    replace (snd (pos t) + Z.of_nat (Datatypes.S (length l))) with (snd (pos t) + 1 + Z.of_nat (length l)) by lia.
    case_match; [|done]. replace (Z.to_nat (c - snd (pos t))) with (Datatypes.S (Z.to_nat (c - (snd (pos t) + 1)))) by lia. done.
Qed.

Lemma shows_put_all l : Forall printable l -> forall t, ps t = Ground -> shows (put_all l : M S unit) t (type_all l t).
Proof.
  induction 1 as [|c l Hc _ IH]; intros t Hg; [apply shows_ret|]. cbn [put_all foldr type_all fold_left].
  eapply shows_seq; [by apply shows_putc|]. apply IH. by rewrite type_char_ps.
Qed.

Lemma shows_text_loop s : Forall printable s -> forall w t, 0 <= w -> ps t = Ground ->
  shows (text_loop s w : M S unit) t (type_all (take (Z.to_nat w) s) t).
Proof.
  induction 1 as [|c s Hc _ IH]; intros w t Hw Hg; cbn [text_loop]; [rewrite take_nil; apply shows_ret|].
  destruct (Z.eqb_spec w 0) as [->|Hw0]; [apply shows_ret|]. pose proof Hc as (_ & HL & _).
  rewrite (proj2 (Z.eqb_neq _ _) HL). replace (Z.to_nat w) with (Datatypes.S (Z.to_nat (w - 1))) by lia.
  eapply shows_seq; [by apply shows_putc|]. apply IH; [lia|by rewrite type_char_ps].
Qed.

Lemma shows_text row col s w t : 0 <= row < 99999 -> 0 <= col < 99999 -> Forall printable s -> 0 <= w -> ps t = Ground ->
  shows (tui_text row col s w : M S unit) t (type_all (take (Z.to_nat w) s) (goto row col t)).
Proof. intros. eapply shows_seq; [by apply shows_at|]. by apply shows_text_loop. Qed.
End Shows.

(** What stands on row [r] from column [c] on. *)
Definition reads (t : term) (r c : Z) (l : list Z) : Prop :=
  forall i, 0 <= i < Z.of_nat (length l) -> fst (screen t r (c + i)) = nth (Z.to_nat i) l 0.

(** The parser is at rest after text, a move or a change of pen. *)
Ltac at_rest := rewrite ?set_pen_ps; repeat rewrite ?type_char_ps, ?type_all_ps, ?set_pen_ps, ?goto_ps; done.

Section Bar.
Context {S : Type}.

(** What the bar looks like on its row: a bracket, [filled] hashes, dots, a bracket. *)
Definition bar_cell (col width pct color c : Z) (old : Z * attr) : Z * attr :=
  let filled := Z.max 0 (Z.min pct 100) * width / 100 in
  if c =? col then (91, (TUI_WHITE, false))
  else if (col <? c) && (c <=? col + width) then (if c - col - 1 <? filled then 35 else 46, (color, true))
  else if c =? col + width + 1 then (93, (TUI_WHITE, false))
  else old.

Lemma shows_bar row col width pct color t :
  0 <= row < 99999 -> 0 <= col < 99999 -> 0 <= width < 2 ^ 24 -> 0 <= color <= 7 -> ps t = Ground ->
  let cells := map (fun i => if i <? Z.max 0 (Z.min pct 100) * width / 100 then 35 else 46) (seqZ 0 width) in
  shows (tui_bar row col width pct color : M S unit) t
    (set_pen plain_pen (type_char 93 (set_pen (TUI_WHITE, false) (type_all cells
      (set_pen (color, true) (type_char 91 (set_pen (TUI_WHITE, false) (goto row col t)))))))).
Proof.
  intros Hr Hc Hw Hcol Hg cells. unfold tui_bar.
  set (p := if (if pct <? 0 then 0 else pct) >? 100 then 100 else if pct <? 0 then 0 else pct).
  assert (Hp : p = Z.max 0 (Z.min pct 100)).
  { unfold p. rewrite Z.gtb_ltb. destruct (Z.ltb_spec pct 0); [change (100 <? 0) with false; cbv iota; lia|].
    destruct (Z.ltb_spec 100 pct); lia. }
  rewrite Hp, u32_small by nia. fold cells.
  assert (Hcells : Forall printable cells).
  { unfold cells. apply Forall_map, Forall_forall. intros i _. cbn. by case_match. }
  assert (Hone : forall c, c = 91 \/ c = 93 -> printable c) by (intros c [-> | ->]; done).
  assert (HW : 0 <= TUI_WHITE <= 7) by (unfold TUI_WHITE; lia).
  eapply shows_seq; [by apply shows_at|]. eapply shows_seq; [by apply shows_color|].
  eapply shows_seq; [apply shows_putc; [by apply Hone; left|done]|].
  eapply shows_seq; [apply shows_color; [done|at_rest]|].
  eapply shows_seq; [apply shows_put_all; [done|at_rest]|].
  assert (Hg2 : ps (type_all cells (set_pen (color, true) (type_char 91 (set_pen (TUI_WHITE, false) (goto row col t))))) = Ground).
  { at_rest. }
  eapply shows_seq; [by apply shows_color|]. eapply shows_seq; [apply shows_putc; [by apply Hone; right|done]|].
  apply shows_reset. at_rest.
Qed.
End Bar.

(** A progress bar on the terminal: whatever the percentage, the row shows a
    bracket, [clamp pct * width / 100] hashes in the bar's colour, dots up to the
    width, and a bracket; no other cell changes, and the pen is reset. *)
Theorem tui_bar_drawn {S} row col width pct color t (Hr : 0 <= row < 99999) (Hc : 0 <= col < 99999)
  (Hw : 0 <= width < 2 ^ 24) (Hcol : 0 <= color <= 7) (Hg : ps t = Ground) :
  exists t', shows (tui_bar row col width pct color : M S unit) t t' /\ ps t' = Ground /\ pen t' = plain_pen /\
    forall r c, screen t' r c = if r =? row then bar_cell col width pct color c (screen t r c) else screen t r c.
Proof.
  eexists. split; [by apply shows_bar|]. set (cells := map _ _). set (t1 := set_pen (TUI_WHITE, false) (goto row col t)).
  set (t2 := set_pen (color, true) (type_char 91 t1)). set (t3 := set_pen (TUI_WHITE, false) (type_all cells t2)).
  assert (Hl : Z.of_nat (length cells) = width) by (unfold cells; rewrite length_map, length_seqZ; lia).
  destruct (type_char_look 91 t1) as (S1 & P1 & _). destruct (type_all_look cells t2) as (S2 & P2 & _).
  destruct (type_char_look 93 t3) as (S3 & _ & _).
  change (pos t2) with (pos (type_char 91 t1)) in *. rewrite P1 in *. cbn [fst snd] in *.
  change (pos t1) with (row, col) in *. cbn [fst snd] in *. change (screen t2) with (screen (type_char 91 t1)) in S2.
  change (pos t3) with (pos (type_all cells t2)) in S3. change (screen t3) with (screen (type_all cells t2)) in S3. rewrite P2 in S3.
  split; [|split; [done|]].
  { unfold t3, t2, t1. at_rest. }
  intros r c. change (screen (set_pen plain_pen (type_char 93 t3))) with (screen (type_char 93 t3)). rewrite S3. unfold write_at. cbn [fst snd].
  rewrite S2, S1. unfold write_at, bar_cell. change (screen t1) with (screen t). rewrite Hl.
  change (pen t3) with (TUI_WHITE, false). change (pen t1) with (TUI_WHITE, false). change (pen t2) with (color, true).
  destruct (Z.eqb_spec r row) as [->|Hrow]; cbn [andb]; [|done].
  destruct (Z.eqb_spec c (col + 1 + width)), (Z.eqb_spec c col), (Z.leb_spec (col + 1) c), (Z.ltb_spec c (col + 1 + width)),
    (Z.ltb_spec col c), (Z.leb_spec c (col + width)), (Z.eqb_spec c (col + width + 1)); cbn [andb]; try lia; try done.
  f_equal. unfold cells. rewrite (nth_indep _ 0 (if 0 <? Z.max 0 (Z.min pct 100) * width / 100 then 35 else 46))
    by (rewrite length_map, length_seqZ; lia).
  rewrite (map_nth (fun i => if i <? Z.max 0 (Z.min pct 100) * width / 100 then 35 else 46)).
  rewrite (nth_lookup_Some _ _ _ (c - col - 1)); [done|]. apply lookup_seqZ. lia.
Qed.

(** ** The user's screen survives the dashboard *)

Section Stays.
(** The page under the dashboard and the cursor position to come back to. *)
Context (under : page) (home : Z * Z).
Definition covered (t : term) : Prop :=
  ps t = Ground /\ on_alt t = true /\ main_page t = under /\ saved t = home.

(** [m] leaves the state and prints only what keeps the page covered. *)
Definition stays {S} (m : M S unit) (s : S) : Prop :=
  exists o, m s = Ok (tt, s, o) /\ forall t, covered t -> covered (feed t o).

Section Rules.
Context {S : Type}.
Implicit Types (m k : M S unit) (s : S).

Lemma stays_seq m k s : stays m s -> stays k s -> stays (m ;;; k) s.
Proof.
  intros (o1 & E1 & H1) (o2 & E2 & H2). exists (o1 ++ o2). split; [by rewrite (bind_run _ _ _ _ _ _ _ _ _ E1 E2)|].
  intros t Ht. unfold feed. rewrite fold_left_app. apply H2, H1, Ht.
Qed.
Lemma stays_ret s : stays (ret tt) s.
Proof. by exists []. Qed.
Lemma stays_read {A} (x : M S A) (f : A -> M S unit) a s : x s = Ok (a, s, []) -> stays (f a) s -> stays (bind x f) s.
Proof. intros E (o & Ef & H). exists o. by rewrite (bind_ok _ _ _ _ _ E). Qed.
Lemma stays_shows m s : (forall t, covered t -> exists t', shows m t t' /\ covered t') -> stays m s.
Proof.
  intros H. set (t0 := mk_term under blank_page true home home plain_pen true Ground).
  destruct (H t0) as (t' & Hs & _); [done|]. destruct (Hs s) as (o & E & _). exists o. split; [done|]. intros t Ht.
  destruct (H t Ht) as (t1 & Hs1 & Ht1). destruct (Hs1 s) as (o1 & E1 & F1). rewrite E in E1. injection E1 as <-. by rewrite F1.
Qed.

Lemma stays_at row col s : 0 <= row < 99999 -> 0 <= col < 99999 -> stays (tui_at row col) s.
Proof. intros. apply stays_shows. intros t Ht. exists (goto row col t). split; [by apply shows_at; [..|apply Ht]|done]. Qed.
Lemma stays_color fg bold s : 0 <= fg <= 7 -> stays (tui_color fg bold) s.
Proof. intros. apply stays_shows. intros t Ht. exists (set_pen (fg, bold) t). split; [by apply shows_color; [|apply Ht]|done]. Qed.
Lemma stays_reset s : stays tui_reset s.
Proof. apply stays_shows. intros t Ht. exists (set_pen plain_pen t). split; [by apply shows_reset, Ht|done]. Qed.
Lemma stays_putc c s : c <> ESC -> stays (term_putc c) s.
Proof.
  intros Hc. eexists. split; [reflexivity|]. intros t (Hg & Ha & Hm & Hs). unfold Pl011.uart_putc.
  destruct (Z.eqb_spec c CR) as [->|H1]; [done|]. destruct (Z.eqb_spec c LF) as [->|H2]; unfold feed; cbn [fold_left].
  - unfold feed1. rewrite Hg. cbn. by rewrite Hg.
  - unfold feed1. rewrite Hg, !(proj2 (Z.eqb_neq _ _)) by done. unfold type_char, set_screen. by rewrite Ha.
Qed.
Lemma stays_put_all l s : Forall (fun c => c <> ESC) l -> stays (put_all l) s.
Proof. induction 1 as [|c l Hc _ IH]; [apply stays_ret|]. by apply stays_seq; [apply stays_putc|]. Qed.
Lemma stays_text_loop l s : Forall (fun c => c <> ESC) l -> forall w, stays (text_loop l w) s.
Proof.
  induction 1 as [|c l Hc _ IH]; intros w; cbn [text_loop]; [apply stays_ret|].
  case_match; [apply stays_ret|]. case_match; [apply stays_ret|]. by apply stays_seq; [apply stays_putc|].
Qed.
Lemma stays_text row col l w s : 0 <= row < 99999 -> 0 <= col < 99999 -> Forall (fun c => c <> ESC) l ->
  stays (tui_text row col l w) s.
Proof. intros. apply stays_seq; [by apply stays_at|by apply stays_text_loop]. Qed.
Lemma stays_num row col v s : 0 <= row < 99999 -> 0 <= col < 99999 -> stays (tui_num row col v) s.
Proof.
  intros. pose proof (u32_range v). destruct (dec_chars_spec 11 (u32 v)) as (ds & E & Hd & _); [lia|simpl; lia|].
  unfold tui_num. eapply stays_read; [by rewrite E|]. apply stays_text; [done..|].
  eapply Forall_impl; [exact Hd|]. unfold Pl011.is_digit, ESC. lia.
Qed.
Lemma stays_pad row col l w s : 0 <= row < 99999 -> 0 <= col < 99999 -> Forall (fun c => c <> ESC) l ->
  stays (pad_text row col l w) s.
Proof.
  intros. apply stays_seq; [by apply stays_at|]. apply stays_seq; [by apply stays_put_all, Forall_take|].
  apply stays_put_all, Forall_replicate. done.
Qed.
Lemma stays_bar row col width pct color s : 0 <= row < 99999 -> 0 <= col < 99999 -> 0 <= width < 2 ^ 24 -> 0 <= color <= 7 ->
  stays (tui_bar row col width pct color) s.
Proof.
  intros. unfold tui_bar. repeat (apply stays_seq; [first [by apply stays_at | by apply stays_color | by apply stays_putc | idtac]|]);
    [..|apply stays_reset].
  apply stays_put_all, Forall_map, Forall_forall. intros i _. cbn. by case_match.
Qed.
Lemma stays_fill w c s : c <> ESC -> stays (fill_row w c) s.
Proof. intros. by apply stays_put_all, Forall_replicate. Qed.
End Rules.

Lemma no_esc x : forallb (fun c => negb (c =? ESC)) (bytes x) = true -> Forall (fun c => c <> ESC) (bytes x).
Proof.
  intros H. apply Forall_forall. intros c Hc. apply list_elem_of_In in Hc. rewrite forallb_forall in H.
  specialize (H c Hc). by apply negb_true_iff, Z.eqb_neq in H.
Qed.

(** One primitive after the other, with constant places and texts. *)
Ltac stays_tac :=
  repeat match goal with
  | |- stays (bind (tui_at _ _) _) _ => apply stays_seq; [apply stays_at; lia|]
  | |- stays (bind (tui_color _ _) _) _ => apply stays_seq; [by apply stays_color|]
  | |- stays (bind tui_reset _) _ => apply stays_seq; [apply stays_reset|]
  | |- stays (bind (term_putc _) _) _ => apply stays_seq; [by apply stays_putc|]
  | |- stays (bind (fill_row _ _) _) _ => apply stays_seq; [by apply stays_fill|]
  | |- stays (bind (tui_text _ _ (bytes _) _) _) _ => apply stays_seq; [apply stays_text; [done..|by apply no_esc]|]
  | |- stays (bind (tui_num _ _ _) _) _ => apply stays_seq; [by apply stays_num|]
  | |- stays (bind (tui_bar _ _ _ _ _) _) _ => apply stays_seq; [by apply stays_bar|]
  end.

Lemma stays_box_rows {S} row col w (s : S) n : forall y, 0 <= row -> 1 <= y -> row + y + Z.of_nat n < 99999 ->
  0 <= col -> 1 <= w -> col + w < 99999 -> stays (box_rows row col w y n) s.
Proof.
  induction n as [|n IH]; intros y H1 H2 H3 H4 H5 H6; cbn [box_rows]; [apply stays_ret|].
  rewrite !u32_small by lia. stays_tac. apply IH; lia.
Qed.

Lemma stays_box {S} row col w h title (s : S) : 0 <= row -> 1 <= h -> row + h < 99999 -> 0 <= col -> 1 <= w -> col + w + 2 < 99999 ->
  forallb (fun c => negb (c =? ESC)) (bytes title) = true -> stays (tui_box row col w h (bytes title)) s.
Proof.
  intros. unfold tui_box.
  apply stays_seq; [by apply stays_color|]. apply stays_seq; [by apply stays_at; lia|]. stays_tac.
  apply stays_seq; [apply stays_box_rows; rewrite ?u32_small; lia|]. rewrite !u32_small by lia. stays_tac.
  apply stays_seq; [|apply stays_reset]. destruct (bytes title) eqn:Et; [apply stays_ret|]. rewrite <- Et in *.
  apply stays_text; [lia..|by apply no_esc].
Qed.

(** *** The panels *)

Definition dash_ok (k : kst) : Prop :=
  length (tasks (sch (k_proc k))) = 16%nat /\ Forall (fun t => Forall (fun c => c <> ESC) (name t)) (tasks (sch (k_proc k))).

Lemma in_proc_read {A} (m : M pstate A) a k : m (k_proc k) = Ok (a, k_proc k, []) -> in_proc m k = Ok (a, k, []).
Proof. intros E. unfold in_proc. rewrite (zoom_ok _ _ _ _ _ _ _ E). by destruct k. Qed.
Lemma in_sched_read {A} (m : M (sched vmm) A) a s : m (sch s) = Ok (a, sch s, []) -> in_sched m s = Ok (a, s, []).
Proof. intros E. unfold in_sched. rewrite (zoom_ok _ _ _ _ _ _ _ E). by destruct s. Qed.

Lemma cstr_Forall (P : Z -> Prop) l : Forall P l -> Forall P (cstr l).
Proof. induction 1 as [|c l Hc _ IH]; cbn; [constructor|]. case_match; [constructor|by constructor]. Qed.

Lemma stays_task_rows k n : dash_ok k -> forall idx line, 0 <= idx -> idx + Z.of_nat n <= 16 ->
  0 <= line -> line + Z.of_nat n < 99999 -> stays (task_rows idx line n) k.
Proof.
  intros (Hl & Hn). induction n as [|n IH]; intros idx line Hi Hn16 Hli Hln; cbn [task_rows]; [apply stays_ret|].
  destruct (aget_in (tasks (sch (k_proc k))) idx) as [t Ht]; [lia|].
  assert (E : exists r, sched_snapshot idx (sch (k_proc k)) = Ok (r, sch (k_proc k), []) /\
    match snd r with Some (nm, _, _, _) => Forall (fun c => c <> ESC) nm | None => True end).
  { unfold sched_snapshot, valid_idx. rewrite Z.geb_leb, (proj2 (Z.ltb_ge idx 0)), (proj2 (Z.leb_gt MAX_TASKS idx)) by (unfold MAX_TASKS; lia).
    cbn [orb negb]. rewrite (bind_ok (get_task idx) _ _ t (sch (k_proc k))) by (unfold get_task; by rewrite bind_get, Ht).
    case_decide; [by eexists|]. eexists. split; [reflexivity|]. cbn [snd].
    apply aget_Some in Ht as [_ Ht]. pose proof (Forall_lookup_1 _ _ _ _ Hn Ht) as Hnt. cbv beta in Hnt.
    by apply cstr_Forall, Forall_take. }
  destruct E as (r & E & Hr). eapply stays_read; [by apply in_proc_read, in_sched_read|].
  destruct (snd r) as [[[[nm st] ti] yi]|]; [|apply IH; lia].
  apply stays_seq; [by apply stays_pad; [lia..|constructor]|]. apply stays_seq; [by apply stays_num; lia|].
  apply stays_seq; [by apply stays_pad; [lia..|]|]. apply stays_seq; [apply stays_text; [lia..|]; by destruct st; apply no_esc|].
  do 2 (apply stays_seq; [by apply stays_num; lia|]). apply IH; lia.
Qed.

Lemma stays_panel_tasks k : dash_ok k -> stays panel_tasks k.
Proof.
  intros Hk. unfold panel_tasks, PANEL_TASKS_ROW. stays_tac.
  apply stays_seq; [by apply stays_task_rows; [|unfold MAX_TASKS; lia..]|apply stays_reset].
Qed.

Lemma stays_panel_memory k : stays panel_memory k.
Proof.
  unfold panel_memory. do 4 (eapply stays_read; [apply in_proc_read; by destruct k as [[? ? ? [? ? ? ? ? ? [] ?] ?] ? ? ? ? ? ? ?]|]).
  unfold PANEL_MEM_ROW. stays_tac. apply stays_text; [done..|by apply no_esc].
Qed.

Lemma get_ticks_run k : get_ticks k = Ok (timer_ticks (Ai.k_timer (k_ai k)), k, []).
Proof. by destruct k as [? ? ? ? ? ? [] ?]. Qed.

Lemma stays_panel_ai k : stays panel_ai k.
Proof.
  unfold panel_ai. eapply stays_read; [reflexivity|]. unfold PANEL_AI_ROW. stays_tac.
  apply stays_seq. { apply stays_text; [done..|]. unfold Cmt.cmt_core_action_name, Cmt.cmt_action_names.
    case_match; [|by apply no_esc]. destruct (Z.to_nat _) as [|[|[|[|?]]]]; by apply no_esc. }
  stays_tac. eapply stays_read; [apply get_ticks_run|]. by apply stays_num.
Qed.

Lemma stays_panels k : dash_ok k -> stays panels k.
Proof.
  intros. apply stays_seq; [by apply stays_panel_tasks|].
  apply stays_seq; [apply stays_panel_memory|apply stays_panel_ai].
Qed.

(** *** The loop *)

(** Interrupts that print nothing and keep the task table displayable. *)
Definition quiet (irq : M kst unit) : Prop := forall k, dash_ok k -> exists k', irq k = Ok (tt, k', []) /\ dash_ok k'.

Lemma dash_loop_run rounds : Forall (fun x => quiet (snd x)) rounds -> forall last k, dash_ok k ->
  exists k' o, dash_loop last rounds k = Ok (existsb (fun x => quits (fst x)) rounds, k', o) /\ dash_ok k' /\
    forall t, covered t -> covered (feed t o).
Proof.
  induction 1 as [|[key irq] rounds Hq _ IH]; intros last k Hk; [by exists k, []|].
  cbn [dash_loop existsb fst]. destruct (quits key) eqn:Eq; [by exists k, []|]. cbn [orb].
  rewrite (bind_ok _ _ _ _ _ (get_ticks_run k)). set (now := timer_ticks _).
  assert (Hp : exists last' o, (if u64 (now - last) >=? 10 then panels ;;; ret now else ret last) k = Ok (last', k, o) /\
    forall t, covered t -> covered (feed t o)).
  { case_match; [|by exists last, []]. destruct (stays_panels k Hk) as (o & E & Ho). exists now, (o ++ []).
    split; [by apply (bind_run _ _ _ _ _ _ _ _ _ E)|]. by rewrite app_nil_r. }
  destruct Hp as (last' & o1 & E1 & Ho1). destruct (Hq k Hk) as (k1 & E2 & Hk1). cbn [snd] in E2.
  destruct (IH last' k1 Hk1) as (k2 & o2 & E3 & Hk2 & Ho2). exists k2, (o1 ++ o2). split; [|split; [done|]].
  - eapply bind_run; [exact E1|]. by rewrite (bind_ok _ _ _ _ _ E2).
  - intros t Ht. unfold feed. rewrite fold_left_app. by apply Ho2, Ho1.
Qed.
End Stays.

Definition enter_seq : list Z := esc "[?1049h" ++ esc "[H" ++ esc "[2J" ++ esc "[?25l".
Definition leave_seq : list Z := esc "[?25h" ++ esc "[?1049l".

Lemma feed_app a b t : feed t (a ++ b) = feed (feed t a) b.
Proof. apply fold_left_app. Qed.
Lemma enter_covers t : ps t = Ground -> on_alt t = false -> covered (main_page t) (pos t) (feed t enter_seq).
Proof. intros Hg Hm. destruct t. cbn in Hg, Hm. subst. done. Qed.
Lemma clear_covered u h t : covered u h t -> covered u h (feed t (esc "[H" ++ esc "[2J")).
Proof. intros (Hg & Ha & Hu & Hh). destruct t. cbn in Hg, Ha, Hu, Hh. by subst. Qed.
Lemma leave_uncovers u h t : covered u h t ->
  let t' := feed t leave_seq in screen t' = u /\ pos t' = h /\ on_alt t' = false /\ cursor_on t' = true /\ ps t' = Ground.
Proof. intros (Hg & Ha & Hu & Hh). destruct t. cbn in Hg, Ha, Hu, Hh. by subst. Qed.


(** ** Numbers that shrink *)

(** [tui_num] does not erase what it does not overwrite: a rate that falls from
    100 to 50 Hz is displayed as 500. *)
Theorem shrinking_number_garbled {S} t (Hg : ps t = Ground) : exists t',
  shows (tui_num 19 48 100 ;;; tui_num 19 48 50 : M S unit) t t' /\ reads t' 19 48 (bytes "500").
Proof.
  set (t1 := type_all (bytes "100") (goto 19 48 t)).
  exists (type_all (bytes "50") (goto 19 48 t1)). split.
  - eapply shows_seq; (eapply shows_of_opt; [reflexivity|]).
    + apply (shows_text 19 48 (bytes "100") 11); [lia..|repeat constructor; done|lia|done].
    + apply (shows_text 19 48 (bytes "50") 11); [lia..|repeat constructor; done|lia|unfold t1; at_rest].
  - intros i Hi. destruct (type_all_look (bytes "50") (goto 19 48 t1)) as (H1 & _). destruct (type_all_look (bytes "100") (goto 19 48 t)) as (H2 & _).
    rewrite H1. change (screen (goto 19 48 t1)) with (screen t1). unfold t1. rewrite H2. cbn [pos goto fst snd].
    cbn in Hi. assert (i = 0 \/ i = 1 \/ i = 2) as [->|[->| ->]] by lia; reflexivity.
Qed.

(** ** The watchdog *)

Definition tick : M kst unit := in_proc (in_sched sched_on_tick).

Section Watchdog.
Context (pgd : Z).
Local Instance spaces : AddrSpaces vmm := vmm_spaces pgd.

Lemma tick_run k t : dash_ok k -> sched_wf (sch (k_proc k)) -> aget (tasks (sch (k_proc k))) (current (sch (k_proc k))) = Some t ->
  exists k' o, tick k = Ok (tt, k', o) /\ sched_on_tick (sch (k_proc k)) = Ok (tt, sch (k_proc k'), o) /\
    sched_wf (sch (k_proc k')) /\ (exists t', aget (tasks (sch (k_proc k'))) (current (sch (k_proc k'))) = Some t') /\ dash_ok k'.
Proof.
  intros (Hl & Hn) Hwf Ht. destruct (wp_run _ _ _ (on_tick_spec _ t Hwf Ht)) as ([] & s' & o & E & Hwf' & Hc & _ & _ & _ & Hts).
  eexists _, o. split; [unfold tick, in_proc, in_sched; by erewrite zoom_ok by (by apply zoom_ok)|]. split; [done|].
  split; [done|]. split.
  { eexists. cbn [k_proc set_proc sch set_sch]. rewrite Hts, Hc. apply aget_insert. exact (aget_lt _ _ _ Ht). }
  split; cbn [k_proc set_proc sch set_sch]; rewrite Hts; [by rewrite length_insert|]. apply Forall_insert; [done|].
  apply aget_Some in Ht as [_ Ht]. exact (Forall_lookup_1 _ _ _ _ Hn Ht).
Qed.

Lemma dash_ticks n : forall last k t s' o', dash_ok k -> sched_wf (sch (k_proc k)) ->
  aget (tasks (sch (k_proc k))) (current (sch (k_proc k))) = Some t -> run_ticks n (sch (k_proc k)) = Ok (tt, s', o') ->
  exists k' o, dash_loop last (replicate n (None, tick) ++ [(Some 113, ret tt)]) k = Ok (true, k', o) /\ sch (k_proc k') = s'.
Proof.
  induction n as [|n IH]; intros last k t s' o' Hk Hwf Ht Hrun.
  { injection Hrun as <- <-. by exists k, []. }
  destruct (tick_run k t Hk Hwf Ht) as (k1 & o1 & E1 & Es & Hwf1 & [t1 Ht1] & Hk1).
  cbn [run_ticks] in Hrun. unfold bind in Hrun. rewrite Es in Hrun.
  destruct (run_ticks n (sch (k_proc k1))) as [[[[] s2] o2]| |] eqn:E2; [|done..]. injection Hrun as <- <-.
  cbn [replicate app dash_loop]. change (quits None) with false. cbv iota. rewrite (bind_ok _ _ _ _ _ (get_ticks_run k)).
  assert (Hp : exists last' o, (if u64 (timer_ticks (Ai.k_timer (k_ai k)) - last) >=? 10
     then panels ;;; ret (timer_ticks (Ai.k_timer (k_ai k))) else ret last) k = Ok (last', k, o)).
  { case_match; [|by exists last, []]. destruct (stays_panels blank_page (0, 0) k Hk) as (o & E & _).
    eexists _, _. eapply bind_run; [exact E|reflexivity]. }
  destruct Hp as (last' & o3 & E3). destruct (IH last' k1 t1 s2 o2 Hk1 Hwf1 Ht1 E2) as (k' & o4 & E4 & Hs).
  eexists k', _. split; [|exact Hs]. eapply bind_run; [exact E3|]. eapply bind_run; [exact E1|exact E4].
Qed.
End Watchdog.

(** the dashboard kills the shell: it never yields, so when it has been open for as
    many ticks as the watchdog allows, the shell's task is flagged, and after the
    user has left the dashboard the first [sched_yield] of the shell ends it. *)
Theorem dashboard_kills_shell pgd n k t (Hk : dash_ok k) :
  let s := sch (k_proc k) in
  @sched_wf vmm (vmm_spaces pgd) s -> aget (tasks s) (current s) = Some t -> current s <> 0 ->
  0 < watchdog_limit s <= Z.of_nat n -> 0 <= starved_ticks t -> starved_ticks t + Z.of_nat n < 2 ^ 32 ->
  exists k' o, tui_dashboard (replicate n (None, tick) ++ [(Some 113, ret tt)]) k = Ok (true, k', o) /\
  exists r s' o', @sched_yield vmm (vmm_spaces pgd) (sch (k_proc k')) = Ok (r, s', o') /\
    (r = Parked \/ r = Switched /\ exists t', aget (tasks s') (current s) = Some t' /\ state t' = TASK_FINISHED).
Proof.
  intros s Hwf Ht Hc Hlim H0 Hn. pose (I := vmm_spaces pgd).
  destruct (@run_ticks_spec vmm I n s t Hwf Ht H0 Hn) as (s1 & o1 & t1 & E1 & Hwf1 & Hc1 & _ & Ht1 & _ & Hkill).
  assert (Hkp : kill_pending t1 = true).
  { apply Hkill. right. unfold watched. rewrite !(proj2 (Z.eqb_neq _ _)) by lia. split; [done|lia]. }
  destruct (dash_ticks pgd n 0 k t s1 o1 Hk Hwf Ht E1) as (k' & o2 & E2 & Hs').
  destruct (stays_box blank_page (0, 0) 0 0 COLS ROWS " AEOS DASHBOARD " k) as (o3 & E3 & _); [done..|].
  destruct (stays_text blank_page (0, 0) (ROWS - 1) 3 (bytes "[q] quit   refresh ~100ms") 50 k) as (o4 & E4 & _); [done..|by apply no_esc|].
  destruct (stays_panels blank_page (0, 0) k Hk) as (o5 & E5 & _).
  eexists k', _. split.
  { unfold tui_dashboard. eapply bind_run; [reflexivity|]. eapply bind_run; [reflexivity|].
    eapply bind_run; [exact E3|]. eapply bind_run; [exact E4|]. eapply bind_run; [exact E5|]. eapply bind_run; [exact E2|reflexivity]. }
  rewrite Hs'. destruct (wp_run _ _ _ (@yield_post_holds vmm I s1 Hwf1)) as (r & s' & o' & E & t' & Ht' & Hpost).
  exists r, s', o'. split; [exact E|]. rewrite Hc1, Ht1 in Ht'. injection Ht' as <-. rewrite Hkp in Hpost.
  destruct r; [destruct Hpost as [? _]; done| |by left].
  right. split; [done|]. destruct Hpost as (_ & _ & _ & _ & (tp & Htp & Hst & _) & _). rewrite Hc1 in Htp. by exists tp.
Qed.

(** ** Witnesses *)

Definition demo_term : term := mk_term (fun _ _ => (65, plain_pen)) blank_page false (0, 0) (5, 2) plain_pen true Ground.

Lemma tui_bar_drawn_witness : exists t', shows (tui_bar 15 3 40 250 TUI_GREEN : M unit unit) demo_term t' /\
  fst (screen t' 15 43) = 35 /\ fst (screen t' 15 44) = 93 /\ fst (screen t' 15 45) = 65.
Proof.
  destruct (@tui_bar_drawn unit 15 3 40 250 TUI_GREEN demo_term) as (t' & Hs & _ & _ & Hcells);
    [lia|lia|lia|unfold TUI_GREEN; lia|reflexivity|].
  exists t'. split; [exact Hs|]. rewrite !Hcells. split; [reflexivity|split; reflexivity].
Defined.

Lemma demo_dash_ok : dash_ok demo_kst.
Proof. split; [reflexivity|]. vm_compute. repeat constructor; discriminate. Qed.

