(* ===== verification/X86.v ===== *)
(** * The x86_64 port (boot/x86_64)

    - [Com1]: uart.c, the serial console as a byte stream.
    - [Vga]: vgacon.c, the text screen; the specification is an unbounded page
      seen through a window of 25 rows.
    - [Irq]: irq.c and the interrupt stubs of irqs.S.
    - [Ring3]: the task state segment and the system call gate of kernel_x86.c,
      and the hooks of stubs.c. *)

From S2P Require Import Prelude Uart Tick Sched.

(** ** The serial console (uart.c) *)

Module Com1.

Definition LSR_THRE : Z := 0x20.
Definition LSR_DATA : Z := 0x01.

(** The recursive call that should send a carriage return before a line feed. *)
Fixpoint uart_putc_at (depth : nat) (c : Z) : list Z :=
  match depth with
  | O => []
  | S d => if c =? CR then [] else (if c =? LF then uart_putc_at d CR else []) ++ [c]
  end.
Definition uart_putc (c : Z) : list Z := uart_putc_at 2 c.
Definition uart_puts_nolf (s : list Z) : list Z := flat_map uart_putc s.
Definition uart_puts (s : list Z) : list Z := uart_puts_nolf s ++ uart_putc LF.

Definition hex_char (d : Z) : Z := if d <? 10 then 48 + d else 87 + d.
Definition uart_hex (v : Z) : list Z :=
  uart_puts_nolf [48; 120] ++
  (if v =? 0 then uart_putc 48 else uart_puts_nolf (Pl011.skip_zeros (Pl011.hex_fill 16 v []))).
Definition uart_dec (v : Z) : option (list Z) :=
  if v =? 0 then Some (uart_putc 48) else uart_puts_nolf <$> Pl011.dec_loop 20 v [].
(** [for (i = 15; i >= 0; i--) uart_putc(hex[(v >> (i * 4)) & 0xF]);] *)
Definition uart_hex64 (v : Z) : list Z :=
  uart_puts_nolf [48; 120] ++
  uart_puts_nolf (map (fun i => hex_char (Z.land (Z.shiftr v (4 * i)) 15)) (reverse (seqZ 0 16))).

(** [status] is the line status register, [data] the receive buffer. *)
Definition uart_getc_nonblock (status data : Z) : option Z :=
  if Z.land status LSR_DATA =? 0 then None else Some (u8 data).

Lemma putc_spec c : uart_putc c = if c =? CR then [] else [c].
Proof.
  unfold uart_putc. cbn [uart_putc_at]. destruct (c =? CR); [done|]. destruct (c =? LF); [|done].
  change (CR =? CR) with true. done.
Qed.

Lemma nolf_spec s : uart_puts_nolf s = filter (fun c => c <> CR) s.
Proof.
  induction s as [|c s IH]; [done|]. unfold uart_puts_nolf in *. cbn [flat_map]. rewrite IH, putc_spec, filter_cons.
  destruct (Z.eqb_spec c CR) as [->|]; case_decide; done || congruence.
Qed.

Lemma pl011_filter s : filter (fun c => c <> CR) (Pl011.uart_puts_nolf s) = filter (fun c => c <> CR) s.
Proof.
  induction s as [|c s IH]; [done|]. unfold Pl011.uart_puts_nolf in *. cbn [flat_map]. rewrite filter_app, IH, filter_cons.
  unfold Pl011.uart_putc. destruct (Z.eqb_spec c CR) as [->|H1]; [by rewrite decide_False by (intros H; by apply H)|].
  destruct (Z.eqb_spec c LF) as [->|H2].
  - rewrite !filter_cons, !filter_nil, decide_False, !decide_True by (done || intros H; by apply H). done.
  - rewrite filter_cons, filter_nil, !decide_True by done. done.
Qed.

(** The port claims the interface of the ARM driver; what it sends is the ARM
    driver's stream with every carriage return dropped, those that end a line
    included. *)
Theorem com1_drops_returns s :
  uart_puts s = filter (fun c => c <> CR) (Pl011.uart_puts s) /\ CR ∉ uart_puts s.
Proof.
  unfold uart_puts, Pl011.uart_puts. rewrite filter_app, pl011_filter, nolf_spec. split; [done|].
  rewrite elem_of_app, list_elem_of_filter. intros [[H _]|H]; [done|]. cbn in H. set_solver.
Qed.
End Com1.

(** ** The text screen (vgacon.c) *)

Module Vga.

Definition VGA_COLS : Z := 80.
Definition VGA_ROWS : Z := 25.
Definition ATTR : Z := 0x0F00.
Definition cell (c : Z) : Z := Z.lor ATTR (u8 c).

(** The static variables, the framebuffer and the two bytes sent to the cursor's
    registers. *)
Record vga := mk_vga { fb : list Z; cur_row : Z; cur_col : Z; ready : bool; crtc : list (Z * Z) }.

Definition set_fb (l : list Z) (s : vga) : vga := mk_vga l (cur_row s) (cur_col s) (ready s) (crtc s).
Definition set_pos (r c : Z) (s : vga) : vga := mk_vga (fb s) r c (ready s) (crtc s).
Definition store (i x : Z) : M vga unit :=
  let* s := get in let* l := of_opt (aset (fb s) i x) in put (set_fb l s).

(** [for (i = i0; ...; i++) VGA_MEM[i] = VGA_MEM[i + VGA_COLS];], [n] rounds. *)
Fixpoint shift_loop (i : Z) (n : nat) : M vga unit :=
  match n with
  | O => ret tt
  | S n' =>
      let* s := get in let* x := of_opt (aget (fb s) (i + VGA_COLS)) in store i x ;;; shift_loop (i + 1) n'
  end.
Fixpoint blank_loop (i : Z) (n : nat) : M vga unit :=
  match n with O => ret tt | S n' => store i (cell 32) ;;; blank_loop (i + 1) n' end.

Definition vga_scroll : M vga unit :=
  shift_loop 0 (Z.to_nat ((VGA_ROWS - 1) * VGA_COLS)) ;;;
  blank_loop ((VGA_ROWS - 1) * VGA_COLS) (Z.to_nat VGA_COLS).

Definition vgacon_init : M vga unit :=
  blank_loop 0 (Z.to_nat (VGA_ROWS * VGA_COLS)) ;;;
  modify (fun s => mk_vga (fb s) 0 0 true
    (crtc s ++ [(0x3D4, 0x0F); (0x3D5, Z.land ((VGA_ROWS - 1) * VGA_COLS + VGA_COLS - 1) 0xFF)])).

Definition vgacon_putc (c : Z) : M vga unit :=
  let* s := get in
  if negb (ready s) then ret tt else
  (if c =? LF then put (set_pos (cur_row s + 1) 0 s)
   else if c =? CR then put (set_pos (cur_row s) 0 s)
   else store (cur_row s * VGA_COLS + cur_col s) (cell c) ;;; modify (fun s => set_pos (cur_row s) (cur_col s + 1) s)) ;;;
  let* s := get in
  (if cur_col s >=? VGA_COLS then put (set_pos (cur_row s + 1) 0 s) else ret tt) ;;;
  let* s := get in
  if cur_row s >=? VGA_ROWS then vga_scroll ;;; modify (fun s => set_pos (VGA_ROWS - 1) (cur_col s) s) else ret tt.

Definition vga_puts (l : list Z) : M vga unit := foldr (fun c k => vgacon_putc c ;;; k) (ret tt) l.

(** *** The loops *)

Lemma store_run i x s : 0 <= i < Z.of_nat (length (fb s)) -> store i x s = Ok (tt, set_fb (<[Z.to_nat i := x]> (fb s)) s, []).
Proof. intros Hi. unfold store. rewrite bind_get, (aset_in (fb s) i x Hi), bind_some. done. Qed.

Lemma shift_loop_run n : forall i s, 0 <= i -> i + Z.of_nat n + 80 <= Z.of_nat (length (fb s)) ->
  exists l, shift_loop i n s = Ok (tt, set_fb l s, []) /\ length l = length (fb s) /\
    forall j, l !! j = if (Z.to_nat i <=? j)%nat && (j <? Z.to_nat i + n)%nat then fb s !! (j + 80)%nat else fb s !! j.
Proof.
  induction n as [|n IH]; intros i s Hi Hl; cbn [shift_loop].
  { exists (fb s). split; [by destruct s|]. split; [done|]. intros j. destruct (_ && _) eqn:E; [|done].
    apply andb_true_iff in E as [?%Nat.leb_le ?%Nat.ltb_lt]. lia. }
  rewrite bind_get. destruct (aget_in (fb s) (i + VGA_COLS)) as [x Hx]; [unfold VGA_COLS; lia|].
  rewrite Hx, bind_some. rewrite (bind_ok _ _ _ _ _ (store_run i x s ltac:(lia))). set (s1 := set_fb _ s).
  destruct (IH (i + 1) s1) as (l & E & Hlen & Hj); [lia|cbn [fb s1 set_fb]; rewrite length_insert; lia|].
  exists l. split; [exact E|]. cbn [fb s1 set_fb] in *. rewrite length_insert in Hlen. split; [done|]. intros j. rewrite Hj.
  apply aget_Some in Hx as [_ Hx]. unfold VGA_COLS in Hx.
  destruct (Nat.leb_spec (Z.to_nat (i + 1)) j), (Nat.ltb_spec j (Z.to_nat (i + 1) + n)), (Nat.leb_spec (Z.to_nat i) j),
    (Nat.ltb_spec j (Z.to_nat i + S n)); cbn [andb]; try lia.
  - by rewrite list_lookup_insert_ne by lia.
  - by rewrite list_lookup_insert_ne by lia.
  - assert (j = Z.to_nat i) as -> by lia. rewrite list_lookup_insert_eq by lia. rewrite <- Hx. f_equal. lia.
  - by rewrite list_lookup_insert_ne by lia.
Qed.

Lemma blank_loop_run n : forall i s, 0 <= i -> i + Z.of_nat n <= Z.of_nat (length (fb s)) ->
  exists l, blank_loop i n s = Ok (tt, set_fb l s, []) /\ length l = length (fb s) /\
    forall j, l !! j = if (Z.to_nat i <=? j)%nat && (j <? Z.to_nat i + n)%nat then Some (cell 32) else fb s !! j.
Proof.
  induction n as [|n IH]; intros i s Hi Hl; cbn [blank_loop].
  { exists (fb s). split; [by destruct s|]. split; [done|]. intros j. destruct (_ && _) eqn:E; [|done].
    apply andb_true_iff in E as [?%Nat.leb_le ?%Nat.ltb_lt]. lia. }
  rewrite (bind_ok _ _ _ _ _ (store_run i (cell 32) s ltac:(lia))). set (s1 := set_fb _ s).
  destruct (IH (i + 1) s1) as (l & E & Hlen & Hj); [lia|cbn [fb s1 set_fb]; rewrite length_insert; lia|].
  exists l. split; [exact E|]. cbn [fb s1 set_fb] in *. rewrite length_insert in Hlen. split; [done|]. intros j. rewrite Hj.
  destruct (Nat.leb_spec (Z.to_nat (i + 1)) j), (Nat.ltb_spec j (Z.to_nat (i + 1) + n)), (Nat.leb_spec (Z.to_nat i) j),
    (Nat.ltb_spec j (Z.to_nat i + S n)); cbn [andb]; try lia; try done.
  - by rewrite list_lookup_insert_ne by lia.
  - assert (j = Z.to_nat i) as -> by lia. by rewrite list_lookup_insert_eq by lia.
  - by rewrite list_lookup_insert_ne by lia.
Qed.

(** *** The page behind the window *)

(** Characters on an unbounded page, and where the next one goes. *)
Record sheet := mk_sheet { at_ : Z -> Z -> Z; row : Z; col : Z }.
Definition empty_sheet : sheet := mk_sheet (fun _ _ => 32) 0 0.
Definition sheet_putc (p : sheet) (c : Z) : sheet :=
  if c =? LF then mk_sheet (at_ p) (row p + 1) 0
  else if c =? CR then mk_sheet (at_ p) (row p) 0
  else let at' := fun r k => if (r =? row p) && (k =? col p) then c else at_ p r k in
       if col p + 1 =? VGA_COLS then mk_sheet at' (row p + 1) 0 else mk_sheet at' (row p) (col p + 1).
(** The first row that is visible. *)
Definition top (p : sheet) : Z := Z.max 0 (row p - (VGA_ROWS - 1)).

(** The framebuffer shows the 25 rows of [p] from row [tp] on, nothing of the page
    below the cursor's row is written, and the cursors agree. *)
Definition seen (tp : Z) (s : vga) (p : sheet) : Prop :=
  ready s = true /\ length (fb s) = 2000%nat /\ 0 <= col p < 80 /\ cur_row s = row p - tp /\ cur_col s = col p /\
  (forall r c, row p < r -> at_ p r c = 32) /\
  forall r c, 0 <= r < 25 -> 0 <= c < 80 -> aget (fb s) (80 * r + c) = Some (cell (at_ p (tp + r) c)).
Definition window (s : vga) (p : sheet) : Prop := 0 <= row p /\ seen (top p) s p.

Lemma aget_nat (l : list Z) i : 0 <= i -> aget l i = l !! Z.to_nat i.
Proof. intros H. unfold aget. by rewrite (proj2 (Z.leb_le _ _)). Qed.

(** Scrolling moves the window down by one row. *)
Lemma scroll_run tp s p : seen tp s p -> row p = tp + 25 -> (forall c, at_ p (row p) c = 32) ->
  exists s', vga_scroll s = Ok (tt, s', []) /\ seen (tp + 1) (set_pos 24 (cur_col s') s') p.
Proof.
  intros (Hr & Hl & Hc & Hcr & Hcc & Hb & Hs) Hrow Hnew. unfold vga_scroll.
  change (Z.to_nat ((VGA_ROWS - 1) * VGA_COLS)) with 1920%nat. change ((VGA_ROWS - 1) * VGA_COLS) with 1920.
  change (Z.to_nat VGA_COLS) with 80%nat.
  destruct (shift_loop_run 1920 0 s) as (l1 & E1 & L1 & H1); [lia|lia|]. rewrite (bind_ok _ _ _ _ _ E1).
  destruct (blank_loop_run 80 1920 (set_fb l1 s)) as (l2 & E2 & L2 & H2); [lia|cbn [fb set_fb]; lia|].
  exists (set_fb l2 s). split; [exact E2|]. cbn [fb set_fb] in *.
  unfold seen. cbn [ready fb cur_row cur_col set_pos set_fb]. split_and!; [done|lia|lia|lia|lia|done|done|].
  - intros r c Hr25 Hc80. rewrite aget_nat, H2 by lia.
    destruct (decide (r = 24)) as [->|].
    + rewrite (proj2 (Nat.leb_le _ _)), (proj2 (Nat.ltb_lt _ _)) by lia. cbn [andb].
      replace (tp + 1 + 24) with (row p) by lia. by rewrite Hnew.
    + rewrite (proj2 (Nat.leb_gt (Z.to_nat 1920) _)) by lia. cbn [andb]. rewrite H1.
      rewrite (proj2 (Nat.leb_le _ _)), (proj2 (Nat.ltb_lt _ _)) by lia. cbn [andb].
      replace (Z.to_nat (80 * r + c) + 80)%nat with (Z.to_nat (80 * (r + 1) + c)) by lia.
      rewrite <- aget_nat, Hs by lia. do 3 f_equal. lia.
Qed.

Definition settle : M vga unit :=
  let* s := get in
  if cur_row s >=? VGA_ROWS then vga_scroll ;;; modify (fun s => set_pos (VGA_ROWS - 1) (cur_col s) s) else ret tt.

Lemma settle_run tp s p : seen tp s p -> 0 <= tp -> 0 <= row p -> row p <= tp + 25 -> (tp = top p \/ row p = tp + 25) ->
  (row p = tp + 25 -> forall c, at_ p (row p) c = 32) ->
  exists s', settle s = Ok (tt, s', []) /\ window s' p.
Proof.
  intros Hs Htp Hrow Hle Htop Hnew. unfold settle. rewrite bind_get. pose proof Hs as (_ & _ & _ & Hcr & _). rewrite Hcr, Z.geb_leb.
  destruct (Z.leb_spec VGA_ROWS (row p - tp)) as [H|H]; unfold VGA_ROWS in H.
  - destruct (scroll_run tp s p Hs ltac:(lia) (Hnew ltac:(lia))) as (s' & E & H'). rewrite (bind_ok _ _ _ _ _ E). eexists. split; [done|].
    split; [done|]. replace (top p) with (tp + 1) by (unfold top, VGA_ROWS; lia). done.
  - exists s. split; [done|]. split; [done|]. destruct Htop as [<-|?]; [done|lia].
Qed.

Lemma putc_run s p c : window s p -> exists s', vgacon_putc c s = Ok (tt, s', []) /\ window s' (sheet_putc p c).
Proof.
  intros (Hrow & Hs). pose proof Hs as (Hr & Hl & Hc & Hcr & Hcc & Hb & Hcells). unfold vgacon_putc. rewrite bind_get, Hr. cbn [negb].
  set (tp := top p) in *. assert (Htp : 0 <= tp /\ 0 <= row p - tp <= 24) by (unfold tp, top, VGA_ROWS; lia).
  unfold sheet_putc. destruct (c =? LF) eqn:EL; [|destruct (c =? CR) eqn:ER].
  - rewrite (bind_ok (put _) _ s tt (set_pos (cur_row s + 1) 0 s)) by done. rewrite bind_get. cbn [cur_col set_pos].
    change (0 >=? VGA_COLS) with false. cbv iota. rewrite (bind_ok (ret tt) _ _ tt (set_pos (cur_row s + 1) 0 s)) by done.
    apply (settle_run tp); cbn [row at_]; [|lia..| |].
    + unfold seen. cbn [ready fb cur_row cur_col set_pos row col at_]. split_and!; try done; [lia|]. intros r k Hrk. apply Hb. lia.
    + unfold top. cbn [row]. unfold tp, top, VGA_ROWS in *. lia.
    + intros _ k. apply Hb. lia.
  - rewrite (bind_ok (put _) _ s tt (set_pos (cur_row s) 0 s)) by done. rewrite bind_get. cbn [cur_col set_pos].
    change (0 >=? VGA_COLS) with false. cbv iota. rewrite (bind_ok (ret tt) _ _ tt (set_pos (cur_row s) 0 s)) by done.
    apply (settle_run tp); cbn [row at_]; [|lia..|by left|lia].
    unfold seen. cbn [ready fb cur_row cur_col set_pos row col at_]. split_and!; try done; lia.
  - assert (Hidx : 0 <= cur_row s * VGA_COLS + cur_col s < Z.of_nat (length (fb s))) by (unfold VGA_COLS; lia).
    rewrite (bind_ok (store _ _ ;;; _) _ s tt (set_pos (cur_row s) (cur_col s + 1) (set_fb (<[Z.to_nat (cur_row s * VGA_COLS + cur_col s) := cell c]> (fb s)) s)))
      by (by rewrite (bind_ok _ _ _ _ _ (store_run _ _ _ Hidx))).
    set (fb' := <[_ := _]> (fb s)). rewrite bind_get. cbn [cur_col set_pos cur_row set_fb].
    set (at' := fun r k => if (r =? row p) && (k =? col p) then c else at_ p r k).
    assert (Hfb : length fb' = 2000%nat) by (unfold fb'; by rewrite length_insert).
    assert (Hbelow : forall r k, row p < r -> at' r k = 32).
    { intros r k Hrk. unfold at'. rewrite (proj2 (Z.eqb_neq _ _)) by lia. by apply Hb. }
    assert (Hat : forall r k, 0 <= r < 25 -> 0 <= k < 80 -> aget fb' (80 * r + k) = Some (cell (at' (tp + r) k))).
    { intros r k Hr25 Hk. unfold fb', at', VGA_COLS. rewrite aget_nat by lia.
      destruct (Z.eqb_spec (tp + r) (row p)) as [E1|E1]; [destruct (Z.eqb_spec k (col p)) as [E2|E2]|]; cbn [andb].
      - replace (Z.to_nat (80 * r + k)) with (Z.to_nat (cur_row s * 80 + cur_col s)) by lia.
        rewrite list_lookup_insert_eq by (unfold VGA_COLS in Hidx; lia). done.
      - rewrite list_lookup_insert_ne by lia. rewrite <- aget_nat by lia. by apply Hcells.
      - rewrite list_lookup_insert_ne by lia. rewrite <- aget_nat by lia. by apply Hcells. }
    rewrite Hcc, Z.geb_leb. unfold VGA_COLS at 1. destruct (Z.leb_spec 80 (col p + 1)) as [Hw|Hw].
    + rewrite (bind_ok (put _) _ _ tt (set_pos (cur_row s + 1) 0 (set_fb fb' s))) by done.
      rewrite (proj2 (Z.eqb_eq (col p + 1) VGA_COLS)) by (unfold VGA_COLS; lia). apply (settle_run tp); cbn [row at_]; [|lia..| |].
      * unfold seen. cbn [ready fb cur_row cur_col set_pos set_fb row col at_]. split_and!; try done; [lia|]. intros r k Hrk. apply Hbelow. lia.
      * unfold top. cbn [row]. unfold tp, top, VGA_ROWS in *. lia.
      * intros _ k. apply Hbelow. lia.
    + rewrite (bind_ok (ret tt) _ _ tt (set_pos (cur_row s) (cur_col s + 1) (set_fb fb' s))) by (by rewrite Hcc).
      rewrite (proj2 (Z.eqb_neq (col p + 1) VGA_COLS)) by (unfold VGA_COLS; lia). apply (settle_run tp); cbn [row at_]; [|lia..|by left|lia].
      unfold seen. cbn [ready fb cur_row cur_col set_pos set_fb row col at_]. split_and!; try done; lia.
Qed.

Lemma vga_puts_run l : forall s p, window s p -> exists s', vga_puts l s = Ok (tt, s', []) /\ window s' (fold_left sheet_putc l p).
Proof.
  induction l as [|c l IH]; intros s p Hw; [by exists s|]. destruct (putc_run s p c Hw) as (s1 & E & H1).
  cbn [vga_puts foldr fold_left]. rewrite (bind_ok _ _ _ _ _ E). by apply IH.
Qed.

Lemma init_run s : length (fb s) = 2000%nat -> exists s', vgacon_init s = Ok (tt, s', []) /\ window s' empty_sheet.
Proof.
  intros Hl. unfold vgacon_init. change (Z.to_nat (VGA_ROWS * VGA_COLS)) with 2000%nat.
  destruct (blank_loop_run 2000 0 s) as (l & E & Hlen & H); [lia|lia|]. rewrite (bind_ok _ _ _ _ _ E). eexists. split; [reflexivity|].
  split; [done|]. unfold seen. cbn [ready fb cur_row cur_col empty_sheet row col at_]. split_and!; try done.
  { cbn [fb set_fb]. by rewrite Hlen. }
  cbn [fb set_fb]. intros r c Hr Hc. rewrite aget_nat, H by lia. by rewrite (proj2 (Nat.leb_le _ _)), (proj2 (Nat.ltb_lt _ _)) by lia.
Qed.

(** C39: the screen shows the end of the text.  After [vgacon_init], printing any
    characters never leaves the framebuffer, and its 25 rows are the last rows of
    the page that the characters fill (lines broken at 80 columns), up to and
    including the cursor's. *)
Theorem vga_shows_tail s l (Hfb : length (fb s) = 2000%nat) :
  let p := fold_left sheet_putc l empty_sheet in
  exists s', (vgacon_init ;;; vga_puts l) s = Ok (tt, s', []) /\
    cur_row s' = row p - top p /\ cur_col s' = col p /\ 0 <= cur_row s' < VGA_ROWS /\ 0 <= cur_col s' < VGA_COLS /\
    forall r c, 0 <= r < VGA_ROWS -> 0 <= c < VGA_COLS ->
      aget (fb s') (VGA_COLS * r + c) = Some (Z.lor ATTR (u8 (at_ p (top p + r) c))).
Proof.
  intros p. destruct (init_run s Hfb) as (s1 & E1 & H1). destruct (vga_puts_run l s1 empty_sheet H1) as (s2 & E2 & Hrow & H2).
  exists s2. rewrite (bind_ok _ _ _ _ _ E1). fold p in Hrow, H2. destruct H2 as (_ & _ & Hc & Hcr & Hcc & _ & Hcells).
  unfold VGA_ROWS, VGA_COLS, top, VGA_ROWS in *. split_and!; try done; lia.
Qed.

Lemma vga_shows_tail_witness : exists s',
  (vgacon_init ;;; vga_puts (bytes "AEOS" ++ [LF] ++ bytes "ok")) (mk_vga (replicate 2000 0) 9 9 false []) = Ok (tt, s', []) /\
  aget (fb s') 3 = Some 0x0F53 /\ aget (fb s') 81 = Some 0x0F6B /\ cur_col s' = 2.
Proof.
  destruct (vga_shows_tail (mk_vga (replicate 2000 0) 9 9 false []) (bytes "AEOS" ++ [LF] ++ bytes "ok") eq_refl)
    as (s' & E & _ & Hc & _ & _ & H).
  exists s'. split; [exact E|]. split; [|split; [|exact Hc]].
  - change 3 with (VGA_COLS * 0 + 3). rewrite H by (unfold VGA_ROWS, VGA_COLS; lia). vm_compute. reflexivity.
  - change 81 with (VGA_COLS * 1 + 1). rewrite H by (unfold VGA_ROWS, VGA_COLS; lia). vm_compute. reflexivity.
Defined.
End Vga.

(** ** Interrupts (irq.c, irqs.S) *)

Module Irq.

Definition IDT_ENTRIES : Z := 256.
Record idt_entry := mk_idt { offset_lo : Z; selector : Z; ist : Z; flags : Z; offset_mid : Z; offset_hi : Z; zero : Z }.
Definition empty_gate : idt_entry := mk_idt 0 0 0 0 0 0 0.
Definition gate (fl off : Z) : idt_entry :=
  mk_idt (u16 (Z.land off 0xFFFF)) 0x08 0 fl (u16 (Z.land (Z.shiftr off 16) 0xFFFF)) (u32 (Z.shiftr off 32)) 0.

(** The address that the processor jumps to through a gate, and the ring from
    which [int] may use it. *)
Definition gate_target (g : idt_entry) : Z := offset_lo g + Z.shiftl (offset_mid g) 16 + Z.shiftl (offset_hi g) 32.
Definition gate_ring (g : idt_entry) : Z := Z.land (Z.shiftr (flags g) 5) 3.

Lemma gate_roundtrip fl off : 0 <= off < 2 ^ 64 -> gate_target (gate fl off) = off.
Proof.
  intros Ho. unfold gate_target, gate. cbn [offset_lo offset_mid offset_hi].
  change 0xFFFF with (Z.ones 16). rewrite !Z.land_ones, !Z.shiftl_mul_pow2, !Z.shiftr_div_pow2 by lia.
  unfold u16, u32. rewrite !Z.mod_mod by lia. zlia.
Qed.

Definition PIC1_CMD : Z := 0x20.
Definition PIC1_DAT : Z := 0x21.
Definition PIC2_CMD : Z := 0xA0.
Definition PIC2_DAT : Z := 0xA1.
Definition PIC_EOI : Z := 0x20.
Definition PIT_CH0 : Z := 0x40.
Definition PIT_CMD : Z := 0x43.
Definition PIT_HZ : Z := 100.
Definition PIT_FREQ : Z := 1193182.
Definition MAX_TICK_TASKS : Z := 4.

(** The static variables of irq.c, the processor's table register and interrupt
    flag, the bytes sent to the ports, and the scheduler that [irq_handler_c] asks. *)
Record irqs {V : Type} := mk_irqs {
  idt : list idt_entry; idtr : Z * Z; iflag : bool; ports : list (Z * Z);
  tick_tasks : list Z; tick_task_count : Z; g_ticks : Z; g_hz : Z;
  g_prend : Z; g_in_thunk : Z; xsched : sched V }.
Arguments irqs V : clear implicits.
Arguments mk_irqs {V}.

Section Ops.
Context {V : Type}.
Implicit Types s : irqs V.

Definition set_idt x s : irqs V := mk_irqs x (idtr s) (iflag s) (ports s) (tick_tasks s) (tick_task_count s) (g_ticks s) (g_hz s) (g_prend s) (g_in_thunk s) (xsched s).
Definition set_idtr x s : irqs V := mk_irqs (idt s) x (iflag s) (ports s) (tick_tasks s) (tick_task_count s) (g_ticks s) (g_hz s) (g_prend s) (g_in_thunk s) (xsched s).
Definition set_iflag x s : irqs V := mk_irqs (idt s) (idtr s) x (ports s) (tick_tasks s) (tick_task_count s) (g_ticks s) (g_hz s) (g_prend s) (g_in_thunk s) (xsched s).
Definition set_ports x s : irqs V := mk_irqs (idt s) (idtr s) (iflag s) x (tick_tasks s) (tick_task_count s) (g_ticks s) (g_hz s) (g_prend s) (g_in_thunk s) (xsched s).
Definition set_tasks x n s : irqs V := mk_irqs (idt s) (idtr s) (iflag s) (ports s) x n (g_ticks s) (g_hz s) (g_prend s) (g_in_thunk s) (xsched s).
Definition set_ticks x s : irqs V := mk_irqs (idt s) (idtr s) (iflag s) (ports s) (tick_tasks s) (tick_task_count s) x (g_hz s) (g_prend s) (g_in_thunk s) (xsched s).
Definition set_hz x s : irqs V := mk_irqs (idt s) (idtr s) (iflag s) (ports s) (tick_tasks s) (tick_task_count s) (g_ticks s) x (g_prend s) (g_in_thunk s) (xsched s).
Definition set_prend x s : irqs V := mk_irqs (idt s) (idtr s) (iflag s) (ports s) (tick_tasks s) (tick_task_count s) (g_ticks s) (g_hz s) x (g_in_thunk s) (xsched s).
Definition set_xsched x s : irqs V := mk_irqs (idt s) (idtr s) (iflag s) (ports s) (tick_tasks s) (tick_task_count s) (g_ticks s) (g_hz s) (g_prend s) (g_in_thunk s) x.

Definition set_gate (n : Z) (g : idt_entry) : M (irqs V) unit :=
  let* s := get in let* l := of_opt (aset (idt s) n g) in put (set_idt l s).
Definition idt_set (n handler : Z) : M (irqs V) unit := set_gate n (gate 0x8E handler).
Definition idt_set_user_gate (n handler : Z) : M (irqs V) unit := set_gate n (gate 0xEE handler).

Definition outb (p v : Z) : M (irqs V) unit := modify (fun s => set_ports (ports s ++ [(p, u8 v)]) s).

Definition pic_remap : M (irqs V) unit :=
  outb PIC1_CMD 0x11 ;;; outb PIC2_CMD 0x11 ;;; outb PIC1_DAT 0x20 ;;; outb PIC2_DAT 0x28 ;;;
  outb PIC1_DAT 0x04 ;;; outb PIC2_DAT 0x02 ;;; outb PIC1_DAT 0x01 ;;; outb PIC2_DAT 0x01 ;;;
  outb PIC1_DAT 0xFE ;;; outb PIC2_DAT 0xFF.
Definition pic_eoi (irq : Z) : M (irqs V) unit :=
  (if irq >=? 8 then outb PIC2_CMD PIC_EOI else ret tt) ;;; outb PIC1_CMD PIC_EOI.

(** [fn]: the address of a function, 0 for a null pointer. *)
Definition tick_subscribe (fn : Z) : M (irqs V) Z :=
  let* s := get in
  if (fn =? 0) || (tick_task_count s >=? MAX_TICK_TASKS) then ret (-1) else
  let* l := of_opt (aset (tick_tasks s) (tick_task_count s) fn) in
  put (set_tasks l (tick_task_count s + 1) s) ;;; ret 0.

(** [call f] runs the subscribed function [f]. *)
Context (call : Z -> M (irqs V) unit).
Fixpoint dispatch_loop (i : Z) (n : nat) : M (irqs V) unit :=
  match n with
  | O => ret tt
  | S n' =>
      let* s := get in
      let* f := of_opt (aget (tick_tasks s) i) in
      (if f =? 0 then ret tt else call f) ;;; dispatch_loop (i + 1) n'
  end.
Definition tick_dispatch : M (irqs V) unit :=
  let* s := get in dispatch_loop 0 (Z.to_nat (tick_task_count s)).

Definition timer_get_ticks : M (irqs V) Z := let* s := get in ret (g_ticks s).
Definition timer_get_ms : M (irqs V) Z := let* s := get in ret (u64 (g_ticks s * 10)).
Definition timer_get_hz : M (irqs V) Z := let* s := get in ret (g_hz s).

Definition set_pit (div : Z) : M (irqs V) unit :=
  outb PIT_CMD 0x36 ;;; outb PIT_CH0 (Z.land div 0xFF) ;;; outb PIT_CH0 (Z.shiftr div 8).
Definition timer_set_hz (hz : Z) : M (irqs V) unit :=
  if (hz >=? 20) && (hz <=? 500) then modify (set_hz hz) ;;; set_pit (u16 (PIT_FREQ / hz)) else ret tt.

Fixpoint gates_loop (vector_table : list Z) (i : Z) (n : nat) : M (irqs V) unit :=
  match n with
  | O => ret tt
  | S n' => let* h := of_opt (aget vector_table i) in idt_set i h ;;; gates_loop vector_table (i + 1) n'
  end.
(** [idt_base] is the address of [idt]; an entry has 16 bytes. *)
Definition irq_init (vector_table : list Z) (idt_base : Z) : M (irqs V) unit :=
  gates_loop vector_table 0 33 ;;;
  modify (set_idtr (u16 (16 * IDT_ENTRIES - 1), idt_base)) ;;;
  pic_remap ;;;
  set_pit (u16 (PIT_FREQ / PIT_HZ)) ;;;
  modify (set_iflag true).

(** Whether the handler comes back. *)
Inductive handled := Returns | Halts.

Definition fault_name (vector : Z) : string :=
  if vector <? 6 then nth (Z.to_nat vector) ["DIV-BY-ZERO"; "DEBUG"; "NMI"; "BREAKPOINT"; "OVERFLOW"; "BOUND"]%string "EXCEPTION"
  else "EXCEPTION".

(** [preempt_thunk] is the address of the thunk, [cr2] the register. *)
Context (preempt_thunk cr2 : Z).
Definition irq_handler_c (frame : list Z) : M (irqs V) handled :=
  let* vector := of_opt (aget frame 9) in
  if vector =? 32 then
    modify (fun s => set_ticks (u64 (g_ticks s + 1)) s) ;;;
    tick_dispatch ;;;
    let* f11 := of_opt (aget frame 11) in
    (if f11 =? 0x08 then
       let* pre := zoom xsched set_xsched sched_should_preempt in
       let* s := get in
       if negb (pre =? 0) && (g_in_thunk s =? 0) && (g_prend s =? 0) then put (set_prend preempt_thunk s) else ret tt
     else ret tt) ;;;
    pic_eoi 0 ;;;
    ret Returns
  else if vector <? 32 then
    modify (set_iflag false) ;;;
    out (Com1.uart_puts []) ;;; out (Com1.uart_puts (bytes "*** KERNEL FAULT ***")) ;;;
    out (Com1.uart_puts_nolf (bytes "  Vector ")) ;;;
    let* d := of_opt (Com1.uart_dec (u32 vector)) in out d ;;;
    out (Com1.uart_puts_nolf (bytes " (")) ;;; out (Com1.uart_puts (bytes (fault_name vector))) ;;;
    out (Com1.uart_puts (bytes ")")) ;;; out (Com1.uart_puts_nolf (bytes "  CR2=0x")) ;;;
    out (Com1.uart_hex64 cr2) ;;; out (Com1.uart_puts []) ;;; out (Com1.uart_puts (bytes "System halted.")) ;;;
    ret Halts
  else ret Returns.

(** *** The stubs (irqs.S) *)

(** What the interrupted code has in the registers that the stub saves, and what
    the processor pushes. *)
Record context := mk_context {
  rax : Z; rcx : Z; rdx : Z; rsi : Z; rdi : Z; r8 : Z; r9 : Z; r10 : Z; r11 : Z;
  rip : Z; cs : Z; rflags : Z; rsp : Z; ss : Z }.
Definition resume_at (a pc : Z) (c : context) : context :=
  mk_context a (rcx c) (rdx c) (rsi c) (rdi c) (r8 c) (r9 c) (r10 c) (r11 c) pc (cs c) (rflags c) (rsp c) (ss c).

(** The stack from [rsp] up after [SAVE_FRAME]. *)
Definition save_frame (vector err : Z) (c : context) : list Z :=
  [r11 c; r10 c; r9 c; r8 c; rdi c; rsi c; rdx c; rcx c; rax c; vector; err; rip c; cs c; rflags c; rsp c; ss c].

(** [VECTOR]: the context after [iretq], or [None] when the handler halts.  The
    registers are reloaded from the frame, which the handler does not change, and
    then [rax] is used to look at [g_prend]. *)
Definition vector_stub (vector err : Z) (c : context) : M (irqs V) (option context) :=
  let* h := irq_handler_c (save_frame vector err c) in
  match h with
  | Halts => ret None
  | Returns =>
      let* s := get in
      let a := g_prend s in
      if a =? 0 then ret (Some (resume_at a (rip c) c))
      else put (set_prend 0 s) ;;; ret (Some (resume_at 0 a c))
  end.

Lemma set_gate_run n g s : 0 <= n < Z.of_nat (length (idt s)) -> set_gate n g s = Ok (tt, set_idt (<[Z.to_nat n := g]> (idt s)) s, []).
Proof. intros Hn. unfold set_gate. rewrite bind_get, (aset_in _ _ _ Hn), bind_some. done. Qed.

Lemma gates_run vt n : forall i s, 0 <= i -> i + Z.of_nat n <= Z.of_nat (length vt) -> i + Z.of_nat n <= Z.of_nat (length (idt s)) ->
  exists l, gates_loop vt i n s = Ok (tt, set_idt l s, []) /\ length l = length (idt s) /\
    forall j, 0 <= j -> aget l j = if (i <=? j) && (j <? i + Z.of_nat n) then gate 0x8E <$> aget vt j else aget (idt s) j.
Proof.
  induction n as [|n IH]; intros i s Hi Hv Hl; cbn [gates_loop].
  { exists (idt s). split; [by destruct s|]. split; [done|]. intros j Hj. destruct (_ && _) eqn:E; [|done]. bool_hyps. lia. }
  destruct (aget_in vt i) as [h Hh]; [lia|]. rewrite Hh, bind_some. unfold idt_set at 1.
  rewrite (bind_ok _ _ _ _ _ (set_gate_run i (gate 0x8E h) s ltac:(lia))). set (s1 := set_idt _ s).
  destruct (IH (i + 1) s1) as (l & E & Hlen & Hj); [lia|lia|cbn [idt s1 set_idt]; rewrite length_insert; lia|].
  exists l. split; [exact E|]. cbn [idt s1 set_idt] in *. rewrite length_insert in Hlen. split; [done|]. intros j Hj0. rewrite Hj by done.
  destruct (Z.leb_spec (i + 1) j), (Z.ltb_spec j (i + 1 + Z.of_nat n)), (Z.leb_spec i j), (Z.ltb_spec j (i + Z.of_nat (S n)));
    cbn [andb]; try lia; try done.
  - by rewrite aget_insert_ne by lia.
  - assert (j = i) as -> by lia. rewrite aget_insert by lia. by rewrite Hh.
  - by rewrite aget_insert_ne by lia.
Qed.
End Ops.

(** [irq_init] installs the vectors: afterwards gate [i] of the first 33 leads
    the processor to entry [i] of the vector table and only ring 0 may raise it,
    the other gates are as before, the table register covers all 256, and
    interrupts are on. *)
Theorem irq_init_gates {V} (s : irqs V) vt base (Hl : length (idt s) = 256%nat) (Hv : length vt = 33%nat)
  (Hr : Forall (fun h => 0 <= h < 2 ^ 64) vt) :
  exists s', irq_init vt base s = Ok (tt, s', []) /\ idtr s' = (4095, base) /\ iflag s' = true /\
    (forall i h, aget vt i = Some h -> exists g, aget (idt s') i = Some g /\ gate_target g = h /\ gate_ring g = 0) /\
    (forall i, 33 <= i -> aget (idt s') i = aget (idt s) i).
Proof.
  destruct (gates_run vt 33 0 s) as (l & E & Hlen & Hj); [lia|lia|lia|].
  eexists. split; [unfold irq_init; rewrite (bind_ok _ _ _ _ _ E); reflexivity|]. split; [done|]. split; [done|].
  cbn [idt set_idt set_idtr set_ports set_iflag]. split.
  - intros i h Hi. pose proof (aget_lt _ _ _ Hi). exists (gate 0x8E h). rewrite Hj by lia.
    rewrite (proj2 (Z.leb_le _ _)), (proj2 (Z.ltb_lt _ _)) by lia. cbn [andb]. rewrite Hi. split; [done|]. split; [|done].
    apply gate_roundtrip. apply aget_Some in Hi as [_ Hi]. exact (Forall_lookup_1 _ _ _ _ Hr Hi).
  - intros i Hi. rewrite Hj by lia. by rewrite (proj2 (Z.ltb_ge i _)), andb_false_r by lia.
Qed.

(** *** The timer interrupt *)

Section Timer.
Context {V : Type} (call : Z -> M (irqs V) unit) (preempt_thunk cr2 : Z).
Implicit Types s : irqs V.

(** What a tick function leaves alone. *)
Definition same_irq s s' : Prop :=
  tick_tasks s' = tick_tasks s /\ tick_task_count s' = tick_task_count s /\ g_prend s' = g_prend s /\ g_ticks s' = g_ticks s.
Context (Hcall : forall f s, exists s' o, call f s = Ok (tt, s', o) /\ same_irq s s').

Lemma dispatch_run n : forall i s, 0 <= i -> i + Z.of_nat n <= Z.of_nat (length (tick_tasks s)) ->
  exists s' o, dispatch_loop call i n s = Ok (tt, s', o) /\ same_irq s s'.
Proof.
  induction n as [|n IH]; intros i s Hi Hn; cbn [dispatch_loop]; [by exists s, []|].
  destruct (aget_in (tick_tasks s) i) as [f Hf]; [lia|]. rewrite bind_get, Hf, bind_some.
  assert (Hc : exists s1 o1, (if f =? 0 then ret tt else call f) s = Ok (tt, s1, o1) /\ same_irq s s1).
  { case_match; [by exists s, []|apply Hcall]. }
  destruct Hc as (s1 & o1 & E1 & Hs1). pose proof Hs1 as (Ht & Hc1 & Hp & Hg).
  destruct (IH (i + 1) s1) as (s2 & o2 & E2 & H2); [lia|rewrite Ht; lia|]. exists s2, (o1 ++ o2). split; [by eapply bind_run|].
  destruct H2 as (? & ? & ? & ?). unfold same_irq. by split_and!; congruence.
Qed.
End Timer.


Definition demo_irqs : irqs unit := mk_irqs (replicate 256 empty_gate) (0, 0) false [] [0; 0; 0; 0] 0 41 100 0 0
  (mk_sched unit [] 0 0 600 [] true tt empty_ticks).
Definition demo_context : context := mk_context 1 2 3 4 5 6 7 8 9 0x101000 0x08 0x202 0x9F000 0x10.


Lemma irq_init_gates_witness : exists s', irq_init (replicate 33 0x100234567890) 0x105000 demo_irqs = Ok (tt, s', []) /\
  exists g, aget (idt s') 32 = Some g /\ gate_target g = 0x100234567890.
Proof.
  destruct (irq_init_gates demo_irqs (replicate 33 0x100234567890) 0x105000) as (s' & E & _ & _ & Hg & _).
  - reflexivity.
  - reflexivity.
  - apply Forall_replicate. lia.
  - exists s'. split; [exact E|]. destruct (Hg 32 0x100234567890 eq_refl) as (g & H1 & H2 & _). exists g. exact (conj H1 H2).
Defined.
End Irq.

(** ** Ring 3 (kernel_x86.c, stubs.c) *)

Module Ring3.

Definition RAM_START : Z := 0x100000.
Definition RAM_SIZE : Z := 128 * 1024 * 1024.
Definition RAM_END : Z := RAM_START + RAM_SIZE.
Definition X86_SYS_PRINT : Z := 1.
Definition X86_SYS_YIELD : Z := 3.
Definition X86_SYS_EXIT : Z := 4.

(** The packed [tss_t]: its fields and its size in bytes. *)
Record tss := mk_tss { rsp0 : Z; iomap_base : Z }.
Definition TSS_SIZE : Z := 4 + 8 + 8 + 8 + 8 + 2.

(** The two words of the descriptor at [gdt64 + 0x28]. *)
Definition tss_desc (base : Z) : Z * Z :=
  (Z.lor (Z.lor (Z.lor (Z.shiftl (Z.land base 0xFFFFFF) 16) (Z.land (TSS_SIZE - 1) 0xFFFF)) (Z.shiftl 0x89 40))
     (Z.shiftl (Z.land (Z.shiftr base 24) 0xFF) 32),
   Z.land (Z.shiftr base 32) 0xFFFFFFFF).

Record user := mk_user {
  the_tss : tss; tss_words : Z * Z; user_entry_pending : Z; user_sp_pending : Z; user_stack_used : Z }.
Definition set_tss (t : tss) (u : user) : user :=
  mk_user t (tss_words u) (user_entry_pending u) (user_sp_pending u) (user_stack_used u).

(** [tss_at] and [kstack]: the addresses of [tss] and [tss_kernel_stack]. *)
Definition tss_install (tss_at kstack : Z) : M user unit :=
  modify (fun u => mk_user (mk_tss (u64 (kstack + 16384)) TSS_SIZE) (tss_desc tss_at)
    (user_entry_pending u) (user_sp_pending u) (user_stack_used u)).
Definition tss_set_rsp0 (v : Z) : M user unit :=
  modify (fun u => set_tss (mk_tss v (iomap_base (the_tss u))) u).
Definition arch_tss_set_rsp0 (v : Z) : M user unit := tss_set_rsp0 v.
(** [kstack_top] of the task that is switched to. *)
Definition arch_pre_switch (kstack_top : Z) : M user unit :=
  if kstack_top =? 0 then ret tt else tss_set_rsp0 kstack_top.

(** [spawn] is [sched_spawn] of the task that drops to ring 3; [user_stack] and
    [user_kstacks] are addresses. *)
Definition sched_spawn_user (spawn : M user Z) (entry user_stack user_kstacks : Z) : M user Z :=
  let* u := get in
  if negb (user_stack_used u =? 0) then ret (-1) else
  put (mk_user (the_tss u) (tss_words u) entry (Z.land (u64 (user_stack + 4096)) (2 ^ 64 - 16)) 1) ;;;
  let* tidx := spawn in
  (if tidx >=? 0 then arch_tss_set_rsp0 (u64 (user_kstacks + 4096)) else ret tt) ;;;
  ret tidx.

(** The frame that [enter_user_mode] hands to [iretq]: rip, cs, rflags, rsp, ss. *)
Definition enter_user_mode (fn sp : Z) : list Z := [fn; 0x1B; 0x202; sp; 0x23].

(** *** The system call gate *)

(** What the handler does after it has set the frame. *)
Inductive then_ := Goes_back | Yields | Exits.

(** [for (n = 0; n < 256 && s[n]; n++) uart_putc(s[n]);] *)
Fixpoint print_loop (m : mem) (a n : Z) (left : nat) : list Z * Z :=
  match left with
  | O => ([], n)
  | S l => if m (a + n) =? 0 then ([], n)
           else let r := print_loop m a (n + 1) l in (Com1.uart_putc (m (a + n)) ++ fst r, snd r)
  end.

Definition int80_handler_c (m : mem) (frame : list Z) : option (list Z * then_ * list Z) :=
  n ← aget frame 8;
  if n =? X86_SYS_PRINT then
    s ← aget frame 4;
    if (s <? RAM_START) || (s >=? RAM_END) then Some (frame, Goes_back, [])
    else let r := print_loop m s 0 256 in f ← aset frame 8 (snd r); Some (f, Goes_back, fst r)
  else if n =? X86_SYS_YIELD then Some (frame, Yields, [])
  else if n =? X86_SYS_EXIT then Some (frame, Exits, [])
  else f ← aset frame 8 (2 ^ 64 - 1); Some (f, Goes_back, []).

(** The base address that the processor takes from a descriptor of a 64-bit TSS. *)
Definition desc_base (d : Z * Z) : Z :=
  Z.land (Z.shiftr (fst d) 16) 0xFFFFFF + Z.shiftl (Z.land (Z.shiftr (fst d) 56) 0xFF) 24 + Z.shiftl (snd d) 32.

Lemma land_ones_small x n : 0 <= n -> 0 <= x < 2 ^ n -> Z.land x (Z.ones n) = x.
Proof. intros Hn Hx. rewrite Z.land_ones by done. by apply Z.mod_small. Qed.

(** Bits 24 to 31 of the address are shifted to where bits 16 to 23 are, instead
    of to the top of the word: the two bytes are merged, and the third byte that
    the processor reads is 0. *)
Lemma tss_desc_base base : 0 <= base ->
  desc_base (tss_desc base) =
  Z.lor (Z.land base 0xFFFFFF) (Z.shiftl (Z.land (Z.shiftr base 24) 0xFF) 16) + Z.shiftl (Z.land (Z.shiftr base 32) 0xFFFFFFFF) 32.
Proof.
  intros Hb. unfold desc_base, tss_desc. cbn [fst snd].
  set (a := Z.land base 0xFFFFFF). set (x := Z.land (Z.shiftr base 24) 0xFF).
  assert (Ha : 0 <= a < 2 ^ 24) by (unfold a; change 0xFFFFFF with (Z.ones 24); rewrite Z.land_ones by lia; zlia).
  assert (Hx : 0 <= x < 2 ^ 8) by (unfold x; change 0xFF with (Z.ones 8); rewrite Z.land_ones by lia; zlia).
  assert (E1 : Z.land (Z.shiftr (Z.lor (Z.lor (Z.lor (Z.shiftl a 16) (Z.land (TSS_SIZE - 1) 0xFFFF)) (Z.shiftl 0x89 40)) (Z.shiftl x 32)) 16) 0xFFFFFF
    = Z.lor a (Z.shiftl x 16)).
  { rewrite !Z.shiftr_lor, !Z.land_lor_distr_l, !Z.shiftr_shiftl_l by lia.
    change (16 - 16) with 0. change (32 - 16) with 16. change 0xFFFFFF with (Z.ones 24).
    change (Z.land (Z.shiftr (Z.land (TSS_SIZE - 1) 0xFFFF) 16) (Z.ones 24)) with 0.
    change (Z.land (Z.shiftl 0x89 (40 - 16)) (Z.ones 24)) with 0. rewrite Z.shiftl_0_r, !Z.lor_0_r, (land_ones_small a) by lia.
    rewrite (land_ones_small (Z.shiftl x 16)) by (rewrite ?Z.shiftl_mul_pow2; lia). done. }
  assert (E2 : Z.land (Z.shiftr (Z.lor (Z.lor (Z.lor (Z.shiftl a 16) (Z.land (TSS_SIZE - 1) 0xFFFF)) (Z.shiftl 0x89 40)) (Z.shiftl x 32)) 56) 0xFF = 0).
  { rewrite !Z.shiftr_lor, !Z.land_lor_distr_l. rewrite !(Z.shiftr_shiftl_r _ _ 56) by lia.
    assert (Hz : forall z n k, 0 <= z < 2 ^ k -> 0 <= k <= n -> Z.shiftr z n = 0).
    { intros z n k Hz Hk. rewrite Z.shiftr_div_pow2 by lia. apply Z.div_small. split; [lia|].
      eapply Z.lt_le_trans; [apply Hz|]. apply Z.pow_le_mono_r; lia. }
    rewrite (Hz a (56 - 16) 24), (Hz x (56 - 32) 8) by lia. reflexivity. }
  rewrite E1, E2. rewrite Z.shiftl_0_l. lia.
Qed.

(** The descriptor leads to the segment when it lies below 16 MB, and not when it
    lies at 19 MB, say. *)
Theorem tss_base_below_16mb :
  (forall base, 0 <= base < 2 ^ 24 -> desc_base (tss_desc base) = base) /\
  desc_base (tss_desc 0x1300000) = 0x310000.
Proof.
  split; [|reflexivity]. intros base Hb. rewrite tss_desc_base by lia.
  rewrite !Z.shiftr_div_pow2 by lia. rewrite (Z.div_small base (2 ^ 24)), (Z.div_small base (2 ^ 32)) by lia.
  change 0xFFFFFF with (Z.ones 24). rewrite land_ones_small by lia. cbn [Z.land]. rewrite !Z.shiftl_0_l, Z.lor_0_r. lia.
Qed.

(** *** What the gate answers *)

Lemma print_loop_spec m a : forall l n k, (forall i, (i < length l)%nat -> m (a + n + Z.of_nat i) = nth i l 0) ->
  Forall (fun c => c <> 0) l -> m (a + n + Z.of_nat (length l)) = 0 -> (length l < k)%nat ->
  print_loop m a n k = (Com1.uart_puts_nolf l, n + Z.of_nat (length l)).
Proof.
  induction l as [|c l IH]; intros n k Hm Hnz Hend Hk; (destruct k as [|k]; [simpl in Hk; lia|]); cbn [print_loop].
  { cbn in Hend. rewrite Z.add_0_r in Hend. rewrite Hend. cbn. by rewrite Z.add_0_r. }
  apply Forall_cons in Hnz as [Hc Hnz]. pose proof (Hm 0%nat ltac:(simpl; lia)) as H0. cbn in H0. rewrite Z.add_0_r in H0. rewrite H0.
  rewrite (proj2 (Z.eqb_neq c 0) Hc). rewrite (IH (n + 1) k); [cbn [fst snd]; f_equal; cbn [length]; lia| |done| |simpl in Hk; lia].
  - intros i Hi. replace (a + (n + 1) + Z.of_nat i) with (a + n + Z.of_nat (S i)) by lia. rewrite Hm by (simpl; lia). done.
  - rewrite <- Hend. f_equal. cbn [length]. lia.
Qed.

(** SYS_PRINT of a string of at most 255 characters in RAM prints it and returns
    its length in rax; with a pointer outside RAM nothing happens, and rax still
    holds the number of the call, which a caller cannot tell from a length of 1. *)
Theorem int80_print m frame l (Hf : length frame = 16%nat) (Hn : aget frame 8 = Some X86_SYS_PRINT) s (Hs : aget frame 4 = Some s) :
  (RAM_START <= s < RAM_END -> (forall i, (i < length l)%nat -> m (s + Z.of_nat i) = nth i l 0) ->
   Forall (fun c => c <> 0) l -> m (s + Z.of_nat (length l)) = 0 -> (length l < 256)%nat ->
   int80_handler_c m frame = Some (<[8%nat := Z.of_nat (length l)]> frame, Goes_back, Com1.uart_puts_nolf l)) /\
  (~ (RAM_START <= s < RAM_END) -> int80_handler_c m frame = Some (frame, Goes_back, [])).
Proof.
  unfold int80_handler_c. rewrite Hn, Hs. cbn [mbind option_bind]. change (X86_SYS_PRINT =? X86_SYS_PRINT) with true. cbv iota.
  rewrite Z.geb_leb. split.
  - intros Hr Hm Hnz Hend Hl. rewrite (proj2 (Z.ltb_ge _ _)), (proj2 (Z.leb_gt _ _)) by lia. cbn [orb].
    rewrite (print_loop_spec m s l 0 256) by (rewrite ?Z.add_0_r; try done; setoid_rewrite Z.add_0_r; done).
    cbn [fst snd]. rewrite Z.add_0_l, aset_in by lia. done.
  - intros Hr. destruct (Z.ltb_spec s RAM_START), (Z.leb_spec RAM_END s); try done. exfalso. lia.
Qed.
End Ring3.
