(* ===== verification/Kernel.v ===== *)
(** * The first stages of the kernel (boot/aarch64/kernel.c stages 1 and 2, utils.c)

    [Entry] is the start of [kernel_main]: it takes over the console that the
    loader found and checks the hand-off ([Loader]).  [Stage] then brings up the
    frame allocator, the page tables, the MMU and the heap, and tries them out; it
    composes [Pmm], [Vmm] and [Heap]. *)

From S2P Require Import Prelude Uart Pmm Heap Vmm.
From S2P Require Loader.

(** ** Memory routines (utils.c) *)

(** [while (n--) *dst++ = *src++;] *)
Fixpoint memcpy (m : mem) (dst src : Z) (n : nat) : mem :=
  match n with
  | O => m
  | S n' => memcpy (fun a => if a =? dst then m src else m a) (dst + 1) (src + 1) n'
  end.
Fixpoint memcmp (m : mem) (pa pb : Z) (n : nat) : Z :=
  match n with
  | O => 0
  | S n' => if m pa =? m pb then memcmp m (pa + 1) (pb + 1) n' else m pa - m pb
  end.

(** Copying between ranges that do not overlap. *)
Lemma memcpy_spec n : forall m d s, d + Z.of_nat n <= s \/ s + Z.of_nat n <= d -> forall a,
  memcpy m d s n a = if (d <=? a) && (a <? d + Z.of_nat n) then m (s + (a - d)) else m a.
Proof.
  induction n as [|n IH]; intros m d s Hd a; cbn [memcpy].
  { destruct (_ && _) eqn:E; [bool_hyps; lia|done]. }
  rewrite IH by lia. destruct (Z.leb_spec (d + 1) a), (Z.ltb_spec a (d + 1 + Z.of_nat n)), (Z.leb_spec d a), (Z.ltb_spec a (d + Z.of_nat (S n)));
    cbn [andb]; try lia.
  - rewrite (proj2 (Z.eqb_neq _ _)) by lia. f_equal. lia.
  - by rewrite (proj2 (Z.eqb_neq _ _)) by lia.
  - assert (a = d) as -> by lia. rewrite Z.eqb_refl. f_equal. lia.
  - by rewrite (proj2 (Z.eqb_neq _ _)) by lia.
Qed.

Lemma memcmp_same n : forall m a b, (forall i, 0 <= i < Z.of_nat n -> m (a + i) = m (b + i)) -> memcmp m a b n = 0.
Proof.
  induction n as [|n IH]; intros m a b H; [done|]. cbn [memcmp]. pose proof (H 0 ltac:(lia)) as H0. rewrite !Z.add_0_r in H0.
  rewrite H0, Z.eqb_refl. apply IH. intros i Hi. replace (a + 1 + i) with (a + (1 + i)) by lia.
  replace (b + 1 + i) with (b + (1 + i)) by lia. apply H. lia.
Qed.

Lemma memcmp_sign n : forall m a b, memcmp m a b n = 0 -> forall i, 0 <= i < Z.of_nat n -> m (a + i) = m (b + i).
Proof.
  induction n as [|n IH]; intros m a b H i Hi; [lia|]. cbn [memcmp] in H. destruct (Z.eqb_spec (m a) (m b)) as [E|E]; [|lia].
  destruct (decide (i = 0)) as [->|]; [by rewrite !Z.add_0_r|].
  replace (a + i) with (a + 1 + (i - 1)) by lia. replace (b + i) with (b + 1 + (i - 1)) by lia. apply IH; [done|lia].
Qed.

(** ** The entry of [kernel_main] *)

Module Entry.
Import Registers.

(** [None] is a null pointer, whose [flags] cannot be read; [cel] is [CurrentEL].
    The result is false when the kernel halts. *)
Definition kernel_entry (bi : option Loader.bootinfo) (cel : Z) : M uart bool :=
  let* b := of_opt bi in
  (if negb (Z.land (Loader.bi_flags b) Loader.BI_FLAG_UART_VALID =? 0) then uart_set_base (Loader.bi_uart_base b)
   else ret tt) ;;;
  uart_init ;;;
  puts "Hello from AEOS" ;;; puts "ARM64 Kernel Started Successfully!" ;;;
  (if Loader.bi_magic b =? Loader.BOOTINFO_MAGIC then
     puts_nolf "  [boot] loader v" ;;; put_dec (Z.shiftr (Loader.bi_version b) 16) ;;; puts_nolf "." ;;;
     put_dec (Z.land (Loader.bi_version b) 0xFFFF) ;;; puts " handoff OK" ;;;
     puts_nolf "  [boot] kernel image: " ;;; put_dec (Loader.bi_kernel_size b) ;;; puts " bytes" ;;;
     puts_nolf "  [boot] RAM: " ;;; put_dec (u32 (Loader.bi_ram_size b / (1024 * 1024))) ;;; puts " MB" ;;;
     (if negb (Z.land (Loader.bi_flags b) Loader.BI_FLAG_DTB_VALID =? 0) then
        puts_nolf "  [boot] DTB @ 0x" ;;; put_hex (Loader.bi_dtb_ptr b) ;;; puts ""
      else ret tt)
   else puts "  [boot] no bootinfo - legacy boot") ;;;
  if negb (Z.shiftr cel 2 =? 1) then puts "FATAL: kernel not running at EL1, halting." ;;; ret false else ret true.

(** The register writes of [uart_init] at a base. *)
Definition setup_writes (b : Z) : list (Z * Z) :=
  [(b + 0x30, 0); (b + 0x38, 0x7FF); (b + 0x24, 13); (b + 0x28, 1); (b + 0x2C, 0x70); (b + 0x30, 0x301)].

(** The base the console has after the entry. *)
Definition adopted (b : Loader.bootinfo) (old : Z) : Z :=
  if Z.testbit (Loader.bi_flags b) 2 && negb (Loader.bi_uart_base b =? 0) then Loader.bi_uart_base b else old.

Lemma wp_uart_init u (Q : unit -> uart -> list Z -> Prop) :
  Q tt (mk_uart (uart_base u) (stores u ++ setup_writes (uart_base u))) [] -> wp uart_init Q u.
Proof.
  intros HQ. unfold uart_init, store. wp_auto. cbn. unfold UART_CR, UART_IMSC, UART_IBRD, UART_FBRD, UART_LCRH.
  rewrite <- !app_assoc. exact HQ.
Qed.

(** From any boot information the entry runs to its end; the console is the one
    the loader found, every register write goes to it, and the kernel goes on
    exactly when it is at EL1. *)
Theorem entry_adopts_console b cel u :
  wp (kernel_entry (Some b) cel) (fun go u' _ => (go = true <-> Z.shiftr cel 2 = 1) /\
    u' = mk_uart (adopted b (uart_base u)) (stores u ++ setup_writes (adopted b (uart_base u)))) u.
Proof.
  assert (Hend : forall (Q : bool -> uart -> list Z -> Prop) v, (forall o, Q (Z.shiftr cel 2 =? 1) v o) ->
    wp (if negb (Z.shiftr cel 2 =? 1) then puts "FATAL: kernel not running at EL1, halting." ;;; ret false else ret true) Q v).
  { intros Q v HQ. destruct (Z.shiftr cel 2 =? 1); cbn [negb]; wp_auto; apply HQ. }
  unfold kernel_entry, adopted. apply wp_bind, wp_ret. cbn beta.
  change Loader.BI_FLAG_UART_VALID with (2 ^ 2). rewrite land_bit, negb_involutive by lia.
  assert (Hbase : forall (Q : unit -> uart -> list Z -> Prop),
    Q tt (mk_uart (adopted b (uart_base u)) (stores u)) [] ->
    wp (if Z.testbit (Loader.bi_flags b) 2 then uart_set_base (Loader.bi_uart_base b) else ret tt) Q u).
  { intros Q HQ. unfold adopted, uart_set_base in *. destruct (Z.testbit (Loader.bi_flags b) 2); cbn [andb] in *.
    - destruct (negb (Loader.bi_uart_base b =? 0)); [by apply wp_modify|]. apply wp_ret. by destruct u.
    - apply wp_ret. by destruct u. }
  apply wp_bind, Hbase. apply wp_bind, wp_uart_init. cbn [uart_base stores].
  apply wp_bind, wp_puts. apply wp_bind, wp_puts. apply wp_bind.
  match goal with |- wp (if ?x then ?A else ?B) ?R ?v => assert (Hb : forall Q', (forall o, Q' tt v o) -> wp (if x then A else B) Q' v) end.
  { intros Q' HQ'. wp_auto; apply HQ'. }
  apply Hb. intros o. apply Hend. intros o'. split; [apply Z.eqb_eq|done].
Qed.

(** No boot information at all is dereferenced before the test that allows for it. *)
Theorem null_bootinfo_undefined cel u : kernel_entry None cel u = UB.
Proof. done. Qed.

(** Boot information that is not valid still moves the console. *)
Theorem invalid_bootinfo_moves_console b cel u : Loader.bi_magic b <> Loader.BOOTINFO_MAGIC ->
  Z.testbit (Loader.bi_flags b) 2 = true -> Loader.bi_uart_base b <> 0 ->
  wp (kernel_entry (Some b) cel) (fun _ u' _ => uart_base u' = Loader.bi_uart_base b) u.
Proof.
  intros _ Hf Hb. eapply wp_mono; [apply entry_adopts_console|]. intros go u' o [_ ->]. cbn. unfold adopted.
  by rewrite Hf, (proj2 (Z.eqb_neq _ _) Hb).
Qed.

(** A console outside the three device blocks and RAM is not in the kernel's map:
    what is printed after [vmm_enable_mmu] faults. *)
Theorem console_unmapped kpgd kpud kpmd w base : table_addr kpud -> table_addr kpmd ->
  kpgd <> kpud /\ kpgd <> kpmd /\ kpud <> kpmd -> kernel_tables kpgd kpud kpmd 64 w -> 2 ^ 31 <= base < 2 ^ 48 -> walk w kpgd base = 0.
Proof.
  intros H1 H2 H3 Hk Hb. rewrite (kernel_walk kpgd kpud kpmd H1 H2 H3 w base ltac:(lia) Hk). unfold kernel_phys.
  rewrite !idx_div by lia. destruct (_ && _) eqn:E; [|done]. bool_hyps. exfalso.
  assert (base / 2 ^ 39 < 2 ^ 9) by (apply Z.div_lt_upper_bound; lia).
  assert (0 <= base / 2 ^ 39) by (apply Z.div_pos; lia).
  zlia.
Qed.
End Entry.

(** ** The stage *)

Section Stage.
(** The linker's addresses of the three kernel tables. *)
Context (kpgd kpud kpmd : Z).

Definition say_dec (label : string) (v : Z) (tail : string) : M vmm unit := puts_nolf label ;;; put_dec v ;;; puts tail.
Definition say_hex (label : string) (v : Z) : M vmm unit := puts_nolf label ;;; put_hex v ;;; puts "".
Definition free_pages : M vmm Z := in_pmm pmm_get_free_pages.
Definition total_pages : M vmm Z := in_pmm pmm_get_total_pages.

Definition bring_up : M vmm unit :=
  puts "" ;;; puts "[1/4] Initializing PMM..." ;;;
  in_pmm pmm_init ;;;
  let* t := total_pages in say_dec "  Total pages: " t "" ;;;
  let* f := free_pages in say_dec "  Free pages:  " f "" ;;;
  let* f := free_pages in say_dec "  Free memory: " (u64 (f * 4)) " KB" ;;;
  puts "" ;;; puts "[2/4] Initializing VMM..." ;;;
  let* tp := in_pmm pmm_alloc_page in say_hex "  Test page before VMM: " tp ;;;
  in_pmm (pmm_free_page tp) ;;;
  vmm_init kpgd kpud kpmd ;;;
  puts "  Page tables created (identity mapping)" ;;;
  puts "" ;;; puts "[3/4] Enabling MMU..." ;;;
  vmm_enable_mmu kpgd ;;;
  puts "  MMU enabled!" ;;;
  puts "" ;;; puts "[4/4] Initializing heap..." ;;;
  in_heap heap_init ;;;
  puts "  Heap: 16MB at 0x41000000".

Definition on_bytes (f : mem -> mem) : M heap unit := modify (fun h => mk_heap (heap_ptr h) (heap_used h) (f (heap_mem h))).

(** The tests; the result holds the three pages, the translation and the
    comparison. *)
Definition memory_tests : M vmm (list Z) :=
  puts "" ;;; puts "--- Memory Tests ---" ;;;
  puts "" ;;; puts "[Test 1] Physical page allocation" ;;;
  let* p1 := in_pmm pmm_alloc_page in
  let* p2 := in_pmm pmm_alloc_page in
  let* p3 := in_pmm pmm_alloc_page in
  say_hex "  Page 1: " p1 ;;; say_hex "  Page 2: " p2 ;;; say_hex "  Page 3: " p3 ;;;
  puts "" ;;; puts "[Test 2] VA -> PA translation" ;;;
  let* pa := vmm_get_phys kpgd 0x40000000 in say_hex "  VA 0x40000000 -> PA " pa ;;;
  puts "" ;;; puts "[Test 3] Kernel heap allocation" ;;;
  let* h1 := in_heap (kmalloc 128) in
  let* h2 := in_heap (kmalloc 256) in
  let* h3 := in_heap (kmalloc 1024) in
  say_hex "  Alloc 128B: " h1 ;;; say_hex "  Alloc 256B: " h2 ;;; say_hex "  Alloc 1KB:  " h3 ;;;
  puts "" ;;; puts "[Test 4] memset/memcpy/memcmp" ;;;
  in_heap (on_bytes (fun m => memset m h1 0xAA 128)) ;;;
  in_heap (on_bytes (fun m => memcpy m h2 h1 128)) ;;;
  let* s := get in
  let c := memcmp (heap_mem (kheap s)) h1 h2 128 in
  say_dec "  Memcmp (should be 0): " c "" ;;;
  puts "" ;;; puts "[Test 5] Free physical pages" ;;;
  in_pmm (pmm_free_page p1) ;;; in_pmm (pmm_free_page p2) ;;; in_pmm (pmm_free_page p3) ;;;
  let* f := free_pages in say_dec "  Free pages after release: " f "" ;;;
  puts "" ;;; puts "=== Memory Management Working! ===" ;;; puts "" ;;;
  let* t := total_pages in say_dec "  Physical pages: " t " total" ;;;
  let* f := free_pages in say_dec "  Physical free:  " f " pages" ;;;
  let* u := in_heap heap_get_used in say_dec "  Heap used:      " u " bytes" ;;;
  let* f := in_heap heap_get_free in say_dec "  Heap free:      " f " bytes" ;;;
  ret [p1; p2; p3; pa; c].

Definition memory_stage : M vmm (list Z) :=
  puts "" ;;; puts "=== Stage 2: Memory Management ===" ;;; bring_up ;;; memory_tests.

(** ** Allocation from a full set of frames *)

Lemma wp_alloc_first a n s (Q : Z -> vmm -> list Z -> Prop) : rep (frames s) (run a (S n)) ->
  (forall p, rep p (run (a + 1) n) -> Q (frame_addr a) (set_frames p s) []) -> wp (in_pmm pmm_alloc_page) Q s.
Proof.
  intros Hrep HQ. apply wp_zoom. eapply wp_mono; [apply (alloc_refines _ _ Hrep)|]. cbn beta.
  intros r p o (-> & F' & Hp & Hspec). inversion Hspec as [F HF|F f Hf Hmin| | | |]; subst.
  - exfalso. assert (Ha : a ∈ run a (S n)) by (apply elem_of_run; lia). rewrite HF in Ha. set_solver.
  - assert (f = a) as ->.
    { apply elem_of_run in Hf. assert (Ha : a ∈ run a (S n)) by (apply elem_of_run; lia). specialize (Hmin a Ha). lia. }
    apply HQ. replace (run (a + 1) n) with (run a (S n) ∖ {[a]}); [done|]. apply set_eq. intros x.
    rewrite elem_of_difference, elem_of_singleton, !elem_of_run. lia.
Qed.

Lemma wp_free_frame F f s (Q : unit -> vmm -> list Z -> Prop) : rep (frames s) F -> 0 <= f < 32768 ->
  (forall p, rep p (F ∪ {[f]}) -> Q tt (set_frames p s) []) -> wp (in_pmm (pmm_free_page (frame_addr f))) Q s.
Proof.
  intros Hrep Hf HQ. apply wp_zoom. eapply wp_mono; [apply (free_refines _ _ Hrep)|].
  { unfold frame_addr, RAM_START, PAGE_SIZE. lia. }
  cbn beta. intros [] p o (-> & Hp). apply HQ. unfold spec_free in Hp.
  rewrite (proj2 (Z.leb_le _ _)), (proj2 (Z.ltb_lt _ _)) in Hp by (unfold frame_addr, RAM_END, RAM_SIZE, RAM_START, PAGE_SIZE; lia).
  replace ((frame_addr f - RAM_START) / PAGE_SIZE) with f in Hp; [done|]. unfold frame_addr, PAGE_SIZE. zlia.
Qed.

(** ** The machine after [bring_up] *)

Context (Hpgd : table_addr kpgd) (Hpud : table_addr kpud) (Hpmd : table_addr kpmd)
  (Hdist : kpgd <> kpud /\ kpgd <> kpmd /\ kpud <> kpmd).

Definition up_frames s : Prop := rep (frames s) (run 4736 (Z.to_nat 28032)).
Definition up s : Prop :=
  up_frames s /\ kernel_tables kpgd kpud kpmd 64 (words s) /\
  exists m, kheap s = mk_heap HEAP_START 0 m.

Lemma wp_query {A} (f : pmm -> A) s (Q : A -> vmm -> list Z -> Prop) :
  Q (f (frames s)) s [] -> wp (in_pmm (let* p := get in ret (f p))) Q s.
Proof. intros H. apply wp_zoom, wp_bind, wp_get, wp_ret. by destruct s. Qed.

Lemma wp_memory_up s (Q : unit -> vmm -> list Z -> Prop) : (forall s' o, up s' -> Q tt s' o) -> wp bring_up Q s.
Proof.
  intros HQ. unfold bring_up, say_dec, say_hex, free_pages, total_pages. wp_auto.
  apply wp_zoom. eapply wp_mono; [apply pmm_init_wp|]. cbn beta. intros [] p o [-> Hp].
  replace (Z.to_nat 28032) with (S (Z.to_nat 28031)) in Hp by lia. wp_auto.
  do 3 (apply wp_query; wp_auto).
  eapply (wp_alloc_first 4736 (Z.to_nat 28031)); [exact Hp|]. intros p1 Hp1. wp_auto.
  eapply (wp_free_frame _ 4736); [exact Hp1|lia|]. intros p2 Hp2. wp_auto.
  destruct (vmm_init_run kpgd kpud kpmd Hpgd Hpud Hpmd Hdist (set_frames p2 (set_frames p1 (set_frames p s)))) as (w & E & Hw).
  eapply wp_intro; [exact E|]. unfold vmm_enable_mmu, mmu_apply. wp_auto. apply wp_zoom. unfold heap_init. wp_auto.
  apply HQ. unfold up. cbn. split_and!; [|exact Hw|by eexists].
  rewrite union_comm_L, <- run_S in Hp2. by replace (Z.to_nat 28032) with (S (Z.to_nat 28031)) by lia.
Qed.
(** ** The tests *)

Lemma wp_kmalloc n p u m s (Q : Z -> vmm -> list Z -> Prop) :
  kheap s = mk_heap p u m -> 0 < n < 2 ^ 32 -> n mod 8 = 0 -> HEAP_START <= p -> p + n <= HEAP_END -> 0 <= u < 2 ^ 32 ->
  Q p (set_kheap (mk_heap (p + n) (u + n) m) s) [] -> wp (in_heap (kmalloc n)) Q s.
Proof.
  destruct HEAP_END_val as [HS HE]. intros Hh Hn H8 Hlo Hhi Hu HQ. apply wp_zoom. unfold kmalloc. rewrite Hh.
  rewrite (proj2 (Z.eqb_neq n 0)), round_up8 by lia. replace ((n + 7) / 8 * 8) with n by zlia.
  apply wp_bind, wp_get. cbn [heap_ptr heap_used heap_mem]. rewrite !u64_small by lia.
  destruct (p + n >? HEAP_END) eqn:E; bool_hyps; [lia|]. by apply wp_bind, wp_put, wp_ret.
Qed.

Lemma wp_on_bytes f p u m s (Q : unit -> vmm -> list Z -> Prop) :
  kheap s = mk_heap p u m -> Q tt (set_kheap (mk_heap p u (f m)) s) [] -> wp (in_heap (on_bytes f)) Q s.
Proof. intros Hh HQ. apply wp_zoom, wp_modify. by rewrite Hh. Qed.

Lemma wp_heap_query {A} (f : heap -> A) s (Q : A -> vmm -> list Z -> Prop) :
  Q (f (kheap s)) s [] -> wp (in_heap (let* h := get in ret (f h))) Q s.
Proof. intros H. apply wp_zoom, wp_bind, wp_get, wp_ret. by destruct s. Qed.

(** The bytes [memory_tests] compares. *)
Lemma copy_compares m d s n : (0 <= Z.of_nat n) -> s + Z.of_nat n <= d -> memcmp (memcpy m d s n) s d n = 0.
Proof.
  intros _ Hd. apply memcmp_same. intros i Hi. rewrite !memcpy_spec by lia.
  destruct (_ && _) eqn:E; bool_hyps; [lia|]. rewrite (proj2 (Z.leb_le _ _)), (proj2 (Z.ltb_lt _ _)) by lia. cbn [andb].
  f_equal. lia.
Qed.

(** Frames that are taken out and put back. *)
Lemma put_back a n : run (a + 3) n ∪ {[a]} ∪ {[a + 1]} ∪ {[a + 2]} = run a (S (S (S n))).
Proof. apply set_eq. intros x. rewrite !elem_of_union, !elem_of_singleton, !elem_of_run. lia. Qed.

Lemma wp_memory_tests s (Q : list Z -> vmm -> list Z -> Prop) : up s ->
  (forall s' o, up_frames s' -> kernel_tables kpgd kpud kpmd 64 (words s') ->
     heap_ptr (kheap s') = HEAP_START + 1408 -> heap_used (kheap s') = 1408 ->
     Q [frame_addr 4736; frame_addr 4737; frame_addr 4738; 0x40000000; 0] s' o) ->
  wp memory_tests Q s.
Proof.
  intros (Hp & Hw & m & Hh) HQ. unfold memory_tests, say_dec, say_hex, free_pages, total_pages. wp_auto.
  revert Hp HQ. assert (E : Z.to_nat 28032 = S (S (S (Z.to_nat 28029)))) by lia. unfold up_frames. rewrite E.
  generalize (Z.to_nat 28029). clear E. intros n Hp HQ.
  eapply wp_alloc_first; [exact Hp|]. intros p1 H1. wp_auto.
  eapply wp_alloc_first; [exact H1|]. intros p2 H2. wp_auto.
  eapply wp_alloc_first; [exact H2|]. intros p3 H3. wp_auto.
  unfold vmm_get_phys. wp_auto. cbn [words set_frames]. rewrite (kernel_walk kpgd kpud kpmd) by done.
  change (kernel_phys 0x40000000) with 0x40000000.
  destruct HEAP_END_val as [HS HE].
  eapply wp_kmalloc; [exact Hh|done|done|lia|lia|lia|]. wp_auto.
  eapply wp_kmalloc; [done|done|done|lia|lia|lia|]. wp_auto.
  eapply wp_kmalloc; [done|done|done|lia|lia|lia|]. wp_auto.
  eapply wp_on_bytes; [done|]. wp_auto. eapply wp_on_bytes; [done|]. wp_auto. cbn [heap_mem kheap set_kheap].
  rewrite copy_compares by lia.
  eapply wp_free_frame; [exact H3|lia|]. intros p4 H4. wp_auto.
  eapply wp_free_frame; [exact H4|lia|]. intros p5 H5. wp_auto.
  eapply wp_free_frame; [exact H5|lia|]. intros p6 H6. wp_auto.
  do 3 (apply wp_query; wp_auto). do 2 (apply wp_heap_query; wp_auto).
  apply HQ; [|exact Hw|done|done].
  rewrite <- put_back. exact H6.
Qed.

(** On any machine the memory stage runs to its end: the MMU is on over the
    identity map, the three pages, the translation and the comparison are as
    printed, every frame is free again and 1408 bytes of the heap are in use. *)
Theorem memory_stage_works s : exists s' o,
  memory_stage s = Ok ([0x41280000; 0x41281000; 0x41282000; 0x40000000; 0], s', o) /\
  up_frames s' /\ kernel_tables kpgd kpud kpmd 64 (words s') /\ heap_used (kheap s') = 1408.
Proof.
  destruct (wp_run memory_stage (fun r s' _ => r = [0x41280000; 0x41281000; 0x41282000; 0x40000000; 0] /\
    up_frames s' /\ kernel_tables kpgd kpud kpmd 64 (words s') /\ heap_used (kheap s') = 1408) s) as (r & s' & o & E & -> & H).
  { unfold memory_stage. wp_auto. apply wp_memory_up. intros s1 o1 Hup. cbn beta. apply wp_memory_tests; [done|].
    intros s2 o2 Hf Hk _ Hu. done. }
  exists s', o. split; [exact E|exact H].
Qed.
End Stage.
