(* ===== verification/Tasks.v ===== *)
(** * The tasks of the kernel (boot/aarch64/kernel.c)

    The producer and the consumer share one cell behind a mutex and count with a
    semaphore.  Each is a program counter over its statements; a step runs the
    statement it stands at, and a schedule says which task steps when.  The kernel
    switches tasks at yields only, so every run of it is a schedule of this model. *)

From S2P Require Import Prelude Uart Sync.

(** ** Producer and consumer *)

Module ProdCons.

(** Where [task_producer] stands in round [i], and [task_consumer] in round [i]
    with the value read. *)
Inductive ppc :=
| PLock (i : Z)                 (* mutex_lock(&data_lock) *)
| PStore (i : Z)                (* shared_item = i *)
| PUnlock (i : Z)               (* mutex_unlock(&data_lock) *)
| PPost (i : Z)                 (* sem_post(&items) *)
| PRest (i : Z)                 (* print, spin, yield, i++ *)
| PExit                         (* print, sched_exit *)
| PDone.
Inductive cpc :=
| CWait (i : Z)                 (* sem_wait(&items) *)
| CLock (i : Z)
| CRead (i : Z)                 (* v = shared_item *)
| CUnlock (i v : Z)
| CPrint (i v : Z)              (* print, yield, i++ *)
| CExit
| CDone.

#[export] Instance ppc_eq_dec : EqDecision ppc.
Proof. solve_decision. Defined.
#[export] Instance cpc_eq_dec : EqDecision cpc.
Proof. solve_decision. Defined.

(** [eaten] is the list of values the consumer has printed. *)
Record demo := mk_demo { locks : sync; shared_item : Z; prod : ppc; cons : cpc; eaten : list Z }.

Definition in_sync {A} (m : M sync A) : M demo A :=
  zoom locks (fun l d => mk_demo l (shared_item d) (prod d) (cons d) (eaten d)) m.
Definition set_item (v : Z) : M demo unit :=
  modify (fun d => mk_demo (locks d) v (prod d) (cons d) (eaten d)).
Definition pgo (p : ppc) : M demo unit :=
  modify (fun d => mk_demo (locks d) (shared_item d) p (cons d) (eaten d)).
Definition cgo (c : cpc) : M demo unit :=
  modify (fun d => mk_demo (locks d) (shared_item d) (prod d) c (eaten d)).
Definition eat (v : Z) : M demo unit :=
  modify (fun d => mk_demo (locks d) (shared_item d) (prod d) (cons d) (eaten d ++ [v])).

(** [for (i = 1; i <= 5; i++)] and [for (i = 0; i < 5; i++)]. *)
Definition pnext (i : Z) : ppc := if i <=? 5 then PLock i else PExit.
Definition cnext (i : Z) : cpc := if i <? 5 then CWait i else CExit.

(** A lock or a wait that fails yields and tries again. *)
Definition task_producer (me : Z) : M demo unit :=
  let* d := get in
  match prod d with
  | PLock i => let* got := in_sync (mutex_trylock me) in if got then pgo (PStore i) else ret tt
  | PStore i => set_item i ;;; pgo (PUnlock i)
  | PUnlock i => in_sync (mutex_unlock me) ;;; pgo (PPost i)
  | PPost i => in_sync sem_post ;;; pgo (PRest i)
  | PRest i => puts "  [prod] produced item" ;;; pgo (pnext (i + 1))
  | PExit => puts "  [prod] producer done" ;;; pgo PDone
  | PDone => ret tt
  end.

Definition task_consumer (me : Z) : M demo unit :=
  let* d := get in
  match cons d with
  | CWait i => let* got := in_sync sem_trywait in if got then cgo (CLock i) else ret tt
  | CLock i => let* got := in_sync (mutex_trylock me) in if got then cgo (CRead i) else ret tt
  | CRead i => cgo (CUnlock i (shared_item d))
  | CUnlock i v => in_sync (mutex_unlock me) ;;; cgo (CPrint i v)
  | CPrint i v =>
      puts_nolf "  [cons] consumed item " ;;; put_dec (u32 v) ;;; puts "" ;;; eat v ;;; cgo (cnext (i + 1))
  | CExit => puts "  [cons] consumer done" ;;; cgo CDone
  | CDone => ret tt
  end.

Section Run.
(** The indices of the two tasks. *)
Context (p c : Z) (Hp : 0 <= p) (Hc : 0 <= c) (Hpc : p <> c).

(** [true] is a step of the producer. *)
Definition task_step (who : bool) : M demo unit := if who then task_producer p else task_consumer c.

Fixpoint run (sched : list bool) : M demo unit :=
  match sched with [] => ret tt | w :: rest => task_step w ;;; run rest end.

(** After [mutex_init], [sem_init(&items, 0)] and the two spawns. *)
Definition start : demo := mk_demo (mk_sync (mk_mutex (-1) 0) (mk_sem 0 0) true) 0 (pnext 1) (cnext 0) [].

(** ** Invariant *)

(** The item in the cell, and the units posted, at a position of the producer. *)
Definition written (q : ppc) : Z :=
  match q with PLock i | PStore i => i - 1 | PUnlock i | PPost i | PRest i => i | PExit | PDone => 5 end.
Definition posted (q : ppc) : Z :=
  match q with PLock i | PStore i | PUnlock i | PPost i => i - 1 | PRest i => i | PExit | PDone => 5 end.
Definition pround (q : ppc) : Prop :=
  match q with PLock i | PStore i | PUnlock i | PPost i | PRest i => 1 <= i <= 5 | _ => True end.
(** The items printed and the units taken at a position of the consumer. *)
Definition printed (q : cpc) : Z :=
  match q with CWait i | CLock i | CRead i | CUnlock i _ | CPrint i _ => i | CExit | CDone => 5 end.
Definition taken (q : cpc) : Z :=
  match q with CWait i => i | CLock i | CRead i | CUnlock i _ | CPrint i _ => i + 1 | CExit | CDone => 5 end.
Definition cround (q : cpc) : Prop :=
  match q with CWait i | CLock i | CRead i | CUnlock i _ | CPrint i _ => 0 <= i < 5 | _ => True end.
Definition p_in (q : ppc) : bool := match q with PStore _ | PUnlock _ => true | _ => false end.
Definition c_in (q : cpc) : bool := match q with CRead _ | CUnlock _ _ => true | _ => false end.
(** What the consumer holds. *)
Definition in_hand (q : cpc) : list Z := match q with CUnlock _ v | CPrint _ v => [v] | _ => [] end.

(** Values in the order produced, the [k]th at least [k] and none past [w]. *)
Definition in_order (w : Z) (l : list Z) : Prop :=
  (forall j k a b, (j <= k)%nat -> l !! j = Some a -> l !! k = Some b -> a <= b) /\
  (forall k v, l !! k = Some v -> Z.of_nat k + 1 <= v <= w).

Record inv (d : demo) : Prop := {
  i_pround : pround (prod d);
  i_cround : cround (cons d);
  i_owner : owner (mtx (locks d)) = if p_in (prod d) then p else if c_in (cons d) then c else -1;
  i_excl : p_in (prod d) && c_in (cons d) = false;
  i_count : count (sem (locks d)) = posted (prod d) - taken (cons d);
  i_units : taken (cons d) <= posted (prod d);
  i_item : shared_item d = written (prod d);
  i_len : Z.of_nat (length (eaten d)) = printed (cons d);
  i_order : in_order (shared_item d) (eaten d ++ in_hand (cons d));
}.

Lemma in_order_grow w w' l : w <= w' -> in_order w l -> in_order w' l.
Proof. intros Hw [H1 H2]. split; [exact H1|]. intros k v Hk. specialize (H2 k v Hk). lia. Qed.

Lemma in_order_snoc w l : in_order w l -> Z.of_nat (length l) + 1 <= w -> in_order w (l ++ [w]).
Proof.
  intros [H1 H2] Hw. split.
  - intros j k a b Hjk Ha Hb. apply lookup_app_Some in Hb as [Hb|[Hk Hb]].
    + apply lookup_lt_Some in Hb as Hlt. rewrite lookup_app_l in Ha by lia. exact (H1 j k a b Hjk Ha Hb).
    + apply list_lookup_singleton_Some in Hb as [_ <-]. apply lookup_app_Some in Ha as [Ha|[_ Ha]].
      * apply (H2 j a Ha).
      * apply list_lookup_singleton_Some in Ha as [_ <-]. lia.
  - intros k v Hv. apply lookup_app_Some in Hv as [Hv|[Hk Hv]]; [by apply H2|].
    apply list_lookup_singleton_Some in Hv as [Hz <-]. lia.
Qed.

Lemma pnext_pos i : 1 <= i <= 5 ->
  pround (pnext (i + 1)) /\ written (pnext (i + 1)) = i /\ posted (pnext (i + 1)) = i /\ p_in (pnext (i + 1)) = false.
Proof. intros Hi. unfold pnext. destruct (i + 1 <=? 5) eqn:E; bool_hyps; simpl; split_and!; try done; try lia. Qed.

Lemma cnext_pos i : 0 <= i < 5 ->
  cround (cnext (i + 1)) /\ printed (cnext (i + 1)) = i + 1 /\ taken (cnext (i + 1)) = i + 1 /\
  c_in (cnext (i + 1)) = false /\ in_hand (cnext (i + 1)) = [].
Proof. intros Hi. unfold cnext. destruct (i + 1 <? 5) eqn:E; bool_hyps; simpl; split_and!; done || lia. Qed.

Lemma start_inv : inv start.
Proof. constructor; try done; simpl; lia. Qed.

Lemma wp_trylock me d (Q : bool -> demo -> list Z -> Prop) :
  (let free := (owner (mtx (locks d)) =? -1) || (owner (mtx (locks d)) =? me) in
   forall n, Q free (mk_demo (mk_sync (mk_mutex (if free then me else owner (mtx (locks d))) n) (sem (locks d)) true)
     (shared_item d) (prod d) (cons d) (eaten d)) []) -> wp (in_sync (mutex_trylock me)) Q d.
Proof.
  intros HQ. apply wp_zoom. eapply wp_intro; [apply trylock_run|]. cbv zeta in *.
  destruct ((owner (mtx (locks d)) =? -1) || _); apply HQ.
Qed.

Ltac open_inv H :=
  destruct H as [Hpr Hcr Ho Hx Hn Hu Hi Hl Hord]; cbn [locks shared_item prod cons eaten mtx sem owner count] in *.

Lemma producer_inv d : inv d -> wp (task_producer p) (fun _ d' _ => inv d') d.
Proof.
  destruct d as [[[ow lc] [ct wk] iq] it pr co ea]. intros H. open_inv H. subst it.
  unfold task_producer. apply wp_bind, wp_get. cbn [prod].
  destruct pr as [i|i|i|i|i| |]; cbn [written posted p_in pround andb] in *.
  - apply wp_bind, wp_trylock. cbn zeta. cbn. intros n. subst ow. destruct (c_in co) eqn:Eco.
    + rewrite (proj2 (Z.eqb_neq c (-1))), (proj2 (Z.eqb_neq c p)) by lia. cbn.
      constructor; cbn; rewrite ?Eco; done.
    + rewrite Z.eqb_refl. cbn. constructor; cbn; rewrite ?Eco; done.
  - unfold set_item, pgo. wp_auto. cbn. constructor; cbn; try done. eapply in_order_grow; [|exact Hord]. lia.
  - apply wp_bind, wp_zoom. subst ow. unfold mutex_unlock, irq_disable, irq_enable, set_mutex. wp_auto; cbn in *; [|by rewrite Z.eqb_refl in E].
    unfold pgo. wp_auto. constructor; cbn; try done. by rewrite Hx.
  - apply wp_bind, wp_zoom. unfold sem_post, irq_disable, irq_enable, set_sem. wp_auto; cbn in *.
    2: { bool_hyps. unfold INT32_MAX in *. exfalso. destruct co; cbn in *; lia. }
    unfold pgo. wp_auto. constructor; cbn; try done; lia.
  - unfold pgo. wp_auto. destruct (pnext_pos i Hpr) as (? & E1 & E2 & E3).
    constructor; cbn; rewrite ?E1, ?E2, ?E3; done.
  - unfold pgo. wp_auto. by constructor.
  - apply wp_ret. by constructor.
Qed.

Lemma consumer_inv d : inv d -> wp (task_consumer c) (fun _ d' _ => inv d') d.
Proof.
  destruct d as [[[ow lc] [ct wk] iq] it pr co ea]. intros H. open_inv H. subst it.
  unfold task_consumer. apply wp_bind, wp_get. cbn [cons].
  assert (Hbelow : posted pr <= written pr) by (destruct pr; cbn; lia).
  destruct co as [i|i|i|i v|i v| |]; cbn [printed taken c_in cround in_hand] in *.
  - apply wp_bind, wp_zoom. eapply wp_intro; [apply trywait_run|]. cbn. rewrite Hn.
    destruct (posted pr - i >? 0) eqn:E; bool_hyps; cbn; constructor; cbn; done || lia.
  - apply wp_bind, wp_trylock. cbn zeta. cbn. intros n. subst ow. destruct (p_in pr) eqn:Epr.
    + rewrite (proj2 (Z.eqb_neq p (-1))), (proj2 (Z.eqb_neq p c)) by lia. cbn.
      constructor; cbn; rewrite ?Epr; done.
    + rewrite Z.eqb_refl. cbn. constructor; cbn; rewrite ?Epr; done.
  - unfold cgo. wp_auto. constructor; cbn; try done. rewrite app_nil_r in Hord. apply in_order_snoc; [done|lia].
  - apply wp_bind, wp_zoom. rewrite andb_true_r in Hx. rewrite Hx in Ho. subst ow. unfold mutex_unlock, irq_disable, irq_enable, set_mutex. wp_auto; cbn in *; [|by rewrite Z.eqb_refl in E].
    unfold cgo. wp_auto. constructor; cbn; rewrite ?Hx; done.
  - unfold eat, cgo. wp_auto. destruct (cnext_pos i Hcr) as (? & E1 & E2 & E3 & E4).
    constructor; cbn; rewrite ?E1, ?E2, ?E3, ?E4, ?app_nil_r, ?andb_false_r, ?length_app; try done. cbn. lia.
  - unfold cgo. wp_auto. by constructor.
  - apply wp_ret. by constructor.
Qed.

Lemma step_inv w d : inv d -> wp (task_step w) (fun _ d' _ => inv d') d.
Proof. destruct w; [apply producer_inv|apply consumer_inv]. Qed.

Lemma run_inv sched d : inv d -> wp (run sched) (fun _ d' _ => inv d') d.
Proof.
  revert d. induction sched as [|w sched IH]; intros d Hd; [by apply wp_ret|]. cbn [run]. apply wp_bind.
  eapply wp_mono; [by apply step_inv|]. cbn beta. intros _ d1 o1 H1. eapply wp_mono; [by apply IH|]. done.
Qed.

(** ** Progress *)

Definition pwork (q : ppc) : Z :=
  match q with
  | PLock i => 5 * (5 - i) + 7 | PStore i => 5 * (5 - i) + 6 | PUnlock i => 5 * (5 - i) + 5
  | PPost i => 5 * (5 - i) + 4 | PRest i => 5 * (5 - i) + 3 | PExit => 1 | PDone => 0
  end.
Definition cwork (q : cpc) : Z :=
  match q with
  | CWait i => 5 * (4 - i) + 7 | CLock i => 5 * (4 - i) + 6 | CRead i => 5 * (4 - i) + 5
  | CUnlock i _ => 5 * (4 - i) + 4 | CPrint i _ => 5 * (4 - i) + 3 | CExit => 1 | CDone => 0
  end.
(** Statements left to run. *)
Definition work (d : demo) : Z := pwork (prod d) + cwork (cons d).

Definition free_for (me : Z) (d : demo) : bool := (owner (mtx (locks d)) =? -1) || (owner (mtx (locks d)) =? me).
(** The task's next statement does not wait. *)
Definition ready (w : bool) (d : demo) : bool :=
  if w then match prod d with PLock _ => free_for p d | PDone => false | _ => true end
  else match cons d with CWait _ => count (sem (locks d)) >? 0 | CLock _ => free_for c d | CDone => false | _ => true end.
Definition finished (d : demo) : Prop := prod d = PDone /\ cons d = CDone.
#[export] Instance finished_dec d : Decision (finished d).
Proof. unfold finished. apply _. Defined.

(** What decides who is ready. *)
Definition same_core (d d' : demo) : Prop :=
  owner (mtx (locks d')) = owner (mtx (locks d)) /\ sem (locks d') = sem (locks d) /\
  prod d' = prod d /\ cons d' = cons d.

Lemma same_core_ready d d' w : same_core d d' -> ready w d' = ready w d.
Proof. intros (E1 & E2 & E3 & E4). unfold ready, free_for. by rewrite E1, E2, E3, E4. Qed.

Lemma work_pos d : inv d -> 0 <= work d.
Proof. intros H. destruct H as [H1 H2 _ _ _ _ _ _ _]. unfold work. destruct (prod d), (cons d); cbn in *; lia. Qed.

(** A ready task gets on; one that is not leaves everything as it was. *)
Lemma step_ready w d : inv d ->
  wp (task_step w) (fun _ d' _ => if ready w d then work d' < work d else same_core d d') d.
Proof.
  intros H. destruct d as [[[ow lc] [ct wk] iq] it pr co ea]. open_inv H. unfold work, same_core.
  destruct w; unfold task_step, ready, free_for; cbn [locks mtx sem owner count prod cons].
  - unfold task_producer. apply wp_bind, wp_get. cbn [prod]. destruct pr as [i|i|i|i|i| |]; cbn in Hpr.
    + apply wp_bind, wp_trylock. cbn zeta. cbn. intros n. destruct ((ow =? -1) || (ow =? p)); cbn; [lia|done].
    + unfold set_item, pgo. wp_auto. cbn. lia.
    + apply wp_bind, wp_zoom. unfold mutex_unlock, irq_disable, irq_enable, set_mutex, pgo. wp_auto; cbn; lia.
    + apply wp_bind, wp_zoom. unfold sem_post, irq_disable, irq_enable, set_sem, pgo. wp_auto; cbn in *; [lia|].
      bool_hyps. unfold INT32_MAX in *. exfalso. destruct co; cbn in *; lia.
    + unfold pgo. wp_auto. unfold pnext. cbn. destruct (i + 1 <=? 5) eqn:E; bool_hyps; cbn; lia.
    + unfold pgo. wp_auto. cbn. lia.
    + apply wp_ret. done.
  - unfold task_consumer. apply wp_bind, wp_get. cbn [cons]. destruct co as [i|i|i|i v|i v| |]; cbn in Hcr.
    + apply wp_bind, wp_zoom. eapply wp_intro; [apply trywait_run|]. cbn. destruct (ct >? 0); cbn; [lia|done].
    + apply wp_bind, wp_trylock. cbn zeta. cbn. intros n. destruct ((ow =? -1) || (ow =? c)); cbn; [lia|done].
    + unfold cgo. wp_auto. cbn. lia.
    + apply wp_bind, wp_zoom. unfold mutex_unlock, irq_disable, irq_enable, set_mutex, cgo. wp_auto; cbn; lia.
    + unfold eat, cgo. wp_auto. unfold cnext. cbn. destruct (i + 1 <? 5) eqn:E; bool_hyps; cbn; lia.
    + unfold cgo. wp_auto. cbn. lia.
    + apply wp_ret. done.
Qed.

(** There is no deadlock. *)
Lemma some_ready d : inv d -> ~ finished d -> exists w, ready w d = true.
Proof.
  intros H Hf. destruct d as [[[ow lc] [ct wk] iq] it pr co ea]. open_inv H. unfold finished in Hf. cbn in Hf.
  unfold ready, free_for. cbn [locks mtx sem owner count prod cons].
  destruct pr as [i|i|i|i|i| |]; try (by exists true); cbn in *.
  - destruct (c_in co) eqn:E; [exists false; by destruct co|exists true; by subst ow].
  - exists false. destruct co as [i|i|i|i v|i v| |]; cbn in *; try done; [|by subst ow|naive_solver].
    apply Z.gtb_lt. lia.
Qed.

(** ** Fair schedules *)

Definition fair (sched : nat -> bool) : Prop := forall n w, exists m, (n <= m)%nat /\ sched m = w.
(** The [n] choices of a schedule from the [k]th on. *)
Definition window (sched : nat -> bool) (k n : nat) : list bool := map sched (seq k n).

Lemma step_result w d : inv d -> exists d' o, task_step w d = Ok (tt, d', o) /\ inv d' /\
  (if ready w d then work d' < work d else same_core d d').
Proof.
  intros Hd. pose proof (step_inv w d Hd) as H1. pose proof (step_ready w d Hd) as H2. unfold wp in *.
  destruct (task_step w d) as [[[[] d'] o]| |]; [|done..]. by exists d', o.
Qed.

(** A task that is ready stays ready until its turn, unless the other gets on. *)
Lemma turn_comes sched w j : forall n d, inv d -> ready w d = true -> sched (n + j)%nat = w ->
  exists m, wp (run (window sched n m)) (fun _ d' _ => inv d' /\ work d' < work d) d.
Proof.
  induction j as [|j IH]; intros n d Hd Hr Hs; destruct (step_result (sched n) d Hd) as (d1 & o1 & E & H1 & H2).
  - rewrite Nat.add_0_r in Hs. rewrite <- Hs in Hr. rewrite Hr in H2.
    exists 1%nat. apply wp_bind. eapply wp_intro; [exact E|]. by apply wp_ret.
  - destruct (ready (sched n) d) eqn:Hn.
    { exists 1%nat. apply wp_bind. eapply wp_intro; [exact E|]. by apply wp_ret. }
    destruct (IH (S n) d1) as [m Hm]; [done|by rewrite (same_core_ready d)|by replace (S n + j)%nat with (n + S j)%nat by lia|].
    exists (S m). apply wp_bind. eapply wp_intro; [exact E|]. eapply wp_mono; [exact Hm|].
    destruct H2 as (_ & _ & E3 & E4). unfold work. rewrite E3, E4. done.
Qed.

Lemma run_app l1 l2 d (Q : unit -> demo -> list Z -> Prop) :
  wp (run l1) (fun _ d1 _ => wp (run l2) (fun _ d2 _ => forall o, Q tt d2 o) d1) d -> wp (run (l1 ++ l2)) Q d.
Proof.
  revert d Q. induction l1 as [|w l1 IH]; intros d Q H; cbn [run app] in *.
  { unfold wp in *. cbn in H. destruct (run l2 d) as [[[[] d2] o2]| |]; eauto. }
  unfold wp, bind in *. destruct (task_step w d) as [[[? d1] o1]| |]; [|done..].
  specialize (IH d1 (fun _ d2 _ => forall o, Q tt d2 o)). unfold wp in IH.
  destruct (run l1 d1) as [[[? d2] o2]| |] eqn:E1; [|done..].
  destruct (run l2 d2) as [[[? d3] o3]| |] eqn:E2; [|done..].
  destruct (run (l1 ++ l2) d1) as [[[[] d4] o4]| |]; [|by destruct IH..]. apply IH. intros _. exact H.
Qed.

Lemma all_done sched (Hfair : fair sched) : forall k d n, inv d -> work d < Z.of_nat k ->
  exists m, wp (run (window sched n m)) (fun _ d' _ => inv d' /\ finished d') d.
Proof.
  induction k as [|k IH]; intros d n Hd Hk; [pose proof (work_pos d Hd); lia|].
  destruct (decide (finished d)) as [Hf|Hf]; [exists 0%nat; by apply wp_ret|].
  destruct (some_ready d Hd Hf) as [w Hw], (Hfair n w) as (t & Ht & Ew).
  destruct (turn_comes sched w (t - n) n d Hd Hw) as [m1 Hm1]; [by replace (n + (t - n))%nat with t by lia|].
  destruct (wp_run _ _ _ Hm1) as (r & d1 & o1 & E1 & H1 & H2).
  destruct (IH d1 (n + m1)%nat H1) as [m2 Hm2]; [lia|].
  exists (m1 + m2)%nat. unfold window. rewrite seq_app, map_app. apply run_app. eapply wp_intro; [exact E1|].
  eapply wp_mono; [exact Hm2|]. cbn beta. intros _ d2 _ H _. exact H.
Qed.

(** The producer and the consumer, from any schedule of their statements, never
    run into undefined behaviour, and the consumer prints values in the order
    they were produced: never decreasing, the [k]th at least [k], none that has
    not been produced. *)
Theorem consumer_in_order sched : exists d o, run sched start = Ok (tt, d, o) /\
  (length (eaten d) <= 5)%nat /\ in_order (written (prod d)) (eaten d) /\
  p_in (prod d) && c_in (cons d) = false.
Proof.
  destruct (wp_run _ _ _ (run_inv sched start start_inv)) as ([] & d & o & E & H). exists d, o. split; [exact E|].
  destruct H as [_ H2 _ H4 _ _ H7 H8 H9]. split; [|split; [|exact H4]].
  - destruct (cons d); cbn in *; lia.
  - rewrite <- H7. destruct H9 as [S1 S2]. split.
    + intros j k a b Hjk Ha Hb. apply (S1 j k a b Hjk); by apply lookup_app_l_Some.
    + intros k v Hv. apply (S2 k v). by apply lookup_app_l_Some.
Qed.

(** C12: under every fair schedule both tasks finish, and the consumer has printed
    exactly five values: there is no deadlock, no lost wakeup and no starvation. *)
Theorem producer_consumer_finish sched (Hfair : fair sched) : exists n d o,
  run (window sched 0 n) start = Ok (tt, d, o) /\ finished d /\ length (eaten d) = 5%nat /\ in_order 5 (eaten d).
Proof.
  destruct (all_done sched Hfair (Z.to_nat (work start + 1)) start 0 start_inv) as [n Hn]; [by vm_compute|].
  destruct (wp_run _ _ _ Hn) as ([] & d & o & E & [_ _ _ _ _ _ H7 H8 H9] & Hf). exists n, d, o.
  split; [exact E|]. split; [exact Hf|]. destruct Hf as [F1 F2]. rewrite F1 in H7. rewrite F2 in H8, H9.
  cbn in *. rewrite H7, app_nil_r in H9. split; [lia|exact H9].
Qed.
End Run.

Lemma producer_consumer_finish_witness : exists n d o,
  run 7 8 (window Nat.even 0 n) start = Ok (tt, d, o) /\ finished d /\ length (eaten d) = 5%nat /\ in_order 5 (eaten d).
Proof.
  apply (producer_consumer_finish 7 8 ltac:(lia) ltac:(lia) ltac:(lia) Nat.even).
  intros n w. exists (if Bool.eqb (Nat.even n) w then n else S n). destruct (Nat.even n) eqn:E, w; cbn [Bool.eqb]; split; try lia; try done;
    rewrite Nat.even_succ, <- Nat.negb_even, E; done.
Defined.

(** When each task runs up to its yield, every item is consumed once; a producer
    that is always ahead overwrites four of the five. *)
Definition eaten_by (sched : list bool) : option (list Z) :=
  match run 7 8 sched start with Ok (_, d, _) => Some (eaten d) | _ => None end.
Example in_turns : eaten_by (flat_map (fun b : bool => replicate 5 b) (concat (replicate 6 [true; false]))) = Some [1; 2; 3; 4; 5].
Proof. vm_compute. reflexivity. Qed.
Example producer_ahead : eaten_by (replicate 26 true ++ replicate 26 false) = Some [5; 5; 5; 5; 5].
Proof. vm_compute. reflexivity. Qed.
End ProdCons.
