(* ===== verification/Stages.v ===== *)
(** * The services of the kernel (boot/aarch64/kernel.c stages 3 and 5)

    [services_stage] initialises the AI and CMT engines, the device framework, the
    RAM file system, the message queues and the interrupts, on the kernel state of
    [Syscall]; the system tasks then record and watch what it set up, and
    [spawn_stage] fills the task table.  The bytes that follow a string literal in
    memory are a parameter, since the RAM file system compares sixteen. *)

From S2P Require Import Prelude Uart Tick Heap Vmm Sched Proc Device Syscall.
From S2P Require Ramfs Ipc Cmt Ai.

Section Services.
(** What lies behind each literal, and the address of the exception vector. *)
Context (behind : string -> view) (vbar : Z).
Definition lit (s : string) : view := literal (bytes s) (behind s).

(** ** Stage 3 *)

Definition create (s : string) : M kst unit := let* _ := in_fs (Ramfs.ramfs_create (lit s)) in ret tt.
Definition create_queue (own : Z) : M kst unit := let* _ := in_ipc (Ipc.ipc_create own) in ret tt.

Definition engines_stage : M kst unit :=
  puts "" ;;; puts "[1/5] Initializing AI engine..." ;;;
  in_ai Ai.ai_init ;;;
  puts "  Fixed-point MLP ready (3-8-3, Q16.16)" ;;;
  puts "  Subscribed to timer ticks (perceive-decide-act)" ;;;
  puts "" ;;; puts "[2/5] Initializing CMT engine..." ;;;
  in_ai (Ai.in_cmt Cmt.cmt_init) ;;;
  puts "  Consciousness Manifold Theory (6-12-3, Q16.16)" ;;;
  puts "  C = E_f : 6 inputs -> IM -> T -> E_f -> C" ;;;
  puts "  Subscribed to timer ticks (perceive-transform-experience-consciously)".

Definition stores_stage : M kst unit :=
  puts "" ;;; puts "[3/5] Initializing device framework..." ;;;
  in_dev device_init ;;;
  puts "  16 device slots available" ;;;
  puts "" ;;; puts "[4/6] Initializing RAMFS..." ;;;
  in_fs Ramfs.ramfs_init ;;;
  create "sys/info" ;;; create "sys/uptime" ;;; create "ai/weights" ;;; create "cmt/state" ;;; create "user/data" ;;;
  puts "  32 files, 4KB each" ;;;
  puts "  Created: sys/info, sys/uptime, ai/weights, cmt/state, user/data" ;;;
  puts "" ;;; puts "[5/6] Initializing IPC..." ;;;
  in_ipc Ipc.ipc_init ;;;
  create_queue 0 ;;; create_queue 1 ;;; create_queue 2 ;;;
  puts "  8 message queues, 16 msgs each" ;;;
  puts "  Created queues: main, ai, debug".

(** The result holds the vector base and the writes to the interrupt controller. *)
Definition services_stage : M kst (Z * writes) :=
  puts "" ;;; puts "=== Stage 3: Interrupts + AI Engine ===" ;;;
  engines_stage ;;;
  stores_stage ;;;
  puts "" ;;; puts "[6/6] Initializing IRQ subsystem..." ;;;
  let* w := irq_init vbar in
  puts "  GICv2 initialized" ;;; puts "  Exception vector installed (VBAR_EL1)" ;;;
  puts "  Timer enabled at 100Hz - AI + CMT engines live" ;;;
  puts "" ;;; puts "[3/4] Registering demo callback..." ;;;
  in_ai (Ai.in_timer (timer_set_callback (Some TestTimerCallback))) ;;;
  puts "  Callback registered" ;;;
  puts "" ;;; puts "[4/4] CMT consciousness demo (5s, live)..." ;;;
  in_ai (Ai.in_cmt (Cmt.cmt_set_verbose 1)) ;;;
  ret w.

(** ** The system tasks *)

(** [&uptime]: the four bytes of a [uint32_t]. *)
Definition word_view (x : Z) : view := fun i => u8 (Z.shiftr x (8 * Z.of_nat i)).
Definition store_file (s : string) (src : view) (len : Z) : M kst unit :=
  let* _ := in_fs (Ramfs.ramfs_write (lit s) src len 0) in ret tt.
Definition cmt_byte : M kst Z := let* k := get in ret (u8 (Cmt.cmt_consciousness_level (Ai.k_cmt (k_ai k)))).

(** [task_sysinfo] up to its exit. *)
Definition task_sysinfo : M kst unit :=
  puts "  [sysinfo] Writing system info..." ;;;
  store_file "sys/info" (lit "AEOS v1.0 - Ajeeb Embodied AI OS") 33 ;;;
  let* t := in_ai (Ai.in_timer timer_get_ticks) in
  store_file "sys/uptime" (word_view (u32 (t / 100))) 4 ;;;
  store_file "ai/weights" (lit "AI: 3-8-3 MLP, Q16.16") 22 ;;;
  let* level := cmt_byte in
  store_file "cmt/state" (fun _ => level) 1 ;;;
  puts "  [sysinfo] Done: sys/info, sys/uptime, ai/weights, cmt/state".

(** One round of [task_ailog] before its pause; the result is the new
    [last_action]. *)
Definition ailog_round (last_action : Z) : M kst Z :=
  let* k := get in
  let action := Ai.ai_last_action (k_ai k) in
  let inferences := Ai.ai_inference_count (k_ai k) in
  let* last :=
    (if negb (action =? last_action) then
       puts_nolf "  [ailog] Action changed to: " ;;; puts (Ai.ai_action_name action) ;;;
       puts_nolf "  [ailog] Inferences: " ;;; put_dec inferences ;;; puts "" ;;; ret action
     else ret last_action) in
  let* level := cmt_byte in
  store_file "cmt/state" (fun _ => level) 1 ;;;
  ret last.

(** [task_ailog] up to its exit; [pause] is the spin and the yield of a round. *)
Fixpoint ailog_loop (pause : nat -> M kst unit) (last_action : Z) (n : nat) : M kst unit :=
  match n with
  | O => ret tt
  | S n' => let* last := ailog_round last_action in pause n' ;;; ailog_loop pause last n'
  end.
Definition task_ailog (pause : nat -> M kst unit) : M kst unit :=
  puts "  [ailog] AI decision logger started" ;;;
  ailog_loop pause (-1) 10 ;;;
  puts "  [ailog] Logger finished".

Definition exists_file (s : string) : M kst Z :=
  let* b := in_fs (Ramfs.ramfs_exists (lit s)) in ret (if b : bool then 1 else 0).
(** One round of [task_devmon] before its pause; the result is the counts. *)
Definition devmon_round : M kst (Z * Z) :=
  let* a := exists_file "sys/info" in
  let* b := exists_file "sys/uptime" in
  let* c := exists_file "ai/weights" in
  let* d := exists_file "cmt/state" in
  let* e := exists_file "user/data" in
  let file_count := u32 (a + b + c + d + e) in
  puts_nolf "  [devmon] Files: " ;;; put_dec file_count ;;; puts "/5" ;;;
  let* q := in_ipc Ipc.ipc_queue_count in
  puts_nolf "  [devmon] IPC queues: " ;;; put_dec q ;;; puts "" ;;;
  ret (file_count, q).

(** [task_devmon] up to its exit, with what it counted. *)
Fixpoint devmon_loop (pause : nat -> M kst unit) (n : nat) : M kst (list (Z * Z)) :=
  match n with
  | O => ret []
  | S n' => let* c := devmon_round in pause n' ;;; let* cs := devmon_loop pause n' in ret (c :: cs)
  end.
Definition task_devmon (pause : nat -> M kst unit) : M kst (list (Z * Z)) :=
  puts "  [devmon] Device monitor started" ;;;
  let* cs := devmon_loop pause 5 in
  puts "  [devmon] Monitor finished" ;;;
  ret cs.

(** ** Files *)

(** The sixteen bytes under which a name is stored. *)
Definition file_key (s : string) : list Z := bytes s ++ replicate (16 - length (bytes s)) 0.
Definition system_files : list string := ["sys/info"; "sys/uptime"; "ai/weights"; "cmt/state"; "user/data"]%string.
(** The compiler pads the literals to sixteen bytes with zeros. *)
Definition literals_padded : Prop := Forall (fun s => Ramfs.padded (lit s)) system_files.

Lemma system_keys : Forall (fun s => Ramfs.stored_name (lit s) = file_key s) system_files.
Proof. repeat constructor. Qed.

Lemma key_of s : literals_padded -> s ∈ system_files -> Ramfs.key (lit s) = file_key s.
Proof.
  intros Hp Hs. pose proof (proj1 (Forall_forall _ _) Hp s Hs) as H1.
  pose proof (proj1 (Forall_forall _ _) system_keys s Hs) as H2. cbn beta in *. unfold Ramfs.padded in H1. congruence.
Qed.

Definition files_are (m : gmap (list Z) (list Z)) (k : kst) : Prop := Ramfs.ramfs_wf (k_fs k) /\ Ramfs.rep (k_fs k) m.
Definition put_fs (f : Ramfs.ramfs) (k : kst) : kst :=
  mk_kst (k_proc k) f (k_ipc k) (k_devs k) (k_ndev k) (k_objs k) (k_ai k) (legacy k).

Lemma wp_ramfs_init k (Q : unit -> kst -> list Z -> Prop) :
  length (Ramfs.files (k_fs k)) = 32%nat -> Forall (fun f => length (Ramfs.fdata f) = 4096%nat) (Ramfs.files (k_fs k)) ->
  (forall f o, files_are ∅ (put_fs f k) -> Q tt (put_fs f k) o) -> wp (in_fs Ramfs.ramfs_init) Q k.
Proof.
  intros Hl Hf HQ. apply wp_zoom. unfold Ramfs.ramfs_init. wp_auto. apply HQ. unfold files_are. cbn [k_fs put_fs].
  set (fs := map _ _). assert (Hun : forall i f, fs !! i = Some f -> Ramfs.fin_use f = false).
  { intros i f H. apply list_lookup_fmap_Some in H as (g & -> & _). done. }
  assert (Hno : filter (fun f => Ramfs.fin_use f = true) fs = []).
  { clear Hun. unfold fs. clear. induction (Ramfs.files (k_fs k)) as [|f l IH]; [done|]. cbn [map]. by rewrite filter_cons_False. }
  split; [split; [split|split]|split].
  - cbn [Ramfs.files]. unfold fs, Ramfs.RAMFS_MAX_FILES. by rewrite length_map.
  - cbn [Ramfs.files]. unfold fs. apply Forall_map. eapply Forall_impl; [exact Hf|]. intros f H. unfold Ramfs.file_wf. cbn. split_and!; done || lia.
  - unfold Ramfs.used. cbn. by rewrite Hno.
  - cbn. intros i j f g H _ Hu. by rewrite (Hun i f H) in Hu.
  - intros q c. rewrite lookup_empty. split; [done|]. cbn. intros (i & f & H & Hu & _). by rewrite (Hun i f H) in Hu.
  - done.
Qed.

Lemma wp_create s m k (Q : unit -> kst -> list Z -> Prop) :
  literals_padded -> s ∈ system_files -> files_are m k -> m !! file_key s = None -> (size m < 32)%nat ->
  (forall f, files_are (<[file_key s := []]> m) (put_fs f k) -> Q tt (put_fs f k) []) -> wp (create s) Q k.
Proof.
  intros Hp Hs [Hwf Hrep] Hm Hsz HQ. pose proof (key_of s Hp Hs) as Hk.
  pose proof (proj1 (Forall_forall _ _) Hp s Hs) as Hps. cbn beta in Hps.
  pose proof (Ramfs.ramfs_create_refines (k_fs k) m Hwf Hrep (lit s) Hps) as H.
  unfold Ramfs.refines, Ramfs.run_op in H. unfold create. apply wp_bind, wp_zoom.
  unfold wp, bind in H |- *. destruct (Ramfs.ramfs_create (lit s) (k_fs k)) as [[[r f] o]| |]; [|done..].
  cbn in H. destruct H as (Ho & m' & Hwf' & Hrep' & Hspec). rewrite app_nil_r in Ho. subst o.
  rewrite <- Hk in Hm, HQ. inversion Hspec as [? ? [c Hc]| |? ? Hn Hfull| | | | | | | | |]; subst; [congruence| |unfold Ramfs.RAMFS_MAX_FILES in *; lia].
  apply HQ. by split.
Qed.

Lemma wp_store_file s src n m old k (Q : unit -> kst -> list Z -> Prop) :
  literals_padded -> s ∈ system_files -> files_are m k -> m !! file_key s = Some old -> 0 <= n < 4096 ->
  (forall f, files_are (<[file_key s := map src (seq 0 (Z.to_nat n)) ++ drop (Z.to_nat n) old]> m) (put_fs f k) ->
     Q tt (put_fs f k) []) -> wp (store_file s src n) Q k.
Proof.
  intros Hp Hs [Hwf Hrep] Hm Hn HQ. pose proof (key_of s Hp Hs) as Hk.
  pose proof (Ramfs.write_refines (k_fs k) m Hwf Hrep (lit s) src n 0 ltac:(lia) ltac:(lia)) as H.
  unfold Ramfs.refines, Ramfs.run_op in H. unfold store_file. apply wp_bind, wp_zoom.
  unfold wp, bind in H |- *. destruct (Ramfs.ramfs_write (lit s) src n 0 (k_fs k)) as [[[r f] o]| |]; [|done..].
  cbn in H. destruct H as (Ho & m' & Hwf' & Hrep' & Hspec). rewrite app_nil_r in Ho. subst o.
  rewrite <- Hk in Hm, HQ.
  inversion Hspec as [| | | |? ? ? ? ? _ Hbad|? ? ? ? ? c fl n' Hc _ En Hfl| | | | | |]; subst; [congruence|unfold Ramfs.RAMFS_MAX_SIZE in *; lia|].
  rewrite Hm in Hc. injection Hc as <-. rewrite Z.min_l in Hrep' by (unfold Ramfs.RAMFS_MAX_SIZE; lia).
  apply HQ. split; [done|]. cbn. unfold Ramfs.spec_write in Hrep'. change (Z.to_nat 0) with 0%nat in *.
  destruct fl; [|simpl in Hfl; lia]. cbn in Hrep'. by rewrite length_map, length_seq in Hrep'.
Qed.

(** ** Queues *)

Definition queues_are (t : list (option (Z * list (list Z * Z)))) (k : kst) : Prop :=
  Ipc.ipc_wf (k_ipc k) /\ Ipc.abs (k_ipc k) = t.
Definition put_ipc (q : list Ipc.ipc_queue) (k : kst) : kst :=
  mk_kst (k_proc k) (k_fs k) q (k_devs k) (k_ndev k) (k_objs k) (k_ai k) (legacy k).

Lemma wp_ipc_init k (Q : unit -> kst -> list Z -> Prop) : length (k_ipc k) = 8%nat ->
  Forall (fun q => length (Ipc.queue q) = 16%nat /\ Forall Ipc.msg_wf (Ipc.queue q)) (k_ipc k) ->
  (forall q o, queues_are (replicate 8 None) (put_ipc q k) -> Q tt (put_ipc q k) o) -> wp (in_ipc Ipc.ipc_init) Q k.
Proof.
  intros Hl Hq HQ. apply wp_zoom. eapply wp_mono; [by apply Ipc.ipc_init_wf|]. cbn beta.
  intros [] q o [H1 H2]. by apply HQ.
Qed.

Lemma wp_create_queue own t i k (Q : unit -> kst -> list Z -> Prop) :
  queues_are t k -> Ipc.spec_free t 0 = Some i ->
  (forall q, queues_are (<[Z.to_nat i := Some (own, [])]> t) (put_ipc q k) -> Q tt (put_ipc q k) []) ->
  wp (create_queue own) Q k.
Proof.
  intros [Hwf Ht] Hfree HQ. pose proof (Ipc.create_refines own (k_ipc k) Hwf) as H.
  unfold Ipc.refines, Ipc.run_op in H. unfold create_queue. apply wp_bind, wp_zoom.
  unfold wp, bind in H |- *. destruct (Ipc.ipc_create own (k_ipc k)) as [[[r q] o]| |]; [|done..].
  cbn in H. rewrite Ht, Hfree, app_nil_r in H. destruct H as (-> & Hwf' & [= _ Habs]). apply HQ. by split.
Qed.

(** ** The stage *)

(** The tables have the sizes of their declarations. *)
Definition tables_ok (k : kst) : Prop :=
  length (Ramfs.files (k_fs k)) = 32%nat /\ Forall (fun f => length (Ramfs.fdata f) = 4096%nat) (Ramfs.files (k_fs k)) /\
  length (k_ipc k) = 8%nat /\ Forall (fun q => length (Ipc.queue q) = 16%nat /\ Forall Ipc.msg_wf (Ipc.queue q)) (k_ipc k).

Definition empty_files : gmap (list Z) (list Z) :=
  <[file_key "user/data" := []]> (<[file_key "cmt/state" := []]> (<[file_key "ai/weights" := []]>
    (<[file_key "sys/uptime" := []]> (<[file_key "sys/info" := []]> ∅)))).
Definition three_queues : list (option (Z * list (list Z * Z))) :=
  [Some (0, []); Some (1, []); Some (2, []); None; None; None; None; None].

(** What the stage leaves. *)
Record services_up (fns : list tick_fn) (k : kst) : Prop := {
  su_files : files_are empty_files k;
  su_queues : queues_are three_queues k;
  su_devices : k_ndev k = 0 /\ k_devs k = replicate 16 0;
  su_ticks : registered (Ai.k_ticks (k_ai k)) = fns;
  su_ai : Ai.aik_wf (k_ai k) /\ Ai.ai_is_healthy (k_ai k) = true;
  su_timer : timer_callback (Ai.k_timer (k_ai k)) = Some TestTimerCallback /\ cntv_ctl (Ai.k_timer (k_ai k)) = TIMER_ENABLE;
  su_irqs : irqs (sch (k_proc k)) = true;
}.

Lemma wp_stores_stage k (Q : unit -> kst -> list Z -> Prop) : literals_padded -> tables_ok k ->
  (forall f q o, files_are empty_files (put_fs f k) -> queues_are three_queues (put_ipc q k) ->
     Q tt (mk_kst (k_proc k) f q (replicate 16 0) 0 (k_objs k) (k_ai k) (legacy k)) o) -> wp stores_stage Q k.
Proof.
  intros Hp (Hfl & Hfd & Hql & Hqd) HQ. unfold stores_stage. wp_auto. apply wp_zoom. unfold device_init. wp_auto.
  apply wp_ramfs_init; [done..|]. intros f0 o0 H0. wp_auto.
  eapply wp_create; [done|set_solver|exact H0|done|by vm_compute; lia|]. intros f1 H1. wp_auto.
  eapply wp_create; [done|set_solver|exact H1|done|by vm_compute; lia|]. intros f2 H2. wp_auto.
  eapply wp_create; [done|set_solver|exact H2|done|by vm_compute; lia|]. intros f3 H3. wp_auto.
  eapply wp_create; [done|set_solver|exact H3|done|by vm_compute; lia|]. intros f4 H4. wp_auto.
  eapply wp_create; [done|set_solver|exact H4|done|by vm_compute; lia|]. intros f5 H5. wp_auto.
  apply wp_ipc_init; [done..|]. intros q0 o' Hq0. wp_auto.
  eapply wp_create_queue; [exact Hq0|done|]. intros q1 Hq1. wp_auto.
  eapply wp_create_queue; [exact Hq1|done|]. intros q2 Hq2. wp_auto.
  eapply wp_create_queue; [exact Hq2|done|]. intros q3 Hq3. wp_auto.
  apply HQ; [exact H5|exact Hq3].
Qed.

Definition put_ai (a : Ai.aik) (k : kst) : kst :=
  mk_kst (k_proc k) (k_fs k) (k_ipc k) (k_devs k) (k_ndev k) (k_objs k) a (legacy k).

(** The engines are ready; only the AI engine asks for ticks. *)
Lemma wp_engines_stage k (Q : unit -> kst -> list Z -> Prop) :
  Ai.boot_ok (k_ai k) -> registered (Ai.k_ticks (k_ai k)) = [] ->
  (forall a o, Ai.aik_wf a -> Ai.ai_is_healthy a = true -> registered (Ai.k_ticks a) = [AiOnTick] ->
     ticks_wf (Ai.k_ticks a) -> Q tt (put_ai a k) o) ->
  wp engines_stage Q k.
Proof.
  intros Hb Hr HQ. destruct (Ai.ai_init_run (k_ai k) Hb) as (a & o & E & Hwf & Hb' & Ha & Ht).
  rewrite Hr in Ht. cbn in Ht. unfold engines_stage. wp_auto. apply wp_zoom. eapply wp_intro; [exact E|]. wp_auto.
  destruct (Cmt.cmt_init_wf (Ai.k_cmt a)) as (c & oc & Ec & Hc & _).
  apply wp_zoom. apply wp_zoom. eapply wp_intro; [exact Ec|]. wp_auto.
  apply (HQ (Ai.mk_aik (Ai.k_ai a) (Ai.k_learn a) c (Ai.k_debug a) (Ai.k_timer a) (Ai.k_ticks a))); [| |exact Ht|apply Hb'].
  - destruct Hwf as (H1 & H2 & H3 & H4). unfold Ai.aik_wf. cbn. split_and!; try done.
  - unfold Ai.ai_is_healthy. cbn. by rewrite Ha.
Qed.

(** Stage 3 from any memory: the engines are ready and the AI engine's tick function
    alone is registered, although the console says the same of the CMT engine. *)
Lemma wp_services_stage k (Q : Z * writes -> kst -> list Z -> Prop) :
  literals_padded -> tables_ok k -> Ai.boot_ok (k_ai k) -> registered (Ai.k_ticks (k_ai k)) = [] ->
  (forall w k' o, services_up [AiOnTick] k' -> ticks_wf (Ai.k_ticks (k_ai k')) -> legacy k' = legacy k ->
     tasks (sch (k_proc k')) = tasks (sch (k_proc k)) -> Q (vbar, w) k' o) -> wp services_stage Q k.
Proof.
  intros Hp Hk Hb Hr HQ.
  unfold services_stage. wp_auto. apply wp_engines_stage; [exact Hb|exact Hr|]. intros a oa Ha Hh Ht Htw. wp_auto.
  apply wp_stores_stage; [exact Hp|exact Hk|]. intros f q os Hf Hq. cbn [put_ai k_objs k_ai k_proc legacy]. wp_auto.
  unfold irq_init. apply wp_bind, wp_zoom, wp_zoom. unfold timer_init, timer_arm. wp_auto.
  apply wp_zoom, wp_zoom. unfold Sched.irq_enable. wp_auto.
  apply wp_zoom, wp_zoom. unfold timer_set_callback. wp_auto.
  apply wp_zoom, wp_zoom. unfold Cmt.cmt_set_verbose. wp_auto.
  apply HQ; [|exact Htw|done|done]. by constructor.
Qed.

(** ** The tasks *)

Lemma wp_exists_file s m k (Q : Z -> kst -> list Z -> Prop) :
  literals_padded -> s ∈ system_files -> files_are m k ->
  Q (if bool_decide (is_Some (m !! file_key s)) then 1 else 0) k [] -> wp (exists_file s) Q k.
Proof.
  intros Hp Hs [Hwf Hrep] HQ. pose proof (key_of s Hp Hs) as Hk.
  pose proof (proj1 (Ramfs.query_refines (k_fs k) m Hwf Hrep (lit s))) as H.
  unfold Ramfs.refines, Ramfs.run_op, Ramfs.ramfs_exists in H. unfold wp, bind in H. cbn in H.
  destruct H as (_ & m' & _ & _ & Hspec). inversion Hspec as [| | | | | | | | | |nm m1 E1 E2 E3|]. subst nm m1.
  unfold exists_file. apply wp_bind, wp_zoom. unfold Ramfs.ramfs_exists. wp_auto.
  rewrite <- Hk in HQ. destruct k. cbn in *.
  repeat case_bool_decide; try done; congruence.
Qed.

(** The files after [task_sysinfo] at [t] ticks and consciousness level [l]. *)
Definition sysinfo_files (t l : Z) : gmap (list Z) (list Z) :=
  <[file_key "cmt/state" := [u8 l]]> (<[file_key "ai/weights" := bytes "AI: 3-8-3 MLP, Q16.16" ++ [0]]>
    (<[file_key "sys/uptime" := map (word_view (u32 (t / 100))) (seq 0 4)]>
      (<[file_key "sys/info" := bytes "AEOS v1.0 - Ajeeb Embodied AI OS" ++ [0]]> empty_files))).

Lemma wp_task_sysinfo k (Q : unit -> kst -> list Z -> Prop) : literals_padded -> files_are empty_files k ->
  (forall f o, files_are (sysinfo_files (timer_ticks (Ai.k_timer (k_ai k))) (Cmt.c_level (Ai.k_cmt (k_ai k)))) (put_fs f k) ->
     Q tt (put_fs f k) o) -> wp task_sysinfo Q k.
Proof.
  destruct k as [kp kf ki kd kn ko [a1 a2 a3 a4 a5 a6] lg]. intros Hp H0 HQ. unfold task_sysinfo. wp_auto.
  eapply wp_store_file; [done|set_solver|exact H0|done|lia|]. intros f1 H1. wp_auto.
  apply wp_zoom, wp_zoom. unfold timer_get_ticks. wp_auto.
  eapply wp_store_file; [done|set_solver|exact H1|done|lia|]. intros f2 H2. wp_auto.
  eapply wp_store_file; [done|set_solver|exact H2|done|lia|]. intros f3 H3. wp_auto.
  unfold cmt_byte. wp_auto.
  eapply wp_store_file; [done|set_solver|exact H3|done|lia|]. intros f4 H4. wp_auto.
  apply (HQ f4). exact H4.
Qed.

(** All system files are there. *)
Definition complete (m : gmap (list Z) (list Z)) : Prop := Forall (fun s => is_Some (m !! file_key s)) system_files.

Lemma wp_devmon_round m k (Q : Z * Z -> kst -> list Z -> Prop) : literals_padded -> files_are m k -> complete m ->
  (forall o, Q (5, Z.of_nat (length (filter (fun q => Ipc.in_use q = true) (k_ipc k)))) k o) -> wp devmon_round Q k.
Proof.
  intros Hp Hf Hm HQ. assert (Hone : forall s (R : Z -> kst -> list Z -> Prop), s ∈ system_files -> R 1 k [] -> wp (exists_file s) R k).
  { intros s R Hs HR. eapply wp_exists_file; [done..|]. rewrite bool_decide_eq_true_2; [done|].
    exact (proj1 (Forall_forall _ _) Hm s Hs). }
  unfold devmon_round. do 5 (apply wp_bind, Hone; [set_solver|]). wp_auto. apply wp_zoom. unfold Ipc.ipc_queue_count. wp_auto.
  destruct k. apply HQ.
Qed.

Lemma queues_in_use k t : queues_are t k ->
  length (filter (fun q => Ipc.in_use q = true) (k_ipc k)) = length (filter is_Some t).
Proof.
  intros [_ <-]. unfold Ipc.abs. induction (k_ipc k) as [|q qs IH]; [done|]. cbn [fmap list_fmap].
  rewrite !filter_cons. assert (Hiff : is_Some (Ipc.abs_queue q) <-> Ipc.in_use q = true).
  { unfold Ipc.abs_queue. destruct (Ipc.in_use q); split; [done|by eexists|by intros [? ?]|done]. }
  destruct (decide (Ipc.in_use q = true)) as [E|E], (decide (is_Some (Ipc.abs_queue q))) as [E'|E'];
    cbn [length]; rewrite ?IH; naive_solver.
Qed.

(** Everything the monitor looks for is there. *)
Definition watched (k : kst) : Prop :=
  (exists m, files_are m k /\ complete m) /\
  length (filter (fun q => Ipc.in_use q = true) (k_ipc k)) = 3%nat.

(** The monitor reports five files and three queues in each of its five rounds, as
    long as the tasks that run in between delete none. *)
Theorem devmon_reports pause k : literals_padded -> watched k ->
  (forall i k, watched k -> wp (pause i) (fun _ k' _ => watched k') k) ->
  wp (task_devmon pause) (fun r k' _ => r = replicate 5 (5, 3) /\ watched k') k.
Proof.
  intros Hp Hk Hpause.
  assert (Hloop : forall n k (Q : list (Z * Z) -> kst -> list Z -> Prop), watched k ->
    (forall k' o, watched k' -> Q (replicate n (5, 3)) k' o) -> wp (devmon_loop pause n) Q k).
  { clear k Hk. induction n as [|n IH]; intros k Q Hk HQ; cbn [devmon_loop]; [by apply wp_ret, HQ|].
    pose proof Hk as [(m & Hf & Hm) H3]. apply wp_bind. eapply wp_devmon_round; [done..|]. intros o. rewrite H3.
    apply wp_bind. eapply wp_mono; [by apply Hpause|]. cbn beta. intros _ k1 o1 H1. apply wp_bind, IH; [done|].
    intros k2 o2 H2. apply wp_ret. by apply HQ. }
  unfold task_devmon. wp_auto. apply Hloop; [done|]. intros k' o Hk'. wp_auto. done.
Qed.

(** A round of the logger stores the current level and remembers the last action. *)
Lemma wp_ailog_round last old m k (Q : Z -> kst -> list Z -> Prop) : literals_padded -> files_are m k ->
  m !! file_key "cmt/state" = Some old ->
  (forall f o, files_are (<[file_key "cmt/state" := u8 (Cmt.c_level (Ai.k_cmt (k_ai k))) :: drop 1 old]> m) (put_fs f k) ->
     Q (Ai.ai_last_action (k_ai k)) (put_fs f k) o) -> wp (ailog_round last) Q k.
Proof.
  intros Hp Hf Hm HQ. unfold ailog_round. wp_step. wp_step. wp_step.
  assert (Hlast : forall (R : Z -> kst -> list Z -> Prop), (forall o, R (Ai.ai_last_action (k_ai k)) k o) ->
    wp (if negb (Ai.ai_last_action (k_ai k) =? last) then
       puts_nolf "  [ailog] Action changed to: " ;;; puts (Ai.ai_action_name (Ai.ai_last_action (k_ai k))) ;;;
       puts_nolf "  [ailog] Inferences: " ;;; put_dec (Ai.ai_inference_count (k_ai k)) ;;; puts "" ;;; ret (Ai.ai_last_action (k_ai k))
     else ret last) R k).
  { intros R HR. destruct (Z.eqb_spec (Ai.ai_last_action (k_ai k)) last) as [<-|]; cbn [negb]; wp_auto; apply HR. }
  apply Hlast. intros o. unfold cmt_byte. wp_auto.
  eapply wp_store_file; [done|set_solver|exact Hf|exact Hm|lia|]. intros f H. wp_auto. by apply HQ.
Qed.

Lemma sysinfo_complete t l : complete (sysinfo_files t l).
Proof. repeat constructor; by eexists. Qed.

End Services.

(** ** Stage 5 *)

Section Spawning.
(** The address of each task's function and stack, by the task's name; the
    addresses of [task_trampoline], [syscall_user_drop] and [legacy_stacks]. *)
Context (code stack : string -> Z) (trampoline drop_addr legacy_stacks : Z).

(** The scheduler registers its tick function in the registry of the engines. *)
Definition in_sched_ticks {A} (m : M (sched vmm) A) : M kst A :=
  zoom (fun k => set_registry (Ai.k_ticks (k_ai k)) (sch (k_proc k)))
    (fun c k => set_proc (set_sch c (k_proc k))
       (put_ai (Ai.mk_aik (Ai.k_ai (k_ai k)) (Ai.k_learn (k_ai k)) (Ai.k_cmt (k_ai k)) (Ai.k_debug (k_ai k))
                  (Ai.k_timer (k_ai k)) (registry c)) k)) m.

Definition task_name (s : string) : view := literal (bytes s) (fun _ => 0).
Definition say_spawned (label : string) (m : M kst Z) : M kst Z :=
  puts_nolf label ;;; let* r := m in put_dec r ;;; puts "" ;;; ret r.
Definition spawn (nm : string) (len : Z) : M kst Z :=
  in_proc (in_sched (sched_spawn trampoline (task_name nm) (code nm) (stack nm) len)).

(** Label, task, stack size. *)
Fixpoint spawn_all (l : list (string * string * Z)) : M kst (list Z) :=
  match l with
  | [] => ret []
  | (label, nm, len) :: l' =>
      let* r := say_spawned label (spawn nm len) in let* rs := spawn_all l' in ret (r :: rs)
  end.
(** [shell_start] spawns "shell". *)
Definition kernel_tasks : list (string * string * Z) :=
  [("  Spawn sysinfo: ", "sysinfo", 1024); ("  Spawn ailog: ", "ailog", 1024); ("  Spawn devmon: ", "devmon", 1024);
   ("  Spawn worker-a: ", "worker-a", 4096); ("  Spawn ai-monitor: ", "ai-mon", 4096); ("  Spawn shell: ", "shell", 4096);
   ("  Spawn producer: ", "producer", 2048); ("  Spawn consumer: ", "consumer", 2048)]%string.

(** The numbers printed. *)
Definition spawn_stage : M kst (list Z) :=
  puts "" ;;; puts "=== Stage 5: System Tasks + Scheduler + Shell ===" ;;;
  in_sched_ticks (sched_init (task_name "main")) ;;;
  in_proc (in_sched (sched_watchdog_set 600)) ;;;
  let* rs := spawn_all kernel_tasks in
  let* u := say_spawned "  Spawn user task (EL0): "
              (sched_spawn_user legacy_stacks drop_addr (task_name "user-hello") (code "user-hello") (stack "user-hello") 2048) in
  ret (rs ++ [u]).

(** The first [n] slots of the table are taken, the others unused. *)
Definition filled (n : nat) (ts : list task_struct) : Prop :=
  length ts = 16%nat /\ forall i t, ts !! i = Some t ->
    if (i <? n)%nat then state t = TASK_READY \/ state t = TASK_RUNNING else state t = TASK_UNUSED.

Lemma slot_first n ts i : (n < length ts)%nat ->
  (forall j t, ts !! j = Some t -> if (j <? n)%nat then state t = TASK_READY \/ state t = TASK_RUNNING else state t = TASK_UNUSED) ->
  slot_alloc_from ts i = i + Z.of_nat n.
Proof.
  revert n i. induction ts as [|t ts IH]; intros n i Hn Hs; [simpl in Hn; lia|]. cbn [slot_alloc_from].
  pose proof (Hs 0%nat t eq_refl) as H0. destruct n as [|n]; cbn in H0.
  - rewrite decide_True by done. lia.
  - rewrite !decide_False by (destruct H0 as [-> | ->]; done). rewrite (IH n); [lia|simpl in Hn; lia|].
    intros j u Hj. specialize (Hs (S j) u Hj). exact Hs.
Qed.

Lemma filled_slot n (s : sched vmm) : filled n (tasks s) -> (n < 16)%nat -> slot_alloc s = Z.of_nat n.
Proof. intros [Hl Hs] Hn. unfold slot_alloc. rewrite (slot_first n); [lia|lia|exact Hs]. Qed.

Lemma filled_next n ts t : filled n ts -> (n < 16)%nat -> state t = TASK_READY -> filled (S n) (<[n := t]> ts).
Proof.
  intros [Hl Hs] Hn Ht. split; [by rewrite length_insert|]. intros i u Hu.
  apply list_insert_cases in Hu as [[-> ->]|[Hne Hu]].
  - rewrite (proj2 (Nat.ltb_lt _ _)) by lia. by left.
  - specialize (Hs i u Hu). destruct (Nat.ltb_spec i n), (Nat.ltb_spec i (S n)); done || lia.
Qed.

Definition table (k : kst) : list task_struct := tasks (sch (k_proc k)).
Definition put_table (ts : list task_struct) (k : kst) : kst :=
  set_proc (set_sch (set_tasks ts (sch (k_proc k))) (k_proc k)) k.

Lemma wp_spawn nm len n k (Q : Z -> kst -> list Z -> Prop) :
  filled n (table k) -> (n < 16)%nat -> code nm <> 0 -> stack nm <> 0 -> 256 <= len ->
  (forall ts, filled (S n) ts -> Q (Z.of_nat n) (put_table ts k) []) -> wp (spawn nm len) Q k.
Proof.
  intros Hf Hn Hc Hs Hl HQ. apply wp_zoom, wp_zoom. unfold sched_spawn. wp_step. wp_step.
  rewrite (filled_slot n) by done. cbv zeta.
  rewrite (proj2 (Z.ltb_ge (Z.of_nat n) 0)), (proj2 (Z.eqb_neq _ _) Hc), (proj2 (Z.eqb_neq _ _) Hs), (proj2 (Z.ltb_ge len 256)) by lia.
  cbn [orb]. destruct (aget_in (table k) (Z.of_nat n)) as [t Ht]; [destruct Hf; lia|].
  wp_step. eapply wp_upd_task; [exact Ht|]. wp_step. rewrite Nat2Z.id. apply HQ, filled_next; done.
Qed.

Lemma wp_spawn_all l n k (Q : list Z -> kst -> list Z -> Prop) :
  Forall (fun t => code t.1.2 <> 0 /\ stack t.1.2 <> 0 /\ 256 <= t.2) l ->
  filled n (table k) -> (n + length l <= 16)%nat ->
  (forall ts o, filled (n + length l) ts -> Q (seqZ (Z.of_nat n) (Z.of_nat (length l))) (put_table ts k) o) ->
  wp (spawn_all l) Q k.
Proof.
  intros Hl. revert n k Q. induction Hl as [|[[label nm] len] l (H1 & H2 & H3) _ IH]; intros n k Q Hf Hn HQ; cbn [spawn_all].
  { apply wp_ret. cbn in HQ. rewrite Nat.add_0_r in HQ. specialize (HQ (table k) [] Hf).
    replace (put_table (table k) k) with k in HQ; [exact HQ|]. destruct k as [[? ? ? [] ?] ? ? ? ? ? ? ?]. done. }
  cbn [length fst snd] in *. unfold say_spawned. wp_auto. eapply wp_spawn; [exact Hf|lia|done..|]. intros ts Hts. wp_auto.
  apply (IH (S n)); [exact Hts|lia|]. intros ts' o' Hts'. wp_auto.
  rewrite Nat2Z.inj_succ, seqZ_cons in HQ by lia.
  replace (Z.succ (Z.of_nat n)) with (Z.of_nat (S n)) in HQ by lia. rewrite Z.pred_succ in HQ. apply HQ.
  by replace (n + S (length l))%nat with (S n + length l)%nat by lia.
Qed.

(** Files and queues are left alone. *)
Definition same_stores (k k' : kst) : Prop := k_fs k' = k_fs k /\ k_ipc k' = k_ipc k.

(** The main task alone, after [sched_init]. *)
Lemma wp_sched_init k (Q : unit -> kst -> list Z -> Prop) : length (table k) = 16%nat -> ticks_wf (Ai.k_ticks (k_ai k)) ->
  (forall k', filled 1 (table k') -> legacy k' = legacy k -> current (sch (k_proc k')) = 0 -> same_stores k k' ->
     registered (Ai.k_ticks (k_ai k')) = registered (Ai.k_ticks (k_ai k)) ++
       (if decide (length (registered (Ai.k_ticks (k_ai k))) < 4)%nat then [SchedOnTick] else []) -> Q tt k' []) ->
  wp (in_sched_ticks (sched_init (task_name "main"))) Q k.
Proof.
  intros Hl Ht HQ. apply wp_zoom. unfold sched_init. wp_auto.
  destruct (aget_in (map init_task (table k)) 0) as [t Et]; [rewrite length_map; lia|].
  eapply wp_upd_task; [exact Et|]. wp_auto. apply wp_zoom.
  destruct (tick_subscribe_appends SchedOnTick (Ai.k_ticks (k_ai k)) Ht) as (r & t' & E & _ & Hreg).
  eapply wp_intro; [exact E|]. wp_auto. apply HQ; [|done|done|done|].
  - split; [cbn; by rewrite length_insert, length_map|]. intros i u Hu. cbn in Hu.
    apply list_insert_cases in Hu as [[-> ->]|[Hne Hu]]; [by right|].
    apply list_lookup_fmap_Some in Hu as (v & -> & _). change (Z.to_nat 0) with 0%nat in Hne.
    destruct (Nat.ltb_spec i 1); [lia|done].
  - cbn. destruct Hreg as [(_ & Hlt & ->)|(_ & Heq & ->)]; case_decide; try lia; by rewrite ?app_nil_r.
Qed.

Lemma wp_spawn_user nm n k (Q : Z -> kst -> list Z -> Prop) :
  filled n (table k) -> legacy k = 0 -> (n < 16)%nat -> code nm <> 0 -> stack nm <> 0 -> 0 <= legacy_stacks < 2 ^ 63 ->
  (forall ts l, filled (S n) ts -> Q (Z.of_nat n) (mk_kst (k_proc (put_table ts k)) (k_fs k) (k_ipc k) (k_devs k) (k_ndev k)
     (k_objs k) (k_ai k) l) []) ->
  wp (sched_spawn_user legacy_stacks drop_addr (task_name nm) (code nm) (stack nm) 2048) Q k.
Proof.
  intros Hf Hleg Hn Hc Hs Hst HQ. unfold sched_spawn_user. wp_step. wp_step. rewrite Hleg. cbn [Z.geb Z.compare].
  wp_step. wp_step. apply wp_zoom, wp_zoom. cbn [k_proc].
  destruct (aget_in (table k) (Z.of_nat n)) as [t Ht]; [destruct Hf; lia|].
  pose proof (filled_slot n (sch (k_proc k)) Hf Hn) as Hslot.
  eapply wp_intro.
  { apply spawn_user_run with (t := t); [by rewrite Hslot|done| |done|lia].
    change (u64 (Z.lnot 15)) with (2 ^ 64 - 2 ^ 4). rewrite u64_small, land_mask by lia. change (2 ^ 4) with 16. zlia. }
  cbn beta. rewrite Hslot, Nat2Z.id. apply HQ, filled_next; done.
Qed.

Definition spawnable (k : kst) : Prop :=
  length (table k) = 16%nat /\ ticks_wf (Ai.k_ticks (k_ai k)) /\ (length (registered (Ai.k_ticks (k_ai k))) < 4)%nat /\ legacy k = 0.

(** No task function or stack is at address 0. *)
Context (Hcode : forall s, code s <> 0) (Hstack : forall s, stack s <> 0) (Hst : 0 <= legacy_stacks < 2 ^ 63).

(** The nine tasks get the slots 1 to 9 in the order of the calls, the main task is
    the current one, and the scheduler's tick function follows those that were
    registered. *)
Record spawned_tasks (k k' : kst) : Prop := {
  st_table : filled 10 (table k');
  st_current : current (sch (k_proc k')) = 0;
  st_ticks : registered (Ai.k_ticks (k_ai k')) = registered (Ai.k_ticks (k_ai k)) ++ [SchedOnTick];
  st_stores : same_stores k k';
}.

Lemma wp_spawn_stage k (Q : list Z -> kst -> list Z -> Prop) : spawnable k ->
  (forall k' o, spawned_tasks k k' -> Q (seqZ 1 9) k' o) -> wp spawn_stage Q k.
Proof.
  intros (Hl & Ht & Hreg & Hleg) HQ.
  unfold spawn_stage. wp_auto. apply wp_sched_init; [done..|]. intros k1 Hf Hleg1 Hcur Hsame Hr1. wp_auto.
  apply wp_zoom, wp_zoom. unfold sched_watchdog_set. wp_auto.
  eapply (wp_spawn_all kernel_tasks 1); [|exact Hf|cbn; lia|].
  { unfold kernel_tasks.
    repeat (apply Forall_cons; split; [cbn; split_and!; [apply Hcode|apply Hstack|lia]|]). by apply Forall_nil. }
  intros ts o Hts. wp_auto. unfold say_spawned. wp_auto.
  eapply wp_spawn_user; [exact Hts|cbn; by rewrite Hleg1|cbn; lia|done|done|done|].
  intros ts' n Hts'. wp_auto. change (seqZ 1 9) with (seqZ (Z.of_nat 1) (Z.of_nat (length kernel_tasks)) ++ [Z.of_nat 9]) in HQ.
  apply HQ. split; [exact Hts'|exact Hcur| |exact Hsame]. cbn. by rewrite Hr1, decide_True.
Qed.
End Spawning.

(** ** The boot of the services *)

Section Boot.
Context (behind : string -> view) (vbar : Z) (code stack : string -> Z) (trampoline drop_addr legacy_stacks : Z).

(** Stages 3 and 5, then the first turns of [task_sysinfo] and [task_devmon]. *)
Definition bring_up_services : M kst (list Z * (Z * Z)) :=
  services_stage behind vbar ;;;
  let* slots := spawn_stage code stack trampoline drop_addr legacy_stacks in
  task_sysinfo behind ;;;
  let* counts := devmon_round behind in
  ret (slots, counts).

End Boot.

