(* ===== verification/User.v ===== *)
(** * The user's side of the system calls (kernel/syscall.h)

    Each wrapper loads the argument registers and the call number, traps, and
    returns x0.  [svc] is the trap: the frame of thirty-one registers goes through
    [syscall_dispatch].  What the other registers hold when the wrapper is called
    is a parameter, [regs]. *)

From S2P Require Import Prelude Uart Tick Vmm Sched Proc Device Syscall.
From S2P Require Ramfs Ipc Ai.

(** A [long]. *)
Definition i64 (x : Z) : Z := sgn 64 x.

Section User.
Context (kernel_pgd : Z) (call : Z -> Z -> list Z -> M (devtab pstate) Z) (others : nat -> M pstate unit) (fuel : nat).
Context (regs : list Z).

(** Registers x0 to x3 and x8 loaded over [regs]; a [long] argument is kept modulo
    2^64.  A wrapper that leaves an argument register alone keeps its value. *)
Definition args (a : list Z) (num : Z) : list Z := <[8%nat := num]> (map u64 a ++ drop (length a) regs).

(** The value of x0 when the call comes back; a call that does not return, or that
    switches to another task first, is the outcome. *)
Definition svc (a : list Z) (num : Z) : M kst (outcome * Z) :=
  let* r := syscall_dispatch kernel_pgd call others fuel (args a num) in ret (r.1, reg r.2 0).
(** [return x0;] and [return (int)x0;] *)
Definition svc_long (a : list Z) (num : Z) : M kst Z := let* r := svc a num in ret (i64 r.2).
Definition svc_int (a : list Z) (num : Z) : M kst Z := let* r := svc a num in ret (i32 r.2).

Definition sys_print_ (s : Z) : M kst Z := svc_long [s] SYS_PRINT.
Definition sys_ticks_ : M kst Z := svc_long [] SYS_TICKS.
Definition sys_yield_ : M kst outcome := let* r := svc [] SYS_YIELD in ret r.1.
Definition sys_exit_ (code : Z) : M kst outcome := let* r := svc [code] SYS_EXIT in ret r.1.
Definition sys_getpid_ : M kst Z := svc_int [] SYS_GETPID.
Definition sys_waitpid_ (pid code_out : Z) : M kst Z := svc_int [pid; code_out] SYS_WAITPID.
Definition sys_read_ (fd buf len : Z) : M kst Z := svc_long [fd; buf; len] SYS_READ.
Definition sys_write_ (fd buf len : Z) : M kst Z := svc_long [fd; buf; len] SYS_WRITE.
Definition sys_open_ (name : Z) : M kst Z := svc_int [name] SYS_OPEN.
Definition sys_close_ (fd : Z) : M kst unit := let* _ := svc [fd] SYS_CLOSE in ret tt.
Definition sys_ioctl_ (fd cmd arg : Z) : M kst Z := svc_long [fd; cmd; arg] SYS_IOCTL.
Definition sys_create_ (name : Z) : M kst Z := svc_int [name] SYS_CREATE.
Definition sys_delete_ (name : Z) : M kst Z := svc_int [name] SYS_DELETE.
Definition sys_ipc_create_ (owner : Z) : M kst Z := svc_int [owner] SYS_IPC_CREATE.
Definition sys_ipc_send_ (qid data len sender : Z) : M kst Z := svc_int [qid; data; len; sender] SYS_IPC_SEND.
Definition sys_ipc_recv_ (qid buf len sender : Z) : M kst Z := svc_int [qid; buf; len; sender] SYS_IPC_RECV.
Definition sys_ipc_destroy_ (qid : Z) : M kst Z := svc_int [qid] SYS_IPC_DESTROY.

(** ** What the kernel sees *)

Context (Hregs : length regs = 31%nat).

Lemma args_length a num : (length a <= 31)%nat -> length (args a num) = 31%nat.
Proof. intros Ha. unfold args. rewrite length_insert, length_app, length_map, length_drop, Hregs. lia. Qed.

Lemma args_num a num : (length a <= 4)%nat -> reg (args a num) 8 = num.
Proof.
  intros Ha. unfold reg, args. apply nth_lookup_Some, list_lookup_insert_eq.
  rewrite length_app, length_map, length_drop. lia.
Qed.

Lemma args_arg a num i : (i < length a <= 4)%nat -> reg (args a num) i = u64 (nth i a 0).
Proof.
  intros Ha. unfold reg, args. rewrite nth_lookup, list_lookup_insert_ne by lia.
  rewrite lookup_app_l by (rewrite length_map; lia). rewrite list_lookup_fmap.
  destruct (lookup_lt_is_Some_2 a i ltac:(lia)) as [x Hx]. by rewrite Hx, (nth_lookup_Some _ _ _ _ Hx).
Qed.

Lemma result_x0 a num v : (length a <= 4)%nat -> reg (set_x0 (args a num) v) 0 = u64 v.
Proof.
  intros Ha. unfold reg, set_x0. apply nth_lookup_Some, list_lookup_insert_eq. rewrite args_length; lia.
Qed.

(** A call whose service ends with [done_with]: the service's result comes back. *)
Lemma svc_result {A} a num (m : M kst Z) (conv : Z -> A) k : (length a <= 4)%nat ->
  syscall_dispatch kernel_pgd call others fuel (args a num) k = (let* v := m in done_with (args a num) v) k ->
  (let* r := svc a num in ret (conv r.2)) k = (let* v := m in ret (conv (u64 v))) k.
Proof.
  intros Ha E. unfold svc, done_with in *. unfold bind in *. rewrite E.
  destruct (m k) as [[[v k'] o]| |]; [|done..]. cbn [ret fst snd]. cbv [ret]. cbn [fst snd].
  by rewrite result_x0, !app_nil_r.
Qed.

Lemma bind_assoc {S A B C} (m : M S A) (f : A -> M S B) (g : B -> M S C) k :
  bind (bind m f) g k = bind m (fun a => bind (f a) g) k.
Proof.
  unfold bind. destruct (m k) as [[[a k1] o1]| |]; [|done..]. destruct (f a k1) as [[[b k2] o2]| |]; [|done..].
  destruct (g b k2) as [[[c k3] o3]| |]; [|done..]. by rewrite app_assoc.
Qed.

Lemma i32_u64 x : i32 (u64 x) = i32 x.
Proof.
  unfold i32, sgn, u64. change (2 ^ 64) with (2 ^ 32 * 2 ^ 32).
  rewrite <- (Z.mod_mod_divide x (2 ^ 32 * 2 ^ 32) (2 ^ 32)) by (by exists (2 ^ 32)). done.
Qed.
Lemma u32_u64 x : u32 (u64 x) = u32 x.
Proof. unfold u32, u64. apply Z.mod_mod_divide. by exists (2 ^ 32). Qed.
Lemma i64_u64 x : i64 (u64 x) = i64 x.
Proof. unfold i64, sgn, u64. by rewrite Z.mod_mod. Qed.

(** [int] and [uint32_t] arguments arrive as they were. *)
Definition is_int (x : Z) : Prop := - 2 ^ 31 <= x < 2 ^ 31.
Definition is_ptr (x : Z) : Prop := 0 <= x < 2 ^ 64.
Definition is_u32 (x : Z) : Prop := 0 <= x < 2 ^ 32.

(** The branch of the dispatcher for a call number. *)
Ltac choose_call :=
  repeat match goal with
  | |- context [?a =? ?b] => let v := eval compute in (a =? b) in change (a =? b) with v; cbv iota
  end.

(** Through the gate: the service [m] with the wrapper's own arguments. *)
Ltac through m :=
  etrans; [apply (svc_result _ _ m); [cbn; lia|]|];
  [unfold syscall_dispatch; rewrite args_num by (cbn; lia);
   choose_call; rewrite ?args_arg by (cbn; lia); cbn [nth] | ].

Lemma ioctl_call fd cmd arg k : is_int fd -> is_u32 cmd -> is_u32 arg ->
  sys_ioctl_ fd cmd arg k = (let* d := in_proc (proc_fd_get fd) in
    if negb (d =? 0) then let* r := in_dev (device_ioctl call d cmd arg) in ret (i64 r) else ret (-1)) k.
Proof.
  intros Hf Hc Ha. unfold sys_ioctl_, svc_long.
  through (let* d := in_proc (proc_fd_get fd) in
    if negb (d =? 0) then in_dev (device_ioctl call d cmd arg) else ret (-1)).
  - unfold sys_ioctl. rewrite !args_arg by (cbn; lia). cbn [nth]. rewrite i32_u64, !u32_u64, i32_small, !u32_small by done.
    rewrite bind_assoc. apply bind_ext. intros d k1 o1 _. by destruct (negb (d =? 0)).
  - rewrite bind_assoc. apply bind_ext. intros d k1 o1 _. destruct (negb (d =? 0)); [|done].
    apply bind_ext. intros r k2 o2 _. by rewrite i64_u64.
Qed.

(** The reading of a pointer argument that is refused outside the user windows. *)
Definition checked (ok : bool) (m : M kst Z) : M kst Z := if ok then m else ret (-1).

Lemma file_call op num name k :
  (num = SYS_CREATE /\ op = Ramfs.ramfs_create \/ num = SYS_DELETE /\ op = Ramfs.ramfs_delete) -> is_ptr name ->
  svc_int [name] num k = checked (is_user_ptr_simple name) (let* nm := load_name name in let* r := in_fs (op nm) in ret (i32 r)) k.
Proof.
  intros Hn Hp. unfold svc_int.
  etrans; [apply (svc_result _ _ (checked (is_user_ptr_simple name) (let* nm := load_name name in in_fs (op nm)))); [cbn; lia|]|].
  - transitivity (sys_ramfs op (args [name] num) k).
    { unfold syscall_dispatch. rewrite args_num by (cbn; lia). by destruct Hn as [[-> ->]|[-> ->]]. }
    unfold sys_ramfs, checked. rewrite !args_arg by (cbn; lia). cbn [nth]. rewrite u64_small by done.
    destruct (is_user_ptr_simple name); cbn [negb]; [|done]. by rewrite bind_assoc.
  - unfold checked. destruct (is_user_ptr_simple name); [|done]. rewrite bind_assoc.
    apply bind_ext. intros nm k1 o1 _. apply bind_ext. intros r k2 o2 _. by rewrite i32_u64.
Qed.

Lemma open_call name k : is_ptr name ->
  sys_open_ name k = checked (is_user_ptr_simple name) (let* nm := load_name name in let* d := in_dev (device_open call nm) in
    if negb (d =? 0) then let* fd := in_proc (proc_fd_alloc d) in ret (i32 fd) else ret (-1)) k.
Proof.
  intros Hp. unfold sys_open_, svc_int.
  through (checked (is_user_ptr_simple name) (let* nm := load_name name in let* d := in_dev (device_open call nm) in
    if negb (d =? 0) then in_proc (proc_fd_alloc d) else ret (-1))).
  - unfold sys_open, checked. rewrite !args_arg by (cbn; lia). cbn [nth]. rewrite u64_small by done.
    destruct (is_user_ptr_simple name); cbn [negb]; [|done]. rewrite bind_assoc. apply bind_ext. intros nm k1 o1 _.
    rewrite bind_assoc. apply bind_ext. intros d k2 o2 _. by destruct (negb (d =? 0)).
  - unfold checked. destruct (is_user_ptr_simple name); [|done]. rewrite bind_assoc. apply bind_ext. intros nm k1 o1 _.
    rewrite bind_assoc. apply bind_ext. intros d k2 o2 _. destruct (negb (d =? 0)); [|done].
    apply bind_ext. intros r k3 o3 _. by rewrite i32_u64.
Qed.

Lemma rw_call op num fd buf len k :
  (num = SYS_READ /\ op = device_read call \/ num = SYS_WRITE /\ op = device_write call) ->
  is_int fd -> is_ptr buf -> is_u32 len ->
  svc_long [fd; buf; len] num k = checked (is_user_ptr buf len) (let* d := in_proc (proc_fd_get fd) in
    if negb (d =? 0) then let* r := in_dev (op d buf len) in ret (i64 r) else ret (-1)) k.
Proof.
  intros Hn Hf Hb Hl. unfold svc_long.
  etrans; [apply (svc_result _ _ (checked (is_user_ptr buf len) (let* d := in_proc (proc_fd_get fd) in
    if negb (d =? 0) then in_dev (op d buf len) else ret (-1)))); [cbn; lia|]|].
  - transitivity (sys_rw op (args [fd; buf; len] num) k).
    { unfold syscall_dispatch. rewrite args_num by (cbn; lia). by destruct Hn as [[-> ->]|[-> ->]]. }
    unfold sys_rw, checked. rewrite !args_arg by (cbn; lia). cbn [nth].
    rewrite u32_u64, i32_u64, u64_small, u32_small, i32_small by done.
    destruct (is_user_ptr buf len); cbn [negb]; [|done]. rewrite bind_assoc. apply bind_ext. intros d k1 o1 _.
    by destruct (negb (d =? 0)).
  - unfold checked. destruct (is_user_ptr buf len); [|done]. rewrite bind_assoc. apply bind_ext. intros d k1 o1 _.
    destruct (negb (d =? 0)); [|done]. apply bind_ext. intros r k2 o2 _. by rewrite i64_u64.
Qed.

Lemma queue_calls own qid k : is_u32 own -> is_int qid ->
  sys_ipc_create_ own k = (let* r := in_ipc (Ipc.ipc_create own) in ret (i32 r)) k /\
  sys_ipc_destroy_ qid k = (let* r := in_ipc (Ipc.ipc_destroy qid) in ret (i32 r)) k.
Proof.
  intros Ho Hq. unfold sys_ipc_create_, sys_ipc_destroy_, svc_int. split.
  - through (in_ipc (Ipc.ipc_create own)); [by rewrite u32_u64, u32_small|].
    apply bind_ext. intros r k1 o1 _. by rewrite i32_u64.
  - through (in_ipc (Ipc.ipc_destroy qid)); [by rewrite i32_u64, i32_small|].
    apply bind_ext. intros r k1 o1 _. by rewrite i32_u64.
Qed.

Lemma query_calls k :
  sys_ticks_ k = (let* t := in_ai (Ai.in_timer timer_get_ticks) in ret (i64 t)) k /\
  sys_getpid_ k = (let* p := in_proc proc_getpid in ret (i32 p)) k.
Proof.
  unfold sys_ticks_, sys_getpid_, svc_int, svc_long. split.
  - through (in_ai (Ai.in_timer timer_get_ticks)); [done|]. apply bind_ext. intros t k1 o1 _. by rewrite i64_u64.
  - through (in_proc proc_getpid); [done|]. apply bind_ext. intros p k1 o1 _. by rewrite i32_u64.
Qed.

Lemma close_call fd k : is_int fd -> sys_close_ fd k = (in_proc (proc_fd_close fd) ;;; ret tt) k.
Proof.
  intros Hf. unfold sys_close_.
  etrans; [apply (svc_result [fd] SYS_CLOSE (in_proc (proc_fd_close fd) ;;; ret 0) (fun _ => tt)); [cbn; lia|]|].
  - unfold syscall_dispatch. rewrite args_num by (cbn; lia). choose_call.
    rewrite args_arg by (cbn; lia). cbn [nth]. rewrite bind_assoc, i32_u64, i32_small by done. done.
  - by rewrite bind_assoc.
Qed.

End User.

