(* ===== verification/Demo.v ===== *)
(** * Waiting and the parallel jobs (boot/aarch64/kernel.c)

    [spin_ms] reads the clock until enough of it has passed; the clock moves only
    when a timer interrupt comes in between, so what happens between two reads is a
    parameter.  [ap_burn] is the job of stage 8, [smp_stage] the boot core's wait for
    two of them. *)

From S2P Require Import Prelude Uart Tick.

(** ** Busy waiting *)

Section Spin.
(** A kernel state with a timer in it, and what the interrupts between two reads
    of the clock do. *)
Context {K : Type} (tm : K -> timer) (set_tm : timer -> K -> K) (between : nat -> M K unit).

Definition clock : M K Z := zoom tm set_tm timer_get_ms.

Fixpoint spin_loop (start ms : Z) (k fuel : nat) : M K unit :=
  match fuel with
  | O => fun _ => NoFuel
  | S fuel' =>
      let* now := clock in
      if u64 (now - start) <? ms then between k ;;; spin_loop start ms (S k) fuel' else ret tt
  end.
Definition spin_ms (ms : Z) (fuel : nat) : M K unit := let* start := clock in spin_loop start ms 0 fuel.

Definition ticks_of (s : K) : Z := timer_ticks (tm s).

(** One tick comes in between two reads. *)
Context (Hset : forall s, set_tm (tm s) s = s).
Context (Hbetween : forall k s, wp (between k) (fun _ s' _ => ticks_of s' = ticks_of s + 1) s).

Lemma wp_clock s (Q : Z -> K -> list Z -> Prop) : Q (u64 (ticks_of s * 10)) s [] -> wp clock Q s.
Proof. intros HQ. apply wp_zoom. unfold timer_get_ms. wp_auto. by rewrite Hset. Qed.

Lemma wp_spin_loop ms t0 k n s (Q : unit -> K -> list Z -> Prop) :
  0 <= t0 -> t0 <= ticks_of s -> ticks_of s + Z.of_nat n < 2 ^ 60 -> 0 <= ms ->
  ms <= 10 * (ticks_of s + Z.of_nat n - t0) -> (n = 0%nat \/ 10 * (ticks_of s + Z.of_nat n - 1 - t0) < ms) ->
  (forall s' o, ticks_of s' = ticks_of s + Z.of_nat n -> Q tt s' o) -> wp (spin_loop (t0 * 10) ms k (S n)) Q s.
Proof.
  revert k s Q. induction n as [|n IH]; intros k s Q H0 H1 H2 Hms Hlo Hhi HQ;
    cbn [spin_loop]; fold (spin_loop (t0 * 10) ms); apply wp_bind, wp_clock; rewrite (u64_small (ticks_of s * 10)), u64_small by lia.
  - destruct (_ <? _) eqn:E; bool_hyps; [lia|]. apply wp_ret, HQ. lia.
  - destruct (_ <? _) eqn:E; bool_hyps; [|lia]. apply wp_bind. eapply wp_mono; [apply Hbetween|]. cbn beta.
    intros _ s1 o1 E1. apply IH; try lia. intros s' o' Es. apply HQ. lia.
Qed.

(** [spin_ms] returns, and after exactly the ticks that make up [ms] milliseconds at
    a hundred ticks a second, rounded up - whatever the rate of the timer is. *)
Theorem spin_ms_waits ms s (n : nat) : 0 <= ticks_of s < 2 ^ 59 -> 0 <= ms < 2 ^ 32 -> Z.of_nat n = (ms + 9) / 10 ->
  wp (spin_ms ms (S n)) (fun _ s' _ => ticks_of s' = ticks_of s + (ms + 9) / 10) s.
Proof.
  intros Hs Hms Hn. unfold spin_ms. apply wp_bind, wp_clock.
  rewrite u64_small by lia. apply wp_spin_loop; zlia.
Qed.
End Spin.

(** ** The job of stage 8 *)

(** [for (i = 0; i < 150000; i++) acc += i * id;] *)
Fixpoint burn_loop (id i acc : Z) (n : nat) : Z :=
  match n with O => acc | S n' => burn_loop id (i + 1) (u64 (acc + u64 (i * id))) n' end.
Definition ap_burn (id : Z) : Z := burn_loop id 0 0 (Z.to_nat 150000).

Lemma burn_loop_sum id n : forall i acc, 0 <= acc < 2 ^ 64 ->
  burn_loop id i acc n = u64 (acc + id * (Z.of_nat n * i + Z.of_nat n * (Z.of_nat n - 1) / 2)).
Proof.
  induction n as [|n IH]; intros i acc Ha; cbn [burn_loop].
  { rewrite Z.mul_0_l. change (0 * (Z.of_nat 0 - 1) / 2) with 0. rewrite Z.add_0_r, Z.mul_0_r, Z.add_0_r. by rewrite u64_small. }
  rewrite IH by apply u64_range. unfold u64. rewrite Zplus_mod_idemp_l, <- Z.add_assoc, <- Zplus_mod_idemp_r.
  rewrite Zplus_mod_idemp_l. rewrite Zplus_mod_idemp_r. f_equal. f_equal.
  assert (E : Z.of_nat (S n) * (Z.of_nat (S n) - 1) / 2 = Z.of_nat n * (Z.of_nat n - 1) / 2 + Z.of_nat n).
  { replace (Z.of_nat (S n) * (Z.of_nat (S n) - 1)) with (Z.of_nat n * (Z.of_nat n - 1) + Z.of_nat n * 2) by lia.
    by rewrite Z.div_add by lia. }
  rewrite E. lia.
Qed.

(** The job's result is the sum in closed form, modulo 2^64. *)
Theorem ap_burn_sum id : ap_burn id = u64 (id * 11249925000).
Proof. unfold ap_burn. rewrite burn_loop_sum by lia. rewrite Z2Nat.id by lia. reflexivity. Qed.
#[local] Opaque ap_burn.

(** What the boot core prints for the two jobs. *)
Corollary burn_results : Z.land (ap_burn 1000) 0xFFFF = 35648 /\ Z.land (ap_burn 2000) 0xFFFF = 5760.
Proof. rewrite (ap_burn_sum 1000), (ap_burn_sum 2000). split; reflexivity. Qed.

(** ** Waiting for the jobs *)

Section Jobs.
(** The two [ap_burn_done] flags and results as the boot core reads them at its
    [k]th look, and its pause of ten milliseconds and a yield. *)
Context {K : Type} (flags : nat -> bool * bool) (results : Z * Z) (pause : nat -> M K unit).

(** [while ((!ap_burn_done[0] || !ap_burn_done[1]) && wait < 300)]; [k] is [wait]. *)
Fixpoint wait_jobs (k fuel : nat) : M K nat :=
  match fuel with
  | O => fun _ => NoFuel
  | S fuel' =>
      if (negb (flags k).1 || negb (flags k).2) && (k <? 300)%nat then pause k ;;; wait_jobs (S k) fuel' else ret k
  end.

(** Stage 8 after [smp_init], with [online] secondary cores; the jobs are submitted
    by [submit]. *)
Definition smp_stage (online : Z) (submit : Z -> M K unit) (fuel : nat) : M K (option nat) :=
  if online >? 0 then
    submit 1000 ;;; submit 2000 ;;;
    let* k := wait_jobs 0 fuel in
    let d := flags (S k) in
    puts_nolf "[smp] parallel jobs done: " ;;; put_dec ((if d.1 then 1 else 0) + (if d.2 then 1 else 0)) ;;; puts "/2" ;;;
    puts_nolf "[smp] results: " ;;; put_dec (Z.land results.1 0xFFFF) ;;; puts_nolf " / " ;;;
    put_dec (Z.land results.2 0xFFFF) ;;; puts "" ;;;
    ret (Some k)
  else puts "  [smp] single-core boot - skipping demo" ;;; ret None.

Lemma wp_wait_jobs k n s (Q : nat -> K -> list Z -> Prop) : (k + n = 300)%nat ->
  (forall i s, wp (pause i) (fun _ _ _ => True) s) ->
  (forall j s o, (k <= j <= 300)%nat -> (flags j = (true, true) \/ j = 300%nat) ->
     (forall i, (k <= i < j)%nat -> flags i <> (true, true)) -> Q j s o) -> wp (wait_jobs k (S n)) Q s.
Proof.
  revert k s Q. induction n as [|n IH]; intros k s Q Hk Hp HQ; cbn [wait_jobs].
  - replace k with 300%nat in * by lia. rewrite andb_false_r. apply wp_ret, HQ; [lia|by right|lia].
  - rewrite (proj2 (Nat.ltb_lt k 300)), andb_true_r by lia. destruct (flags k) as [a b] eqn:E. cbn [fst snd].
    destruct (negb a || negb b) eqn:Eab.
    + apply wp_bind. eapply wp_mono; [apply Hp|]. cbn beta. intros _ s1 o1 _. apply IH; [lia|done|].
      intros j s2 o2 Hj Hd Hb. apply HQ; [lia|done|]. intros i Hi. destruct (decide (i = k)) as [->|]; [|apply Hb; lia].
      rewrite E. intros [= -> ->]. done.
    + destruct a, b; try done. apply wp_ret, HQ; [lia|by left|lia].
Qed.

(** The boot core waits exactly until it sees both flags, and at most 300 rounds:
    it never hangs on a core that does not answer. *)
Theorem smp_stage_returns online submit s : (forall a s, wp (submit a) (fun _ _ _ => True) s) ->
  (forall i s, wp (pause i) (fun _ _ _ => True) s) ->
  wp (smp_stage online submit 301) (fun r _ _ => match r with
    | None => online <= 0
    | Some k => (k <= 300)%nat /\ (flags k = (true, true) \/ k = 300%nat) /\ forall i, (i < k)%nat -> flags i <> (true, true)
    end) s.
Proof.
  intros Hs Hp. unfold smp_stage. destruct (online >? 0) eqn:E; bool_hyps; [|wp_auto; lia].
  do 2 (apply wp_bind; eapply wp_mono; [apply Hs|]; cbn beta; intros _ ? ? _).
  apply wp_bind, (wp_wait_jobs 0 300); [done|done|]. intros j s2 o2 Hj Hd Hb. wp_auto.
  split; [lia|]. split; [done|]. intros i Hi. apply Hb. lia.
Qed.
End Jobs.
